(* ===== verification/_CoqProject ===== *)
-Q . S2P
Prelude.v
Config.v
Memory.v
Strings.v
Machine.v
Console.v
Invariants.v
Kheap.v
Paging.v
AddressSpace.v
Blocks.v
Disk.v
Path.v
File.v
Fat16.v
Volume.v
Session.v
Mount.v
FirstRead.v
Gdt.v
Kernel.v
Elf.v
Task.v
TaskList.v
TaskLife.v
Scheduler.v
Process.v
ProcTable.v
Arguments.v
ElfBounds.v
ProcessImage.v
Idt.v
Keyboard.v
KeyBuffer.v
Syscall.v
Interrupts.v
UserMemory.v
ProcessExit.v
SyscallEntry.v
SyscallMmap.v
ProcLife.v
Faults.v
SyscallExit.v
Boot.v
SelfTests.v
Ustring.v
UserLib.v
UserHeap.v
KernelMemory.v
UserText.v
Shell.v
ShellCommand.v
Blank.v
