(* ===== verification/Prelude.v ===== *)
(** * AmogOS: a verification development

    AmogOS is a small i386 kernel (src/src/) with a user library and two
    programs (src/programs/).  The kernel starts in kernel_main (kernel.c): it
    builds the heap, the file system, the descriptor tables and the first
    process, the shell, and leaves for user code.  From then on it runs in
    interrupts: the clock switches tasks, the keyboard fills the buffer of a
    process, and int 0x80 enters the system calls.

    ** The model

    A C function on kernel memory is a computation [M state A] (below): state
    passing, with the outcomes [Ret] (it returns), [Panic] (panic of kernel.c,
    or a fault), [User] (task_return leaves for user code) and [Spin] (a loop
    used up its fuel).  RAM is a finite map from addresses to bytes; heap
    objects, page tables, the tables of processes and of interrupt gates, the
    TSS, the GDT and the local structures that the code passes by address are in
    it, at the offsets of the C structures.  The other statics are fields of the
    state: those of kheap.c and console.c ([machine]), [disk] of disk.c (its
    address is a number that the code passes on, and every access goes to a
    field by name), the tables of file.c, and the pointers and flags of task.c,
    paging.c and idt.c (see "Where things are in memory").  An integer is a [Z]
    with its wrap-around written out.
    [wp m s Q] is total correctness: [m] returns and [Q] holds.

    What the sources do not define is a parameter: the disk and its timing, and
    the addresses of statics and buffers ([Platform] of Disk.v); the operations
    of a file system behind a pointer ([FileSystems] of File.v); the addresses
    of the rest of the kernel image ([Layout] of Kernel.v); the kernel, as user
    code sees it ([OS] of UserLib.v, with its promises [OSLaws] of UserHeap.v);
    the addresses of literals and frames of a user program ([ProgramLayout] of
    Shell.v).

    ** Files and components

    - Prelude: machine integers, RAM, the monad, [wp], tactics.  Config: the
      constants of config.h and status.h.
    - Memory (memory/memory.c), Strings (lib/string/string.c), Machine and
      Console (console/console.c): primitives on RAM.  Invariants: the assumed
      invariants of invariants.h, as the code checks them.
    - Kheap (memory/heap/kheap.c): the block table and the allocator.  Blocks:
      what its users need of it.
    - Paging (memory/paging/paging.c): page directories, with the walk of the
      MMU [mmu_walk] as the reference.  AddressSpace: the theorems on
      translation, isolation and release.
    - Disk (disk/disk.c, disk/streamer.c), Path (fs/utils.c), File
      (fs/file.c), Fat16 (fs/fat/fat16.c): storage, from ports to files.
      Volume: what the operations of fat16.c do on a mounted volume.  Session:
      the file layer on such a volume.  Mount: how the volume comes to be.
      FirstRead: both together.
    - Gdt (gdt/gdt.c, the tables of kernel.c), Kernel (the state of the running
      kernel, and the accessors of task.h and process.h), Elf
      (loader/elfloader.c) with ElfBounds.
    - Task (task/task.c) with TaskList (the invariant of the list), TaskLife
      (creation, release) and Scheduler.
    - Process (task/process.c) with ProcTable (lookup, waiting, loading),
      ProcessImage (its address space), Arguments (the stack it starts on),
      ProcessExit (munmap and exit) and ProcLife (exit, then wait).
    - Idt, Interrupts (idt/idt.c, idt/idt.asm) with Faults (exceptions),
      Keyboard (dev/keyboard.c, dev/ps2.c) with KeyBuffer, Syscall (syscall/)
      with UserMemory (mmap), SyscallEntry (the way in, the arguments, the way
      back; munmap), SyscallMmap and SyscallExit; Boot (kernel.c); SelfTests
      (the tests that the kernel carries).
    - Ustring, UserLib (programs/stdlib) with UserHeap and UserText;
      KernelMemory (the user heap on the kernel); Shell (programs/shell) with
      ShellCommand; Blank (programs/blank).

    ** Theorems

    - The heap refines an abstract allocator: [kmalloc_correct] and
      [kfree_correct] say which blocks are taken, in terms of the runs that the
      table describes: the first place at which the request fits, or a failure
      that leaves the table as it was when it fits nowhere.
    - Address spaces: [map_region_translates] and [create_4gb_identity] give
      the translation after each operation, the second one exactly when 1025
      blocks are free; [map_region_isolated] that no other
      address space changes; [free_page_table_releases] that the memory of the
      tables comes back.
    - Storage: reads of sectors and streams return the bytes of the disk
      ([disk_read_sectors_correct], [disk_stream_read_correct]); paths parse to
      what they spell ([parse_path_correct], [parse_free_roundtrip]).
      [mount_ready] shows that fs_init and disk_init establish the predicate
      [fat_files], a mounted volume with its root directory as it is on the
      disk; [kfopen_finds_file] and [file_session] start from it: a name is
      looked up as [dir_find] does, and a file that is opened, read and closed
      delivers the bytes of its first cluster and leaves the descriptors as they
      were.  [boot_reads_file] puts them together in terms of the disk alone.
      They are about files of the root directory, reads inside the first cluster
      and a root directory of at most 128 entries, which is one block of the
      heap (boot/boot.asm gives it 64).  Numbers that are
      no open descriptor are rejected, others reach the operation of their file
      system, and positions stay inside the file
      ([closed_descriptor_rejected], [seek_stays_inside]); on any disk the
      streamer passes its own test ([disk_streamer_test_passes]).
    - Tasks and processes: [task_new_correct] keeps the list invariant and
      succeeds exactly when 1026 blocks are free;
      [run_any_first_ready] and [clock_round_robin] say which task runs next,
      with which registers and address space; [elf_extent_correct],
      [process_image_mapped] and [arguments_on_stack] prepare a process: its
      file, its address space and its stack; [waitpid_correct] says that exactly
      the zombie children are reaped, [exit_wait_releases] what the end of a
      process and waiting for it give back.
    - Entry: [syscall_dispatch]; [mmap_system_call], [munmap_system_call] and
      [exit_system_call] follow a call from int 0x80 to the user code that goes
      on; [exception_ends_process] does so for a fault; [keyboard_fifo];
      [console_refines_tape], the console as a tape of cells while it writes
      above the kernel image; [gdt_roundtrip], which also says which limits are
      refused.
    - User code: [user_heap_invariant] on every state that a program reaches,
      and [user_heap_in_memory], which puts that heap on the kernel: the
      promises [OSLaws] hold of the real mmap, and blocks of the heap are
      different bytes of physical memory; [strtok_tokens],
      [itoa_atoi_roundtrip]; [shell_passes_arguments] shows that a line that is
      no built-in command becomes one system call, and that what the shell hands
      to the kernel has the form that [arguments_on_stack] asks for (the
      predicate [args_at] of Strings).
    - Defects of the code: [kzalloc_failure_frees_heap] and [clock_scan_hangs]
      as theorems; [kmalloc_overruns_heap], [map_region_narrows_slot],
      [fat_entry_reads_two], [deleted_entry_hides_file],
      [zero_base_lost], [malloc_wraps], [binary_fallback_dead],
      [keyboard_replays] and a few others in Kheap, File and Fat16 as lemmas.

    ** Where things are in memory

    The image of the kernel is linked at 1 MB ([IMAGE_ADDR], linker.ld), its
    stacks are below 6 MB, the table of the heap is at 0x7E00 and the heap at
    16 MB.  Placement hypotheses ask only that a static or a stack frame is
    outside of the heap and its table ([off_heap]; [procs_placed],
    [proc_placed], [vmem_placed], [startable], [frame_ok]), which the image is,
    and the example layouts ([image], [caller_layout]) put it at 1 MB.

    Two things in the code can write over the image itself.  The console never
    scrolls, so its cursor can reach any of 65536 lines, and from line 1843
    ([IMAGE_LINE]) on a line is in the image.  And kzalloc clears [0, size)
    when kmalloc fails.  The statics that are fields of the state cannot be
    overwritten in the model, so the theorems are stated where neither happens:
    code that prints is shown to change only the two lines at the cursor
    ([off_lines], [on_line]), theorems whose conclusion depends on more of the
    image ask that the cursor is above it ([above_image]), and
    [kzalloc_failure_frees_heap] is about requests of at most 1 MB.  A kzalloc
    of a structure or a page that fails clears only the first page of memory
    and prints its message; [calm] is the memory that this leaves alone.

    kmalloc does not stop at the end of its table when it looks for a run of
    blocks; [no_overrun] says that for a given request it does not get there,
    and it holds of every request of one block and of every request that fits
    somewhere ([no_overrun_room]).

    ** Fuel

    A loop with a bound in the source runs on that bound.  Loops over the list
    of tasks have [list_fuel], one more than the number of heap blocks: the
    tasks of a well-formed list are in different blocks ([tasks_bounded]).  The
    loop over program headers has 65536 rounds, the range of [e_phnum].  A
    stream read has size / 512 + 3 rounds, one per sector and the two partial
    ones at the ends.  Loops that only a terminator stops ([scan_fuel] of
    [Platform] in the kernel, an argument in user code) return when the fuel is
    longer than the string, and the theorems ask for that much.  Waiting for the
    keyboard or for a process has no bound in the source either: there the
    outcome [Spin] is the code that still waits.

    ** Not modelled

    The boot sector and the assembly that switches modes, the port instructions
    below the disk and keyboard controllers, the TLB, and the test functions
    idt_test (it raises exceptions in kernel mode) and test_mmap_unmap (it ends
    in a fault of user code, which the memory of UserLib does not have).  A page
    fault taken by the kernel itself ends a computation; a string of user code
    that is not physically contiguous is beyond the system calls that take one. *)
From Stdlib Require Import ZArith Lia.
From stdpp Require Import base numbers gmap list strings.

Local Open Scope Z_scope.

(** ** Machine integers

    A C object of width w is a [Z]; an operation that can leave the width
    is followed by the conversion C applies ([-O0] on i686: two's complement
    wrap-around for the signed types as well). *)

Definition u8 (x : Z) : Z := x mod 256.
Definition u16 (x : Z) : Z := x mod 65536.
Definition u32 (x : Z) : Z := x mod 4294967296.
Definition i8 (x : Z) : Z := (x + 128) mod 256 - 128.
Definition i32 (x : Z) : Z := (x + 2147483648) mod 4294967296 - 2147483648.

Definition is_u32 (x : Z) : Prop := 0 <= x < 4294967296.
Definition is_i32 (x : Z) : Prop := -2147483648 <= x < 2147483648.
Definition is_byte (x : Z) : Prop := 0 <= x < 256.

Create HintDb amog.

(** A check of the first [n] numbers. *)
Lemma forallb_below (f : Z -> bool) n i : forallb f (seqZ 0 n) = true -> 0 <= i < n -> f i = true.
Proof. intros H Hi. apply (proj1 (forallb_forall _ _) H i), list_elem_of_In, elem_of_seqZ. lia. Qed.

(** Linear arithmetic after [/] and [mod] are turned into equations. *)
Ltac zlia := Z.div_mod_to_equations; lia.

(** Turn every boolean comparison of the context and the goal into its
    proposition. *)
Ltac breflect :=
  repeat match goal with
  | H : (_ && _)%bool = true |- _ => apply andb_prop in H as [? ?]
  | H : (_ || _)%bool = false |- _ => apply orb_false_elim in H as [? ?]
  | H : negb _ = true |- _ => apply negb_true_iff in H
  | H : negb _ = false |- _ => apply negb_false_iff in H
  | H : (_ =? _) = true |- _ => apply Z.eqb_eq in H
  | H : (_ =? _) = false |- _ => apply Z.eqb_neq in H
  | H : (_ <? _) = true |- _ => apply Z.ltb_lt in H
  | H : (_ <? _) = false |- _ => apply Z.ltb_ge in H
  | H : (_ <=? _) = true |- _ => apply Z.leb_le in H
  | H : (_ <=? _) = false |- _ => apply Z.leb_gt in H
  end.

(** Case analysis on a comparison that the goal tests. *)
Ltac case_test :=
  match goal with
  | |- context [?x =? ?y] => destruct (Z.eqb_spec x y)
  | |- context [?x <? ?y] => destruct (Z.ltb_spec x y)
  | |- context [?x <=? ?y] => destruct (Z.leb_spec x y)
  end.

Lemma u8_small x : 0 <= x < 256 -> u8 x = x.
Proof. apply Z.mod_small. Qed.

Lemma u16_small x : 0 <= x < 65536 -> u16 x = x.
Proof. apply Z.mod_small. Qed.

Lemma u32_small x : 0 <= x < 4294967296 -> u32 x = x.
Proof. apply Z.mod_small. Qed.

Lemma i8_small x : -128 <= x < 128 -> i8 x = x.
Proof. unfold i8. intros. rewrite Z.mod_small; lia. Qed.

Lemma i32_small x : -2147483648 <= x < 2147483648 -> i32 x = x.
Proof. unfold i32. intros. rewrite Z.mod_small; lia. Qed.

Lemma u32_range x : 0 <= u32 x < 4294967296.
Proof. apply Z.mod_pos_bound. lia. Qed.

Lemma i32_range x : -2147483648 <= i32 x < 2147483648.
Proof. unfold i32. pose proof (Z.mod_pos_bound (x + 2147483648) 4294967296). lia. Qed.

Lemma u8_range x : 0 <= u8 x < 256.
Proof. apply Z.mod_pos_bound. lia. Qed.

Lemma u16_range x : 0 <= u16 x < 65536.
Proof. apply Z.mod_pos_bound. lia. Qed.

Lemma u32_i32 x : u32 (i32 x) = u32 x.
Proof. unfold u32, i32. zlia. Qed.

Lemma u8_i8 x : u8 (i8 x) = u8 x.
Proof. unfold u8, i8. zlia. Qed.

Lemma i8_u8 x : i8 (u8 x) = i8 x.
Proof. unfold u8, i8. zlia. Qed.

#[export] Hint Resolve u8_range u16_range u32_range i32_range : amog.

(** ** Arrays

    [a[i]] of an array whose elements are [l]; C reads outside of an array
    whatever memory holds there, given by [outside]. *)
Definition array_at {A} (outside : Z -> A) (l : list A) (i : Z) : A :=
  if i <? 0 then outside i else nth (Z.to_nat i) l (outside i).

Lemma array_lookup {A} (outside : Z -> A) l i x : 0 <= i -> l !! Z.to_nat i = Some x -> array_at outside l i = x.
Proof. intros Hi Hl. unfold array_at. rewrite (proj2 (Z.ltb_ge i 0) Hi). by apply nth_lookup_Some. Qed.

Lemma array_nth {A} (outside : Z -> option A) l i x : 0 <= i -> nth (Z.to_nat i) l None = Some x -> array_at outside l i = Some x.
Proof.
  intros Hi Hn. apply array_lookup; [done|]. rewrite nth_lookup in Hn. by destruct (l !! Z.to_nat i) as [y|]; [rewrite <- Hn|].
Qed.

(** ** Bit operations on aligned values *)

Lemma land_low x k : 0 <= k -> Z.land x (2 ^ k - 1) = x mod 2 ^ k.
Proof. intros. rewrite <- Z.land_ones, Z.ones_equiv by lia. f_equal; lia. Qed.

(** A disjoint [|] is an addition: the high part is a multiple of [2^k] and
    the low part fits below it. *)
Lemma lor_disjoint a b k :
  0 <= k -> a mod 2 ^ k = 0 -> 0 <= b < 2 ^ k -> Z.lor a b = a + b.
Proof.
  intros Hk Ha Hb. rewrite Z.add_nocarry_lxor, Z.lxor_lor; try reflexivity;
    apply Z.bits_inj'; intros i Hi; rewrite Z.land_spec, Z.bits_0;
    (destruct (decide (i < k));
      [ replace (Z.testbit a i) with false; [reflexivity|]
      | replace (Z.testbit b i) with false; [apply andb_false_r|] ]).
  1, 3: rewrite <- (Z.mod_pow2_bits_low a k i), Ha, Z.bits_0 by lia; reflexivity.
  all: rewrite <- (Z.mod_small b (2 ^ k)), Z.mod_pow2_bits_high by lia; reflexivity.
Qed.

(** [x & 0xFFFFF000] keeps the page of a 32-bit value. *)
Lemma land_page_mask x : 0 <= x < 4294967296 -> Z.land x 4294963200 = x / 4096 * 4096.
Proof.
  intros Hx. apply Z.bits_inj'. intros i Hi.
  change 4294963200 with (Z.shiftl (Z.ones 20) 12).
  change (x / 4096 * 4096) with (x / 2 ^ 12 * 2 ^ 12).
  rewrite <- Z.shiftr_div_pow2, <- Z.shiftl_mul_pow2 by lia.
  rewrite Z.land_spec, !Z.shiftl_spec by lia.
  destruct (decide (i < 12)).
  { rewrite !(Z.testbit_neg_r _ (i - 12)) by lia. apply andb_false_r. }
  rewrite Z.shiftr_spec by lia. replace (i - 12 + 12) with i by lia.
  destruct (decide (i < 32)).
  - rewrite Z.ones_spec_low by lia. apply andb_true_r.
  - rewrite Z.ones_spec_high by lia.
    rewrite <- (Z.mod_small x (2 ^ 32)), Z.mod_pow2_bits_high by lia. reflexivity.
Qed.

Lemma land_1_mod x : Z.land x 1 = x mod 2.
Proof. apply (land_low x 1). lia. Qed.

(** [n] bytes from [a] on and [k] bytes from [b] on do not meet. *)
Definition apart (a n b k : Z) : Prop := a + n <= b \/ b + k <= a.

(** ** Physical memory

    RAM is a finite map from physical addresses to bytes; an address that was
    never written reads 0.  Multi-byte accesses are little-endian, as on
    i386. *)

Abbreviation ram := (gmap Z Z).

Definition rd8 (m : ram) (a : Z) : Z := u8 (default 0 (m !! a)).
Definition wr8 (m : ram) (a v : Z) : ram := <[a := u8 v]> m.
Definition rd16 (m : ram) (a : Z) : Z := rd8 m a + 256 * rd8 m (a + 1).
Definition wr16 (m : ram) (a v : Z) : ram := wr8 (wr8 m a v) (a + 1) (v / 256).
Definition rd32 (m : ram) (a : Z) : Z := rd16 m a + 65536 * rd16 m (a + 2).
Definition wr32 (m : ram) (a v : Z) : ram := wr16 (wr16 m a v) (a + 2) (v / 65536).

(** A [char] is signed on i386. *)
Definition rdc (m : ram) (a : Z) : Z := i8 (rd8 m a).

Lemma rd8_wr8 m a v b : rd8 (wr8 m a v) b = if a =? b then u8 v else rd8 m b.
Proof.
  unfold rd8, wr8. destruct (Z.eqb_spec a b) as [->|].
  - rewrite lookup_insert_eq. cbn. unfold u8. apply Z.mod_mod. lia.
  - by rewrite lookup_insert_ne.
Qed.

Lemma rd8_wr8_eq m a v : rd8 (wr8 m a v) a = u8 v.
Proof. by rewrite rd8_wr8, Z.eqb_refl. Qed.

Lemma rd8_wr8_ne m a v b : a <> b -> rd8 (wr8 m a v) b = rd8 m b.
Proof. intros H. rewrite rd8_wr8. by destruct (Z.eqb_spec a b). Qed.

Lemma rd8_range m a : 0 <= rd8 m a < 256.
Proof. apply u8_range. Qed.

Lemma rd16_range m a : 0 <= rd16 m a < 65536.
Proof. unfold rd16. pose proof (rd8_range m a). pose proof (rd8_range m (a + 1)). lia. Qed.

Lemma rd32_range m a : 0 <= rd32 m a < 4294967296.
Proof. unfold rd32. pose proof (rd16_range m a). pose proof (rd16_range m (a + 2)). lia. Qed.

#[export] Hint Resolve rd8_range rd16_range rd32_range : amog.

Lemma rd8_wr16 m a v b : b < a \/ a + 2 <= b -> rd8 (wr16 m a v) b = rd8 m b.
Proof. intros. unfold wr16. by rewrite !rd8_wr8_ne by lia. Qed.

Lemma rd8_wr32 m a v b : b < a \/ a + 4 <= b -> rd8 (wr32 m a v) b = rd8 m b.
Proof. intros. unfold wr32. by rewrite !rd8_wr16 by lia. Qed.

Lemma rd16_wr16 m a v : rd16 (wr16 m a v) a = u16 v.
Proof.
  unfold rd16, wr16. rewrite (rd8_wr8_ne _ (a + 1)), !rd8_wr8_eq by lia.
  unfold u8, u16. zlia.
Qed.

(** Two memories that agree on the four (two) bytes read give the same word. *)
Lemma rd16_ext m m' a :
  (forall b, a <= b < a + 2 -> rd8 m' b = rd8 m b) -> rd16 m' a = rd16 m a.
Proof. intros H. unfold rd16. by rewrite !H by lia. Qed.

Lemma rd32_ext m m' a :
  (forall b, a <= b < a + 4 -> rd8 m' b = rd8 m b) -> rd32 m' a = rd32 m a.
Proof. intros H. unfold rd32. by rewrite !(rd16_ext m m') by (intros; apply H; lia). Qed.

Lemma rd32_wr32 m a v : rd32 (wr32 m a v) a = u32 v.
Proof.
  unfold rd32, wr32. rewrite rd16_wr16.
  rewrite (rd16_ext (wr16 m a v)) by (intros; apply rd8_wr16; lia).
  rewrite rd16_wr16. unfold u16, u32. zlia.
Qed.

Lemma rd32_wr32_ne m a v b : b + 4 <= a \/ a + 4 <= b -> rd32 (wr32 m a v) b = rd32 m b.
Proof. intros. apply rd32_ext. intros. apply rd8_wr32. lia. Qed.

Lemma rd32_wr8_ne m a v b : a < b \/ b + 4 <= a -> rd32 (wr8 m a v) b = rd32 m b.
Proof. intros. apply rd32_ext. intros. apply rd8_wr8_ne. lia. Qed.

(** ** Kernel computations

    A kernel function runs on a state and either returns, panics ([panic]
    prints its message and spins for ever), leaves the kernel through
    [iretd] ([task_return] does not return to its caller), or is still
    looping when the fuel of one of its loops is used up. *)

Inductive outcome (S A : Type) : Type :=
| Ret (a : A) (s : S)
| Panic (msg : string) (s : S)
| User (s : S)
| Spin.
Arguments Ret {S A} a s.
Arguments Panic {S A} msg s.
Arguments User {S A} s.
Arguments Spin {S A}.

Definition M (S A : Type) : Type := S -> outcome S A.

#[export] Instance M_ret S : MRet (M S) := fun A a s => Ret a s.
#[export] Instance M_bind S : MBind (M S) := fun A B f m s =>
  match m s with
  | Ret a s' => f a s'
  | Panic msg s' => Panic msg s'
  | User s' => User s'
  | Spin => Spin
  end.

Definition get {S} : M S S := fun s => Ret s s.
Definition gets {S A} (f : S -> A) : M S A := fun s => Ret (f s) s.
Definition put {S} (s : S) : M S unit := fun _ => Ret tt s.
Definition modify {S} (f : S -> S) : M S unit := fun s => Ret tt (f s).
Definition spin {S A} : M S A := fun _ => Spin.

(** Run a computation on one component of a larger state. *)
Definition zoom {S T A} (getc : S -> T) (setc : T -> S -> S) (m : M T A) : M S A :=
  fun s => match m (getc s) with
           | Ret a t => Ret a (setc t s)
           | Panic msg t => Panic msg (setc t s)
           | User t => User (setc t s)
           | Spin => Spin
           end.

(** [wp m s Q]: started in [s], [m] returns, and its result and final state
    satisfy [Q] (total correctness). *)
Definition wp {S A} (m : M S A) (s : S) (Q : A -> S -> Prop) : Prop :=
  match m s with Ret a s' => Q a s' | _ => False end.

Section wp_rules.
Context {S : Type}.

Lemma wp_ret {A} (a : A) (s : S) Q : Q a s -> wp (mret a) s Q.
Proof. done. Qed.

Lemma wp_bind {A B} (m : M S A) (f : A -> M S B) s Q :
  wp m s (fun a s' => wp (f a) s' Q) -> wp (m ≫= f) s Q.
Proof. unfold wp, mbind, M_bind. by destruct (m s). Qed.

Lemma wp_unbind {A B} (m : M S A) (f : A -> M S B) s Q :
  wp (m ≫= f) s Q -> wp m s (fun a s' => wp (f a) s' Q).
Proof. unfold wp, mbind, M_bind. by destruct (m s). Qed.

Lemma wp_mono {A} (m : M S A) s (P Q : A -> S -> Prop) :
  wp m s P -> (forall a s', P a s' -> Q a s') -> wp m s Q.
Proof. unfold wp. destruct (m s); eauto. Qed.

Lemma wp_conj {A} (m : M S A) s (P Q : A -> S -> Prop) :
  wp m s P -> wp m s Q -> wp m s (fun a s' => P a s' /\ Q a s').
Proof. unfold wp. by destruct (m s). Qed.

Lemma wp_get (s : S) Q : Q s s -> wp get s Q.
Proof. done. Qed.

Lemma wp_gets {A} (f : S -> A) s Q : Q (f s) s -> wp (gets f) s Q.
Proof. done. Qed.

Lemma wp_modify (f : S -> S) s Q : Q tt (f s) -> wp (modify f) s Q.
Proof. done. Qed.

Lemma wp_run {A} (m : M S A) s Q :
  wp m s Q <-> exists a s', m s = Ret a s' /\ Q a s'.
Proof.
  unfold wp. destruct (m s); split; try done; try (intros (? & ? & [=] & ?); by subst).
  by intros; repeat econstructor.
Qed.

Lemma wp_of_run {A} (m : M S A) s a s' (Q : A -> S -> Prop) :
  m s = Ret a s' -> Q a s' -> wp m s Q.
Proof. unfold wp. by intros ->. Qed.

Lemma wp_of_run_eq {A} (m m' : M S A) s Q : m s = m' s -> wp m' s Q -> wp m s Q.
Proof. unfold wp. by intros ->. Qed.

Lemma wp_zoom {T A} (getc : S -> T) (setc : T -> S -> S) (m : M T A) s Q :
  wp m (getc s) (fun a t => Q a (setc t s)) -> wp (zoom getc setc m) s Q.
Proof. unfold wp, zoom. by destruct (m (getc s)). Qed.
End wp_rules.

(** A computation that starts with one that returns. *)
Lemma bind_run {S A B} (m : M S A) (f : A -> M S B) s a s' : m s = Ret a s' -> (m ≫= f) s = f a s'.
Proof. unfold mbind, M_bind. by intros ->. Qed.

Lemma bind_assoc {S A B C} (m : M S A) (f : A -> M S B) (g : B -> M S C) s :
  (m ≫= fun a => f a ≫= g) s = ((m ≫= f) ≫= g) s.
Proof. unfold mbind, M_bind. by destruct (m s). Qed.

(** [wlp m s Q]: if [m] returns, its result and final state satisfy [Q]
    (partial correctness, for calls into code that is a parameter). *)
Definition wlp {S A} (m : M S A) (s : S) (Q : A -> S -> Prop) : Prop :=
  match m s with Ret a s' => Q a s' | _ => True end.

Section wlp_rules.
Context {S : Type}.

Lemma wlp_ret {A} (a : A) (s : S) Q : Q a s -> wlp (mret a) s Q.
Proof. done. Qed.

Lemma wlp_bind {A B} (m : M S A) (f : A -> M S B) s Q :
  wlp m s (fun a s' => wlp (f a) s' Q) -> wlp (m ≫= f) s Q.
Proof. unfold wlp, mbind, M_bind. by destruct (m s). Qed.

(** Nothing is known about [m]. *)
Lemma wlp_any {A B} (m : M S A) (f : A -> M S B) s Q :
  (forall a s', wlp (f a) s' Q) -> wlp (m ≫= f) s Q.
Proof. intros H. apply wlp_bind. unfold wlp at 1. by destruct (m s). Qed.

Lemma wlp_mono {A} (m : M S A) s (P Q : A -> S -> Prop) :
  wlp m s P -> (forall a s', P a s' -> Q a s') -> wlp m s Q.
Proof. unfold wlp. destruct (m s); eauto. Qed.

Lemma wlp_wp {A} (m : M S A) s Q : wp m s Q -> wlp m s Q.
Proof. unfold wlp, wp. by destruct (m s). Qed.
End wlp_rules.

(** One symbolic step of a [wp] goal. *)
Ltac wp_step :=
  match goal with
  | |- wp (mret _) _ _ => apply wp_ret
  | |- wp (mbind _ _) _ _ => apply wp_bind
  | |- wp get _ _ => apply wp_get
  | |- wp (gets _) _ _ => apply wp_gets
  | |- wp (modify _) _ _ => apply wp_modify
  | |- wp (zoom _ _ _) _ _ => apply wp_zoom
  end.
Ltac wp_steps := repeat wp_step.

(** Apply a specification lemma and keep its postcondition as hypotheses. *)
Tactic Notation "wp_apply" uconstr(spec) :=
  eapply wp_mono; [ eapply spec | cbv beta ].
