(* ===== verification/Config.v ===== *)
(** * Configuration constants

    The numbers of [config.h], [status.h] and of the component headers that
    several components share. *)
From Stdlib Require Import ZArith.
Local Open Scope Z_scope.

(** ** config.h *)
Definition NUM_INTERRUPTS : Z := 512.
Definition KERNEL_CODE_SEGMENT : Z := 0x08.
Definition KERNEL_DATA_SEGMENT : Z := 0x10.
Definition MASTER_PIC_PORT : Z := 0x20.
Definition MASTER_PIC_INTR_ACK : Z := 0x20.
Definition DISK_SECTOR_SIZE : Z := 512.
Definition FS_MAX_PATH_LEN : Z := 108.
Definition MAX_FILESYSTEMS : Z := 8.
Definition MAX_FILE_DESCRIPTORS : Z := 1024.
Definition TOTAL_GDT_SEGS : Z := 6.
Definition KHEAP_SAFE_BOUNDARY : Z := 0x8000000.
Definition DEFAULT_USER_PROG_ENTRY : Z := KHEAP_SAFE_BOUNDARY + 0x400000.
Definition DEFAULT_USER_DATA_SEGMENT : Z := 0x23.
Definition DEFAULT_USER_CODE_SEGMENT : Z := 0x1B.
Definition DEFAULT_USER_STACK_START : Z := KHEAP_SAFE_BOUNDARY + 0x3FF000.
Definition DEFAULT_USER_STACK_SIZE : Z := 1024 * 16.
Definition DEFAULT_USER_STACK_END : Z := DEFAULT_USER_STACK_START - DEFAULT_USER_STACK_SIZE.
Definition MAX_PROCS : Z := 64.
Definition PROCESS_VMEM_MAX_BLOCKS : Z := 10.
Definition NUM_SYS_CALLS : Z := 64.
Definition PROCESS_KEYBOARD_BUFFER_SIZE : Z := 1024.

(** ** status.h *)
Definition STATUS_OK : Z := 0.
Definition STATUS_IO_ERROR : Z := 1.
Definition STATUS_INVALID_ARG : Z := 2.
Definition STATUS_NOT_ENOUGH_MEM : Z := 3.
Definition STATUS_GENERIC_ERROR : Z := 4.
Definition STATUS_BAD_FILE_PATH : Z := 5.
Definition STATUS_NOT_IMPLEMENTED : Z := 6.
Definition STATUS_OUT_OF_PROCS : Z := 7.
Definition STATUS_VPN_NOT_PRESENT : Z := 8.
Definition STATUS_INVALID_USER_MEM_ACCESS : Z := 9.
Definition STATUS_INVALID_EXEC_FORMAT : Z := 10.
Definition STATUS_INVALID_MEMORY_REGION : Z := 11.
Definition STATUS_OUT_OF_VMEM_BLOCKS : Z := 12.
Definition SYSCALL_NOT_IMPLEMENTED : Z := 13.
Definition STATUS_PROC_NOT_ZOMBIE : Z := 14.
Definition STATUS_PROC_EXCEPTION : Z := 15.
