(* ===== verification/Memory.v ===== *)
(** * memory.c: memset, memcmp, memcpy

    The three byte loops on RAM.  The loop counter of the C code is an [int]
    compared with an unsigned count, so each iteration touches the address
    [p + i] modulo 2^32. *)
From Stdlib Require Import ZArith Lia.
From stdpp Require Import base numbers gmap list.
From S2P Require Import Prelude.
Local Open Scope Z_scope.

Fixpoint memset_loop (n : nat) (p c i : Z) (m : ram) : ram :=
  match n with
  | O => m
  | S n => memset_loop n p c (i + 1) (wr8 m (u32 (p + i)) c)
  end.
Definition memset (p c num : Z) (m : ram) : ram := memset_loop (Z.to_nat num) p c 0 m.

Fixpoint memcmp_loop (n : nat) (p1 p2 i : Z) (m : ram) : Z :=
  match n with
  | O => 0
  | S n =>
    if negb (rd8 m (u32 (p1 + i)) =? rd8 m (u32 (p2 + i)))
    then rd8 m (u32 (p1 + i)) - rd8 m (u32 (p2 + i))
    else memcmp_loop n p1 p2 (i + 1) m
  end.
Definition memcmp (p1 p2 num : Z) (m : ram) : Z := memcmp_loop (Z.to_nat num) p1 p2 0 m.

Fixpoint memcpy_loop (n : nat) (dest src i : Z) (m : ram) : ram :=
  match n with
  | O => m
  | S n => memcpy_loop n dest src (i + 1) (wr8 m (u32 (dest + i)) (rd8 m (u32 (src + i))))
  end.
Definition memcpy (dest src num : Z) (m : ram) : ram :=
  memcpy_loop (Z.to_nat num) dest src 0 m.

(** ** memset *)

Lemma memset_loop_spec n p c i m a :
  0 <= p + i -> p + i + Z.of_nat n <= 4294967296 ->
  rd8 (memset_loop n p c i m) a =
  if (p + i <=? a) && (a <? p + i + Z.of_nat n) then u8 c else rd8 m a.
Proof.
  revert i m. induction n as [|n IH]; intros i m Hlo Hhi; cbn [memset_loop].
  { destruct (Z.leb_spec (p + i) a), (Z.ltb_spec a (p + i + Z.of_nat 0)); cbn; lia || done. }
  rewrite IH, rd8_wr8, u32_small by lia.
  repeat case_test; cbn; lia || done.
Qed.

(** The bytes of the range are set, every other byte is kept. *)
Lemma rd8_memset p c num m a :
  0 <= p -> 0 <= num -> p + num <= 4294967296 ->
  rd8 (memset p c num m) a = if (p <=? a) && (a <? p + num) then u8 c else rd8 m a.
Proof.
  intros. unfold memset. rewrite memset_loop_spec by lia.
  by rewrite Z.add_0_r, Z2Nat.id.
Qed.

Lemma rd8_memset_in p c num m a :
  0 <= p -> p + num <= 4294967296 -> p <= a < p + num -> rd8 (memset p c num m) a = u8 c.
Proof. intros. rewrite rd8_memset by lia. by repeat case_test; try lia. Qed.

Lemma rd8_memset_out p c num m a :
  0 <= p -> p + num <= 4294967296 -> a < p \/ p + num <= a -> rd8 (memset p c num m) a = rd8 m a.
Proof.
  intros. destruct (decide (0 <= num)).
  - rewrite rd8_memset by lia. by repeat case_test; try lia.
  - unfold memset. by replace (Z.to_nat num) with O by lia.
Qed.

(** ** memcpy *)

Lemma memcpy_loop_spec n dest src i m a :
  0 <= dest + i -> dest + i + Z.of_nat n <= 4294967296 ->
  0 <= src + i -> src + i + Z.of_nat n <= 4294967296 ->
  (dest <= src \/ src + i + Z.of_nat n <= dest + i) ->
  rd8 (memcpy_loop n dest src i m) a =
  if (dest + i <=? a) && (a <? dest + i + Z.of_nat n)
  then rd8 m (src + (a - dest)) else rd8 m a.
Proof.
  revert i m. induction n as [|n IH]; intros i m ?????; cbn [memcpy_loop].
  { destruct (Z.leb_spec (dest + i) a), (Z.ltb_spec a (dest + i + Z.of_nat 0)); cbn; lia || done. }
  rewrite IH, !rd8_wr8, !u32_small by lia.
  pose proof (rd8_range m (src + i)) as Hb.
  repeat case_test; cbn; try lia; try done.
  all: rewrite u8_small by lia; f_equal; lia.
Qed.

(** A copy between ranges that are disjoint (or whose destination is the
    lower one) moves the source bytes and keeps every other byte. *)
Lemma rd8_memcpy dest src num m a :
  0 <= dest -> 0 <= src -> 0 <= num -> dest + num <= 4294967296 -> src + num <= 4294967296 ->
  (dest <= src \/ src + num <= dest) ->
  rd8 (memcpy dest src num m) a =
  if (dest <=? a) && (a <? dest + num) then rd8 m (src + (a - dest)) else rd8 m a.
Proof.
  intros. unfold memcpy. rewrite memcpy_loop_spec by lia.
  by rewrite Z.add_0_r, Z2Nat.id.
Qed.

Lemma rd8_memcpy_out dest src num m a :
  0 <= dest -> 0 <= src -> dest + num <= 4294967296 -> src + num <= 4294967296 ->
  (dest <= src \/ src + num <= dest) -> a < dest \/ dest + num <= a ->
  rd8 (memcpy dest src num m) a = rd8 m a.
Proof.
  intros. destruct (decide (0 <= num)).
  - rewrite rd8_memcpy by lia. by repeat case_test; try lia.
  - unfold memcpy. by replace (Z.to_nat num) with O by lia.
Qed.

Lemma rd8_memcpy_in dest src num m a :
  0 <= dest -> 0 <= src -> dest + num <= 4294967296 -> src + num <= 4294967296 ->
  (dest <= src \/ src + num <= dest) -> dest <= a < dest + num ->
  rd8 (memcpy dest src num m) a = rd8 m (src + (a - dest)).
Proof. intros. rewrite rd8_memcpy by lia. by repeat case_test; try lia. Qed.

(** ** memcmp *)

Lemma memcmp_loop_zero n p1 p2 i m :
  memcmp_loop n p1 p2 i m = 0 <->
  (forall k, i <= k < i + Z.of_nat n -> rd8 m (u32 (p1 + k)) = rd8 m (u32 (p2 + k))).
Proof.
  revert i. induction n as [|n IH]; intros i; cbn [memcmp_loop].
  { split; [intros; lia | done]. }
  destruct (Z.eqb_spec (rd8 m (u32 (p1 + i))) (rd8 m (u32 (p2 + i)))) as [E|E]; cbn.
  - rewrite IH. split; intros H k Hk.
    + destruct (decide (k = i)) as [->|]; [done | apply H; lia].
    + apply H. lia.
  - split; [intros; lia | intros H; contradiction (E (H i ltac:(lia)))].
Qed.

(** memcmp answers 0 exactly when the two ranges hold the same bytes. *)
Lemma memcmp_zero p1 p2 num m :
  0 <= p1 -> 0 <= p2 -> 0 <= num -> p1 + num <= 4294967296 -> p2 + num <= 4294967296 ->
  memcmp p1 p2 num m = 0 <->
  (forall k, 0 <= k < num -> rd8 m (p1 + k) = rd8 m (p2 + k)).
Proof.
  intros. unfold memcmp. rewrite memcmp_loop_zero, Z2Nat.id by lia.
  split; intros Hk k ?; specialize (Hk k ltac:(lia)); by rewrite !u32_small in * by lia.
Qed.
