(* ===== verification/Strings.v ===== *)
(** * lib/string/string.c: C strings in memory

    The routines walk a [char] array through a pointer; characters are signed
    bytes.  Loops bounded by [maxlen] run on [Z.to_nat maxlen] as fuel, which
    is the number of iterations the bound allows; the two loops that only the
    terminator stops ([strlen], [strcpy]) take their fuel as an argument and
    answer [None] when it is used up. *)
From Stdlib Require Import ZArith Lia.
From stdpp Require Import base numbers gmap list.
From S2P Require Import Prelude.
Local Open Scope Z_scope.

Fixpoint strlen_loop (fuel : nat) (m : ram) (str i : Z) : option Z :=
  match fuel with
  | O => None
  | S fuel => if rdc m (u32 (str + i)) =? 0 then Some i else strlen_loop fuel m str (i + 1)
  end.
Definition strlen (fuel : nat) (m : ram) (str : Z) : option Z := strlen_loop fuel m str 0.

Fixpoint strnlen_loop (fuel : nat) (m : ram) (str maxlen i : Z) : Z :=
  match fuel with
  | O => i
  | S fuel =>
    if negb (rdc m (u32 (str + i)) =? 0) && (i <? maxlen)
    then strnlen_loop fuel m str maxlen (i + 1) else i
  end.
Definition strnlen (m : ram) (str maxlen : Z) : Z :=
  strnlen_loop (Z.to_nat maxlen) m str maxlen 0.

Fixpoint strcpy_loop (fuel : nat) (dst src i : Z) (m : ram) : option ram :=
  match fuel with
  | O => None
  | S fuel =>
    if negb (rdc m (u32 (src + i)) =? 0)
    then strcpy_loop fuel dst src (i + 1) (wr8 m (u32 (dst + i)) (rdc m (u32 (src + i))))
    else Some (wr8 m (u32 (dst + i)) 0)
  end.
Definition strcpy (fuel : nat) (dst src : Z) (m : ram) : option ram :=
  strcpy_loop fuel dst src 0 m.

(** The copying loop of [strncpy] and the index at which it stops. *)
Fixpoint strncpy_loop (fuel : nat) (dst src maxlen i : Z) (m : ram) : Z * ram :=
  match fuel with
  | O => (i, m)
  | S fuel =>
    if (i <? maxlen) && negb (rdc m (u32 (src + i)) =? 0)
    then strncpy_loop fuel dst src maxlen (i + 1)
           (wr8 m (u32 (dst + i)) (rdc m (u32 (src + i))))
    else (i, m)
  end.
Definition strncpy (dst src maxlen : Z) (m : ram) : ram :=
  let '(i, m) := strncpy_loop (Z.to_nat maxlen) dst src maxlen 0 m in
  if (i =? maxlen) && (0 <? i) then wr8 m (u32 (dst + i - 1)) 0
  else if i <? maxlen then wr8 m (u32 (dst + i)) 0
  else if (i =? 0) && (0 <? maxlen) then wr8 m (u32 (dst + i)) 0
  else m.

(** What [strncmp] and [istrncmp] do once their loop has left at index [i]. *)
Definition cmp_end (m : ram) (str1 str2 maxlen i : Z) : Z :=
  if i =? maxlen then 0
  else if (rdc m (u32 (str1 + i)) =? 0) && (rdc m (u32 (str2 + i)) =? 0) then 0
  else if rdc m (u32 (str1 + i)) =? 0 then -1
  else 1.

(** The loop the two comparisons share: characters are compared through
    [key], the answer on a difference is that of the characters themselves. *)
Fixpoint cmp_loop (key : Z -> Z) (fuel : nat) (m : ram) (str1 str2 maxlen i : Z) : Z :=
  match fuel with
  | O => cmp_end m str1 str2 maxlen i
  | S fuel =>
    let c1 := rdc m (u32 (str1 + i)) in
    let c2 := rdc m (u32 (str2 + i)) in
    if (i <? maxlen) && negb (c1 =? 0) && negb (c2 =? 0) then
      if negb (key c1 =? key c2) then c1 - c2
      else cmp_loop key fuel m str1 str2 maxlen (i + 1)
    else cmp_end m str1 str2 maxlen i
  end.
Definition strncmp (m : ram) (str1 str2 maxlen : Z) : Z :=
  cmp_loop (fun c => c) (Z.to_nat maxlen) m str1 str2 maxlen 0.

Fixpoint strnlen_terminator_loop (fuel : nat) (m : ram) (str maxlen terminator i : Z) : Z :=
  match fuel with
  | O => i
  | S fuel =>
    if (i <? maxlen) && negb (rdc m (u32 (str + i)) =? 0)
       && negb (rdc m (u32 (str + i)) =? terminator)
    then strnlen_terminator_loop fuel m str maxlen terminator (i + 1) else i
  end.
Definition strnlen_terminator (m : ram) (str maxlen terminator : Z) : Z :=
  strnlen_terminator_loop (Z.to_nat maxlen) m str maxlen terminator 0.

(** ['A'] is 65, ['Z'] is 90, ['0'] is 48 and ['9'] is 57. *)
Definition to_lower (c : Z) : Z :=
  if (65 <=? c) && (c <=? 90) then i8 (c + 32) else c.

Definition istrncmp (m : ram) (str1 str2 maxlen : Z) : Z :=
  cmp_loop to_lower (Z.to_nat maxlen) m str1 str2 maxlen 0.

Definition is_digit (c : Z) : bool := (48 <=? c) && (c <=? 57).

(** ** The string at a pointer

    [cstr m p l]: the bytes from [p] are the non-zero characters [l] followed
    by the terminator, and the string does not run past the address space. *)

Definition cstr (m : ram) (p : Z) (l : list Z) : Prop :=
  0 <= p /\ p + Z.of_nat (length l) < 4294967296 /\
  (forall i, (i < length l)%nat -> l !! i = Some (rdc m (p + Z.of_nat i)) /\
                                   rdc m (p + Z.of_nat i) <> 0) /\
  rdc m (p + Z.of_nat (length l)) = 0.

Lemma cstr_char m p l i :
  cstr m p l -> (i < length l)%nat -> exists c, l !! i = Some c /\ c <> 0 /\ rdc m (p + Z.of_nat i) = c.
Proof. intros (_ & _ & H & _) Hi. destruct (H i Hi). eauto. Qed.

Lemma cstr_nil m p : 0 <= p < 4294967296 -> rdc m p = 0 -> cstr m p [].
Proof.
  intros Hp Hz. unfold cstr. cbn [length]. rewrite Z.add_0_r.
  split_and!; [lia | lia | intros; lia | done].
Qed.

Lemma cstr_cons m p c l :
  cstr m p (c :: l) <-> 0 <= p /\ c <> 0 /\ rdc m p = c /\ cstr m (p + 1) l.
Proof.
  unfold cstr. split.
  - intros (H1 & H2 & H3 & H4). cbn [length] in *.
    destruct (H3 O ltac:(lia)) as [E E']. replace (p + Z.of_nat 0) with p in * by lia.
    injection E as E. split_and!; try lia.
    + intros i Hi. specialize (H3 (S i) ltac:(lia)). cbn in H3.
      by replace (p + 1 + Z.of_nat i) with (p + Z.of_nat (S i)) by lia.
    + rewrite <- H4. f_equal. lia.
  - intros (H0 & Hc & Hr & H1 & H2 & H3 & H4). cbn [length]. split_and!; try lia.
    + intros [|i] Hi.
      * replace (p + Z.of_nat 0) with p by lia. cbn. by rewrite Hr.
      * replace (p + Z.of_nat (S i)) with (p + 1 + Z.of_nat i) by lia. apply (H3 i). lia.
    + rewrite <- H4. f_equal. lia.
Qed.

Lemma cstr_head m l p : cstr m p l -> rdc m (u32 p) = default 0 (head l).
Proof.
  intros H. assert (0 <= p < 4294967296) by (destruct H; lia). rewrite u32_small by done.
  destruct l as [|c l]; [|by apply cstr_cons in H as (_ & _ & ? & _)].
  destruct H as (_ & _ & _ & H). cbn in H. by rewrite Z.add_0_r in H.
Qed.

(** ** Lengths *)

Lemma strlen_loop_spec m l : forall fuel str i,
  cstr m (str + i) l -> (length l < fuel)%nat ->
  strlen_loop fuel m str i = Some (i + Z.of_nat (length l)).
Proof.
  induction l as [|c l IH]; intros [|fuel] str i H Hf; cbn [length] in *; try lia;
    cbn [strlen_loop].
  - destruct H as (? & ? & _ & H). cbn in *. rewrite Z.add_0_r in H.
    rewrite u32_small, H by lia. cbn. f_equal; lia.
  - destruct (proj1 (cstr_cons _ _ _ _) H) as (? & ? & E & H').
    destruct H as (_ & ? & _). cbn [length] in *.
    rewrite u32_small, E by lia. destruct (Z.eqb_spec c 0); [done|].
    rewrite IH; [f_equal; lia | by rewrite Z.add_assoc | lia].
Qed.

(** With fuel for the string and its terminator, strlen answers its length. *)
Lemma strlen_cstr m p l fuel :
  cstr m p l -> (length l < fuel)%nat -> strlen fuel m p = Some (Z.of_nat (length l)).
Proof.
  intros. unfold strlen. rewrite (strlen_loop_spec m l) by (rewrite ?Z.add_0_r; auto).
  done.
Qed.

Lemma strnlen_loop_spec m l : forall fuel str maxlen i,
  cstr m (str + i) l -> 0 <= i <= maxlen -> fuel = Z.to_nat (maxlen - i) ->
  strnlen_loop fuel m str maxlen i = Z.min maxlen (i + Z.of_nat (length l)).
Proof.
  induction l as [|c l IH]; intros fuel str maxlen i H Hi ->.
  - destruct H as (? & ? & _ & H). cbn in *. rewrite Z.add_0_r in H.
    destruct (Z.to_nat (maxlen - i)) eqn:?; cbn [strnlen_loop]; [lia|].
    rewrite u32_small, H by lia. cbn. lia.
  - destruct (proj1 (cstr_cons _ _ _ _) H) as (? & ? & E & H').
    destruct H as (_ & ? & _). cbn [length] in *.
    destruct (Z.to_nat (maxlen - i)) eqn:?; cbn [strnlen_loop]; [lia|].
    rewrite u32_small, E by lia. destruct (Z.eqb_spec c 0), (Z.ltb_spec i maxlen); cbn; try lia; try done.
    rewrite IH; [lia | by rewrite Z.add_assoc | lia | lia].
Qed.

Lemma strnlen_cstr m p l maxlen :
  cstr m p l -> 0 <= maxlen -> strnlen m p maxlen = Z.min maxlen (Z.of_nat (length l)).
Proof.
  intros. unfold strnlen.
  rewrite (strnlen_loop_spec m l); [lia | by rewrite Z.add_0_r | lia | f_equal; lia].
Qed.

(** ** Comparison *)

Lemma cmp_loop_zero key m : (forall c, key c = key 0 -> c = 0) ->
  forall l1 l2 fuel s1 s2 maxlen i,
  cstr m (s1 + i) l1 -> cstr m (s2 + i) l2 -> 0 <= i <= maxlen -> fuel = Z.to_nat (maxlen - i) ->
  (cmp_loop key fuel m s1 s2 maxlen i = 0 <-> take fuel (key <$> l1) = take fuel (key <$> l2)).
Proof.
  intros Hkey.
  induction l1 as [|c1 l1 IH]; intros l2 fuel s1 s2 maxlen i H1 H2 Hi ->;
    pose proof (cstr_head _ _ _ H1) as E1; pose proof (cstr_head _ _ _ H2) as E2; cbn [head default] in E1;
    (destruct (Z.to_nat (maxlen - i)) as [|f] eqn:Ef;
      [ cbn; unfold cmp_end; destruct (Z.eqb_spec i maxlen); [done | lia] | ]);
    cbn [cmp_loop]; rewrite ?E1, ?E2; unfold cmp_end; rewrite ?E1, ?E2;
    destruct (Z.eqb_spec i maxlen); try lia;
    replace (i <? maxlen) with true by (symmetry; apply Z.ltb_lt; lia);
    destruct l2 as [|c2 l2]; cbn [head default id fmap list_fmap take].
  - done.
  - apply cstr_cons in H2 as (_ & ? & _ & _). cbn. by destruct (Z.eqb_spec c2 0).
  - apply cstr_cons in H1 as (_ & ? & _ & _). destruct (Z.eqb_spec c1 0); [done|]. by cbn.
  - apply cstr_cons in H1 as (_ & Hc1 & _ & H1). apply cstr_cons in H2 as (_ & Hc2 & _ & H2).
    destruct (Z.eqb_spec c1 0), (Z.eqb_spec c2 0); try done. cbn.
    destruct (Z.eqb_spec (key c1) (key c2)) as [Ek|Ek]; cbn.
    + rewrite <- Z.add_assoc in H1, H2. rewrite IH by (eauto || lia). rewrite Ek.
      split; [by intros -> | by intros [= ->]].
    + split; [intros; assert (c1 = c2) by lia; congruence | congruence].
Qed.

(** strncmp answers 0 exactly on strings that agree on their first
    [maxlen] characters. *)
Lemma strncmp_zero m p1 p2 l1 l2 maxlen :
  cstr m p1 l1 -> cstr m p2 l2 -> 0 <= maxlen ->
  strncmp m p1 p2 maxlen = 0 <-> take (Z.to_nat maxlen) l1 = take (Z.to_nat maxlen) l2.
Proof.
  intros. unfold strncmp. rewrite (cmp_loop_zero (fun c => c) m ltac:(done) l1 l2);
    [by rewrite !list_fmap_id | by rewrite Z.add_0_r.. | lia | f_equal; lia].
Qed.

Lemma to_lower_zero c : to_lower c = to_lower 0 -> c = 0.
Proof.
  unfold to_lower. cbn. destruct (Z.leb_spec 65 c), (Z.leb_spec c 90); cbn; try done.
  rewrite i8_small by lia. lia.
Qed.

(** istrncmp answers 0 exactly on strings that agree on their first
    [maxlen] characters up to letter case. *)
Lemma istrncmp_zero m p1 p2 l1 l2 maxlen :
  cstr m p1 l1 -> cstr m p2 l2 -> 0 <= maxlen ->
  istrncmp m p1 p2 maxlen = 0 <->
  take (Z.to_nat maxlen) (to_lower <$> l1) = take (Z.to_nat maxlen) (to_lower <$> l2).
Proof.
  intros. unfold istrncmp. rewrite (cmp_loop_zero to_lower m to_lower_zero l1 l2);
    [done | by rewrite Z.add_0_r.. | lia | f_equal; lia].
Qed.

(** ** Copying *)

Lemma cstr_ext m m' p l :
  (forall a, p <= a <= p + Z.of_nat (length l) -> rd8 m' a = rd8 m a) -> cstr m p l -> cstr m' p l.
Proof.
  intros E (H1 & H2 & H3 & H4).
  assert (forall a, p <= a <= p + Z.of_nat (length l) -> rdc m' a = rdc m a) as E'.
  { intros. unfold rdc. by rewrite E. }
  split_and!; try lia.
  - intros i Hi. rewrite E' by lia. apply H3. lia.
  - rewrite E' by lia. done.
Qed.

Lemma strncpy_loop_spec l : forall fuel dst src maxlen i m,
  cstr m (src + i) l -> 0 <= dst -> dst + maxlen <= 4294967296 ->
  (dst + maxlen <= src + i \/ src + i + Z.of_nat (length l) < dst + i) ->
  0 <= i <= maxlen -> fuel = Z.to_nat (maxlen - i) ->
  let n := Z.min maxlen (i + Z.of_nat (length l)) in
  exists m', strncpy_loop fuel dst src maxlen i m = (n, m') /\
  forall a, rd8 m' a = if (dst + i <=? a) && (a <? dst + n) then rd8 m (src + (a - dst)) else rd8 m a.
Proof.
  induction l as [|c l IH]; intros fuel dst src maxlen i m H ??? Hi ->;
    cbn [length] in *; pose proof (cstr_head _ _ _ H) as Hh; cbn in Hh.
  - exists m. split.
    + destruct (Z.to_nat (maxlen - i)) eqn:?; cbn [strncpy_loop]; [f_equal; lia|].
      rewrite Hh. rewrite andb_false_r. f_equal; lia.
    + intros a. by repeat case_test; try lia.
  - destruct (Z.to_nat (maxlen - i)) as [|f] eqn:?; cbn [strncpy_loop].
    { exists m. split; [f_equal; lia|]. intros a. by repeat case_test; try lia. }
    apply cstr_cons in H as (? & ? & Hc & Hl). assert (src + i < 4294967296) by (destruct Hl; lia).
    rewrite Hh. destruct (Z.ltb_spec i maxlen), (Z.eqb_spec c 0); try lia; cbn [andb negb].
    rewrite (u32_small (dst + i)) by lia.
    destruct (IH f dst src maxlen (i + 1) (wr8 m (dst + i) c)) as (m' & E & Hm'); try lia.
    { rewrite Z.add_assoc. revert Hl. apply cstr_ext. intros. apply rd8_wr8_ne. lia. }
    exists m'. rewrite E. split; [f_equal; lia|]. intros a. rewrite Hm', !rd8_wr8.
    assert (u8 c = rd8 m (src + i)) as ->.
    { rewrite <- Hc. unfold rdc. rewrite u8_i8. apply u8_small, rd8_range. }
    repeat case_test; cbn; try lia; try done; f_equal; lia.
Qed.

(** strncpy leaves in [dst] a terminated copy of the first [maxlen - 1]
    characters of the source, and writes nowhere outside the buffer. *)
Lemma strncpy_cstr m dst src l maxlen :
  cstr m src l -> 0 <= dst -> 0 < maxlen -> dst + maxlen <= 4294967296 ->
  (dst + maxlen <= src \/ src + Z.of_nat (length l) < dst) ->
  cstr (strncpy dst src maxlen m) dst (take (Z.to_nat (maxlen - 1)) l) /\
  (forall a, a < dst \/ dst + maxlen <= a -> rd8 (strncpy dst src maxlen m) a = rd8 m a).
Proof.
  intros H ????. unfold strncpy.
  destruct (strncpy_loop_spec l (Z.to_nat maxlen) dst src maxlen 0 m) as (m' & E & Hm');
    try (rewrite ?Z.add_0_r; first [done | lia | f_equal; lia]).
  rewrite E. set (n := Z.min maxlen (0 + Z.of_nat (length l))) in *.
  set (t := Z.min (maxlen - 1) (Z.of_nat (length l))).
  assert (Hout : (if (n =? maxlen) && (0 <? n) then wr8 m' (u32 (dst + n - 1)) 0
                  else if n <? maxlen then wr8 m' (u32 (dst + n)) 0
                  else if (n =? 0) && (0 <? maxlen) then wr8 m' (u32 (dst + n)) 0 else m')
                 = wr8 m' (dst + t) 0).
  { repeat case_test; cbn; try lia; f_equal; rewrite u32_small; lia. }
  rewrite Hout. split.
  - assert (Ht : length (take (Z.to_nat (maxlen - 1)) l) = Z.to_nat t) by (rewrite length_take; lia).
    unfold cstr. rewrite Ht. split_and!; try lia.
    + intros i Hi. rewrite lookup_take_lt by lia.
      destruct (cstr_char _ _ _ i H ltac:(lia)) as (c & Hl & Hc & Hr).
      assert (rdc (wr8 m' (dst + t) 0) (dst + Z.of_nat i) = c) as ->; [|done].
      unfold rdc in *. rewrite rd8_wr8_ne, Hm' by lia.
      repeat case_test; cbn; try lia. rewrite <- Hr. do 2 f_equal. lia.
    + rewrite Z2Nat.id by lia. unfold rdc. by rewrite rd8_wr8_eq.
  - intros a Ha. rewrite rd8_wr8_ne, Hm' by lia. by repeat case_test; try lia.
Qed.

Lemma strcpy_loop_spec l : forall fuel dst src i m,
  cstr m (src + i) l -> 0 <= dst + i -> dst + i + Z.of_nat (length l) < 4294967296 ->
  (dst + i + Z.of_nat (length l) < src + i \/ src + i + Z.of_nat (length l) < dst + i) -> (length l < fuel)%nat ->
  exists m', strcpy_loop fuel dst src i m = Some m' /\ cstr m' (dst + i) l /\
  forall a, a < dst + i \/ dst + i + Z.of_nat (length l) < a -> rd8 m' a = rd8 m a.
Proof.
  induction l as [|c l IH]; intros [|fuel] dst src i m H Hlo Hhi Hd Hf; cbn [length] in *; try lia;
    pose proof (cstr_head _ _ _ H) as Hh; cbn [head default id] in Hh; cbn [strcpy_loop];
    rewrite Hh, (u32_small (dst + i)) by lia.
  - eexists. split_and!; [done | apply cstr_nil; [lia | unfold rdc; by rewrite rd8_wr8_eq] |].
    intros a Ha. apply rd8_wr8_ne. lia.
  - apply cstr_cons in H as (? & Hz & Hc & Hl). rewrite (proj2 (Z.eqb_neq c 0) Hz). cbn [negb].
    destruct (IH fuel dst src (i + 1) (wr8 m (dst + i) c)) as (m' & E & C & F); try lia.
    { rewrite Z.add_assoc. revert Hl. apply cstr_ext. intros. apply rd8_wr8_ne. lia. }
    exists m'. split_and!; [done | | intros a Ha; rewrite F by lia; apply rd8_wr8_ne; lia].
    rewrite Z.add_assoc in C. apply cstr_cons. split_and!; [done | done | | done].
    unfold rdc. rewrite F, rd8_wr8_eq, i8_u8 by lia. rewrite <- Hc. unfold rdc. rewrite <- (i8_u8 (i8 _)), u8_i8. apply i8_u8.
Qed.

(** strcpy copies the string with its terminator and writes nothing else. *)
Lemma strcpy_cstr m dst src l fuel :
  cstr m src l -> 0 <= dst -> dst + Z.of_nat (length l) < 4294967296 ->
  (dst + Z.of_nat (length l) < src \/ src + Z.of_nat (length l) < dst) -> (length l < fuel)%nat ->
  exists m', strcpy fuel dst src m = Some m' /\ cstr m' dst l /\
  forall a, a < dst \/ dst + Z.of_nat (length l) < a -> rd8 m' a = rd8 m a.
Proof.
  intros. unfold strcpy. destruct (strcpy_loop_spec l fuel dst src 0 m) as (m' & E & C & F);
    rewrite ?Z.add_0_r in *; try lia; [done|]. eauto.
Qed.

(** ** Buffers of strings *)

Fixpoint args_len (strs : list (list Z)) : Z :=
  match strs with [] => 0 | l :: strs => Z.of_nat (length l) + 1 + args_len strs end.

(** The strings [strs] follow each other from [p] on. *)
Fixpoint args_at (m : ram) (p : Z) (strs : list (list Z)) : Prop :=
  match strs with
  | [] => True
  | l :: strs => cstr m p l /\ args_at m (p + Z.of_nat (length l) + 1) strs
  end.

Lemma args_len_nonneg strs : 0 <= args_len strs.
Proof. induction strs; cbn [args_len]; lia. Qed.

(** A buffer that is copied, or that other writes leave alone. *)
Lemma args_at_move m m' d strs : forall p,
  (forall a, p <= a < p + args_len strs -> rd8 m' (a + d) = rd8 m a) -> 0 <= p + d -> p + d + args_len strs <= 4294967296 ->
  args_at m p strs -> args_at m' (p + d) strs.
Proof.
  induction strs as [|l strs IH]; intros p Hm Hlo Hhi H; [done|]. cbn [args_at args_len] in *.
  destruct H as [(H1 & H2 & H3 & H4) H]. pose proof (args_len_nonneg strs).
  assert (Hc : forall k, 0 <= k <= Z.of_nat (length l) -> rdc m' (p + d + k) = rdc m (p + k)).
  { intros k Hk. unfold rdc. rewrite <- Hm by lia. f_equal. f_equal. lia. }
  split.
  - unfold cstr. split_and!; try lia.
    + intros i Hi. rewrite Hc by lia. by apply H3.
    + rewrite Hc by lia. done.
  - replace (p + d + Z.of_nat (length l) + 1) with (p + Z.of_nat (length l) + 1 + d) by lia.
    apply IH; [|lia | lia | done]. intros a Ha. apply Hm. lia.
Qed.

Lemma args_at_ext m m' p strs :
  (forall a, p <= a < p + args_len strs -> rd8 m' a = rd8 m a) -> 0 <= p -> p + args_len strs <= 4294967296 ->
  args_at m p strs -> args_at m' p strs.
Proof.
  intros Hm Hlo Hhi H. rewrite <- (Z.add_0_r p). apply (args_at_move m); try lia; [|done].
  intros a Ha. rewrite Z.add_0_r. by apply Hm.
Qed.
