(* ===== verification/Machine.v ===== *)
(** * The machine state of the lower kernel layers

    Physical RAM together with the static variables of the console
    ([video_mem], [curr_x], [curr_y] of console.c) and of the kernel heap
    ([kheap], [kheap_entry_table] of kheap.c).  The heap's entry table itself
    lives in RAM, at [KHEAP_TABLE_ADDR]. *)
From Stdlib Require Import ZArith Lia String.
From stdpp Require Import base numbers gmap list strings.
From S2P Require Import Prelude.
Local Open Scope Z_scope.

Record console := mk_console { video_mem : Z; curr_y : Z; curr_x : Z }.

Record KHEAP_ENTRY_TABLE := mk_table { entries : Z; num_entries : Z }.

(** [entry_table] always points at the one static table, so it is held by
    value. *)
Record KHEAP := mk_kheap { entry_table : KHEAP_ENTRY_TABLE; kheap_physical_start_addr : Z }.

Record machine := mk_machine { m_ram : ram; m_con : console; m_heap : KHEAP }.

Definition set_ram (m : ram) (s : machine) : machine := mk_machine m (m_con s) (m_heap s).
Definition set_con (c : console) (s : machine) : machine := mk_machine (m_ram s) c (m_heap s).
Definition set_heap (h : KHEAP) (s : machine) : machine := mk_machine (m_ram s) (m_con s) h.
Definition on_ram (f : ram -> ram) (s : machine) : machine := set_ram (f (m_ram s)) s.

(** The state before [kernel_main]: the statics of the kernel are zero. *)
Definition boot_machine (m : ram) : machine :=
  mk_machine m (mk_console 0 0 0) (mk_kheap (mk_table 0 0) 0).

(** The characters of a C string literal. *)
Fixpoint chars (s : string) : list Z :=
  match s with
  | EmptyString => []
  | String a s => i8 (Z.of_nat (Ascii.nat_of_ascii a)) :: chars s
  end.

Definition load8 (a : Z) : M machine Z := gets (fun s => rd8 (m_ram s) a).
Definition load32 (a : Z) : M machine Z := gets (fun s => rd32 (m_ram s) a).
Definition store8 (a v : Z) : M machine unit := modify (on_ram (fun m => wr8 m a v)).
Definition store32 (a v : Z) : M machine unit := modify (on_ram (fun m => wr32 m a v)).
