(* ===== verification/Console.v ===== *)
(** * console/console.c: the VGA text console

    The console writes 16-bit cells through [video_mem] at a cursor
    ([curr_x], [curr_y]) of two 16-bit counters.  There is no scrolling: a
    line past the 20 visible ones is written below the screen in memory. *)
From Stdlib Require Import ZArith Lia String.
From stdpp Require Import base numbers gmap list strings pretty relations.
From S2P Require Import Prelude Machine.
Local Open Scope Z_scope.

Definition VGA_WIDTH : Z := 80.
Definition VGA_HEIGHT : Z := 20.
Definition VIDEO_MEM : Z := 0xB8000.

Definition make_char (c color : Z) : Z := u16 (Z.lor (Z.shiftl color 8) c).

Definition console_put_char (x y c color : Z) (s : machine) : machine :=
  on_ram (fun m => wr16 m (u32 (video_mem (m_con s) + 2 * (y * VGA_WIDTH + x))) (make_char c color)) s.

(** The two nested loops that [console_init] and [clear_screen] share. *)
Fixpoint blank_row (n : nat) (y x : Z) (s : machine) : machine :=
  match n with
  | O => s
  | S n => blank_row n y (x + 1) (console_put_char x y 32 0 s)
  end.
Fixpoint blank_rows (n : nat) (y : Z) (s : machine) : machine :=
  match n with
  | O => s
  | S n => blank_rows n (y + 1) (blank_row (Z.to_nat VGA_WIDTH) y 0 s)
  end.

Definition console_init (s : machine) : machine :=
  let s := set_con (mk_console VIDEO_MEM (curr_y (m_con s)) (curr_x (m_con s))) s in
  blank_rows (Z.to_nat VGA_HEIGHT) 0 s.

Definition set_cursor (x y : Z) (s : machine) : machine :=
  set_con (mk_console (video_mem (m_con s)) y x) s.

Definition console_backspace (s : machine) : machine :=
  let x := curr_x (m_con s) in
  let y := curr_y (m_con s) in
  if (x =? 0) && (y =? 0) then s
  else
    let s := if x =? 0 then set_cursor (VGA_WIDTH - 1) (u16 (y - 1)) s
             else set_cursor (u16 (x - 1)) y s in
    console_put_char (curr_x (m_con s)) (curr_y (m_con s)) 32 0 s.

Definition console_write_char (c color : Z) (s : machine) : machine :=
  let x := curr_x (m_con s) in
  let y := curr_y (m_con s) in
  if c =? 10 then set_cursor 0 (u16 (y + 1)) s
  else if c =? 8 then console_backspace s
  else
    let s := console_put_char x y c color s in
    if u16 (x + 1) =? VGA_WIDTH then set_cursor 0 (u16 (y + 1)) s
    else set_cursor (u16 (x + 1)) y s.

(** [print] on the characters of its argument up to the terminator. *)
Fixpoint print (str : list Z) (s : machine) : machine :=
  match str with
  | [] => s
  | c :: str => print str (console_write_char c 15 s)
  end.

Fixpoint printn_loop (k : nat) (str i : Z) (s : machine) : machine :=
  match k with
  | O => s
  | S k =>
    let c := rdc (m_ram s) (u32 (str + i)) in
    if c =? 0 then s
    else printn_loop k str (i + 1) (console_write_char c 15 s)
  end.
Definition printn (str n : Z) (s : machine) : machine := printn_loop (Z.to_nat n) str 0 s.

Definition print_char (c : Z) (s : machine) : machine := console_write_char c 15 s.

Definition println (str : list Z) (s : machine) : machine := print [10] (print str s).

(** [print_int]: the digits are counted, stored lowest first in a buffer and
    written in reverse.  Ten iterations are enough for a 32-bit value. *)
Definition MAX_INT_DIGITS : Z := 12.

Fixpoint count_digits (fuel : nat) (x num_digits : Z) : Z :=
  match fuel with
  | O => num_digits
  | S fuel => if 0 <? x then count_digits fuel (x / 10) (num_digits + 1) else num_digits
  end.

Fixpoint fill_digits (n : nat) (x : Z) : list Z :=
  match n with
  | O => []
  | S n => (48 + x mod 10) :: fill_digits n (x / 10)
  end.

Definition print_int (x : Z) (s : machine) : machine :=
  let '(x, s) := if x <? 0 then (i32 (- x), print (chars "-") s) else (x, s) in
  let num_digits := count_digits 10 x 0 in
  if num_digits =? 0 then print (chars "0") s
  else print (rev (fill_digits (Z.to_nat num_digits) x)) s.

Definition clear_screen (s : machine) : machine :=
  set_cursor 0 0 (blank_rows (Z.to_nat VGA_HEIGHT) 0 s).

(** [panic] of kernel.c: print the message and spin. *)
Definition panic {A} (msg : string) : M machine A :=
  fun s => Panic msg (println (chars msg) s).

(** ** Where the console writes

    With the cursor inside a line, every cell is in the window that 65536
    lines of 80 cells span; the window ends below the kernel heap. *)

Definition VIDEO_END : Z := VIDEO_MEM + 2 * VGA_WIDTH * 65536.

Definition con_ok (s : machine) : Prop :=
  video_mem (m_con s) = VIDEO_MEM /\ 0 <= curr_x (m_con s) < VGA_WIDTH /\
  0 <= curr_y (m_con s) < 65536.

(** [s'] differs from [s] by console output only. *)
Definition con_frame (s s' : machine) : Prop :=
  con_ok s' /\ m_heap s' = m_heap s /\
  forall a, a < VIDEO_MEM \/ VIDEO_END <= a -> rd8 (m_ram s') a = rd8 (m_ram s) a.

Ltac vga := unfold VIDEO_END, VIDEO_MEM, VGA_WIDTH, VGA_HEIGHT in *.

Lemma con_frame_refl s : con_ok s -> con_frame s s.
Proof. done. Qed.

Lemma con_frame_trans s1 s2 s3 : con_frame s1 s2 -> con_frame s2 s3 -> con_frame s1 s3.
Proof.
  intros (? & E & H1) (? & E' & H2). split_and!; [done | congruence |].
  intros a Ha. by rewrite H2, H1.
Qed.

Lemma put_char_addr s x y :
  con_ok s -> 0 <= x < VGA_WIDTH -> 0 <= y < 65536 ->
  u32 (video_mem (m_con s) + 2 * (y * VGA_WIDTH + x)) = VIDEO_MEM + 2 * (y * VGA_WIDTH + x).
Proof. intros (-> & _) ??. vga. rewrite u32_small; lia. Qed.

Lemma put_char_frame s x y c color :
  con_ok s -> 0 <= x < VGA_WIDTH -> 0 <= y < 65536 ->
  con_frame s (console_put_char x y c color s).
Proof.
  intros Hs ??. split_and!; [done | done |]. intros a Ha. cbn.
  rewrite put_char_addr by done. apply rd8_wr16. vga. lia.
Qed.

Lemma set_cursor_frame s x y :
  con_ok s -> 0 <= x < VGA_WIDTH -> 0 <= y < 65536 -> con_frame s (set_cursor x y s).
Proof. intros (? & ?) ??. split_and!; try done. Qed.

Lemma backspace_frame s : con_ok s -> con_frame s (console_backspace s).
Proof.
  intros Hs. destruct Hs as (Hv & Hx & Hy) eqn:E. clear E. unfold console_backspace.
  destruct (Z.eqb_spec (curr_x (m_con s)) 0), (Z.eqb_spec (curr_y (m_con s)) 0); cbn [andb].
  1: by apply con_frame_refl.
  all: (eapply con_frame_trans; [apply set_cursor_frame | apply put_char_frame]);
    try done; cbn; vga; rewrite ?u16_small by lia; try lia.
  all: split_and!; cbn; vga; lia.
Qed.

Lemma write_char_frame s c color : con_ok s -> con_frame s (console_write_char c color s).
Proof.
  intros Hs. destruct Hs as (Hv & Hx & Hy) eqn:E. clear E. unfold console_write_char.
  destruct (c =? 10); [|destruct (c =? 8)].
  - apply set_cursor_frame; [done | vga; lia | apply u16_range].
  - by apply backspace_frame.
  - destruct (Z.eqb_spec (u16 (curr_x (m_con s) + 1)) VGA_WIDTH);
      (eapply con_frame_trans; [by apply put_char_frame | apply set_cursor_frame]);
      try done; vga; try apply u16_range; try lia.
    rewrite u16_small in * by lia. lia.
Qed.

Lemma print_frame str : forall s, con_ok s -> con_frame s (print str s).
Proof.
  induction str as [|c str IH]; intros s Hs; cbn.
  - by apply con_frame_refl.
  - pose proof (write_char_frame s c 15 Hs) as H. eapply con_frame_trans; [exact H|]. apply IH, H.
Qed.

Lemma println_frame str s : con_ok s -> con_frame s (println str s).
Proof.
  intros Hs. unfold println. pose proof (print_frame str s Hs) as H.
  eapply con_frame_trans; [exact H|]. apply print_frame, H.
Qed.

#[export] Hint Resolve con_frame_refl write_char_frame print_frame println_frame : amog.

(** ** What the console writes *)

Definition cursor_pos (s : machine) : Z := curr_y (m_con s) * VGA_WIDTH + curr_x (m_con s).
Definition cell (s : machine) (k : Z) : Z := rd16 (m_ram s) (VIDEO_MEM + 2 * k).

Definition printable (c : Z) : Prop := c <> 10 /\ c <> 8.

Lemma put_char_cell s x y c color k :
  con_ok s -> 0 <= x < VGA_WIDTH -> 0 <= y < 65536 ->
  cell (console_put_char x y c color s) k =
  if y * VGA_WIDTH + x =? k then make_char c color else cell s k.
Proof.
  intros. unfold cell. cbn. rewrite put_char_addr by done. destruct (Z.eqb_spec (y * VGA_WIDTH + x) k) as [<-|].
  - rewrite rd16_wr16. unfold make_char, u16. apply Z.mod_mod. lia.
  - apply rd16_ext. intros. apply rd8_wr16. lia.
Qed.

Lemma write_char_printable s c color :
  con_ok s -> printable c -> cursor_pos s + 1 < VGA_WIDTH * 65536 ->
  cursor_pos (console_write_char c color s) = cursor_pos s + 1 /\
  forall k, cell (console_write_char c color s) k =
            if cursor_pos s =? k then make_char c color else cell s k.
Proof.
  intros Hs [Hn Hb] Hpos. unfold console_write_char.
  destruct (Z.eqb_spec c 10), (Z.eqb_spec c 8); try done.
  assert (Hs' := Hs). destruct Hs' as (Hv & Hx & Hy).
  assert (Hc : forall k, cell (console_put_char (curr_x (m_con s)) (curr_y (m_con s)) c color s) k
                    = if cursor_pos s =? k then make_char c color else cell s k)
    by (intros; by apply put_char_cell).
  unfold cursor_pos in *. vga. rewrite (u16_small (curr_x (m_con s) + 1)) by lia.
  destruct (Z.eqb_spec (curr_x (m_con s) + 1) 80); (split; [cbn | exact Hc]); [|lia].
  rewrite u16_small; lia.
Qed.

(** Printing characters that move the cursor only forwards fills the cells
    from the cursor on, in order, and no other cell. *)
Lemma print_cells str : forall s,
  con_ok s -> Forall printable str -> cursor_pos s + Z.of_nat (length str) < VGA_WIDTH * 65536 ->
  cursor_pos (print str s) = cursor_pos s + Z.of_nat (length str) /\
  (forall i c, str !! i = Some c -> cell (print str s) (cursor_pos s + Z.of_nat i) = make_char c 15) /\
  (forall k, k < cursor_pos s \/ cursor_pos s + Z.of_nat (length str) <= k ->
             cell (print str s) k = cell s k).
Proof.
  induction str as [|c str IH]; intros s Hs Hp Hl; cbn [print length] in *.
  { split_and!; [lia | by intros i c [=] | done]. }
  apply Forall_cons in Hp as [Hc Hp].
  destruct (write_char_printable s c 15 Hs Hc ltac:(lia)) as [E Hcell].
  destruct (write_char_frame s c 15 Hs) as (Hs' & _).
  destruct (IH _ Hs' Hp) as (P1 & P2 & P3); [lia|]. rewrite E in *. split_and!; [lia | |].
  - intros [|i] c' Hi; cbn in Hi.
    + injection Hi as ->. rewrite P3, Hcell by lia. by replace (cursor_pos s + Z.of_nat 0) with (cursor_pos s) by lia; rewrite Z.eqb_refl.
    + rewrite <- (P2 i c' Hi). f_equal. lia.
  - intros k Hk. rewrite P3, Hcell by lia. destruct (Z.eqb_spec (cursor_pos s) k); [lia | done].
Qed.

Lemma print_app l1 l2 s : print (l1 ++ l2) s = print l2 (print l1 s).
Proof. revert s. induction l1; intros; cbn; auto. Qed.

(** ** Decimal output *)

Lemma count_digits_acc fuel : forall x n, count_digits fuel x n = n + count_digits fuel x 0.
Proof.
  induction fuel as [|fuel IH]; intros x n; cbn [count_digits]; [lia|].
  destruct (0 <? x); [|lia]. rewrite IH, (IH _ (0 + 1)). lia.
Qed.

Lemma count_digits_nonneg fuel x : 0 <= count_digits fuel x 0 <= Z.of_nat fuel.
Proof.
  revert x. induction fuel as [|fuel IH]; intros x; cbn [count_digits]; [lia|].
  destruct (0 <? x); [|lia]. rewrite count_digits_acc. specialize (IH (x / 10)). lia.
Qed.

Lemma count_digits_pos fuel x : 0 < x -> 0 < count_digits (S fuel) x 0.
Proof.
  intros. cbn [count_digits]. destruct (Z.ltb_spec 0 x); [|lia].
  rewrite count_digits_acc. pose proof (count_digits_nonneg fuel (x / 10)). lia.
Qed.

Lemma digit_char d : (d < 10)%N -> i8 (Z.of_nat (Ascii.nat_of_ascii (pretty_N_char d))) = 48 + Z.of_N d.
Proof.
  intros. assert (d = 0 \/ d = 1 \/ d = 2 \/ d = 3 \/ d = 4 \/ d = 5 \/ d = 6 \/ d = 7 \/ d = 8 \/ d = 9)%N
    as Hd by lia.
  by destruct_or! Hd; subst.
Qed.

Lemma digits_pretty fuel : forall x str,
  0 <= x < 10 ^ Z.of_nat fuel ->
  rev (fill_digits (Z.to_nat (count_digits fuel x 0)) x) ++ chars str = chars (pretty_N_go (Z.to_N x) str).
Proof.
  induction fuel as [|fuel IH]; intros x str Hx.
  { replace x with 0 by (cbn in Hx; lia). by rewrite pretty_N_go_0. }
  cbn [count_digits]. destruct (Z.ltb_spec 0 x).
  2: { replace x with 0 by lia. by rewrite pretty_N_go_0. }
  pose proof (count_digits_nonneg fuel (x / 10)).
  rewrite count_digits_acc, Z2Nat.inj_add by lia.
  change (Z.to_nat (0 + 1)) with 1%nat. cbn [Nat.add fill_digits rev].
  rewrite pretty_N_go_step by lia.
  replace (Z.to_N x `div` 10)%N with (Z.to_N (x / 10)) by (by rewrite Z2N.inj_div by lia).
  rewrite <- IH.
  - rewrite <- app_assoc. cbn [app chars]. do 2 f_equal.
    rewrite digit_char by (apply N.mod_lt; lia).
    replace (Z.to_N x `mod` 10)%N with (Z.to_N (x mod 10)) by (by rewrite Z2N.inj_mod by lia).
    rewrite Z2N.id; [done | apply Z.mod_pos_bound; lia].
  - replace (Z.of_nat (S fuel)) with (Z.succ (Z.of_nat fuel)) in Hx by lia.
    rewrite Z.pow_succ_r in Hx by lia. zlia.
Qed.

(** The digits of a positive [int] are its decimal numeral. *)
Lemma digits_decimal x : 0 < x < 2147483648 -> rev (fill_digits (Z.to_nat (count_digits 10 x 0)) x) = chars (pretty x).
Proof.
  intros Hx. rewrite <- (app_nil_r (rev _)). change [] with (chars "").
  rewrite digits_pretty by (change (10 ^ Z.of_nat 10) with 10000000000; lia).
  destruct x as [|p|p]; [lia | | lia]. unfold pretty, pretty_Z, pretty, pretty_N.
  by destruct (decide (N.pos p = 0%N)).
Qed.

Lemma print_int_pos x s :
  0 <= x < 2147483648 -> print_int x s = print (chars (pretty x)) s.
Proof.
  intros Hx. unfold print_int. destruct (Z.ltb_spec x 0); [lia|]. cbn [fst snd].
  destruct (decide (x = 0)) as [->|]; [done|]. rewrite digits_decimal by lia.
  pose proof (count_digits_pos 9 x ltac:(lia)). by destruct (Z.eqb_spec (count_digits 10 x 0) 0); [lia|].
Qed.

(** print_int writes the decimal numeral of its argument, for every [int]
    whose negation is an [int]. *)
Lemma print_int_decimal x s :
  -2147483648 < x < 2147483648 -> print_int x s = print (chars (pretty x)) s.
Proof.
  intros Hx. destruct (decide (0 <= x)); [apply print_int_pos; lia|].
  transitivity (print_int (- x) (print (chars "-") s)).
  { unfold print_int. rewrite i32_small by lia.
    by destruct (Z.ltb_spec x 0), (Z.ltb_spec (- x) 0); try lia. }
  rewrite print_int_pos, <- print_app by lia. f_equal.
  destruct x; [lia | lia | reflexivity].
Qed.

Lemma print_int_frame x s : con_ok s -> con_frame s (print_int x s).
Proof.
  intros Hs. unfold print_int. assert (H : con_frame s (if x <? 0 then print (chars "-") s else s)).
  { destruct (x <? 0); [by apply print_frame | by apply con_frame_refl]. }
  destruct (x <? 0); cbn zeta beta iota; (destruct (_ =? 0); (eapply con_frame_trans; [exact H | apply print_frame, H])).
Qed.

(** ** The lines that a message touches

    A message of at most 80 characters that ends in a newline is written to
    the line of the cursor and the next one. *)

Definition on_line (y a : Z) : Prop := VIDEO_MEM + 160 * y <= a < VIDEO_MEM + 160 * (y + 1).
Definition off_lines (c : console) (a : Z) : Prop := ~ on_line (curr_y c) a /\ ~ on_line (u16 (curr_y c + 1)) a.

(** No line is above the window of the console. *)
Lemma off_lines_above s a : con_ok s -> VIDEO_END <= a -> off_lines (m_con s) a.
Proof. intros (_ & _ & Hy) Ha. pose proof (u16_range (curr_y (m_con s) + 1)). unfold off_lines, on_line. vga. lia. Qed.

Lemma put_char_line s x y c color a :
  con_ok s -> 0 <= x < VGA_WIDTH -> 0 <= y < 65536 -> ~ on_line y a ->
  rd8 (m_ram (console_put_char x y c color s)) a = rd8 (m_ram s) a.
Proof. intros Hs Hx Hy Ha. cbn. rewrite put_char_addr by done. apply rd8_wr16. unfold on_line in Ha. vga. lia. Qed.

Lemma print_line y str : forall s a,
  con_ok s -> Forall printable str ->
  curr_y (m_con s) = y /\ Z.of_nat (length str) <= VGA_WIDTH \/
  curr_y (m_con s) = u16 (y + 1) /\ curr_x (m_con s) + Z.of_nat (length str) < VGA_WIDTH ->
  ~ on_line y a -> ~ on_line (u16 (y + 1)) a -> rd8 (m_ram (print str s)) a = rd8 (m_ram s) a.
Proof.
  induction str as [|c str IH]; intros s a Hs Hp Hl H1 H2; cbn [print length] in *; [done|].
  apply Forall_cons in Hp as [[Hn Hb] Hp]. pose proof (write_char_frame s c 15 Hs) as (Hs' & _ & _).
  assert (Hw : rd8 (m_ram (console_write_char c 15 s)) a = rd8 (m_ram s) a /\
    (curr_y (m_con (console_write_char c 15 s)) = y /\ Z.of_nat (length str) <= VGA_WIDTH \/
     curr_y (m_con (console_write_char c 15 s)) = u16 (y + 1) /\
     curr_x (m_con (console_write_char c 15 s)) + Z.of_nat (length str) < VGA_WIDTH)).
  { pose proof Hs as (_ & Hx & Hy). unfold console_write_char. rewrite (proj2 (Z.eqb_neq c 10)), (proj2 (Z.eqb_neq c 8)) by done.
    rewrite (u16_small (curr_x (m_con s) + 1)) by (vga; lia).
    split; [|destruct (Z.eqb_spec (curr_x (m_con s) + 1) VGA_WIDTH); cbn; vga; destruct Hl as [[E ?]|[E ?]]; rewrite ?E; lia].
    transitivity (rd8 (m_ram (console_put_char (curr_x (m_con s)) (curr_y (m_con s)) c 15 s)) a); [by case_match|].
    apply put_char_line; try done. by destruct Hl as [[-> _]|[-> _]]. }
  destruct Hw as [<- Hc]. by apply IH.
Qed.

Lemma printable_chars str : forallb (fun c => negb (c =? 10) && negb (c =? 8)) str = true -> Forall printable str.
Proof.
  rewrite forallb_forall. intros H. apply Forall_forall. intros c Hc%list_elem_of_In%H. unfold printable. breflect. lia.
Qed.

Lemma print_message str s a :
  con_ok s -> Forall printable str -> Z.of_nat (length str) <= VGA_WIDTH -> off_lines (m_con s) a ->
  rd8 (m_ram (print (str ++ [10]) s)) a = rd8 (m_ram s) a.
Proof. intros Hs Hp Hl [H1 H2]. rewrite print_app. apply (print_line (curr_y (m_con s)) str s a); auto. Qed.

(** ** The console as a tape of cells

    The reference: one sequence of cells from the start of video memory on,
    and a position in it.  A character fills the cell at the position and moves
    on, a newline moves to the start of the next line of 80 cells, a backspace
    moves back over a cell, of whichever line, and blanks it. *)

Record tape := mk_tape { tp_pos : Z; tp_cell : Z -> Z }.

Definition tape_put (c : Z) (t : tape) : tape :=
  let '(mk_tape pos f) := t in
  if c =? 10 then mk_tape ((pos / VGA_WIDTH + 1) * VGA_WIDTH) f
  else if c =? 8 then
    if pos =? 0 then t else mk_tape (pos - 1) (fun k => if k =? pos - 1 then 32 else f k)
  else mk_tape (pos + 1) (fun k => if k =? pos then make_char c 15 else f k).

Fixpoint tape_print (str : list Z) (t : tape) : tape :=
  match str with
  | [] => t
  | c :: str => tape_print str (tape_put c t)
  end.

(** The image of the kernel is linked at 1 MB (linker.ld); the console writes
    below it while the cursor is on one of the first 1843 lines. *)
Definition IMAGE_ADDR : Z := 0x100000.
Definition IMAGE_LINE : Z := 1843.

(** No character of the text is written on line [IMAGE_LINE] or a later one. *)
Fixpoint above_image (str : list Z) (t : tape) : bool :=
  match str with
  | [] => true
  | c :: str => (tp_pos t <? VGA_WIDTH * IMAGE_LINE) && above_image str (tape_put c t)
  end.

(** The console of [s] shows the tape [t]. *)
Definition shows (s : machine) (t : tape) : Prop :=
  con_ok s /\ cursor_pos s = tp_pos t /\ forall k, cell s k = tp_cell t k.

Lemma cursor_xy s : con_ok s -> curr_y (m_con s) = cursor_pos s / VGA_WIDTH /\ curr_x (m_con s) = cursor_pos s mod VGA_WIDTH.
Proof. intros (_ & Hx & Hy). unfold cursor_pos. vga. zlia. Qed.

(** A backspace blanks the cell before the cursor and moves there. *)
Lemma backspace_prev s :
  con_ok s -> cursor_pos s <> 0 -> exists x y, 0 <= x < VGA_WIDTH /\ 0 <= y <= curr_y (m_con s) /\
  y * VGA_WIDTH + x = cursor_pos s - 1 /\ console_backspace s = console_put_char x y 32 0 (set_cursor x y s).
Proof.
  intros (_ & Hx & Hy) Hp. unfold console_backspace, cursor_pos in *. vga.
  destruct (Z.eqb_spec (curr_x (m_con s)) 0) as [E0|E0].
  - destruct (Z.eqb_spec (curr_y (m_con s)) 0) as [E1|E1]; [lia|]. cbn [andb]. rewrite u16_small by lia.
    exists 79, (curr_y (m_con s) - 1). split_and!; lia || done.
  - cbn [andb]. rewrite u16_small by lia. exists (curr_x (m_con s) - 1), (curr_y (m_con s)). split_and!; lia || done.
Qed.

(** One character, written to a machine that shows the tape [t]. *)
Definition step_shows (s s' : machine) (t' : tape) : Prop :=
  shows s' t' /\ m_heap s' = m_heap s /\ forall a, a < VIDEO_MEM \/ IMAGE_ADDR <= a -> rd8 (m_ram s') a = rd8 (m_ram s) a.

Lemma put_char_low s x y c color a :
  con_ok s -> 0 <= x < VGA_WIDTH -> 0 <= y < IMAGE_LINE -> a < VIDEO_MEM \/ IMAGE_ADDR <= a ->
  rd8 (m_ram (console_put_char x y c color s)) a = rd8 (m_ram s) a.
Proof.
  unfold IMAGE_LINE, IMAGE_ADDR. intros Hs Hx Hy Ha. apply put_char_line; [done | done | lia |]. unfold on_line. vga. lia.
Qed.

Lemma tape_backspace s t : shows s t -> tp_pos t < VGA_WIDTH * IMAGE_LINE -> step_shows s (console_backspace s) (tape_put 8 t).
Proof.
  intros (Hs & Hpos & Hc) Hlow. destruct t as [pos f]. cbn [tp_pos tp_cell] in *. subst pos.
  destruct (backspace_frame s Hs) as (Hs' & Hh & _). cbn [tape_put Z.eqb]. change (8 =? 10) with false. cbn iota.
  destruct (Z.eqb_spec (cursor_pos s) 0) as [E|E].
  { pose proof Hs as (_ & Hx & Hy). unfold console_backspace, cursor_pos in *. vga.
    rewrite (proj2 (Z.eqb_eq (curr_x (m_con s)) 0)), (proj2 (Z.eqb_eq (curr_y (m_con s)) 0)) by lia. done. }
  destruct (backspace_prev s Hs E) as (x & y & Hx & Hy & Ep & Eb). rewrite Eb in *.
  pose proof Hs as (_ & _ & Hy1). assert (Hy2 : y < IMAGE_LINE) by (apply (Z.le_lt_trans _ _ _ (proj2 Hy)); unfold cursor_pos, IMAGE_LINE in *; destruct Hs as (_ & ? & _); vga; lia).
  split; [split; [done|]; split; [exact Ep|]|].
  - intros k. cbn [tp_cell]. rewrite put_char_cell; [|split_and!; cbn; (apply Hs || lia) | done | lia].
    rewrite Ep. change (make_char 32 0) with 32. change (cell (set_cursor x y s) k) with (cell s k). rewrite Hc. cbn. by rewrite (Z.eqb_sym k).
  - split; [done|]. intros a Ha. apply (put_char_low (set_cursor x y s)); [split_and!; cbn; (apply Hs || lia) | done | lia | done].
Qed.

Lemma tape_step s t c :
  shows s t -> tp_pos t < VGA_WIDTH * IMAGE_LINE -> step_shows s (console_write_char c 15 s) (tape_put c t).
Proof.
  intros Hsh Hlow. destruct (decide (c = 8)) as [->|Hb]; [by apply tape_backspace|].
  destruct Hsh as (Hs & Hpos & Hc). destruct t as [pos f]. cbn [tp_pos tp_cell] in *. subst pos.
  destruct (write_char_frame s c 15 Hs) as (Hs' & Hh & _). pose proof Hs as (_ & Hx & Hy).
  assert (Hy2 : curr_y (m_con s) < IMAGE_LINE) by (unfold cursor_pos in *; unfold IMAGE_LINE in *; vga; lia).
  unfold tape_put. destruct (Z.eqb_spec c 10) as [->|Hn].
  { split; [|done]. split; [done|]. split; [|done]. unfold IMAGE_LINE in *. cbn [tp_pos].
    unfold console_write_char, cursor_pos in *. cbn. rewrite u16_small by lia. vga. zlia. }
  rewrite (proj2 (Z.eqb_neq c 8)) by done. unfold IMAGE_LINE in *.
  destruct (write_char_printable s c 15 Hs (conj Hn Hb) ltac:(vga; lia)) as [P1 P2].
  split; [split; [done|]; split; [exact P1|]|].
  - intros k. rewrite P2, Hc. cbn. by repeat case_test; try lia.
  - split; [done|]. intros a Ha.
    transitivity (rd8 (m_ram (console_put_char (curr_x (m_con s)) (curr_y (m_con s)) c 15 s)) a); [|apply put_char_low; done || (unfold IMAGE_LINE; lia)].
    unfold console_write_char. rewrite (proj2 (Z.eqb_neq c 10)), (proj2 (Z.eqb_neq c 8)) by done. by case_match.
Qed.

(** C36: the console is a tape of cells.  Whatever text is printed, with
    newlines and backspaces, the cursor and every cell of video memory are those
    of the tape on which the same characters were put, as long as no character
    is written on line 1843 or below, where the kernel image begins; nothing
    outside of video memory is written, so the image, with the variables of the
    console, is intact. *)
Theorem console_refines_tape (str : list Z) (s : machine) (t : tape)
    (Hs : shows s t) (Hlow : above_image str t = true) :
  shows (print str s) (tape_print str t) /\ m_heap (print str s) = m_heap s /\
  forall a, a < VIDEO_MEM \/ IMAGE_ADDR <= a -> rd8 (m_ram (print str s)) a = rd8 (m_ram s) a.
Proof.
  revert s t Hs Hlow. induction str as [|c str IH]; intros s t Hs Hlow; cbn [print tape_print above_image] in *; [done|].
  apply andb_true_iff in Hlow as [H1%Z.ltb_lt H2]. destruct (tape_step s t c Hs H1) as (Hs' & Hh & Hm).
  destruct (IH _ _ Hs' H2) as (P1 & P2 & P3). split_and!; [done | congruence |]. intros a Ha. by rewrite P3, Hm.
Qed.

(** Text that wraps around at the end of line 7, goes back over the break and
    ends the line. *)
Lemma console_refines_tape_witness :
  let s := mk_machine ∅ (mk_console VIDEO_MEM 7 79) (mk_kheap (mk_table 0 0) 0) in
  cursor_pos (print [65; 66; 8; 8; 67; 10; 68] s) = 721 /\ cell (print [65; 66; 8; 8; 67; 10; 68] s) 639 = make_char 67 15.
Proof.
  cbv zeta. assert (Hs : shows (mk_machine ∅ (mk_console VIDEO_MEM 7 79) (mk_kheap (mk_table 0 0) 0)) (mk_tape 639 (fun _ => 0))).
  { split; [split_and!; cbn; (reflexivity || vga; lia)|]. split; [reflexivity|]. intros k. reflexivity. }
  destruct (console_refines_tape [65; 66; 8; 8; 67; 10; 68] _ _ Hs eq_refl) as ((_ & Hp & Hc) & _).
  split; [exact Hp | exact (Hc 639)].
Defined.
