(* ===== verification/Invariants.v ===== *)
(** * invariants.h: the assumptions that the kernel checks at run time

    Each assumption is a static that is set once, at compile time, and an
    [assert_*] function that stops the machine when the static is false. *)
From Stdlib Require Import ZArith String.
From stdpp Require Import base.
From S2P Require Import Prelude Machine Console.
Local Open Scope Z_scope.

Definition no_page_sharing : bool := true.
Definition kernel_mapped_in_user_va : bool := true.
Definition interrupt_handler_cli_always : bool := true.
Definition single_cpu : bool := true.
Definition kernel_uses_less_than_128mb_phy_adders : bool := true.
Definition single_task_per_process : bool := true.
Definition kmalloc_returns_page_aligned_memory : bool := true.

Definition assert_kmalloc_returns_page_aligned_memory : M machine unit :=
  if negb kmalloc_returns_page_aligned_memory then panic "Using kmalloc returns page aligned memory invariant" else mret tt.

Definition assert_single_task_per_process : M machine unit :=
  if negb single_task_per_process then panic "Using single task per process invariant" else mret tt.

Definition assert_no_page_sharing : M machine unit :=
  if negb no_page_sharing then panic "Using no page sharing invariant" else mret tt.

Definition assert_kernel_mapped_in_user_va : M machine unit :=
  if negb kernel_mapped_in_user_va then panic "Using kernel mapped in user va invariant" else mret tt.

Definition assert_interrupt_handler_cli_always : M machine unit :=
  if negb interrupt_handler_cli_always then panic "Using interrupt handler cli always invariant" else mret tt.

Definition assert_single_cpu : M machine unit :=
  if negb single_cpu then panic "Using single cpu invariant" else mret tt.

Definition assert_all_of_kernel_uses_less_than_128mb_phy_adders : M machine unit :=
  if negb kernel_uses_less_than_128mb_phy_adders then panic "Using all of kernel uses less than 2gb phy adders invariant"
  else mret tt.

(** An assertion holds and does nothing: its static is true. *)
Lemma wp_assert (a : M machine unit) s Q : a = mret tt -> Q tt s -> wp a s Q.
Proof. intros ->. apply wp_ret. Qed.

Ltac wp_assert := apply wp_assert; [reflexivity|].
