(* ===== verification/Kheap.v ===== *)
(** * memory/heap/kheap.c: the kernel heap

    A first-fit allocator of 4 KiB blocks.  One byte per block, in a table at
    [KHEAP_TABLE_ADDR], records whether the block is taken, whether it is the
    first of its allocation and whether the allocation goes on. *)
From Stdlib Require Import ZArith Lia String.
From stdpp Require Import base numbers gmap list strings.
From S2P Require Import Prelude Config Memory Machine Console.
Local Open Scope Z_scope.

Definition KHEAP_BLOCK_SIZE : Z := 4096.
Definition KERNEL_HEAP_SIZE_BYTES : Z := 104857600.
Definition KHEAP_ADDR : Z := 0x01000000.
Definition KHEAP_TABLE_ADDR : Z := 0x00007E00.
Definition KHEAP_BLOCK_TABLE_ENTRY_TAKEN : Z := 0x01.
Definition KHEAP_BLOCK_TABLE_ENTRY_FREE : Z := 0x00.
Definition KHEAP_BLOCK_HAS_NEXT : Z := 128.
Definition KHEAP_BLOCK_IS_FIRST : Z := 64.

Definition validate_ptr_alignment (ptr : Z) : bool := u32 ptr mod KHEAP_BLOCK_SIZE =? 0.

Definition validate_kheap_table (kheap_start kheap_end : Z) (tbl : KHEAP_ENTRY_TABLE) : bool :=
  let table_size := u32 (kheap_end - kheap_start) in
  let total_blocks := table_size / KHEAP_BLOCK_SIZE in
  num_entries tbl =? total_blocks.

Definition kheap_create (start_addr end_addr : Z) (tbl : KHEAP_ENTRY_TABLE) : M machine Z :=
  if negb (validate_ptr_alignment start_addr) || negb (validate_ptr_alignment end_addr)
  then mret (- STATUS_INVALID_ARG)
  else
    modify (set_heap (mk_kheap tbl start_addr));;
    if negb (validate_kheap_table start_addr end_addr tbl) then mret (- STATUS_INVALID_ARG)
    else
      let kheap_table_size := u32 (1 * num_entries tbl) in
      modify (on_ram (memset (entries tbl) KHEAP_BLOCK_TABLE_ENTRY_FREE kheap_table_size));;
      mret STATUS_OK.

Definition kheap_init : M machine Z :=
  let total_table_entries := KERNEL_HEAP_SIZE_BYTES / KHEAP_BLOCK_SIZE in
  let tbl := mk_table KHEAP_TABLE_ADDR total_table_entries in
  let kheap_end := u32 (KHEAP_ADDR + KERNEL_HEAP_SIZE_BYTES) in
  res ← kheap_create KHEAP_ADDR kheap_end tbl;
  if res <? 0 then
    modify (print (chars "error while creating kheap" ++ [10]));;
    mret (- STATUS_GENERIC_ERROR)
  else mret STATUS_OK.

Definition get_kheap_entry_type (entry : Z) : Z := Z.land entry 0x0f.

Definition kheap_block_to_addr (block_index : Z) (s : machine) : Z :=
  u32 (kheap_physical_start_addr (m_heap s) + block_index * KHEAP_BLOCK_SIZE).

Definition kheap_addr_to_block_index (addr : Z) (s : machine) : Z :=
  u32 (addr - kheap_physical_start_addr (m_heap s)) / KHEAP_BLOCK_SIZE.

(** [kheap.entry_table->entries[i]]; like the C array access, the index is
    not checked against [num_entries]. *)
Definition entry_addr (s : machine) (i : Z) : Z := u32 (entries (entry_table (m_heap s)) + i).
Definition get_entry (s : machine) (i : Z) : Z := rd8 (m_ram s) (entry_addr s i).
Definition set_entry (i v : Z) (s : machine) : machine :=
  on_ram (fun m => wr8 m (entry_addr s i) v) s.

Definition entry_is_free (s : machine) (i : Z) : bool :=
  get_kheap_entry_type (get_entry s i) =? KHEAP_BLOCK_TABLE_ENTRY_FREE.

(** The inner search loop: the index at which it stops, at most [n] further. *)
Fixpoint scan_run (n : nat) (j : Z) (s : machine) : Z :=
  match n with
  | O => j
  | S n => if entry_is_free s j then scan_run n (j + 1) s else j
  end.

(** The outer search loop over the remaining [n] entries. *)
Fixpoint find_run (n : nat) (i num_blocks : Z) (s : machine) : option Z :=
  match n with
  | O => None
  | S n =>
    if entry_is_free s i && (scan_run (Z.to_nat num_blocks) i s =? i + num_blocks)
    then Some i
    else find_run n (i + 1) num_blocks s
  end.

(** The marking loop: entries [i .. end_block]. *)
Fixpoint mark_rest (n : nat) (i end_block : Z) (s : machine) : machine :=
  match n with
  | O => s
  | S n =>
    let entry := if i <? end_block
                 then Z.lor KHEAP_BLOCK_TABLE_ENTRY_TAKEN KHEAP_BLOCK_HAS_NEXT
                 else KHEAP_BLOCK_TABLE_ENTRY_TAKEN in
    mark_rest n (i + 1) end_block (set_entry i entry s)
  end.

Definition kmalloc (size : Z) : M machine Z :=
  let num_blocks := u32 (size + KHEAP_BLOCK_SIZE - 1) / KHEAP_BLOCK_SIZE in
  s ← get;
  match find_run (Z.to_nat (num_entries (entry_table (m_heap s)))) 0 num_blocks s with
  | None =>
    modify (print (chars "kheap: out of memory" ++ [10]));;
    mret 0
  | Some first_alloc_block =>
    let start_block := first_alloc_block in
    let end_block := first_alloc_block + num_blocks - 1 in
    let entry := Z.lor KHEAP_BLOCK_TABLE_ENTRY_TAKEN KHEAP_BLOCK_IS_FIRST in
    let entry := if 1 <? num_blocks then Z.lor entry KHEAP_BLOCK_HAS_NEXT else entry in
    modify (set_entry start_block entry);;
    modify (mark_rest (Z.to_nat (end_block - start_block)) (start_block + 1) end_block);;
    gets (kheap_block_to_addr first_alloc_block)
  end.

(** The freeing loop over the remaining [n] entries of the table. *)
Fixpoint kfree_loop (n : nat) (i : Z) (s : machine) : machine :=
  match n with
  | O => s
  | S n =>
    let entry := get_entry s i in
    let s := set_entry i KHEAP_BLOCK_TABLE_ENTRY_FREE s in
    if Z.land entry KHEAP_BLOCK_HAS_NEXT =? 0 then s else kfree_loop n (i + 1) s
  end.

Definition kfree (ptr : Z) : M machine Z :=
  s ← get;
  let start_block := kheap_addr_to_block_index ptr s in
  modify (kfree_loop (Z.to_nat (num_entries (entry_table (m_heap s)) - start_block)) start_block);;
  mret 0.

Definition kzalloc (size : Z) : M machine Z :=
  ptr ← kmalloc size;
  modify (on_ram (memset ptr 0 size));;
  mret ptr.

Fixpoint count_free (n : nat) (i num_free : Z) (s : machine) : Z :=
  match n with
  | O => num_free
  | S n => count_free n (i + 1) (if entry_is_free s i then num_free + 1 else num_free) s
  end.

Definition kheap_num_free_blocks (s : machine) : Z :=
  count_free (Z.to_nat (num_entries (entry_table (m_heap s)))) 0 0 s.

(** ** The table as a function from block indices to entries *)

Definition HEAP_BLOCKS : Z := 25600.
Definition HEAP_END : Z := KHEAP_ADDR + KERNEL_HEAP_SIZE_BYTES.
Definition TABLE_END : Z := KHEAP_TABLE_ADDR + HEAP_BLOCKS.

(** The statics of kheap.c after [kheap_init], and a usable console. *)
Definition heap_ok (s : machine) : Prop :=
  m_heap s = mk_kheap (mk_table KHEAP_TABLE_ADDR HEAP_BLOCKS) KHEAP_ADDR /\ con_ok s.

Definition block_addr (i : Z) : Z := KHEAP_ADDR + 4096 * i.

(** The entry that block [k] of an allocation of [n] blocks carries. *)
Definition run_entry (n k : Z) : Z :=
  if k =? 0 then (if 1 <? n then 193 else 65) else (if k + 1 <? n then 129 else 1).

(** A request of [nb] blocks can be placed at [i]. *)
Definition fits (s : machine) (nb i : Z) : Prop :=
  entry_is_free s i = true /\ forall j, i <= j < i + nb -> entry_is_free s j = true.

Ltac hp := unfold TABLE_END, HEAP_END, HEAP_BLOCKS, KHEAP_TABLE_ADDR, KHEAP_ADDR, KHEAP_BLOCK_SIZE,
             KERNEL_HEAP_SIZE_BYTES in *.

Lemma heap_entry s i :
  heap_ok s -> 0 <= i < 4000000000 -> get_entry s i = rd8 (m_ram s) (KHEAP_TABLE_ADDR + i).
Proof.
  intros [H _] Hi. unfold get_entry, entry_addr. rewrite H. cbn [entry_table entries]. hp.
  by rewrite u32_small by lia.
Qed.

Lemma set_entry_ram s i v :
  heap_ok s -> 0 <= i < 4000000000 ->
  set_entry i v s = on_ram (fun m => wr8 m (KHEAP_TABLE_ADDR + i) v) s.
Proof.
  intros [H _] Hi. unfold set_entry, entry_addr. rewrite H. cbn [entry_table entries]. hp.
  by rewrite u32_small by lia.
Qed.

Lemma heap_ok_ram m s : heap_ok (set_ram m s) <-> heap_ok s.
Proof. done. Qed.

Lemma entry_is_free_ext s s' j :
  heap_ok s -> heap_ok s' -> 0 <= j < 4000000000 ->
  rd8 (m_ram s') (KHEAP_TABLE_ADDR + j) = rd8 (m_ram s) (KHEAP_TABLE_ADDR + j) ->
  entry_is_free s' j = entry_is_free s j.
Proof. intros ??? E. unfold entry_is_free. by rewrite !heap_entry, E. Qed.

(** ** The search *)

Lemma scan_run_spec n : forall j s,
  j <= scan_run n j s <= j + Z.of_nat n /\
  (scan_run n j s = j + Z.of_nat n <-> forall k, j <= k < j + Z.of_nat n -> entry_is_free s k = true).
Proof.
  induction n as [|n IH]; intros j s; cbn [scan_run].
  { split; [lia|]. split; [intros; lia | lia]. }
  destruct (entry_is_free s j) eqn:E.
  - destruct (IH (j + 1) s) as [Hb Hi]. split; [lia|].
    replace (j + Z.of_nat (S n)) with (j + 1 + Z.of_nat n) by lia. rewrite Hi. split; intros H k Hk.
    + destruct (decide (k = j)) as [->|]; [done | apply H; lia].
    + apply H. lia.
  - split; [lia|]. split; [lia|]. intros H. rewrite (H j) in E by lia. done.
Qed.

Lemma fits_dec s nb i :
  0 <= nb ->
  entry_is_free s i && (scan_run (Z.to_nat nb) i s =? i + nb) = true <-> fits s nb i.
Proof.
  intros Hnb. unfold fits. destruct (scan_run_spec (Z.to_nat nb) i s) as [_ H].
  rewrite Z2Nat.id in H by done. by rewrite andb_true_iff, Z.eqb_eq, H.
Qed.

(** The search answers the first index below the bound at which the request
    fits. *)
Lemma find_run_spec n nb s : 0 <= nb -> forall i,
  match find_run n i nb s with
  | Some r => i <= r < i + Z.of_nat n /\ fits s nb r /\ forall k, i <= k < r -> ~ fits s nb k
  | None => forall k, i <= k < i + Z.of_nat n -> ~ fits s nb k
  end.
Proof.
  intros Hnb. induction n as [|n IH]; intros i; cbn [find_run]; [intros; lia|].
  destruct (entry_is_free s i && (scan_run (Z.to_nat nb) i s =? i + nb)) eqn:E.
  - apply fits_dec in E; [|done]. split_and!; [lia | lia | done | intros; lia].
  - assert (~ fits s nb i) as Hi by (rewrite <- fits_dec, E; done).
    specialize (IH (i + 1)). destruct (find_run n (i + 1) nb s) as [r|].
    + destruct IH as (? & ? & Hk). split_and!; [lia | lia | done |]. intros k ?.
      destruct (decide (k = i)) as [->|]; [done | apply Hk; lia].
    + intros k ?. destruct (decide (k = i)) as [->|]; [done | apply IH; lia].
Qed.

(** ** Marking *)

Definition alloc_run (i n : Z) (s : machine) : machine :=
  mark_rest (Z.to_nat (i + n - 1 - i)) (i + 1) (i + n - 1)
    (set_entry i (if 1 <? n then 193 else 65) s).

Lemma mark_rest_spec n : forall i e s,
  heap_ok s -> 0 <= i -> i + Z.of_nat n < 4000000000 -> e = i + Z.of_nat n - 1 ->
  exists m, mark_rest n i e s = set_ram m s /\
  forall a, rd8 m a = if (KHEAP_TABLE_ADDR + i <=? a) && (a <? KHEAP_TABLE_ADDR + i + Z.of_nat n)
                      then (if a <? KHEAP_TABLE_ADDR + e then 129 else 1)
                      else rd8 (m_ram s) a.
Proof.
  induction n as [|n IH]; intros i e s Hs Hi Hn He; cbn [mark_rest].
  { exists (m_ram s). split; [by destruct s|]. intros a. by repeat case_test; try lia. }
  rewrite set_entry_ram by (done || lia).
  destruct (IH (i + 1) e (on_ram (fun m => wr8 m (KHEAP_TABLE_ADDR + i)
     (if i <? e then Z.lor KHEAP_BLOCK_TABLE_ENTRY_TAKEN KHEAP_BLOCK_HAS_NEXT
      else KHEAP_BLOCK_TABLE_ENTRY_TAKEN)) s)) as (m & E & Hm); [done | lia.. |].
  exists m. rewrite E. split; [done|]. intros a. rewrite Hm. cbn [on_ram set_ram m_ram].
  rewrite rd8_wr8. repeat case_test; cbn; try lia; done.
Qed.

(** Marking writes the entries of the run and nothing else. *)
Lemma alloc_run_spec i n s :
  heap_ok s -> 0 <= i < HEAP_BLOCKS -> 0 <= n <= 1048576 ->
  exists m, alloc_run i n s = set_ram m s /\
  forall a, rd8 m a = if (KHEAP_TABLE_ADDR + i <=? a) && (a <? KHEAP_TABLE_ADDR + i + Z.max 1 n)
                      then run_entry n (a - KHEAP_TABLE_ADDR - i) else rd8 (m_ram s) a.
Proof.
  intros Hs Hi Hn. unfold alloc_run. rewrite set_entry_ram by (done || hp; lia).
  destruct (decide (n = 0)) as [->|].
  { replace (Z.to_nat (i + 0 - 1 - i)) with O by lia. cbn [mark_rest]. eexists. split; [done|].
    intros a. rewrite rd8_wr8. unfold run_entry. repeat case_test; cbn; try lia; done. }
  set (s1 := on_ram _ s).
  destruct (mark_rest_spec (Z.to_nat (i + n - 1 - i)) (i + 1) (i + n - 1) s1) as (m & E & Hm);
    [done | hp; lia.. |].
  exists m. split; [exact E|]. intros a. rewrite Hm. subst s1. cbn [on_ram set_ram m_ram]. rewrite rd8_wr8.
  unfold run_entry. repeat case_test; cbn; try lia; done.
Qed.

(** ** kmalloc *)

Definition blocks_of (size : Z) : Z := u32 (size + KHEAP_BLOCK_SIZE - 1) / KHEAP_BLOCK_SIZE.

Lemma blocks_of_range size : 0 <= blocks_of size < 1048576.
Proof.
  unfold blocks_of. hp. pose proof (u32_range (size + 4096 - 1)). zlia.
Qed.

Lemma blocks_of_small size : 0 < size <= 4096 -> blocks_of size = 1.
Proof. intros. unfold blocks_of. hp. rewrite u32_small by lia. zlia. Qed.

Definition oom_msg : list Z := chars "kheap: out of memory" ++ [10].

Lemma oom_frame s a : con_ok s -> off_lines (m_con s) a -> rd8 (m_ram (print oom_msg s)) a = rd8 (m_ram s) a.
Proof.
  intros Hs Ha. apply print_message; [done | by apply printable_chars | vm_compute; discriminate | done].
Qed.

Lemma kmalloc_run size s :
  heap_ok s ->
  kmalloc size s =
  match find_run (Z.to_nat HEAP_BLOCKS) 0 (blocks_of size) s with
  | None => Ret 0 (print oom_msg s)
  | Some i => Ret (block_addr i) (alloc_run i (blocks_of size) s)
  end.
Proof.
  intros Hs. unfold kmalloc, mbind, M_bind, get. fold (blocks_of size).
  replace (num_entries (entry_table (m_heap s))) with HEAP_BLOCKS by (destruct Hs as [-> _]; done).
  pose proof (find_run_spec (Z.to_nat HEAP_BLOCKS) (blocks_of size) s (proj1 (blocks_of_range size)) 0) as Hf.
  pose proof (blocks_of_range size) as Hr.
  destruct (find_run _ 0 _ s) as [i|]; [|done]. destruct Hf as (Hi & _ & _).
  rewrite Z2Nat.id in Hi by (hp; lia).
  unfold modify, gets.
  destruct (alloc_run_spec i (blocks_of size) s Hs ltac:(lia) ltac:(lia)) as (m & E & _).
  unfold alloc_run in *.
  assert (Ee : (if 1 <? blocks_of size
                then Z.lor (Z.lor KHEAP_BLOCK_TABLE_ENTRY_TAKEN KHEAP_BLOCK_IS_FIRST) KHEAP_BLOCK_HAS_NEXT
                else Z.lor KHEAP_BLOCK_TABLE_ENTRY_TAKEN KHEAP_BLOCK_IS_FIRST)
               = if 1 <? blocks_of size then 193 else 65) by (by destruct (1 <? blocks_of size)).
  rewrite Ee, E. f_equal. unfold kheap_block_to_addr, block_addr. cbn [set_ram m_heap].
  destruct Hs as [-> _]. cbn [kheap_physical_start_addr]. hp. rewrite u32_small; lia.
Qed.

Lemma find_first size s :
  match find_run (Z.to_nat HEAP_BLOCKS) 0 (blocks_of size) s with
  | Some i => 0 <= i < HEAP_BLOCKS /\ fits s (blocks_of size) i /\
              forall k, 0 <= k < i -> ~ fits s (blocks_of size) k
  | None => forall k, 0 <= k < HEAP_BLOCKS -> ~ fits s (blocks_of size) k
  end.
Proof.
  pose proof (find_run_spec (Z.to_nat HEAP_BLOCKS) (blocks_of size) s (proj1 (blocks_of_range size)) 0) as H.
  rewrite Z2Nat.id in H by (hp; lia). by destruct (find_run _ 0 _ s).
Qed.

(** The whole behaviour of kmalloc: first fit, or the null pointer and a
    message when the request fits nowhere. *)
Lemma kmalloc_spec size s :
  heap_ok s ->
  wp (kmalloc size) s (fun p s' =>
    (p = 0 /\ s' = print oom_msg s /\ forall k, 0 <= k < HEAP_BLOCKS -> ~ fits s (blocks_of size) k) \/
    (exists i, 0 <= i < HEAP_BLOCKS /\ p = block_addr i /\ fits s (blocks_of size) i /\
       (forall k, 0 <= k < i -> ~ fits s (blocks_of size) k) /\ s' = alloc_run i (blocks_of size) s)).
Proof.
  intros Hs. unfold wp. rewrite kmalloc_run by done. pose proof (find_first size s) as H.
  destruct (find_run _ 0 _ s) as [i|]; [right; exists i | left]; tauto.
Qed.

(** ** kfree *)

Lemma kfree_loop_spec n : forall i s len,
  heap_ok s -> 0 <= i -> i + Z.of_nat n = HEAP_BLOCKS -> 1 <= len ->
  (forall k, 0 <= k < len -> i + k < HEAP_BLOCKS ->
     Z.land (get_entry s (i + k)) KHEAP_BLOCK_HAS_NEXT = 0 <-> k = len - 1) ->
  exists m, kfree_loop n i s = set_ram m s /\
  forall a, rd8 m a = if (KHEAP_TABLE_ADDR + i <=? a) && (a <? KHEAP_TABLE_ADDR + Z.min (i + len) HEAP_BLOCKS)
                      then 0 else rd8 (m_ram s) a.
Proof.
  induction n as [|n IH]; intros i s len Hs Hi Hn Hlen Hk; cbn [kfree_loop].
  { exists (m_ram s). split; [by destruct s|]. intros a. by repeat case_test; try lia. }
  pose proof (Hk 0 ltac:(lia) ltac:(lia)) as H0. rewrite Z.add_0_r in H0.
  rewrite set_entry_ram by (done || hp; lia). set (s1 := on_ram _ s).
  destruct (Z.eqb_spec (Z.land (get_entry s i) KHEAP_BLOCK_HAS_NEXT) 0) as [E|E].
  - apply H0 in E. eexists. split; [done|]. intros a. cbn. rewrite rd8_wr8.
    repeat case_test; cbn; try lia; done.
  - destruct (decide (len = 1)) as [->|]; [contradiction E; by apply H0|].
    destruct (IH (i + 1) s1 (len - 1)) as (m & Em & Hm); [done | lia.. | |].
    { intros k ??. rewrite <- (Z.add_assoc i 1 k), !heap_entry by (done || hp; lia).
      subst s1. cbn [on_ram set_ram m_ram]. rewrite rd8_wr8_ne by lia.
      rewrite <- heap_entry by (done || hp; lia). rewrite Hk by lia. lia. }
    exists m. split; [exact Em|]. intros a. rewrite Hm. subst s1. cbn [on_ram set_ram m_ram].
    rewrite rd8_wr8. repeat case_test; cbn; try lia; done.
Qed.

(** A pointer into block [i] names block [i]. *)
Lemma addr_to_block s i p :
  heap_ok s -> 0 <= i < HEAP_BLOCKS -> block_addr i <= p < block_addr i + 4096 ->
  kheap_addr_to_block_index p s = i.
Proof.
  intros [H _] Hi Hp. unfold kheap_addr_to_block_index, block_addr in *. rewrite H.
  cbn [kheap_physical_start_addr]. hp. rewrite u32_small by lia. zlia.
Qed.

(** A pointer below the heap (the null pointer included) or past its end is
    not freed. *)
Lemma kfree_outside p s :
  heap_ok s -> 0 <= p < KHEAP_ADDR \/ HEAP_END <= p < 4294967296 -> kfree p s = Ret 0 s.
Proof.
  intros Hs Hp. unfold kfree, mbind, M_bind, get, modify.
  replace (Z.to_nat _) with O; [done|]. destruct Hs as [Hs _].
  unfold kheap_addr_to_block_index. rewrite Hs. cbn. hp. unfold u32. zlia.
Qed.

Lemma kfree_run p i s :
  heap_ok s -> 0 <= i < HEAP_BLOCKS -> block_addr i <= p < block_addr i + 4096 ->
  kfree p s = Ret 0 (kfree_loop (Z.to_nat (HEAP_BLOCKS - i)) i s).
Proof.
  intros Hs Hi Hp. unfold kfree, mbind, M_bind, get, modify.
  rewrite (addr_to_block s i p) by done. destruct Hs as [-> _]. done.
Qed.

(** Whatever pointer it is given, kfree returns 0 and writes to the entry
    table only. *)
Lemma kfree_loop_frame n : forall i s,
  heap_ok s -> 0 <= i -> i + Z.of_nat n <= HEAP_BLOCKS ->
  exists m, kfree_loop n i s = set_ram m s /\
  forall a, a < KHEAP_TABLE_ADDR \/ TABLE_END <= a -> rd8 m a = rd8 (m_ram s) a.
Proof.
  induction n as [|n IH]; intros i s Hs Hi Hn; cbn [kfree_loop].
  { exists (m_ram s). by destruct s. }
  rewrite set_entry_ram by (done || hp; lia). set (s1 := on_ram _ s).
  assert (H1 : forall a, a < KHEAP_TABLE_ADDR \/ TABLE_END <= a -> rd8 (m_ram s1) a = rd8 (m_ram s) a).
  { intros a Ha. apply rd8_wr8_ne. unfold TABLE_END in Ha. lia. }
  destruct (_ =? 0); [by exists (m_ram s1)|].
  destruct (IH (i + 1) s1) as (m & E & Hm); [done | lia | lia |].
  exists m. split; [exact E|]. intros a Ha. by rewrite Hm, H1.
Qed.

Lemma kfree_frame p s :
  heap_ok s -> exists m, kfree p s = Ret 0 (set_ram m s) /\
  forall a, a < KHEAP_TABLE_ADDR \/ TABLE_END <= a -> rd8 m a = rd8 (m_ram s) a.
Proof.
  intros Hs. unfold kfree, mbind, M_bind, get, modify.
  assert (Hp : 0 <= kheap_addr_to_block_index p s).
  { unfold kheap_addr_to_block_index. hp. apply Z.div_pos; [apply u32_range | lia]. }
  replace (num_entries (entry_table (m_heap s))) with HEAP_BLOCKS by (destruct Hs as [-> _]; done).
  destruct (decide (kheap_addr_to_block_index p s <= HEAP_BLOCKS)).
  - destruct (kfree_loop_frame (Z.to_nat (HEAP_BLOCKS - kheap_addr_to_block_index p s))
      (kheap_addr_to_block_index p s) s) as (m & -> & Hm); [done | done | lia | eauto].
  - replace (Z.to_nat _) with O by lia. exists (m_ram s). by destruct s.
Qed.

(** Freeing a single-block object clears its entry. *)
Lemma kfree_page b s :
  heap_ok s -> 0 <= b < HEAP_BLOCKS -> get_entry s b = 65 ->
  kfree (block_addr b) s = Ret 0 (set_entry b 0 s).
Proof.
  intros Hs Hb He. rewrite (kfree_run _ b) by (done || lia).
  destruct (Z.to_nat (HEAP_BLOCKS - b)) eqn:E; [lia|]. cbn [kfree_loop]. by rewrite He.
Qed.

(** ** The abstract heap: allocations as a map from first block to length *)

Definition covers (A : gmap Z Z) (j : Z) : Prop := exists i n, A !! i = Some n /\ i <= j < i + n.

(** [heap_rep s A]: the table of [s] records exactly the allocations [A]. *)
Definition heap_rep (s : machine) (A : gmap Z Z) : Prop :=
  heap_ok s /\
  (forall i n, A !! i = Some n -> 0 <= i /\ 1 <= n /\ i + n <= HEAP_BLOCKS /\
     forall k, 0 <= k < n -> rd8 (m_ram s) (KHEAP_TABLE_ADDR + (i + k)) = run_entry n k) /\
  (forall j, 0 <= j < HEAP_BLOCKS -> rd8 (m_ram s) (KHEAP_TABLE_ADDR + j) <> 0 -> covers A j).

Lemma run_entry_taken n k : get_kheap_entry_type (run_entry n k) = 1.
Proof. unfold run_entry. by repeat case_test. Qed.

Lemma run_entry_first n k : Z.land (run_entry n k) KHEAP_BLOCK_IS_FIRST = 0 <-> k <> 0.
Proof. unfold run_entry. by repeat case_test; cbn; split; intros; try lia. Qed.

Lemma run_entry_next n k :
  1 <= n -> 0 <= k < n -> Z.land (run_entry n k) KHEAP_BLOCK_HAS_NEXT = 0 <-> k = n - 1.
Proof. unfold run_entry. intros. by repeat case_test; cbn; split; intros; try lia. Qed.

Lemma rep_in_bounds s A j : heap_rep s A -> covers A j -> 0 <= j < HEAP_BLOCKS.
Proof. intros (_ & H & _) (i & n & Hi & Hj). destruct (H i n Hi) as (? & ? & ? & _). lia. Qed.

(** A block is free exactly when no allocation covers it. *)
Lemma rep_free s A j :
  heap_rep s A -> 0 <= j < HEAP_BLOCKS -> entry_is_free s j = true <-> ~ covers A j.
Proof.
  intros (Hs & H1 & H2) Hj. unfold entry_is_free. rewrite heap_entry by (done || hp; lia). split.
  - intros Hf (i & n & Hi & Hr). destruct (H1 i n Hi) as (_ & _ & _ & Hk).
    specialize (Hk (j - i) ltac:(lia)). replace (i + (j - i)) with j in Hk by lia.
    rewrite Hk, run_entry_taken in Hf. done.
  - intros Hc. destruct (decide (rd8 (m_ram s) (KHEAP_TABLE_ADDR + j) = 0)) as [->|]; [done|].
    contradiction Hc. by apply H2.
Qed.

Lemma rep_fits s A n i :
  heap_rep s A -> 0 <= i -> i + Z.max 1 n <= HEAP_BLOCKS ->
  fits s n i <-> forall j, i <= j < i + Z.max 1 n -> ~ covers A j.
Proof.
  intros HR Hi Hn. unfold fits. split.
  - intros [Hf Ha] j Hj. apply (rep_free s); [done | lia |].
    destruct (decide (j = i)) as [->|]; [done | apply Ha; lia].
  - intros Hc. split; [|intros j Hj]; (apply (rep_free s A); [done | lia |]); apply Hc; lia.
Qed.

(** Two allocations do not overlap. *)
Lemma rep_disjoint s A i n i' n' :
  heap_rep s A -> A !! i = Some n -> A !! i' = Some n' -> i < i' -> i + n <= i'.
Proof.
  intros (_ & H & _) Hi Hi' Hlt. destruct (decide (i + n <= i')); [done|].
  destruct (H i n Hi) as (? & ? & ? & Hk). destruct (H i' n' Hi') as (? & ? & ? & Hk').
  specialize (Hk (i' - i) ltac:(lia)). specialize (Hk' 0 ltac:(lia)).
  replace (i + (i' - i)) with (i' + 0) in Hk by lia. rewrite Hk' in Hk.
  pose proof (run_entry_first n (i' - i)) as F. pose proof (run_entry_first n' 0) as F'.
  rewrite Hk in F'. rewrite F in F'. lia.
Qed.

Lemma heap_ok_init m s :
  con_ok s -> heap_ok (set_ram m (set_heap (mk_kheap (mk_table KHEAP_TABLE_ADDR HEAP_BLOCKS) KHEAP_ADDR) s)).
Proof. done. Qed.

(** kheap_init succeeds and starts with no allocation. *)
Lemma kheap_init_rep s :
  con_ok s -> wp kheap_init s (fun r s' => r = STATUS_OK /\ heap_rep s' ∅).
Proof.
  intros Hs. unfold kheap_init, kheap_create.
  change (KERNEL_HEAP_SIZE_BYTES / KHEAP_BLOCK_SIZE) with HEAP_BLOCKS. cbn [negb orb].
  change (validate_ptr_alignment KHEAP_ADDR) with true.
  change (validate_ptr_alignment _) with true. cbn [negb orb].
  change (validate_kheap_table _ _ _) with true. cbn [negb].
  wp_steps. split; [done|]. split; [by apply heap_ok_init|]. split.
  - intros i n. by rewrite lookup_empty.
  - intros j Hj Hnz. contradiction Hnz. cbn [on_ram set_ram set_heap m_ram entries num_entries].
    change (u32 (1 * HEAP_BLOCKS)) with HEAP_BLOCKS. apply rd8_memset_in; hp; lia.
Qed.

(** ** kmalloc and kfree refine adding and removing an allocation *)

Lemma covers_insert A i n j :
  A !! i = None -> covers (<[i := n]> A) j <-> i <= j < i + n \/ covers A j.
Proof.
  intros Hi. unfold covers. split.
  - intros (i' & n' & Hl & Hj). destruct (decide (i = i')) as [<-|].
    + rewrite lookup_insert_eq in Hl. injection Hl as ->. by left.
    + rewrite lookup_insert_ne in Hl by done. right. eauto.
  - intros [Hj|(i' & n' & Hl & Hj)].
    + exists i, n. by rewrite lookup_insert_eq.
    + exists i', n'. rewrite lookup_insert_ne; [done|]. by intros <-; rewrite Hi in Hl.
Qed.

Lemma con_frame_rep s s' A : con_frame s s' -> heap_rep s A -> heap_rep s' A.
Proof.
  intros (Hc & Hh & Hf) ([Hs _] & H1 & H2).
  assert (Hf' : forall j, j < HEAP_BLOCKS -> rd8 (m_ram s') (KHEAP_TABLE_ADDR + j) = rd8 (m_ram s) (KHEAP_TABLE_ADDR + j)).
  { intros. apply Hf. hp. vga. lia. }
  split; [split; [congruence | done]|]. split.
  - intros i n Hi. destruct (H1 i n Hi) as (? & ? & ? & Hk). split_and!; try done.
    intros k ?. rewrite Hf' by lia. by apply Hk.
  - intros j Hj. rewrite Hf' by lia. by apply H2.
Qed.

Lemma alloc_run_rep s A i n :
  heap_rep s A -> 0 <= n <= 1048576 -> 0 <= i -> i + Z.max 1 n <= HEAP_BLOCKS -> fits s n i ->
  A !! i = None /\ heap_rep (alloc_run i n s) (<[i := Z.max 1 n]> A).
Proof.
  intros HR Hn Hi Hb Hf. pose proof HR as (Hs & H1 & H2).
  rewrite (rep_fits s A) in Hf by done.
  assert (HA : A !! i = None).
  { destruct (A !! i) as [n'|] eqn:E; [|done]. contradiction (Hf i ltac:(lia)). exists i, n'.
    split; [done|]. destruct (H1 i n' E) as (? & ? & _). lia. }
  split; [done|]. destruct (alloc_run_spec i n s Hs ltac:(lia) Hn) as (m & -> & Hm).
  split; [by apply heap_ok_ram|]. split; cbn [set_ram m_ram].
  - intros i' n' Hl. destruct (decide (i = i')) as [<-|].
    + rewrite lookup_insert_eq in Hl. injection Hl as <-. split_and!; try lia.
      intros k Hk. rewrite Hm. repeat case_test; cbn; try lia.
      replace (KHEAP_TABLE_ADDR + (i + k) - KHEAP_TABLE_ADDR - i) with k by lia.
      unfold run_entry. by repeat case_test; try lia.
    + rewrite lookup_insert_ne in Hl by done. destruct (H1 i' n' Hl) as (? & ? & ? & Hk).
      split_and!; try done. intros k Hkn. rewrite Hm. repeat case_test; cbn; try (by apply Hk).
      contradiction (Hf (i' + k) ltac:(lia)). exists i', n'. split; [done | lia].
  - intros j Hj. rewrite Hm, covers_insert by done.
    repeat case_test; cbn; intros; first [by right; apply H2 | left; lia].
Qed.

(** kmalloc answers a run that no allocation covers and adds it to the
    allocations; when it answers null the allocations are unchanged and no
    place of the table can hold the request. *)
Definition kmalloc_post (size : Z) (s : machine) (A : gmap Z Z) (p : Z) (s' : machine) : Prop :=
  let n := Z.max 1 (blocks_of size) in
  (p = 0 /\ s' = print oom_msg s /\ heap_rep s' A /\ forall i, 0 <= i < HEAP_BLOCKS -> ~ fits s (blocks_of size) i) \/
  (exists i, 0 <= i < HEAP_BLOCKS /\ p = block_addr i /\ fits s (blocks_of size) i /\
     (forall k, 0 <= k < i -> ~ fits s (blocks_of size) k) /\
     (forall a, rd8 (m_ram s') a = if (KHEAP_TABLE_ADDR + i <=? a) && (a <? KHEAP_TABLE_ADDR + i + n)
                                   then run_entry (blocks_of size) (a - KHEAP_TABLE_ADDR - i) else rd8 (m_ram s) a) /\
     (i + n <= HEAP_BLOCKS -> (forall j, i <= j < i + n -> ~ covers A j) /\ heap_rep s' (<[i := n]> A))).

Lemma kmalloc_refines size s A : heap_rep s A -> wp (kmalloc size) s (kmalloc_post size s A).
Proof.
  intros HR. pose proof HR as (Hs & _). wp_apply (kmalloc_spec size s Hs).
  pose proof (blocks_of_range size). intros p s' [(-> & -> & H')|(i & Hi & -> & Hf & Hk & ->)].
  - left. split_and!; [done | done | | done]. eapply con_frame_rep; [|exact HR].
    apply print_frame. apply Hs.
  - right. exists i. split_and!; try done; try lia.
    + destruct (alloc_run_spec i (blocks_of size) s Hs Hi ltac:(lia)) as (m & -> & Hm). exact Hm.
    + intros Hn. split; [apply (rep_fits s A); [done | lia | exact Hn | done]|].
      apply alloc_run_rep; [done | lia | lia | exact Hn | done].
Qed.

Lemma kfree_loop_rep s A i n :
  heap_rep s A -> A !! i = Some n ->
  exists m, kfree_loop (Z.to_nat (HEAP_BLOCKS - i)) i s = set_ram m s /\
  forall a, rd8 m a = if (KHEAP_TABLE_ADDR + i <=? a) && (a <? KHEAP_TABLE_ADDR + (i + n)) then 0 else rd8 (m_ram s) a.
Proof.
  intros (Hs & H1 & _) Hi. destruct (H1 i n Hi) as (? & ? & ? & Hk).
  destruct (kfree_loop_spec (Z.to_nat (HEAP_BLOCKS - i)) i s n) as (m & E & Hm); [done | lia.. | |].
  { intros k ??. rewrite heap_entry, Hk by (done || hp; lia). apply run_entry_next; lia. }
  exists m. split; [done|]. intros a. rewrite Hm. by rewrite Z.min_l by lia.
Qed.

(** kfree of a pointer into the first block of an allocation removes that
    allocation and no other. *)
Lemma kfree_refines s A i n p :
  heap_rep s A -> A !! i = Some n -> block_addr i <= p < block_addr i + 4096 ->
  wp (kfree p) s (fun r s' => r = 0 /\ heap_rep s' (delete i A)).
Proof.
  intros HR Hi Hp. pose proof HR as (Hs & H1 & H2). destruct (H1 i n Hi) as (? & ? & ? & Hk).
  destruct (kfree_loop_rep s A i n HR Hi) as (m & E & Hm).
  eapply wp_of_run; [apply (kfree_run p i); [done | lia | done]|]. split; [done|]. rewrite E.
  split; [by apply heap_ok_ram|]. split; cbn [set_ram m_ram].
  - intros i' n' Hl. apply lookup_delete_Some in Hl as [Hne Hl].
    destruct (H1 i' n' Hl) as (? & ? & ? & Hk'). split_and!; try done.
    intros k Hkn. rewrite Hm. repeat case_test; cbn; try (by apply Hk').
    exfalso. destruct (decide (i < i')).
    + pose proof (rep_disjoint s A i n i' n' HR Hi Hl ltac:(lia)). lia.
    + pose proof (rep_disjoint s A i' n' i n HR Hl Hi ltac:(lia)). lia.
  - intros j Hj. rewrite Hm. repeat case_test; cbn; try done;
      intros Hnz; destruct (H2 j Hj Hnz) as (i' & n' & Hl & ?);
      exists i', n'; rewrite lookup_delete_ne; try done; intros <-; rewrite Hi in Hl; injection Hl as <-; lia.
Qed.

(** ** kzalloc *)

(** The effect of taking block [i] for a zeroed object of [size] bytes. *)
Definition page_taken (s : machine) (i size : Z) (m : ram) : Prop :=
  forall a, rd8 m a = if (block_addr i <=? a) && (a <? block_addr i + size) then 0
                      else if a =? KHEAP_TABLE_ADDR + i then 65 else rd8 (m_ram s) a.

(** Outside console output and the first [size] bytes of RAM, [s'] agrees
    with [s]: what a failed [kzalloc] guarantees. *)
Definition low_cleared (size : Z) (s s' : machine) : Prop :=
  con_ok s' /\ m_heap s' = m_heap s /\
  (forall a, 0 <= a < size -> rd8 (m_ram s') a = 0) /\
  (forall a, size <= a -> a < VIDEO_MEM \/ VIDEO_END <= a -> rd8 (m_ram s') a = rd8 (m_ram s) a) /\
  (forall a, size <= a -> off_lines (m_con s) a -> rd8 (m_ram s') a = rd8 (m_ram s) a).

Lemma kzalloc_fail size s :
  heap_ok s -> 0 <= size < 4294967296 -> (forall k, 0 <= k < HEAP_BLOCKS -> ~ fits s (blocks_of size) k) ->
  exists s', kzalloc size s = Ret 0 s' /\ low_cleared size s s'.
Proof.
  intros Hs Hsz Hno. unfold kzalloc, mbind, M_bind. rewrite kmalloc_run by done.
  pose proof (find_first size s) as H. destruct (find_run _ 0 _ s) as [i|].
  { destruct H as (Hi & Hf & _). contradiction (Hno i Hi). }
  pose proof (print_frame oom_msg s (proj2 Hs)) as (Hc & Hh & Hr).
  pose proof (fun a => oom_frame s a (proj2 Hs)) as Hq. generalize dependent (print oom_msg s). intros s1 Hc Hh Hr Hq.
  eexists. split; [reflexivity|]. split; [exact Hc|]. split; [exact Hh|]. split_and!.
  - intros a Ha. cbn [on_ram set_ram m_ram]. apply rd8_memset_in; lia.
  - intros a Ha Hv. cbn [on_ram set_ram m_ram]. rewrite rd8_memset_out by lia. by apply Hr.
  - intros a Ha Hv. cbn [on_ram set_ram m_ram]. rewrite rd8_memset_out by lia. by apply Hq.
Qed.

Lemma kzalloc_page size s :
  heap_ok s -> 0 < size <= 4096 ->
  wp (kzalloc size) s (fun p s' =>
    (p = 0 /\ (forall k, 0 <= k < HEAP_BLOCKS -> entry_is_free s k = false) /\ low_cleared size s s') \/
    (exists i m, 0 <= i < HEAP_BLOCKS /\ p = block_addr i /\ entry_is_free s i = true /\
       s' = set_ram m s /\ page_taken s i size m)).
Proof.
  intros Hs Hsz. pose proof (find_first size s) as H. rewrite blocks_of_small in H by done.
  destruct (find_run _ 0 1 s) as [i|] eqn:E.
  - destruct H as (Hi & [Hf _] & _).
    destruct (alloc_run_spec i 1 s Hs Hi ltac:(lia)) as (m & Em & Hm).
    unfold wp, kzalloc, mbind, M_bind. rewrite kmalloc_run, blocks_of_small, E by done. cbn [modify].
    right. exists i, (memset (block_addr i) 0 size m). rewrite Em. split_and!; try lia; try done.
    intros a. rewrite rd8_memset, Hm by (unfold block_addr; hp; lia).
    change (Z.max 1 1) with 1. unfold run_entry.
    repeat case_test; cbn; lia || done.
  - destruct (kzalloc_fail size s Hs ltac:(lia)) as (s' & Er & Hl).
    { by rewrite blocks_of_small. }
    eapply wp_of_run; [exact Er|]. left. split_and!; try done. intros k Hk. destruct (entry_is_free s k) eqn:Ek; [|done].
    contradiction (H k Hk). split; [done|]. intros j Hj. by replace j with k by lia.
Qed.

(** A taken page keeps the heap well formed, its block used and every other
    block as it was. *)
Lemma page_taken_free s i size m k :
  heap_ok s -> 0 <= i < HEAP_BLOCKS -> 0 < size <= 4096 -> page_taken s i size m -> 0 <= k < HEAP_BLOCKS ->
  entry_is_free (set_ram m s) k = if k =? i then false else entry_is_free s k.
Proof.
  intros Hs Hi Hsz Hm Hk. unfold entry_is_free. rewrite !heap_entry by (done || hp; lia).
  cbn [set_ram m_ram]. rewrite Hm, (proj2 (Z.leb_gt _ _)) by (unfold block_addr; hp; lia).
  cbn [andb]. destruct (Z.eqb_spec k i) as [->|]; [by rewrite Z.eqb_refl|].
  by rewrite (proj2 (Z.eqb_neq (KHEAP_TABLE_ADDR + k) (KHEAP_TABLE_ADDR + i))) by lia.
Qed.

Lemma low_cleared_free size s s' k :
  heap_ok s -> 0 <= size <= 4096 -> low_cleared size s s' -> 0 <= k < HEAP_BLOCKS ->
  heap_ok s' /\ entry_is_free s' k = entry_is_free s k.
Proof.
  intros [Hs Hc] Hsz (Hc' & Hh & _ & Hf & _) Hk.
  assert (heap_ok s') by (split; [congruence | done]). split; [done|].
  apply entry_is_free_ext; [done.. | hp; lia |]. apply Hf; hp; vga; lia.
Qed.

(** ** Counting free blocks *)

Lemma count_free_acc n : forall i acc s, count_free n i acc s = acc + count_free n i 0 s.
Proof.
  induction n as [|n IH]; intros i acc s; cbn [count_free]; [lia|].
  rewrite IH, (IH _ (if entry_is_free s i then 0 + 1 else 0)). destruct (entry_is_free s i); lia.
Qed.

Lemma count_free_app n1 n2 i s :
  count_free (n1 + n2) i 0 s = count_free n1 i 0 s + count_free n2 (i + Z.of_nat n1) 0 s.
Proof.
  revert i. induction n1 as [|n1 IH]; intros i; cbn [Nat.add count_free].
  { by replace (i + Z.of_nat 0) with i by lia. }
  rewrite count_free_acc, IH, (count_free_acc n1 _ (if entry_is_free s i then 0 + 1 else 0)).
  replace (i + 1 + Z.of_nat n1) with (i + Z.of_nat (S n1)) by lia. lia.
Qed.

Lemma count_free_const (b : bool) n : forall i s,
  (forall k, i <= k < i + Z.of_nat n -> entry_is_free s k = b) ->
  count_free n i 0 s = if b then Z.of_nat n else 0.
Proof.
  induction n as [|n IH]; intros i s H; cbn [count_free]; [by destruct b|].
  rewrite (H i), count_free_acc, IH by (intros; try apply H; lia). destruct b; lia.
Qed.

Lemma count_free_ext n : forall i s s',
  (forall k, i <= k < i + Z.of_nat n -> entry_is_free s' k = entry_is_free s k) ->
  count_free n i 0 s' = count_free n i 0 s.
Proof.
  induction n as [|n IH]; intros i s s' H; cbn [count_free]; [done|].
  rewrite (H i), count_free_acc, (count_free_acc n _ _ s), (IH (i + 1) s s') by (intros; try apply H; lia). done.
Qed.

(** Turning a free run of [n] blocks into a used one takes [n] from the
    count. *)
Lemma num_free_take s s' i n :
  heap_ok s -> heap_ok s' -> 0 <= i -> 0 <= n -> i + n <= HEAP_BLOCKS ->
  (forall k, i <= k < i + n -> entry_is_free s k = true /\ entry_is_free s' k = false) ->
  (forall k, 0 <= k < HEAP_BLOCKS -> k < i \/ i + n <= k -> entry_is_free s' k = entry_is_free s k) ->
  kheap_num_free_blocks s' = kheap_num_free_blocks s - n.
Proof.
  intros [Hs _] [Hs' _] ??? Hr Ho. unfold kheap_num_free_blocks. rewrite Hs, Hs'. cbn [entry_table num_entries].
  replace (Z.to_nat HEAP_BLOCKS) with (Z.to_nat i + (Z.to_nat n + Z.to_nat (HEAP_BLOCKS - (i + n))))%nat by lia.
  rewrite !count_free_app.
  rewrite (count_free_ext (Z.to_nat i) 0 s s') by (intros; apply Ho; lia).
  rewrite (count_free_ext (Z.to_nat (HEAP_BLOCKS - (i + n))) _ s s') by (intros; apply Ho; lia).
  rewrite (count_free_const true (Z.to_nat n) _ s), (count_free_const false (Z.to_nat n) _ s')
    by (intros; apply Hr; lia). lia.
Qed.

Lemma count_free_nonneg n : forall i s, 0 <= count_free n i 0 s.
Proof.
  induction n as [|n IH]; intros i s; cbn [count_free]; [lia|]. rewrite count_free_acc. pose proof (IH (i + 1) s). destruct (entry_is_free s i); lia.
Qed.

Lemma num_free_nonneg s : 0 <= kheap_num_free_blocks s.
Proof. apply count_free_nonneg. Qed.

Lemma num_free_none s : heap_ok s -> (forall k, 0 <= k < HEAP_BLOCKS -> entry_is_free s k = false) -> kheap_num_free_blocks s = 0.
Proof.
  intros [Hs _] H. unfold kheap_num_free_blocks. rewrite Hs. cbn [entry_table num_entries].
  rewrite (count_free_const false); [done|]. intros k Hk. apply H. lia.
Qed.

(** ** Requests that stay inside the table

    The inner search loop does not compare its index with [num_entries]: a
    request of several blocks may be placed across the end of the table.  It
    is not when the blocks it needs are free somewhere inside the table, nor
    when the byte after the table does not look free, and never for a request of
    one block. *)

Definition no_overrun (s : machine) (nb : Z) : Prop :=
  forall i, 0 <= i < HEAP_BLOCKS -> fits s nb i -> (forall k, 0 <= k < i -> ~ fits s nb k) -> i + Z.max 1 nb <= HEAP_BLOCKS.

Lemma no_overrun_room s nb i :
  1 <= nb -> 0 <= i -> i + nb <= HEAP_BLOCKS -> (forall k, i <= k < i + nb -> entry_is_free s k = true) -> no_overrun s nb.
Proof.
  intros Hn Hi Hin Hf j Hj _ Hmin. assert (fits s nb i) by (split; [apply Hf; lia | done]).
  destruct (decide (i < j)); [by destruct (Hmin i)|]. lia.
Qed.

Lemma no_overrun_small s nb : nb <= 1 -> no_overrun s nb.
Proof. intros ? i ? _ _. lia. Qed.

Lemma no_overrun_guard s nb : entry_is_free s HEAP_BLOCKS = false -> no_overrun s nb.
Proof.
  intros Hg i Hi [_ Hf] _. destruct (decide (i + Z.max 1 nb <= HEAP_BLOCKS)); [done|].
  rewrite (Hf HEAP_BLOCKS) in Hg by lia. done.
Qed.

(** What kmalloc does to RAM and to the free count when it stays inside. *)
Lemma kmalloc_inside size s A :
  heap_rep s A -> no_overrun s (blocks_of size) ->
  let n := Z.max 1 (blocks_of size) in
  wp (kmalloc size) s (fun p s' =>
    (p = 0 /\ con_frame s s' /\ heap_rep s' A) \/
    (exists i m, p = block_addr i /\ 0 <= i /\ i + n <= HEAP_BLOCKS /\ s' = set_ram m s /\
       (forall j, i <= j < i + n -> ~ covers A j) /\ heap_rep s' (<[i := n]> A) /\ A !! i = None /\
       forall a, rd8 m a = if (KHEAP_TABLE_ADDR + i <=? a) && (a <? KHEAP_TABLE_ADDR + i + n)
                           then run_entry (blocks_of size) (a - KHEAP_TABLE_ADDR - i) else rd8 (m_ram s) a)).
Proof.
  intros HR Hno n. pose proof HR as (Hs & _). pose proof (blocks_of_range size).
  wp_apply (kmalloc_spec size s Hs). intros p s' [(-> & -> & H')|(i & Hi & -> & Hf & Hk & ->)].
  - left. pose proof (print_frame oom_msg s (proj2 Hs)). split_and!; [done.. |]. by eapply con_frame_rep.
  - right. specialize (Hno i Hi Hf Hk). destruct (alloc_run_rep s A i (blocks_of size) HR ltac:(lia) ltac:(lia) Hno Hf) as [Hn HR'].
    destruct (alloc_run_spec i (blocks_of size) s Hs Hi ltac:(lia)) as (m & E & Hm). rewrite E in *.
    exists i, m. split_and!; try lia; try done. by apply (rep_fits s A _ i HR (proj1 Hi) Hno).
Qed.

(** A machine whose heap and console statics are initialised, on RAM [m]. *)
Definition ready (m : ram) : machine :=
  mk_machine m (mk_console VIDEO_MEM 0 0) (mk_kheap (mk_table KHEAP_TABLE_ADDR HEAP_BLOCKS) KHEAP_ADDR).

Lemma ready_ok m : heap_ok (ready m).
Proof. split; [done|]. split_and!; done. Qed.

Lemma ready_rep : heap_rep (ready ∅) ∅.
Proof.
  split; [apply ready_ok|]. split.
  - intros i n. by rewrite lookup_empty.
  - intros j _ H. contradiction H. done.
Qed.

Lemma ready_free m : (forall k, 0 <= k < HEAP_BLOCKS -> rd8 m (KHEAP_TABLE_ADDR + k) = 0) -> kheap_num_free_blocks (ready m) = HEAP_BLOCKS.
Proof.
  intros H. unfold kheap_num_free_blocks. cbn [ready m_heap entry_table num_entries]. rewrite (count_free_const true); [hp; lia|]. intros k Hk.
  unfold entry_is_free. rewrite heap_entry by (apply ready_ok || hp; lia). cbn [ready m_ram]. by rewrite H by lia.
Qed.

(** ** Properties of the heap *)

(** C1: kmalloc refines the abstract heap.  A pointer it answers is the first
    block of the table at which the request fits, that is from which on all the
    blocks it needs look free; their entries are written and no other byte of
    memory.  When that run lies inside the table, none of its blocks belonged
    to an allocation and the table afterwards records exactly the old
    allocations and the new run; the search does not stop at the end of the
    table, and a run that passes it is accepted as well when the bytes behind
    the table look free.  When it answers null, the request fits at no block, a
    message is printed and the allocations are unchanged. *)
Theorem kmalloc_correct (size : Z) (s : machine) (A : gmap Z Z) (HR : heap_rep s A) :
  wp (kmalloc size) s (fun p s' =>
    let n := Z.max 1 (blocks_of size) in
    (p = 0 /\ s' = print oom_msg s /\ heap_rep s' A /\ forall i, 0 <= i < HEAP_BLOCKS -> ~ fits s (blocks_of size) i) \/
    (exists i, 0 <= i < HEAP_BLOCKS /\ p = block_addr i /\ fits s (blocks_of size) i /\
       (forall k, 0 <= k < i -> ~ fits s (blocks_of size) k) /\
       (forall a, rd8 (m_ram s') a = if (KHEAP_TABLE_ADDR + i <=? a) && (a <? KHEAP_TABLE_ADDR + i + n)
                                     then run_entry (blocks_of size) (a - KHEAP_TABLE_ADDR - i) else rd8 (m_ram s) a) /\
       (i + n <= HEAP_BLOCKS -> (forall j, i <= j < i + n -> ~ covers A j) /\ heap_rep s' (<[i := n]> A)))).
Proof. by apply kmalloc_refines. Qed.

Lemma kmalloc_correct_witness :
  exists s', kmalloc 5000 (ready ∅) = Ret (block_addr 0) s' /\ heap_rep s' (<[0 := 2]> ∅).
Proof.
  destruct (proj1 (wp_run _ _ _) (kmalloc_correct 5000 (ready ∅) ∅ ready_rep)) as (p & s' & E & H).
  assert (Hf : fits (ready ∅) (blocks_of 5000) 0) by (split; [reflexivity | intros j Hj; reflexivity]).
  exists s'. destruct H as [(_ & _ & _ & H)|(i & Hi & -> & _ & Hmin & _ & Hin)].
  { destruct (H 0 ltac:(hp; lia) Hf). }
  assert (i = 0) as -> by (destruct (decide (i = 0)) as [->|]; [done|]; destruct (Hmin 0 ltac:(lia) Hf)).
  split; [exact E|]. apply Hin. change (Z.max 1 (blocks_of 5000)) with 2. hp. lia.
Defined.

(** C2: kfree of a pointer into the first block of an allocation returns 0,
    removes exactly that allocation from the table and keeps all others. *)
Theorem kfree_correct (s : machine) (A : gmap Z Z) (i n p : Z)
    (HR : heap_rep s A) (Hi : A !! i = Some n) (Hp : block_addr i <= p < block_addr i + 4096) :
  wp (kfree p) s (fun r s' => r = 0 /\ heap_rep s' (delete i A)).
Proof. by apply (kfree_refines s A i n p). Qed.

(** The state after one allocation of two blocks in an empty heap. *)
Definition one_alloc : machine := alloc_run 0 2 (ready ∅).

Lemma one_alloc_rep : heap_rep one_alloc (<[0 := 2]> ∅).
Proof.
  refine (proj2 (alloc_run_rep (ready ∅) ∅ 0 2 ready_rep _ _ _ _)); [lia.. | hp; lia |].
  apply (rep_fits (ready ∅) ∅); [apply ready_rep | lia | hp; lia |].
  intros j _ (i & n & H & _). by rewrite lookup_empty in H.
Qed.

Lemma kfree_correct_witness : exists s', kfree 0x1000003 one_alloc = Ret 0 s' /\ heap_rep s' (delete 0 (<[0 := 2]> ∅)).
Proof.
  assert (H : block_addr 0 <= 0x1000003 < block_addr 0 + 4096) by (unfold block_addr; hp; lia).
  destruct (proj1 (wp_run _ _ _) (kfree_correct one_alloc _ 0 2 0x1000003 one_alloc_rep
    (lookup_insert_eq _ _ _) H)) as (r & s' & E & -> & HR).
  exists s'. split; [exact E | exact HR].
Defined.

(** Freeing what kmalloc returned restores every byte of RAM outside the
    console, for requests that stay inside the table: no block is lost and no
    neighbour is touched. *)
Lemma kmalloc_kfree_roundtrip (size : Z) (s : machine) (A : gmap Z Z)
    (HR : heap_rep s A) (Hin : no_overrun s (blocks_of size)) :
  wp (p ← kmalloc size; kfree p) s (fun _ s' =>
    heap_rep s' A /\ forall a, a < VIDEO_MEM \/ VIDEO_END <= a -> rd8 (m_ram s') a = rd8 (m_ram s) a).
Proof.
  wp_step. wp_apply (kmalloc_inside size s A HR Hin).
  intros p s' [(-> & (Hc & Hh & Hf) & HR')|(i & m & -> & Hi & Hb & -> & Hnc & HR' & Hn & Hm)].
  - eapply wp_of_run; [apply kfree_outside; [apply HR' | hp; lia]|]. done.
  - destruct (kfree_loop_rep _ _ _ _ HR' (lookup_insert_eq _ _ _)) as (m' & E & Hm').
    assert (0 <= i < HEAP_BLOCKS) as Hib by lia.
    assert (block_addr i <= block_addr i < block_addr i + 4096) as Hpb by lia.
    wp_apply (wp_conj _ _ _ _ (kfree_refines _ _ i _ (block_addr i) HR' (lookup_insert_eq _ _ _) Hpb)
      (wp_of_run _ _ _ _ (fun _ s' => s' = set_ram m' s)
         (kfree_run (block_addr i) i (set_ram m s) (proj1 HR') Hib Hpb) E)).
    intros r s'' [[-> HR''] ->]. rewrite delete_insert_id in HR'' by done.
    split; [done|]. intros a _. cbn [set_ram m_ram] in *. rewrite Hm', Hm.
    repeat case_test; cbn; try lia; try done.
    destruct HR as (Hs & _ & H2). destruct (decide (rd8 (m_ram s) a = 0)) as [->|Hnz]; [done|].
    contradiction (Hnc (a - KHEAP_TABLE_ADDR) ltac:(lia)). apply H2; [lia|].
    by replace (KHEAP_TABLE_ADDR + (a - KHEAP_TABLE_ADDR)) with a by lia.
Qed.

(** A successful kzalloc of at most a page returns a block that was free,
    zeroes the object, marks the block in the table and changes no other byte
    of RAM; it fails only when no block is free. *)
Lemma kzalloc_page_correct (size : Z) (s : machine) (Hs : heap_ok s) (Hsz : 0 < size <= 4096) :
  wp (kzalloc size) s (fun p s' =>
    (p = 0 /\ forall k, 0 <= k < HEAP_BLOCKS -> entry_is_free s k = false) \/
    (exists i, 0 <= i < HEAP_BLOCKS /\ p = block_addr i /\ entry_is_free s i = true /\
       entry_is_free s' i = false /\
       kheap_num_free_blocks s' = kheap_num_free_blocks s - 1 /\
       (forall a, p <= a < p + size -> rd8 (m_ram s') a = 0) /\
       (forall a, a < p \/ p + size <= a -> a <> KHEAP_TABLE_ADDR + i ->
                  rd8 (m_ram s') a = rd8 (m_ram s) a))).
Proof.
  wp_apply (kzalloc_page size s Hs Hsz). intros p s' [(-> & H & _)|(i & m & Hi & -> & Hf & -> & Hm)]; [by left|].
  right. assert (Hfree := fun k => page_taken_free s i size m k Hs Hi Hsz Hm).
  exists i. split_and!; try done; try lia.
  - by rewrite Hfree, Z.eqb_refl.
  - apply (num_free_take s _ i 1); [done | done | lia | lia | hp; lia | |].
    + intros k Hk. replace k with i by lia. by rewrite Hfree, Z.eqb_refl.
    + intros k Hk Hne. rewrite Hfree by done. by destruct (Z.eqb_spec k i); [lia|].
  - intros a Ha. cbn. rewrite Hm. by repeat case_test; try lia.
  - intros a Ha Hne. cbn. rewrite Hm. by repeat case_test; try lia.
Qed.

(** C40: a kzalloc that cannot be satisfied still runs memset on the null
    pointer.  For a request between [TABLE_END] (57856) bytes and 1 MB this
    erases the entry table and leaves the kernel image at 1 MB alone: kzalloc
    returns null, and afterwards every allocation of the kernel is free.
    Nothing but the memory below the size of the request and the two lines at
    the cursor, which is above the image, is written. *)
Theorem kzalloc_failure_frees_heap (size : Z) (s : machine)
    (Hs : heap_ok s) (Hsz : TABLE_END <= size <= IMAGE_ADDR) (Hcur : curr_y (m_con s) + 1 < IMAGE_LINE)
    (Hno : forall k, 0 <= k < HEAP_BLOCKS -> ~ fits s (blocks_of size) k) :
  wp (kzalloc size) s (fun p s' => p = 0 /\ heap_rep s' ∅ /\
    (forall a, IMAGE_ADDR <= a -> rd8 (m_ram s') a = rd8 (m_ram s) a) /\
    forall a, size <= a -> off_lines (m_con s) a -> rd8 (m_ram s') a = rd8 (m_ram s) a).
Proof.
  unfold IMAGE_ADDR, IMAGE_LINE in *.
  destruct (kzalloc_fail size s Hs ltac:(hp; lia) Hno) as (s' & E & (Hc & Hh & Hz & _ & Hq)).
  eapply wp_of_run; [exact E|]. split; [done|]. split_and!; [split; [split; [rewrite Hh; apply Hs | done]|]; split | | done].
  - intros i n. by rewrite lookup_empty.
  - intros j Hj Hnz. contradiction Hnz. apply Hz. hp. lia.
  - intros a Ha. apply Hq; [lia|]. destruct Hs as (_ & _ & _ & Hy). unfold off_lines, on_line. rewrite u16_small by lia. vga. lia.
Qed.

(** A heap without a free block, and a request of 60000 bytes. *)
Definition full_heap : machine := ready (memset KHEAP_TABLE_ADDR 65 HEAP_BLOCKS ∅).

Lemma full_heap_entry k : 0 <= k < HEAP_BLOCKS -> entry_is_free full_heap k = false.
Proof.
  intros Hk. unfold entry_is_free. rewrite heap_entry by (apply ready_ok || hp; lia). cbn [full_heap ready m_ram].
  by rewrite rd8_memset_in by (hp; lia).
Qed.

Lemma kzalloc_failure_frees_heap_witness :
  (forall k, 0 <= k < HEAP_BLOCKS -> entry_is_free full_heap k = false) /\
  exists s', kzalloc 60000 full_heap = Ret 0 s' /\ heap_rep s' ∅.
Proof.
  assert (H : forall k, 0 <= k < HEAP_BLOCKS -> ~ fits full_heap (blocks_of 60000) k).
  { intros k Hk [Hf _]. rewrite full_heap_entry in Hf by done. discriminate Hf. }
  assert (Hc : curr_y (m_con full_heap) + 1 < IMAGE_LINE) by reflexivity.
  destruct (proj1 (wp_run _ _ _) (kzalloc_failure_frees_heap 60000 full_heap (ready_ok _)
    ltac:(unfold IMAGE_ADDR; hp; lia) Hc H)) as (p & s' & E & -> & HR & _).
  split; [exact full_heap_entry|]. exists s'. split; [exact E | exact HR].
Defined.

(** The search runs past the end of the table.  When only the last block
    of the heap is free and the byte after the table looks free, a request of
    two blocks is answered with the last block: the second page of the answer
    lies outside the heap, and the byte after the table is overwritten. *)
Lemma kmalloc_overruns_heap (s : machine) (Hs : heap_ok s)
    (Hfull : forall k, 0 <= k < HEAP_BLOCKS - 1 -> entry_is_free s k = false)
    (Hlast : entry_is_free s (HEAP_BLOCKS - 1) = true)
    (Hnext : entry_is_free s HEAP_BLOCKS = true) :
  wp (kmalloc 8192) s (fun p s' =>
    p = block_addr (HEAP_BLOCKS - 1) /\ HEAP_END < p + 8192 /\ rd8 (m_ram s') TABLE_END = 1).
Proof.
  wp_apply (kmalloc_spec 8192 s Hs). change (blocks_of 8192) with 2.
  assert (Hf : fits s 2 (HEAP_BLOCKS - 1)).
  { split; [done|]. intros j Hj.
    destruct (decide (j = HEAP_BLOCKS)) as [->|]; [done | by replace j with (HEAP_BLOCKS - 1) by lia]. }
  intros p s' [(-> & -> & H)|(i & Hi & -> & [Hfi _] & Hmin & ->)].
  { contradiction (H (HEAP_BLOCKS - 1) ltac:(hp; lia)). }
  assert (i = HEAP_BLOCKS - 1) as ->.
  { destruct (decide (i < HEAP_BLOCKS - 1)); [|lia]. rewrite Hfull in Hfi by lia. done. }
  destruct (alloc_run_spec (HEAP_BLOCKS - 1) 2 s Hs Hi ltac:(lia)) as (m & -> & Hm).
  split_and!; [done | unfold block_addr; hp; lia |]. cbn [set_ram m_ram]. by rewrite Hm.
Qed.

(** Every entry but the last is taken. *)
Definition nearly_full : machine := ready (memset KHEAP_TABLE_ADDR 65 (HEAP_BLOCKS - 1) ∅).

Lemma nearly_full_entry k : 0 <= k <= HEAP_BLOCKS ->
  entry_is_free nearly_full k = if k <? HEAP_BLOCKS - 1 then false else true.
Proof.
  intros Hk. unfold entry_is_free. rewrite heap_entry by (apply ready_ok || hp; lia). cbn [nearly_full ready m_ram].
  destruct (Z.ltb_spec k (HEAP_BLOCKS - 1)).
  - by rewrite rd8_memset_in by (hp; lia).
  - by rewrite rd8_memset_out by (hp; lia).
Qed.

(** The rounding of the request to blocks wraps around: for a request
    within 4095 bytes of 4 GiB, kmalloc answers a single block whenever one is
    free. *)
Lemma kmalloc_size_wraps (size : Z) (s : machine) (A : gmap Z Z) (i : Z)
    (HR : heap_rep s A) (Hsz : 4294967296 - 4095 <= size < 4294967296)
    (Hi : 0 <= i < HEAP_BLOCKS) (Hfree : entry_is_free s i = true) :
  wp (kmalloc size) s (fun p s' => exists j, p = block_addr j /\ heap_rep s' (<[j := 1]> A)).
Proof.
  assert (E : blocks_of size = 0).
  { unfold blocks_of. hp. unfold u32. zlia. }
  wp_apply (kmalloc_refines size s A HR).
  intros p s' [(-> & _ & _ & H)|(j & Hj & -> & _ & _ & _ & Hin)]; rewrite E in *.
  - contradiction (H i Hi). split; [done | intros; lia].
  - exists j. split; [done|]. apply Hin. lia.
Qed.

