(* ===== verification/Paging.v ===== *)
(** * memory/paging/paging.c: two-level page tables

    A page directory and its page tables are heap blocks holding 1024 words
    each.  The functions below are the C functions on RAM; [mmu_walk] is the
    i386 translation they set up.  The TLB is not modelled: [invlpg] in
    [paging_free_vpn] has no effect on RAM. *)
From Stdlib Require Import ZArith Lia String Btauto.
From stdpp Require Import base numbers gmap list strings.
From S2P Require Import Prelude Config Memory Machine Console Invariants Kheap.
Local Open Scope Z_scope.

Definition PAGE_SIZE : Z := 4096.
Definition PAGE_CACHE_DISABLED : Z := 16.
Definition PAGE_CACHE_WRITE_THROUGH : Z := 8.
Definition PAGE_USER_ACCESS_ALLOW : Z := 4.
Definition PAGE_WRITE_ALLOW : Z := 2.
Definition PAGE_PRESENT : Z := 1.
Definition PAGE_FRAME_LOC_MASK : Z := 0xFFFFF000.
Definition NUM_PAGE_TABLE_ENTRIES : Z := 1024.

Record page_table_32b := mk_pt { cr3 : Z; num_levels : Z }.

(** [t[i]] for a table [t] of 32-bit entries. *)
Definition pt_get (t i : Z) (s : machine) : Z := rd32 (m_ram s) (u32 (t + 4 * i)).
Definition pt_set (t i v : Z) (s : machine) : machine := on_ram (fun m => wr32 m (u32 (t + 4 * i)) v) s.

(** The inner loop of [paging_create_4gb_page_tables]. *)
Fixpoint fill_pt (n : nat) (pt_i j offset flags : Z) (s : machine) : machine :=
  match n with
  | O => s
  | S n => fill_pt n pt_i (j + 1) offset flags
             (pt_set pt_i j (Z.lor (i32 (offset + j * PAGE_SIZE)) flags) s)
  end.

(** The clean-up loop [for (j = 0; j < i; j++)] of its error path. *)
Fixpoint free_tables (n : nat) (pt_dir j : Z) : M machine unit :=
  match n with
  | O => mret tt
  | S n =>
    pte ← gets (pt_get pt_dir j);
    kfree (Z.land pte PAGE_FRAME_LOC_MASK);;
    free_tables n pt_dir (j + 1)
  end.

(** The outer loop over directory entries [i ..]. *)
Fixpoint create_tables (n : nat) (pt_dir i offset flags : Z) : M machine Z :=
  match n with
  | O => mret STATUS_OK
  | S n =>
    pt_i ← kzalloc (4 * NUM_PAGE_TABLE_ENTRIES);
    if pt_i =? 0 then
      (if negb (pt_dir =? 0) then kfree pt_dir else mret 0);;
      (if negb (pt_dir =? 0) then free_tables (Z.to_nat i) pt_dir 0 else mret tt);;
      mret (- STATUS_NOT_ENOUGH_MEM)
    else
      modify (fill_pt (Z.to_nat NUM_PAGE_TABLE_ENTRIES) pt_i 0 offset flags);;
      let offset := i32 (offset + PAGE_SIZE * NUM_PAGE_TABLE_ENTRIES) in
      let pt_i_frame_num := pt_i / PAGE_SIZE in
      modify (pt_set pt_dir i (Z.lor (Z.lor (u32 (pt_i_frame_num * PAGE_SIZE)) flags) PAGE_WRITE_ALLOW));;
      create_tables n pt_dir (i + 1) offset flags
  end.

Definition paging_create_4gb_page_tables (flags : Z) (page_table : page_table_32b)
    : M machine (Z * page_table_32b) :=
  pt_dir ← kzalloc (4 * NUM_PAGE_TABLE_ENTRIES);
  if pt_dir =? 0 then mret (- STATUS_NOT_ENOUGH_MEM, page_table)
  else
    res ← create_tables (Z.to_nat NUM_PAGE_TABLE_ENTRIES) pt_dir 0 0 flags;
    if res =? STATUS_OK then mret (STATUS_OK, mk_pt pt_dir 2)
    else mret (res, page_table).

Definition paging_init_new_mapping (pt : page_table_32b) : M machine (Z * page_table_32b) :=
  let pt := mk_pt (cr3 pt) 2 in
  pt_dir ← kzalloc (4 * NUM_PAGE_TABLE_ENTRIES);
  if pt_dir =? 0 then mret (- STATUS_NOT_ENOUGH_MEM, pt)
  else mret (STATUS_OK, mk_pt pt_dir 2).

Definition paging_new_vpn_to_pfn (pt : page_table_32b) (vpn pfn flags : Z) (overwrite : bool)
    : M machine Z :=
  let dir_idx := Z.shiftr vpn 10 in
  pte ← gets (pt_get (cr3 pt) dir_idx);
  second_level_pt ← (if Z.land pte PAGE_PRESENT =? 0 then kzalloc (4 * NUM_PAGE_TABLE_ENTRIES)
                     else mret (Z.land pte PAGE_FRAME_LOC_MASK));
  if (Z.land pte PAGE_PRESENT =? 0) && (second_level_pt =? 0) then mret (- STATUS_NOT_ENOUGH_MEM)
  else
    let second_level_pt_idx := vpn mod 1024 in
    second_level_pte ← gets (pt_get second_level_pt second_level_pt_idx);
    if negb (Z.land second_level_pte PAGE_PRESENT =? 0) && negb overwrite
    then mret (- STATUS_INVALID_ARG)
    else
      let page_addr := u32 (pfn * PAGE_SIZE) in
      modify (pt_set second_level_pt second_level_pt_idx (Z.lor page_addr flags));;
      (if overwrite then modify (pt_set (cr3 pt) dir_idx (Z.lor second_level_pt flags)) else mret tt);;
      mret STATUS_OK.

Definition paging_free_vpn (pt : page_table_32b) (vpn : Z) : M machine Z :=
  assert_no_page_sharing;;
  let dir_idx := Z.shiftr vpn 10 in
  pte ← gets (pt_get (cr3 pt) dir_idx);
  if Z.land pte PAGE_PRESENT =? 0 then mret 0
  else
    let second_level_pt := Z.land pte PAGE_FRAME_LOC_MASK in
    let second_level_pt_idx := vpn mod 1024 in
    second_level_pte ← gets (pt_get second_level_pt second_level_pt_idx);
    if Z.land second_level_pte PAGE_PRESENT =? 0 then mret 0
    else
      modify (pt_set second_level_pt second_level_pt_idx 0);;
      assert_single_cpu;;
      mret 0.

(** [for (j = ..; j < i; j++) paging_free_vpn(pt, j)]. *)
Fixpoint free_vpns (n : nat) (pt : page_table_32b) (j : Z) : M machine unit :=
  match n with
  | O => mret tt
  | S n => paging_free_vpn pt j;; free_vpns n pt (j + 1)
  end.

Fixpoint alloc_mapping_loop (n : nat) (pt : page_table_32b) (start_vpn i flags : Z) : M machine Z :=
  match n with
  | O => mret STATUS_OK
  | S n =>
    new_paddr ← kzalloc PAGE_SIZE;
    if new_paddr =? 0 then
      free_vpns (Z.to_nat (i - start_vpn)) pt start_vpn;;
      mret (- STATUS_NOT_ENOUGH_MEM)
    else
      let pfn := new_paddr / PAGE_SIZE in
      res ← paging_new_vpn_to_pfn pt i pfn flags true;
      if res <? 0 then
        free_vpns (Z.to_nat (i - start_vpn)) pt start_vpn;;
        mret res
      else alloc_mapping_loop n pt start_vpn (i + 1) flags
  end.

Definition paging_alloc_mapping (pt : page_table_32b) (vaddr_start vaddr_end flags : Z) : M machine Z :=
  if negb (vaddr_start mod PAGE_SIZE =? 0) || negb (vaddr_end mod PAGE_SIZE =? 0)
  then mret (- STATUS_INVALID_ARG)
  else if vaddr_end <=? vaddr_start then mret (- STATUS_INVALID_ARG)
  else
    let start_vpn := vaddr_start / PAGE_SIZE in
    let end_vpn := vaddr_end / PAGE_SIZE in
    let end_vpn := if negb (vaddr_end mod PAGE_SIZE =? 0) then end_vpn + 1 else end_vpn in
    alloc_mapping_loop (Z.to_nat (end_vpn - start_vpn)) pt start_vpn start_vpn flags.

(** The loop of [paging_free_page_table] over directory entries [i ..]. *)
Fixpoint free_dir_loop (n : nat) (pt : page_table_32b) (i : Z) : M machine unit :=
  match n with
  | O => mret tt
  | S n =>
    pte ← gets (pt_get (cr3 pt) i);
    (if Z.land pte PAGE_PRESENT =? 0 then mret 0 else kfree (Z.land pte PAGE_FRAME_LOC_MASK));;
    free_dir_loop n pt (i + 1)
  end.

Definition paging_free_page_table (pt : page_table_32b) : M machine Z :=
  (if num_levels pt =? 1 then panic "single level pages not support yet..!" else mret tt);;
  free_dir_loop (Z.to_nat NUM_PAGE_TABLE_ENTRIES) pt 0;;
  kfree (cr3 pt);;
  mret 0.

Definition paging_free_va (pt : page_table_32b) (vaddr_start vaddr_end : Z) : M machine Z :=
  if vaddr_end <? vaddr_start then mret (- STATUS_INVALID_ARG)
  else
    let start_vpn := vaddr_start / PAGE_SIZE in
    let end_vpn := vaddr_end / PAGE_SIZE in
    let end_vpn := if negb (vaddr_end mod PAGE_SIZE =? 0) then end_vpn + 1 else end_vpn in
    free_vpns (Z.to_nat (end_vpn - start_vpn)) pt start_vpn;;
    mret STATUS_OK.

Definition paging_free_table_and_frames (pt : page_table_32b) : M machine Z := mret 0.

Definition is_page_aligned (addr : Z) : bool := Z.land addr (PAGE_SIZE - 1) =? 0.

Definition paging_map_page (pt : page_table_32b) (virt_addr phys_addr flags : Z) : M machine Z :=
  if negb (num_levels pt =? 2) then mret (- STATUS_INVALID_ARG)
  else if negb (is_page_aligned virt_addr) || negb (is_page_aligned phys_addr)
  then mret (- STATUS_INVALID_ARG)
  else
    let pt_dir := cr3 pt in
    let pt_dir_index := virt_addr / (PAGE_SIZE * NUM_PAGE_TABLE_ENTRIES) in
    let pt_index := virt_addr mod (PAGE_SIZE * NUM_PAGE_TABLE_ENTRIES) / PAGE_SIZE in
    pde ← gets (pt_get pt_dir pt_dir_index);
    modify (pt_set (Z.land pde PAGE_FRAME_LOC_MASK) pt_index (Z.lor phys_addr flags));;
    mret 0.

Definition paging_down_align_addr (addr : Z) : Z :=
  if negb (addr mod PAGE_SIZE =? 0) then u32 (addr - addr mod PAGE_SIZE) else addr.

Definition paging_up_align_addr (addr : Z) : Z :=
  if negb (addr mod PAGE_SIZE =? 0) then u32 (addr + (PAGE_SIZE - addr mod PAGE_SIZE)) else addr.

Fixpoint map_region_loop (n : nat) (pt : page_table_32b) (vpn_start pfn_start i flags : Z) : M machine Z :=
  match n with
  | O => mret STATUS_OK
  | S n =>
    res ← paging_new_vpn_to_pfn pt (vpn_start + i) (pfn_start + i) flags true;
    if negb (res =? STATUS_OK) then mret res
    else map_region_loop n pt vpn_start pfn_start (i + 1) flags
  end.

Definition paging_map_memory_region (pt : page_table_32b)
    (data_va_start data_paddr data_va_end flags : Z) : M machine Z :=
  if negb (is_page_aligned data_va_start) || negb (is_page_aligned data_paddr)
     || negb (is_page_aligned data_va_end)
  then mret (- STATUS_INVALID_ARG)
  else
    let vpn_start := data_va_start / PAGE_SIZE in
    let vpn_end := data_va_end / PAGE_SIZE in
    let pfn_start := data_paddr / PAGE_SIZE in
    if vpn_end <=? vpn_start then mret (- STATUS_INVALID_ARG)
    else map_region_loop (Z.to_nat (vpn_end - vpn_start)) pt vpn_start pfn_start 0 flags.

(** ** The translation of the i386 MMU

    The page frame and the access rights ([and] of both levels) of a virtual
    page, or [None] when an entry on the way is not present. *)
Definition mmu_walk (s : machine) (dir va : Z) : option (Z * Z) :=
  let pde := pt_get dir (va / 4194304) s in
  if Z.land pde PAGE_PRESENT =? 0 then None
  else
    let pte := pt_get (Z.land pde PAGE_FRAME_LOC_MASK) (va / 4096 mod 1024) s in
    if Z.land pte PAGE_PRESENT =? 0 then None
    else Some (Z.land pte PAGE_FRAME_LOC_MASK + va mod 4096,
               Z.land (Z.land pde pte) (PAGE_USER_ACCESS_ALLOW + PAGE_WRITE_ALLOW)).

(** ** Entries *)

Definition present (e : Z) : bool := negb (Z.land e PAGE_PRESENT =? 0).
Definition frame_of (e : Z) : Z := Z.land e PAGE_FRAME_LOC_MASK.

Lemma present_mod e : present e = (e mod 2 =? 1).
Proof.
  unfold present, PAGE_PRESENT. rewrite land_1_mod.
  pose proof (Z.mod_pos_bound e 2 ltac:(lia)). destruct (Z.eqb_spec (e mod 2) 0), (Z.eqb_spec (e mod 2) 1); done || lia.
Qed.

(** An entry built from a page address and a byte of flags. *)
Lemma entry_val pa flags :
  pa mod 4096 = 0 -> 0 <= flags < 256 -> Z.lor pa flags = pa + flags.
Proof. intros. apply (lor_disjoint pa flags 12); [lia | done | lia]. Qed.

Lemma entry_frame pa flags :
  pa mod 4096 = 0 -> 0 <= pa < 4294967296 -> 0 <= flags < 256 -> frame_of (Z.lor pa flags) = pa.
Proof.
  intros. unfold frame_of, PAGE_FRAME_LOC_MASK. rewrite entry_val, land_page_mask by zlia. zlia.
Qed.

Lemma entry_present pa flags :
  pa mod 4096 = 0 -> 0 <= flags < 256 -> present (Z.lor pa flags) = present flags.
Proof. intros. rewrite !present_mod, entry_val by done. f_equal. zlia. Qed.

Lemma entry_u32 pa flags :
  pa mod 4096 = 0 -> 0 <= pa < 4294967296 -> 0 <= flags < 256 -> u32 (Z.lor pa flags) = Z.lor pa flags.
Proof. intros. rewrite entry_val by done. apply u32_small. zlia. Qed.

(** ** Tables as heap blocks *)

Definition in_heap (b : Z) : Prop := 0 <= b < HEAP_BLOCKS.
Definition used (s : machine) (b : Z) : Prop := entry_is_free s b = false.

Ltac blk := unfold in_heap, block_addr in *; hp.

Lemma pt_get_block b i s :
  in_heap b -> 0 <= i < 1024 -> pt_get (block_addr b) i s = rd32 (m_ram s) (block_addr b + 4 * i).
Proof. intros. unfold pt_get. rewrite u32_small; [done | blk; lia]. Qed.

Lemma pt_set_block b i v s :
  in_heap b -> 0 <= i < 1024 ->
  pt_set (block_addr b) i v s = set_ram (wr32 (m_ram s) (block_addr b + 4 * i) v) s.
Proof. intros. unfold pt_set, on_ram. rewrite u32_small; [done | blk; lia]. Qed.

Lemma pt_get_range t i s : 0 <= pt_get t i s < 4294967296.
Proof. apply rd32_range. Qed.

Lemma pt_get_set b i v b' i' s :
  in_heap b -> in_heap b' -> 0 <= i < 1024 -> 0 <= i' < 1024 ->
  pt_get (block_addr b') i' (pt_set (block_addr b) i v s) =
  if (b =? b') && (i =? i') then u32 v else pt_get (block_addr b') i' s.
Proof.
  intros. rewrite pt_set_block, !pt_get_block by done. cbn [set_ram m_ram].
  destruct (Z.eqb_spec b b') as [->|]; [destruct (Z.eqb_spec i i') as [->|]|]; cbn [andb].
  - apply rd32_wr32.
  - apply rd32_wr32_ne. blk. lia.
  - apply rd32_wr32_ne. blk. lia.
Qed.

(** Writing a table entry touches only the bytes of its block. *)
Lemma pt_set_out b i v s a :
  in_heap b -> 0 <= i < 1024 -> a < block_addr b \/ block_addr b + 4096 <= a ->
  rd8 (m_ram (pt_set (block_addr b) i v s)) a = rd8 (m_ram s) a.
Proof. intros. rewrite pt_set_block by done. apply rd8_wr32. lia. Qed.

Lemma pt_set_ok b i v s : heap_ok (pt_set b i v s) <-> heap_ok s.
Proof. done. Qed.

Lemma pt_set_used b i v s k :
  heap_ok s -> in_heap b -> in_heap k -> 0 <= i < 1024 ->
  entry_is_free (pt_set (block_addr b) i v s) k = entry_is_free s k.
Proof.
  intros. apply entry_is_free_ext; [done | by apply pt_set_ok | blk; lia |].
  apply pt_set_out; [done | done |]. blk. lia.
Qed.

(** ** Well-formed address spaces *)

Definition pde (s : machine) (dir i : Z) : Z := pt_get dir i s.

(** The heap blocks that make up the tables of [dir]. *)
Definition owned (s : machine) (dir b : Z) : Prop :=
  dir = block_addr b \/
  exists i, 0 <= i < 1024 /\ present (pde s dir i) = true /\ frame_of (pde s dir i) = block_addr b.

Record pt_wf (s : machine) (dir : Z) : Prop := {
  wf_heap : heap_ok s;
  wf_dir : exists d, in_heap d /\ dir = block_addr d /\ used s d;
  wf_tbl : forall i, 0 <= i < 1024 -> present (pde s dir i) = true ->
    exists b, in_heap b /\ frame_of (pde s dir i) = block_addr b /\ used s b /\ block_addr b <> dir;
  wf_inj : forall i j, 0 <= i < 1024 -> 0 <= j < 1024 ->
    present (pde s dir i) = true -> present (pde s dir j) = true ->
    frame_of (pde s dir i) = frame_of (pde s dir j) -> i = j }.

(** The leaf entry of a virtual page number; 0 when its table is absent. *)
Definition pte_at (s : machine) (dir v : Z) : Z :=
  if present (pde s dir (v / 1024)) then pt_get (frame_of (pde s dir (v / 1024))) (v mod 1024) s else 0.

Lemma block_addr_inj b b' : block_addr b = block_addr b' -> b = b'.
Proof. blk. lia. Qed.

Lemma owned_used s dir b : pt_wf s dir -> owned s dir b -> in_heap b /\ used s b.
Proof.
  intros [_ (d & Hd & -> & Hu) Ht _] [E|(i & Hi & Hp & E)].
  - apply block_addr_inj in E as <-. done.
  - destruct (Ht i Hi Hp) as (b' & Hb & E' & Hu' & _). rewrite E' in E. apply block_addr_inj in E as <-. done.
Qed.

Definition in_block (b a : Z) : Prop := block_addr b <= a < block_addr b + 4096.

(** Addresses outside the heap and its table, and the steps that write to these
    two only. *)
Definition off_heap (a : Z) : Prop := (a < KHEAP_TABLE_ADDR \/ TABLE_END <= a) /\ (a < KHEAP_ADDR \/ HEAP_END <= a).
Definition heap_writes (s s' : machine) : Prop := forall a, off_heap a -> rd8 (m_ram s') a = rd8 (m_ram s) a.

(** What a failing allocation of a page leaves alone as well: it clears the
    first page and prints a message at the cursor of [c]. *)
Definition calm (c : console) (a : Z) : Prop := off_heap a /\ 4096 <= a /\ off_lines c a.

Lemma heap_writes_trans s1 s2 s3 : heap_writes s1 s2 -> heap_writes s2 s3 -> heap_writes s1 s3.
Proof. intros H1 H2 a Ha. by rewrite H2, H1. Qed.

Lemma off_heap_block a b : off_heap a -> in_heap b -> ~ in_block b a.
Proof. unfold off_heap, in_block. blk. lia. Qed.

Lemma page_taken_writes s i m : in_heap i -> page_taken s i 4096 m -> heap_writes s (set_ram m s).
Proof.
  intros Hi Hm a Ha. cbn [set_ram m_ram]. rewrite Hm. unfold off_heap in Ha. blk. by repeat case_test; try lia.
Qed.

(** [pt_ext dir s s']: the step from [s] to [s'] is work on the tables of
    [dir].  Tables are only added, from blocks that were free; memory in a
    block that was used and not a table of [dir] is untouched. *)
Record pt_ext (dir : Z) (s s' : machine) : Prop := {
  ext_wf : pt_wf s' dir;
  ext_used : forall b, in_heap b -> used s b -> used s' b;
  ext_owned : forall b, owned s dir b -> owned s' dir b;
  ext_new : forall b, owned s' dir b -> owned s dir b \/ entry_is_free s b = true;
  ext_keep : forall b a, in_heap b -> used s b -> ~ owned s dir b -> in_block b a ->
    rd8 (m_ram s') a = rd8 (m_ram s) a }.

Lemma pt_ext_refl dir s : pt_wf s dir -> pt_ext dir s s.
Proof. intros. split; eauto. Qed.

Lemma pt_ext_trans dir s1 s2 s3 : pt_ext dir s1 s2 -> pt_ext dir s2 s3 -> pt_ext dir s1 s3.
Proof.
  intros [W1 U1 O1 N1 K1] [W2 U2 O2 N2 K2].
  assert (Hback : forall b, in_heap b -> used s1 b -> owned s2 dir b -> owned s1 dir b).
  { intros b Hb Hu Ho. destruct (N1 b Ho) as [|Hf]; [done|]. unfold used in Hu. congruence. }
  split; [done | eauto | eauto | |].
  - intros b Hb. destruct (N2 b Hb) as [Ho|Hf]; [eauto|].
    destruct (owned_used _ _ _ W2 Hb) as [Hh _]. right.
    destruct (entry_is_free s1 b) eqn:E; [done|]. rewrite (U1 b Hh E) in Hf. done.
  - intros b a Hb Hu Hno Ha. rewrite (K2 b a), (K1 b a); eauto.
Qed.

Lemma vpn_index v : 0 <= v < 1048576 -> 0 <= v / 1024 < 1024 /\ 0 <= v mod 1024 < 1024.
Proof. intros. zlia. Qed.

Lemma shiftr_10 v : Z.shiftr v 10 = v / 1024.
Proof. by rewrite Z.shiftr_div_pow2 by lia. Qed.

Lemma block_aligned b : block_addr b mod 4096 = 0.
Proof. blk. zlia. Qed.

Lemma block_u32 b : in_heap b -> 0 <= block_addr b < 4294967296.
Proof. blk. lia. Qed.

#[export] Hint Resolve block_aligned block_u32 : amog.

(** ** Writing one mapping *)

Section link.
Context (s : machine) (dir d b vpn pa flags : Z).
Context (Hwf : pt_wf s dir) (Hdir : dir = block_addr d) (Hd : in_heap d).
Context (Hb : in_heap b) (Hub : used s b) (Hbd : b <> d).
Context (Hvpn : 0 <= vpn < 1048576).
Context (Hpa : pa mod 4096 = 0) (Hpr : 0 <= pa < 4294967296) (Hfl : 0 <= flags < 256).
Context (Hpres : present flags = true).
(** [b] is the table of directory entry [vpn / 1024], or fresh. *)
Context (Hother : forall j, 0 <= j < 1024 -> j <> vpn / 1024 ->
  present (pde s dir j) = true -> frame_of (pde s dir j) <> block_addr b).
Context (Hsame : present (pde s dir (vpn / 1024)) = true ->
  frame_of (pde s dir (vpn / 1024)) = block_addr b).
Context (Hpte : forall i, 0 <= i < 1024 ->
  pt_get (block_addr b) i s = pte_at s dir (vpn / 1024 * 1024 + i)).

Let s1 := pt_set (block_addr b) (vpn mod 1024) (Z.lor pa flags) s.
Let s2 := pt_set dir (vpn / 1024) (Z.lor (block_addr b) flags) s1.

Lemma link_pde j : 0 <= j < 1024 ->
  pde s2 dir j = if vpn / 1024 =? j then Z.lor (block_addr b) flags else pde s dir j.
Proof.
  intros Hj. unfold pde, s2, s1. rewrite Hdir. destruct (vpn_index vpn Hvpn).
  rewrite !pt_get_set by done. rewrite Z.eqb_refl. cbn [andb].
  rewrite entry_u32 by auto with amog.
  rewrite (proj2 (Z.eqb_neq b d)) by done. done.
Qed.

Lemma link_get t i : in_heap t -> t <> d -> 0 <= i < 1024 ->
  pt_get (block_addr t) i s2 =
  if (b =? t) && (vpn mod 1024 =? i) then Z.lor pa flags else pt_get (block_addr t) i s.
Proof.
  intros Ht Htd Hi. unfold s2, s1. rewrite Hdir. destruct (vpn_index vpn Hvpn).
  rewrite !pt_get_set by done. rewrite (proj2 (Z.eqb_neq d t)) by done. cbn [andb].
  by rewrite entry_u32.
Qed.

Lemma link_used k : in_heap k -> entry_is_free s2 k = entry_is_free s k.
Proof.
  intros Hk. destruct (vpn_index vpn Hvpn). unfold s2, s1. rewrite Hdir.
  rewrite !pt_set_used; try done; by apply wf_heap in Hwf.
Qed.

Lemma link_new_frame : frame_of (Z.lor (block_addr b) flags) = block_addr b.
Proof. apply entry_frame; auto with amog. Qed.

Lemma link_new_present : present (Z.lor (block_addr b) flags) = true.
Proof. by rewrite entry_present by auto with amog. Qed.

Lemma link_wf : pt_wf s2 dir.
Proof.
  split.
  - apply (wf_heap _ _ Hwf).
  - exists d. split_and!; try done. destruct (wf_dir _ _ Hwf) as (d' & Hd' & E & Hu).
    rewrite Hdir in E. apply block_addr_inj in E as <-. unfold used. by rewrite link_used.
  - intros i Hi Hp. rewrite link_pde in * by done. destruct (Z.eqb_spec (vpn / 1024) i).
    + exists b. rewrite link_new_frame. unfold used. rewrite link_used by done. split_and!; try done.
      rewrite Hdir. by intros E%block_addr_inj.
    + destruct (wf_tbl _ _ Hwf i Hi Hp) as (b' & ? & ? & ? & ?). exists b'. unfold used.
      by rewrite link_used.
  - intros i j Hi Hj. rewrite !link_pde by done.
    destruct (Z.eqb_spec (vpn / 1024) i) as [<-|], (Z.eqb_spec (vpn / 1024) j) as [<-|]; try done.
    + intros _ Hp E. rewrite link_new_frame in E. by destruct (Hother j Hj ltac:(done) Hp).
    + intros Hp _ E. rewrite link_new_frame in E. by destruct (Hother i Hi ltac:(done) Hp).
    + by apply (wf_inj _ _ Hwf).
Qed.

Lemma link_pte v : 0 <= v < 1048576 ->
  pte_at s2 dir v = if v =? vpn then Z.lor pa flags else pte_at s dir v.
Proof.
  intros Hv. destruct (vpn_index v Hv) as [Hv1 Hv2]. unfold pte_at. rewrite link_pde by done.
  destruct (Z.eqb_spec (vpn / 1024) (v / 1024)) as [E|E].
  - rewrite link_new_present, link_new_frame, link_get, Z.eqb_refl by done. cbn [andb].
    destruct (Z.eqb_spec (vpn mod 1024) (v mod 1024)), (Z.eqb_spec v vpn); try done; try zlia.
    rewrite Hpte by done. unfold pte_at.
    replace ((vpn / 1024 * 1024 + v mod 1024) / 1024) with (v / 1024) by zlia.
    by replace ((vpn / 1024 * 1024 + v mod 1024) mod 1024) with (v mod 1024) by zlia.
  - destruct (Z.eqb_spec v vpn) as [->|]; [done|].
    destruct (present (pde s dir (v / 1024))) eqn:Hp; [|done].
    destruct (wf_tbl _ _ Hwf _ Hv1 Hp) as (b' & Hb' & Ef & _ & Hne). rewrite Ef.
    rewrite link_get; [|done | by intros ->; rewrite Hdir in Hne | done].
    destruct (Z.eqb_spec b b') as [->|]; [|done].
    by destruct (Hother (v / 1024) Hv1 ltac:(congruence) Hp).
Qed.

Lemma link_out a : ~ in_block b a -> ~ in_block d a -> rd8 (m_ram s2) a = rd8 (m_ram s) a.
Proof.
  unfold in_block. intros. destruct (vpn_index vpn Hvpn). unfold s2, s1. rewrite Hdir.
  rewrite !pt_set_out; try done; lia.
Qed.

Lemma link_owned t : owned s2 dir t <-> owned s dir t \/ t = b.
Proof.
  destruct (vpn_index vpn Hvpn) as [Hv _]. unfold owned. split.
  - intros [E|(i & Hi & Hp & E)]; [tauto|]. rewrite link_pde in Hp, E by done.
    destruct (Z.eqb_spec (vpn / 1024) i); [|by left; right; exists i].
    rewrite link_new_frame in E. apply block_addr_inj in E. by right.
  - intros [[E|(i & Hi & Hp & E)]| ->]; [by left | |].
    + right. destruct (decide (vpn / 1024 = i)) as [<-|].
      * exists (vpn / 1024). rewrite link_pde, Z.eqb_refl by done. split_and!; try lia.
        { apply link_new_present. } rewrite link_new_frame, <- E. by rewrite Hsame.
      * exists i. rewrite link_pde by done. by rewrite (proj2 (Z.eqb_neq _ _)).
    + right. exists (vpn / 1024). rewrite link_pde, Z.eqb_refl by done.
      split_and!; try lia. { apply link_new_present. } apply link_new_frame.
Qed.
End link.

(** ** Steps that leave the tables of an address space alone *)

Lemma rd32_block s s' b i :
  in_heap b -> 0 <= i < 1024 -> (forall a, in_block b a -> rd8 (m_ram s') a = rd8 (m_ram s) a) ->
  pt_get (block_addr b) i s' = pt_get (block_addr b) i s.
Proof.
  intros Hb Hi H. rewrite !pt_get_block by done. apply rd32_ext. intros a Ha. apply H.
  unfold in_block. lia.
Qed.

Section keep.
Context (s s' : machine) (dir : Z) (Hwf : pt_wf s dir).
Context (Hok : heap_ok s') (Hused : forall b, in_heap b -> used s b -> used s' b).
Context (Hkeep : forall b a, owned s dir b -> in_block b a -> rd8 (m_ram s') a = rd8 (m_ram s) a).

Lemma keep_pde i : 0 <= i < 1024 -> pde s' dir i = pde s dir i.
Proof.
  intros Hi. destruct (wf_dir _ _ Hwf) as (d & Hd & E & _). unfold pde. rewrite E.
  apply rd32_block; [done | done |]. intros a. apply Hkeep. by left.
Qed.

Lemma keep_owned b : owned s' dir b <-> owned s dir b.
Proof.
  unfold owned. split; (intros [|(i & Hi & Hp & E)]; [by left|]); right; exists i;
    rewrite keep_pde in * by done; done.
Qed.

(** Only the tables themselves have to stay in use. *)
Lemma keep_wf_owned : (forall b, owned s dir b -> used s' b) -> pt_wf s' dir.
Proof.
  intros Hu. split; [done | | |].
  - destruct (wf_dir _ _ Hwf) as (d & ? & ? & ?). exists d. split_and!; try done. apply Hu. by left.
  - intros i Hi Hp. rewrite keep_pde in * by done.
    destruct (wf_tbl _ _ Hwf i Hi Hp) as (b & ? & ? & ? & ?). exists b. split_and!; try done.
    apply Hu. right. by exists i.
  - intros i j Hi Hj. rewrite !keep_pde by done. by apply (wf_inj _ _ Hwf).
Qed.

Lemma keep_wf : pt_wf s' dir.
Proof. apply keep_wf_owned. intros b Ho. destruct (owned_used _ _ _ Hwf Ho). auto. Qed.

Lemma keep_pte v : 0 <= v < 1048576 -> pte_at s' dir v = pte_at s dir v.
Proof.
  intros Hv. destruct (vpn_index v Hv). unfold pte_at. rewrite keep_pde by done.
  destruct (present (pde s dir (v / 1024))) eqn:Hp; [|done].
  destruct (wf_tbl _ _ Hwf (v / 1024) ltac:(done) Hp) as (b & Hb & E & _). rewrite E.
  apply rd32_block; [done | done |]. intros a. apply Hkeep. right. by exists (v / 1024).
Qed.

Lemma keep_ext :
  (forall b a, in_heap b -> used s b -> in_block b a -> rd8 (m_ram s') a = rd8 (m_ram s) a) -> pt_ext dir s s'.
Proof.
  intros Hk. split; [apply keep_wf | done | | | eauto].
  - intros b. by rewrite keep_owned.
  - intros b. rewrite keep_owned. by left.
Qed.
End keep.

(** A failed and a successful [kzalloc] of a page are such steps. *)
Lemma low_cleared_ext dir s s' :
  pt_wf s dir -> low_cleared 4096 s s' ->
  pt_ext dir s s' /\ (forall v, 0 <= v < 1048576 -> pte_at s' dir v = pte_at s dir v) /\
  (forall j, 0 <= j < 1024 -> pde s' dir j = pde s dir j).
Proof.
  intros Hwf Hl. pose proof Hl as (Hc & Hh & _ & Hf & _). pose proof (wf_heap _ _ Hwf) as Hs.
  assert (Hfree : forall b, in_heap b -> heap_ok s' /\ entry_is_free s' b = entry_is_free s b).
  { intros. by apply (low_cleared_free 4096). }
  assert (Hrd : forall b a, in_heap b -> in_block b a -> rd8 (m_ram s') a = rd8 (m_ram s) a).
  { intros b a Hb Ha. apply Hf; unfold in_block in *; blk; vga; lia. }
  assert (heap_ok s') by (apply (Hfree 0); blk; lia).
  assert (Hu : forall b, in_heap b -> used s b -> used s' b).
  { intros b Hb. unfold used. by destruct (Hfree b Hb) as [_ ->]. }
  assert (Ho : forall b a, owned s dir b -> in_block b a -> rd8 (m_ram s') a = rd8 (m_ram s) a).
  { intros b a Hb. apply Hrd. by destruct (owned_used _ _ _ Hwf Hb). }
  split; [|split; intros; [by apply keep_pte | by apply keep_pde]].
  apply keep_ext; try done. eauto.
Qed.

Lemma page_taken_ext dir s i m :
  pt_wf s dir -> in_heap i -> entry_is_free s i = true -> page_taken s i 4096 m ->
  let s' := set_ram m s in
  pt_ext dir s s' /\ (forall b, owned s' dir b <-> owned s dir b) /\ used s' i /\
  (forall k, 0 <= k < 1024 -> pde s' dir k = pde s dir k) /\
  (forall k, 0 <= k < 1024 -> pt_get (block_addr i) k s' = 0) /\
  (forall v, 0 <= v < 1048576 -> pte_at s' dir v = pte_at s dir v).
Proof.
  intros Hwf Hi Hf Hm s'. pose proof (wf_heap _ _ Hwf) as Hs.
  assert (Hfree : forall k, in_heap k -> entry_is_free s' k = if k =? i then false else entry_is_free s k).
  { intros. by apply (page_taken_free s i 4096). }
  assert (Hrd : forall b a, in_heap b -> used s b -> in_block b a -> rd8 (m_ram s') a = rd8 (m_ram s) a).
  { intros b a Hb Hu Ha. cbn [s' set_ram m_ram]. assert (b <> i) by (intros ->; unfold used in Hu; congruence).
    rewrite Hm. unfold in_block in *. blk. by repeat case_test; try lia. }
  assert (Hu : forall b, in_heap b -> used s b -> used s' b).
  { intros b Hb Hu. unfold used. rewrite Hfree by done. by destruct (b =? i). }
  assert (Ho : forall b a, owned s dir b -> in_block b a -> rd8 (m_ram s') a = rd8 (m_ram s) a).
  { intros b a Hb. destruct (owned_used _ _ _ Hwf Hb). by apply Hrd. }
  split_and!.
  - by apply keep_ext.
  - intros b. by apply keep_owned.
  - unfold used. by rewrite Hfree, Z.eqb_refl.
  - intros. by apply keep_pde.
  - intros k Hk. rewrite pt_get_block by done.
    assert (Hz : forall j, 0 <= j < 4096 -> rd8 (m_ram s') (block_addr i + j) = 0).
    { intros j Hj. cbn [s' set_ram m_ram]. rewrite Hm. by repeat case_test; try lia. }
    unfold rd32, rd16. rewrite <- !Z.add_assoc. by rewrite !Hz by lia.
  - intros. by apply keep_pte.
Qed.

(** ** paging_new_vpn_to_pfn *)

(** [link_table] after a step [s0 -> s] that prepared the table [b]. *)
Lemma link_ext s0 s dir d b vpn pa flags :
  pt_ext dir s0 s -> dir = block_addr d -> in_heap d -> in_heap b -> used s b -> b <> d ->
  0 <= vpn < 1048576 -> pa mod 4096 = 0 -> 0 <= pa < 4294967296 -> 0 <= flags < 256 ->
  present flags = true ->
  (forall j, 0 <= j < 1024 -> j <> vpn / 1024 ->
    present (pde s dir j) = true -> frame_of (pde s dir j) <> block_addr b) ->
  (present (pde s dir (vpn / 1024)) = true -> frame_of (pde s dir (vpn / 1024)) = block_addr b) ->
  (forall i, 0 <= i < 1024 -> pt_get (block_addr b) i s = pte_at s dir (vpn / 1024 * 1024 + i)) ->
  (owned s0 dir b \/ entry_is_free s0 b = true) ->
  pt_ext dir s0 (pt_set dir (vpn / 1024) (Z.lor (block_addr b) flags)
                   (pt_set (block_addr b) (vpn mod 1024) (Z.lor pa flags) s)).
Proof.
  intros Hext Hdir Hd Hb Hub Hbd Hvpn Hpa Hpr Hfl Hpf Hoth Hsame Hpte Hsrc.
  pose proof (ext_wf _ _ _ Hext) as Hwf.
  assert (Hdo : owned s0 dir d).
  { left. done. }
  split.
  - by eapply link_wf.
  - intros t Ht Hu. unfold used. rewrite (link_used s dir d) by done. by apply (ext_used _ _ _ Hext).
  - intros t Ht. eapply link_owned; try done. left. by apply (ext_owned _ _ _ Hext).
  - intros t Ht. eapply link_owned in Ht; try done. destruct Ht as [Ht|Ht]; [|by subst].
    by apply (ext_new _ _ _ Hext).
  - intros t a Ht Hu Hno Ha.
    assert (t <> b). { intros ->. destruct Hsrc as [|Hf]; [done|]. unfold used in Hu. congruence. }
    assert (t <> d) by (intros ->; done).
    rewrite (link_out s dir d b); try done; [by apply (ext_keep _ _ _ Hext t)| |];
      unfold in_block in *; blk; lia.
Qed.

Lemma negb_present e : (Z.land e PAGE_PRESENT =? 0) = negb (present e).
Proof. unfold present. by rewrite negb_involutive. Qed.

Definition new_vpn_post (dir vpn pa flags : Z) (s : machine) (r : Z) (s' : machine) : Prop :=
  pt_ext dir s s' /\ (r = STATUS_OK -> heap_writes s s') /\
  ((r = STATUS_OK /\
    (forall v, 0 <= v < 1048576 ->
       pte_at s' dir v = if v =? vpn then Z.lor pa flags else pte_at s dir v) /\
    pde s' dir (vpn / 1024) mod 4096 = flags /\ present (pde s' dir (vpn / 1024)) = true /\
    (forall j, 0 <= j < 1024 -> j <> vpn / 1024 -> pde s' dir j = pde s dir j)) \/
   (r = - STATUS_NOT_ENOUGH_MEM /\
    (forall v, 0 <= v < 1048576 -> pte_at s' dir v = pte_at s dir v) /\
    (forall j, 0 <= j < 1024 -> pde s' dir j = pde s dir j) /\
    present (pde s dir (vpn / 1024)) = false /\ forall k, in_heap k -> used s k)).

Lemma new_vpn_finish s0 s dir d b vpn pfn flags :
  pt_ext dir s0 s -> dir = block_addr d -> in_heap d -> in_heap b -> used s b -> b <> d ->
  0 <= vpn < 1048576 -> 0 <= flags < 256 -> present flags = true ->
  (forall j, 0 <= j < 1024 -> j <> vpn / 1024 ->
    present (pde s dir j) = true -> frame_of (pde s dir j) <> block_addr b) ->
  (present (pde s dir (vpn / 1024)) = true -> frame_of (pde s dir (vpn / 1024)) = block_addr b) ->
  (forall i, 0 <= i < 1024 -> pt_get (block_addr b) i s = pte_at s dir (vpn / 1024 * 1024 + i)) ->
  (owned s0 dir b \/ entry_is_free s0 b = true) ->
  (forall v, 0 <= v < 1048576 -> pte_at s dir v = pte_at s0 dir v) ->
  (forall j, 0 <= j < 1024 -> pde s dir j = pde s0 dir j) -> heap_writes s0 s ->
  wp (second_level_pte ← gets (pt_get (block_addr b) (vpn mod 1024));
      if negb (Z.land second_level_pte PAGE_PRESENT =? 0) && false then mret (- STATUS_INVALID_ARG)
      else
        modify (pt_set (block_addr b) (vpn mod 1024) (Z.lor (u32 (pfn * PAGE_SIZE)) flags));;
        modify (pt_set dir (vpn / 1024) (Z.lor (block_addr b) flags));;
        mret STATUS_OK) s
    (new_vpn_post dir vpn (u32 (pfn * PAGE_SIZE)) flags s0).
Proof.
  intros Hext Hdir Hd Hb Hub Hbd Hvpn Hfl Hpf Hoth Hsame Hpte Hsrc Hpv Hpd Hhw.
  assert (Hpa : u32 (pfn * PAGE_SIZE) mod 4096 = 0) by (unfold u32, PAGE_SIZE; zlia).
  pose proof (u32_range (pfn * PAGE_SIZE)) as Hpr. pose proof (ext_wf _ _ _ Hext) as Hwf.
  destruct (vpn_index vpn Hvpn).
  wp_steps. rewrite andb_false_r. wp_steps.
  split; [by eapply link_ext|]. split.
  { intros _. apply (heap_writes_trans _ s); [done|]. intros a Ha. apply (link_out s dir d b); try done; by apply off_heap_block. }
  left. split; [done|]. split; [|split; [|split]].
  - intros v Hv. rewrite (link_pte s dir d) by done. by rewrite Hpv.
  - rewrite (link_pde s dir d), Z.eqb_refl by done. rewrite entry_val by auto with amog.
    pose proof (block_aligned b). zlia.
  - rewrite (link_pde s dir d), Z.eqb_refl by done. by apply link_new_present.
  - intros j Hj Hne. rewrite (link_pde s dir d), (proj2 (Z.eqb_neq _ _)) by done. by apply Hpd.
Qed.

Lemma new_vpn_spec s dir nl vpn pfn flags :
  pt_wf s dir -> 0 <= vpn < 1048576 -> 0 <= flags < 256 -> present flags = true ->
  wp (paging_new_vpn_to_pfn (mk_pt dir nl) vpn pfn flags true) s
    (new_vpn_post dir vpn (u32 (pfn * PAGE_SIZE)) flags s).
Proof.
  intros Hwf Hvpn Hfl Hpf. destruct (vpn_index vpn Hvpn) as [Hv1 Hv2].
  destruct (wf_dir _ _ Hwf) as (d & Hd & Hdir & Hud).
  unfold paging_new_vpn_to_pfn. wp_steps. rewrite negb_present, shiftr_10. cbn [cr3]. fold (pde s dir (vpn / 1024)).
  destruct (present (pde s dir (vpn / 1024))) eqn:Hp; cbn [negb andb].
  - destruct (wf_tbl _ _ Hwf _ Hv1 Hp) as (b & Hb & E & Hub & Hne). wp_steps.
    fold (frame_of (pde s dir (vpn / 1024))). rewrite E.
    assert (b <> d) by (intros ->; done).
    eapply new_vpn_finish; try done.
    + by apply pt_ext_refl.
    + intros j Hj Hjne Hpj Ej. apply Hjne. apply (wf_inj _ _ Hwf); try done. by rewrite E.
    + intros i Hi. unfold pte_at. replace ((vpn / 1024 * 1024 + i) / 1024) with (vpn / 1024) by zlia.
      replace ((vpn / 1024 * 1024 + i) mod 1024) with i by zlia. by rewrite Hp, E.
    + left. right. by exists (vpn / 1024).
  - change (4 * NUM_PAGE_TABLE_ENTRIES) with 4096.
    wp_apply (kzalloc_page 4096 s (wf_heap _ _ Hwf) ltac:(lia)).
    intros p s' [(-> & Hnone & Hl)|(i & m & Hi & -> & Hf & -> & Hm)].
    + rewrite Z.eqb_refl. wp_steps. destruct (low_cleared_ext dir s s' Hwf Hl) as (Hext & Hv & Hpd).
      split; [done|]. split; [done|]. right. split_and!; try done.
    + rewrite (proj2 (Z.eqb_neq _ _)) by (blk; lia).
      destruct (page_taken_ext dir s i m Hwf Hi Hf Hm) as (Hext & Hown & Hui & Hpd & Hz & Hv).
      assert (Hfresh : ~ owned s dir i).
      { intros Ho. destruct (owned_used _ _ _ Hwf Ho) as [_ Hu]. unfold used in Hu. congruence. }
      assert (i <> d) by (intros ->; apply Hfresh; by left).
      eapply new_vpn_finish; try done.
      * intros j Hj Hjne Hpj Ej. apply Hfresh, Hown. right. by exists j.
      * rewrite Hpd by done. congruence.
      * intros k Hk. rewrite Hz, Hv by zlia. unfold pte_at.
        replace ((vpn / 1024 * 1024 + k) / 1024) with (vpn / 1024) by zlia. by rewrite Hp.
      * by right.
      * by apply (page_taken_writes s i m).
Qed.

(** ** Mapping a region *)

Definition region_post (dir flags lo hi : Z) (new : Z -> Z) (s : machine) (r : Z) (s' : machine) : Prop :=
  pt_ext dir s s' /\
  (forall v, 0 <= v < 1048576 -> v < lo \/ hi <= v -> pte_at s' dir v = pte_at s dir v) /\
  (forall j, 0 <= j < 1024 -> pde s' dir j = pde s dir j \/
     (pde s' dir j mod 4096 = flags /\ present (pde s' dir j) = true /\ exists v, lo <= v < hi /\ v / 1024 = j)) /\
  ((r = STATUS_OK /\ heap_writes s s' /\
    forall v, lo <= v < hi -> pte_at s' dir v = Z.lor (u32 (new v * PAGE_SIZE)) flags /\
      pde s' dir (v / 1024) mod 4096 = flags /\ present (pde s' dir (v / 1024)) = true) \/
   (r = - STATUS_NOT_ENOUGH_MEM /\ (forall k, in_heap k -> used s' k) /\
    exists v, lo <= v < hi /\ present (pde s dir (v / 1024)) = false)).

Lemma map_region_loop_spec n : forall s dir nl vs ps i flags,
  pt_wf s dir -> 0 <= vs + i -> vs + i + Z.of_nat n <= 1048576 -> 0 <= flags < 256 -> present flags = true ->
  wp (map_region_loop n (mk_pt dir nl) vs ps i flags) s
    (region_post dir flags (vs + i) (vs + i + Z.of_nat n) (fun v => ps + (v - vs)) s).
Proof.
  induction n as [|n IH]; intros s dir nl vs ps i flags Hwf Hlo Hhi Hfl Hpf; cbn [map_region_loop].
  - wp_steps. split; [by apply pt_ext_refl|]. split_and!; [done | by left | left; split; [done|]; split; [done|]; intros; lia].
  - wp_step. wp_apply (new_vpn_spec s dir nl (vs + i) (ps + i) flags); try done; [lia|].
    intros r s1 (Hext & Hhw & Hr). assert (Hv1 : 0 <= vs + i < 1048576) by lia. destruct (vpn_index _ Hv1) as [Hdi _].
    destruct Hr as [(-> & Hpte & Hmod & Hp & Hpde)|(-> & Hpte & Hpde & Hmiss & Hfull)].
    2: { cbn. wp_steps. split; [done|]. split_and!; [auto | intros; left; auto | right]. split_and!; [done | |].
         - intros k Hk. by apply (ext_used _ _ _ Hext), Hfull.
         - exists (vs + i). split; [lia | done]. }
    rewrite Z.eqb_refl. cbn [negb].
    wp_apply (IH s1 dir nl vs ps (i + 1) flags); try done; [by apply (ext_wf _ _ _ Hext) | lia | lia |].
    intros r s2 (Hext2 & Hout & Hpd2 & Hres). replace (vs + (i + 1)) with (vs + i + 1) in * by lia.
    replace (vs + i + 1 + Z.of_nat n) with (vs + i + Z.of_nat (S n)) in * by lia.
    assert (Hdir : forall j, 0 <= j < 1024 -> pde s2 dir j = pde s dir j \/
      (pde s2 dir j mod 4096 = flags /\ present (pde s2 dir j) = true /\
       exists v, vs + i <= v < vs + i + Z.of_nat (S n) /\ v / 1024 = j)).
    { intros j Hj. destruct (Hpd2 j Hj) as [->|(? & ? & v & ? & ?)].
      - destruct (decide (j = (vs + i) / 1024)) as [->|]; [right; split_and!; try done; exists (vs + i); lia|].
        left. by apply Hpde.
      - right. split_and!; try done. exists v. split; [lia | done]. }
    split; [by eapply pt_ext_trans|]. split; [|split; [done|]].
    + intros v Hv Ho. rewrite Hout, Hpte by lia. by destruct (Z.eqb_spec v (vs + i)); [lia|].
    + destruct Hres as [(-> & Hhw2 & Hmap)|(-> & Hfull & v & Hv & Hmiss)]; [left; split; [done|] | right; split_and!; try done].
      2: { exists v. split; [lia|]. rewrite <- Hpde; [done | zlia |]. intros E. by rewrite E, Hp in Hmiss. }
      split; [by apply (heap_writes_trans _ s1); [apply Hhw|]|].
      intros v Hv. destruct (decide (v = vs + i)) as [->|]; [|apply Hmap; lia].
      rewrite Hout, Hpte, Z.eqb_refl by lia. split; [do 3 f_equal; lia|].
      destruct (Hpd2 _ Hdi) as [->|(? & ? & _)]; done.
Qed.

(** ** From entries to translations *)

Definition rights (pde pte : Z) : Z := Z.land (Z.land pde pte) (PAGE_USER_ACCESS_ALLOW + PAGE_WRITE_ALLOW).

(** The walk of the MMU in terms of leaf entries. *)
Lemma mmu_walk_pte s dir va :
  0 <= va < 4294967296 ->
  let pte := pte_at s dir (va / 4096) in
  mmu_walk s dir va =
  if present pte then Some (frame_of pte + va mod 4096, rights (pde s dir (va / 4194304)) pte) else None.
Proof.
  intros Hva. cbn zeta. unfold mmu_walk, pte_at, pde. rewrite negb_present.
  replace (va / 4096 / 1024) with (va / 4194304) by zlia.
  destruct (present (pt_get dir (va / 4194304) s)); cbn [negb]; [|done].
  rewrite negb_present. fold (frame_of (pt_get dir (va / 4194304) s)).
  by destruct (present (pt_get (frame_of (pt_get dir (va / 4194304) s)) (va / 4096 mod 1024) s)).
Qed.

Lemma mmu_walk_ext s s' dir va :
  0 <= va < 4294967296 -> pte_at s' dir (va / 4096) = pte_at s dir (va / 4096) ->
  pde s' dir (va / 4194304) = pde s dir (va / 4194304) -> mmu_walk s' dir va = mmu_walk s dir va.
Proof. intros Hva E1 E2. rewrite !mmu_walk_pte by done. cbn zeta. by rewrite E1, E2. Qed.

Lemma land_6_mod x : Z.land x 6 = Z.land (x mod 4096) 6.
Proof.
  change (x mod 4096) with (x mod 2 ^ 12). rewrite <- Z.land_ones, <- Z.land_assoc by lia.
  by change (Z.land (Z.ones 12) 6) with 6.
Qed.

Lemma rights_flags pde pa flags :
  pde mod 4096 = flags -> pa mod 4096 = 0 -> 0 <= flags < 256 ->
  rights pde (Z.lor pa flags) = Z.land flags (PAGE_USER_ACCESS_ALLOW + PAGE_WRITE_ALLOW).
Proof.
  intros Hd Hp Hf. unfold rights, PAGE_USER_ACCESS_ALLOW, PAGE_WRITE_ALLOW.
  change (4 + 2) with 6. change 6 with (Z.land 6 6) at 1.
  assert (Hpte : Z.lor pa flags mod 4096 = flags) by (rewrite entry_val by done; zlia).
  replace (Z.land (Z.land pde (Z.lor pa flags)) (Z.land 6 6))
    with (Z.land (Z.land pde 6) (Z.land (Z.lor pa flags) 6)).
  - rewrite (land_6_mod pde), (land_6_mod (Z.lor pa flags)), Hd, Hpte. apply Z.land_diag.
  - apply Z.bits_inj'. intros k _. rewrite !Z.land_spec. btauto.
Qed.

(** A mapped page translates to its frame with the rights of the flags. *)
Lemma mmu_walk_mapped s dir va pa flags :
  0 <= va < 4294967296 -> pa mod 4096 = 0 -> 0 <= pa < 4294967296 -> 0 <= flags < 256 ->
  present flags = true -> pte_at s dir (va / 4096) = Z.lor pa flags ->
  pde s dir (va / 4194304) mod 4096 = flags ->
  mmu_walk s dir va = Some (pa + va mod 4096, Z.land flags (PAGE_USER_ACCESS_ALLOW + PAGE_WRITE_ALLOW)).
Proof.
  intros ????? Hpte Hpde. rewrite mmu_walk_pte by done. cbn zeta. rewrite Hpte.
  rewrite entry_present, entry_frame, rights_flags by done. by destruct (present flags).
Qed.

Lemma aligned_mod a : is_page_aligned a = true <-> a mod 4096 = 0.
Proof.
  unfold is_page_aligned, PAGE_SIZE. change (4096 - 1) with (2 ^ 12 - 1).
  by rewrite Z.eqb_eq, land_low by lia.
Qed.

(** ** Other address spaces *)

(** Two address spaces share no table. *)
Definition separate (s : machine) (dir dir' : Z) : Prop :=
  forall b, owned s dir b -> ~ owned s dir' b.

(** Work on the tables of [dir] leaves a separate address space as it was. *)
Lemma pt_ext_separate dir dir' s s' :
  pt_ext dir s s' -> pt_wf s dir' -> separate s dir dir' ->
  pt_wf s' dir' /\ separate s' dir dir' /\
  forall va, 0 <= va < 4294967296 -> mmu_walk s' dir' va = mmu_walk s dir' va.
Proof.
  intros Hext Hwf Hsep.
  assert (Hkeep : forall b a, owned s dir' b -> in_block b a -> rd8 (m_ram s') a = rd8 (m_ram s) a).
  { intros b a Hb Ha. destruct (owned_used _ _ _ Hwf Hb) as [Hh Hu].
    apply (ext_keep _ _ _ Hext b); try done. intros Ho. by destruct (Hsep b Ho). }
  pose proof (wf_heap _ _ (ext_wf _ _ _ Hext)) as Hok. pose proof (ext_used _ _ _ Hext) as Hused.
  split_and!.
  - by apply (keep_wf s).
  - intros b Ho Ho'. rewrite (keep_owned s s') in Ho' by done.
    destruct (ext_new _ _ _ Hext b Ho) as [|Hf]; [by destruct (Hsep b)|].
    destruct (owned_used _ _ _ Hwf Ho') as [_ Hu]. unfold used in Hu. congruence.
  - intros va Hva. apply mmu_walk_ext; [done | apply keep_pte; [done | done | zlia] |
      apply keep_pde; [done | done | zlia]].
Qed.

(** ** Unmapping *)

(** The pages from [lo] up to [hi] have been taken out of the tables of [dir];
    nothing but these tables is written. *)
Record pages_freed (dir lo hi : Z) (s s' : machine) : Prop := {
  pf_ext : pt_ext dir s s';
  pf_pde : forall j, 0 <= j < 1024 -> pde s' dir j = pde s dir j;
  pf_gone : forall v, lo <= v < hi -> present (pte_at s' dir v) = false;
  pf_kept : forall v, 0 <= v < 1048576 -> v < lo \/ hi <= v -> pte_at s' dir v = pte_at s dir v;
  pf_ram : s' = set_ram (m_ram s') s;
  pf_out : forall a, (forall b, owned s dir b -> ~ in_block b a) -> rd8 (m_ram s') a = rd8 (m_ram s) a }.

Lemma pages_freed_refl dir lo hi s :
  pt_wf s dir -> (forall v, lo <= v < hi -> present (pte_at s dir v) = false) -> pages_freed dir lo hi s s.
Proof. intros Hwf Hp. split; try done; [by apply pt_ext_refl | by destruct s]. Qed.

(** The tables of an address space are in the same blocks while its directory
    has the same entries. *)
Lemma pde_owned dir s s' : (forall j, 0 <= j < 1024 -> pde s' dir j = pde s dir j) ->
  forall b, owned s' dir b <-> owned s dir b.
Proof.
  intros Hpde b. unfold owned. split; (intros [|(i & Hi & ? & ?)]; [by left | right; exists i]);
    rewrite Hpde in * by done; done.
Qed.

Lemma pages_freed_trans dir lo mid hi s1 s2 s3 :
  0 <= lo <= mid -> mid <= hi <= 1048576 ->
  pages_freed dir lo mid s1 s2 -> pages_freed dir mid hi s2 s3 -> pages_freed dir lo hi s1 s3.
Proof.
  intros Hlo Hhi [E1 D1 G1 K1 R1 O1] [E2 D2 G2 K2 R2 O2]. split.
  - by eapply pt_ext_trans.
  - intros j Hj. by rewrite D2, D1.
  - intros v Hv. destruct (decide (v < mid)); [rewrite K2 by lia; apply G1; lia | apply G2; lia].
  - intros v Hv Ho. rewrite K2, K1 by lia. done.
  - rewrite R2, R1. done.
  - intros a Ha. rewrite O2, O1; [done | done |]. intros b. rewrite (pde_owned dir s1 s2) by done. apply Ha.
Qed.

Lemma free_vpn_spec s dir nl vpn :
  pt_wf s dir -> 0 <= vpn < 1048576 ->
  wp (paging_free_vpn (mk_pt dir nl) vpn) s (fun r s' => r = 0 /\ pages_freed dir vpn (vpn + 1) s s').
Proof.
  intros Hwf Hvpn. destruct (vpn_index vpn Hvpn) as [Hv1 Hv2].
  unfold paging_free_vpn. wp_step. wp_assert. wp_steps. rewrite negb_present, shiftr_10. cbn [cr3]. fold (pde s dir (vpn / 1024)).
  assert (Hnone : present (pte_at s dir vpn) = false -> pages_freed dir vpn (vpn + 1) s s).
  { intros Hp. apply pages_freed_refl; [done|]. intros v Hv. by replace v with vpn by lia. }
  destruct (present (pde s dir (vpn / 1024))) eqn:Hp; cbn [negb]; wp_steps.
  2: { split; [done|]. apply Hnone. unfold pte_at. by rewrite Hp. }
  destruct (wf_dir _ _ Hwf) as (d & Hd & Hdir & Hud).
  destruct (wf_tbl _ _ Hwf _ Hv1 Hp) as (b & Hb & E & Hub & Hne).
  fold (frame_of (pde s dir (vpn / 1024))). rewrite negb_present, E.
  assert (Hbd : b <> d) by (intros ->; done).
  destruct (present (pt_get (block_addr b) (vpn mod 1024) s)) eqn:Hpp; cbn [negb]; wp_steps.
  2: { split; [done|]. apply Hnone. unfold pte_at. by rewrite Hp, E. }
  wp_assert. wp_steps.
  set (s' := pt_set (block_addr b) (vpn mod 1024) 0 s).
  assert (Hpde : forall j, 0 <= j < 1024 -> pde s' dir j = pde s dir j).
  { intros j Hj. unfold pde, s'. rewrite Hdir, pt_get_set by done. by rewrite (proj2 (Z.eqb_neq b d)). }
  assert (Hfree : forall k, in_heap k -> entry_is_free s' k = entry_is_free s k).
  { intros. apply pt_set_used; try done. apply (wf_heap _ _ Hwf). }
  pose proof (pde_owned dir s s' Hpde) as Hown.
  assert (Hbo : owned s dir b) by (right; by exists (vpn / 1024)).
  assert (Hout : forall a, a < block_addr b \/ block_addr b + 4096 <= a -> rd8 (m_ram s') a = rd8 (m_ram s) a)
    by (intros; by apply pt_set_out).
  split; [done|]. split; [|done| | |done|].
  - split.
    + destruct Hwf as [Wh Wd Wt Wi]. split; [done | | |].
      * exists d. split_and!; try done. unfold used. by rewrite Hfree.
      * intros i Hi Hpi. rewrite Hpde in * by done. destruct (Wt i Hi Hpi) as (t & ? & ? & ? & ?).
        exists t. split_and!; try done. unfold used. by rewrite Hfree.
      * intros i j Hi Hj. rewrite !Hpde by done. by apply Wi.
    + intros t Ht Hu. unfold used. by rewrite Hfree.
    + intros t. by rewrite Hown.
    + intros t. rewrite Hown. by left.
    + intros t a Ht Hu Hno Ha. assert (t <> b) by (intros ->; done). apply Hout. unfold in_block in *. blk. lia.
  - intros v Hv. replace v with vpn by lia.
    unfold pte_at. rewrite Hpde, Hp, E by done. unfold s'. rewrite pt_get_set, !Z.eqb_refl by done. done.
  - intros v Hv Ho. destruct (vpn_index v Hv) as [Hw1 Hw2]. unfold pte_at. rewrite Hpde by done.
    destruct (present (pde s dir (v / 1024))) eqn:Hpv; [|done].
    destruct (wf_tbl _ _ Hwf _ Hw1 Hpv) as (t & Ht & Et & _ & _). rewrite Et. unfold s'. rewrite pt_get_set by done.
    destruct (Z.eqb_spec b t) as [->|], (Z.eqb_spec (vpn mod 1024) (v mod 1024)); try done. exfalso.
    assert (vpn / 1024 = v / 1024) by (apply (wf_inj _ _ Hwf); try done; congruence). zlia.
  - intros a Ha. apply Hout. specialize (Ha b Hbo). unfold in_block in Ha. lia.
Qed.

Lemma free_vpns_spec n : forall s dir nl j,
  pt_wf s dir -> 0 <= j -> j + Z.of_nat n <= 1048576 ->
  wp (free_vpns n (mk_pt dir nl) j) s (fun _ s' => pages_freed dir j (j + Z.of_nat n) s s').
Proof.
  induction n as [|n IH]; intros s dir nl j Hwf Hj Hn; cbn [free_vpns].
  { wp_steps. apply pages_freed_refl; [done | intros; lia]. }
  wp_step. wp_apply (free_vpn_spec s dir nl j Hwf ltac:(lia)). intros r s1 (_ & F1).
  wp_apply (IH s1 dir nl (j + 1)); [by apply (ext_wf _ _ _ (pf_ext _ _ _ _ _ F1)) | lia | lia |].
  intros _ s2 F2. replace (j + Z.of_nat (S n)) with (j + 1 + Z.of_nat n) by lia.
  eapply (pages_freed_trans dir j (j + 1)); [lia | lia | done | done].
Qed.

(** ** Hanging a filled table into a directory *)

Section set_pde.
Context (s : machine) (dir d b i fl : Z).
Context (Hwf : pt_wf s dir) (Hdir : dir = block_addr d) (Hd : in_heap d).
Context (Hb : in_heap b) (Hub : used s b) (Hfresh : ~ owned s dir b).
Context (Hi : 0 <= i < 1024) (Hfl : 0 <= fl < 256) (Hpf : present fl = true).

Let s' := pt_set dir i (Z.lor (block_addr b) fl) s.

Lemma setpde_ne : b <> d.
Proof. intros ->. apply Hfresh. by left. Qed.

Lemma setpde_pde j : 0 <= j < 1024 ->
  pde s' dir j = if i =? j then Z.lor (block_addr b) fl else pde s dir j.
Proof.
  intros Hj. unfold pde, s'. rewrite Hdir, pt_get_set, Z.eqb_refl by done. cbn [andb].
  by rewrite entry_u32 by auto with amog.
Qed.

Lemma setpde_get t k : in_heap t -> t <> d -> 0 <= k < 1024 ->
  pt_get (block_addr t) k s' = pt_get (block_addr t) k s.
Proof.
  intros. unfold s'. rewrite Hdir, pt_get_set by done. by rewrite (proj2 (Z.eqb_neq d t)).
Qed.

Lemma setpde_free k : in_heap k -> entry_is_free s' k = entry_is_free s k.
Proof. intros. unfold s'. rewrite Hdir. apply pt_set_used; try done. apply (wf_heap _ _ Hwf). Qed.

Lemma setpde_frame : frame_of (Z.lor (block_addr b) fl) = block_addr b.
Proof. apply entry_frame; auto with amog. Qed.

Lemma setpde_present : present (Z.lor (block_addr b) fl) = true.
Proof. by rewrite entry_present by auto with amog. Qed.

Lemma setpde_other j : 0 <= j < 1024 -> present (pde s dir j) = true -> frame_of (pde s dir j) <> block_addr b.
Proof. intros Hj Hp E. apply Hfresh. right. by exists j. Qed.

Lemma setpde_wf : pt_wf s' dir.
Proof.
  pose proof setpde_ne as Hne. split.
  - apply (wf_heap _ _ Hwf).
  - exists d. split_and!; try done. destruct (wf_dir _ _ Hwf) as (d' & Hd' & E & Hu).
    rewrite Hdir in E. apply block_addr_inj in E as <-. unfold used. by rewrite setpde_free.
  - intros j Hj Hp. rewrite setpde_pde in * by done. destruct (Z.eqb_spec i j).
    + exists b. rewrite setpde_frame. unfold used. rewrite setpde_free by done. split_and!; try done.
      rewrite Hdir. by intros E%block_addr_inj.
    + destruct (wf_tbl _ _ Hwf j Hj Hp) as (b' & ? & ? & ? & ?). exists b'. unfold used. by rewrite setpde_free.
  - intros j k Hj Hk. rewrite !setpde_pde by done.
    destruct (Z.eqb_spec i j) as [<-|], (Z.eqb_spec i k) as [<-|]; try done; rewrite ?setpde_frame.
    + intros _ Hp E. by destruct (setpde_other k Hk Hp).
    + intros Hp _ E. by destruct (setpde_other j Hj Hp).
    + by apply (wf_inj _ _ Hwf).
Qed.

Lemma setpde_pte v : 0 <= v < 1048576 ->
  pte_at s' dir v = if v / 1024 =? i then pt_get (block_addr b) (v mod 1024) s else pte_at s dir v.
Proof.
  intros Hv. destruct (vpn_index v Hv) as [Hv1 Hv2]. unfold pte_at. rewrite setpde_pde by done.
  rewrite (Z.eqb_sym i). destruct (Z.eqb_spec (v / 1024) i) as [E|E].
  - rewrite setpde_present, setpde_frame. by rewrite setpde_get by (apply setpde_ne || done).
  - destruct (present (pde s dir (v / 1024))) eqn:Hp; [|done].
    destruct (wf_tbl _ _ Hwf _ Hv1 Hp) as (b' & Hb' & Ef & _ & Hne). rewrite Ef.
    apply setpde_get; [done | by intros ->; rewrite Hdir in Hne | done].
Qed.

Lemma setpde_owned t : present (pde s dir i) = false -> owned s' dir t <-> owned s dir t \/ t = b.
Proof.
  intros Habs. unfold owned. split.
  - intros [E|(j & Hj & Hp & E)]; [tauto|]. rewrite setpde_pde in Hp, E by done.
    destruct (Z.eqb_spec i j); [|by left; right; exists j].
    rewrite setpde_frame in E. apply block_addr_inj in E. by right.
  - intros [[E|(j & Hj & Hp & E)]| ->]; [by left | |]; right.
    + exists j. rewrite setpde_pde by done. destruct (Z.eqb_spec i j) as [<-|]; [congruence | done].
    + exists i. rewrite setpde_pde, Z.eqb_refl by done. split_and!; try lia.
      { apply setpde_present. } apply setpde_frame.
Qed.

Lemma setpde_out a : ~ in_block d a -> rd8 (m_ram s') a = rd8 (m_ram s) a.
Proof. unfold in_block. intros. unfold s'. rewrite Hdir. apply pt_set_out; [done | done | lia]. Qed.
End set_pde.

(** ** Filling a table with the identity *)

Lemma ident_entry x flags :
  x mod 4096 = 0 -> 0 <= flags < 256 -> u32 (Z.lor (i32 x) flags) = Z.lor (u32 x) flags.
Proof.
  intros Hx Hf. rewrite !entry_val by (done || unfold i32, u32; zlia). unfold i32, u32. zlia.
Qed.

Lemma fill_pt_spec n : forall b j offset flags s,
  in_heap b -> 0 <= j -> j + Z.of_nat n <= 1024 -> offset mod 4096 = 0 -> 0 <= flags < 256 ->
  exists m, fill_pt n (block_addr b) j offset flags s = set_ram m s /\
  (forall k, 0 <= k < 1024 -> pt_get (block_addr b) k (set_ram m s) =
     if (j <=? k) && (k <? j + Z.of_nat n) then Z.lor (u32 (offset + k * 4096)) flags
     else pt_get (block_addr b) k s) /\
  (forall a, ~ in_block b a -> rd8 m a = rd8 (m_ram s) a).
Proof.
  induction n as [|n IH]; intros b j offset flags s Hb Hj Hn Ho Hf; cbn [fill_pt].
  { exists (m_ram s). split_and!; [by destruct s | | done]. intros k Hk.
    by destruct s; repeat case_test; try lia. }
  set (s1 := pt_set _ _ _ s).
  destruct (IH b (j + 1) offset flags s1) as (m & E & Hget & Hout); [done | lia | lia | done | done |].
  exists m. split; [exact E|]. split.
  - intros k Hk. change (set_ram m s) with (set_ram m s1). rewrite Hget by done.
    unfold s1. rewrite pt_get_set, Z.eqb_refl by (done || lia). cbn [andb]. unfold PAGE_SIZE.
    destruct (Z.eqb_spec j k) as [<-|].
    + repeat case_test; try lia; cbn [andb]; apply ident_entry; zlia.
    + by repeat case_test; try lia.
  - intros a Ha. rewrite Hout by done. unfold s1, in_block in *. apply pt_set_out; [done | lia | lia].
Qed.

(** ** Releasing tables *)

(** The block of a table was handed out by [kzalloc] of one page. *)
Definition page_entry (s : machine) (b : Z) : Prop := get_entry s b = 65.

Lemma page_entry_used s b : page_entry s b -> used s b.
Proof. unfold page_entry, used, entry_is_free. by intros ->. Qed.

Lemma set_entry_get s b v k :
  heap_ok s -> in_heap b -> in_heap k -> get_entry (set_entry b v s) k = if b =? k then u8 v else get_entry s k.
Proof.
  intros. rewrite set_entry_ram, !heap_entry by (done || blk; lia). cbn [on_ram set_ram m_ram]. rewrite rd8_wr8.
  by repeat case_test; try lia.
Qed.

Lemma set_entry_block s b v t a :
  heap_ok s -> in_heap b -> in_heap t -> in_block t a -> rd8 (m_ram (set_entry b v s)) a = rd8 (m_ram s) a.
Proof.
  intros. rewrite set_entry_ram by (done || blk; lia). apply rd8_wr8_ne. unfold in_block in *. blk. lia.
Qed.

Definition points_to (s : machine) (dir lo hi k : Z) : Prop :=
  exists i, lo <= i < hi /\ present (pde s dir i) = true /\ frame_of (pde s dir i) = block_addr k.

Lemma free_dir_loop_spec n : forall s dir d nl j,
  heap_ok s -> dir = block_addr d -> in_heap d -> 0 <= j -> j + Z.of_nat n <= 1024 ->
  (forall i, j <= i < j + Z.of_nat n -> present (pde s dir i) = true ->
     exists b, in_heap b /\ frame_of (pde s dir i) = block_addr b /\ page_entry s b) ->
  (forall i k, j <= i < j + Z.of_nat n -> j <= k < j + Z.of_nat n -> present (pde s dir i) = true ->
     present (pde s dir k) = true -> frame_of (pde s dir i) = frame_of (pde s dir k) -> i = k) ->
  wp (free_dir_loop n (mk_pt dir nl) j) s (fun _ s' =>
    heap_ok s' /\ (forall i, 0 <= i < 1024 -> pde s' dir i = pde s dir i) /\
    (forall k, in_heap k -> points_to s dir j (j + Z.of_nat n) k -> get_entry s' k = 0) /\
    (forall k, in_heap k -> ~ points_to s dir j (j + Z.of_nat n) k -> get_entry s' k = get_entry s k)).
Proof.
  induction n as [|n IH]; intros s dir d nl j Hs Hdir Hd Hj Hn Hp Hinj; cbn [free_dir_loop].
  { wp_steps. split_and!; try done. intros k _ (i & Hi & _). lia. }
  wp_steps. cbn [cr3]. fold (pde s dir j). rewrite negb_present.
  set (s1 := if present (pde s dir j) then set_entry ((frame_of (pde s dir j) - KHEAP_ADDR) / 4096) 0 s else s).
  assert (H1 : heap_ok s1 /\ (forall i, 0 <= i < 1024 -> pde s1 dir i = pde s dir i) /\
    (forall k, in_heap k -> (present (pde s dir j) = true /\ frame_of (pde s dir j) = block_addr k -> get_entry s1 k = 0) /\
      (~ (present (pde s dir j) = true /\ frame_of (pde s dir j) = block_addr k) -> get_entry s1 k = get_entry s k)) /\
    wp (if negb (present (pde s dir j)) then mret 0 else kfree (Z.land (pde s dir j) PAGE_FRAME_LOC_MASK)) s (fun _ s' => s' = s1)).
  { unfold s1. destruct (present (pde s dir j)) eqn:Hpj; cbn [negb].
    2: { split_and!; try done. intros k _. split; [intros [? _]; congruence | done]. }
    destruct (Hp j ltac:(lia) Hpj) as (b & Hb & E & He). fold (frame_of (pde s dir j)). rewrite E.
    replace ((block_addr b - KHEAP_ADDR) / 4096) with b by (blk; zlia). split_and!; [done | | |].
    - intros i Hi. unfold pde. rewrite Hdir. apply rd32_block; [done | done |]. intros. by apply (set_entry_block s b 0 d).
    - intros k Hk. rewrite set_entry_get by done. split.
      + intros [_ Eb%block_addr_inj]. subst. by rewrite Z.eqb_refl.
      + intros Hne. destruct (Z.eqb_spec b k) as [->|]; [by destruct Hne | done].
    - eapply wp_of_run; [by apply kfree_page | done]. }
  clearbody s1. destruct H1 as (Hs1 & Hpd & Hent & Hrun). wp_apply Hrun. intros _ ? ->.
  wp_apply (IH s1 dir d nl (j + 1)); try done; [lia | lia | | |].
  - intros i Hi Hpi. rewrite Hpd in * by lia. destruct (Hp i ltac:(lia) Hpi) as (b & Hb & E & He).
    exists b. split_and!; try done. unfold page_entry. rewrite (proj2 (Hent b Hb)); [done|].
    intros [Hpj Ej]. assert (j = i) by (apply Hinj; try lia; try done; congruence). lia.
  - intros i k Hi Hk. rewrite !Hpd by lia. apply Hinj; lia.
  - intros _ s2 (Hs2 & Hpd2 & Hz & Hk). split_and!; [done | intros; by rewrite Hpd2, Hpd | |].
    + intros k Hk' (i & Hi & Hpi & Ei). destruct (decide (i = j)) as [->|].
      * rewrite Hk; [by apply Hent | done |]. intros (i & Hi' & Hp' & E'). rewrite Hpd in Hp', E' by lia.
        assert (j = i) by (apply Hinj; try lia; try done; congruence). lia.
      * apply Hz; [done|]. exists i. rewrite Hpd by lia. split; [lia | done].
    + intros k Hk' Hno. rewrite Hk; [apply Hent; [done|] | done |].
      * intros [? ?]. apply Hno. exists j. split; [lia | done].
      * intros (i & Hi' & Hp' & E'). rewrite Hpd in Hp', E' by lia. apply Hno. exists i. split; [lia | done].
Qed.

Lemma set_entry_pde s b v dir d i :
  heap_ok s -> in_heap b -> dir = block_addr d -> in_heap d -> 0 <= i < 1024 ->
  pde (set_entry b v s) dir i = pde s dir i.
Proof.
  intros Hs Hb -> Hd Hi. unfold pde. apply rd32_block; [done | done |]. intros. by apply (set_entry_block s b v d).
Qed.

Lemma set_entry_ok b v s : heap_ok (set_entry b v s) <-> heap_ok s.
Proof. done. Qed.

Lemma free_tables_eq n : forall s dir d nl j,
  heap_ok s -> dir = block_addr d -> in_heap d -> 0 <= j -> j + Z.of_nat n <= 1024 ->
  (forall i, j <= i < j + Z.of_nat n -> present (pde s dir i) = true) ->
  free_tables n dir j s = free_dir_loop n (mk_pt dir nl) j s.
Proof.
  induction n as [|n IH]; intros s dir d nl j Hs Hdir Hd Hj Hn Hp; [done|].
  cbn [free_tables free_dir_loop]. unfold mbind, M_bind, gets. cbn [cr3]. fold (pde s dir j).
  rewrite negb_present, Hp by lia. cbn [negb].
  destruct (kfree_frame (Z.land (pde s dir j) PAGE_FRAME_LOC_MASK) s Hs) as (m & -> & Hm).
  apply (IH (set_ram m s) dir d nl); [done | done | done | lia | lia |].
  intros i Hi. rewrite <- (Hp i) by lia. f_equal. unfold pde. rewrite Hdir.
  apply rd32_block; [done | lia |]. intros a Ha. apply Hm. unfold in_block in *. blk. lia.
Qed.

(** ** Building the identity map *)

(** The state of [create_tables] before directory entry [i], started in [s0]
    after the directory was allocated. *)
Record creating (s0 s : machine) (dir d i flags : Z) : Prop := {
  cr_wf : pt_wf s dir;
  cr_dir : dir = block_addr d /\ in_heap d;
  cr_page : forall b, owned s dir b -> page_entry s b /\ entry_is_free s0 b = true;
  cr_rest : forall b, in_heap b -> ~ owned s dir b -> get_entry s b = get_entry s0 b;
  cr_todo : forall j, i <= j < 1024 -> present (pde s dir j) = false;
  cr_done : forall j, 0 <= j < i -> present (pde s dir j) = true /\
              pde s dir j mod 4096 = Z.lor flags PAGE_WRITE_ALLOW;
  cr_ident : forall v, 0 <= v < i * 1024 -> pte_at s dir v = Z.lor (v * 4096) flags;
  cr_keep : forall b a, in_heap b -> used s0 b -> in_block b a -> rd8 (m_ram s) a = rd8 (m_ram s0) a }.

(** What [n] pages taken from the heap on the way from [s0] to [s] cost:
    nothing is printed, nothing but the heap and its table is written, and [n]
    blocks are no longer free. *)
Record pages_spent (s0 s : machine) (n : Z) : Prop := {
  ps_writes : heap_writes s0 s;
  ps_con : m_con s = m_con s0;
  ps_free : kheap_num_free_blocks s = kheap_num_free_blocks s0 - n }.

Lemma cr_free s0 s dir d i flags b :
  creating s0 s dir d i flags -> in_heap b -> ~ owned s dir b -> entry_is_free s b = entry_is_free s0 b.
Proof. intros C Hb Hno. unfold entry_is_free. by rewrite (cr_rest _ _ _ _ _ _ C). Qed.

Lemma page_taken_get_entry s i m k :
  heap_ok s -> in_heap i -> page_taken s i 4096 m -> in_heap k ->
  get_entry (set_ram m s) k = if k =? i then 65 else get_entry s k.
Proof.
  intros Hs Hi Hm Hk. rewrite !heap_entry by (done || blk; lia). cbn [set_ram m_ram]. rewrite Hm.
  blk. repeat case_test; cbn; lia || done.
Qed.

Lemma lor_write_flags flags :
  0 <= flags < 256 -> 0 <= Z.lor flags PAGE_WRITE_ALLOW < 256 /\
  present (Z.lor flags PAGE_WRITE_ALLOW) = present flags.
Proof.
  intros Hf. split.
  - split; [apply Z.lor_nonneg; unfold PAGE_WRITE_ALLOW; lia|].
    assert (Z.log2 (Z.lor flags PAGE_WRITE_ALLOW) < 8).
    { rewrite Z.log2_lor by (unfold PAGE_WRITE_ALLOW; lia). apply Z.max_lub_lt; [|done].
      destruct (decide (flags = 0)) as [->|]; [done|]. by apply Z.log2_lt_pow2; lia. }
    destruct (decide (Z.lor flags PAGE_WRITE_ALLOW <= 0)); [lia|].
    apply (Z.log2_lt_pow2 _ 8) in H; lia.
  - unfold present. f_equal. f_equal. unfold PAGE_PRESENT, PAGE_WRITE_ALLOW.
    rewrite Z.land_lor_distr_l. change (Z.land 2 1) with 0. apply Z.lor_0_r.
Qed.

(** A fresh block, zeroed and filled with the identity, before it is hung
    into the directory. *)
Record fresh_table (s s2 : machine) (dir b i flags : Z) : Prop := {
  ft_wf : pt_wf s2 dir;
  ft_owned : forall t, owned s2 dir t <-> owned s dir t;
  ft_new : ~ owned s2 dir b;
  ft_pde : forall k, 0 <= k < 1024 -> pde s2 dir k = pde s dir k;
  ft_pte : forall v, 0 <= v < 1048576 -> pte_at s2 dir v = pte_at s dir v;
  ft_get : forall k, 0 <= k < 1024 -> pt_get (block_addr b) k s2 = Z.lor ((i * 1024 + k) * 4096) flags;
  ft_entry : forall k, in_heap k -> get_entry s2 k = if k =? b then 65 else get_entry s k;
  ft_out : forall a, ~ in_block b a -> a <> KHEAP_TABLE_ADDR + b -> rd8 (m_ram s2) a = rd8 (m_ram s) a }.

Lemma fill_fresh_table s dir i flags b m :
  pt_wf s dir -> 0 <= i < 1024 -> 0 <= flags < 256 -> in_heap b -> entry_is_free s b = true ->
  page_taken s b 4096 m ->
  fresh_table s (fill_pt (Z.to_nat NUM_PAGE_TABLE_ENTRIES) (block_addr b) 0 (i32 (i * 4194304)) flags (set_ram m s))
    dir b i flags.
Proof.
  intros Hwf Hi Hf Hb Hfree Hm. pose proof (wf_heap _ _ Hwf) as Hs.
  destruct (page_taken_ext dir s b m Hwf Hb Hfree Hm) as (E1 & O1 & U1 & P1 & _ & V1).
  assert (Hno : ~ owned s dir b).
  { intros Ho. destruct (owned_used _ _ _ Hwf Ho) as [_ Hu]. unfold used in Hu. congruence. }
  set (s1 := set_ram m s) in *. pose proof (ext_wf _ _ _ E1) as Hwf1.
  destruct (fill_pt_spec (Z.to_nat NUM_PAGE_TABLE_ENTRIES) b 0 (i32 (i * 4194304)) flags s1)
    as (m2 & -> & G2 & R2); [done | lia | unfold NUM_PAGE_TABLE_ENTRIES; lia | unfold i32; zlia | done |].
  set (s2 := set_ram m2 s1) in *.
  assert (Htab : forall k, in_heap k -> get_entry s2 k = get_entry s1 k).
  { intros k Hk. rewrite !heap_entry by (done || blk; lia). apply R2. unfold in_block. blk. lia. }
  assert (Hu2 : forall k, in_heap k -> used s1 k -> used s2 k).
  { intros k Hk. unfold used, entry_is_free. by rewrite Htab. }
  assert (Hk2 : forall t a, owned s1 dir t -> in_block t a -> rd8 (m_ram s2) a = rd8 (m_ram s1) a).
  { intros t a Ht Ha. apply R2. assert (t <> b) by (intros ->; by apply Hno, O1).
    destruct (owned_used _ _ _ Hwf1 Ht). unfold in_block in *. blk. lia. }
  split.
  - by apply (keep_wf s1).
  - intros t. by rewrite (keep_owned s1 s2), O1.
  - by rewrite (keep_owned s1 s2), O1.
  - intros k Hk. by rewrite (keep_pde s1 s2), P1.
  - intros v Hv. by rewrite (keep_pte s1 s2), V1.
  - intros k Hk. rewrite (G2 k Hk). unfold NUM_PAGE_TABLE_ENTRIES.
    rewrite (proj2 (Z.leb_le _ _)), (proj2 (Z.ltb_lt _ _)) by lia. cbn [andb]. f_equal. unfold u32, i32. zlia.
  - intros k Hk. rewrite Htab by done. by apply page_taken_get_entry.
  - intros a Ha Hne. rewrite R2 by done. cbn [s1 set_ram m_ram]. rewrite Hm. unfold in_block in Ha.
    by repeat case_test; try lia.
Qed.

Lemma create_step s0 s s2 dir d i flags b :
  creating s0 s dir d i flags -> 0 <= i < 1024 -> 0 <= flags < 256 -> present flags = true ->
  in_heap b -> entry_is_free s b = true -> fresh_table s s2 dir b i flags ->
  creating s0 (pt_set dir i (Z.lor (block_addr b) (Z.lor flags PAGE_WRITE_ALLOW)) s2) dir d (i + 1) flags.
Proof.
  intros C Hi Hf Hpf Hb Hfree [Hwf2 Hown Hno2 Hpde Hpte Hget Hent2 Hout].
  destruct (cr_dir _ _ _ _ _ _ C) as [Hdir Hd]. pose proof (wf_heap _ _ Hwf2) as Hs2.
  assert (Hnu0 : entry_is_free s0 b = true).
  { rewrite <- (cr_free s0 s dir d i flags); [done | done | done | by rewrite <- Hown]. }
  destruct (lor_write_flags flags Hf) as [Hf2 Hpf2]. set (fl := Z.lor flags PAGE_WRITE_ALLOW) in *. rewrite Hpf in Hpf2.
  assert (Hub2 : used s2 b) by (unfold used, entry_is_free; by rewrite Hent2, Z.eqb_refl).
  assert (Habs : present (pde s2 dir i) = false) by (rewrite Hpde by done; apply (cr_todo _ _ _ _ _ _ C); lia).
  assert (Hent : forall k, in_heap k -> get_entry (pt_set dir i (Z.lor (block_addr b) fl) s2) k =
    if k =? b then 65 else get_entry s k).
  { intros k Hk. rewrite <- Hent2, !heap_entry by (done || blk; lia). rewrite Hdir. apply pt_set_out; [done | done |].
    blk. lia. }
  split.
  - by eapply setpde_wf.
  - done.
  - intros t Ht. eapply setpde_owned in Ht; try done. rewrite Hown in Ht. destruct Ht as [Ht| ->].
    + destruct (cr_page _ _ _ _ _ _ C t Ht), (owned_used _ _ _ (cr_wf _ _ _ _ _ _ C) Ht).
      split; [|done]. unfold page_entry. rewrite Hent by done. by destruct (t =? b).
    + split; [|done]. unfold page_entry. by rewrite Hent, Z.eqb_refl.
  - intros t Ht Hnot. rewrite Hent by done. destruct (Z.eqb_spec t b) as [->|].
    + destruct Hnot. eapply setpde_owned; try done. by right.
    + apply (cr_rest _ _ _ _ _ _ C); [done|]. intros Ho. apply Hnot. eapply setpde_owned; try done.
      left. by apply Hown.
  - intros j Hj. rewrite (setpde_pde s2 dir d), (proj2 (Z.eqb_neq i j)), Hpde by (done || lia).
    apply (cr_todo _ _ _ _ _ _ C). lia.
  - intros j Hj. rewrite (setpde_pde s2 dir d) by (done || lia). destruct (Z.eqb_spec i j) as [<-|].
    + split; [by apply setpde_present|]. rewrite entry_val by auto with amog.
      pose proof (block_aligned b). zlia.
    + rewrite Hpde by lia. apply (cr_done _ _ _ _ _ _ C). lia.
  - intros v Hv. rewrite (setpde_pte s2 dir d) by (done || lia). destruct (Z.eqb_spec (v / 1024) i) as [E|E].
    + rewrite Hget by zlia. f_equal. zlia.
    + rewrite Hpte by lia. apply (cr_ident _ _ _ _ _ _ C). zlia.
  - intros t a Ht Hu Ha. assert (t <> b) by (intros ->; unfold used in Hu; congruence).
    assert (t <> d). { intros ->. destruct (cr_page _ _ _ _ _ _ C d) as [_ H']; [by left|]. unfold used in Hu. congruence. }
    rewrite <- (cr_keep _ _ _ _ _ _ C t a Ht Hu Ha).
    rewrite (setpde_out s2 dir d), Hout; try done; unfold in_block in *; blk; lia.
Qed.

Lemma pages_spent_trans s1 s2 s3 n m : pages_spent s1 s2 n -> pages_spent s2 s3 m -> pages_spent s1 s3 (n + m).
Proof. intros [W1 C1 F1] [W2 C2 F2]. split; [by apply (heap_writes_trans _ s2) | congruence | lia]. Qed.

(** Entries and memory outside of the heap as before. *)
Lemma spent_same s s' : heap_ok s -> heap_ok s' -> m_con s' = m_con s -> heap_writes s s' ->
  (forall k, in_heap k -> get_entry s' k = get_entry s k) -> pages_spent s s' 0.
Proof.
  intros [Hs _] [Hs' _] Hc Hw He. split; [done | done|]. unfold kheap_num_free_blocks. rewrite Hs, Hs'. cbn [entry_table num_entries].
  rewrite (count_free_ext _ 0 s s'); [lia|]. intros k Hk. unfold entry_is_free. by rewrite He by (blk; lia).
Qed.

Lemma fill_pt_con n : forall b j offset flags s, m_con (fill_pt n b j offset flags s) = m_con s.
Proof. induction n as [|n IH]; intros; cbn [fill_pt]; [done|]. by rewrite IH. Qed.

(** It takes one block. *)
Lemma create_step_spent s0 s s2 dir d i flags b e n :
  creating s0 s dir d i flags -> 0 <= i < 1024 -> in_heap b -> entry_is_free s b = true -> fresh_table s s2 dir b i flags ->
  m_con s2 = m_con s -> pages_spent s0 s n -> pages_spent s0 (pt_set dir i e s2) (n + 1).
Proof.
  intros C Hi Hb Hfree F Hcon [P1 P2 P3]. destruct (cr_dir _ _ _ _ _ _ C) as [Hdir Hd]. pose proof (wf_heap _ _ (ft_wf _ _ _ _ _ _ F)) as Hs2.
  assert (Hset : forall a, ~ in_block d a -> rd8 (m_ram (pt_set dir i e s2)) a = rd8 (m_ram s2) a)
    by (intros a Ha; rewrite Hdir; apply pt_set_out; [done | done | unfold in_block in Ha; lia]).
  split.
  - intros a Ha. rewrite <- (P1 a Ha), Hset by (by apply off_heap_block).
    apply (ft_out _ _ _ _ _ _ F); [by apply off_heap_block|]. unfold off_heap in Ha. blk. lia.
  - cbn. congruence.
  - assert (Hent : forall k, in_heap k -> entry_is_free (pt_set dir i e s2) k = if k =? b then false else entry_is_free s k).
    { intros k Hk. unfold entry_is_free. replace (get_entry (pt_set dir i e s2) k) with (get_entry s2 k).
      - rewrite (ft_entry _ _ _ _ _ _ F) by done. by destruct (k =? b).
      - rewrite !heap_entry by (done || blk; lia). symmetry. apply Hset. unfold in_block. blk. lia. }
    replace (kheap_num_free_blocks s0 - (n + 1)) with (kheap_num_free_blocks s - 1) by lia.
    apply (num_free_take s _ b 1); [apply (wf_heap _ _ (cr_wf _ _ _ _ _ _ C)) | done | blk; lia | lia | blk; lia | |].
    + intros k Hk. replace k with b by lia. by rewrite Hent, Z.eqb_refl.
    + intros k Hk Hne. rewrite Hent by done. by destruct (Z.eqb_spec k b); [lia|].
Qed.

(** A failed allocation in between keeps the construction. *)
Lemma low_cleared_creating s0 s s' dir d i flags :
  creating s0 s dir d i flags -> 0 <= i <= 1024 -> low_cleared 4096 s s' -> creating s0 s' dir d i flags.
Proof.
  intros C Hi Hl. pose proof (cr_wf _ _ _ _ _ _ C) as Hwf. pose proof (wf_heap _ _ Hwf) as Hs.
  destruct (low_cleared_ext dir s s' Hwf Hl) as (E & Hv & Hp).
  assert (Hown : forall b, owned s' dir b <-> owned s dir b).
  { intros b. unfold owned. split; (intros [|(j & Hj & ? & ?)]; [by left | right; exists j]);
      rewrite Hp in * by done; done. }
  assert (Hrd : forall a, 4096 <= a -> a < VIDEO_MEM \/ VIDEO_END <= a -> rd8 (m_ram s') a = rd8 (m_ram s) a)
    by (by destruct Hl as (_ & _ & _ & H & _)).
  assert (Hent : forall b, in_heap b -> get_entry s' b = get_entry s b).
  { intros b Hb. rewrite !heap_entry; try done; try (blk; lia); [apply Hrd; blk; vga; lia|].
    apply (wf_heap _ _ (ext_wf _ _ _ E)). }
  destruct C as [_ C2 C3 C4 C5 C6 C7 C8]. split; try done.
  - apply (ext_wf _ _ _ E).
  - intros b Hb. rewrite Hown in Hb. destruct (owned_used _ _ _ Hwf Hb).
    unfold page_entry. rewrite Hent by done. by apply C3.
  - intros b Hb. rewrite Hown, Hent by done. by apply C4.
  - intros j Hj. rewrite Hp by lia. by apply C5.
  - intros j Hj. rewrite Hp by lia. by apply C6.
  - intros v Hv'. rewrite Hv by lia. by apply C7.
  - intros b a Hb Hu Ha. rewrite <- (C8 b a) by done. apply Hrd; unfold in_block in *; blk; vga; lia.
Qed.

Lemma points_to_dec s dir lo hi k : points_to s dir lo hi k \/ ~ points_to s dir lo hi k.
Proof.
  destruct (decide (Exists (fun j => present (pde s dir j) = true /\ frame_of (pde s dir j) = block_addr k)
    (seqZ lo (hi - lo)))) as [H|H]; rewrite Exists_exists in H; [left | right].
  - destruct H as (j & Hj%elem_of_seqZ & ?). exists j. split; [lia | done].
  - intros (j & Hj & ?). apply H. exists j. split; [apply elem_of_seqZ; lia | done].
Qed.

(** Blocks in use, their table entries and the addresses of [P] hold what they
    held. *)
Record kept (P : Z -> Prop) (s s' : machine) : Prop := {
  kept_block : forall b a, in_heap b -> used s b -> in_block b a -> rd8 (m_ram s') a = rd8 (m_ram s) a;
  kept_out : forall a, P a -> rd8 (m_ram s') a = rd8 (m_ram s) a;
  kept_entry : forall b, in_heap b -> used s b -> get_entry s' b = get_entry s b }.

Lemma kept_used P s s' b : kept P s s' -> in_heap b -> used s b -> used s' b.
Proof. intros K Hb Hu. unfold used, entry_is_free. by rewrite (kept_entry _ _ _ K). Qed.

Lemma kept_weaken (P Q : Z -> Prop) s s' : (forall a, Q a -> P a) -> kept P s s' -> kept Q s s'.
Proof. intros H [K1 K2 K3]. split; auto. Qed.

Lemma kept_refl P s : kept P s s.
Proof. by split. Qed.

Lemma kept_trans P s1 s2 s3 : kept P s1 s2 -> kept P s2 s3 -> kept P s1 s3.
Proof.
  intros K1 K2. split.
  - intros b a Hb Hu Ha. rewrite (kept_block _ _ _ K2 b) by eauto using kept_used. by apply (kept_block _ _ _ K1 b).
  - intros a Ha. by rewrite (kept_out _ _ _ K2), (kept_out _ _ _ K1).
  - intros b Hb Hu. rewrite (kept_entry _ _ _ K2) by eauto using kept_used. by apply (kept_entry _ _ _ K1).
Qed.

Lemma calm_off c a : calm c a -> off_heap a.
Proof. by intros [? _]. Qed.

(** A failing allocation of at most a page keeps the calm addresses. *)
Lemma low_cleared_kept n s s' : heap_ok s -> 0 <= n <= 4096 -> low_cleared n s s' -> kept (calm (m_con s)) s s'.
Proof.
  intros Hs Hn Hl. pose proof Hl as (_ & _ & _ & H & Hq).
  split; [intros b a Hb Hu Ha | intros a (_ & ? & ?) | intros b Hb Hu]; [apply H; unfold in_block in *; blk; vga; lia | apply Hq; [lia | done]|].
  rewrite !heap_entry; try done; try (blk; lia); [apply H; blk; vga; lia|]. by apply (low_cleared_free n s s' 0).
Qed.

(** The construction keeps what was there. *)
Lemma creating_used s0 s dir d i flags b : creating s0 s dir d i flags -> in_heap b -> used s0 b -> ~ owned s dir b.
Proof. intros C Hb Hu Ho. destruct (cr_page _ _ _ _ _ _ C b Ho). unfold used in Hu. congruence. Qed.

Lemma creating_kept (P : Z -> Prop) s0 s dir d i flags :
  creating s0 s dir d i flags -> (forall a, P a -> rd8 (m_ram s) a = rd8 (m_ram s0) a) -> kept P s0 s.
Proof.
  intros C Hq. split; [apply (cr_keep _ _ _ _ _ _ C) | exact Hq|].
  intros b Hb Hu. apply (cr_rest _ _ _ _ _ _ C); [done|]. by apply (creating_used s0 s dir d i flags).
Qed.

(** Releasing blocks changes nothing but the entry table. *)
Definition table_only (s s' : machine) : Prop :=
  exists m, s' = set_ram m s /\ forall a, a < KHEAP_TABLE_ADDR \/ TABLE_END <= a -> rd8 m a = rd8 (m_ram s) a.

Lemma table_only_trans s1 s2 s3 : table_only s1 s2 -> table_only s2 s3 -> table_only s1 s3.
Proof.
  intros (m & -> & Hm) (m' & -> & Hm'). exists m'. split; [done|]. intros a Ha. by rewrite Hm', <- Hm.
Qed.

Lemma kfree_table p s : heap_ok s -> wp (kfree p) s (fun _ s' => table_only s s').
Proof. intros Hs. destruct (kfree_frame p s Hs) as (m & E & Hm). eapply wp_of_run; [exact E|]. by exists m. Qed.

Lemma table_only_ok s s' : table_only s s' -> heap_ok s -> heap_ok s'.
Proof. by intros (m & -> & _). Qed.

Lemma free_tables_frame n : forall j dir s, heap_ok s -> wp (free_tables n dir j) s (fun _ s' => table_only s s').
Proof.
  induction n as [|n IH]; intros j dir s Hs; cbn [free_tables]; wp_steps; [by exists (m_ram s); destruct s|].
  wp_apply (kfree_table _ s Hs). intros _ s1 H1. wp_apply (IH (j + 1) dir s1 (table_only_ok s s1 H1 Hs)).
  intros _ s2. by apply table_only_trans.
Qed.

Lemma free_dir_loop_frame n : forall j pt s, heap_ok s -> wp (free_dir_loop n pt j) s (fun _ s' => table_only s s').
Proof.
  induction n as [|n IH]; intros j pt s Hs; cbn [free_dir_loop]; wp_steps; [by exists (m_ram s); destruct s|].
  case_match.
  - wp_steps. by apply IH.
  - wp_apply (kfree_table _ s Hs). intros _ s1 H1. wp_apply (IH (j + 1) pt s1 (table_only_ok s s1 H1 Hs)).
    intros _ s2. by apply table_only_trans.
Qed.

Lemma table_only_kept (P : Z -> Prop) s0 s s' :
  (forall a, P a -> off_heap a) -> kept P s0 s -> table_only s s' ->
  (forall b, in_heap b -> used s0 b -> get_entry s' b = get_entry s0 b) -> kept P s0 s'.
Proof.
  intros HP K (m & -> & Hm) He. split; [intros b a Hb Hu Ha | intros a Ha | done]; cbn [set_ram m_ram].
  - rewrite Hm by (unfold in_block in *; blk; lia). by apply (kept_block _ _ _ K b).
  - rewrite Hm by (destruct (HP a Ha); hp; lia). by apply (kept_out _ _ _ K).
Qed.

Lemma create_release_frame s dir i :
  heap_ok s -> wp (kfree dir;; free_tables (Z.to_nat i) dir 0) s (fun _ s' => table_only s s').
Proof.
  intros Hs. wp_step. wp_apply (kfree_table dir s Hs). intros _ s1 H1.
  wp_apply (free_tables_frame (Z.to_nat i) 0 dir s1 (table_only_ok s s1 H1 Hs)). intros _ s2 H2.
  by apply (table_only_trans s s1).
Qed.

(** The error path gives every block back. *)
Lemma create_release_entries s0 s dir d i flags :
  creating s0 s dir d i flags -> 0 <= i <= 1024 ->
  wp (kfree dir;; free_tables (Z.to_nat i) dir 0) s (fun _ s' =>
    heap_ok s' /\ forall k, in_heap k ->
      (owned s dir k -> get_entry s' k = 0) /\ (~ owned s dir k -> get_entry s' k = get_entry s0 k)).
Proof.
  intros C Hi. pose proof (cr_wf _ _ _ _ _ _ C) as Hwf. pose proof (wf_heap _ _ Hwf) as Hs.
  destruct (cr_dir _ _ _ _ _ _ C) as [Hdir Hd].
  destruct (cr_page _ _ _ _ _ _ C d) as [Hpd Hfd]; [by left|].
  assert (Hne : forall j k, 0 <= j < 1024 -> present (pde s dir j) = true ->
    frame_of (pde s dir j) = block_addr k -> in_heap k /\ d <> k /\ owned s dir k).
  { intros j k Hj Hp E. assert (Ho : owned s dir k) by (right; by exists j).
    destruct (owned_used _ _ _ Hwf Ho), (wf_tbl _ _ Hwf j Hj Hp) as (b & _ & Eb & _ & Hb).
    split_and!; try done. intros <-. congruence. }
  wp_step. rewrite Hdir at 1. eapply wp_of_run; [by apply kfree_page|].
  assert (He1 := fun k => set_entry_get s d 0 k Hs Hd). assert (Hs1 : heap_ok (set_entry d 0 s)) by done.
  assert (Hp1 := fun j => set_entry_pde s d 0 dir d j Hs Hd Hdir Hd).
  generalize dependent (set_entry d 0 s). intros s1 He1 Hs1 Hp1.
  eapply wp_of_run_eq; [apply (free_tables_eq (Z.to_nat i) s1 dir d 2); try done; [lia|]|].
  { intros j Hj. rewrite Hp1 by lia. apply (cr_done _ _ _ _ _ _ C). lia. }
  wp_apply (free_dir_loop_spec (Z.to_nat i) s1 dir d 2 0); try done; [lia | | |].
  - intros j Hj Hp. rewrite Hp1 in * by lia. destruct (wf_tbl _ _ Hwf j ltac:(lia) Hp) as (b & Hb & E & _ & _).
    exists b. split_and!; try done. destruct (Hne j b ltac:(lia) Hp E) as (_ & Hdb & Ho).
    unfold page_entry. rewrite He1, (proj2 (Z.eqb_neq d b)) by done. by apply (cr_page _ _ _ _ _ _ C).
  - intros j k Hj Hk. rewrite !Hp1 by lia. apply (wf_inj _ _ Hwf); lia.
  - intros _ s2 (Hs2 & _ & Hz & Hk). split; [done|]. intros k Hk'.
    assert (Hpo : points_to s1 dir 0 (0 + Z.of_nat (Z.to_nat i)) k \/ d = k <-> owned s dir k).
    { split.
      - intros [(j & Hj & Hp & E)| <-]; [|by left]. rewrite Hp1 in Hp, E by lia. by apply (Hne j); [lia|..].
      - intros [E|(j & Hj & Hp & E)]; [rewrite Hdir in E; right; by apply block_addr_inj in E|].
        destruct (decide (j < i)) as [Hlt|]; [|rewrite (cr_todo _ _ _ _ _ _ C j) in Hp by lia; done].
        left. exists j. rewrite Hp1 by lia. split; [lia | done]. }
    destruct (points_to_dec s1 dir 0 (0 + Z.of_nat (Z.to_nat i)) k) as [Hpt|Hpt].
    + split; [intros _; by apply Hz | intros []; apply Hpo; by left].
    + rewrite Hk, He1 by done. destruct (Z.eqb_spec d k) as [<-|Hdk].
      * split; [done|]. intros []. by left.
      * split; [intros []%Hpo; done|]. apply (cr_rest _ _ _ _ _ _ C). done.
Qed.

Lemma owned_dec s dir k : owned s dir k \/ ~ owned s dir k.
Proof.
  destruct (decide (dir = block_addr k)) as [->|]; [by left; left|].
  destruct (points_to_dec s dir 0 1024 k) as [|Hn]; [by left; right|]. right. by intros [|].
Qed.

Lemma create_release (P : Z -> Prop) s0 s dir d i flags :
  creating s0 s dir d i flags -> 0 <= i <= 1024 -> (forall a, P a -> off_heap a) ->
  (forall a, P a -> rd8 (m_ram s) a = rd8 (m_ram s0) a) ->
  wp (kfree dir;; free_tables (Z.to_nat i) dir 0) s (fun _ s' =>
    (heap_ok s' /\ forall k, in_heap k -> entry_is_free s' k = entry_is_free s0 k) /\ kept P s0 s').
Proof.
  intros C Hi HP Hq. pose proof (wf_heap _ _ (cr_wf _ _ _ _ _ _ C)) as Hs.
  pose proof (wp_conj _ _ _ _ (create_release_entries s0 s dir d i flags C Hi) (create_release_frame s dir i Hs)) as H.
  wp_apply H. intros _ s' [[Hs' He] Ht]. split; [split; [done|]|].
  - intros k Hk. unfold entry_is_free. destruct (owned_dec s dir k) as [Ho|Ho].
    + rewrite (proj1 (He k Hk) Ho). symmetry. apply (cr_page _ _ _ _ _ _ C k Ho).
    + by rewrite (proj2 (He k Hk) Ho).
  - apply (table_only_kept P s0 s); [done | by apply (creating_kept P s0 s dir d i flags) | done|].
    intros b Hb Hu. apply He; [done|]. by apply (creating_used s0 s dir d i flags).
Qed.

(** The loop needs one free block for each directory entry that is left; with
    fewer, it fails and gives back what was taken. *)
Lemma create_tables_spec n : forall s0 s dir d i flags,
  creating s0 s dir d i flags -> pages_spent s0 s (i + 1) -> 0 <= i -> i + Z.of_nat n = 1024 -> 0 <= flags < 256 -> present flags = true ->
  wp (create_tables n dir i (i32 (i * 4194304)) flags) s (fun r s' =>
    (r = STATUS_OK /\ creating s0 s' dir d 1024 flags /\ pages_spent s0 s' 1025) \/
    (r = - STATUS_NOT_ENOUGH_MEM /\ kheap_num_free_blocks s0 < 1025 /\
     (heap_ok s' /\ forall k, in_heap k -> entry_is_free s' k = entry_is_free s0 k) /\ kept (calm (m_con s0)) s0 s')).
Proof.
  induction n as [|n IH]; intros s0 s dir d i flags C S Hi Hn Hf Hpf; cbn [create_tables].
  { wp_steps. left. split; [done|]. change 1025 with (1024 + 1). by replace 1024 with i by lia. }
  pose proof (cr_wf _ _ _ _ _ _ C) as Hwf. destruct (cr_dir _ _ _ _ _ _ C) as [Hdir Hd].
  wp_step. change (4 * NUM_PAGE_TABLE_ENTRIES) with 4096.
  wp_apply (kzalloc_page 4096 s (wf_heap _ _ Hwf) ltac:(lia)).
  intros p s' [(-> & Hnone & Hl)|(b & m & Hb & -> & Hfree & -> & Hm)].
  - rewrite Z.eqb_refl. rewrite (proj2 (Z.eqb_neq dir 0)) by (rewrite Hdir; blk; lia). cbn [negb].
    pose proof (low_cleared_creating s0 s s' dir d i flags C ltac:(lia) Hl) as C'. destruct S as [P1 P2 P3].
    assert (Hq : forall a, calm (m_con s0) a -> rd8 (m_ram s') a = rd8 (m_ram s0) a).
    { intros a Ha. rewrite <- P1 by apply Ha. destruct Ha as (_ & Ha & Hb). destruct Hl as (_ & _ & _ & _ & Hq).
      apply Hq; [lia | by rewrite P2]. }
    pose proof (create_release _ s0 s' dir d i flags C' ltac:(lia) (calm_off _) Hq) as Hrel.
    wp_step. apply wp_run in Hrel as (u & s2 & Hrun & Hpost). unfold wp.
    revert Hrun. unfold mbind, M_bind. destruct (kfree dir s'); try done. intros ->. right.
    rewrite (num_free_none s (wf_heap _ _ Hwf) Hnone) in P3. split_and!; [done | lia | apply Hpost..].
  - rewrite (proj2 (Z.eqb_neq _ 0)) by (blk; lia).
    pose proof (fill_fresh_table s dir i flags b m Hwf ltac:(lia) Hf Hb Hfree Hm) as Hft.
    wp_steps. unfold PAGE_SIZE.
    replace (u32 (block_addr b / 4096 * 4096)) with (block_addr b)
      by (pose proof (block_aligned b); rewrite u32_small; blk; zlia).
    rewrite <- Z.lor_assoc.
    replace (i32 (i32 (i * 4194304) + 4096 * NUM_PAGE_TABLE_ENTRIES)) with (i32 ((i + 1) * 4194304))
      by (unfold i32, NUM_PAGE_TABLE_ENTRIES; zlia).
    apply (IH s0 _ dir d (i + 1) flags); [| |lia|lia|done|done].
    + apply (create_step s0 s); try done. lia.
    + apply (create_step_spent s0 s _ dir d i flags b); [exact C | lia | exact Hb | exact Hfree | exact Hft | exact (fill_pt_con _ _ _ _ _ (set_ram m s)) | exact S].
Qed.
