(* ===== verification/AddressSpace.v ===== *)
(** * Address spaces: what paging.c promises

    The theorems of paging.c in terms of the translation the MMU performs:
    the identity map of the kernel, mapping and unmapping regions, the
    isolation of address spaces from each other, and the release of tables.
    The lemmas they rest on are in Paging. *)
From Stdlib Require Import ZArith Lia String.
From stdpp Require Import base numbers gmap list strings.
From S2P Require Import Prelude Config Memory Machine Console Kheap Paging.
Local Open Scope Z_scope.

(** ** A new directory *)

Lemma new_dir_pde s d m i :
  heap_ok s -> in_heap d -> page_taken s d 4096 m -> 0 <= i < 1024 -> pde (set_ram m s) (block_addr d) i = 0.
Proof.
  intros Hs Hd Hm Hi. unfold pde. rewrite pt_get_block by done.
  assert (Hz : forall j, 0 <= j < 4096 -> rd8 (m_ram (set_ram m s)) (block_addr d + j) = 0).
  { intros j Hj. cbn [set_ram m_ram]. rewrite Hm. by repeat case_test; try lia. }
  unfold rd32, rd16. rewrite <- !Z.add_assoc. by rewrite !Hz by lia.
Qed.

Lemma new_dir_owned s d m b :
  heap_ok s -> in_heap d -> page_taken s d 4096 m -> owned (set_ram m s) (block_addr d) b <-> b = d.
Proof.
  intros Hs Hd Hm. split; [|intros ->; by left].
  intros [E|(i & Hi & Hp & _)]; [by apply block_addr_inj in E|].
  by rewrite (new_dir_pde s d m i) in Hp.
Qed.

Lemma new_dir_wf s d m :
  heap_ok s -> in_heap d -> page_taken s d 4096 m -> pt_wf (set_ram m s) (block_addr d).
Proof.
  intros Hs Hd Hm. split; [done | | |].
  - exists d. split_and!; try done. unfold used. rewrite (page_taken_free s d 4096) by (done || lia).
    by rewrite Z.eqb_refl.
  - intros i Hi Hp. by rewrite (new_dir_pde s d m i) in Hp.
  - intros i j Hi Hj Hp. by rewrite (new_dir_pde s d m i) in Hp.
Qed.

Lemma new_dir_creating s d m flags :
  heap_ok s -> in_heap d -> entry_is_free s d = true -> page_taken s d 4096 m ->
  creating s (set_ram m s) (block_addr d) d 0 flags.
Proof.
  intros Hs Hd Hf Hm.
  assert (Hk : forall a, ~ in_block d a -> a <> KHEAP_TABLE_ADDR + d -> rd8 m a = rd8 (m_ram s) a).
  { intros a Ha Hne. rewrite Hm. unfold in_block in Ha. by repeat case_test; try lia. }
  split.
  - by apply new_dir_wf.
  - done.
  - intros b Hb. apply (new_dir_owned s d m) in Hb as ->; try done. split; [|done].
    unfold page_entry. rewrite (page_taken_get_entry s d) by done. by rewrite Z.eqb_refl.
  - intros b Hb Hno. rewrite (page_taken_get_entry s d) by done.
    destruct (Z.eqb_spec b d) as [->|]; [|done]. destruct Hno. by apply (new_dir_owned s d m).
  - intros j Hj. by rewrite (new_dir_pde s d m j) by (done || lia).
  - intros; lia.
  - intros; lia.
  - intros b a Hb Hu Ha. assert (b <> d) by (intros ->; unfold used in Hu; congruence).
    apply Hk; unfold in_block in *; blk; lia.
Qed.

Lemma page_taken_spent s d n m :
  heap_ok s -> in_heap d -> entry_is_free s d = true -> 0 < n <= 4096 -> page_taken s d n m -> pages_spent s (set_ram m s) 1.
Proof.
  intros Hs Hd Hf Hn Hm. assert (He := fun k => page_taken_free s d n m k Hs Hd Hn Hm). split; [|done|].
  - intros a Ha. cbn [set_ram m_ram]. rewrite Hm. unfold off_heap in Ha. blk. by repeat case_test; try lia.
  - apply (num_free_take s _ d 1); [done | done | blk; lia | lia | blk; lia | |].
    + intros k Hk. replace k with d by lia. by rewrite He, Z.eqb_refl.
    + intros k Hk Hne. rewrite He by done. by destruct (Z.eqb_spec k d); [lia|].
Qed.

(** ** The identity map *)

Lemma land_lor_absorb x y : Z.land (Z.lor x y) x = x.
Proof. apply Z.bits_inj'. intros k _. rewrite Z.land_spec, Z.lor_spec. by destruct (Z.testbit x k), (Z.testbit y k). Qed.

(** The access rights of an entry whose directory flags are wider. *)
Lemma rights_write pde pa flags :
  pde mod 4096 = Z.lor flags PAGE_WRITE_ALLOW -> pa mod 4096 = 0 -> 0 <= flags < 256 ->
  rights pde (Z.lor pa flags) = Z.land flags (PAGE_USER_ACCESS_ALLOW + PAGE_WRITE_ALLOW).
Proof.
  intros Hd Hp Hf. unfold rights, PAGE_USER_ACCESS_ALLOW. change (4 + PAGE_WRITE_ALLOW) with 6.
  assert (Hpte : Z.lor pa flags mod 4096 = flags) by (rewrite entry_val by done; zlia).
  rewrite <- Z.land_assoc, (land_6_mod (Z.lor pa flags)), Hpte, (Z.land_comm flags), Z.land_assoc.
  rewrite (land_6_mod pde), Hd, <- Z.land_assoc, (Z.land_comm 6), Z.land_assoc. by rewrite land_lor_absorb.
Qed.

Lemma created_identity s0 s dir d flags va :
  creating s0 s dir d 1024 flags -> 0 <= flags < 256 -> present flags = true -> 0 <= va < 4294967296 ->
  mmu_walk s dir va = Some (va, Z.land flags (PAGE_USER_ACCESS_ALLOW + PAGE_WRITE_ALLOW)).
Proof.
  intros C Hf Hp Hva. rewrite mmu_walk_pte by done. cbn zeta.
  destruct (cr_done _ _ _ _ _ _ C (va / 4194304) ltac:(zlia)) as [_ Hd].
  assert (va / 4096 * 4096 mod 4096 = 0) by zlia. assert (0 <= va / 4096 * 4096 < 4294967296) by zlia.
  rewrite (cr_ident _ _ _ _ _ _ C), entry_present, Hp, entry_frame, rights_write by (done || zlia).
  do 2 f_equal. zlia.
Qed.

(** What paging_create_4gb_page_tables does, in terms of the construction. *)
Lemma create_4gb_spec flags pt s :
  heap_ok s -> 0 <= flags < 256 -> present flags = true ->
  wp (paging_create_4gb_page_tables flags pt) s (fun '(r, pt') s' =>
    (r = STATUS_OK /\ exists d, pt' = mk_pt (block_addr d) 2 /\ creating s s' (block_addr d) d 1024 flags /\ pages_spent s s' 1025) \/
    (r = - STATUS_NOT_ENOUGH_MEM /\ pt' = pt /\ kheap_num_free_blocks s < 1025 /\
     (heap_ok s' /\ forall k, in_heap k -> entry_is_free s' k = entry_is_free s k) /\ kept (calm (m_con s)) s s')).
Proof.
  intros Hs Hf Hp. unfold paging_create_4gb_page_tables. wp_step. change (4 * NUM_PAGE_TABLE_ENTRIES) with 4096.
  wp_apply (kzalloc_page 4096 s Hs ltac:(lia)). intros p s' [(-> & Hnone & Hl)|(d & m & Hd & -> & Hfree & -> & Hm)].
  - wp_steps. right. rewrite (num_free_none s Hs Hnone). split_and!; [done | done | lia | by apply (low_cleared_free 4096 s s' 0) | | by apply (low_cleared_kept 4096)].
    intros k Hk. by apply (low_cleared_free 4096).
  - rewrite (proj2 (Z.eqb_neq _ 0)) by (blk; lia). wp_step.
    wp_apply (create_tables_spec (Z.to_nat NUM_PAGE_TABLE_ENTRIES) s _ (block_addr d) d 0 flags); try done.
    { by apply new_dir_creating. }
    { by apply (page_taken_spent s d 4096). }
    intros r s' [(-> & C)|(-> & ? & ? & ?)]; wp_steps; [left | by right]. split; [done|]. by exists d.
Qed.

(** C28: the kernel's page table is the identity.  The call succeeds exactly
    when at least 1025 blocks of the heap are free, for the directory and its
    1024 tables.  Then every 32-bit virtual address translates to itself with
    the rights of the flags, the tables are well formed, 1025 blocks are taken,
    and no byte outside the heap and its table, nor of a block that was in use,
    changes.  With fewer free blocks it fails with -STATUS_NOT_ENOUGH_MEM, every
    block taken so far is given back, and blocks in use keep their contents, as
    does memory outside the heap but for the first page and the two lines of the
    console at the cursor. *)
Theorem create_4gb_identity (flags : Z) (pt : page_table_32b) (s : machine)
    (Hs : heap_ok s) (Hf : 0 <= flags < 256) (Hp : present flags = true) :
  wp (paging_create_4gb_page_tables flags pt) s (fun '(r, pt') s' =>
    (forall b a, in_heap b -> used s b -> in_block b a -> rd8 (m_ram s') a = rd8 (m_ram s) a) /\
    ((1025 <= kheap_num_free_blocks s /\ r = STATUS_OK /\ num_levels pt' = 2 /\ pt_wf s' (cr3 pt') /\
      (forall va, 0 <= va < 4294967296 ->
         mmu_walk s' (cr3 pt') va = Some (va, Z.land flags (PAGE_USER_ACCESS_ALLOW + PAGE_WRITE_ALLOW))) /\
      kheap_num_free_blocks s' = kheap_num_free_blocks s - 1025 /\
      forall a, off_heap a -> rd8 (m_ram s') a = rd8 (m_ram s) a) \/
     (kheap_num_free_blocks s < 1025 /\ r = - STATUS_NOT_ENOUGH_MEM /\ pt' = pt /\ heap_ok s' /\
      (forall k, in_heap k -> entry_is_free s' k = entry_is_free s k) /\
      forall a, calm (m_con s) a -> rd8 (m_ram s') a = rd8 (m_ram s) a))).
Proof.
  wp_apply (create_4gb_spec flags pt s Hs Hf Hp). intros [r pt'] s' [(-> & d & -> & C & [P1 _ P3])|(-> & -> & ? & [? ?] & K)].
  - split; [apply (cr_keep _ _ _ _ _ _ C)|]. left. pose proof (num_free_nonneg s') as Hn.
    split_and!; [lia | done | done | apply (cr_wf _ _ _ _ _ _ C) | | done | done].
    intros va Hva. by apply (created_identity s s' _ d).
  - split; [apply (kept_block _ _ _ K)|]. right. split_and!; try done. apply (kept_out _ _ _ K).
Qed.

Lemma create_4gb_identity_witness :
  exists pt' s', paging_create_4gb_page_tables 3 (mk_pt 0 0) (ready ∅) = Ret (STATUS_OK, pt') s' /\
    mmu_walk s' (cr3 pt') 0xB8000 = Some (0xB8000, 2) /\ kheap_num_free_blocks s' = 24575.
Proof.
  destruct (proj1 (wp_run _ _ _) (create_4gb_identity 3 (mk_pt 0 0) (ready ∅) (ready_ok _) ltac:(lia) eq_refl))
    as ([r pt'] & s' & E & _ & H). rewrite ready_free in H by done.
  destruct H as [(_ & -> & _ & _ & H & Hn & _)|(H & _)]; [|hp; lia].
  exists pt', s'. split; [exact E|]. split; [apply (H 0xB8000); lia | exact Hn].
Defined.

(** ** Mapping a region *)

(** The arguments that [paging_map_memory_region] accepts. *)
Definition region_args (va pa va_end : Z) : Prop :=
  is_u32 va /\ is_u32 pa /\ is_u32 va_end /\ va mod 4096 = 0 /\ pa mod 4096 = 0 /\ va_end mod 4096 = 0 /\ va < va_end.

Lemma map_region_spec s dir nl va pa va_end flags :
  pt_wf s dir -> region_args va pa va_end -> 0 <= flags < 256 -> present flags = true ->
  wp (paging_map_memory_region (mk_pt dir nl) va pa va_end flags) s
    (region_post dir flags (va / 4096) (va_end / 4096) (fun v => pa / 4096 + (v - va / 4096)) s).
Proof.
  intros Hwf (Hva & Hpa & Hve & Ava & Apa & Ave & Hlt) Hf Hp. unfold is_u32 in *. unfold paging_map_memory_region.
  rewrite !(proj2 (aligned_mod _)) by done. cbn [negb orb]. unfold PAGE_SIZE.
  rewrite (proj2 (Z.leb_gt _ _)) by zlia.
  wp_apply (map_region_loop_spec (Z.to_nat (va_end / 4096 - va / 4096)) s dir nl (va / 4096) (pa / 4096) 0 flags);
    try done; [zlia | zlia |].
  intros r s'. rewrite Z2Nat.id by zlia. rewrite Z.add_0_r.
  by replace (va / 4096 + (va_end / 4096 - va / 4096)) with (va_end / 4096) by lia.
Qed.

Lemma region_page va0 va_end va :
  va0 mod 4096 = 0 -> va_end mod 4096 = 0 -> va0 <= va < va_end <-> va0 / 4096 <= va / 4096 < va_end / 4096.
Proof. intros. zlia. Qed.

(** A page outside the region keeps its frame. *)
Lemma region_keeps_frame s s' dir va :
  0 <= va < 4294967296 -> pte_at s' dir (va / 4096) = pte_at s dir (va / 4096) ->
  fst <$> mmu_walk s' dir va = fst <$> mmu_walk s dir va.
Proof. intros Hva E. rewrite !mmu_walk_pte by done. cbn zeta. rewrite E. by destruct (present _). Qed.

(** C3: paging_map_memory_region sets up exactly the translation it is asked
    for.  On success every address of the region translates to the same offset
    in physical memory, with the rights of the flags; the only error for
    arguments it accepts is that a table of the region is missing and the heap
    has no free block for it.  In every case the address space stays well
    formed and addresses outside the region keep the frame they were mapped
    to. *)
Theorem map_region_translates (s : machine) (dir nl va pa va_end flags : Z)
    (Hwf : pt_wf s dir) (Hargs : region_args va pa va_end) (Hf : 0 <= flags < 256) (Hp : present flags = true) :
  wp (paging_map_memory_region (mk_pt dir nl) va pa va_end flags) s (fun r s' =>
    pt_wf s' dir /\
    (forall x, is_u32 x -> x < va \/ va_end <= x -> fst <$> mmu_walk s' dir x = fst <$> mmu_walk s dir x) /\
    ((r = STATUS_OK /\ forall x, va <= x < va_end ->
        mmu_walk s' dir x = Some (u32 (pa + (x - va) / 4096 * 4096) + x mod 4096,
                                  Z.land flags (PAGE_USER_ACCESS_ALLOW + PAGE_WRITE_ALLOW))) \/
     (r = - STATUS_NOT_ENOUGH_MEM /\ (forall k, in_heap k -> used s' k) /\
      exists x, va <= x < va_end /\ present (pde s dir (x / 4194304)) = false))).
Proof.
  wp_apply (map_region_spec s dir nl va pa va_end flags Hwf Hargs Hf Hp).
  destruct Hargs as (Hva & Hpa & Hve & Ava & Apa & Ave & Hlt). unfold is_u32 in *.
  intros r s' (Hext & Hout & _ & Hres). split; [apply (ext_wf _ _ _ Hext)|]. split.
  - intros x Hx Ho. apply region_keeps_frame; [done|]. apply Hout; zlia.
  - destruct Hres as [(-> & _ & Hmap)|(-> & Hfull & v & Hv & Hmiss)]; [left | right]; split_and!; try done.
    2: { exists (v * 4096). split; [zlia|]. by replace (v * 4096 / 4194304) with (v / 1024) by zlia. }
    intros x Hx. destruct (Hmap (x / 4096)) as (Hpte & Hpde & _); [by apply (proj1 (region_page va va_end x Ava Ave))|].
    replace (u32 (pa + (x - va) / 4096 * 4096)) with (u32 ((pa / 4096 + (x / 4096 - va / 4096)) * PAGE_SIZE))
      by (unfold PAGE_SIZE; f_equal; zlia).
    apply mmu_walk_mapped; try done; try lia; [unfold u32, PAGE_SIZE; zlia | apply u32_range |].
    by replace (x / 4194304) with (x / 4096 / 1024) by zlia.
Qed.

(** An address space with an empty directory in block 0. *)
Definition empty_space : machine := ready (wr8 ∅ KHEAP_TABLE_ADDR 65).

Lemma rd8_empty a : rd8 ∅ a = 0.
Proof. unfold rd8. by rewrite lookup_empty. Qed.

Lemma empty_space_wf : pt_wf empty_space (block_addr 0).
Proof.
  apply (new_dir_wf (ready ∅) 0 (wr8 ∅ KHEAP_TABLE_ADDR 65)); [apply ready_ok | blk; lia |].
  intros a. rewrite rd8_wr8. change (m_ram (ready ∅)) with (∅ : ram). rewrite !rd8_empty. blk.
  repeat case_test; cbn; try lia; done.
Qed.

Lemma map_region_translates_witness :
  exists r s', paging_map_memory_region (mk_pt (block_addr 0) 2) 0x400000 0x1200000 0x402000 7 empty_space = Ret r s' /\
    pt_wf s' (block_addr 0).
Proof.
  assert (Ha : region_args 0x400000 0x1200000 0x402000) by (unfold region_args, is_u32; split_and!; done || lia).
  destruct (proj1 (wp_run _ _ _) (map_region_translates empty_space (block_addr 0) 2 0x400000 0x1200000 0x402000 7
    empty_space_wf Ha ltac:(lia) eq_refl)) as (r & s' & E & H & _).
  exists r, s'. split; [exact E | exact H].
Defined.

(** C4: address spaces are isolated.  Mapping a region in one address space
    changes no translation of an address space it shares no table with, and
    the two still share none afterwards. *)
Theorem map_region_isolated (s : machine) (dir dir' nl va pa va_end flags : Z)
    (Hwf : pt_wf s dir) (Hwf' : pt_wf s dir') (Hsep : separate s dir dir')
    (Hargs : region_args va pa va_end) (Hf : 0 <= flags < 256) (Hp : present flags = true) :
  wp (paging_map_memory_region (mk_pt dir nl) va pa va_end flags) s (fun _ s' =>
    pt_wf s' dir' /\ separate s' dir dir' /\
    forall x, is_u32 x -> mmu_walk s' dir' x = mmu_walk s dir' x).
Proof.
  wp_apply (map_region_spec s dir nl va pa va_end flags Hwf Hargs Hf Hp).
  intros r s' (Hext & _). by apply (pt_ext_separate dir dir' s s').
Qed.

(** Two empty address spaces, in blocks 0 and 1. *)
Definition two_spaces : machine := ready (wr8 (wr8 ∅ KHEAP_TABLE_ADDR 65) (KHEAP_TABLE_ADDR + 1) 65).

Lemma two_spaces_zero d i : in_heap d -> 0 <= i < 1024 -> pde two_spaces (block_addr d) i = 0.
Proof.
  intros Hd Hi. unfold pde. rewrite pt_get_block by done. unfold rd32, rd16.
  cbn [two_spaces ready m_ram]. by rewrite !rd8_wr8_ne, !rd8_empty by (blk; lia).
Qed.

Lemma two_spaces_wf d : d = 0 \/ d = 1 -> pt_wf two_spaces (block_addr d).
Proof.
  intros Hd. assert (Hh : in_heap d) by (blk; lia). split.
  - apply ready_ok.
  - exists d. split_and!; try done. destruct Hd as [-> | ->]; reflexivity.
  - intros i Hi Hp. by rewrite two_spaces_zero in Hp.
  - intros i j Hi Hj Hp. by rewrite two_spaces_zero in Hp.
Qed.

Lemma two_spaces_separate : separate two_spaces (block_addr 0) (block_addr 1).
Proof.
  assert (in_heap 0 /\ in_heap 1) as [] by (blk; lia).
  intros b [E|(i & Hi & Hp & _)] [E'|(j & Hj & Hp' & _)]; try by rewrite two_spaces_zero in *.
  apply block_addr_inj in E, E'. lia.
Qed.

Lemma map_region_isolated_witness :
  exists r s', paging_map_memory_region (mk_pt (block_addr 0) 2) 0x400000 0x1200000 0x402000 7 two_spaces = Ret r s' /\
    separate s' (block_addr 0) (block_addr 1).
Proof.
  assert (Ha : region_args 0x400000 0x1200000 0x402000) by (unfold region_args, is_u32; split_and!; done || lia).
  destruct (proj1 (wp_run _ _ _) (map_region_isolated two_spaces (block_addr 0) (block_addr 1) 2
    0x400000 0x1200000 0x402000 7 (two_spaces_wf 0 ltac:(lia)) (two_spaces_wf 1 ltac:(lia)) two_spaces_separate
    Ha ltac:(lia) eq_refl)) as (r & s' & E & _ & H & _).
  exists r, s'. split; [exact E | exact H].
Defined.

(** The directory entry takes the flags of the last mapping below it.
    After a region was mapped, a page of the same 4 MB slot that is not in the
    region keeps its frame but not its rights: a right that the new flags lack
    is revoked from it as well. *)
Lemma map_region_narrows_slot (s : machine) (dir nl va pa va_end flags x p rt : Z)
    (Hwf : pt_wf s dir) (Hargs : region_args va pa va_end) (Hf : 0 <= flags < 256) (Hp : present flags = true)
    (Hx : is_u32 x) (Hout : x < va \/ va_end <= x) (Hslot : x / 4194304 = va / 4194304)
    (Hwalk : mmu_walk s dir x = Some (p, rt)) :
  wp (paging_map_memory_region (mk_pt dir nl) va pa va_end flags) s (fun r s' =>
    r = STATUS_OK -> exists rt', mmu_walk s' dir x = Some (p, rt') /\ Z.land rt' flags = rt').
Proof.
  wp_apply (map_region_spec s dir nl va pa va_end flags Hwf Hargs Hf Hp).
  destruct Hargs as (Hva & Hpa & Hve & Ava & Apa & Ave & Hlt). unfold is_u32 in *.
  intros r s' (_ & Hkeep & _ & Hres) Hr. destruct Hres as [(_ & _ & Hmap)|[-> _]]; [|discriminate Hr].
  destruct (Hmap (va / 4096) ltac:(zlia)) as (_ & Hpde & _). replace (va / 4096 / 1024) with (x / 4194304) in Hpde by zlia.
  rewrite mmu_walk_pte in * by done. cbn zeta in *. rewrite Hkeep by zlia.
  destruct (present (pte_at s dir (x / 4096))); [|done]. injection Hwalk as <- Hrt. clear Hrt. eexists. split; [reflexivity|].
  unfold rights, PAGE_USER_ACCESS_ALLOW. change (4 + PAGE_WRITE_ALLOW) with 6.
  pose proof (land_6_mod (pde s' dir (x / 4194304))) as E. rewrite Hpde in E.
  apply Z.bits_inj'. intros k _. apply (f_equal (fun z => Z.testbit z k)) in E. rewrite !Z.land_spec in *.
  revert E. by destruct (Z.testbit flags k), (Z.testbit 6 k), (Z.testbit (pde s' dir (x / 4194304)) k); rewrite ?andb_false_r, ?andb_true_r.
Qed.

(** A directory in block 0 whose first table, in block 1, maps page 0 with all
    rights. *)
Definition mapped_space : machine :=
  ready (wr32 (wr32 (m_ram two_spaces) (block_addr 0) (block_addr 1 + 7)) (block_addr 1) 7).

Lemma mapped_space_pde i : 0 <= i < 1024 ->
  pde mapped_space (block_addr 0) i = if i =? 0 then block_addr 1 + 7 else 0.
Proof.
  intros Hi. assert (in_heap 0) by (blk; lia). unfold pde. rewrite pt_get_block by done. cbn [mapped_space ready m_ram].
  rewrite (rd32_wr32_ne _ (block_addr 1)) by (blk; lia). destruct (Z.eqb_spec i 0) as [->|].
  - rewrite Z.add_0_r, rd32_wr32. reflexivity.
  - rewrite rd32_wr32_ne, <- pt_get_block by (blk; lia). by apply two_spaces_zero.
Qed.

Lemma mapped_space_wf : pt_wf mapped_space (block_addr 0).
Proof.
  split.
  - apply ready_ok.
  - exists 0. split_and!; try done; blk; lia.
  - intros i Hi Hp. rewrite mapped_space_pde in * by done. destruct (Z.eqb_spec i 0) as [->|]; [|done].
    exists 1. split_and!; done.
  - intros i j Hi Hj Hpi Hpj. rewrite !mapped_space_pde in * by done.
    by destruct (Z.eqb_spec i 0) as [->|], (Z.eqb_spec j 0) as [->|].
Qed.

(** ** Unmapping *)

(** The pages that [va, va_end) touches, and their translations. *)
Lemma free_va_spec s dir nl va va_end :
  pt_wf s dir -> is_u32 va -> is_u32 va_end -> va <= va_end ->
  wp (paging_free_va (mk_pt dir nl) va va_end) s (fun r s' =>
    r = STATUS_OK /\ pages_freed dir (va / 4096) ((va_end + 4095) / 4096) s s').
Proof.
  intros Hwf Hva Hve Hle. unfold is_u32 in *. unfold paging_free_va. rewrite (proj2 (Z.ltb_ge _ _)) by lia. unfold PAGE_SIZE.
  set (ev := if negb (va_end mod 4096 =? 0) then va_end / 4096 + 1 else va_end / 4096).
  assert (Hev : ev = (va_end + 4095) / 4096) by (unfold ev; case_test; cbn [negb]; zlia). clearbody ev. subst ev.
  wp_step. wp_apply (free_vpns_spec (Z.to_nat ((va_end + 4095) / 4096 - va / 4096)) s dir nl (va / 4096));
    [done | zlia | zlia |].
  intros _ s' F. rewrite Z2Nat.id in F by zlia. wp_steps. split; [done|].
  by replace ((va_end + 4095) / 4096) with (va / 4096 + ((va_end + 4095) / 4096 - va / 4096)) by lia.
Qed.

Lemma pages_freed_walk dir va va_end s s' x :
  pages_freed dir (va / 4096) ((va_end + 4095) / 4096) s s' -> is_u32 x ->
  mmu_walk s' dir x = if (va / 4096 * 4096 <=? x) && (x <? (va_end + 4095) / 4096 * 4096)
                      then None else mmu_walk s dir x.
Proof.
  intros F Hx. unfold is_u32 in Hx. destruct (_ && _) eqn:E.
  - breflect. rewrite mmu_walk_pte by done. cbn zeta. by rewrite (pf_gone _ _ _ _ _ F) by zlia.
  - apply mmu_walk_ext; [done | apply (pf_kept _ _ _ _ _ F); [zlia|] | apply (pf_pde _ _ _ _ _ F); zlia].
    apply andb_false_iff in E as [E|E]; breflect; zlia.
Qed.

(** Paging_free_va unmaps exactly the pages that the interval touches:
    they no longer translate, every other page keeps its translation with its
    rights, and no block of the heap is released. *)
Lemma free_va_unmaps (s : machine) (dir nl va va_end : Z)
    (Hwf : pt_wf s dir) (Hva : is_u32 va) (Hve : is_u32 va_end) (Hle : va <= va_end) :
  wp (paging_free_va (mk_pt dir nl) va va_end) s (fun r s' =>
    r = STATUS_OK /\ pt_wf s' dir /\
    (forall b, in_heap b -> used s b -> used s' b) /\
    forall x, is_u32 x ->
      mmu_walk s' dir x = if (va / 4096 * 4096 <=? x) && (x <? (va_end + 4095) / 4096 * 4096)
                          then None else mmu_walk s dir x).
Proof.
  wp_apply (free_va_spec s dir nl va va_end Hwf Hva Hve Hle). intros r s' (-> & F).
  pose proof (pf_ext _ _ _ _ _ F) as Hext.
  split_and!; [done | apply (ext_wf _ _ _ Hext) | apply (ext_used _ _ _ Hext) |].
  intros x Hx. by apply pages_freed_walk.
Qed.

(** ** Releasing an address space *)

Lemma free_page_table_spec s dir nl :
  pt_wf s dir -> nl <> 1 -> (forall b, owned s dir b -> page_entry s b) ->
  wp (paging_free_page_table (mk_pt dir nl)) s (fun r s' =>
    r = 0 /\ heap_ok s' /\ forall k, in_heap k ->
      (owned s dir k -> get_entry s' k = 0) /\ (~ owned s dir k -> get_entry s' k = get_entry s k)).
Proof.
  intros Hwf Hnl Hpage. destruct (wf_dir _ _ Hwf) as (d & Hd & Hdir & _). unfold paging_free_page_table. cbn [num_levels cr3].
  rewrite (proj2 (Z.eqb_neq nl 1)) by done. wp_steps. unfold NUM_PAGE_TABLE_ENTRIES.
  wp_apply (free_dir_loop_spec (Z.to_nat 1024) s dir d nl 0); try done; [apply (wf_heap _ _ Hwf) | | | ].
  { intros i Hi Hp. destruct (wf_tbl _ _ Hwf i ltac:(lia) Hp) as (b & Hb & E & _).
    exists b. split_and!; try done. apply Hpage. right. exists i. split; [lia | done]. }
  { intros i k Hi Hk. apply (wf_inj _ _ Hwf); lia. }
  intros _ s1 (Hs1 & _ & Hz & Hk). change (0 + Z.of_nat (Z.to_nat 1024)) with 1024 in *.
  assert (Hnd : ~ points_to s dir 0 1024 d).
  { intros (i & Hi & Hp & E). destruct (wf_tbl _ _ Hwf i Hi Hp) as (b & _ & E' & _ & Hne). congruence. }
  wp_step. rewrite Hdir at 1. eapply wp_of_run.
  { apply kfree_page; [done | done |]. rewrite Hk by done. apply Hpage. by left. }
  wp_steps. split_and!; [done | done |]. intros k Hk'. rewrite set_entry_get by done. split.
  - intros [E|Hpt]; [rewrite Hdir in E; apply block_addr_inj in E as ->; by rewrite Z.eqb_refl|].
    destruct (d =? k); [done | by apply Hz].
  - intros Hno. destruct (Z.eqb_spec d k) as [<-|]; [destruct Hno; by left|].
    apply Hk; [done|]. intros Hpt. apply Hno. by right.
Qed.

Lemma free_page_table_frame s pt :
  heap_ok s -> num_levels pt <> 1 -> wp (paging_free_page_table pt) s (fun _ s' => table_only s s').
Proof.
  intros Hs Hnl. unfold paging_free_page_table. rewrite (proj2 (Z.eqb_neq _ 1)) by done. wp_steps.
  wp_apply (free_dir_loop_frame (Z.to_nat NUM_PAGE_TABLE_ENTRIES) 0 pt s Hs). intros _ s1 H1. wp_step.
  wp_apply (kfree_table (cr3 pt) s1 (table_only_ok s s1 H1 Hs)). intros _ s2 H2. wp_steps. by apply (table_only_trans s s1).
Qed.

(** C32: paging_free_page_table gives back the directory and every table of
    the address space, and touches the entry of no other block. *)
Theorem free_page_table_releases (s : machine) (dir nl : Z)
    (Hwf : pt_wf s dir) (Hnl : nl <> 1) (Hpage : forall b, owned s dir b -> page_entry s b) :
  wp (paging_free_page_table (mk_pt dir nl)) s (fun r s' =>
    r = 0 /\ forall k, in_heap k ->
      (owned s dir k -> entry_is_free s' k = true) /\
      (~ owned s dir k -> get_entry s' k = get_entry s k)).
Proof.
  wp_apply (free_page_table_spec s dir nl Hwf Hnl Hpage). intros r s' (-> & _ & H). split; [done|].
  intros k Hk. split; [|apply H; done]. intros Ho. unfold entry_is_free. by rewrite (proj1 (H k Hk)).
Qed.

Lemma free_page_table_releases_witness :
  exists s', paging_free_page_table (mk_pt (block_addr 0) 2) mapped_space = Ret 0 s' /\ entry_is_free s' 1 = true.
Proof.
  assert (Hh : in_heap 1) by (blk; lia).
  assert (Hpage : forall b, owned mapped_space (block_addr 0) b -> page_entry mapped_space b).
  { intros b [E|(i & Hi & Hp & E)]; [apply block_addr_inj in E as <-; reflexivity|].
    rewrite mapped_space_pde in Hp, E by done. destruct (i =? 0); [|done].
    apply (block_addr_inj 1) in E as <-. reflexivity. }
  destruct (proj1 (wp_run _ _ _) (free_page_table_releases mapped_space (block_addr 0) 2 mapped_space_wf
    ltac:(lia) Hpage)) as (r & s' & E & -> & H).
  exists s'. split; [exact E|]. apply (H 1 Hh). right. exists 0. rewrite mapped_space_pde by lia. split_and!; done.
Defined.

(** Building the kernel page table and releasing it is neutral for the
    heap: whether or not the construction succeeds, afterwards every block is
    free exactly if it was free before. *)
Lemma create_free_roundtrip (flags : Z) (s : machine)
    (Hs : heap_ok s) (Hf : 0 <= flags < 256) (Hp : present flags = true) :
  wp ('(r, pt) ← paging_create_4gb_page_tables flags (mk_pt 0 0);
      if r =? STATUS_OK then paging_free_page_table pt else mret r) s (fun _ s' =>
    forall k, in_heap k -> entry_is_free s' k = entry_is_free s k).
Proof.
  wp_step. wp_apply (create_4gb_spec flags (mk_pt 0 0) s Hs Hf Hp).
  intros [r pt'] s' [(-> & d & -> & C & _)|(-> & -> & _ & [_ Hk] & _)]; [|by wp_steps]. rewrite Z.eqb_refl.
  pose proof (cr_page _ _ _ _ _ _ C) as Hpg. pose proof (cr_wf _ _ _ _ _ _ C) as Hwf.
  wp_apply (free_page_table_spec s' (block_addr d) 2 Hwf); [done | intros b Hb; by apply Hpg |].
  intros _ s2 (_ & _ & H) k Hk. destruct (H k Hk) as [Ho Hn]. unfold entry_is_free at 1.
  destruct (points_to_dec s' (block_addr d) 0 1024 k) as [Hpt|Hpt].
  - rewrite Ho by (by right). symmetry. apply Hpg. by right.
  - destruct (decide (k = d)) as [->|]; [rewrite Ho by (by left); symmetry; apply Hpg; by left|].
    assert (Hno : ~ owned s' (block_addr d) k) by (intros [E%block_addr_inj|?]; done).
    rewrite Hn by done. by rewrite (cr_rest _ _ _ _ _ _ C).
Qed.

(** ** Alignment *)

(** Paging_down_align_addr is the page the address lies in;
    paging_up_align_addr is the least page boundary not below the address,
    except above the last page boundary of the 32-bit space, where it wraps to
    0. *)
Lemma align_addr_correct (a : Z) (Ha : is_u32 a) :
  let d := paging_down_align_addr a in
  let u := paging_up_align_addr a in
  d mod 4096 = 0 /\ d <= a < d + 4096 /\ u mod 4096 = 0 /\
  (a <= 4294963200 -> a <= u < a + 4096) /\ (4294963200 < a -> u = 0).
Proof.
  unfold is_u32 in Ha. cbn zeta. unfold paging_down_align_addr, paging_up_align_addr, PAGE_SIZE, u32.
  destruct (Z.eqb_spec (a mod 4096) 0); cbn [negb]; split_and!; zlia.
Qed.
