(* ===== verification/Blocks.v ===== *)
(** * Objects in heap blocks

    What the users of the allocator need of it: memory that it leaves alone,
    allocation and release of one-block objects in terms of the abstract heap,
    and the number of free blocks as a budget for a series of allocations. *)
From Stdlib Require Import ZArith Lia String.
From stdpp Require Import base numbers gmap list strings.
From S2P Require Import Prelude Config Memory Machine Console Kheap Paging.
Local Open Scope Z_scope.

(** ** Memory the allocator leaves alone *)

(** An address that is neither in the entry table nor in a free block. *)
Definition stable (s : machine) (a : Z) : Prop :=
  (a < KHEAP_TABLE_ADDR \/ TABLE_END <= a) /\ forall b, in_heap b -> entry_is_free s b = true -> ~ in_block b a.

Definition stable_range (s : machine) (p n : Z) : Prop := forall a, p <= a < p + n -> stable s a.

Lemma stable_apart s b p n :
  0 < n -> in_heap b -> entry_is_free s b = true -> stable_range s p n ->
  p + n <= block_addr b \/ block_addr b + 4096 <= p.
Proof.
  intros Hn Hb Hf Hst. destruct (decide (p + n <= block_addr b \/ block_addr b + 4096 <= p)); [done|].
  destruct (Hst (Z.max p (block_addr b)) ltac:(lia)) as [_ Hs]. destruct (Hs b Hb Hf). unfold in_block. lia.
Qed.

Lemma stable_table s k p n : in_heap k -> stable_range s p n -> ~ (p <= KHEAP_TABLE_ADDR + k < p + n).
Proof. intros Hk Hst Ha. destruct (Hst _ Ha) as [H1 _]. blk. lia. Qed.

Lemma stable_iff s s' a :
  (forall k, in_heap k -> entry_is_free s' k = entry_is_free s k) -> stable s' a <-> stable s a.
Proof. intros E. unfold stable. split; (intros [? Hb]; split; [done|]; intros b Hb'; specialize (Hb b Hb'); rewrite E in * by done; done). Qed.

(** [same_heap s s']: allocator and console statics are as before and every
    block is free exactly if it was. *)
Record same_heap (s s' : machine) : Prop := {
  sh_ok : heap_ok s';
  sh_con : m_con s' = m_con s;
  sh_free : forall k, in_heap k -> entry_is_free s' k = entry_is_free s k;
  sh_entry : forall k, in_heap k -> rd8 (m_ram s') (KHEAP_TABLE_ADDR + k) = rd8 (m_ram s) (KHEAP_TABLE_ADDR + k) \/
    (entry_is_free s k = true /\ rd8 (m_ram s') (KHEAP_TABLE_ADDR + k) = 0) }.

Lemma same_heap_trans s1 s2 s3 : same_heap s1 s2 -> same_heap s2 s3 -> same_heap s1 s3.
Proof.
  intros [O1 C1 F1 E1] [O2 C2 F2 E2]. split; [done | congruence | intros k Hk; by rewrite F2, F1 |]. intros k Hk.
  destruct (E2 k Hk) as [->|[Hf ->]]; [by apply E1|]. right. by rewrite <- F1.
Qed.

Lemma same_heap_rep s s' A : heap_rep s A -> same_heap s s' -> heap_rep s' A.
Proof.
  intros HR [Ho _ _ He]. pose proof HR as (Hs & H1 & H2). split; [done|]. split.
  - intros i n Hi. destruct (H1 i n Hi) as (? & ? & ? & Hk). split_and!; try done. intros k Hk'.
    destruct (He (i + k)) as [->|[Hf _]]; [blk; lia | by apply Hk |].
    apply (rep_free s A) in Hf; [|done | blk; lia]. destruct Hf. exists i, n. split; [done | lia].
  - intros j Hj Hne. destruct (He j Hj) as [E|[_ E]]; [|done]. rewrite E in Hne. by apply H2.
Qed.

(** A page that was taken, used and freed: the heap is as before. *)
Lemma temp_page_free s i n m m2 :
  heap_ok s -> in_heap i -> entry_is_free s i = true -> 0 < n <= 4096 -> page_taken s i n m ->
  (forall k, in_heap k -> rd8 m2 (KHEAP_TABLE_ADDR + k) = rd8 m (KHEAP_TABLE_ADDR + k)) ->
  wp (kfree (block_addr i)) (set_ram m2 s) (fun _ s' => same_heap s s' /\
    forall a, a < KHEAP_TABLE_ADDR \/ TABLE_END <= a -> rd8 (m_ram s') a = rd8 m2 a).
Proof.
  intros Hs Hi Hf Hn Hm Htab. assert (Hs2 : heap_ok (set_ram m2 s)) by done.
  assert (Hent : forall k, in_heap k -> get_entry (set_ram m2 s) k = if k =? i then 65 else get_entry s k).
  { intros k Hk. rewrite !heap_entry by (done || blk; lia). cbn [set_ram m_ram]. rewrite Htab, Hm by done. blk.
    by repeat case_test; try lia. }
  eapply wp_of_run; [apply kfree_page; [done | done | by rewrite Hent, Z.eqb_refl]|]. split; [split; [done | done | |]|].
  - intros k Hk. unfold entry_is_free. rewrite set_entry_get, Hent by done. destruct (Z.eqb_spec i k) as [->|].
    + symmetry. exact Hf.
    + by rewrite (proj2 (Z.eqb_neq k i)).
  - intros k Hk. rewrite set_entry_ram by (done || blk; lia). destruct (Z.eqb_spec i k) as [->|Hne].
    + right. split; [done|]. etransitivity; [apply rd8_wr8_eq | done].
    + left. cbn [on_ram set_ram m_ram]. rewrite rd8_wr8_ne by lia. rewrite Htab, Hm by done. blk. by repeat case_test; try lia.
  - intros a Ha. rewrite set_entry_ram by (done || blk; lia). apply rd8_wr8_ne. blk. lia.
Qed.

Lemma page_taken_stable s i n m a :
  in_heap i -> entry_is_free s i = true -> n <= 4096 -> page_taken s i n m -> stable s a -> rd8 m a = rd8 (m_ram s) a.
Proof.
  intros Hi Hf Hn Hm [Ht Hb]. specialize (Hb i Hi Hf). rewrite Hm. unfold in_block in Hb. blk.
  by repeat case_test; try lia.
Qed.


(** Blocks that get used keep stable memory stable. *)
Lemma stable_mono s s' a :
  (forall k, in_heap k -> entry_is_free s' k = true -> entry_is_free s k = true) -> stable s a -> stable s' a.
Proof. intros E [? Hb]. split; [done|]. intros b Hb' Hf. apply Hb; auto. Qed.

Lemma used_stable s b a : in_heap b -> entry_is_free s b = false -> in_block b a -> stable s a.
Proof.
  intros Hb Hu Ha. unfold in_block in Ha. split; [blk; lia|]. intros k Hk Hf Hin. unfold in_block in Hin.
  assert (k = b) by (blk; lia). congruence.
Qed.

(** ** Writes outside the entry table *)

Definition same_table (s : machine) (m : ram) : Prop :=
  forall k, in_heap k -> rd8 m (KHEAP_TABLE_ADDR + k) = rd8 (m_ram s) (KHEAP_TABLE_ADDR + k).

Lemma heap_rep_ram s m A : heap_rep s A -> same_table s m -> heap_rep (set_ram m s) A.
Proof.
  intros (Hs & H1 & H2) Ht. split; [done|]. split; cbn [set_ram m_ram].
  - intros i n Hi. destruct (H1 i n Hi) as (? & ? & ? & Hk). split_and!; try done.
    intros k Hk'. rewrite Ht by (blk; lia). by apply Hk.
  - intros j Hj. rewrite Ht by done. by apply H2.
Qed.

(** The first [n] blocks, one allocation each. *)
Definition singles (n : Z) : gmap Z Z := list_to_map ((fun i => (i, 1)) <$> seqZ 0 n).

Lemma singles_lookup n i k : singles n !! i = Some k <-> 0 <= i < n /\ k = 1.
Proof.
  unfold singles. rewrite <- elem_of_list_to_map.
  - rewrite list_elem_of_fmap. setoid_rewrite elem_of_seqZ. naive_solver lia.
  - rewrite <- list_fmap_compose. cbn. rewrite list_fmap_id. apply NoDup_seqZ.
Qed.

Lemma singles_rep x n :
  heap_ok x -> n <= HEAP_BLOCKS -> forallb (fun j => rd8 (m_ram x) (KHEAP_TABLE_ADDR + j) =? 65) (seqZ 0 n) = true ->
  (forall j, n <= j < HEAP_BLOCKS -> rd8 (m_ram x) (KHEAP_TABLE_ADDR + j) = 0) -> heap_rep x (singles n).
Proof.
  intros Hx Hn H Hz. assert (He := fun j Hj => proj1 (Z.eqb_eq _ _) (forallb_below _ _ j H Hj)). cbn beta in He. split; [done|]. split.
  - intros i k [Hi ->]%singles_lookup. split_and!; try lia. intros k Hk. replace k with 0 by lia. by rewrite Z.add_0_r, He by lia.
  - intros j Hj Hne. destruct (Z.ltb_spec j n); [|by rewrite Hz in Hne by lia].
    exists j, 1. split; [apply singles_lookup|]; lia.
Qed.

Lemma heap_rep_ext x y A :
  heap_rep x A -> heap_ok y -> (forall k, in_heap k -> rd8 (m_ram y) (KHEAP_TABLE_ADDR + k) = rd8 (m_ram x) (KHEAP_TABLE_ADDR + k)) ->
  heap_rep y A.
Proof.
  intros HR Hy Ht. pose proof (heap_rep_ram x (m_ram y) A HR Ht) as (_ & H1 & H2). by split.
Qed.

Lemma rep_entry_free s s' A k : heap_rep s A -> heap_rep s' A -> in_heap k -> entry_is_free s' k = entry_is_free s k.
Proof.
  intros H H' Hk. destruct (entry_is_free s k) eqn:E.
  - apply (rep_free s' A); [done | done|]. by apply (rep_free s A).
  - apply not_true_iff_false. intros E'. apply (rep_free s' A), (rep_free s A) in E'; try done. congruence.
Qed.

Lemma same_table_free s m k :
  heap_ok s -> same_table s m -> in_heap k -> entry_is_free (set_ram m s) k = entry_is_free s k.
Proof. intros Hs Ht Hk. apply entry_is_free_ext; [done | done | blk; lia | by apply Ht]. Qed.

(** A write to stable memory does not touch the table. *)
Lemma stable_write s m p n :
  stable_range s p n -> (forall a, a < p \/ p + n <= a -> rd8 m a = rd8 (m_ram s) a) -> same_table s m.
Proof. intros Hst Ho k Hk. apply Ho. pose proof (stable_table s k p n Hk Hst). lia. Qed.

(** ** Counting *)

Lemma num_free_ext s s' :
  heap_ok s -> heap_ok s' -> (forall k, in_heap k -> entry_is_free s' k = entry_is_free s k) ->
  kheap_num_free_blocks s' = kheap_num_free_blocks s.
Proof.
  intros Hs Hs' E. rewrite (num_free_take s s' 0 0); [lia | done | done | lia | lia | blk; lia | intros; lia |].
  intros k Hk _. by apply E.
Qed.

Lemma rep_num_free s s' A : heap_rep s A -> heap_rep s' A -> kheap_num_free_blocks s' = kheap_num_free_blocks s.
Proof. intros H H'. apply num_free_ext; [apply H | apply H' | intros k Hk; by apply (rep_entry_free _ _ A)]. Qed.

Lemma num_free_pos s :
  heap_ok s -> 0 < kheap_num_free_blocks s -> exists k, in_heap k /\ entry_is_free s k = true.
Proof.
  intros Hs Hn. destruct (decide (Exists (fun k => entry_is_free s k = true) (seqZ 0 HEAP_BLOCKS))) as [E|E].
  - apply Exists_exists in E as (k & Hk%elem_of_seqZ & Hf). exists k. split; [blk; lia | done].
  - exfalso. revert Hn. unfold kheap_num_free_blocks. destruct Hs as [-> _]. cbn [entry_table num_entries].
    rewrite (count_free_const false); [lia|]. intros k Hk. destruct (entry_is_free s k) eqn:Ef; [|done].
    destruct E. apply Exists_exists. exists k. split; [apply elem_of_seqZ; blk; lia | done].
Qed.

(** ** One-block objects *)

Lemma page_taken_rep s A i size m :
  heap_rep s A -> in_heap i -> entry_is_free s i = true -> 0 < size <= 4096 -> page_taken s i size m ->
  A !! i = None /\ heap_rep (set_ram m s) (<[i := 1]> A).
Proof.
  intros HR Hi Hf Hsz Hm. pose proof HR as (Hs & H1 & H2).
  assert (Hnc : ~ covers A i) by (by apply (rep_free s A)).
  assert (HA : A !! i = None).
  { destruct (A !! i) as [n|] eqn:E; [|done]. destruct Hnc. exists i, n. destruct (H1 i n E) as (? & ? & _). split; [done | lia]. }
  assert (Ht : forall k, in_heap k -> rd8 m (KHEAP_TABLE_ADDR + k) =
    if k =? i then 65 else rd8 (m_ram s) (KHEAP_TABLE_ADDR + k)).
  { intros k Hk. rewrite Hm. blk. by repeat case_test; try lia. }
  split; [done|]. split; [done|]. split; cbn [set_ram m_ram].
  - intros j n Hl. destruct (decide (i = j)) as [<-|].
    + rewrite lookup_insert_eq in Hl. injection Hl as <-. split_and!; try (blk; lia).
      intros k Hk. replace k with 0 by lia. rewrite Z.add_0_r, Ht, Z.eqb_refl by done. done.
    + rewrite lookup_insert_ne in Hl by done. destruct (H1 j n Hl) as (? & ? & ? & Hk). split_and!; try done.
      intros k Hk'. rewrite Ht by (blk; lia). destruct (Z.eqb_spec (j + k) i) as [<-|]; [|by apply Hk].
      destruct Hnc. exists j, n. split; [done | lia].
  - intros j Hj. rewrite Ht by done. rewrite covers_insert by done.
    destruct (Z.eqb_spec j i) as [->|]; [left; lia | right; by apply H2].
Qed.

(** kzalloc of an object of at most a page, when a block is left. *)
Lemma kzalloc_obj s A size :
  heap_rep s A -> 0 < size <= 4096 -> 0 < kheap_num_free_blocks s ->
  wp (kzalloc size) s (fun p s' => exists i m, p = block_addr i /\ in_heap i /\ entry_is_free s i = true /\
    s' = set_ram m s /\ page_taken s i size m /\ A !! i = None /\ heap_rep s' (<[i := 1]> A) /\
    kheap_num_free_blocks s' = kheap_num_free_blocks s - 1).
Proof.
  intros HR Hsz Hn. pose proof HR as (Hs & _). destruct (num_free_pos s Hs Hn) as (k & Hk & Hfk).
  wp_apply (kzalloc_page size s Hs Hsz). intros p s' [(_ & Hno & _)|(i & m & Hi & -> & Hf & -> & Hm)].
  { by rewrite Hno in Hfk. }
  exists i, m. destruct (page_taken_rep s A i size m HR Hi Hf Hsz Hm). split_and!; try done; try lia.
  apply (num_free_take s _ i 1); [done | done | lia | lia | blk; lia | |].
  - intros j Hj. replace j with i by lia. rewrite (page_taken_free s i size) by done. by rewrite Z.eqb_refl.
  - intros j Hj Hne. rewrite (page_taken_free s i size) by done. by rewrite (proj2 (Z.eqb_neq j i)) by lia.
Qed.

(** ** States in which only block 0 is used *)

Definition only_block0 (m : ram) : Prop :=
  forall k, in_heap k -> rd8 m (KHEAP_TABLE_ADDR + k) = if k =? 0 then 65 else 0.

Lemma block0_entry m k : only_block0 m -> in_heap k -> entry_is_free (ready m) k = negb (k =? 0).
Proof.
  intros H Hk. unfold entry_is_free. rewrite heap_entry by (apply ready_ok || blk; lia). cbn [ready m_ram].
  rewrite H by done. by destruct (k =? 0).
Qed.

Lemma block0_rep m : only_block0 m -> heap_rep (ready m) (<[0 := 1]> ∅).
Proof.
  intros H. split; [apply ready_ok|]. split; cbn [ready m_ram].
  - intros i n Hi. destruct (decide (i = 0)) as [->|]; [|by rewrite lookup_insert_ne in Hi].
    rewrite lookup_insert_eq in Hi. injection Hi as <-. split_and!; [done | done | blk; lia |].
    intros k Hk. replace k with 0 by lia. apply H. blk. lia.
  - intros j Hj. rewrite H by done. destruct (Z.eqb_spec j 0) as [->|]; [|done].
    intros _. exists 0, 1. by rewrite lookup_insert_eq.
Qed.

Lemma block0_stable m p n :
  only_block0 m -> block_addr 0 <= p -> p + n <= block_addr 1 -> stable_range (ready m) p n.
Proof.
  intros H ?? a Ha. split; [blk; lia|]. intros b Hb Hf. rewrite block0_entry in Hf by done. breflect.
  unfold in_block. blk. lia.
Qed.

Lemma block0_free m : only_block0 m -> exists k, in_heap k /\ entry_is_free (ready m) k = true.
Proof. intros H. exists 1. assert (in_heap 1) by (blk; lia). split; [done|]. by rewrite block0_entry. Qed.

Lemma block0_budget m : only_block0 m -> kheap_num_free_blocks (ready m) = 25599.
Proof.
  intros H. rewrite (num_free_take (ready ∅) (ready m) 0 1); [| apply ready_ok | apply ready_ok | lia | lia | blk; lia | |].
  - unfold kheap_num_free_blocks. rewrite (count_free_const true); [reflexivity|].
    intros k Hk. change (num_entries _) with HEAP_BLOCKS in Hk.
    apply (rep_free _ _ _ ready_rep); [lia|]. intros (? & ? & E & _). by rewrite lookup_empty in E.
  - intros k Hk. replace k with 0 by lia. split; [reflexivity|]. by rewrite block0_entry by (done || blk; lia).
  - intros k Hk Hne. rewrite block0_entry by done. rewrite (proj2 (Z.eqb_neq k 0)) by lia. symmetry.
    apply (rep_free _ _ _ ready_rep Hk). intros (? & ? & E & _). by rewrite lookup_empty in E.
Qed.

(** Writes into block 0 of a RAM where it is taken. *)
Definition block0_ram : ram := wr8 ∅ KHEAP_TABLE_ADDR 65.

Lemma block0_only : only_block0 block0_ram.
Proof.
  intros k Hk. unfold block0_ram. rewrite rd8_wr8. destruct (Z.eqb_spec k 0) as [->|]; [reflexivity|].
  rewrite (proj2 (Z.eqb_neq KHEAP_TABLE_ADDR (KHEAP_TABLE_ADDR + k))) by lia. unfold rd8. by rewrite lookup_empty.
Qed.

Lemma only_block0_wr8 m a v : only_block0 m -> block_addr 0 <= a -> only_block0 (wr8 m a v).
Proof. intros H Ha k Hk. rewrite rd8_wr8_ne by (blk; lia). by apply H. Qed.

Lemma only_block0_wr32 m a v : only_block0 m -> block_addr 0 <= a -> only_block0 (wr32 m a v).
Proof. intros H Ha k Hk. rewrite rd8_wr32 by (blk; lia). by apply H. Qed.

#[export] Hint Resolve block0_only only_block0_wr8 only_block0_wr32 : amog.
