(* ===== verification/Disk.v ===== *)
(** * disk/disk.c and disk/streamer.c: the ATA driver and byte streams

    The driver talks to an ATA controller through ports; the controller is
    modelled by the registers the driver programs and the transfer in
    progress.  The contents of the disk, the number of polls the controller
    stays busy before a sector, and the addresses of statics and of locals whose
    address is taken are the parameters [Platform]. *)
From Stdlib Require Import ZArith Lia String.
From stdpp Require Import base numbers gmap list strings.
From S2P Require Import Prelude Config Memory Machine Console Kheap Paging Blocks.
Local Open Scope Z_scope.

Class Platform := {
  disk_image : Z -> Z;      (** the byte at an offset of the disk *)
  ata_latency : nat;        (** polls answered busy before each sector *)
  disk_addr : Z;            (** [&disk] *)
  fat16_fs_addr : Z;        (** [&fat16_fs] *)
  stack_entry : Z;          (** the local [entry] of fat16_get_total_items_in_dir *)
  stack_result : Z;         (** the local [result] of fat16_get_fat_entry *)
  stack_name : Z;           (** the local [tmp_filename] of fat16_find_item_in_dir_by_name *)
  scan_fuel : nat;          (** bound for the scan of a directory *)
  beyond : Z -> Z }.        (** the word at an index outside of an array of pointers *)

Record ata := mk_ata {
  ata_count : Z; ata_lba_low : Z; ata_lba_mid : Z; ata_lba_high : Z; ata_drive : Z;
  ata_pos : Z;              (** byte offset of the next word of the transfer *)
  ata_left : Z;             (** bytes left in the transfer *)
  ata_busy : nat }.         (** polls until the next sector is ready *)

(** [struct disk]; [fs] and [fs_private] are pointers. *)
Record disk := mk_disk { id : Z; type : Z; sector_size : Z; fs : Z; fs_private : Z }.

Definition DISK_TYPE_REAL : Z := 0.

(** The machine, the controller and the static [disk]. *)
Record dstate := mk_dstate { d_mach : machine; d_ata : ata; d_disk : disk }.

Definition set_mach (m : machine) (s : dstate) : dstate := mk_dstate m (d_ata s) (d_disk s).
Definition set_ata (a : ata) (s : dstate) : dstate := mk_dstate (d_mach s) a (d_disk s).
Definition set_disk (d : disk) (s : dstate) : dstate := mk_dstate (d_mach s) (d_ata s) d.

(** A computation of the layers below, on the machine. *)
Definition mach {A} (m : M machine A) : M dstate A := zoom d_mach set_mach m.

Lemma wp_mach {A} (m : M machine A) s Q :
  wp m (d_mach s) (fun a t => Q a (set_mach t s)) -> wp (mach m) s Q.
Proof. apply wp_zoom. Qed.

(** Symbolic steps of the disk layer. *)
Ltac wpd :=
  repeat first
    [ wp_step
    | match goal with |- wp (mach _) _ _ => apply wp_mach end
    | match goal with
      | |- wp (load8 _) _ _ => apply wp_gets
      | |- wp (load32 _) _ _ => apply wp_gets
      | |- wp (store8 _ _) _ _ => apply wp_modify
      | |- wp (store32 _ _) _ _ => apply wp_modify
      end ].

Section disk.
Context {plat : Platform}.

(** ** The controller *)

Definition ata_lba (d : ata) : Z :=
  Z.land (ata_drive d) 15 * 16777216 + ata_lba_high d * 65536 + ata_lba_mid d * 256 + ata_lba_low d.

Definition ata_write (port v : Z) (d : ata) : ata :=
  let '(mk_ata c l m h dr pos lft busy) := d in
  let v := u8 v in
  if port =? 0x1F2 then mk_ata v l m h dr pos lft busy
  else if port =? 0x1F3 then mk_ata c v m h dr pos lft busy
  else if port =? 0x1F4 then mk_ata c l v h dr pos lft busy
  else if port =? 0x1F5 then mk_ata c l m v dr pos lft busy
  else if port =? 0x1F6 then mk_ata c l m h v pos lft busy
  else if (port =? 0x1F7) && (v =? 0x20)
  then mk_ata c l m h dr (ata_lba d * 512) ((if c =? 0 then 256 else c) * 512) ata_latency
  else d.

(** The status register: busy, or ready with a data request while a transfer
    is going on. *)
Definition ata_status (d : ata) : Z * ata :=
  let '(mk_ata c l m h dr pos lft busy) := d in
  match busy with
  | S k => (0x80, mk_ata c l m h dr pos lft k)
  | O => (if 0 <? lft then 0x58 else 0x50, d)
  end.

Definition ata_data (d : ata) : Z * ata :=
  let '(mk_ata c l m h dr pos lft busy) := d in
  (u8 (disk_image pos) + 256 * u8 (disk_image (pos + 1)),
   mk_ata c l m h dr (pos + 2) (lft - 2) (if (lft - 2) mod 512 =? 0 then ata_latency else busy)).

Definition port_io_out_byte (port v : Z) : M dstate unit :=
  modify (fun s => set_ata (ata_write port v (d_ata s)) s).
Definition port_io_input_status : M dstate Z :=
  fun s => let '(v, d) := ata_status (d_ata s) in Ret v (set_ata d s).
Definition port_io_input_word : M dstate Z :=
  fun s => let '(v, d) := ata_data (d_ata s) in Ret v (set_ata d s).

(** ** The driver *)

(** [while (!(port_io_input_byte(0x1F7) & 0x08))]. *)
Fixpoint poll (fuel : nat) : M dstate unit :=
  match fuel with
  | O => spin
  | S fuel =>
    v ← port_io_input_status;
    if Z.land v 0x08 =? 0 then poll fuel else mret tt
  end.

(** The word loop of one sector. *)
Fixpoint read_words (n : nat) (ptr : Z) : M dstate Z :=
  match n with
  | O => mret ptr
  | S n =>
    w ← port_io_input_word;
    mach (modify (on_ram (fun m => wr16 m ptr w)));;
    read_words n (u32 (ptr + 2))
  end.

(** The sector loop.  The fuel of the poll is one more than the polls the
    controller still answers busy. *)
Fixpoint read_loop (n : nat) (ptr : Z) : M dstate unit :=
  match n with
  | O => mret tt
  | S n =>
    busy ← gets (fun s => ata_busy (d_ata s));
    poll (S busy);;
    ptr ← read_words (Z.to_nat (DISK_SECTOR_SIZE / 2)) ptr;
    read_loop n ptr
  end.

Definition disk_err_msg : list Z := chars "ERROR: non zero disk index not supported yet" ++ [10].

Definition disk_read_sectors (idisk start_lba count buffer : Z) : M dstate Z :=
  if negb (idisk =? disk_addr) then
    mach (modify (print disk_err_msg));; mret (- STATUS_IO_ERROR)
  else
    port_io_out_byte 0x1F6 (Z.lor (Z.shiftr start_lba 24) 0xE0);;
    port_io_out_byte 0x1F2 count;;
    port_io_out_byte 0x1F3 (Z.land start_lba 0xFF);;
    port_io_out_byte 0x1F4 (Z.shiftr start_lba 8);;
    port_io_out_byte 0x1F5 (Z.shiftr start_lba 16);;
    port_io_out_byte 0x1F7 0x20;;
    read_loop (Z.to_nat count) buffer;;
    mret 0.

Definition get_disk (index : Z) : M dstate Z :=
  if negb (index =? 0) then mach (modify (print disk_err_msg));; mret 0
  else mret disk_addr.

(** ** Streams

    [struct disk_stream] is two words in the heap: the disk and the byte
    offset. *)
Definition SIZEOF_DISK_STREAM : Z := 8.

Definition disk_stream_new (disk_id : Z) : M dstate Z :=
  disk ← get_disk disk_id;
  if disk =? 0 then mret 0
  else
    stream ← mach (kzalloc SIZEOF_DISK_STREAM);
    mach (store32 stream disk);;
    mach (store32 (stream + 4) 0);;
    mret stream.

Definition disk_stream_seek (stream pos : Z) : M dstate Z :=
  mach (store32 (stream + 4) pos);; mret 0.

(** [disk->sector_size] through a pointer. *)
Definition disk_sector_size (disk : Z) (s : dstate) : Z :=
  if disk =? disk_addr then sector_size (d_disk s) else i32 (rd32 (m_ram (d_mach s)) (u32 (disk + 8))).

(** The copy loop; [fuel] bounds its iterations. *)
Fixpoint stream_loop (fuel : nat) (stream disk buf e out_buf : Z) : M dstate Z :=
  match fuel with
  | O => spin
  | S fuel =>
    byte_offset ← mach (load32 (stream + 4));
    if byte_offset <? e then
      ss ← gets (disk_sector_size disk);
      let lba := byte_offset / u32 ss in
      let lba_offset := byte_offset mod u32 ss in
      let to_copy := i32 (e - byte_offset) in
      let to_copy := if u32 ss <? u32 (lba_offset + to_copy) then i32 (ss - lba_offset) else to_copy in
      ret ← disk_read_sectors disk (i32 lba) 1 buf;
      if negb (ret =? 0) then mret ret
      else
        mach (modify (on_ram (memcpy out_buf (u32 (buf + lba_offset)) (u32 to_copy))));;
        byte_offset ← mach (load32 (stream + 4));
        mach (store32 (stream + 4) (u32 (byte_offset + to_copy)));;
        stream_loop fuel stream disk buf e (u32 (out_buf + to_copy))
    else mret 0
  end.

(** Each iteration but the last ends on a sector boundary, so [size / 512 + 3]
    iterations suffice for sectors of 512 bytes. *)
Definition disk_stream_read (stream out_buf size : Z) : M dstate Z :=
  disk ← mach (load32 stream);
  ss ← gets (disk_sector_size disk);
  buf ← mach (kzalloc (u32 ss));
  byte_offset ← mach (load32 (stream + 4));
  let e := u32 (byte_offset + size) in
  ret ← stream_loop (Z.to_nat (size / 512 + 3)) stream disk buf e out_buf;
  mach (kfree buf);;
  mret ret.

Definition disk_stream_close (stream : Z) : M dstate unit := mach (kfree stream);; mret tt.

(** ** Reading sectors *)

(** The transfer in progress. *)
Definition xfer (s : dstate) (pos lft : Z) : Prop := ata_pos (d_ata s) = pos /\ ata_left (d_ata s) = lft.

(** [filled s s' p n pos]: [s'] is [s] with [n] bytes of the disk, from [pos],
    copied to RAM at [p]; controller aside nothing else changed. *)
Definition filled (s s' : dstate) (p n pos : Z) : Prop :=
  d_disk s' = d_disk s /\ exists m, d_mach s' = set_ram m (d_mach s) /\
  forall a, rd8 m a = if (p <=? a) && (a <? p + n) then u8 (disk_image (pos + (a - p)))
                      else rd8 (m_ram (d_mach s)) a.

Lemma filled_nil s p pos : filled s s p 0 pos.
Proof.
  split; [done|]. exists (m_ram (d_mach s)). split; [by destruct (d_mach s)|].
  intros a. by repeat case_test; try lia.
Qed.

Lemma filled_app s s1 s2 p n1 n2 pos :
  0 <= n1 -> 0 <= n2 -> filled s s1 p n1 pos -> filled s1 s2 (p + n1) n2 (pos + n1) -> filled s s2 p (n1 + n2) pos.
Proof.
  intros ?? (D1 & m1 & M1 & H1) (D2 & m2 & M2 & H2). split; [congruence|].
  exists m2. split; [by rewrite M2, M1|]. intros a. rewrite H2, M1. cbn [set_ram m_ram]. rewrite H1.
  repeat case_test; cbn; try lia; try done. do 2 f_equal. lia.
Qed.

Lemma poll_spec n : forall s,
  ata_busy (d_ata s) = n -> 0 < ata_left (d_ata s) ->
  wp (poll (S n)) s (fun _ s' => xfer s' (ata_pos (d_ata s)) (ata_left (d_ata s)) /\
    d_mach s' = d_mach s /\ d_disk s' = d_disk s).
Proof.
  induction n as [|n IH]; intros [mc [c l m h dr pos lft busy] dk] Hb Hl; cbn in Hb, Hl; subst busy.
  - by destruct lft.
  - apply (IH (mk_dstate mc (mk_ata c l m h dr pos lft n) dk)); done.
Qed.

Lemma wp_input_word mc d dk Q :
  Q (fst (ata_data d)) (mk_dstate mc (snd (ata_data d)) dk) -> wp port_io_input_word (mk_dstate mc d dk) Q.
Proof. unfold wp, port_io_input_word. cbn [d_ata]. by destruct (ata_data d). Qed.

Lemma read_words_spec n : forall s ptr pos lft,
  xfer s pos lft -> 0 <= ptr < 4294967296 -> ptr + 2 * Z.of_nat n <= 4294967296 ->
  wp (read_words n ptr) s (fun p s' => p = u32 (ptr + 2 * Z.of_nat n) /\
    xfer s' (pos + 2 * Z.of_nat n) (lft - 2 * Z.of_nat n) /\ filled s s' ptr (2 * Z.of_nat n) pos).
Proof.
  induction n as [|n IH]; intros s ptr pos lft [Hp Hl] Hlo Hhi.
  { cbn [read_words]. apply wp_ret. rewrite u32_small by lia. split; [lia|]. split; [split; lia|]. apply filled_nil. }
  destruct s as [mc [c l m h dr pos' lft' busy] dk]. cbn in Hp, Hl. subst pos' lft'.
  cbn [read_words]. wp_step. apply wp_input_word. cbn [ata_data fst snd]. wpd.
  set (s1 := set_mach _ _).
  assert (F1 : filled (mk_dstate mc (mk_ata c l m h dr pos lft busy) dk) s1 ptr 2 pos).
  { split; [done|]. eexists. split; [reflexivity|]. intros a. cbn [m_ram d_mach]. unfold wr16. rewrite !rd8_wr8.
    pose proof (u8_range (disk_image pos)). pose proof (u8_range (disk_image (pos + 1))).
    repeat case_test; cbn; try lia; try done.
    - replace (pos + (a - ptr)) with (pos + 1) by lia. unfold u8 in *. zlia.
    - replace (pos + (a - ptr)) with pos by lia. unfold u8 in *. zlia. }
  assert (X1 : xfer s1 (pos + 2) (lft - 2)) by done. clearbody s1.
  destruct n as [|n].
  { cbn [read_words]. apply wp_ret. split; [f_equal; lia|]. split; [destruct X1; split; lia | done]. }
  rewrite (u32_small (ptr + 2)) by lia.
  wp_apply (IH s1 (ptr + 2) (pos + 2) (lft - 2) X1); [lia | lia |].
  intros p s' (-> & X2 & F2). split; [f_equal; lia|]. split; [destruct X2; split; lia|].
  replace (2 * Z.of_nat (S (S n))) with (2 + 2 * Z.of_nat (S n)) by lia. by apply (filled_app _ s1); try lia.
Qed.

Lemma read_loop_spec n : forall s ptr pos,
  xfer s pos (512 * Z.of_nat n) -> 0 <= ptr < 4294967296 -> ptr + 512 * Z.of_nat n <= 4294967296 ->
  wp (read_loop n ptr) s (fun _ s' => filled s s' ptr (512 * Z.of_nat n) pos).
Proof.
  induction n as [|n IH]; intros s ptr pos [Hp Hl] Hlo Hhi; cbn [read_loop].
  { apply wp_ret. apply filled_nil. }
  wp_steps. wp_apply (poll_spec (ata_busy (d_ata s)) s eq_refl ltac:(lia)).
  intros _ s1 (X1 & M1 & D1). rewrite Hp, Hl in X1. wp_step. change (Z.to_nat (DISK_SECTOR_SIZE / 2)) with 256%nat.
  wp_apply (read_words_spec 256 s1 ptr pos _ X1); [lia | lia |]. intros p s2 (-> & X2 & F2).
  assert (F : filled s s2 ptr 512 pos).
  { destruct F2 as (D2 & m2 & E2 & H2). split; [congruence|]. exists m2. rewrite <- M1. done. }
  change (2 * Z.of_nat 256) with 512 in *. destruct n as [|n].
  { cbn [read_loop]. apply wp_ret. exact F. }
  rewrite u32_small by lia.
  wp_apply (IH s2 (ptr + 512) (pos + 512)); [destruct X2; split; lia | lia | lia |].
  intros _ s3 F3. replace (512 * Z.of_nat (S (S n))) with (512 + 512 * Z.of_nat (S n)) by lia.
  by apply (filled_app _ s2); try lia.
Qed.

(** What the controller makes of the registers the driver writes. *)
Lemma programmed_lba lba :
  0 <= lba < 268435456 ->
  Z.land (u8 (Z.lor (Z.shiftr lba 24) 0xE0)) 15 * 16777216 + u8 (Z.shiftr lba 16) * 65536 +
  u8 (Z.shiftr lba 8) * 256 + u8 (Z.land lba 0xFF) = lba.
Proof.
  intros Hlba. rewrite !Z.shiftr_div_pow2 by lia. change 0xFF with (2 ^ 8 - 1). rewrite land_low by lia.
  change 15 with (2 ^ 4 - 1). rewrite land_low by lia. rewrite Z.lor_comm, (lor_disjoint 0xE0 _ 4); [|lia|done|zlia].
  unfold u8. change (2 ^ 4) with 16. change (2 ^ 8) with 256. change (2 ^ 16) with 65536.
  change (2 ^ 24) with 16777216. zlia.
Qed.

(** The driver copies the sectors asked for, and writes nothing else. *)
Lemma disk_read_sectors_spec s lba count buf :
  0 <= lba < 268435456 -> 0 < count < 256 -> 0 <= buf < 4294967296 -> buf + 512 * count <= 4294967296 ->
  wp (disk_read_sectors disk_addr lba count buf) s (fun r s' =>
    r = 0 /\ filled s s' buf (512 * count) (512 * lba)).
Proof.
  intros Hl Hc Hb Hhi. unfold disk_read_sectors. rewrite Z.eqb_refl. cbn [negb].
  destruct s as [mc [c l m h dr pos lft busy] dk]. unfold port_io_out_byte. wp_steps.
  cbn [set_ata d_ata d_mach d_disk ata_write Z.eqb Pos.eqb andb].
  change (u8 0x20 =? 0x20) with true. rewrite (u8_small count) by lia. rewrite (proj2 (Z.eqb_neq count 0)) by lia. cbn [andb].
  set (s1 := set_ata _ _).
  wp_apply (read_loop_spec (Z.to_nat count) s1 buf (512 * lba)); try lia.
  { split; subst s1; unfold ata_lba; cbn [set_ata d_ata ata_pos ata_left ata_drive ata_lba_high ata_lba_mid ata_lba_low];
      [rewrite programmed_lba by lia; lia | lia]. }
  intros _ s' F. rewrite Z2Nat.id in F by lia. apply wp_ret. split; [done|]. exact F.
Qed.

(** ** Reading a stream *)

Section stream.
Context (sp buf : Z).
Context (Hsp : 0 <= sp /\ sp + 8 <= 4294967296) (Hbuf : 0 <= buf /\ buf + 512 <= 4294967296).
Context (Hsb : sp + 8 <= buf \/ buf + 512 <= sp).

(** The destination [out, out + n) touches neither the stream nor the sector
    buffer. *)
Definition dest_ok (out n : Z) : Prop :=
  0 <= out /\ out + n < 4294967296 /\ (out + n <= sp \/ sp + 8 <= out) /\ (out + n <= buf \/ buf + 512 <= out).

(** [n] bytes were delivered from offset [off] of the disk to [out]. *)
Definition streamed (s s' : dstate) (out off n : Z) : Prop :=
  d_disk s' = d_disk s /\ exists m, d_mach s' = set_ram m (d_mach s) /\ rd32 m (sp + 4) = off + n /\
  (forall a, out <= a < out + n -> rd8 m a = u8 (disk_image (off + (a - out)))) /\
  (forall a, a < out \/ out + n <= a -> a < buf \/ buf + 512 <= a -> a < sp + 4 \/ sp + 8 <= a ->
     rd8 m a = rd8 (m_ram (d_mach s)) a).

Lemma streamed_app s s1 s2 out off n1 n2 :
  0 <= n1 -> 0 <= n2 -> dest_ok out (n1 + n2) ->
  streamed s s1 out off n1 -> streamed s1 s2 (out + n1) (off + n1) n2 -> streamed s s2 out off (n1 + n2).
Proof.
  intros ?? (? & ? & ? & ?) (D1 & m1 & M1 & O1 & I1 & F1) (D2 & m2 & M2 & O2 & I2 & F2).
  rewrite M1 in F2. cbn [set_ram m_ram] in F2.
  split; [congruence|]. exists m2. split_and!; [by rewrite M2, M1 | lia | |].
  - intros a Ha. destruct (decide (a < out + n1)).
    + rewrite F2 by lia. apply I1. lia.
    + rewrite I2 by lia. do 2 f_equal. lia.
  - intros a ???. rewrite F2, F1 by lia. done.
Qed.

(** One iteration: a sector is read into the buffer, its part is copied out
    and the offset advances. *)
Lemma stream_step s out off n (K : M dstate Z) Q :
  rd32 (m_ram (d_mach s)) (sp + 4) = off -> 0 <= off -> off + n < 4294967296 -> 0 < n ->
  off mod 512 + n <= 512 -> dest_ok out n ->
  (forall s', streamed s s' out off n -> wp K s' Q) ->
  wp (disk_read_sectors disk_addr (i32 (off / 512)) 1 buf) s (fun ret s1 =>
    wp (if negb (ret =? 0) then mret ret
        else
          mach (modify (on_ram (memcpy out (u32 (buf + off mod 512)) (u32 n))));;
          byte_offset ← mach (load32 (sp + 4));
          mach (store32 (sp + 4) (u32 (byte_offset + n)));;
          K) s1 Q).
Proof.
  intros Hoff Hlo Hhi Hn Hsec (Ho1 & Ho2 & Ho3 & Ho4) HK. rewrite i32_small by zlia.
  wp_apply (disk_read_sectors_spec s (off / 512) 1 buf); [zlia | lia | lia | lia |].
  intros r s1 (-> & D1 & m1 & M1 & F1). cbn [Z.eqb negb]. change (512 * 1) with 512 in *. wpd.
  rewrite (u32_small n), (u32_small (buf + off mod 512)) by zlia. apply HK. split; [done|].
  cbn [set_mach d_mach]. rewrite M1. cbn [on_ram set_ram m_ram m_con m_heap d_mach set_mach].
  assert (Hm : forall a, rd8 (memcpy out (buf + off mod 512) n m1) a =
    if (out <=? a) && (a <? out + n) then u8 (disk_image (off + (a - out)))
    else rd8 m1 a).
  { intros a. rewrite rd8_memcpy by zlia. destruct (_ && _) eqn:E; [|done]. breflect. rewrite F1.
    rewrite (proj2 (Z.leb_le _ _)), (proj2 (Z.ltb_lt _ _)) by zlia. cbn [andb]. do 2 f_equal. zlia. }
  assert (Hrd : rd32 (memcpy out (buf + off mod 512) n m1) (sp + 4) = off).
  { etrans; [|exact Hoff]. apply rd32_ext. intros a Ha. rewrite Hm, F1. by repeat case_test; try lia. }
  rewrite Hrd, u32_small by lia.
  eexists. split; [reflexivity|]. split_and!.
  - rewrite rd32_wr32. apply u32_small. lia.
  - intros a Ha. rewrite rd8_wr32, Hm by lia. by repeat case_test; try lia.
  - intros a ???. rewrite rd8_wr32, Hm, F1 by lia. by repeat case_test; try lia.
Qed.

Lemma chunk_size off e :
  0 <= off < e -> e < 4294967296 ->
  (if 512 <? u32 (off mod 512 + i32 (e - off)) then i32 (512 - off mod 512) else i32 (e - off))
  = Z.min (e - off) (512 - off mod 512).
Proof.
  intros ??. replace (u32 (off mod 512 + i32 (e - off))) with (off mod 512 + (e - off)).
  - pose proof (Z.mod_pos_bound off 512). case_test; rewrite i32_small; lia.
  - rewrite <- (u32_small (off mod 512 + (e - off))) by zlia. unfold u32, i32. zlia.
Qed.

(** The loop delivers everything up to [e]; the fuel needed is the number of
    sectors touched and one more. *)
Lemma stream_loop_spec fuel : forall s out off e,
  sector_size (d_disk s) = 512 -> rd32 (m_ram (d_mach s)) (sp + 4) = off ->
  0 <= off <= e -> e < 4294967296 -> dest_ok out (e - off) ->
  1 <= Z.of_nat fuel -> (off < e -> (e - 1) / 512 - off / 512 + 2 <= Z.of_nat fuel) ->
  wp (stream_loop fuel sp disk_addr buf e out) s (fun r s' => r = 0 /\ streamed s s' out off (e - off)).
Proof.
  induction fuel as [|fuel IH]; intros s out off e Hss Hoff Hlo Hhi Hd Hf1 Hfuel; [lia|].
  cbn [stream_loop]. wpd. rewrite Hoff. destruct (Z.ltb_spec off e).
  2: { wpd. replace e with off by lia. rewrite Z.sub_diag. split; [done|]. split; [done|].
       exists (m_ram (d_mach s)). split_and!; [by destruct (d_mach s) | lia | intros; lia | done]. }
  wpd. assert (Hds : disk_sector_size disk_addr s = 512) by (unfold disk_sector_size; by rewrite Z.eqb_refl).
  replace (set_mach (d_mach s) s) with s by (by destruct s). rewrite !Hds.
  change (u32 512) with 512. rewrite chunk_size by lia. set (n := Z.min _ _).
  assert (Hn : 0 < n <= e - off /\ off mod 512 + n <= 512 /\ (n < e - off -> (off + n) / 512 = off / 512 + 1)).
  { unfold n. clear Hfuel. zlia. }
  clearbody n. destruct Hd as (? & ? & ? & ?).
  eapply stream_step; try done; try lia; [unfold dest_ok; lia|].
  intros s1 S1. pose proof S1 as (D1 & m1 & M1 & O1 & _). rewrite u32_small by lia.
  wp_apply (IH s1 (out + n) (off + n) e); [by rewrite D1 | by rewrite M1 | lia | lia | unfold dest_ok; lia | zlia | zlia |].
  intros r s2 (-> & S2). split; [done|]. replace (e - off) with (n + (e - (off + n))) by lia.
  apply (streamed_app s s1); try done; try lia. unfold dest_ok; lia.
Qed.
End stream.

(** A stream at [sp], positioned at [off]. *)
Definition stream_at (s : machine) (sp off : Z) : Prop :=
  rd32 (m_ram s) sp = disk_addr /\ rd32 (m_ram s) (sp + 4) = off /\
  0 <= sp /\ sp + 8 <= 4294967296 /\ stable_range s sp 8.

Lemma stream_read_spec s sp out off size :
  heap_ok (d_mach s) -> sector_size (d_disk s) = 512 -> stream_at (d_mach s) sp off ->
  0 < size -> off + size < 4294967296 -> 0 <= out -> out + size < 4294967296 ->
  stable_range (d_mach s) out size -> (out + size <= sp \/ sp + 8 <= out) ->
  (exists k, in_heap k /\ entry_is_free (d_mach s) k = true) ->
  wp (disk_stream_read sp out size) s (fun r s' =>
    r = 0 /\ d_disk s' = d_disk s /\ same_heap (d_mach s) (d_mach s') /\ stream_at (d_mach s') sp (off + size) /\
    (forall a, out <= a < out + size -> rd8 (m_ram (d_mach s')) a = u8 (disk_image (off + (a - out)))) /\
    (forall a, stable (d_mach s) a -> a < out \/ out + size <= a -> a < sp + 4 \/ sp + 8 <= a ->
       rd8 (m_ram (d_mach s')) a = rd8 (m_ram (d_mach s)) a)).
Proof.
  intros Hs Hss (Hd & Ho & Hsp0 & Hsp8 & Hsps) Hsz Hoff Hout0 Hout Houts Hapart [k0 [Hk0 Hf0]].
  unfold disk_stream_read. wpd. rewrite Hd. unfold disk_sector_size. rewrite Z.eqb_refl. cbn [set_mach d_disk].
  rewrite Hss. change (u32 512) with 512.
  wp_apply (kzalloc_page 512 (d_mach s) Hs ltac:(lia)).
  intros p mc1 [(_ & Hno & _)|(i & m & Hi & -> & Hf & -> & Hm)]; [rewrite Hno in Hf0 by done; done|].
  assert (Hkeep := fun a => page_taken_stable _ i 512 m a Hi Hf ltac:(lia) Hm).
  pose proof (stable_apart _ i sp 8 ltac:(lia) Hi Hf Hsps) as Asp.
  pose proof (stable_apart _ i out size Hsz Hi Hf Houts) as Aout.
  assert (Ho1 : rd32 m (sp + 4) = off).
  { rewrite <- Ho. apply rd32_ext. intros a Ha. apply Hkeep, Hsps. lia. }
  pose proof (rd32_range m (sp + 4)) as Hr. rewrite Ho1 in Hr.
  wpd. set (s1 := set_mach (set_ram m (d_mach s)) _). change (rd32 (m_ram (d_mach s1)) (sp + 4)) with (rd32 m (sp + 4)).
  change (set_mach (d_mach s1) s1) with s1. rewrite Ho1, u32_small by lia.
  assert (Hb1 : 0 <= block_addr i /\ block_addr i + 512 <= 4294967296) by (clear - Hi; blk; lia).
  wp_apply (stream_loop_spec sp (block_addr i) (conj Hsp0 Hsp8) Hb1 ltac:(lia)
    (Z.to_nat (size / 512 + 3)) s1 out off (off + size)); try done; try lia.
  { unfold dest_ok. lia. } { zlia. } { zlia. }
  replace (off + size - off) with size by lia.
  intros r s2 (-> & D2 & m2 & M2 & O2 & I2 & F2). change (d_mach s1) with (set_ram m (d_mach s)) in *. change (d_disk s1) with (d_disk s) in *. cbn [set_ram m_ram] in F2.
  wpd. rewrite M2. change (set_ram m2 (set_ram m (d_mach s))) with (set_ram m2 (d_mach s)).
  wp_apply (temp_page_free (d_mach s) i 512 m m2 Hs Hi Hf ltac:(lia) Hm).
  { intros k Hk. pose proof (stable_table _ k out size Hk Houts). pose proof (stable_table _ k sp 8 Hk Hsps).
    apply F2; blk; lia. }
  intros _ mc3 (Hsame & Hend). wpd. cbn [set_mach d_mach d_disk]. 
  assert (Hst : forall a, stable (d_mach s) a -> a < out \/ out + size <= a -> a < sp + 4 \/ sp + 8 <= a ->
    rd8 (m_ram mc3) a = rd8 (m_ram (d_mach s)) a).
  { intros a Ha ??. rewrite Hend by apply Ha. rewrite <- (Hkeep a Ha). apply F2; try done.
    destruct Ha as [_ Ha]. specialize (Ha i Hi Hf). unfold in_block in Ha. lia. }
  split_and!; [done | done | done | | | done].
  - split_and!; try done.
    + rewrite <- Hd. apply rd32_ext. intros a Ha. apply Hst; [apply Hsps; lia | lia | lia].
    + rewrite <- O2. apply rd32_ext. intros a Ha. apply Hend, (Hsps a). lia.
    + intros a Ha. apply (stable_iff (d_mach s) mc3 a (sh_free _ _ Hsame)), Hsps, Ha.
  - intros a Ha. rewrite Hend; [by apply I2 | by apply (Houts a)].
Qed.

(** C20: a stream delivers the bytes of the disk.  disk_stream_read returns 0
    and the [size] bytes of the disk from the stream's offset are in the
    output buffer, the offset has advanced by [size], every block of the heap
    is free exactly if it was, and no other byte that the allocator does not
    own has changed.  This holds for every alignment of the offset and for
    any number of polls the controller stays busy. *)
Theorem disk_stream_read_correct (s : dstate) (sp out off size : Z)
    (Hs : heap_ok (d_mach s)) (Hss : sector_size (d_disk s) = 512) (Hst : stream_at (d_mach s) sp off)
    (Hsz : 0 < size) (Hoff : off + size < 4294967296) (Hlo : 0 <= out) (Hhi : out + size < 4294967296)
    (Hout : stable_range (d_mach s) out size) (Hap : out + size <= sp \/ sp + 8 <= out)
    (Hfree : exists k, in_heap k /\ entry_is_free (d_mach s) k = true) :
  wp (disk_stream_read sp out size) s (fun r s' =>
    r = 0 /\ same_heap (d_mach s) (d_mach s') /\ stream_at (d_mach s') sp (off + size) /\
    (forall a, out <= a < out + size -> rd8 (m_ram (d_mach s')) a = u8 (disk_image (off + (a - out)))) /\
    (forall a, stable (d_mach s) a -> a < out \/ out + size <= a -> a < sp + 4 \/ sp + 8 <= a ->
       rd8 (m_ram (d_mach s')) a = rd8 (m_ram (d_mach s)) a)).
Proof.
  wp_apply (stream_read_spec s sp out off size); try done.
  intros r s' (? & _ & ? & ? & ? & ?). done.
Qed.

(** C33: disk_read_sectors programs the controller with the 28-bit block
    address it is given, and fills exactly [512 * count] bytes of the buffer
    with those sectors of the disk. *)
Theorem disk_read_sectors_correct (s : dstate) (lba count buf : Z)
    (Hl : 0 <= lba < 268435456) (Hc : 0 < count < 256) (Hb : 0 <= buf < 4294967296)
    (Hhi : buf + 512 * count <= 4294967296) :
  wp (disk_read_sectors disk_addr lba count buf) s (fun r s' =>
    r = 0 /\ d_disk s' = d_disk s /\
    forall a, rd8 (m_ram (d_mach s')) a =
      if (buf <=? a) && (a <? buf + 512 * count) then u8 (disk_image (512 * lba + (a - buf)))
      else rd8 (m_ram (d_mach s)) a).
Proof.
  wp_apply (disk_read_sectors_spec s lba count buf); try done.
  intros r s' (-> & D & m & M & F). split_and!; [done | done|]. rewrite M. exact F.
Qed.

End disk.

(** A platform whose disk repeats the bytes 0 .. 255 and whose controller is
    busy for two polls before every sector, and a stream in block 0. *)
Definition test_platform : Platform :=
  {| disk_image := fun x => x; ata_latency := 2; disk_addr := 0x100000; fat16_fs_addr := 0x100100;
     stack_entry := 0x110000; stack_result := 0x110100; stack_name := 0x110200; scan_fuel := 20; beyond := fun _ => 0x100100 |}.

Definition test_ram : ram := wr32 (wr32 block0_ram (block_addr 0) 0x100000) (block_addr 0 + 4) 510.
Definition test_state : dstate := mk_dstate (ready test_ram) (mk_ata 0 0 0 0 0 0 0 0) (mk_disk 0 0 512 0 0).

Lemma test_only : only_block0 test_ram.
Proof. repeat apply only_block0_wr32; try apply block0_only; blk; lia. Qed.

Lemma disk_stream_read_correct_witness :
  exists s', disk_stream_read (plat := test_platform) (block_addr 0) (block_addr 0 + 16) 10 test_state = Ret 0 s' /\
    rd8 (m_ram (d_mach s')) (block_addr 0 + 18) = u8 512.
Proof.
  assert (Hst : stream_at (plat := test_platform) (d_mach test_state) (block_addr 0) 510).
  { split_and!; [reflexivity | reflexivity | blk; lia | blk; lia |]. apply block0_stable; [apply test_only | blk; lia..]. }
  assert (Hfree : exists k, in_heap k /\ entry_is_free (d_mach test_state) k = true).
  { apply block0_free, test_only. }
  destruct (proj1 (wp_run _ _ _) (disk_stream_read_correct (plat := test_platform) test_state (block_addr 0)
    (block_addr 0 + 16) 510 10 (ready_ok _) eq_refl Hst ltac:(lia) ltac:(lia) ltac:(blk; lia) ltac:(blk; lia)
    (block0_stable test_ram (block_addr 0 + 16) 10 test_only ltac:(lia) ltac:(blk; lia)) ltac:(lia) Hfree)) as (r & s' & E & -> & _ & _ & H & _).
  exists s'. split; [exact E|]. rewrite H by lia. reflexivity.
Defined.

Lemma disk_read_sectors_correct_witness :
  exists s', disk_read_sectors (plat := test_platform) 0x100000 0x0ABCDEF 2 0x300000 test_state = Ret 0 s' /\
    rd8 (m_ram (d_mach s')) 0x300001 = 1.
Proof.
  destruct (proj1 (wp_run _ _ _) (disk_read_sectors_correct (plat := test_platform) test_state 0x0ABCDEF 2 0x300000
    ltac:(lia) ltac:(lia) ltac:(lia) ltac:(lia))) as (r & s' & E & -> & _ & H).
  exists s'. split; [exact E|]. rewrite H. reflexivity.
Defined.
