(* ===== verification/Path.v ===== *)
(** * fs/utils.c: paths

    "0:/a/b" is parsed into a heap object: a copy of the string whose
    separators are overwritten by terminators, a [struct path_t] (drive, root)
    and a linked list of [struct path_part] (name, next), one block each. *)
From Stdlib Require Import ZArith Lia String.
From stdpp Require Import base numbers gmap list strings.
From S2P Require Import Prelude Config Memory Strings Machine Console Kheap Paging Blocks.
Local Open Scope Z_scope.

Definition SIZEOF_PATH_T : Z := 8.
Definition SIZEOF_PATH_PART : Z := 8.

(** ['/'] is 47, [':'] is 58. *)
Definition is_path_valid (path : Z) (s : machine) : bool :=
  let m := m_ram s in
  let len := strnlen m path FS_MAX_PATH_LEN in
  (3 <=? len) && is_digit (rdc m path) && (rdc m (u32 (path + 1)) =? 58) && (rdc m (u32 (path + 2)) =? 47).

(** The loop that cuts the copy at its separators, from index [i]. *)
Fixpoint parse_loop (n : nat) (i path_str_copy root : Z) : M machine unit :=
  match n with
  | O => mret tt
  | S n =>
    c ← gets (fun s => rdc (m_ram s) (u32 (path_str_copy + i)));
    if c =? 47 then
      store8 (u32 (path_str_copy + i)) 0;;
      part ← kzalloc SIZEOF_PATH_PART;
      store32 part (u32 (path_str_copy + i + 1));;
      store32 (part + 4) 0;;
      store32 (root + 4) part;;
      parse_loop n (i + 1) path_str_copy part
    else parse_loop n (i + 1) path_str_copy root
  end.

Definition parse_path (path_str : Z) : M machine Z :=
  valid ← gets (is_path_valid path_str);
  if negb valid then mret 0
  else
    drive_no ← gets (fun s => rdc (m_ram s) path_str - 48);
    len ← gets (fun s => strnlen (m_ram s) path_str FS_MAX_PATH_LEN);
    path_str_copy ← kzalloc (len + 1);
    modify (on_ram (memcpy path_str_copy path_str len));;
    store8 (u32 (path_str_copy + len)) 0;;
    path ← kzalloc SIZEOF_PATH_T;
    root ← kzalloc SIZEOF_PATH_PART;
    store32 path drive_no;;
    store32 (path + 4) root;;
    store32 root (u32 (path_str_copy + 3));;
    store32 (root + 4) 0;;
    parse_loop (Z.to_nat (len - 3)) 3 path_str_copy root;;
    mret path.

(** The loop over the parts of a path; [fuel] bounds the length of the
    list. *)
Fixpoint free_parts (fuel : nat) (part : Z) : M machine unit :=
  if part =? 0 then mret tt
  else match fuel with
  | O => spin
  | S fuel =>
    next ← load32 (part + 4);
    kfree part;;
    free_parts fuel next
  end.

(** A path has at most [FS_MAX_PATH_LEN] separators. *)
Definition free_path (path : Z) : M machine unit :=
  root ← load32 (path + 4);
  name ← load32 root;
  kfree name;;
  part ← load32 (path + 4);
  free_parts (Z.to_nat FS_MAX_PATH_LEN) part;;
  kfree path;;
  mret tt.

(** ** What a path means *)

(** The names between the separators. *)
Fixpoint split_path (l : list Z) : list (list Z) :=
  match l with
  | [] => [[]]
  | c :: l =>
    if c =? 47 then [] :: split_path l
    else match split_path l with
         | [] => [[c]]
         | n :: ns => (c :: n) :: ns
         end
  end.

(** The list of parts at [p], in the blocks [bs], carries the [names]. *)
Fixpoint parts_at (m : ram) (p : Z) (names : list (list Z)) (bs : list Z) : Prop :=
  match names, bs with
  | [], [] => p = 0
  | n :: ns, b :: bs =>
    p = block_addr b /\ in_heap b /\ cstr m (rd32 m p) n /\ parts_at m (rd32 m (p + 4)) ns bs
  | _, _ => False
  end.

(** Blocks added to the allocations one after the other, each of them new. *)
Fixpoint add_blocks (bs : list Z) (A : gmap Z Z) : gmap Z Z :=
  match bs with
  | [] => A
  | b :: bs => add_blocks bs (<[b := 1]> A)
  end.

Fixpoint all_new (bs : list Z) (A : gmap Z Z) : Prop :=
  match bs with
  | [] => True
  | b :: bs => A !! b = None /\ all_new bs (<[b := 1]> A)
  end.

Lemma split_path_cons l : exists n ns, split_path l = n :: ns.
Proof.
  induction l as [|c l (n & ns & IH)]; cbn [split_path]; [eauto|].
  destruct (c =? 47); [eauto|]. rewrite IH. eauto.
Qed.

Lemma length_split_path l : length (split_path l) = S (length (filter (fun c => c = 47) l)).
Proof.
  induction l as [|c l IH]; [done|]. cbn [split_path]. destruct (Z.eqb_spec c 47) as [->|Hc].
  - rewrite filter_cons_True by done. cbn [length]. by rewrite IH.
  - rewrite filter_cons_False by done. destruct (split_path_cons l) as (n & ns & E). rewrite E in *. exact IH.
Qed.

(** ** Parsing *)

(** One separator: the string is cut, and a new part hangs below [root]. *)
Record part_added (s s3 : machine) (A : gmap Z Z) (b at_ root : Z) : Prop := {
  pa_heap : in_heap b /\ entry_is_free s b = true /\ A !! b = None;
  pa_rep : heap_rep s3 (<[b := 1]> A);
  pa_count : kheap_num_free_blocks s3 = kheap_num_free_blocks s - 1;
  pa_used : entry_is_free s3 b = false;
  pa_mono : forall k, in_heap k -> entry_is_free s3 k = true -> entry_is_free s k = true;
  pa_cut : rd8 (m_ram s3) at_ = 0;
  pa_name : rd32 (m_ram s3) (block_addr b) = at_ + 1;
  pa_next : rd32 (m_ram s3) (block_addr b + 4) = 0;
  pa_link : rd32 (m_ram s3) (root + 4) = block_addr b;
  pa_keep : forall a, stable s a -> a <> at_ -> a < root + 4 \/ root + 8 <= a ->
    rd8 (m_ram s3) a = rd8 (m_ram s) a }.

Ltac wpm := repeat first
  [ wp_step
  | match goal with
    | |- wp (load8 _) _ _ => apply wp_gets
    | |- wp (load32 _) _ _ => apply wp_gets
    | |- wp (store8 _ _) _ _ => apply wp_modify
    | |- wp (store32 _ _) _ _ => apply wp_modify
    end ].

Lemma part_step s A at_ r0 (K : Z -> M machine unit) Q :
  heap_rep s A -> 0 < kheap_num_free_blocks s -> 0 <= at_ < 4294967295 -> stable s at_ ->
  in_heap r0 -> entry_is_free s r0 = false -> at_ < block_addr r0 \/ block_addr r0 + 8 <= at_ ->
  (forall b s3, part_added s s3 A b at_ (block_addr r0) -> wp (K (block_addr b)) s3 Q) ->
  wp (store8 at_ 0;;
      part ← kzalloc SIZEOF_PATH_PART;
      store32 part (u32 (at_ + 1));;
      store32 (part + 4) 0;;
      store32 (block_addr r0 + 4) part;;
      K part) s Q.
Proof.
  intros HR Hn Hat Hst Hr0 Hur0 Hap HK. pose proof HR as (Hs & _). wpm.
  set (s1 := on_ram _ s).
  assert (Ht1 : same_table s (m_ram s1)).
  { intros k Hk. apply rd8_wr8_ne. destruct Hst. blk. lia. }
  assert (HR1 : heap_rep s1 A) by (by apply heap_rep_ram).
  assert (Hf1 : forall k, in_heap k -> entry_is_free s1 k = entry_is_free s k) by (intros; by apply same_table_free).
  wp_apply (kzalloc_obj s1 A SIZEOF_PATH_PART HR1); [done | rewrite (num_free_ext s s1); done |].
  intros p s2 (b & m & -> & Hb & Hfb & -> & Hm & HA & HR2 & Hn2). rewrite (num_free_ext s s1) in Hn2 by done.
  wpm. apply HK. clear HK. rewrite Hf1 in Hfb by done.
  assert (Hbr : b <> r0) by (intros ->; congruence).
  assert (Hab : ~ in_block b at_) by (by apply (proj2 Hst)).
  set (m3 := wr32 (wr32 (wr32 m (block_addr b) (u32 (at_ + 1))) (block_addr b + 4) 0) (block_addr r0 + 4) (block_addr b)).
  set (s3 := on_ram _ _). change (m_ram s3) with m3. change s3 with (set_ram m3 (set_ram m s1)).
  assert (Ht3 : same_table (set_ram m s1) m3).
  { intros k Hk. unfold m3. rewrite !rd8_wr32 by (blk; lia). done. }
  assert (Hf3 : forall k, in_heap k -> entry_is_free (set_ram m3 (set_ram m s1)) k = if k =? b then false else entry_is_free s k).
  { intros k Hk. rewrite same_table_free by done. rewrite (page_taken_free s1 b SIZEOF_PATH_PART) by done. by rewrite Hf1. }
  assert (Hrd : forall a, a < block_addr b \/ block_addr b + 8 <= a -> a < block_addr r0 + 4 \/ block_addr r0 + 8 <= a ->
    rd8 m3 a = if a =? KHEAP_TABLE_ADDR + b then 65 else if at_ =? a then 0 else rd8 (m_ram s) a).
  { intros a ??. unfold m3. rewrite !rd8_wr32 by lia. rewrite Hm. change (m_ram s1) with (wr8 (m_ram s) at_ 0).
    rewrite rd8_wr8. unfold SIZEOF_PATH_PART. by repeat case_test; try lia. }
  unfold in_block in Hab. split.
  - done.
  - by apply heap_rep_ram.
  - rewrite <- Hn2. apply num_free_ext; [done | done |]. intros. by apply same_table_free.
  - by rewrite Hf3, Z.eqb_refl.
  - intros k Hk. rewrite Hf3 by done. by destruct (Z.eqb_spec k b).
  - rewrite Hrd by (blk; lia). rewrite Z.eqb_refl. destruct Hst. rewrite (proj2 (Z.eqb_neq at_ _)) by (blk; lia). done.
  - cbn [set_ram m_ram]. unfold m3. rewrite !rd32_wr32_ne, rd32_wr32 by (blk; lia). rewrite u32_small by apply u32_range. apply u32_small. lia.
  - cbn [set_ram m_ram]. unfold m3. rewrite rd32_wr32_ne, rd32_wr32 by (blk; lia). done.
  - cbn [set_ram m_ram]. unfold m3. rewrite rd32_wr32. apply u32_small. blk. lia.
  - intros a [Ha1 Ha2] ??. specialize (Ha2 b Hb Hfb). unfold in_block in Ha2.
    rewrite Hrd by (blk; lia). rewrite !(proj2 (Z.eqb_neq _ _)) by (blk; lia). done.
Qed.

(** The whole loop on the remaining characters [l] of the copy. *)
Lemma parse_loop_spec l : forall s A i copy p r0, p = copy + i ->
  heap_rep s A -> cstr (m_ram s) p l -> stable_range s p (Z.of_nat (length l) + 1) ->
  in_heap r0 -> entry_is_free s r0 = false -> rd32 (m_ram s) (block_addr r0 + 4) = 0 ->
  (p + Z.of_nat (length l) < block_addr r0 \/ block_addr r0 + 8 <= p) ->
  Z.of_nat (length (filter (fun c => c = 47) l)) <= kheap_num_free_blocks s ->
  wp (parse_loop (length l) i copy (block_addr r0)) s (fun _ s' => exists n ns bs,
    split_path l = n :: ns /\ all_new bs A /\ heap_rep s' (add_blocks bs A) /\ Z.of_nat (length bs) = Z.of_nat (length ns) /\
    kheap_num_free_blocks s' = kheap_num_free_blocks s - Z.of_nat (length bs) /\
    (forall k, in_heap k -> entry_is_free s' k = true -> entry_is_free s k = true) /\
    cstr (m_ram s') p n /\ parts_at (m_ram s') (rd32 (m_ram s') (block_addr r0 + 4)) ns bs /\
    (forall a, stable s a -> a < p \/ p + Z.of_nat (length l) <= a ->
       a < block_addr r0 + 4 \/ block_addr r0 + 8 <= a -> rd8 (m_ram s') a = rd8 (m_ram s) a)).
Proof.
  induction l as [|c l IH]; intros s A i copy p r0 Ep HR Hc Hst Hr0 Hu Hnx Hap Hcnt; cbn [parse_loop length].
  { wpm. exists [], [], []. cbn [length]. split_and!; done || lia. }
  apply cstr_cons in Hc as (Hp & Hc0 & Hrd & Hc). pose proof Hc as (_ & Hend & _). cbn [length] in *.
  wpm. rewrite <- Ep, u32_small by lia. rewrite Hrd. destruct (Z.eqb_spec c 47) as [->|Hne].
  - rewrite filter_cons_True in Hcnt by done. cbn [length] in Hcnt.
    eapply part_step; try done; [lia | lia | apply Hst; lia | lia |].
    intros b s3 [(Hb & Hfb & HAb) HR3 Hn3 Hub Hmono Hcut Hname Hnext Hlink Hkeep].
    assert (Hst3 : forall a, stable s a -> stable s3 a) by (intros a; by apply stable_mono).
    pose proof (stable_apart s b p (Z.of_nat (S (length l)) + 1) ltac:(lia) Hb Hfb Hst) as Hbap.
    assert (Hbr : b <> r0) by (intros ->; congruence).
    assert (Hr0s : forall a, in_block r0 a -> stable s a) by (intros a; by apply used_stable).
    assert (Hbs : forall a, in_block b a -> stable s3 a) by (intros a; by apply used_stable).
    wp_apply (IH s3 (<[b := 1]> A) (i + 1) copy (p + 1) b); try done; try lia.
    + apply (cstr_ext (m_ram s)); [|done]. intros a Ha. apply Hkeep; [apply Hst; lia | lia | lia].
    + intros a Ha. apply Hst3, Hst. lia.
    + intros _ s' (n & ns & bs & E & Hnew & HR' & Hlen & Hct & Hmn & Hcn & Hpn & Hk').
      cbn [split_path]. rewrite Z.eqb_refl, E.
      assert (Hf1 : forall a, in_block b a -> a < block_addr b + 4 -> rd8 (m_ram s') a = rd8 (m_ram s3) a).
      { intros a Ha ?. apply Hk'; [by apply Hbs | unfold in_block in Ha; lia | lia]. }
      assert (Hl' : rd32 (m_ram s') (block_addr r0 + 4) = block_addr b).
      { rewrite <- Hlink. apply rd32_ext. intros a Ha. apply Hk'; [|lia|blk; lia].
        apply Hst3, Hr0s. unfold in_block. blk. lia. }
      rewrite Hl'. exists [], (n :: ns), (b :: bs). cbn [all_new add_blocks length parts_at]. split_and!; try done; try lia; [by auto | |..].
      * apply cstr_nil; [lia|]. unfold rdc. rewrite Hk'; [by rewrite Hcut | apply Hst3, Hst; lia | lia | blk; lia].
      * replace (rd32 (m_ram s') (block_addr b)) with (p + 1); [done|].
        symmetry. rewrite <- Hname. apply rd32_ext. intros a Ha. apply Hf1; [unfold in_block; blk; lia | lia].
      * intros a Ha ??. rewrite Hk'; [apply Hkeep; [done | lia | lia] | by apply Hst3 | lia |].
        destruct Ha as [_ Ha]. specialize (Ha b Hb Hfb). unfold in_block in Ha. lia.
  - rewrite filter_cons_False in Hcnt by done.
    wp_apply (IH s A (i + 1) copy (p + 1) r0); try done; try lia; [intros a Ha; apply Hst; lia|].
    intros _ s' (n & ns & bs & E & Hnew & HR' & Hlen & Hct & Hmn & Hcn & Hpn & Hk').
    cbn [split_path]. rewrite (proj2 (Z.eqb_neq c 47)), E by done. exists (c :: n), ns, bs. split_and!; try done.
    + apply cstr_cons. split_and!; try done. rewrite <- Hrd. unfold rdc. f_equal.
      apply Hk'; [apply Hst; lia | lia | lia].
    + intros a Ha ??. apply Hk'; [done | lia | done].
Qed.

(** [grown s s' A' n]: [n] blocks were allocated, giving the allocations [A'];
    memory that was stable is untouched. *)
Record grown (s s' : machine) (A' : gmap Z Z) (n : Z) : Prop := {
  gr_rep : heap_rep s' A';
  gr_count : kheap_num_free_blocks s' = kheap_num_free_blocks s - n;
  gr_mono : forall k, in_heap k -> entry_is_free s' k = true -> entry_is_free s k = true;
  gr_keep : forall a, stable s a -> rd8 (m_ram s') a = rd8 (m_ram s) a }.

Lemma grown_trans s s1 s2 A1 A2 n1 n2 : grown s s1 A1 n1 -> grown s1 s2 A2 n2 -> grown s s2 A2 (n1 + n2).
Proof.
  intros [R1 C1 M1 K1] [R2 C2 M2 K2]. split; [done | lia | eauto |].
  intros a Ha. rewrite K2, K1; [done | done |]. by eapply stable_mono.
Qed.

(** Allocation of an object followed by writes into it. *)
Lemma obj_grown s A b size m m' :
  heap_rep s A -> in_heap b -> entry_is_free s b = true -> 0 < size <= 4096 -> page_taken s b size m ->
  heap_rep (set_ram m s) (<[b := 1]> A) -> kheap_num_free_blocks (set_ram m s) = kheap_num_free_blocks s - 1 ->
  (forall a, ~ in_block b a -> rd8 m' a = rd8 m a) ->
  grown s (set_ram m' s) (<[b := 1]> A) 1 /\ entry_is_free (set_ram m' s) b = false.
Proof.
  intros HR Hb Hf Hsz Hm HR1 Hn Ho. pose proof (proj1 HR) as Hs.
  assert (Ht : same_table (set_ram m s) m').
  { intros k Hk. apply Ho. unfold in_block. blk. lia. }
  assert (Hfr : forall k, in_heap k -> entry_is_free (set_ram m' s) k = if k =? b then false else entry_is_free s k).
  { intros k Hk. rewrite <- (page_taken_free s b size m k) by done. by apply (same_table_free (set_ram m s) m'). }
  split; [|by rewrite Hfr, Z.eqb_refl]. split.
  - by apply (heap_rep_ram (set_ram m s)).
  - rewrite <- Hn. apply num_free_ext; [done | done |]. intros. by apply (same_table_free (set_ram m s) m').
  - intros k Hk. rewrite Hfr by done. by destruct (k =? b).
  - intros a Ha. cbn [set_ram m_ram]. rewrite Ho by (by apply (proj2 Ha)). apply (page_taken_stable s b size m a); done || lia.
Qed.

(** The copy of the string. *)
Lemma copy_step s A path_str l len (K : Z -> M machine Z) Q :
  heap_rep s A -> 0 < kheap_num_free_blocks s -> cstr (m_ram s) path_str l -> stable_range s path_str len ->
  0 <= len <= 108 -> len <= Z.of_nat (length l) ->
  (forall c s', in_heap c -> entry_is_free s c = true -> A !! c = None -> grown s s' (<[c := 1]> A) 1 -> entry_is_free s' c = false ->
     cstr (m_ram s') (block_addr c) (take (Z.to_nat len) l) -> wp (K (block_addr c)) s' Q) ->
  wp (path_str_copy ← kzalloc (len + 1);
      modify (on_ram (memcpy path_str_copy path_str len));;
      store8 (u32 (path_str_copy + len)) 0;;
      K path_str_copy) s Q.
Proof.
  intros HR Hn Hc Hst Hlen Hl HK. wp_step. wp_apply (kzalloc_obj s A (len + 1) HR); [lia | done |].
  intros p s1 (c & m & -> & Hb & Hfc & -> & Hm & HA & HR1 & Hn1). wpm.
  rewrite u32_small by (blk; lia). pose proof Hc as (Hp0 & Hp1 & Hch & _).
  set (m2 := wr8 (memcpy (block_addr c) path_str len m) (block_addr c + len) 0).
  change (on_ram _ _) with (set_ram m2 s).
  assert (Hap : len = 0 \/ path_str + len <= block_addr c \/ block_addr c + 4096 <= path_str).
  { destruct (decide (len = 0)); [by left | right]. apply (stable_apart s); [lia | done..]. }
  assert (Hcpy : forall a, rd8 (memcpy (block_addr c) path_str len m) a =
    if (block_addr c <=? a) && (a <? block_addr c + len) then rd8 m (path_str + (a - block_addr c)) else rd8 m a).
  { intros a. destruct (decide (len = 0)) as [->|]; [by repeat case_test; try lia|]. apply rd8_memcpy; blk; lia. }
  destruct (obj_grown s A c (len + 1) m m2) as [G Hu]; try done; [lia | |].
  { intros a Ha. unfold in_block in Ha. unfold m2. rewrite rd8_wr8_ne, Hcpy by lia. by repeat case_test; try lia. }
  apply HK; try done. split_and!; [blk; lia | rewrite length_take; blk; lia | |].
  - intros i Hi. rewrite length_take in Hi. destruct (Hch i ltac:(lia)) as [Hi1 Hi2].
    rewrite lookup_take_lt by lia. cbn [set_ram m_ram]. unfold rdc, m2.
    rewrite rd8_wr8_ne, Hcpy by lia. rewrite (proj2 (Z.leb_le _ _)), (proj2 (Z.ltb_lt _ _)) by lia. cbn [andb].
    replace (path_str + (block_addr c + Z.of_nat i - block_addr c)) with (path_str + Z.of_nat i) by lia.
    rewrite (page_taken_stable s c (len + 1) m) by (done || lia || (apply Hst; lia)). done.
  - rewrite length_take. replace (Z.of_nat (Z.to_nat len `min` length l)) with len by lia.
    cbn [set_ram m_ram]. unfold rdc, m2. by rewrite rd8_wr8_eq.
Qed.

(** Writes into blocks that were allocated on the way. *)
Lemma grown_write s s1 A' n m' :
  grown s s1 A' n ->
  (forall a, (forall b, in_heap b -> entry_is_free s b = true -> ~ in_block b a) -> rd8 m' a = rd8 (m_ram s1) a) ->
  grown s (set_ram m' s1) A' n /\ forall k, in_heap k -> entry_is_free (set_ram m' s1) k = entry_is_free s1 k.
Proof.
  intros [R C M' K'] Ho. pose proof (proj1 R) as Hs.
  assert (Ht : same_table s1 m').
  { intros k Hk. apply Ho. intros b Hb _. unfold in_block. blk. lia. }
  assert (Hf : forall k, in_heap k -> entry_is_free (set_ram m' s1) k = entry_is_free s1 k)
    by (intros; by apply same_table_free).
  split; [|done]. split.
  - by apply heap_rep_ram.
  - rewrite <- C. by apply num_free_ext.
  - intros k Hk. rewrite Hf by done. by apply M'.
  - intros a Ha. cbn [set_ram m_ram]. rewrite Ho by apply Ha. by apply K'.
Qed.

(** The two headers of a path. *)
Lemma nodes_step s A drive name (K : Z -> Z -> M machine Z) Q :
  heap_rep s A -> 1 < kheap_num_free_blocks s -> is_u32 name ->
  (forall p r s', in_heap p -> in_heap r -> entry_is_free s r = true -> p <> r -> A !! p = None -> (<[p := 1]> A) !! r = None ->
     grown s s' (<[r := 1]> (<[p := 1]> A)) 2 -> entry_is_free s' r = false -> entry_is_free s' p = false ->
     rd32 (m_ram s') (block_addr p) = u32 drive -> rd32 (m_ram s') (block_addr p + 4) = block_addr r ->
     rd32 (m_ram s') (block_addr r) = name -> rd32 (m_ram s') (block_addr r + 4) = 0 ->
     wp (K (block_addr p) (block_addr r)) s' Q) ->
  wp (path ← kzalloc SIZEOF_PATH_T;
      root ← kzalloc SIZEOF_PATH_PART;
      store32 path drive;;
      store32 (path + 4) root;;
      store32 root name;;
      store32 (root + 4) 0;;
      K path root) s Q.
Proof.
  intros HR Hn Hname HK. wp_step. wp_apply (kzalloc_obj s A SIZEOF_PATH_T HR); [done | lia |].
  intros x s1 (p & m & -> & Hp & Hfp & -> & Hm & HAp & HR1 & Hn1).
  destruct (obj_grown s A p SIZEOF_PATH_T m m) as [G1 U1]; try done.
  wp_step. wp_apply (kzalloc_obj (set_ram m s) (<[p := 1]> A) SIZEOF_PATH_PART HR1); [done | lia |].
  intros x s2 (r & m2 & -> & Hr & Hfr & -> & Hm2 & HAr & HR2 & Hn2).
  destruct (obj_grown (set_ram m s) (<[p := 1]> A) r SIZEOF_PATH_PART m2 m2) as [G2 U2]; try done.
  assert (Hpr : p <> r) by (intros ->; congruence).
  assert (Hfr' : entry_is_free s r = true) by (by apply (gr_mono _ _ _ _ G1)).
  pose proof (grown_trans _ _ _ _ _ _ _ G1 G2) as G.
  set (m3 := wr32 (wr32 (wr32 (wr32 m2 (block_addr p) drive) (block_addr p + 4) (block_addr r)) (block_addr r) name) (block_addr r + 4) 0).
  destruct (grown_write s (set_ram m2 (set_ram m s)) _ _ m3 G) as [G3 F3].
  { intros a Ha. pose proof (Ha p Hp Hfp). pose proof (Ha r Hr Hfr'). unfold in_block in *. unfold m3.
    rewrite !rd8_wr32 by (blk; lia). done. }
  wpm. apply (HK p r (set_ram m3 (set_ram m2 (set_ram m s)))); try done.
  - by rewrite F3.
  - rewrite F3 by done. rewrite (page_taken_free (set_ram m s) r SIZEOF_PATH_PART m2 p (proj1 HR1) Hr ltac:(done) Hm2 Hp).
    rewrite (proj2 (Z.eqb_neq p r)) by done. exact U1.
  - cbn [set_ram m_ram]. unfold m3. rewrite !rd32_wr32_ne, rd32_wr32 by (blk; lia). done.
  - cbn [set_ram m_ram]. unfold m3. rewrite !rd32_wr32_ne, rd32_wr32 by (blk; lia). apply u32_small. blk. lia.
  - cbn [set_ram m_ram]. unfold m3. rewrite !rd32_wr32_ne, rd32_wr32 by (blk; lia). by apply u32_small.
  - cbn [set_ram m_ram]. unfold m3. rewrite rd32_wr32. done.
Qed.

(** The object that [parse_path] builds: copy of the string in block [c],
    header in block [b], parts in the blocks [bs]. *)
Definition path_at (m : ram) (drive : Z) (names : list (list Z)) (c b : Z) (bs : list Z) : Prop :=
  in_heap c /\ in_heap b /\ rd32 m (block_addr b) = drive /\
  rd32 m (rd32 m (block_addr b + 4)) = block_addr c + 3 /\ parts_at m (rd32 m (block_addr b + 4)) names bs.

Lemma take_path d rest :
  let len := Z.min 108 (3 + Z.of_nat (length rest)) in
  take (Z.to_nat len) (d :: 58 :: 47 :: rest) = d :: 58 :: 47 :: take 105 rest /\
  Z.to_nat (len - 3) = length (take 105 rest).
Proof.
  cbn zeta. rewrite length_take. split; [|lia].
  replace (Z.to_nat _) with (3 + (105 `min` length rest))%nat by lia. cbn [Nat.add take]. do 3 f_equal.
  destruct (decide (length rest <= 105)%nat).
  - by rewrite !take_ge by lia.
  - by replace (105 `min` length rest)%nat with 105%nat by lia.
Qed.

Lemma valid_path s path_str d rest :
  cstr (m_ram s) path_str (d :: 58 :: 47 :: rest) -> is_digit d = true ->
  is_path_valid path_str s = true /\ rdc (m_ram s) path_str = d /\
  strnlen (m_ram s) path_str FS_MAX_PATH_LEN = Z.min 108 (3 + Z.of_nat (length rest)).
Proof.
  intros Hc Hd. assert (Hlen : strnlen (m_ram s) path_str FS_MAX_PATH_LEN = Z.min 108 (3 + Z.of_nat (length rest))).
  { rewrite (strnlen_cstr _ _ _ _ Hc) by done. unfold FS_MAX_PATH_LEN. cbn [length]. lia. }
  pose proof Hc as (_ & Hb & _). cbn [length] in Hb.
  apply cstr_cons in Hc as (? & _ & H0 & Hc). apply cstr_cons in Hc as (_ & _ & H1 & Hc).
  apply cstr_cons in Hc as (_ & _ & H2 & Hc). split_and!; [|done|done].
  unfold is_path_valid. rewrite Hlen, H0, Hd, !u32_small by lia. rewrite H1. rewrite <- Z.add_assoc in H2.
  change (1 + 1) with 2 in H2. rewrite H2. rewrite (proj2 (Z.leb_le _ _)) by lia. done.
Qed.

Lemma parse_path_spec s A path_str d rest :
  heap_rep s A -> cstr (m_ram s) path_str (d :: 58 :: 47 :: rest) -> is_digit d = true ->
  stable_range s path_str (Z.min 108 (3 + Z.of_nat (length rest))) ->
  2 + Z.of_nat (length (split_path (take 105 rest))) <= kheap_num_free_blocks s ->
  wp (parse_path path_str) s (fun p s' => exists c b bs, p = block_addr b /\
    path_at (m_ram s') (d - 48) (split_path (take 105 rest)) c b bs /\
    all_new (c :: b :: bs) A /\ grown s s' (add_blocks (c :: b :: bs) A) (2 + Z.of_nat (length bs))).
Proof.
  intros HR Hc Hd Hst Hn. destruct (valid_path s path_str d rest Hc Hd) as (Hv & Hd0 & Hlen).
  destruct (take_path d rest) as [Htk Hn3]. rewrite length_split_path in Hn.
  unfold parse_path. wpm. rewrite Hv. cbn [negb]. do 2 wpm. rewrite Hd0, Hlen.
  apply wp_unbind. eapply copy_step; try done; try lia; [cbn [length]; lia|].
  intros c s1 Hch Hfc HAc G1 U1 Hc1. rewrite Htk in Hc1. destruct (gr_rep _ _ _ _ G1) as (Hs1 & _).
  do 3 apply cstr_cons in Hc1 as (_ & _ & _ & Hc1). rewrite <- !Z.add_assoc in Hc1. change (1 + (1 + 1)) with 3 in Hc1.
  eapply nodes_step; [apply G1 | rewrite (gr_count _ _ _ _ G1); lia | apply u32_range |].
  rewrite (u32_small (block_addr c + 3)) by (blk; lia).
  intros b r s2 Hbh Hrh Hfr Hbr HAb HAr G2 U2 U2' Hp0 Hp4 Hr0 Hr4. rewrite Hn3. wp_step.
  assert (Hcr : c <> r /\ c <> b).
  { split; intros <-; [rewrite lookup_insert_ne in HAr by done; rewrite lookup_insert_eq in HAr |
      rewrite lookup_insert_eq in HAb]; done. }
  assert (U2c : entry_is_free s2 c = false).
  { destruct (entry_is_free s2 c) eqn:E; [|done]. apply (gr_mono _ _ _ _ G2) in E; [congruence | done]. }
  assert (Hlt : Z.of_nat (length (take 105 rest)) <= 105) by (rewrite length_take; lia).
  wp_apply (parse_loop_spec (take 105 rest) s2 _ 3 (block_addr c) (block_addr c + 3) r); try done.
  - apply (gr_rep _ _ _ _ G2).
  - apply (cstr_ext (m_ram s1)); [|done]. intros a Ha. apply (gr_keep _ _ _ _ G2).
    apply (used_stable s1 c); [done | done | unfold in_block; lia].
  - intros a Ha. apply (used_stable s2 c); [done | done | unfold in_block; lia].
  - blk. lia.
  - rewrite (gr_count _ _ _ _ G2), (gr_count _ _ _ _ G1). lia.
  - intros _ s3 (n & ns & bs & E & Hnew & HR3 & Hl & Hct & Hmn & Hcn & Hpt & Hk). wpm. exists c, b, (r :: bs).
    pose proof (grown_trans _ _ _ _ _ _ _ G1 G2) as G.
    assert (Hb3 : forall a, in_block b a -> rd8 (m_ram s3) a = rd8 (m_ram s2) a).
    { intros a Ha. apply Hk; [by apply (used_stable s2 b) | unfold in_block in Ha; blk; lia..]. }
    assert (H4 : rd32 (m_ram s3) (block_addr b + 4) = block_addr r).
    { rewrite <- Hp4. apply rd32_ext. intros a Ha. apply Hb3. unfold in_block. lia. }
    assert (H0 : rd32 (m_ram s3) (block_addr r) = block_addr c + 3).
    { rewrite <- Hr0. apply rd32_ext. intros a Ha. apply Hk; [|blk; lia..].
      apply (used_stable s2 r); [done | done | unfold in_block; lia]. }
    split_and!; try done.
    + unfold path_at. rewrite H4, H0, E. cbn [parts_at]. rewrite H0. split_and!; try done.
      transitivity (u32 (d - 48)); [|apply u32_small; unfold is_digit in Hd; breflect; lia].
      rewrite <- Hp0. apply rd32_ext. intros a Ha. apply Hb3. unfold in_block. lia.
    + split; [done | rewrite Hct, (gr_count _ _ _ _ G); cbn [length]; lia | intros k Hk' Hf; by apply (gr_mono _ _ _ _ G), Hmn |].
      intros a Ha. assert (Hst2 : stable s2 a) by (by apply (stable_mono s); [apply G|]).
      destruct Ha as [Ht Ha]. pose proof (Ha c Hch Hfc). pose proof (Ha r Hrh (gr_mono _ _ _ _ G1 r Hrh Hfr)).
      unfold in_block in *. rewrite Hk; [by apply (gr_keep _ _ _ _ G) | done | lia | lia].
Qed.

(** ** Releasing *)

Lemma lookup_add_blocks bs : forall A i,
  add_blocks bs A !! i = if decide (i ∈ bs) then Some 1 else A !! i.
Proof.
  induction bs as [|b bs IH]; intros A i; cbn [add_blocks]; [by rewrite decide_False by apply not_elem_of_nil|].
  rewrite IH. destruct (decide (i ∈ bs)); [by rewrite decide_True by (by right)|].
  destruct (decide (i = b)) as [->|]; [by rewrite lookup_insert_eq, decide_True by left|].
  rewrite lookup_insert_ne, decide_False by (done || by rewrite elem_of_cons; intros [|]). done.
Qed.

Lemma all_new_mono bs : forall A A',
  all_new bs A' -> (forall i, A' !! i = None -> A !! i = None) -> all_new bs A.
Proof.
  induction bs as [|b bs IH]; intros A A' H HA; [done|]. destruct H as [Hb H]. split; [auto|].
  apply (IH _ _ H). intros i Hi. apply lookup_insert_None in Hi as [Hi Hne]. by rewrite lookup_insert_ne; [apply HA|].
Qed.

Lemma all_new_notin bs : forall A i, all_new bs A -> A !! i <> None -> i ∉ bs.
Proof.
  induction bs as [|b bs IH]; intros A i H HA; [apply not_elem_of_nil|]. destruct H as [Hb H].
  apply not_elem_of_cons. split; [by intros ->|]. apply (IH (<[b := 1]> A)); [done|].
  destruct (decide (i = b)) as [->|]; [by rewrite lookup_insert_eq | by rewrite lookup_insert_ne].
Qed.

(** Removing the first of the new blocks. *)
Lemma delete_new b bs A : all_new (b :: bs) A ->
  add_blocks (b :: bs) A !! b = Some 1 /\ delete b (add_blocks (b :: bs) A) = add_blocks bs A /\ all_new bs A.
Proof.
  intros [Hb H]. assert (Hn : b ∉ bs) by (by apply (all_new_notin bs _ b H); rewrite lookup_insert_eq).
  split_and!.
  - rewrite lookup_add_blocks. by rewrite decide_True by left.
  - apply map_eq. intros i. destruct (decide (i = b)) as [->|].
    + rewrite lookup_delete_eq, lookup_add_blocks, decide_False by done. done.
    + rewrite lookup_delete_ne, !lookup_add_blocks by done. destruct (decide (i ∈ bs)).
      * by rewrite decide_True by (by right).
      * by rewrite decide_False by (rewrite elem_of_cons; intros [|]; done).
  - apply (all_new_mono bs _ _ H). intros i Hi. by apply lookup_insert_None in Hi as [? _].
Qed.

(** kfree of an object: its allocation goes away, memory outside the table
    stays. *)
(** An object goes back to the allocator. *)
Lemma kfree_block s A b p :
  heap_rep s A -> A !! b = Some 1 -> in_block b p ->
  wp (kfree p) s (fun r s' => heap_rep s' (delete b A) /\ (exists m, s' = set_ram m s) /\
    forall a, a < KHEAP_TABLE_ADDR \/ TABLE_END <= a -> rd8 (m_ram s') a = rd8 (m_ram s) a).
Proof.
  intros HR Hb Hp. destruct (kfree_frame p s (proj1 HR)) as (m & E & Hm).
  wp_apply (wp_conj _ _ _ _ (kfree_refines s _ b 1 p HR Hb Hp) (wp_of_run _ _ _ _ (fun _ s' => s' = set_ram m s) E eq_refl)).
  intros r s' [[_ HR'] ->]. split; [done|]. split; [by exists m | done].
Qed.

Lemma kfree_obj s bs b A p :
  heap_rep s (add_blocks (b :: bs) A) -> all_new (b :: bs) A -> in_block b p ->
  wp (kfree p) s (fun _ s' => heap_rep s' (add_blocks bs A) /\ all_new bs A /\
    forall a, a < KHEAP_TABLE_ADDR \/ TABLE_END <= a -> rd8 (m_ram s') a = rd8 (m_ram s) a).
Proof.
  intros HR Hnew Hp. destruct (delete_new b bs A Hnew) as (Hl & Hd & Hn).
  wp_apply (kfree_block s _ b p HR Hl Hp). intros r s' (HR' & _ & Hm). rewrite Hd in HR'. done.
Qed.

Lemma cstr_block m m' p n :
  (forall a, a < KHEAP_TABLE_ADDR \/ TABLE_END <= a -> rd8 m' a = rd8 m a) -> TABLE_END <= p -> cstr m p n -> cstr m' p n.
Proof. intros H Hp. apply cstr_ext. intros a Ha. apply H. lia. Qed.

(** The structure of a list of parts, without the names. *)
Fixpoint chain (m : ram) (p : Z) (bs : list Z) : Prop :=
  match bs with
  | [] => p = 0
  | b :: bs => p = block_addr b /\ in_heap b /\ chain m (rd32 m (p + 4)) bs
  end.

Lemma parts_chain m bs : forall p names, parts_at m p names bs -> chain m p bs.
Proof.
  induction bs as [|b bs IH]; intros p [|n ns]; cbn; try done. intros (? & ? & _ & ?). split_and!; eauto.
Qed.

Lemma chain_keep m m' bs : forall p,
  (forall a, a < KHEAP_TABLE_ADDR \/ TABLE_END <= a -> rd8 m' a = rd8 m a) -> chain m p bs -> chain m' p bs.
Proof.
  induction bs as [|b bs IH]; intros p Hk; cbn [chain]; [done|]. intros (-> & Hb & H). split_and!; [done | done|].
  rewrite (rd32_ext m m'); [by apply IH|]. intros a Ha. apply Hk. blk. lia.
Qed.

Lemma free_parts_spec bs : forall fuel s A p,
  chain (m_ram s) p bs -> (length bs <= fuel)%nat -> heap_rep s (add_blocks bs A) -> all_new bs A ->
  wp (free_parts fuel p) s (fun _ s' => heap_rep s' A /\
    forall a, a < KHEAP_TABLE_ADDR \/ TABLE_END <= a -> rd8 (m_ram s') a = rd8 (m_ram s) a).
Proof.
  induction bs as [|b bs IH]; intros fuel s A p Hc Hf HR Hnew; cbn [chain] in Hc.
  { subst p. destruct fuel; cbn [free_parts]; by wpm. }
  destruct Hc as (-> & Hb & Hc). destruct fuel as [|fuel]; [cbn in Hf; lia|]. cbn [free_parts].
  rewrite (proj2 (Z.eqb_neq _ 0)) by (blk; lia). wpm.
  wp_apply (kfree_obj s bs b A (block_addr b) HR Hnew); [unfold in_block; lia|].
  intros _ s1 (HR1 & Hn1 & Hk1). wp_apply (IH fuel s1 A); [| cbn in Hf; lia | done | done |].
  - by apply (chain_keep (m_ram s)).
  - intros _ s2 (HR2 & Hk2). split; [done|]. intros a Ha. by rewrite Hk2, Hk1.
Qed.

Lemma length_parts m bs : forall p names, parts_at m p names bs -> length bs = length names.
Proof.
  induction bs as [|b bs IH]; intros p [|n ns]; cbn; try done. intros (_ & _ & _ & H). f_equal. eauto.
Qed.

Lemma length_split_le l : (length (split_path l) <= S (length l))%nat.
Proof. rewrite length_split_path. pose proof (length_filter (fun c => c = 47) l). lia. Qed.

Lemma free_path_spec s A drive names c b bs :
  path_at (m_ram s) drive names c b bs -> all_new (c :: b :: bs) A -> heap_rep s (add_blocks (c :: b :: bs) A) ->
  (length names <= 108)%nat ->
  wp (free_path (block_addr b)) s (fun _ s' => heap_rep s' A /\
    forall a, a < KHEAP_TABLE_ADDR \/ TABLE_END <= a -> rd8 (m_ram s') a = rd8 (m_ram s) a).
Proof.
  intros (Hc & Hb & _ & Hname & Hparts) Hnew HR Hlen. unfold free_path. wpm. rewrite Hname.
  wp_apply (kfree_obj s (b :: bs) c A (block_addr c + 3) HR Hnew); [unfold in_block; lia|].
  intros _ s1 (HR1 & Hn1 & Hk1). wpm.
  replace (rd32 (m_ram s1) (block_addr b + 4)) with (rd32 (m_ram s) (block_addr b + 4))
    by (symmetry; apply rd32_ext; intros a Ha; apply Hk1; blk; lia).
  wp_apply (free_parts_spec bs _ s1 (<[b := 1]> A)).
  - apply (chain_keep (m_ram s)); [done|]. by eapply parts_chain.
  - rewrite (length_parts _ _ _ _ Hparts). exact Hlen.
  - exact HR1.
  - apply Hn1.
  - intros _ s2 (HR2 & Hk2). wpm. destruct Hn1 as [HAb _].
    wp_apply (kfree_obj s2 [] b A (block_addr b)); [done | done | unfold in_block; lia |].
    intros _ s3 (HR3 & _ & Hk3). wpm. split; [done|]. intros a Ha. by rewrite Hk3, Hk2, Hk1.
Qed.

(** ** Properties of paths *)

(** C27: parse_path is the split at the separators.  For a string "d:/rest"
    with a drive digit, it returns an object whose drive is the digit and
    whose list of parts carries the names between the separators of the first
    105 characters of the rest; the object lives in new blocks, and no memory
    the allocator does not own is changed. *)
Theorem parse_path_correct (s : machine) (A : gmap Z Z) (path_str d : Z) (rest : list Z)
    (HR : heap_rep s A) (Hc : cstr (m_ram s) path_str (d :: 58 :: 47 :: rest)) (Hd : is_digit d = true)
    (Hst : stable_range s path_str (Z.min 108 (3 + Z.of_nat (length rest))))
    (Hn : 2 + Z.of_nat (length (split_path (take 105 rest))) <= kheap_num_free_blocks s) :
  wp (parse_path path_str) s (fun p s' => exists c b bs, p = block_addr b /\
    path_at (m_ram s') (d - 48) (split_path (take 105 rest)) c b bs /\
    all_new (c :: b :: bs) A /\ heap_rep s' (add_blocks (c :: b :: bs) A) /\
    forall a, stable s a -> rd8 (m_ram s') a = rd8 (m_ram s) a).
Proof.
  wp_apply (parse_path_spec s A path_str d rest HR Hc Hd Hst Hn). intros p s' (c & b & bs & -> & Hp & Hnew & [R _ _ K]).
  by exists c, b, bs.
Qed.

(** The string "0:/a/b" in block 0. *)
Definition path_ram : ram :=
  foldr (fun '(i, c) m => wr8 m (block_addr 0 + i) c) block0_ram
    [(0, 48); (1, 58); (2, 47); (3, 97); (4, 47); (5, 98); (6, 0)].
Definition path_state : machine := ready path_ram.

Lemma path_only : only_block0 path_ram.
Proof. unfold path_ram. cbn [foldr]. do 7 (apply only_block0_wr8; [|blk; lia]). apply block0_only. Qed.

Lemma path_state_rep : heap_rep path_state (<[0 := 1]> ∅).
Proof. apply block0_rep, path_only. Qed.

Lemma path_string : cstr (m_ram path_state) (block_addr 0) [48; 58; 47; 97; 47; 98].
Proof.
  split_and!; [blk; lia | cbn [length]; blk; lia | | reflexivity].
  intros i Hi. cbn [length] in Hi. do 6 (destruct i as [|i]; [by vm_compute|]). lia.
Qed.

Lemma path_stable n : 0 <= n <= 4096 -> stable_range path_state (block_addr 0) n.
Proof. intros. apply block0_stable; [apply path_only | lia | blk; lia]. Qed.

Lemma path_budget : kheap_num_free_blocks path_state = 25599.
Proof. apply block0_budget, path_only. Qed.

Lemma parse_path_correct_witness :
  exists p s' c b bs, parse_path (block_addr 0) path_state = Ret p s' /\ path_at (m_ram s') 0 [[97]; [98]] c b bs.
Proof.
  destruct (proj1 (wp_run _ _ _) (parse_path_correct path_state (<[0 := 1]> ∅) (block_addr 0) 48 [97; 47; 98]
    path_state_rep path_string eq_refl (path_stable 6 ltac:(lia))
    ltac:(rewrite path_budget; cbn; lia))) as (p & s' & E & c & b & bs & _ & H & _).
  exists p, s', c, b, bs. split; [exact E | exact H].
Defined.

(** C31: free_path gives back exactly what parse_path took: after parsing and
    freeing, the heap records the same allocations and memory outside the
    allocator is as before. *)
Theorem parse_free_roundtrip (s : machine) (A : gmap Z Z) (path_str d : Z) (rest : list Z)
    (HR : heap_rep s A) (Hc : cstr (m_ram s) path_str (d :: 58 :: 47 :: rest)) (Hd : is_digit d = true)
    (Hst : stable_range s path_str (Z.min 108 (3 + Z.of_nat (length rest))))
    (Hn : 2 + Z.of_nat (length (split_path (take 105 rest))) <= kheap_num_free_blocks s) :
  wp (p ← parse_path path_str; free_path p) s (fun _ s' =>
    heap_rep s' A /\ forall a, stable s a -> rd8 (m_ram s') a = rd8 (m_ram s) a).
Proof.
  wp_step. wp_apply (parse_path_spec s A path_str d rest); try done.
  intros p s1 (c & b & bs & -> & Hp & Hnew & [HR1 _ _ Hk1]).
  wp_apply (free_path_spec s1 A _ _ c b bs Hp Hnew HR1).
  { pose proof (length_split_le (take 105 rest)). rewrite length_take in *. lia. }
  intros _ s2 (HR2 & Hk2). split; [done|]. intros a Ha. rewrite Hk2 by apply Ha. by apply Hk1.
Qed.

Lemma parse_free_roundtrip_witness :
  exists s', (p ← parse_path (block_addr 0); free_path p) path_state = Ret tt s' /\ heap_rep s' (<[0 := 1]> ∅).
Proof.
  destruct (proj1 (wp_run _ _ _) (parse_free_roundtrip path_state (<[0 := 1]> ∅) (block_addr 0) 48 [97; 47; 98]
    path_state_rep path_string eq_refl (path_stable 6 ltac:(lia))
    ltac:(rewrite path_budget; cbn; lia))) as ([] & s' & E & H & _).
  exists s'. split; [exact E | exact H].
Defined.
