(* ===== verification/File.v ===== *)
(** * fs/file.c: file systems, descriptors and the kf* calls

    The calls dispatch through the [struct file_system] of the disk.  A file
    system is a record of operations on the disk layer; [FileSystems] says
    which record a pointer stands for, so everything here is proved for any
    file system. *)
From Stdlib Require Import ZArith Lia String.
From stdpp Require Import base numbers gmap list strings.
From S2P Require Import Prelude Config Memory Strings Machine Console Kheap Paging Blocks Disk Path.
Local Open Scope Z_scope.

Definition FILE_SEEK_SET : Z := 0.
Definition FILE_SEEK_CUR : Z := 1.
Definition FILE_SEEK_END : Z := 2.
Definition FILE_READ : Z := 0.
Definition FILE_WRITE : Z := 1.
Definition FILE_APPEND : Z := 2.
Definition FILE_MODE_INVALID : Z := 3.
Definition FILE_STAT_READ_ONLY : Z := 0.

(** [macros.h]: an error is a negative code, also where a pointer is
    expected. *)
Definition ERROR (v : Z) : Z := u32 v.
Definition ERROR_I (v : Z) : Z := i32 v.
Definition ISERR (v : Z) : bool := i32 v <? 0.

(** [struct file_system] *)
Record file_system := mk_fs {
  fs_open : Z -> Z -> Z -> M dstate Z;
  fs_read : Z -> Z -> Z -> Z -> Z -> M dstate Z;
  fs_seek : Z -> Z -> Z -> M dstate Z;
  fs_resolve_op : Z -> M dstate Z;
  fs_stat : Z -> Z -> Z -> M dstate Z;
  fs_close : Z -> M dstate Z }.

Class FileSystems := fs_at : Z -> file_system.

(** The statics of file.c on top of the disk layer. *)
Record fstate := mk_fstate { f_dev : dstate; filesystems : list Z; file_descriptors : list Z }.

Definition set_dev (d : dstate) (s : fstate) : fstate := mk_fstate d (filesystems s) (file_descriptors s).
Definition set_filesystems (l : list Z) (s : fstate) : fstate := mk_fstate (f_dev s) l (file_descriptors s).
Definition set_fds (l : list Z) (s : fstate) : fstate := mk_fstate (f_dev s) (filesystems s) l.

Definition dev {A} (m : M dstate A) : M fstate A := zoom f_dev set_dev m.
Definition fmach {A} (m : M machine A) : M fstate A := dev (mach m).

(** [a[i]] of a static array of pointers. *)
Definition arr_get {plat : Platform} (l : list Z) (i : Z) : Z := array_at beyond l i.
Definition arr_set (l : list Z) (i v : Z) : list Z := <[Z.to_nat i := v]> l.

Section file.
Context {plat : Platform} {fsys : FileSystems}.

(** ** Registration *)

Fixpoint first_zero (n : nat) (i : Z) (l : list Z) : option Z :=
  match n with
  | O => None
  | S n => if arr_get l i =? 0 then Some i else first_zero n (i + 1) l
  end.

Definition get_free_filesystem (s : fstate) : option Z :=
  first_zero (Z.to_nat MAX_FILESYSTEMS) 0 (filesystems s).

Definition fs_insert_filesystem (fs : Z) : M fstate unit :=
  free_fs ← gets get_free_filesystem;
  match free_fs with
  | None => fmach (modify (println (chars "No more free filesystem slots")));; spin
  | Some i => modify (fun s => set_filesystems (arr_set (filesystems s) i fs) s)
  end.

(** [fs_init], given [fat16_init]. *)
Definition fs_init (fat16_init : M dstate Z) : M fstate unit :=
  modify (set_filesystems (replicate (Z.to_nat MAX_FILESYSTEMS) 0));;
  modify (set_fds (replicate (Z.to_nat MAX_FILE_DESCRIPTORS) 0));;
  fs ← dev fat16_init;
  fs_insert_filesystem fs.

Fixpoint resolve_loop (n : nat) (i disk : Z) : M fstate Z :=
  match n with
  | O => mret 0
  | S n =>
    p ← gets (fun s => arr_get (filesystems s) i);
    if negb (p =? 0) then
      res ← dev (fs_resolve_op (fs_at p) disk);
      if res =? 0 then mret p else resolve_loop n (i + 1) disk
    else resolve_loop n (i + 1) disk
  end.
Definition fs_resolve (disk : Z) : M fstate Z := resolve_loop (Z.to_nat MAX_FILESYSTEMS) 0 disk.

(** [disk_init] of disk.c, which resolves the file system of the disk. *)
Definition disk_init : M fstate unit :=
  dev (modify (set_disk (mk_disk 0 DISK_TYPE_REAL DISK_SECTOR_SIZE 0 0)));;
  p ← fs_resolve disk_addr;
  dev (modify (fun s => let '(mk_disk i t ss _ pr) := d_disk s in set_disk (mk_disk i t ss p pr) s));;
  dev (modify (fun s => let '(mk_disk _ t ss f pr) := d_disk s in set_disk (mk_disk 0 t ss f pr) s)).

(** ** Descriptors

    [struct file_descriptor]: fs, private_data, index, disk; 4 words. *)
Definition SIZEOF_FD : Z := 16.

(** Returns the status and, on success, the descriptor ([*fd_out]). *)
Definition new_file_descriptor : M fstate (Z * Z) :=
  slot ← gets (fun s => first_zero (Z.to_nat MAX_FILE_DESCRIPTORS) 0 (file_descriptors s));
  match slot with
  | None => mret (- STATUS_NOT_ENOUGH_MEM, 0)
  | Some i =>
    p ← fmach (kzalloc SIZEOF_FD);
    modify (fun s => set_fds (arr_set (file_descriptors s) i p) s);;
    if p =? 0 then mret (- STATUS_NOT_ENOUGH_MEM, 0)
    else
      fmach (store32 (p + 8) (i + 1));;
      mret (0, p)
  end.

Definition get_file_descriptor (fd : Z) (s : fstate) : Z :=
  if (fd <=? 0) || (MAX_FILE_DESCRIPTORS <? fd) then 0 else arr_get (file_descriptors s) (fd - 1).

Definition free_file_descriptor (fd : Z) : M fstate unit :=
  if (fd <=? 0) || (MAX_FILE_DESCRIPTORS <=? fd) then mret tt
  else
    p ← gets (fun s => arr_get (file_descriptors s) (fd - 1));
    fmach (kfree p);;
    modify (fun s => set_fds (arr_set (file_descriptors s) (fd - 1) 0) s).

(** ['r'] is 114, ['w'] is 119, ['a'] is 97; [strncmp(mode, "r", 1)] compares
    one character. *)
Definition parse_mode (mode : Z) (m : ram) : Z :=
  if rdc m mode =? 114 then FILE_READ
  else if rdc m mode =? 119 then FILE_WRITE
  else if rdc m mode =? 97 then FILE_APPEND
  else FILE_MODE_INVALID.

Definition ram_of (s : fstate) : ram := m_ram (d_mach (f_dev s)).

(** The body of kfopen up to the label [out]. *)
Definition kfopen_body (filename mode_str : Z) : M fstate Z :=
  root_path ← fmach (parse_path filename);
  if root_path =? 0 then mret (- STATUS_BAD_FILE_PATH)
  else
    root ← fmach (load32 (root_path + 4));
    name ← fmach (load32 root);
    c ← gets (fun s => rdc (ram_of s) name);
    if c =? 0 then mret (- STATUS_BAD_FILE_PATH)
    else
      drive_no ← fmach (load32 root_path);
      disk ← dev (get_disk (i32 drive_no));
      if disk =? 0 then mret (- STATUS_BAD_FILE_PATH)
      else
        dfs ← gets (fun s => fs (d_disk (f_dev s)));
        if dfs =? 0 then mret (- STATUS_IO_ERROR)
        else
          mode ← gets (fun s => parse_mode mode_str (ram_of s));
          if mode =? FILE_MODE_INVALID then mret (- STATUS_INVALID_ARG)
          else
            root ← fmach (load32 (root_path + 4));
            descriptor_private_data ← dev (fs_open (fs_at dfs) disk root mode);
            if ISERR descriptor_private_data then mret (ERROR_I descriptor_private_data)
            else
              '(res, fd) ← new_file_descriptor;
              if res <? 0 then mret res
              else
                dfs ← gets (fun s => fs (d_disk (f_dev s)));
                fmach (store32 fd dfs);;
                fmach (store32 (fd + 4) descriptor_private_data);;
                fmach (store32 (fd + 12) disk);;
                index ← fmach (load32 (fd + 8));
                mret (i32 index).

Definition kfopen (filename mode_str : Z) : M fstate Z :=
  res ← kfopen_body filename mode_str;
  mret (if res <? 0 then 0 else res).

(** The file system, private data and disk of a descriptor. *)
Definition fd_fs (p : Z) (s : fstate) : file_system := fs_at (rd32 (ram_of s) p).
Definition fd_private (p : Z) (s : fstate) : Z := rd32 (ram_of s) (p + 4).
Definition fd_disk (p : Z) (s : fstate) : Z := rd32 (ram_of s) (p + 12).

Definition kfseek (fd offset whence : Z) : M fstate Z :=
  p ← gets (get_file_descriptor fd);
  if p =? 0 then mret (- STATUS_INVALID_ARG)
  else
    s ← get;
    dev (fs_seek (fd_fs p s) (fd_private p s) (u32 offset) whence).

Definition kfread (ptr size nmembs fd : Z) : M fstate Z :=
  if (size =? 0) || (nmembs =? 0) || (fd <? 1) then mret (- STATUS_INVALID_ARG)
  else
    p ← gets (get_file_descriptor fd);
    if p =? 0 then mret (- STATUS_INVALID_ARG)
    else
      s ← get;
      dev (fs_read (fd_fs p s) (fd_disk p s) (fd_private p s) size nmembs ptr).

Definition kfstat (fd stat : Z) : M fstate Z :=
  p ← gets (get_file_descriptor fd);
  if p =? 0 then mret (- STATUS_INVALID_ARG)
  else
    s ← get;
    dev (fs_stat (fd_fs p s) (fd_disk p s) (fd_private p s) stat).

Definition kfclose (fd : Z) : M fstate Z :=
  p ← gets (get_file_descriptor fd);
  if p =? 0 then mret (- STATUS_INVALID_ARG)
  else
    s ← get;
    res ← dev (fs_close (fd_fs p s) (fd_private p s));
    free_file_descriptor fd;;
    mret res.

(** ** The descriptor table *)

Lemma wp_dev {A} (m : M dstate A) s Q :
  wp m (f_dev s) (fun a t => Q a (set_dev t s)) -> wp (dev m) s Q.
Proof. apply wp_zoom. Qed.

Lemma wp_fmach {A} (m : M machine A) s Q :
  wp m (d_mach (f_dev s)) (fun a t => Q a (set_dev (set_mach t (f_dev s)) s)) -> wp (fmach m) s Q.
Proof. intros H. apply wp_dev, wp_mach, H. Qed.

Lemma first_zero_spec n l : forall i,
  match first_zero n i l with
  | Some k => i <= k < i + Z.of_nat n /\ arr_get l k = 0 /\ forall j, i <= j < k -> arr_get l j <> 0
  | None => forall j, i <= j < i + Z.of_nat n -> arr_get l j <> 0
  end.
Proof.
  induction n as [|n IH]; intros i; cbn [first_zero]; [intros; lia|].
  destruct (Z.eqb_spec (arr_get l i) 0) as [E|E]; [split_and!; try done; intros; lia|].
  specialize (IH (i + 1)). destruct (first_zero n (i + 1) l) as [k|].
  - destruct IH as (? & ? & Hj). split_and!; try done; try lia. intros j Hj'.
    destruct (decide (j = i)) as [->|]; [done | apply Hj; lia].
  - intros j Hj. destruct (decide (j = i)) as [->|]; [done | apply IH; lia].
Qed.

Lemma arr_get_set l i v j :
  0 <= i < Z.of_nat (length l) -> 0 <= j -> arr_get (arr_set l i v) j = if i =? j then v else arr_get l j.
Proof.
  intros Hi Hj. unfold arr_get, arr_set, array_at. rewrite (proj2 (Z.ltb_ge j 0)), !nth_lookup by done. destruct (Z.eqb_spec i j) as [->|].
  - rewrite list_lookup_insert_eq by lia. done.
  - rewrite list_lookup_insert_ne by lia. done.
Qed.

(** Descriptors in use keep their slot; a slot is empty or holds a pointer. *)
Definition fd_table_ok (s : fstate) : Prop := length (file_descriptors s) = Z.to_nat MAX_FILE_DESCRIPTORS.

(** New_file_descriptor hands out the lowest free slot.  While a slot
    and a block are free it succeeds with a new zeroed descriptor whose index
    is one more than the slot; the descriptor is what the index now refers
    to, every other index refers to what it did, and memory that the allocator
    does not own is unchanged. *)
Lemma new_descriptor_correct (s : fstate) (A : gmap Z Z)
    (Hlen : fd_table_ok s) (HR : heap_rep (d_mach (f_dev s)) A) (Hn : 0 < kheap_num_free_blocks (d_mach (f_dev s)))
    (Hslot : exists fd, 1 <= fd <= MAX_FILE_DESCRIPTORS /\ get_file_descriptor fd s = 0) :
  wp new_file_descriptor s (fun '(r, p) s' => exists fd b,
    r = 0 /\ p = block_addr b /\ in_heap b /\ entry_is_free (d_mach (f_dev s)) b = true /\ A !! b = None /\
    grown (d_mach (f_dev s)) (d_mach (f_dev s')) (<[b := 1]> A) 1 /\ entry_is_free (d_mach (f_dev s')) b = false /\
    f_dev s' = set_mach (d_mach (f_dev s')) (f_dev s) /\ fd_table_ok s' /\
    1 <= fd <= MAX_FILE_DESCRIPTORS /\ get_file_descriptor fd s = 0 /\
    (forall k, 1 <= k < fd -> get_file_descriptor k s <> 0) /\
    rd32 (ram_of s') (p + 8) = fd /\ get_file_descriptor fd s' = p /\
    forall k, k <> fd -> get_file_descriptor k s' = get_file_descriptor k s).
Proof.
  unfold new_file_descriptor. wp_steps. pose proof (first_zero_spec (Z.to_nat MAX_FILE_DESCRIPTORS) (file_descriptors s) 0) as Hz.
  assert (Hget : forall k, 1 <= k <= MAX_FILE_DESCRIPTORS -> get_file_descriptor k s = arr_get (file_descriptors s) (k - 1)).
  { intros k Hk. unfold get_file_descriptor. by rewrite (proj2 (Z.leb_gt _ _)), (proj2 (Z.ltb_ge _ _)) by lia. }
  rewrite Z2Nat.id in Hz by done. destruct (first_zero _ 0 _) as [i|].
  2: { destruct Hslot as (fd & Hfd & E). rewrite Hget in E by done. by destruct (Hz (fd - 1) ltac:(lia)). }
  destruct Hz as (Hi & Hi0 & Hmin). unfold MAX_FILE_DESCRIPTORS in Hi.
  wp_step. apply wp_fmach. wp_apply (kzalloc_obj _ A SIZEOF_FD HR); [done | done |].
  intros p mc (b & m & -> & Hb & Hf & -> & Hm & HA & HR1 & Hct). wp_steps.
  rewrite (proj2 (Z.eqb_neq _ 0)) by (blk; lia). wp_step. apply wp_fmach, wp_modify, wp_ret.
  set (s' := set_dev _ _). set (m' := wr32 m (block_addr b + 8) (i + 1)).
  assert (Hfds : file_descriptors s' = arr_set (file_descriptors s) i (block_addr b)) by done.
  assert (Hl' : Z.of_nat (length (file_descriptors s)) = 1024) by (by rewrite Hlen).
  destruct (obj_grown (d_mach (f_dev s)) A b SIZEOF_FD m m' HR Hb Hf ltac:(done) Hm HR1 Hct) as [G U].
  { intros a Ha. apply rd8_wr32. unfold in_block in Ha. lia. }
  exists (i + 1), b. split_and!; try done; try (unfold MAX_FILE_DESCRIPTORS; lia).
  - unfold fd_table_ok. rewrite Hfds. unfold arr_set. by rewrite length_insert.
  - rewrite Hget by (unfold MAX_FILE_DESCRIPTORS; lia). by replace (i + 1 - 1) with i by lia.
  - intros k Hk. rewrite Hget by (unfold MAX_FILE_DESCRIPTORS; lia). apply Hmin. lia.
  - change (ram_of s') with m'. unfold m'. rewrite rd32_wr32. apply u32_small. lia.
  - unfold get_file_descriptor, MAX_FILE_DESCRIPTORS. rewrite Hfds, (proj2 (Z.leb_gt _ _)), (proj2 (Z.ltb_ge _ _)) by lia.
    cbn [orb]. rewrite arr_get_set by lia. by rewrite (proj2 (Z.eqb_eq _ _)) by lia.
  - intros k Hk. unfold get_file_descriptor. rewrite Hfds. destruct (_ || _) eqn:E; [done|]. breflect.
    rewrite arr_get_set by lia. by rewrite (proj2 (Z.eqb_neq _ _)) by lia.
Qed.

Lemma closed_fd (s : fstate) fd :
  fd <= 0 \/ 1024 < fd \/ file_descriptors s !! Z.to_nat (fd - 1) = Some 0 -> get_file_descriptor fd s = 0.
Proof.
  intros Hfd. unfold get_file_descriptor, MAX_FILE_DESCRIPTORS. destruct (_ || _) eqn:E; [done|]. breflect.
  destruct Hfd as [? | [? | Hfd] ]; [lia | lia |]. apply array_lookup; [lia | done].
Qed.

Lemma open_fd (s : fstate) fd p :
  1 <= fd <= 1024 -> file_descriptors s !! Z.to_nat (fd - 1) = Some p -> get_file_descriptor fd s = p.
Proof.
  intros Hfd Hp. unfold get_file_descriptor, MAX_FILE_DESCRIPTORS.
  rewrite (proj2 (Z.leb_gt fd 0)), (proj2 (Z.ltb_ge 1024 fd)) by lia. apply array_lookup; [lia | done].
Qed.

(** C34: the calls on a descriptor.  When the number is not positive or above
    1024, whatever memory holds next to the table, or its slot of the table is
    empty, kfseek, kfread, kfstat and kfclose return [-STATUS_INVALID_ARG] and
    change nothing.  For every number from 1 to 1024 with a descriptor in its
    slot, kfseek, kfstat and, unless it is asked for nothing, kfread run the
    operation of the file system, on the private data, that the descriptor
    records; the descriptor 1024 is one of them. *)
Theorem closed_descriptor_rejected (s : fstate) (fd offset whence ptr size nmembs stat : Z) :
  (fd <= 0 \/ 1024 < fd \/ file_descriptors s !! Z.to_nat (fd - 1) = Some 0 ->
   kfseek fd offset whence s = Ret (- STATUS_INVALID_ARG) s /\
   kfread ptr size nmembs fd s = Ret (- STATUS_INVALID_ARG) s /\
   kfstat fd stat s = Ret (- STATUS_INVALID_ARG) s /\
   kfclose fd s = Ret (- STATUS_INVALID_ARG) s) /\
  (forall p, 1 <= fd <= 1024 -> file_descriptors s !! Z.to_nat (fd - 1) = Some p -> p <> 0 ->
   let ops := fs_at (rd32 (ram_of s) p) in
   let data := rd32 (ram_of s) (p + 4) in
   let disk := rd32 (ram_of s) (p + 12) in
   kfseek fd offset whence s = dev (fs_seek ops data (u32 offset) whence) s /\
   kfstat fd stat s = dev (fs_stat ops disk data stat) s /\
   (size <> 0 -> nmembs <> 0 -> kfread ptr size nmembs fd s = dev (fs_read ops disk data size nmembs ptr) s)).
Proof.
  unfold kfseek, kfread, kfstat, kfclose, mbind, M_bind, gets, get. split.
  - intros Hfd. apply closed_fd in Hfd. rewrite Hfd. split_and!; try done.
    destruct ((size =? 0) || (nmembs =? 0) || (fd <? 1)); [done|]. cbv beta. by rewrite Hfd.
  - intros p Hfd Hp Hne. apply (open_fd s fd p Hfd) in Hp. rewrite Hp, (proj2 (Z.eqb_neq p 0) Hne). cbv zeta. split_and!; [done..|].
    intros H1 H2. rewrite (proj2 (Z.eqb_neq _ _) H1), (proj2 (Z.eqb_neq _ _) H2), (proj2 (Z.ltb_ge fd 1)) by lia. cbn [orb].
    by rewrite Hp, (proj2 (Z.eqb_neq p 0) Hne).
Qed.

(** Descriptor 1024 is never released.  Closing it runs the close
    operation of the file system, but free_file_descriptor rejects the last
    index that get_file_descriptor accepts: the slot keeps its descriptor and
    stays open. *)
Lemma last_descriptor_stays_open (s : fstate) (d : dstate) (r : Z)
    (Hopen : get_file_descriptor 1024 s <> 0)
    (Hclose : let p := get_file_descriptor 1024 s in fs_close (fd_fs p s) (fd_private p s) (f_dev s) = Ret r d) :
  kfclose 1024 s = Ret r (set_dev d s) /\ get_file_descriptor 1024 (set_dev d s) = get_file_descriptor 1024 s.
Proof.
  split; [|done]. unfold kfclose, mbind, M_bind, gets, get, dev, zoom.
  rewrite (proj2 (Z.eqb_neq _ 0)) by done. cbn zeta in Hclose. rewrite Hclose. done.
Qed.

(** Every other descriptor is released by kfclose: afterwards it is not open,
    the block of the descriptor is free again, every other descriptor is as it
    was, and memory outside the allocator is as the file system left it. *)
Lemma close_fd_spec (s : fstate) (d : dstate) (r fd b : Z) (A : gmap Z Z)
    (Hlen : fd_table_ok s) (Hfd : 1 <= fd < 1024) (Hp : get_file_descriptor fd s = block_addr b) (Hb : in_heap b)
    (Hclose : fs_close (fd_fs (block_addr b) s) (fd_private (block_addr b) s) (f_dev s) = Ret r d)
    (HR : heap_rep (d_mach d) A) (HA : A !! b = Some 1) :
  wp (kfclose fd) s (fun r' s' =>
    r' = r /\ get_file_descriptor fd s' = 0 /\ heap_rep (d_mach (f_dev s')) (delete b A) /\
    (forall k, k <> fd -> get_file_descriptor k s' = get_file_descriptor k s) /\ d_disk (f_dev s') = d_disk d /\
    forall a, a < KHEAP_TABLE_ADDR \/ TABLE_END <= a -> rd8 (ram_of s') a = rd8 (m_ram (d_mach d)) a).
Proof.
  unfold kfclose. wp_steps. rewrite Hp, (proj2 (Z.eqb_neq _ 0)) by (blk; lia). wp_steps.
  apply wp_dev. eapply wp_of_run; [exact Hclose|]. unfold free_file_descriptor, MAX_FILE_DESCRIPTORS.
  rewrite (proj2 (Z.leb_gt fd 0)), (proj2 (Z.leb_gt 1024 fd)) by lia. cbn [orb]. wp_steps. apply wp_fmach.
  assert (Hslot : arr_get (file_descriptors s) (fd - 1) = block_addr b).
  { rewrite <- Hp. unfold get_file_descriptor, MAX_FILE_DESCRIPTORS. by rewrite (proj2 (Z.leb_gt _ _)), (proj2 (Z.ltb_ge _ _)) by lia. }
  cbn [set_dev file_descriptors f_dev]. rewrite Hslot.
  wp_apply (kfree_block (d_mach d) A b (block_addr b) HR HA); [unfold in_block; lia|]. intros _ mc (HR' & _ & Hk).
  wp_steps. set (s' := set_fds _ _).
  assert (Hl' : Z.of_nat (length (file_descriptors s)) = 1024) by (by rewrite Hlen).
  assert (Hget : forall k, get_file_descriptor k s' = if fd =? k then 0 else get_file_descriptor k s).
  { intros k. unfold get_file_descriptor, MAX_FILE_DESCRIPTORS.
    change (file_descriptors s') with (arr_set (file_descriptors s) (fd - 1) 0).
    destruct (_ || _) eqn:E; [by destruct (fd =? k)|]. breflect. rewrite arr_get_set by lia.
    destruct (Z.eqb_spec (fd - 1) (k - 1)), (Z.eqb_spec fd k); lia || done. }
  split_and!; [done | by rewrite Hget, Z.eqb_refl | exact HR' | | done | exact Hk].
  intros k Hk'. by rewrite Hget, (proj2 (Z.eqb_neq fd k)) by done.
Qed.

(** Kfopen loses the parsed path.  Opening "0:/name" with a mode that is
    not r, w or a fails and returns 0, and the copy of the string, the header
    and every part of the path stay allocated. *)
Lemma kfopen_leaks_path (s : fstate) (A : gmap Z Z) (path_str mode c0 : Z) (rest : list Z)
    (HR : heap_rep (d_mach (f_dev s)) A) (Hc : cstr (ram_of s) path_str (48 :: 58 :: 47 :: c0 :: rest)) (Hc0 : c0 <> 47)
    (Hst : stable_range (d_mach (f_dev s)) path_str (Z.min 108 (4 + Z.of_nat (length rest))))
    (Hn : 2 + Z.of_nat (length (split_path (take 105 (c0 :: rest)))) <= kheap_num_free_blocks (d_mach (f_dev s)))
    (Hfs : fs (d_disk (f_dev s)) <> 0) (Hda : disk_addr <> 0)
    (Hmst : stable (d_mach (f_dev s)) mode) (Hmode : parse_mode mode (ram_of s) = FILE_MODE_INVALID) :
  wp (kfopen path_str mode) s (fun r s' => r = 0 /\ exists c b bs,
    all_new (c :: b :: bs) A /\ heap_rep (d_mach (f_dev s')) (add_blocks (c :: b :: bs) A) /\
    length bs = length (split_path (take 105 (c0 :: rest)))).
Proof.
  unfold kfopen, kfopen_body. wp_steps. apply wp_fmach.
  wp_apply (parse_path_spec (d_mach (f_dev s)) A path_str 48 (c0 :: rest) HR Hc eq_refl); [| done |].
  { replace (3 + Z.of_nat (length (c0 :: rest))) with (4 + Z.of_nat (length rest)) by (cbn [length]; lia). done. }
  intros p mc (c & b & bs & -> & (Hch & Hbh & Hdrive & Hname & Hparts) & Hnew & [HR' _ _ Hkeep]).
  rewrite (proj2 (Z.eqb_neq _ 0)) by (blk; lia). wp_step. apply wp_fmach, wp_gets. wp_step. apply wp_fmach, wp_gets. wp_steps.
  set (s1 := set_dev _ _). change (ram_of s1) with (m_ram mc). change (d_mach (f_dev s1)) with mc.
  assert (E : exists n ns, split_path (take 105 (c0 :: rest)) = (c0 :: n) :: ns).
  { cbn [take split_path]. rewrite (proj2 (Z.eqb_neq c0 47)) by done.
    destruct (split_path_cons (take 104 rest)) as (n & ns & ->). eauto. }
  destruct E as (n & ns & E).
  assert (Hlb : length bs = length (split_path (take 105 (c0 :: rest)))) by (by eapply length_parts).
  rewrite E in Hparts. destruct bs as [|b0 bs]; [done|]. cbn [parts_at] in Hparts.
  destruct Hparts as (Hr0 & _ & Hcn & _). rewrite Hname in *. apply cstr_cons in Hcn as (_ & Hcz & Hrd & _).
  rewrite Hrd, (proj2 (Z.eqb_neq c0 0)) by done. wp_step. apply wp_fmach, wp_gets.
  change (rd32 _ (block_addr b)) with (rd32 (m_ram mc) (block_addr b)). rewrite Hdrive. wp_step. apply wp_dev.
  change (i32 (48 - 48)) with 0. unfold get_disk. cbn [Z.eqb negb]. apply wp_ret.
  rewrite (proj2 (Z.eqb_neq disk_addr 0)) by done. wp_steps. rewrite (proj2 (Z.eqb_neq _ 0)) by done. wp_steps.
  set (s2 := set_dev _ _). replace (parse_mode mode (ram_of s2)) with FILE_MODE_INVALID.
  - cbn. wp_steps. split; [done|]. exists c, b, (b0 :: bs). split; [exact Hnew|]. split; [exact HR' | exact Hlb].
  - rewrite <- Hmode. unfold parse_mode, rdc. change (ram_of s2) with (m_ram mc). by rewrite Hkeep.
Qed.

End file.

(** ** Witnesses *)

(** A file system whose operations succeed without effect. *)
Definition null_fs : file_system :=
  mk_fs (fun _ _ _ => mret 0) (fun _ _ _ _ _ => mret 0) (fun _ _ _ => mret 0) (fun _ => mret 0)
    (fun _ _ _ => mret 0) (fun _ => mret 0).
Definition null_filesystems : FileSystems := fun _ => null_fs.

(** The string "0:/a/b" in block 0, no open file. *)
Definition file_state (fds : list Z) : fstate :=
  mk_fstate (mk_dstate path_state (mk_ata 0 0 0 0 0 0 0 0) (mk_disk 0 0 512 0x100100 0)) [] fds.

(** A closed descriptor, and two numbers next to the table, where memory holds
    pointers. *)
Lemma closed_descriptor_rejected_witness :
  let s := file_state [0; 0x300000] in
  let close fd := kfclose (plat := test_platform) (fsys := null_filesystems) fd s in
  close 1 = Ret (- STATUS_INVALID_ARG) s /\ close (-1) = Ret (- STATUS_INVALID_ARG) s /\
  close 1025 = Ret (- STATUS_INVALID_ARG) s /\ beyond (Platform := test_platform) 1024 <> 0.
Proof.
  pose proof (fun fd => proj1 (closed_descriptor_rejected (plat := test_platform) (fsys := null_filesystems)
    (file_state [0; 0x300000]) fd 0 0 0 0 0 0)) as H. cbv zeta. split_and!.
  - apply H. right. right. reflexivity.
  - apply H. left. lia.
  - apply H. right. left. lia.
  - discriminate.
Defined.
