(* ===== verification/Fat16.v ===== *)
(** * fs/fat/fat16.c: the FAT16 file system

    All structures are bytes in RAM at the offsets the packed C structures
    have.  The disk that the functions receive is always the static [disk];
    [disk->fs_private] points to the [struct fat16_private]. *)
From Stdlib Require Import ZArith Lia String.
From stdpp Require Import base numbers gmap list strings.
From S2P Require Import Prelude Config Memory Strings Machine Console Kheap Paging Blocks Disk Path File.
Local Open Scope Z_scope.

Definition FAT16_SIGNATURE : Z := 0x29.
Definition FAT16_ENTRY_SIZE : Z := 0x02.
Definition FAT16_BAD_SEC : Z := 0xFF7.
Definition FAT16_ITEM_TYPE_DIR : Z := 0.
Definition FAT16_ITEM_TYPE_FILE : Z := 1.
Definition FAT16_ATTR_READ_ONLY : Z := 0x01.
Definition FAT16_ATTR_SUB_DIRECTORY : Z := 0x10.
Definition FAT16_MAX_FILE_NAME : Z := 8.
Definition FAT16_MAX_EXT_NAME : Z := 3.

(** Offsets in [struct fat16_private] (the packed header comes first). *)
Definition o_sectors_per_cluster : Z := 13.
Definition o_reserved_sectors : Z := 14.
Definition o_fat_copies : Z := 16.
Definition o_root_dir_entries : Z := 17.
Definition o_sectors_per_fat : Z := 22.
Definition o_signature : Z := 38.
Definition SIZEOF_FAT16_H : Z := 62.
Definition o_root_dir : Z := 64.
Definition o_cluster_stream : Z := 80.
Definition o_fat16_read_stream : Z := 84.
Definition o_dir_stream : Z := 88.
Definition SIZEOF_FAT16_PRIVATE : Z := 92.

(** Offsets in [struct fat16_dir_entry]. *)
Definition o_ext : Z := 8.
Definition o_attribs : Z := 11.
Definition o_high_cluster : Z := 20.
Definition o_low_cluster : Z := 26.
Definition o_file_size : Z := 28.
Definition SIZEOF_DIR_ENTRY : Z := 32.

(** Offsets in [struct fat16_dir], [struct fat16_item] and
    [struct fat16_file_descriptor]. *)
Definition o_total_entries : Z := 4.
Definition o_start_sector : Z := 8.
Definition o_end_sector : Z := 12.
Definition SIZEOF_FAT16_DIR : Z := 16.
Definition o_item_type : Z := 4.
Definition SIZEOF_FAT16_ITEM : Z := 8.
Definition o_pos : Z := 4.
Definition SIZEOF_FAT16_FD : Z := 8.

Definition ld8 (a : Z) : M dstate Z := mach (load8 (u32 a)).
Definition ld16 (a : Z) : M dstate Z := gets (fun s => rd16 (m_ram (d_mach s)) (u32 a)).
Definition ld32 (a : Z) : M dstate Z := mach (load32 (u32 a)).
Definition st8 (a v : Z) : M dstate unit := mach (store8 (u32 a) v).
Definition st32 (a v : Z) : M dstate unit := mach (store32 (u32 a) v).
Definition say (msg : list Z) : M dstate unit := mach (modify (print msg)).

(** A division by zero traps. *)
Definition divide_error {A} : M dstate A := fun s => Panic "divide error" s.

Definition get_private : M dstate Z := gets (fun s => fs_private (d_disk s)).
Definition get_sector_size : M dstate Z := gets (fun s => sector_size (d_disk s)).

(** Steps of a computation on the disk layer. *)
Ltac wpf := repeat first
  [ wp_step
  | match goal with
    | |- wp (ld8 _) _ _ => apply wp_mach, wp_gets
    | |- wp (ld16 _) _ _ => apply wp_gets
    | |- wp (ld32 _) _ _ => apply wp_mach, wp_gets
    | |- wp (st8 _ _) _ _ => apply wp_mach, wp_modify
    | |- wp (st32 _ _) _ _ => apply wp_mach, wp_modify
    | |- wp get_private _ _ => apply wp_gets
    | |- wp get_sector_size _ _ => apply wp_gets
    end ].

Section fat16.
Context {plat : Platform}.


(** [strncpy(fat16_fs.name, "FAT16", 10)]; the name is the first field. *)
Definition fat16_init : M dstate Z :=
  st8 fat16_fs_addr 70;; st8 (fat16_fs_addr + 1) 65;; st8 (fat16_fs_addr + 2) 84;;
  st8 (fat16_fs_addr + 3) 49;; st8 (fat16_fs_addr + 4) 54;; st8 (fat16_fs_addr + 5) 0;;
  mret fat16_fs_addr.

Definition fat16_init_private (fat_private : Z) : M dstate unit :=
  mach (modify (on_ram (memset fat_private 0 SIZEOF_FAT16_PRIVATE)));;
  i ← gets (fun s => id (d_disk s));
  st ← disk_stream_new i;
  st32 (fat_private + o_cluster_stream) st;;
  i ← gets (fun s => id (d_disk s));
  st ← disk_stream_new i;
  st32 (fat_private + o_fat16_read_stream) st;;
  i ← gets (fun s => id (d_disk s));
  st ← disk_stream_new i;
  st32 (fat_private + o_dir_stream) st.

(** The endless loop over directory entries. *)
Fixpoint count_items (fuel : nat) (stream cnt : Z) : M dstate Z :=
  match fuel with
  | O => spin
  | S fuel =>
    res ← disk_stream_read stream stack_entry SIZEOF_DIR_ENTRY;
    if negb (res =? STATUS_OK) then mret res
    else
      c ← ld8 stack_entry;
      if c =? 0 then mret cnt
      else if c =? 0xE5 then count_items fuel stream cnt
      else count_items fuel stream (i32 (cnt + 1))
  end.

Definition fat16_get_total_items_in_dir (dir_start_sector : Z) : M dstate Z :=
  fat_private ← get_private;
  stream ← ld32 (fat_private + o_dir_stream);
  ss ← get_sector_size;
  res ← disk_stream_seek stream (u32 (dir_start_sector * ss));
  if negb (res =? STATUS_OK) then mret res
  else count_items scan_fuel stream 0.

Definition fat16_load_root_dir (fat_private : Z) : M dstate Z :=
  fat_copies ← ld8 (fat_private + o_fat_copies);
  sectors_per_fat ← ld16 (fat_private + o_sectors_per_fat);
  reserved_sectors ← ld16 (fat_private + o_reserved_sectors);
  let root_dir_start_sec := fat_copies * sectors_per_fat + reserved_sectors in
  root_dir_entries ← ld16 (fat_private + o_root_dir_entries);
  let root_dir_size := root_dir_entries * SIZEOF_DIR_ENTRY in
  ss ← get_sector_size;
  if ss =? 0 then divide_error
  else
    let total_root_sectors := Z.quot (root_dir_size + ss - 1) ss in
    total_items ← fat16_get_total_items_in_dir root_dir_start_sec;
    if total_items <? 0 then mret total_items
    else
      dir_entries ← mach (kzalloc root_dir_size);
      if dir_entries =? 0 then mret (- STATUS_NOT_ENOUGH_MEM)
      else
        stream ← ld32 (fat_private + o_dir_stream);
        res ← disk_stream_seek stream (u32 (root_dir_start_sec * ss));
        if negb (res =? STATUS_OK) then mach (kfree dir_entries);; mret res
        else
          res ← disk_stream_read stream dir_entries root_dir_size;
          if negb (res =? STATUS_OK) then mach (kfree dir_entries);; mret res
          else
            st32 (fat_private + o_root_dir) dir_entries;;
            st32 (fat_private + o_root_dir + o_total_entries) total_items;;
            st32 (fat_private + o_root_dir + o_start_sector) root_dir_start_sec;;
            st32 (fat_private + o_root_dir + o_end_sector) (root_dir_start_sec + total_root_sectors);;
            mret res.

Definition set_fs_private (p : Z) (s : dstate) : dstate :=
  let '(mk_disk i t ss f _) := d_disk s in set_disk (mk_disk i t ss f p) s.
Definition set_fs (f : Z) (s : dstate) : dstate :=
  let '(mk_disk i t ss _ p) := d_disk s in set_disk (mk_disk i t ss f p) s.

(** The part of fat16_resolve between the first allocation and [out]. *)
Definition resolve_body (fat_private stream : Z) : M dstate Z :=
  if stream =? 0 then mret (- STATUS_NOT_ENOUGH_MEM)
  else
    res ← disk_stream_read stream fat_private SIZEOF_FAT16_H;
    if negb (res =? STATUS_OK) then mret res
    else
      signature ← ld8 (fat_private + o_signature);
      if negb (signature =? FAT16_SIGNATURE) then mret 1
      else
        r ← fat16_load_root_dir fat_private;
        if negb (r =? STATUS_OK) then
          mach (modify (println (chars "FAT16: failed to load root dir")));;
          mret (- STATUS_IO_ERROR)
        else mret 0.

Definition fat16_resolve (disk : Z) : M dstate Z :=
  fat_private ← mach (kzalloc SIZEOF_FAT16_PRIVATE);
  fat16_init_private fat_private;;
  modify (set_fs_private fat_private);;
  modify (set_fs fat16_fs_addr);;
  i ← gets (fun s => id (d_disk s));
  stream ← disk_stream_new i;
  res ← resolve_body fat_private stream;
  (if negb (stream =? 0) then disk_stream_close stream else mret tt);;
  (if res <? 0 then
     mach (kfree fat_private);;
     modify (set_fs_private 0);;
     modify (set_fs 0)
   else mret tt);;
  (if res =? 0 then mach (modify (println (chars "FAT16: resolved"))) else mret tt);;
  mret res.

(** ** Names *)

(** The copying loop: the output pointer advanced past the name. *)
Fixpoint proper_loop (fuel : nat) (i out_str in_ max_len : Z) : M dstate Z :=
  match fuel with
  | O => st8 (out_str + i) 0;; mret (u32 (out_str + i))
  | S fuel =>
    c ← gets (fun s => rdc (m_ram (d_mach s)) (u32 (in_ + i)));
    if negb (c =? 32) && negb (c =? 0) && (i <? max_len) then
      st8 (out_str + i) c;;
      proper_loop fuel (i + 1) out_str in_ max_len
    else st8 (out_str + i) 0;; mret (u32 (out_str + i))
  end.
Definition fat16_filename_to_proper_str (out in_ max_len : Z) : M dstate Z :=
  proper_loop (Z.to_nat max_len) 0 out in_ max_len.

Definition fat16_get_full_relative_filename (entry out max_len : Z) : M dstate unit :=
  mach (modify (on_ram (memset out 0 max_len)));;
  out_tmp ← fat16_filename_to_proper_str out entry FAT16_MAX_FILE_NAME;
  e ← ld8 (entry + o_ext);
  if negb (e =? 32) && negb (e =? 0) then
    st8 out_tmp 46;;
    fat16_filename_to_proper_str (u32 (out_tmp + 1)) (entry + o_ext) FAT16_MAX_EXT_NAME;;
    mret tt
  else mret tt.

(** ** Clusters *)

Definition fat16_cluster_to_sector (private cluster : Z) (s : dstate) : Z :=
  let m := m_ram (d_mach s) in
  i32 (rd32 m (u32 (private + o_root_dir + o_end_sector)) +
       (cluster - 2) * rd8 m (u32 (private + o_sectors_per_cluster))).

Definition fat16_get_fat_entry (cluster_num : Z) : M dstate Z :=
  private ← get_private;
  stream ← ld32 (private + o_fat16_read_stream);
  if stream =? 0 then mret (-1)
  else
    reserved_sectors ← ld16 (private + o_reserved_sectors);
    ss ← get_sector_size;
    let fat_table_byte_pos := u32 (reserved_sectors * ss) in
    res ← disk_stream_seek stream (u32 (fat_table_byte_pos + cluster_num * FAT16_ENTRY_SIZE));
    if res <? 0 then mret res
    else
      st32 stack_result 0;;
      res ← disk_stream_read stream stack_result 4;
      if res <? 0 then mret res
      else
        result ← ld32 stack_result;
        mret (i32 result).

(** The loop along the chain, over the remaining [n] links. *)
Fixpoint follow_chain (n : nat) (curr_cluster : Z) : M dstate Z :=
  match n with
  | O => mret curr_cluster
  | S n =>
    entry ← fat16_get_fat_entry curr_cluster;
    if (entry =? 0xFF8) || (entry =? 0xFFF) || (entry <? 0) then mret (- STATUS_IO_ERROR)
    else if entry =? FAT16_BAD_SEC then mret (- STATUS_IO_ERROR)
    else if (entry =? 0xFF0) || (entry =? 0xFF6) then mret (- STATUS_IO_ERROR)
    else if entry =? 0 then mret (- STATUS_IO_ERROR)
    else follow_chain n entry
  end.

Definition fat16_get_cluster_at_byte_offset_from_start (starting_cluster offset : Z) : M dstate Z :=
  private ← get_private;
  spc ← ld8 (private + o_sectors_per_cluster);
  ss ← get_sector_size;
  let bytes_per_cluster := spc * ss in
  if bytes_per_cluster =? 0 then divide_error
  else
    let num_clusters := Z.quot (i32 (offset + 1 + bytes_per_cluster - 1)) bytes_per_cluster in
    let last_cluster := i32 (starting_cluster + num_clusters - 1) in
    follow_chain (Z.to_nat (last_cluster - starting_cluster)) starting_cluster.

(** The loop of fat16_read_file_data_from_cluster; every iteration reads at
    least one byte, so [total_bytes] bounds their number. *)
Fixpoint read_clusters (fuel : nat) (stream starting_cluster offset total_bytes out : Z) : M dstate Z :=
  if total_bytes <=? 0 then mret 0
  else match fuel with
  | O => spin
  | S fuel =>
    private ← get_private;
    spc ← ld8 (private + o_sectors_per_cluster);
    ss ← get_sector_size;
    let bytes_per_cluster := spc * ss in
    curr_cluster ← fat16_get_cluster_at_byte_offset_from_start starting_cluster offset;
    let offset_from_curr_cluster := Z.rem offset bytes_per_cluster in
    curr_sector ← gets (fat16_cluster_to_sector private (u32 curr_cluster));
    let curr_byte_pos := i32 (curr_sector * ss + offset_from_curr_cluster) in
    let total_to_read_bytes := if bytes_per_cluster <? total_bytes then bytes_per_cluster else total_bytes in
    res ← disk_stream_seek stream (u32 curr_byte_pos);
    if negb (res =? STATUS_OK) then mret res
    else
      res ← disk_stream_read stream out total_to_read_bytes;
      if negb (res =? STATUS_OK) then mret res
      else read_clusters fuel stream starting_cluster (i32 (offset + total_to_read_bytes))
             (total_bytes - total_to_read_bytes) (u32 (out + total_to_read_bytes))
  end.

Definition fat16_read_file_data_from_cluster (starting_cluster offset total_bytes out : Z) : M dstate Z :=
  fs_private ← get_private;
  stream ← ld32 (fs_private + o_cluster_stream);
  read_clusters (Z.to_nat total_bytes) stream starting_cluster offset total_bytes out.

Definition fat16_get_first_cluster (entry : Z) : M dstate Z :=
  high ← ld16 (entry + o_high_cluster);
  (if negb (high =? 0) then say (chars "Warning non zero high 16 cluster bits in fat16..") else mret tt);;
  low ← ld16 (entry + o_low_cluster);
  mret (u32 (Z.lor (Z.shiftl high 16) low)).

(** ** Items *)

Definition fat16_free_dir (dir : Z) : M dstate unit :=
  if dir =? 0 then mret tt
  else
    entries ← ld32 dir;
    (if negb (entries =? 0) then mach (kfree entries) else mret 0);;
    mach (kfree dir);; mret tt.

Definition fat16_free_item (item : Z) : M dstate unit :=
  if item =? 0 then mret tt
  else
    ty ← ld32 (item + o_item_type);
    (if ty =? FAT16_ITEM_TYPE_DIR then
       dir ← ld32 item; fat16_free_dir dir
     else if ty =? FAT16_ITEM_TYPE_FILE then
       e ← ld32 item;
       (if negb (e =? 0) then mach (kfree e);; mret tt else mret tt)
     else mret tt);;
    mach (kfree item);; mret tt.

(** The body of fat16_load_fat_dir up to [out]; [dir] is not null. *)
Definition load_fat_dir_body (dir entry : Z) : M dstate Z :=
  fat_private ← get_private;
  cluster ← fat16_get_first_cluster entry;
  cluster_start_sector ← gets (fat16_cluster_to_sector fat_private cluster);
  total_items ← fat16_get_total_items_in_dir (u32 cluster_start_sector);
  st32 (dir + o_total_entries) total_items;;
  let dir_size := i32 (total_items * SIZEOF_DIR_ENTRY) in
  p ← mach (kzalloc (u32 dir_size));
  st32 dir p;;
  p ← ld32 dir;
  if p =? 0 then mret (- STATUS_NOT_ENOUGH_MEM)
  else
    res ← fat16_read_file_data_from_cluster (i32 cluster) 0 dir_size p;
    mret (if negb (res =? STATUS_OK) then -1 else res).

Definition fat16_load_fat_dir (entry : Z) : M dstate Z :=
  dir ← mach (kzalloc SIZEOF_FAT16_DIR);
  if dir =? 0 then mret 0
  else
    res ← load_fat_dir_body dir entry;
    if res <? 0 then
      p ← ld32 dir;
      (if negb (p =? 0) then mach (kfree p) else mret 0);;
      mach (kfree dir);;
      mret 0
    else mret dir.

Definition fat16_clone_dir_entry (entry : Z) : M dstate Z :=
  f_item ← mach (kzalloc SIZEOF_DIR_ENTRY);
  if f_item =? 0 then mret 0
  else
    mach (modify (on_ram (memcpy f_item entry SIZEOF_DIR_ENTRY)));;
    mret f_item.

Definition fat16_new_fat_item_from_dir_entry (entry : Z) : M dstate Z :=
  f_item ← mach (kzalloc SIZEOF_FAT16_ITEM);
  if f_item =? 0 then mret 0
  else
    attribs ← ld8 (entry + o_attribs);
    (if negb (Z.land attribs FAT16_ATTR_SUB_DIRECTORY =? 0) then
       dir ← fat16_load_fat_dir entry;
       st32 f_item dir;;
       st32 (f_item + o_item_type) FAT16_ITEM_TYPE_DIR
     else
       e ← fat16_clone_dir_entry entry;
       st32 f_item e;;
       st32 (f_item + o_item_type) FAT16_ITEM_TYPE_FILE);;
    mret f_item.

(** The search over entries [i ..]. *)
Fixpoint find_item (n : nat) (dir i file_name : Z) : M dstate Z :=
  match n with
  | O => mret 0
  | S n =>
    dir_entries ← ld32 dir;
    let entry := u32 (dir_entries + SIZEOF_DIR_ENTRY * i) in
    fat16_get_full_relative_filename entry stack_name FS_MAX_PATH_LEN;;
    c ← gets (fun s => istrncmp (m_ram (d_mach s)) stack_name file_name FS_MAX_PATH_LEN);
    if c =? 0 then fat16_new_fat_item_from_dir_entry entry
    else find_item n dir (i + 1) file_name
  end.

Definition fat16_find_item_in_dir_by_name (dir file_name : Z) : M dstate Z :=
  total_entries ← ld32 (dir + o_total_entries);
  find_item (Z.to_nat (i32 total_entries)) dir 0 file_name.

(** The walk along the parts of a path. *)
Fixpoint walk_path (fuel : nat) (path curr_item : Z) : M dstate Z :=
  next ← ld32 (path + 4);
  if next =? 0 then mret curr_item
  else match fuel with
  | O => spin
  | S fuel =>
    ty ← ld32 (curr_item + o_item_type);
    if negb (ty =? FAT16_ITEM_TYPE_DIR) then fat16_free_item curr_item;; mret 0
    else
      name ← ld32 next;
      c ← gets (fun s => rdc (m_ram (d_mach s)) name);
      if (name =? 0) || (c =? 0) then fat16_free_item curr_item;; mret 0
      else
        dir ← ld32 curr_item;
        next_item ← fat16_find_item_in_dir_by_name dir name;
        fat16_free_item curr_item;;
        walk_path fuel next next_item
  end.

Definition fat16_get_dir_entry (path : Z) : M dstate Z :=
  fat_private ← get_private;
  name ← ld32 path;
  curr_item ← fat16_find_item_in_dir_by_name (u32 (fat_private + o_root_dir)) name;
  if curr_item =? 0 then mret 0
  else walk_path (Z.to_nat FS_MAX_PATH_LEN) path curr_item.

(** ** The operations of the file system *)

Definition fat16_open (disk path mode : Z) : M dstate Z :=
  if negb (mode =? FILE_READ) then mret (ERROR (- STATUS_INVALID_ARG))
  else
    fd ← mach (kzalloc SIZEOF_FAT16_FD);
    if fd =? 0 then mret (ERROR (- STATUS_NOT_ENOUGH_MEM))
    else
      st32 (fd + o_pos) 0;;
      item ← fat16_get_dir_entry path;
      st32 fd item;;
      item ← ld32 fd;
      if item =? 0 then mach (kfree fd);; mret (ERROR (- STATUS_IO_ERROR))
      else mret fd.

(** The loop over members: the status, or the offset reached. *)
Fixpoint read_members (n : nat) (entry offset size out_ptr : Z) : M dstate (Z + Z) :=
  match n with
  | O => mret (inr offset)
  | S n =>
    cluster ← fat16_get_first_cluster entry;
    res ← fat16_read_file_data_from_cluster (i32 cluster) offset (i32 size) out_ptr;
    if ISERR res then mret (inl res)
    else read_members n entry (i32 (offset + size)) size (u32 (out_ptr + size))
  end.

Definition fat16_read (disk descriptor size nmembs out_ptr : Z) : M dstate Z :=
  item ← ld32 descriptor;
  entry ← ld32 item;
  pos ← ld32 (descriptor + o_pos);
  r ← read_members (Z.to_nat nmembs) entry (i32 pos) size out_ptr;
  match r with
  | inl res => mret res
  | inr offset => st32 (descriptor + o_pos) offset;; mret (i32 nmembs)
  end.

Definition fat16_seek (private offset seek_mode : Z) : M dstate Z :=
  item ← ld32 private;
  ty ← ld32 (item + o_item_type);
  if negb (ty =? FAT16_ITEM_TYPE_FILE) then mret (- STATUS_INVALID_ARG)
  else
    entry ← ld32 item;
    file_size ← ld32 (entry + o_file_size);
    if file_size <=? offset then mret (- STATUS_IO_ERROR)
    else if seek_mode =? FILE_SEEK_SET then st32 (private + o_pos) offset;; mret 0
    else if seek_mode =? FILE_SEEK_END then mret (- STATUS_NOT_IMPLEMENTED)
    else if seek_mode =? FILE_SEEK_CUR then
      pos ← ld32 (private + o_pos);
      if file_size <=? u32 (offset + pos) then mret (- STATUS_INVALID_ARG)
      else st32 (private + o_pos) (pos + offset);; mret 0
    else mret (- STATUS_INVALID_ARG).

(** [struct file_stat]: flags, file_size. *)
Definition fat16_stat (disk private stat : Z) : M dstate Z :=
  item ← ld32 private;
  ty ← ld32 (item + o_item_type);
  if negb (ty =? FAT16_ITEM_TYPE_FILE) then mret (- STATUS_INVALID_ARG)
  else
    entry ← ld32 item;
    file_size ← ld32 (entry + o_file_size);
    st32 (stat + 4) file_size;;
    st32 stat 0;;
    attribs ← ld8 (entry + o_attribs);
    (if negb (Z.land attribs FAT16_ATTR_READ_ONLY =? 0) then
       flags ← ld32 stat;
       st32 stat (Z.lor flags FILE_STAT_READ_ONLY)
     else mret tt);;
    mret 0.

Definition fat16_fd_free (fd : Z) : M dstate unit :=
  if negb (fd =? 0) then
    item ← ld32 fd;
    fat16_free_item item;;
    mach (kfree fd);; mret tt
  else mret tt.

Definition fat16_close (private : Z) : M dstate Z := fat16_fd_free private;; mret 0.

Definition fat16_fs : file_system :=
  mk_fs fat16_open fat16_read fat16_seek fat16_resolve fat16_stat fat16_close.

(** ** Seek and stat *)

Definition dram (s : dstate) : ram := m_ram (d_mach s).

(** The size of the file behind a descriptor. *)
Definition fd_file_size (private : Z) (s : dstate) : Z :=
  let m := dram s in
  let item := rd32 m (u32 private) in
  rd32 m (u32 (rd32 m (u32 item) + o_file_size)).

Lemma set_mach_id s : set_mach (d_mach s) s = s.
Proof. by destruct s. Qed.

(** C35: a seek that succeeds leaves the position inside the file, for every
    mode and every 32-bit offset (the sum in FILE_SEEK_CUR may wrap around); a
    seek that fails changes nothing. *)
Theorem seek_stays_inside (s : dstate) (private offset mode : Z) (Hoff : is_u32 offset) :
  wp (fat16_seek private offset mode) s (fun r s' =>
    (r = 0 /\ 0 <= rd32 (dram s') (u32 (private + o_pos)) < fd_file_size private s) \/ (r < 0 /\ s' = s)).
Proof.
  unfold is_u32 in Hoff. unfold fat16_seek. wpf. rewrite !set_mach_id. fold (dram s).
  destruct (negb _); [wpf; by right|]. wpf. rewrite !set_mach_id. fold (dram s). fold (fd_file_size private s).
  destruct (Z.leb_spec (fd_file_size private s) offset); [wpf; by right|].
  destruct (mode =? FILE_SEEK_SET).
  { wpf. left. split; [done|]. unfold dram. cbn. rewrite rd32_wr32, u32_small by done. lia. }
  destruct (mode =? FILE_SEEK_END); [wpf; by right|]. destruct (mode =? FILE_SEEK_CUR); [|wpf; by right].
  wpf. rewrite !set_mach_id. fold (dram s).
  destruct (Z.leb_spec (fd_file_size private s) (u32 (offset + rd32 (dram s) (u32 (private + o_pos))))); wpf; [by right|].
  left. split; [done|]. unfold dram. cbn. rewrite rd32_wr32, Z.add_comm. fold (dram s).
  pose proof (u32_range (offset + rd32 (dram s) (u32 (private + o_pos)))). unfold dram in *. lia.
Qed.

(** Fat16_stat reports the size of the file, and its flags are always 0:
    FILE_STAT_READ_ONLY is the first constant of its enumeration, so or-ing it
    in has no effect even for a file with the read-only attribute. *)
Lemma stat_flags_always_zero (s : dstate) (disk private stat : Z)
    (Hty : rd32 (dram s) (u32 (rd32 (dram s) (u32 private) + o_item_type)) = FAT16_ITEM_TYPE_FILE)
    (Hst : 0 <= stat /\ stat + 8 <= 4294967296) :
  wp (fat16_stat disk private stat) s (fun r s' =>
    r = 0 /\ rd32 (dram s') (stat + 4) = fd_file_size private s /\ rd32 (dram s') stat = 0).
Proof.
  unfold fat16_stat. wpf. rewrite !set_mach_id. fold (dram s). rewrite Hty, Z.eqb_refl. cbn [negb].
  wpf. rewrite !set_mach_id. fold (dram s). fold (fd_file_size private s).
  rewrite (u32_small stat), (u32_small (stat + 4)) by lia.
  assert (Hsz : u32 (fd_file_size private s) = fd_file_size private s) by (apply u32_small, rd32_range).
  assert (Hrd : forall m, rd32 (wr32 (wr32 m (stat + 4) (fd_file_size private s)) stat 0) (stat + 4) = fd_file_size private s).
  { intros m. by rewrite rd32_wr32_ne, rd32_wr32 by lia. }
  destruct (negb _); wpf; (split; [done|]); rewrite ?(u32_small stat) by lia; unfold dram; cbn.
  - rewrite rd32_wr32_ne, Hrd by lia. split; [done|]. by rewrite !rd32_wr32.
  - rewrite Hrd. split; [done|]. apply rd32_wr32.
Qed.

(** ** Reading clusters *)

(** A mounted volume: [spc] sectors per cluster, clusters from sector [data]. *)
Record mounted (s : dstate) (priv spc data : Z) : Prop := {
  mt_priv : fs_private (d_disk s) = priv;
  mt_sector : sector_size (d_disk s) = 512;
  mt_range : 0 <= priv /\ priv + SIZEOF_FAT16_PRIVATE <= 4294967296;
  mt_spc : rd8 (dram s) (priv + o_sectors_per_cluster) = spc;
  mt_data : rd32 (dram s) (priv + o_root_dir + o_end_sector) = data }.

Lemma mt_addr s priv spc data o :
  mounted s priv spc data -> 0 <= o < SIZEOF_FAT16_PRIVATE -> u32 (priv + o) = priv + o.
Proof. intros [_ _ H _ _] Ho. apply u32_small. unfold SIZEOF_FAT16_PRIVATE in *. lia. Qed.

(** Where a cluster starts on the disk. *)
Definition cluster_base (spc data cluster : Z) : Z := (data + (cluster - 2) * spc) * 512.

Lemma mounted_sector s priv spc data cluster :
  mounted s priv spc data -> 0 <= data + (cluster - 2) * spc < 2147483648 ->
  fat16_cluster_to_sector priv cluster s = data + (cluster - 2) * spc.
Proof.
  intros Hm Hr. unfold fat16_cluster_to_sector. fold (dram s). rewrite <- Z.add_assoc.
  rewrite !(mt_addr s priv spc data) by done. rewrite Z.add_assoc, (mt_data _ _ _ _ Hm), (mt_spc _ _ _ _ Hm).
  apply i32_small. lia.
Qed.

Lemma first_cluster_found s priv spc data start offset :
  mounted s priv spc data -> 0 < spc -> 0 <= offset < spc * 512 -> 0 <= start < 2147483648 -> spc < 256 ->
  wp (fat16_get_cluster_at_byte_offset_from_start start offset) s (fun c s' => c = start /\ s' = s).
Proof.
  intros Hm Hs Ho Hst Hs2. unfold fat16_get_cluster_at_byte_offset_from_start. wpf. rewrite !set_mach_id.
  rewrite (mt_priv _ _ _ _ Hm), (mt_sector _ _ _ _ Hm), (mt_addr s priv spc data) by done.
  fold (dram s). rewrite (mt_spc _ _ _ _ Hm). rewrite (proj2 (Z.eqb_neq _ 0)) by lia.
  replace (Z.quot (i32 (offset + 1 + spc * 512 - 1)) (spc * 512)) with 1.
  - replace (i32 (start + 1 - 1)) with start by (rewrite i32_small; lia).
    rewrite Z.sub_diag. cbn [Z.to_nat follow_chain]. wpf. done.
  - rewrite i32_small by lia. rewrite Z.quot_div_nonneg by lia.
    replace (offset + 1 + spc * 512 - 1) with (1 * (spc * 512) + offset) by lia.
    rewrite Z.div_add_l, Z.div_small by lia. done.
Qed.

Lemma stream_seek_at s sp off pos :
  heap_ok (d_mach s) -> stream_at (d_mach s) sp off -> is_u32 pos ->
  let s1 := set_mach (on_ram (fun m => wr32 m (sp + 4) pos) (d_mach s)) s in
  disk_stream_seek sp pos s = Ret 0 s1 /\ same_heap (d_mach s) (d_mach s1) /\ stream_at (d_mach s1) sp pos /\
  forall a, a < sp + 4 \/ sp + 8 <= a -> rd8 (dram s1) a = rd8 (dram s) a.
Proof.
  intros Hs (Hd & Ho & Hlo & Hhi & Hst) Hp s1.
  assert (Hk : forall a, a < sp + 4 \/ sp + 8 <= a -> rd8 (dram s1) a = rd8 (dram s) a).
  { intros a Ha. unfold dram, s1. cbn. apply rd8_wr32. lia. }
  assert (Hfree : forall k, in_heap k -> entry_is_free (d_mach s1) k = entry_is_free (d_mach s) k).
  { intros k Hk'. apply entry_is_free_ext; [done | done | blk; lia |]. apply Hk.
    pose proof (stable_table (d_mach s) k sp 8 Hk' Hst). lia. }
  assert (Hsh : same_heap (d_mach s) (d_mach s1)).
  { split; [done | done | done |]. intros k Hk'. left. apply Hk. pose proof (stable_table (d_mach s) k sp 8 Hk' Hst). lia. }
  split; [done|]. split; [done|]. split; [split; [|split; [|split; [done|split; [done|]]]] | done].
  - rewrite <- Hd. apply rd32_ext. intros a Ha. apply Hk. lia.
  - unfold s1. cbn. rewrite rd32_wr32. by apply u32_small.
  - intros a Ha. apply (stable_iff (d_mach s)); [done | by apply Hst].
Qed.

(** A read inside the first cluster. *)
Lemma read_cluster_spec (s : dstate) (priv spc data start offset n out cs off : Z)
    (Hm : mounted s priv spc data) (Hheap : heap_ok (d_mach s)) (Hspc : 0 < spc < 256)
    (Hcs : rd32 (dram s) (priv + o_cluster_stream) = cs) (Hstream : stream_at (d_mach s) cs off)
    (Hst : 2 <= start < 65536) (Hdata : 0 <= data < 65536) (Hoff : 0 <= offset < spc * 512) (Hn : 0 < n <= spc * 512)
    (Hsum : cluster_base spc data start + offset + n < 4294967296)
    (Hlo : 0 <= out) (Hhi : out + n < 4294967296) (Hout : stable_range (d_mach s) out n)
    (Hap : out + n <= cs \/ cs + 8 <= out)
    (Hfree : exists k, in_heap k /\ entry_is_free (d_mach s) k = true) :
  wp (fat16_read_file_data_from_cluster start offset n out) s (fun r s' =>
    r = 0 /\ d_disk s' = d_disk s /\ same_heap (d_mach s) (d_mach s') /\
    stream_at (d_mach s') cs (cluster_base spc data start + offset + n) /\
    (forall a, out <= a < out + n ->
       rd8 (dram s') a = u8 (disk_image (cluster_base spc data start + offset + (a - out)))) /\
    (forall a, stable (d_mach s) a -> a < out \/ out + n <= a -> a < cs + 4 \/ cs + 8 <= a ->
       rd8 (dram s') a = rd8 (dram s) a)).
Proof.
  unfold fat16_read_file_data_from_cluster. wpf. rewrite !set_mach_id.
  rewrite (mt_priv _ _ _ _ Hm), (mt_addr s priv spc data) by done. fold (dram s). rewrite Hcs.
  destruct (Z.to_nat n) as [|fuel] eqn:En; [lia|]. cbn [read_clusters].
  rewrite (proj2 (Z.leb_gt n 0)) by lia. wpf. rewrite !set_mach_id.
  rewrite (mt_priv _ _ _ _ Hm), (mt_sector _ _ _ _ Hm), (mt_addr s priv spc data) by done. fold (dram s). rewrite (mt_spc _ _ _ _ Hm).
  wp_apply (first_cluster_found s priv spc data start offset Hm); try lia. intros c s0 [-> ->]. wpf.
  unfold cluster_base in *. assert (Hsec : 0 <= data + (start - 2) * spc < 2147483648) by nia.
  rewrite (u32_small start), (mounted_sector s priv spc data) by (done || lia).
  rewrite Z.rem_small by lia.
  set (pos := (data + (start - 2) * spc) * 512 + offset). rewrite u32_i32, (u32_small pos) by (subst pos; lia).
  replace (if spc * 512 <? n then spc * 512 else n) with n by (by rewrite (proj2 (Z.ltb_ge _ _)) by lia).
  destruct (stream_seek_at s cs off pos Hheap Hstream ltac:(subst pos; unfold is_u32; lia)) as (Hrun & Hsh1 & Hs1 & Hk1).
  pose proof (sh_ok _ _ Hsh1) as Hh1. pose proof (sh_free _ _ Hsh1) as Hf1. eapply wp_of_run; [exact Hrun|]. set (s1 := set_mach _ s) in *. rewrite Z.eqb_refl. cbn [negb]. wpf.
  assert (Hst1 : forall a, stable (d_mach s1) a <-> stable (d_mach s) a) by (intros a; by apply stable_iff).
  wp_apply (stream_read_spec s1 cs out pos n Hh1 (mt_sector _ _ _ _ Hm) Hs1); try lia.
  { intros a Ha. apply Hst1, Hout, Ha. }
  { destruct Hfree as (k & Hk & Hkf). exists k. by rewrite Hf1. }
  intros r s2 (-> & Hd2 & Hsh2 & Hst2 & Hin & Hkeep). rewrite Z.eqb_refl. cbn [negb].
  pose proof (same_heap_trans _ _ _ Hsh1 Hsh2) as Hsh.
  replace (n - n) with 0 by lia. destruct fuel; cbn [read_clusters]; wpf;
    (split; [done|]; split; [done|]; split; [exact Hsh|]; split; [exact Hst2|]; split; [exact Hin|];
     intros a Ha ??; unfold dram in *; rewrite Hkeep by (done || by apply Hst1); by apply Hk1).
Qed.

(** Two consecutive bytes of the disk: an entry of the allocation table. *)
Definition fat_at (reserved c : Z) : Z :=
  let p := reserved * 512 + 2 * c in u8 (disk_image p) + 256 * u8 (disk_image (p + 1)).

Lemma rd32_bytes m p b0 b1 b2 b3 :
  rd8 m p = b0 -> rd8 m (p + 1) = b1 -> rd8 m (p + 2) = b2 -> rd8 m (p + 3) = b3 ->
  rd32 m p = b0 + 256 * b1 + 65536 * (b2 + 256 * b3).
Proof.
  intros <- <- <- <-. unfold rd32, rd16. replace (p + 2 + 1) with (p + 3) by lia. lia.
Qed.

(** Fat16_get_fat_entry reads two entries.  It returns the 32-bit word at
    the entry, whose upper half is the entry of the next cluster: the result
    is the table's entry only if the next entry of the table is 0. *)
Lemma fat_entry_reads_two (s : dstate) (priv spc data c rs off reserved : Z)
    (Hm : mounted s priv spc data) (Hheap : heap_ok (d_mach s))
    (Hrs : rd32 (dram s) (priv + o_fat16_read_stream) = rs) (Hrs0 : rs <> 0) (Hstream : stream_at (d_mach s) rs off)
    (Hres : rd16 (dram s) (priv + o_reserved_sectors) = reserved) (Hc : 0 <= c < 65536)
    (Hlo : 0 <= stack_result) (Hhi : stack_result + 4 < 4294967296)
    (Hout : stable_range (d_mach s) stack_result 4) (Hap : stack_result + 4 <= rs \/ rs + 8 <= stack_result)
    (Hfree : exists k, in_heap k /\ entry_is_free (d_mach s) k = true) :
  wp (fat16_get_fat_entry c) s (fun r s' =>
    r = i32 (fat_at reserved c + 65536 * fat_at reserved (c + 1)) /\ same_heap (d_mach s) (d_mach s')).
Proof.
  pose proof (rd16_range (dram s) (priv + o_reserved_sectors)) as Hr. rewrite Hres in Hr.
  unfold fat16_get_fat_entry. wpf. rewrite !set_mach_id, (mt_priv _ _ _ _ Hm), (mt_addr s priv spc data) by done.
  fold (dram s). rewrite Hrs, (proj2 (Z.eqb_neq rs 0)) by done. wpf.
  rewrite (mt_sector _ _ _ _ Hm), (mt_addr s priv spc data) by done. fold (dram s). rewrite Hres.
  unfold FAT16_ENTRY_SIZE. rewrite (u32_small (reserved * 512)), (u32_small (reserved * 512 + c * 2)) by lia.
  set (pos := reserved * 512 + c * 2).
  destruct (stream_seek_at s rs off pos Hheap Hstream ltac:(subst pos; unfold is_u32; lia)) as (Hrun & Hsh1 & Hs1 & Hk1).
  pose proof (sh_ok _ _ Hsh1) as Hh1. pose proof (sh_free _ _ Hsh1) as Hf1. eapply wp_of_run; [exact Hrun|]. set (s1 := set_mach _ s) in *. cbn [Z.ltb Z.compare]. wpf.
  rewrite (u32_small stack_result) by lia. set (m2 := wr32 (dram s1) stack_result 0).
  set (s2 := set_mach _ s1). change (d_mach s2) with (set_ram m2 (d_mach s1)) in *.
  assert (Hst1 : stable_range (d_mach s1) stack_result 4) by (intros a Ha; apply (stable_iff (d_mach s)); [done | by apply Hout]).
  assert (Hk2 : forall a, a < stack_result \/ stack_result + 4 <= a -> rd8 m2 a = rd8 (dram s1) a) by (intros; by apply rd8_wr32).
  assert (Ht2 : same_table (d_mach s1) m2) by (by apply (stable_write _ _ stack_result 4)).
  assert (Hf2 : forall k, in_heap k -> entry_is_free (d_mach s2) k = entry_is_free (d_mach s1) k) by (intros; by apply same_table_free).
  wp_apply (stream_read_spec s2 rs stack_result pos 4 Hh1 (mt_sector _ _ _ _ Hm)); try lia.
  - destruct Hs1 as (E1 & E2 & ? & ? & Hss). split_and!; try done.
    + rewrite <- E1. apply rd32_ext. intros a Ha. apply Hk2. lia.
    + rewrite <- E2. apply rd32_ext. intros a Ha. apply Hk2. lia.
    + intros a Ha. apply (stable_iff (d_mach s1)); [done | by apply Hss].
  - intros a Ha. apply (stable_iff (d_mach s1)); [done | by apply Hst1].
  - destruct Hfree as (k & Hk & E). exists k. by rewrite Hf2, Hf1.
  - intros r s3 (-> & _ & Hsh3 & _ & Hin & _). cbn [Z.ltb Z.compare]. wpf. rewrite set_mach_id.
    assert (Hsh2 : same_heap (d_mach s1) (d_mach s2)) by (split; [done | done | done | intros k Hk; left; by apply Ht2]).
    split; [|by apply (same_heap_trans _ (d_mach s2)); [apply (same_heap_trans _ (d_mach s1))|]].
    rewrite u32_small by lia. unfold fat_at. erewrite rd32_bytes; [| apply Hin; lia..]. subst pos. f_equal.
    replace (2 * c) with (c * 2) by lia. replace (2 * (c + 1)) with (c * 2 + 2) by lia.
    rewrite !Z.add_assoc. replace (stack_result - stack_result) with 0 by lia. rewrite Z.add_0_r.
    replace (stack_result + 1 - stack_result) with 1 by lia. replace (stack_result + 2 - stack_result) with 2 by lia.
    replace (stack_result + 3 - stack_result) with (2 + 1) by lia. rewrite !Z.add_assoc. done.
Qed.

(** ** Names *)

(** The characters of a name field, and the name they spell: fields are padded
    with blanks. *)
Definition field (m : ram) (p : Z) (n : nat) : list Z := (fun i => rdc m (p + Z.of_nat i)) <$> seq 0 n.

Fixpoint trim (l : list Z) : list Z :=
  match l with
  | [] => []
  | c :: l => if negb (c =? 32) && negb (c =? 0) then c :: trim l else []
  end.

Lemma field_S m p n : field m p (S n) = rdc m p :: field m (p + 1) n.
Proof.
  unfold field. rewrite <- cons_seq, fmap_cons, <- fmap_S_seq, <- list_fmap_compose. f_equal; [f_equal; lia|].
  apply list_fmap_ext. intros j x _. cbn. f_equal. lia.
Qed.

Lemma field_ext m m' p n :
  (forall a, p <= a < p + Z.of_nat n -> rd8 m' a = rd8 m a) -> field m' p n = field m p n.
Proof.
  intros H. unfold field. apply list_fmap_ext. intros j x [-> Hj]%lookup_seq. unfold rdc. rewrite H by lia. done.
Qed.

Lemma length_trim l : (length (trim l) <= length l)%nat.
Proof. induction l as [|c l IH]; cbn; [lia|]. destruct (_ && _); cbn; lia. Qed.

Lemma length_field m p n : length (field m p n) = n.
Proof. unfold field. by rewrite length_fmap, length_seq. Qed.

Lemma trim_nonzero l : Forall (fun c => c <> 0) (trim l).
Proof.
  induction l as [|c l IH]; cbn; [constructor|]. destruct (negb (c =? 32) && negb (c =? 0)) eqn:E; [|constructor].
  breflect. by constructor.
Qed.

(** [str_at m p l]: the characters [l] are at [p]. *)
Definition str_at (m : ram) (p : Z) (l : list Z) : Prop :=
  forall j c, l !! j = Some c -> rdc m (p + Z.of_nat j) = c.

Lemma rdc_wr8 m a v : rdc (wr8 m a v) a = i8 v.
Proof. unfold rdc. by rewrite rd8_wr8_eq, i8_u8. Qed.

Lemma rdc_i8 m a : i8 (rdc m a) = rdc m a.
Proof. unfold rdc. unfold i8. zlia. Qed.

(** What the copying loop leaves in RAM. *)
Record spelled (s s' : dstate) (p : Z) (l : list Z) : Prop := {
  sp_dev : d_ata s' = d_ata s /\ d_disk s' = d_disk s;
  sp_mach : exists m, d_mach s' = set_ram m (d_mach s);
  sp_str : str_at (dram s') p l;
  sp_nul : rdc (dram s') (p + Z.of_nat (length l)) = 0;
  sp_keep : forall a, a < p \/ p + Z.of_nat (length l) < a -> rd8 (dram s') a = rd8 (dram s) a }.

Lemma spelled_state s s' p l : spelled s s' p l -> exists m, s' = set_mach (set_ram m (d_mach s)) s.
Proof. intros [[Ha Hd] [m Hm] _ _ _]. exists m. destruct s, s'. cbn in *. by subst. Qed.

Lemma spelled_nil s p : spelled s (set_mach (on_ram (fun m => wr8 m p 0) (d_mach s)) s) p [].
Proof.
  split; cbn [length]; rewrite ?Z.add_0_r; [done | by eexists | | |].
  - intros j c H. by rewrite lookup_nil in H.
  - unfold dram. cbn. apply rdc_wr8.
  - intros a Ha. unfold dram. cbn. apply rd8_wr8_ne. lia.
Qed.

Lemma spelled_cons s s' p c l :
  i8 c = c -> spelled (set_mach (on_ram (fun m => wr8 m p c) (d_mach s)) s) s' (p + 1) l -> spelled s s' p (c :: l).
Proof.
  intros Hc [D [m M'] St Nu Ke]. split.
  - done.
  - by exists m.
  - intros [|j] x Hx; cbn in Hx.
    + injection Hx as <-. rewrite Z.add_0_r. unfold rdc. rewrite Ke by lia. unfold dram. cbn.
      rewrite rd8_wr8_eq. by rewrite i8_u8.
    + replace (p + Z.of_nat (S j)) with (p + 1 + Z.of_nat j) by lia. by apply St.
  - cbn [length]. replace (p + Z.of_nat (S (length l))) with (p + 1 + Z.of_nat (length l)) by lia. exact Nu.
  - intros a Ha. cbn [length] in Ha. rewrite Ke by lia. unfold dram. cbn. apply rd8_wr8_ne. lia.
Qed.

Lemma proper_loop_spec fuel : forall s i out in_ max_len,
  i + Z.of_nat fuel = max_len -> 0 <= i -> 0 <= out -> out + max_len < 4294967296 -> 0 <= in_ ->
  in_ + max_len < 4294967296 -> (out + max_len < in_ \/ in_ + max_len <= out) ->
  wp (proper_loop fuel i out in_ max_len) s (fun p s' =>
    let t := trim (field (dram s) (in_ + i) fuel) in
    p = out + i + Z.of_nat (length t) /\ spelled s s' (out + i) t).
Proof.
  induction fuel as [|fuel IH]; intros s i out in_ max_len Hi Hi0 Ho Ho' Hn Hn' Hd; cbn [proper_loop].
  { wpf. rewrite u32_small by lia. cbn. split; [lia|]. apply spelled_nil. }
  wpf. rewrite (u32_small (in_ + i)) by lia. fold (dram s). rewrite field_S. cbn [trim].
  rewrite (proj2 (Z.ltb_lt i max_len)), andb_true_r by lia.
  destruct (negb (rdc (dram s) (in_ + i) =? 32) && negb (rdc (dram s) (in_ + i) =? 0)); cbn zeta.
  - wpf. rewrite (u32_small (out + i)) by lia. set (s1 := set_mach _ s).
    wp_apply (IH s1 (i + 1) out in_ max_len); try lia. cbn zeta.
    replace (field (dram s1) (in_ + (i + 1)) fuel) with (field (dram s) (in_ + i + 1) fuel).
    2: { rewrite Z.add_assoc. symmetry. apply field_ext. intros a Ha. unfold dram, s1. cbn. apply rd8_wr8_ne. lia. }
    intros p s' [-> Hsp]. rewrite Z.add_assoc in *. split; [cbn [length]; lia|]. apply spelled_cons; [apply rdc_i8 | done].
  - wpf. rewrite u32_small by lia. cbn. split; [lia|]. apply spelled_nil.
Qed.

(** The 8.3 name of a directory entry. *)
Definition full_name (m : ram) (entry : Z) : list Z :=
  let e := rd8 m (entry + o_ext) in
  trim (field m entry 8) ++ (if negb (e =? 32) && negb (e =? 0) then 46 :: trim (field m (entry + o_ext) 3) else []).

Lemma str_cstr m p l :
  0 <= p -> p + Z.of_nat (length l) < 4294967296 -> str_at m p l -> Forall (fun c => c <> 0) l ->
  rdc m (p + Z.of_nat (length l)) = 0 -> cstr m p l.
Proof.
  intros Hp Hl Hs Hnz H0. split_and!; try done. intros i Hi.
  destruct (lookup_lt_is_Some_2 l i Hi) as [c Hc]. rewrite (Hs i c Hc). split; [done|].
  by apply (Forall_lookup_1 _ _ _ _ Hnz Hc).
Qed.

Lemma str_at_app m p l1 l2 : str_at m p l1 -> str_at m (p + Z.of_nat (length l1)) l2 -> str_at m p (l1 ++ l2).
Proof.
  intros H1 H2 j c Hj. destruct (decide (j < length l1)%nat).
  - rewrite lookup_app_l in Hj by done. by apply H1.
  - rewrite lookup_app_r in Hj by lia. rewrite <- (H2 _ _ Hj). f_equal. lia.
Qed.

Lemma str_at_ext m m' p l :
  (forall a, p <= a < p + Z.of_nat (length l) -> rd8 m' a = rd8 m a) -> str_at m p l -> str_at m' p l.
Proof.
  intros E H j c Hj. rewrite <- (H j c Hj). unfold rdc. f_equal. apply E. apply lookup_lt_Some in Hj. lia.
Qed.

(** The name of a directory entry. *)
Lemma filename_spec (s : dstate) (entry out max_len : Z)
    (Ho : 0 <= out /\ out + max_len < 4294967296) (He : 0 <= entry /\ entry + 32 < 4294967296) (Hmax : 13 <= max_len)
    (Hd : out + max_len <= entry \/ entry + 32 <= out) :
  wp (fat16_get_full_relative_filename entry out max_len) s (fun _ s' =>
    (exists m, s' = set_mach (set_ram m (d_mach s)) s) /\ cstr (dram s') out (full_name (dram s) entry) /\
    forall a, a < out \/ out + max_len <= a -> rd8 (dram s') a = rd8 (dram s) a).
Proof.
  unfold fat16_get_full_relative_filename. wpf. apply wp_mach, wp_modify. wpf. set (s1 := set_mach _ s).
  assert (K1 : forall a, a < out \/ out + max_len <= a -> rd8 (dram s1) a = rd8 (dram s) a).
  { intros a Ha. unfold dram, s1. cbn. apply rd8_memset_out; lia. }
  unfold fat16_filename_to_proper_str, FAT16_MAX_FILE_NAME, FAT16_MAX_EXT_NAME, o_ext.
  wp_apply (proper_loop_spec (Z.to_nat 8) s1 0 out entry 8); try lia. cbn zeta. rewrite !Z.add_0_r.
  rewrite (field_ext (dram s) (dram s1)) by (intros; apply K1; lia). change (Z.to_nat 8) with 8%nat.
  pose proof (length_trim (field (dram s) entry 8)) as L1. rewrite length_field in L1.
  unfold full_name, o_ext. set (t1 := trim (field (dram s) entry 8)) in *.
  intros p s2 [-> Hsp2]. pose proof Hsp2 as [_ _ S2 N2 K2]. wpf. rewrite set_mach_id, (u32_small (entry + 8)) by lia. fold (dram s2).
  assert (K2' : forall a, entry <= a < entry + 32 -> rd8 (dram s2) a = rd8 (dram s) a) by (intros; rewrite K2, K1 by lia; done).
  rewrite K2' by lia. destruct (negb _ && negb _).
  - wpf. rewrite (u32_small (out + Z.of_nat (length t1))), (u32_small (out + Z.of_nat (length t1) + 1)) by lia.
    set (s3 := set_mach _ s2). wp_apply (proper_loop_spec (Z.to_nat 3) s3 0 _ (entry + 8) 3); try lia. cbn zeta. rewrite !Z.add_0_r.
    assert (K3 : forall a, a <> out + Z.of_nat (length t1) -> rd8 (dram s3) a = rd8 (dram s2) a).
    { intros a Ha. change (dram s3) with (wr8 (dram s2) (out + Z.of_nat (length t1)) 46). apply rd8_wr8_ne. lia. }
    rewrite (field_ext (dram s) (dram s3)) by (intros; rewrite K3, K2' by lia; done). change (Z.to_nat 3) with 3%nat.
    pose proof (length_trim (field (dram s) (entry + 8) 3)) as L2. rewrite length_field in L2.
    set (t2 := trim (field (dram s) (entry + 8) 3)) in *. intros p s4 [-> Hsp4]. destruct (spelled_state _ _ _ _ Hsp2) as [m2 E2], (spelled_state _ _ _ _ Hsp4) as [m4 E4].
    destruct Hsp4 as [_ _ S4 N4 K4]. wpf. split; [|split].
    + exists m4. rewrite E4. unfold s3. by rewrite E2.
    + apply str_cstr; try lia; rewrite ?length_app; cbn [length]; try lia.
      * apply str_at_app; [apply (str_at_ext (dram s2)); [|done]; intros; rewrite K4, K3 by lia; done|].
        intros [|j] c Hj; cbn in Hj; [injection Hj as <- | replace (out + Z.of_nat (length t1) + Z.of_nat (S j))
          with (out + Z.of_nat (length t1) + 1 + Z.of_nat j) by lia; by apply S4].
        rewrite Z.add_0_r. unfold rdc. rewrite K4 by lia.
        change (dram s3) with (wr8 (dram s2) (out + Z.of_nat (length t1)) 46). by rewrite rd8_wr8_eq.
      * apply Forall_app. split; [apply trim_nonzero|]. constructor; [lia | apply trim_nonzero].
      * rewrite <- N4. f_equal. lia.
    + intros a Ha. rewrite K4, K3, K2, K1 by lia. done.
  - destruct (spelled_state _ _ _ _ Hsp2) as [m2 E2]. wpf. rewrite app_nil_r.
    split; [exists m2; by rewrite E2|]. split; [|intros a Ha; rewrite K2, K1 by lia; done].
    apply str_cstr; try lia; first [apply trim_nonzero | done].
Qed.

End fat16.

(** ** Witnesses *)

(** In block 0: a file descriptor at offset 192, its item at 200 and a directory
    entry for a file of 7 bytes at 224. *)
Definition fat_ram : ram :=
  let b := block_addr 0 in
  let w a v m := wr32 m (b + a) v in
  w 192 (b + 200) (w 200 (b + 224) (w 204 1 (w 252 7 block0_ram))).
Definition fat_state : dstate :=
  mk_dstate (ready fat_ram) (mk_ata 0 0 0 0 0 0 0 0) (mk_disk 0 0 512 0x100100 (block_addr 0)).

Lemma seek_stays_inside_witness :
  exists s', fat16_seek (block_addr 0 + 192) 5 FILE_SEEK_SET fat_state = Ret 0 s' /\
    rd32 (dram s') (block_addr 0 + 196) < 7.
Proof.
  destruct (proj1 (wp_run _ _ _) (seek_stays_inside fat_state (block_addr 0 + 192) 5 FILE_SEEK_SET
    ltac:(unfold is_u32; lia))) as (r & s' & E & [[-> [_ H]]|[H _]]).
  - exists s'. split; [exact E | exact H].
  - vm_compute in E. injection E as <- _. lia.
Defined.

