(* ===== verification/Volume.v ===== *)
(** * Files on a FAT16 volume

    What the operations of fs/fat/fat16.c do together: a file of the root
    directory is found by its name, opened, read and closed. *)
From Stdlib Require Import ZArith Lia String.
From stdpp Require Import base numbers gmap list strings.
From S2P Require Import Prelude Config Memory Strings Machine Console Kheap Paging Blocks Disk Path File Fat16.
Local Open Scope Z_scope.

(** ** Memory that steps keep *)

(** The bytes that the allocator does not own are kept, those of [E] excepted,
    and no block is released. *)
Record mem_kept (E : Z -> Prop) (x y : machine) : Prop := {
  kp_mem : forall a, stable x a -> ~ E a -> rd8 (m_ram y) a = rd8 (m_ram x) a;
  kp_free : forall k, in_heap k -> entry_is_free y k = true -> entry_is_free x k = true }.

(** A step that touches nothing but memory. *)
Record ram_kept (E : Z -> Prop) (x y : machine) : Prop := {
  kp_kept :> mem_kept E x y;
  kp_ram : exists m, y = set_ram m x }.

Lemma kp_stable E x y a : mem_kept E x y -> stable x a -> stable y a.
Proof. intros K. apply stable_mono, (kp_free _ _ _ K). Qed.

Lemma mem_kept_trans E x y z : mem_kept E x y -> mem_kept E y z -> mem_kept E x z.
Proof.
  intros K1 [M2 F2]. split; [|intros k Hk Hf; by apply (kp_free _ _ _ K1), F2].
  intros a Ha He. rewrite M2, (kp_mem _ _ _ K1); auto. by apply (kp_stable E x).
Qed.

Lemma mem_kept_weaken (E E' : Z -> Prop) x y : (forall a, E a -> E' a) -> mem_kept E x y -> mem_kept E' x y.
Proof. intros H [M S]. split; [|done]. intros a Ha He. apply M; auto. Qed.

Lemma ram_kept_refl E x : ram_kept E x x.
Proof. split; [done|]. exists (m_ram x). by destruct x. Qed.

Lemma ram_kept_trans E x y z : ram_kept E x y -> ram_kept E y z -> ram_kept E x z.
Proof. intros [K1 [m1 ->]] [K2 [m2 ->]]. split; [by eapply mem_kept_trans | by exists m2]. Qed.

Lemma ram_kept_weaken (E E' : Z -> Prop) x y : (forall a, E a -> E' a) -> ram_kept E x y -> ram_kept E' x y.
Proof. intros H [K R]. split; [by apply (mem_kept_weaken E) | done]. Qed.

Lemma mem_kept_word E x y p : mem_kept E x y -> stable_range x p 4 -> (forall a, p <= a < p + 4 -> ~ E a) ->
  rd32 (m_ram y) p = rd32 (m_ram x) p.
Proof. intros K Hs He. apply rd32_ext. intros a Ha. apply (kp_mem _ _ _ K); auto. Qed.

(** Writes to [n] stable bytes at [p]. *)
Lemma ram_kept_write x m p n :
  heap_ok x -> stable_range x p n -> (forall a, a < p \/ p + n <= a -> rd8 m a = rd8 (m_ram x) a) ->
  ram_kept (fun a => p <= a < p + n) x (set_ram m x).
Proof.
  intros Hx Hs Hm. pose proof (stable_write x m p n Hs Hm) as Ht. split; [split | by exists m].
  - intros a _ Ha. cbn [set_ram m_ram]. apply Hm. lia.
  - intros k Hk. by rewrite same_table_free.
Qed.

(** Nothing is promised of a block that was free. *)
Lemma mem_kept_new E x y b m p n :
  mem_kept E x y -> heap_ok y -> in_heap b -> entry_is_free x b = true -> entry_is_free y b = false ->
  block_addr b <= p -> p + n <= block_addr b + 4096 ->
  (forall a, a < p \/ p + n <= a -> rd8 m a = rd8 (m_ram y) a) -> mem_kept E x (set_ram m y).
Proof.
  intros K Hy Hb Hf Hu Hp1 Hp2 Hm.
  assert (Hst : stable_range y p n) by (intros a Ha; apply (used_stable _ b); [done | done | unfold in_block; lia]).
  destruct (ram_kept_write y m p n Hy Hst Hm) as [[M' F'] _]. split; [|intros k Hk Hfk; by apply (kp_free _ _ _ K), F'].
  intros a Ha He. rewrite M'; [by apply K | by apply (kp_stable E x) |]. destruct Ha as [_ Ha]. specialize (Ha b Hb Hf). unfold in_block in Ha. lia.
Qed.

Lemma ram_kept_new E x y b m p n :
  ram_kept E x y -> heap_ok y -> in_heap b -> entry_is_free x b = true -> entry_is_free y b = false ->
  block_addr b <= p -> p + n <= block_addr b + 4096 ->
  (forall a, a < p \/ p + n <= a -> rd8 m a = rd8 (m_ram y) a) -> ram_kept E x (set_ram m y).
Proof. intros [K [m0 ->]] ????? ??. split; [by apply (mem_kept_new E x _ b m p n) | by exists m]. Qed.

(** One object from the allocator. *)
Lemma kzalloc_kept x A size :
  heap_rep x A -> 0 < size <= 4096 -> 0 < kheap_num_free_blocks x ->
  wp (kzalloc size) x (fun p y => exists b, p = block_addr b /\ in_heap b /\ A !! b = None /\ entry_is_free x b = true /\
    heap_rep y (<[b := 1]> A) /\ ram_kept (fun _ => False) x y /\ entry_is_free y b = false /\
    kheap_num_free_blocks y = kheap_num_free_blocks x - 1 /\
    forall a, block_addr b <= a < block_addr b + size -> rd8 (m_ram y) a = 0).
Proof.
  intros HR Hsz Hn. pose proof HR as (Hx & _). wp_apply (kzalloc_obj x A size HR Hsz Hn).
  intros p y (b & m & -> & Hb & Hf & -> & Hm & HA & HR' & Hc). exists b.
  assert (Hfree := fun k => page_taken_free x b size m k Hx Hb Hsz Hm).
  assert (K : ram_kept (fun _ => False) x (set_ram m x)).
  { split; [split | by exists m].
    - intros a Ha _. exact (page_taken_stable x b size m a Hb Hf ltac:(lia) Hm Ha).
    - intros k Hk. rewrite Hfree by done. by destruct (k =? b). }
  split_and!; try done.
  - rewrite Hfree by done. by rewrite Z.eqb_refl.
  - intros a Ha. cbn [set_ram m_ram]. rewrite Hm. by repeat case_test; try lia.
Qed.

(** ** Objects and buffers *)

(** An object of [n] bytes in used blocks of the heap. *)
Definition heap_obj (x : machine) (p n : Z) : Prop := KHEAP_ADDR <= p /\ p + n <= HEAP_END /\ stable_range x p n.

(** A local buffer, on the kernel stack. *)
Definition on_stack (p n : Z) : Prop := 0 <= p /\ p + n < 4294967296 /\ forall a, p <= a < p + n -> off_heap a.

Lemma on_stack_stable x p n : on_stack p n -> stable_range x p n.
Proof. intros (_ & _ & H) a Ha. split; [apply (H a Ha)|]. intros b Hb _. apply off_heap_block; [by apply H | done]. Qed.

Lemma stack_apart x p n q k a : heap_obj x p n -> on_stack q k -> p <= a < p + n -> a < q \/ q + k <= a.
Proof.
  intros (H1 & H2 & _) (_ & _ & H) Ha. destruct (decide (q <= a < q + k)) as [Hin|]; [|lia]. destruct (H a Hin) as [_ Ho]. lia.
Qed.

Lemma heap_obj_kept E x y p n : mem_kept E x y -> heap_obj x p n -> heap_obj y p n.
Proof. intros K (H1 & H2 & H3). split_and!; try done. intros a Ha. by apply (kp_stable _ _ _ _ K), H3. Qed.

Lemma heap_obj_u32 x p n o : heap_obj x p n -> 0 <= o < n -> u32 (p + o) = p + o.
Proof. intros (H1 & H2 & _) Ho. apply u32_small. hp. lia. Qed.

Lemma heap_obj_addr x p n : heap_obj x p n -> 0 < n -> u32 p = p.
Proof. intros H Hn. pose proof (heap_obj_u32 _ _ _ 0 H) as E. rewrite Z.add_0_r in E. apply E. lia. Qed.

Lemma heap_obj_part x p n q k : heap_obj x p n -> p <= q -> q + k <= p + n -> heap_obj x q k.
Proof. intros (H1 & H2 & H3) ? ?. split_and!; [lia | lia |]. intros a Ha. apply H3. lia. Qed.

(** ** Directories *)

(** A directory with [n] entries of 32 bytes. *)
Record directory (x : machine) (dir entries n : Z) : Prop := {
  dr_obj : heap_obj x dir SIZEOF_FAT16_DIR;
  dr_entries : rd32 (m_ram x) dir = entries;
  dr_count : rd32 (m_ram x) (dir + o_total_entries) = n;
  dr_range : 0 <= n < 2147483648;
  dr_items : heap_obj x entries (32 * n) }.

(** Names are compared without regard to the case of letters. *)
Definition names_match (l1 l2 : list Z) : bool := bool_decide (to_lower <$> l1 = to_lower <$> l2).

(** The entry that a name denotes: the first one with that name. *)
Definition dir_find (m : ram) (entries i : Z) (n : nat) (name : list Z) : option Z :=
  find (fun j => names_match (full_name m (entries + 32 * j)) name) (seqZ i (Z.of_nat n)).

Lemma dir_find_S m entries i n name :
  dir_find m entries i (S n) name =
  if names_match (full_name m (entries + 32 * i)) name then Some i else dir_find m entries (i + 1) n name.
Proof. unfold dir_find. rewrite seqZ_cons by lia. cbn [find]. replace (Z.pred (Z.of_nat (S n))) with (Z.of_nat n) by lia. done. Qed.

Lemma dir_find_some m entries n name : forall i j, dir_find m entries i n name = Some j -> i <= j < i + Z.of_nat n.
Proof.
  induction n as [|n IH]; intros i j; [done|]. rewrite dir_find_S.
  destruct (names_match _ _); [intros [= <-]; lia|]. intros H%IH. lia.
Qed.

Lemma length_full_name m p : (length (full_name m p) <= 12)%nat.
Proof.
  unfold full_name. rewrite length_app. pose proof (length_trim (field m p 8)). pose proof (length_trim (field m (p + o_ext) 3)).
  rewrite !length_field in *. destruct (_ && _); cbn [length]; lia.
Qed.

Lemma full_name_ext m m' p : (forall a, p <= a < p + 32 -> rd8 m' a = rd8 m a) -> full_name m' p = full_name m p.
Proof.
  intros H. unfold full_name, o_ext. rewrite (field_ext m m' p 8), (field_ext m m' (p + 8) 3), H; try done; try lia; intros; apply H; lia.
Qed.

Lemma dir_find_ext m m' entries name n : forall i,
  (forall a, entries + 32 * i <= a < entries + 32 * (i + Z.of_nat n) -> rd8 m' a = rd8 m a) ->
  dir_find m' entries i n name = dir_find m entries i n name.
Proof.
  induction n as [|n IH]; intros i H; [done|]. rewrite !dir_find_S, (full_name_ext m m'), IH; try done; intros; apply H; lia.
Qed.

(** istrncmp on a name of a directory entry. *)
Lemma istrncmp_name m p q l name :
  cstr m p l -> cstr m q name -> (length l <= 12)%nat -> (istrncmp m p q FS_MAX_PATH_LEN =? 0) = names_match l name.
Proof.
  intros Hp Hq Hl. apply eq_bool_prop_intro. rewrite !Is_true_true, Z.eqb_eq, (istrncmp_zero m p q l name) by done.
  unfold names_match. rewrite bool_decide_eq_true. change (Z.to_nat FS_MAX_PATH_LEN) with 108%nat.
  rewrite take_ge by (rewrite length_fmap; lia). split; [|intros <-; by rewrite take_ge by (rewrite length_fmap; lia)].
  intros E. rewrite E. apply take_ge. apply (f_equal length) in E. rewrite length_take, !length_fmap in E. rewrite length_fmap. lia.
Qed.

Section volume.
Context {plat : Platform}.

(** The local [tmp_filename] of the search. *)
Definition in_name (a : Z) : Prop := stack_name <= a < stack_name + FS_MAX_PATH_LEN.

(** A state of the same disk layer on another machine state. *)
Definition on_machine (E : Z -> Prop) (s s' : dstate) : Prop := s' = set_mach (d_mach s') s /\ ram_kept E (d_mach s) (d_mach s').

Lemma on_machine_refl E s : on_machine E s s.
Proof. split; [by rewrite set_mach_id | apply ram_kept_refl]. Qed.

Lemma on_machine_trans E s1 s2 s3 : on_machine E s1 s2 -> on_machine E s2 s3 -> on_machine E s1 s3.
Proof. intros [E1 K1] [E2 K2]. split; [rewrite E2, E1; by destruct s1 | by apply (ram_kept_trans E _ (d_mach s2))]. Qed.

Lemma on_machine_disk E s s' : on_machine E s s' -> d_disk s' = d_disk s.
Proof. by intros [-> _]. Qed.

Lemma directory_kept E x y dir entries n :
  mem_kept E x y -> (forall a, KHEAP_ADDR <= a < HEAP_END -> ~ E a) -> directory x dir entries n -> directory y dir entries n.
Proof.
  intros K He [O E1 E2 R I]. pose proof O as (H1 & H2 & H3). unfold SIZEOF_FAT16_DIR, o_total_entries in *.
  split; try done; try (by apply (heap_obj_kept E x)).
  - rewrite <- E1. apply (mem_kept_word E); [done | intros a Ha; apply H3; lia | intros a Ha; apply He; lia].
  - rewrite <- E2. apply (mem_kept_word E); [done | intros a Ha; apply H3; lia | intros a Ha; apply He; lia].
Qed.

Lemma cstr_kept E x y p l :
  mem_kept E x y -> heap_obj x p (Z.of_nat (length l) + 1) -> (forall a, KHEAP_ADDR <= a < HEAP_END -> ~ E a) ->
  cstr (m_ram x) p l -> cstr (m_ram y) p l.
Proof.
  intros K (H1 & H2 & H3) He. apply cstr_ext. intros a Ha. apply (kp_mem _ _ _ K); [apply H3; lia | apply He; lia].
Qed.

Lemma in_name_off a : on_stack stack_name FS_MAX_PATH_LEN -> KHEAP_ADDR <= a < HEAP_END -> ~ in_name a.
Proof. intros (_ & _ & H) Ha Hin. destruct (H a Hin) as [_ Ho]. lia. Qed.

(** The search for a name. *)
Lemma find_item_spec n' : forall i s dir entries n fname name (Q : Z -> dstate -> Prop),
  heap_ok (d_mach s) -> on_stack stack_name FS_MAX_PATH_LEN -> directory (d_mach s) dir entries n ->
  heap_obj (d_mach s) fname (Z.of_nat (length name) + 1) -> cstr (dram s) fname name ->
  0 <= i -> i + Z.of_nat n' <= n ->
  match dir_find (dram s) entries i n' name with
  | None => forall s1, on_machine in_name s s1 -> same_table (d_mach s) (dram s1) -> Q 0 s1
  | Some j => forall s1, on_machine in_name s s1 -> same_table (d_mach s) (dram s1) ->
      wp (fat16_new_fat_item_from_dir_entry (entries + 32 * j)) s1 Q
  end -> wp (find_item n' dir i fname) s Q.
Proof.
  induction n' as [|n' IH]; intros i s dir entries n fname name Q Hs Hst HD Hfo Hfn Hi Hn HQ; cbn [find_item].
  { wpf. apply HQ; [apply on_machine_refl | done]. }
  pose proof (dr_obj _ _ _ _ HD) as Hdo. pose proof (dr_items _ _ _ _ HD) as Hio. wpf. rewrite set_mach_id.
  rewrite (heap_obj_addr _ _ _ Hdo) by done. rewrite (dr_entries _ _ _ _ HD). unfold SIZEOF_DIR_ENTRY. rewrite (heap_obj_u32 _ _ _ (32 * i) Hio) by lia.
  set (entry := entries + 32 * i). pose proof Hst as (Hs0 & Hs1 & _). pose proof Hio as (Hi1 & Hi2 & _).
  assert (Hd : stack_name + FS_MAX_PATH_LEN <= entry \/ entry + 32 <= stack_name).
  { pose proof (stack_apart _ _ _ _ _ entry Hio Hst ltac:(unfold entry; lia)).
    pose proof (stack_apart _ _ _ _ _ (entry + 31) Hio Hst ltac:(unfold entry; lia)).
    destruct (decide (entry < stack_name)); [|unfold FS_MAX_PATH_LEN in *; lia].
    pose proof (stack_apart _ _ _ _ _ stack_name Hio Hst) as Hx. unfold FS_MAX_PATH_LEN, entry in *. lia. }
  wp_apply (filename_spec s entry stack_name FS_MAX_PATH_LEN (conj Hs0 Hs1) ltac:(unfold entry; hp; lia) ltac:(done) Hd).
  intros _ s1 ((m & ->) & Hnm & Hk). wpf.
  assert (K : on_machine in_name s (set_mach (set_ram m (d_mach s)) s)).
  { split; [done|]. apply ram_kept_write; [done | by apply on_stack_stable | exact Hk]. }
  assert (Hoff := fun a => in_name_off a Hst).
  assert (Ht : same_table (d_mach s) m) by (apply (stable_write _ _ stack_name FS_MAX_PATH_LEN); [by apply on_stack_stable | exact Hk]).
  assert (Hfn1 := cstr_kept in_name _ _ fname name (proj2 K) Hfo Hoff Hfn).
  pose proof (istrncmp_name _ _ _ _ _ Hnm Hfn1 (length_full_name _ _)) as Ec. unfold dram in Ec. rewrite Ec.
  rewrite dir_find_S in HQ. fold entry in HQ. unfold dram in HQ.
  destruct (names_match (full_name (m_ram (d_mach s)) entry) name); [by apply HQ|].
  apply (IH (i + 1) _ dir entries n fname name); try done; try lia.
  - by apply (directory_kept in_name (d_mach s)); [apply K|..].
  - by apply (heap_obj_kept in_name (d_mach s)); [apply K|].
  - unfold dram. rewrite (dir_find_ext (m_ram (d_mach s))).
    2: { intros a Ha. apply (kp_mem _ _ _ (proj2 K)); [destruct Hio as (_ & _ & Hx); apply Hx; lia | apply Hoff; lia]. }
    destruct (dir_find _ _ _ _ _); intros s2 K2 T2; (apply HQ; [by apply (on_machine_trans _ _ _ _ K) | intros k Hk'; rewrite T2, Ht by done; done]).
Qed.

(** ** Items *)

(** The item in block [i] is a file; block [e] has its directory entry. *)
Record file_item (m : ram) (i e : Z) : Prop := {
  fi_entry : rd32 m (block_addr i) = block_addr e;
  fi_type : rd32 m (block_addr i + o_item_type) = FAT16_ITEM_TYPE_FILE }.

Lemma file_item_ext m m' i e :
  (forall a, in_block i a -> rd8 m' a = rd8 m a) -> file_item m i e -> file_item m' i e.
Proof.
  intros H [H1 H2]. unfold in_block, o_item_type in *. split; unfold o_item_type; [rewrite <- H1 | rewrite <- H2];
    apply rd32_ext; intros a Ha; apply H; lia.
Qed.

(** A block that a step has taken. *)
Record taken (x y : machine) (A : gmap Z Z) (b : Z) : Prop := {
  tk_heap : in_heap b;
  tk_free : entry_is_free x b = true;
  tk_new : A !! b = None;
  tk_used : entry_is_free y b = false }.

Lemma rep_used x A b : heap_rep x A -> in_heap b -> A !! b = Some 1 -> entry_is_free x b = false.
Proof.
  intros HR Hb HA. apply not_true_iff_false. intros Hf. apply (rep_free x A b HR Hb) in Hf. apply Hf. exists b, 1. split; [done | lia].
Qed.

(** fat16_clone_dir_entry: a copy of the entry in a block of its own. *)
Lemma clone_spec s A entry :
  heap_rep (d_mach s) A -> 0 < kheap_num_free_blocks (d_mach s) -> heap_obj (d_mach s) entry 32 ->
  wp (fat16_clone_dir_entry entry) s (fun p s' => exists e, p = block_addr e /\ taken (d_mach s) (d_mach s') A e /\
    heap_rep (d_mach s') (<[e := 1]> A) /\ on_machine (fun _ => False) s s' /\
    kheap_num_free_blocks (d_mach s') = kheap_num_free_blocks (d_mach s) - 1 /\
    forall k, 0 <= k < 32 -> rd8 (dram s') (block_addr e + k) = rd8 (dram s) (entry + k)).
Proof.
  intros HR Hn Ho. pose proof Ho as (H1 & H2 & H3). unfold fat16_clone_dir_entry. wp_step. apply wp_mach.
  wp_apply (kzalloc_kept (d_mach s) A SIZEOF_DIR_ENTRY HR ltac:(done) Hn).
  intros p y (e & -> & He & HA & Hf & HR' & K & Hu & Hc & _). rewrite (proj2 (Z.eqb_neq _ 0)) by (blk; lia). wp_step.
  apply wp_mach, wp_modify. wpf. unfold SIZEOF_DIR_ENTRY. exists e. pose proof (kp_ram _ _ _ K) as [m ->].
  cbn [set_mach d_mach on_ram set_ram m_ram].
  assert (Hd : entry + 32 <= block_addr e \/ block_addr e + 4096 <= entry) by (apply (stable_apart (d_mach s)); try done; lia).
  assert (Hm : forall a, a < block_addr e \/ block_addr e + 32 <= a -> rd8 (memcpy (block_addr e) entry 32 m) a = rd8 m a).
  { intros a Ha. rewrite rd8_memcpy by (blk; lia). by repeat case_test; try lia. }
  set (m' := memcpy (block_addr e) entry 32 m) in *.
  assert (Ht : same_table (set_ram m (d_mach s)) m') by (intros k Hk; apply Hm; blk; lia).
  assert (HR2 : heap_rep (set_ram m' (d_mach s)) (<[e := 1]> A)) by exact (heap_rep_ram _ m' _ HR' Ht).
  pose proof HR' as (Hy & _). split; [done|]. split; [split; try done|].
  { apply (rep_used _ _ e HR2 He). apply lookup_insert_eq. }
  split; [done|]. split; [split; [done|]|].
  { apply (ram_kept_new _ (d_mach s) (set_ram m (d_mach s)) e m' (block_addr e) 32 K); try done; lia. }
  split.
  { rewrite <- Hc. apply num_free_ext; [done | done |]. intros k Hk. exact (same_table_free _ m' k Hy Ht Hk). }
  intros k Hk. transitivity (rd8 m (entry + k)); [change (rd8 m' (block_addr e + k) = rd8 m (entry + k)) | apply (kp_mem _ _ _ K); [apply H3; lia | exact (fun H => H)]].
  unfold m'. rewrite rd8_memcpy by (blk; lia).
  rewrite (proj2 (Z.leb_le _ _)), (proj2 (Z.ltb_lt _ _)) by lia. cbn [andb].
  f_equal. lia.
Qed.

(** Writing words into a block that has been taken. *)
Lemma store_taken E s s1 A b m :
  on_machine E s s1 -> heap_rep (d_mach s1) A -> in_heap b -> entry_is_free (d_mach s) b = true -> A !! b = Some 1 ->
  (forall a, a < block_addr b \/ block_addr b + 8 <= a -> rd8 m a = rd8 (dram s1) a) ->
  let s' := set_mach (set_ram m (d_mach s1)) s1 in
  on_machine E s s' /\ heap_rep (d_mach s') A /\ kheap_num_free_blocks (d_mach s') = kheap_num_free_blocks (d_mach s1) /\
  forall k, in_heap k -> entry_is_free (d_mach s') k = entry_is_free (d_mach s1) k.
Proof.
  intros [E1 K] HR Hb Hf HA Hm s'. pose proof HR as (Hs1 & _). pose proof (rep_used _ _ b HR Hb HA) as Hu.
  assert (Ht : same_table (d_mach s1) m) by (intros k Hk; apply Hm; blk; lia).
  assert (HR' : heap_rep (d_mach s') A) by by apply heap_rep_ram.
  assert (Hfr : forall k, in_heap k -> entry_is_free (d_mach s') k = entry_is_free (d_mach s1) k) by (intros k Hk; by apply same_table_free).
  split; [split|].
  - unfold s'. rewrite E1. by destruct s.
  - apply (ram_kept_new E (d_mach s) (d_mach s1) b m (block_addr b) 8 K); try done; lia.
  - split; [done|]. split; [|done]. apply num_free_ext; [done | apply HR' | done].
Qed.

(** Between [s] and [s'], a file item for the directory entry at [entry] has been
    built in the fresh blocks [i] and [e], on top of the allocations [A]. *)
Record new_item (s s' : dstate) (A : gmap Z Z) (entry i e : Z) : Prop := {
  ni_heap : in_heap i /\ in_heap e;
  ni_new : A !! i = None /\ A !! e = None /\ e <> i;
  ni_free : entry_is_free (d_mach s) i = true /\ entry_is_free (d_mach s) e = true;
  ni_rep : heap_rep (d_mach s') (<[e := 1]> (<[i := 1]> A));
  ni_count : kheap_num_free_blocks (d_mach s') = kheap_num_free_blocks (d_mach s) - 2;
  ni_item : file_item (dram s') i e;
  ni_copy : forall k, 0 <= k < 32 -> rd8 (dram s') (block_addr e + k) = rd8 (dram s) (entry + k) }.

(** fat16_new_fat_item_from_dir_entry for a file. *)
Lemma new_item_spec s A entry :
  heap_rep (d_mach s) A -> 2 <= kheap_num_free_blocks (d_mach s) -> heap_obj (d_mach s) entry 32 ->
  Z.land (rd8 (dram s) (entry + o_attribs)) FAT16_ATTR_SUB_DIRECTORY = 0 ->
  wp (fat16_new_fat_item_from_dir_entry entry) s (fun p s' =>
    exists i e, p = block_addr i /\ on_machine (fun _ => False) s s' /\ new_item s s' A entry i e).
Proof.
  intros HR Hn Ho Hat. pose proof Ho as (H1 & H2 & H3). unfold fat16_new_fat_item_from_dir_entry. wp_step. apply wp_mach.
  wp_apply (kzalloc_kept (d_mach s) A SIZEOF_FAT16_ITEM HR ltac:(done) ltac:(lia)).
  intros p y (i & -> & Hi & HA & Hf & HR1 & K1 & Hu1 & Hc1 & _). rewrite (proj2 (Z.eqb_neq _ 0)) by (blk; lia). wpf.
  set (s1 := set_mach y s). assert (K1' : on_machine (fun _ => False) s s1) by done.
  rewrite (heap_obj_u32 _ _ _ o_attribs Ho) by done. change (rd8 (m_ram (d_mach s1))) with (rd8 (m_ram y)).
  rewrite (kp_mem _ _ _ K1 _ (H3 (entry + o_attribs) ltac:(unfold o_attribs; lia)) (fun H => H)). fold (dram s). rewrite Hat. cbn [Z.eqb negb].
  change (set_mach (d_mach s1) s1) with s1. wp_step.
  wp_apply (clone_spec s1 _ entry HR1 ltac:(change (d_mach s1) with y; lia) (heap_obj_kept _ _ _ _ _ K1 Ho)).
  intros p s2 (e & -> & [He Hfe HAe Hue] & HR2 & K2 & Hc2 & Hcp). wpf.
  apply lookup_insert_None in HAe as [HAe Hie]. rewrite (u32_small (block_addr i)), (u32_small (block_addr i + o_item_type)) by (unfold o_item_type; blk; lia).
  set (m := wr32 (wr32 (dram s2) (block_addr i) (block_addr e)) (block_addr i + o_item_type) FAT16_ITEM_TYPE_FILE).
  assert (Hm : forall a, a < block_addr i \/ block_addr i + 8 <= a -> rd8 m a = rd8 (dram s2) a)
    by (intros a Ha; unfold m, o_item_type; rewrite !rd8_wr32 by lia; done).
  destruct (store_taken (fun _ => False) s s2 _ i m (on_machine_trans _ _ _ _ K1' K2) HR2 Hi Hf) as (K3 & HR3 & Hc3 & _);
    [by rewrite lookup_insert_ne, lookup_insert_eq | done |].
  exists i, e. split; [done|]. split; [done|]. split; try done.
  - split; [done|]. by apply (kp_free _ _ _ K1).
  - etransitivity; [exact Hc3|]. change (d_mach s1) with y in Hc2. lia.
  - change (file_item m i e). unfold m. split; unfold o_item_type.
    + rewrite rd32_wr32_ne, rd32_wr32 by lia. apply u32_small. blk. lia.
    + by rewrite rd32_wr32.
  - intros k Hk. transitivity (rd8 (dram s2) (block_addr e + k)).
    + apply Hm. assert (block_addr e + 4096 <= block_addr i \/ block_addr i + 4096 <= block_addr e) by (blk; lia). lia.
    + rewrite Hcp by done. apply (kp_mem _ _ _ K1 _ (H3 (entry + k) ltac:(lia)) (fun H => H)).
Qed.

(** ** Opening *)

(** A mounted volume with its root directory in memory. *)
Record volume (s : dstate) (priv spc data entries n : Z) : Prop := {
  vl_mounted : mounted s priv spc data;
  vl_priv : heap_obj (d_mach s) priv SIZEOF_FAT16_PRIVATE;
  vl_root : directory (d_mach s) (priv + o_root_dir) entries n }.

Lemma volume_kept E s s' priv spc data entries n :
  d_disk s' = d_disk s -> mem_kept E (d_mach s) (d_mach s') -> (forall a, KHEAP_ADDR <= a < HEAP_END -> ~ E a) -> volume s priv spc data entries n -> volume s' priv spc data entries n.
Proof.
  intros E1 KK He [[M1 M2 M3 M4 M5] P R]. pose proof P as (P1 & P2 & P3). split.
  - split; rewrite ?E1; try done; unfold dram in *.
    + rewrite <- M4. apply (kp_mem _ _ _ KK); [apply P3 | apply He]; unfold SIZEOF_FAT16_PRIVATE, o_sectors_per_cluster in *; lia.
    + rewrite <- M5. apply (mem_kept_word E); [done | intros a Ha; apply P3 | intros a Ha; apply He];
        unfold SIZEOF_FAT16_PRIVATE, o_root_dir, o_end_sector in *; lia.
  - by apply (heap_obj_kept E (d_mach s)).
  - by apply (directory_kept E (d_mach s)).
Qed.

(** A path with one part, the name [name]. *)
Record single_path (x : machine) (path fname : Z) (name : list Z) : Prop := {
  pa_obj : heap_obj x path 8;
  pa_name : rd32 (m_ram x) path = fname;
  pa_next : rd32 (m_ram x) (path + 4) = 0;
  pa_str : heap_obj x fname (Z.of_nat (length name) + 1);
  pa_cstr : cstr (m_ram x) fname name }.

Lemma single_path_kept E x y path fname name :
  mem_kept E x y -> (forall a, KHEAP_ADDR <= a < HEAP_END -> ~ E a) -> single_path x path fname name -> single_path y path fname name.
Proof.
  intros K He [(P1 & P2 & P3) N X S C]. split.
  - by apply (heap_obj_kept E x).
  - rewrite <- N. apply (mem_kept_word E); [done | intros a Ha; apply P3; lia | intros a Ha; apply He; lia].
  - rewrite <- X. apply (mem_kept_word E); [done | intros a Ha; apply P3; lia | intros a Ha; apply He; lia].
  - by apply (heap_obj_kept E x).
  - by apply (cstr_kept E x).
Qed.

(** fat16_get_dir_entry: the item of the file that the path names. *)
Lemma get_dir_entry_spec s A priv spc data entries n path fname name :
  heap_rep (d_mach s) A -> 2 <= kheap_num_free_blocks (d_mach s) -> on_stack stack_name FS_MAX_PATH_LEN ->
  volume s priv spc data entries n -> single_path (d_mach s) path fname name ->
  (forall j, dir_find (dram s) entries 0 (Z.to_nat n) name = Some j ->
     Z.land (rd8 (dram s) (entries + 32 * j + o_attribs)) FAT16_ATTR_SUB_DIRECTORY = 0) ->
  wp (fat16_get_dir_entry path) s (fun p s' => on_machine in_name s s' /\
    match dir_find (dram s) entries 0 (Z.to_nat n) name with
    | None => p = 0 /\ heap_rep (d_mach s') A
    | Some j => exists i e, p = block_addr i /\ new_item s s' A (entries + 32 * j) i e
    end).
Proof.
  intros HR Hn Hst HV HP Hat. pose proof HR as (Hs & _). pose proof (vl_root _ _ _ _ _ _ HV) as HD. pose proof (dr_range _ _ _ _ HD) as Hr.
  pose proof (dr_items _ _ _ _ HD) as Hio. pose proof Hio as (I1 & I2 & I3). assert (Hoff := fun a => in_name_off a Hst).
  unfold fat16_get_dir_entry, fat16_find_item_in_dir_by_name. wpf. rewrite !set_mach_id.
  rewrite (mt_priv _ _ _ _ (vl_mounted _ _ _ _ _ _ HV)), (heap_obj_addr _ _ _ (pa_obj _ _ _ _ HP)), (pa_name _ _ _ _ HP) by done.
  rewrite (heap_obj_u32 _ _ _ o_root_dir (vl_priv _ _ _ _ _ _ HV)) by done.
  rewrite (heap_obj_u32 _ _ _ o_total_entries (dr_obj _ _ _ _ HD)), (dr_count _ _ _ _ HD), i32_small by (done || lia).
  apply (find_item_spec (Z.to_nat n) 0 s (priv + o_root_dir) entries n fname name); try done; try apply HP; try lia.
  destruct (dir_find (dram s) entries 0 (Z.to_nat n) name) as [j|] eqn:Ej.
  - intros s1 K1 T1. apply dir_find_some in Ej as Hj.
    assert (Eb : forall a, entries <= a < entries + 32 * n -> rd8 (dram s1) a = rd8 (dram s) a).
    { intros a Ha. apply (kp_mem _ _ _ (proj2 K1)); [apply I3; lia | apply Hoff; lia]. }
    assert (Es1 : d_mach s1 = set_ram (dram s1) (d_mach s)) by (destruct (kp_ram _ _ _ (proj2 K1)) as [m E]; unfold dram; by rewrite E).
    assert (HR1 : heap_rep (d_mach s1) A) by (rewrite Es1; by apply heap_rep_ram).
    assert (Hc1 : kheap_num_free_blocks (d_mach s1) = kheap_num_free_blocks (d_mach s)) by by apply (rep_num_free _ _ _ HR HR1).
    wp_apply (new_item_spec s1 A (entries + 32 * j) HR1 ltac:(lia)).
    { apply (heap_obj_part _ entries (32 * n)); [by apply (heap_obj_kept in_name (d_mach s)); [apply K1|] | lia | lia]. }
    { rewrite Eb by (unfold o_attribs; lia). by apply Hat. }
    intros p s2 (i & e & -> & K2 & [[Hi He] (HAi & HAe & Hne) [Hfi Hfe] HR2 Hc2 FI Hcp]).
    assert (K12 : on_machine in_name s s2).
    { apply (on_machine_trans _ s s1); [done|]. destruct K2 as [E2 K2]. split; [done|]. by apply (ram_kept_weaken (fun _ => False)). }
    rewrite (proj2 (Z.eqb_neq _ 0)) by (blk; lia). pose proof (single_path_kept _ _ _ _ _ _ (proj2 K12) Hoff HP) as HP2.
    change (Z.to_nat FS_MAX_PATH_LEN) with 108%nat. cbn [walk_path]. wpf. rewrite set_mach_id.
    rewrite (heap_obj_u32 _ _ _ 4 (pa_obj _ _ _ _ HP2)), (pa_next _ _ _ _ HP2) by done. wpf. split; [done|].
    exists i, e. split; [done|]. split; try done; [|lia|].
    + split; by apply (kp_free _ _ _ (proj2 K1)).
    + intros k Hk. rewrite Hcp by done. apply Eb. lia.
  - intros s1 K1 T1. wpf. split; [done|]. split; [done|].
    assert (Es1 : d_mach s1 = set_ram (dram s1) (d_mach s)) by (destruct (kp_ram _ _ _ (proj2 K1)) as [m E]; unfold dram; by rewrite E).
    rewrite Es1. by apply heap_rep_ram.
Qed.

(** The descriptor in block [f] at position [pos]: its item is in block [i], its
    directory entry in block [e]. *)
Record opened (m : ram) (f i e pos : Z) : Prop := {
  op_item : rd32 m (block_addr f) = block_addr i;
  op_pos : rd32 m (block_addr f + o_pos) = pos;
  op_file : file_item m i e }.

(** The three blocks of an open file, on top of the allocations [A]. *)
Record file_blocks (A : gmap Z Z) (f i e : Z) : Prop := {
  fb_heap : in_heap f /\ in_heap i /\ in_heap e;
  fb_new : A !! f = None /\ A !! i = None /\ A !! e = None;
  fb_apart : f <> i /\ f <> e /\ i <> e }.

Definition with_file (A : gmap Z Z) (f i e : Z) : gmap Z Z := <[e := 1]> (<[i := 1]> (<[f := 1]> A)).

(** A word of a block that is not the one written. *)
Lemma other_block m m' b c a :
  in_heap b -> in_heap c -> b <> c -> (forall x, x < block_addr b \/ block_addr b + 8 <= x -> rd8 m' x = rd8 m x) ->
  in_block c a -> rd8 m' a = rd8 m a.
Proof. intros Hb Hc Hne H Ha. apply H. unfold in_block in Ha. blk. lia. Qed.

(** Releasing what was taken since [s]. *)
Lemma on_machine_free E s s1 A b :
  heap_rep (d_mach s) A -> on_machine E s s1 -> heap_rep (d_mach s1) (<[b := 1]> A) -> A !! b = None ->
  wp (mach (kfree (block_addr b))) s1 (fun _ s' => on_machine E s s' /\ heap_rep (d_mach s') A).
Proof.
  intros HR [E1 K] HR1 HA. apply wp_mach. wp_apply (kfree_block (d_mach s1) _ b _ HR1 (lookup_insert_eq _ _ _)); [unfold in_block; lia|].
  intros r y (HR2 & (m & ->) & Hm). rewrite delete_insert_id in HR2 by done. split; [|done]. split.
  - rewrite E1. by destruct s.
  - pose proof (kp_ram _ _ _ K) as [m1 Em1]. split; [split | exists m; cbn [set_mach d_mach]; by rewrite Em1].
    + intros a Ha He. cbn [set_mach d_mach]. rewrite Hm by apply Ha. by apply (kp_mem _ _ _ K).
    + intros k Hk. cbn [set_mach d_mach]. by rewrite (rep_entry_free _ _ A k HR HR2 Hk).
Qed.

(** The descriptor, written into its block [f]: the item in block [i] and the
    position, which the allocation left at 0. *)
Lemma opened_write m m' f i e pos :
  in_heap f -> in_heap i -> f <> i -> file_item m i e -> rd32 m (block_addr f + o_pos) = pos ->
  m' = wr32 m (block_addr f) (block_addr i) -> opened m' f i e pos.
Proof.
  intros Hf Hi Hne FI Hp ->. split.
  - rewrite rd32_wr32. apply u32_small. blk. lia.
  - rewrite <- Hp. unfold o_pos. apply rd32_wr32_ne. lia.
  - apply (file_item_ext m); [|done]. intros a Ha. apply rd8_wr32. unfold in_block in Ha. blk. lia.
Qed.

(** What a successful open leaves: the descriptor, the item and the copy of the
    directory entry at [entry], in three blocks that were free. *)
Record open_file (s s' : dstate) (A : gmap Z Z) (entry f i e : Z) : Prop := {
  of_blocks : file_blocks A f i e;
  of_free : forall b, b = f \/ b = i \/ b = e -> entry_is_free (d_mach s) b = true;
  of_rep : heap_rep (d_mach s') (with_file A f i e);
  of_count : kheap_num_free_blocks (d_mach s') = kheap_num_free_blocks (d_mach s) - 3;
  of_opened : opened (dram s') f i e 0;
  of_entry : forall k, 0 <= k < 32 -> rd8 (dram s') (block_addr e + k) = rd8 (dram s) (entry + k) }.

(** The first steps of an open: a descriptor at position 0. *)
Lemma new_fd_spec s A err (K : Z -> M dstate Z) (Q : Z -> dstate -> Prop) :
  heap_rep (d_mach s) A -> 0 < kheap_num_free_blocks (d_mach s) ->
  (forall f s', in_heap f -> A !! f = None -> entry_is_free (d_mach s) f = true -> on_machine (fun _ => False) s s' ->
     heap_rep (d_mach s') (<[f := 1]> A) -> kheap_num_free_blocks (d_mach s') = kheap_num_free_blocks (d_mach s) - 1 ->
     rd32 (dram s') (block_addr f + o_pos) = 0 -> wp (K (block_addr f)) s' Q) ->
  wp (fd ← mach (kzalloc SIZEOF_FAT16_FD); if fd =? 0 then mret err else st32 (fd + o_pos) 0;; K fd) s Q.
Proof.
  intros HR Hn HQ. wp_step. apply wp_mach. wp_apply (kzalloc_kept (d_mach s) A SIZEOF_FAT16_FD HR ltac:(done) Hn).
  intros p y (f & -> & Hf & HAf & Hff & HR1 & K1 & Hu1 & Hc1 & _). rewrite (proj2 (Z.eqb_neq _ 0)) by (blk; lia). wpf.
  rewrite (u32_small (block_addr f + o_pos)) by (unfold o_pos; blk; lia).
  set (s1 := set_mach y s). assert (K1' : on_machine (fun _ => False) s s1) by done.
  destruct (store_taken _ s s1 _ f (wr32 (dram s1) (block_addr f + o_pos) 0) K1' HR1 Hf Hff (lookup_insert_eq _ _ _))
    as (K2 & HR2 & Hc2 & _).
  { intros a Ha. unfold o_pos. apply rd8_wr32. lia. }
  apply (HQ f); try done; [by rewrite <- Hc1|]. apply rd32_wr32.
Qed.

(** Opening a file of the root directory. *)
Lemma open_spec s A priv spc data entries n disk path fname name :
  heap_rep (d_mach s) A -> 3 <= kheap_num_free_blocks (d_mach s) -> on_stack stack_name FS_MAX_PATH_LEN ->
  volume s priv spc data entries n -> single_path (d_mach s) path fname name ->
  (forall j, dir_find (dram s) entries 0 (Z.to_nat n) name = Some j ->
     Z.land (rd8 (dram s) (entries + 32 * j + o_attribs)) FAT16_ATTR_SUB_DIRECTORY = 0) ->
  wp (fat16_open disk path FILE_READ) s (fun r s' => on_machine in_name s s' /\
    match dir_find (dram s) entries 0 (Z.to_nat n) name with
    | None => r = ERROR (- STATUS_IO_ERROR) /\ heap_rep (d_mach s') A
    | Some j => exists f i e, r = block_addr f /\ open_file s s' A (entries + 32 * j) f i e
    end).
Proof.
  intros HR Hn Hst HV HP Hat. pose proof (vl_root _ _ _ _ _ _ HV) as HD. pose proof (dr_items _ _ _ _ HD) as (I1 & I2 & I3).
  pose proof (dr_range _ _ _ _ HD) as Hr. unfold fat16_open. rewrite Z.eqb_refl. cbn [negb].
  apply (new_fd_spec s A _ _ _ HR ltac:(lia)). intros f s2 Hf HAf Hff K2 HR2 Hc2 Hp2.
  pose proof (volume_kept _ _ _ _ _ _ _ _ (on_machine_disk _ _ _ K2) (proj2 K2) ltac:(tauto) HV) as HV2. pose proof (single_path_kept _ _ _ _ _ _ (proj2 K2) ltac:(tauto) HP) as HP2.
  assert (Eb : forall a, entries <= a < entries + 32 * n -> rd8 (dram s2) a = rd8 (dram s) a).
  { intros a Ha. apply (kp_mem _ _ _ (proj2 K2)); [apply I3; lia | exact (fun H => H)]. }
  assert (Ef : dir_find (dram s2) entries 0 (Z.to_nat n) name = dir_find (dram s) entries 0 (Z.to_nat n) name)
    by (apply dir_find_ext; intros a Ha; apply Eb; lia).
  wp_step. wp_apply (get_dir_entry_spec s2 _ priv spc data entries n path fname name HR2 ltac:(lia) Hst HV2 HP2).
  { rewrite Ef. intros j Hj. rewrite Eb; [by apply Hat|]. apply dir_find_some in Hj. unfold o_attribs. lia. }
  rewrite Ef. intros p s3 (K3 & Hres).
  assert (K3' : on_machine in_name s s3).
  { apply (on_machine_trans _ s s2); [|done]. destruct K2 as [E2 K2]. split; [done|]. by apply (ram_kept_weaken (fun _ => False)). }
  assert (Hp3 : rd32 (dram s3) (block_addr f + o_pos) = 0).
  { rewrite <- Hp2. apply (mem_kept_word in_name); unfold o_pos; [apply K3 | | intros a Ha; apply in_name_off; [done | blk; lia]].
    intros a Ha. apply (used_stable _ f); [done | by apply (rep_used _ _ _ HR2 Hf), lookup_insert_eq | unfold in_block; lia]. }
  wpf. rewrite (u32_small (block_addr f)) by (blk; lia). set (m3 := wr32 (dram s3) (block_addr f) p).
  assert (Hm3 : forall a, a < block_addr f \/ block_addr f + 8 <= a -> rd8 m3 a = rd8 (dram s3) a) by (intros a Ha; apply rd8_wr32; lia).
  set (s4 := set_mach (set_ram m3 (d_mach s3)) s3). change (set_mach _ s3) with s4. change (rd32 (m_ram (d_mach s4))) with (rd32 m3).
  change (set_mach (d_mach s4) s4) with s4. unfold m3 at 1. rewrite rd32_wr32.
  destruct (dir_find (dram s) entries 0 (Z.to_nat n) name) as [j|] eqn:Ej.
  - destruct Hres as (i & e & -> & [[Hi He] (HAi & HAe & Hne) [Hfi Hfe] HR3 Hc3 FI Hcp]).
    apply lookup_insert_None in HAi as [HAi Hfi']. apply lookup_insert_None in HAe as [HAe Hfe'].
    destruct (store_taken _ s s3 _ f m3 K3' HR3 Hf Hff) as (K4 & HR4 & Hc4 & _);
      [by rewrite !lookup_insert_ne, lookup_insert_eq by congruence | done |].
    rewrite u32_small, (proj2 (Z.eqb_neq _ 0)) by (blk; lia). wpf. split; [done|]. exists f, i, e. split; [done|].
    split; [by split | | exact HR4 | etransitivity; [exact Hc4 | lia] | by apply (opened_write (dram s3)) |].
    + intros b [-> | [-> | ->] ]; [done | by apply (kp_free _ _ _ (proj2 K2))..].
    + intros k Hk. etransitivity; [apply (other_block (dram s3) m3 f e _ Hf He); [congruence | done | unfold in_block; lia]|].
      rewrite Hcp by done. apply Eb. apply dir_find_some in Ej. lia.
  - destruct Hres as [-> HR3]. change (u32 0) with 0. cbn [Z.eqb]. wp_step.
    destruct (store_taken _ s s3 _ f m3 K3' HR3 Hf Hff (lookup_insert_eq _ _ _) Hm3) as (K4 & HR4 & _ & _).
    wp_apply (on_machine_free _ s s4 A f HR K4 HR4 HAf). intros _ s5 (K5 & HR5). wpf. done.
Qed.

(** ** Reading *)

(** The directory entry at [p] is of a file that starts at cluster [c]. *)
Definition starts_at (m : ram) (p c : Z) : Prop := rd16 m (p + o_high_cluster) = 0 /\ rd16 m (p + o_low_cluster) = c.

Lemma first_cluster_spec s p c : 0 <= p -> p + 32 < 4294967296 -> starts_at (dram s) p c ->
  wp (fat16_get_first_cluster p) s (fun r s' => r = c /\ s' = s).
Proof.
  intros Hp Hp' [Hh Hl]. unfold fat16_get_first_cluster. wpf. rewrite (u32_small (p + o_high_cluster)) by (unfold o_high_cluster; lia).
  fold (dram s). rewrite Hh. cbn [Z.eqb negb]. wpf. rewrite (u32_small (p + o_low_cluster)) by (unfold o_low_cluster; lia).
  fold (dram s). rewrite Hl. split; [|done]. rewrite Z.shiftl_0_l, Z.lor_0_l. apply u32_small. rewrite <- Hl.
  pose proof (rd16_range (dram s) (p + o_low_cluster)). lia.
Qed.

(** A range apart from the three blocks of an open file. *)
Definition apart_from (f i e p n : Z) : Prop :=
  forall b, b = f \/ b = i \/ b = e -> p + n <= block_addr b \/ block_addr b + 4096 <= p.

(** What one call of fat16_read writes. *)
Definition in_read (f cs out n a : Z) : Prop :=
  out <= a < out + n \/ cs + 4 <= a < cs + 8 \/ block_addr f + o_pos <= a < block_addr f + o_pos + 4.

(** The arguments of a read of [n] bytes inside the first cluster [c]. *)
Record read_args (x : machine) (spc data c pos n out cs : Z) : Prop := {
  ra_spc : 0 < spc < 256;
  ra_data : 0 <= data < 65536;
  ra_cluster : 2 <= c;
  ra_pos : 0 <= pos < spc * 512;
  ra_len : 0 < n <= spc * 512;
  ra_end : cluster_base spc data c + pos + n < 4294967296;
  ra_out : 0 <= out /\ out + n < 4294967296 /\ stable_range x out n;
  ra_apart : out + n <= cs \/ cs + 8 <= out }.

Lemma opened_ext m m' f i e pos :
  (forall a, in_block f a \/ in_block i a -> rd8 m' a = rd8 m a) -> opened m f i e pos -> opened m' f i e pos.
Proof.
  intros H [H1 H2 H3]. split.
  - rewrite <- H1. apply rd32_ext. intros a Ha. apply H. left. unfold in_block. lia.
  - rewrite <- H2. apply rd32_ext. intros a Ha. apply H. left. unfold in_block, o_pos in *. lia.
  - apply (file_item_ext m); [|done]. intros a Ha. apply H. by right.
Qed.

Lemma read_spec s A priv spc data entries n disk f i e pos c cs off len out :
  heap_rep (d_mach s) A -> (exists k, in_heap k /\ entry_is_free (d_mach s) k = true) ->
  volume s priv spc data entries n -> rd32 (dram s) (priv + o_cluster_stream) = cs -> stream_at (d_mach s) cs off ->
  in_heap f -> in_heap i -> in_heap e -> f <> i ->
  entry_is_free (d_mach s) f = false -> entry_is_free (d_mach s) i = false -> entry_is_free (d_mach s) e = false ->
  opened (dram s) f i e pos -> starts_at (dram s) (block_addr e) c ->
  read_args (d_mach s) spc data c pos len out cs -> apart_from f i e out len -> apart_from f i e cs 8 ->
  wp (fat16_read disk (block_addr f) len 1 out) s (fun r s' => r = 1 /\ d_disk s' = d_disk s /\
    heap_rep (d_mach s') A /\ opened (dram s') f i e (pos + len) /\
    (forall a, out <= a < out + len -> rd8 (dram s') a = u8 (disk_image (cluster_base spc data c + pos + (a - out)))) /\
    forall a, stable (d_mach s) a -> ~ in_read f cs out len a -> rd8 (dram s') a = rd8 (dram s) a).
Proof.
  intros HR Hfree HV Hcs Hst Hf Hi He Hfi Uf Ui Ue HO HC [R1 R2 R3 R4 R5 R6 (O1 & O2 & O3) R8] Aout Acs.
  pose proof HO as [P1 P2 P3]. pose proof HR as (Hs & _). pose proof HC as [_ Hl]. pose proof (rd16_range (dram s) (block_addr e + o_low_cluster)) as Hcr. rewrite Hl in Hcr.
  unfold fat16_read. wpf. rewrite !set_mach_id. unfold dram in P1, P2. destruct P3 as [F1 F2]. unfold dram in F1.
  rewrite (u32_small (block_addr f)), P1, (u32_small (block_addr i)), F1, (u32_small (block_addr f + o_pos)), P2 by (unfold o_pos; blk; lia).
  change (Z.to_nat 1) with 1%nat. cbn [read_members]. wp_step.
  wp_apply (first_cluster_spec s (block_addr e) c); [blk; lia | blk; lia | done |]. intros c' s' [-> ->]. wp_step.
  rewrite (i32_small c), (i32_small pos), (i32_small len) by lia.
  wp_apply (read_cluster_spec s priv spc data c pos len out cs off (vl_mounted _ _ _ _ _ _ HV) Hs); try done; try lia.
  intros r s1 (-> & Hd1 & Hsh & _ & Hin & Hk). change (ISERR 0) with false. cbn iota. wpf.
  rewrite (i32_small (pos + len)), (u32_small (block_addr f + o_pos)) by (unfold o_pos; blk; lia).
  set (m2 := wr32 (dram s1) (block_addr f + o_pos) (pos + len)). set (s2 := set_mach _ s1).
  change (dram s2) with m2. change (d_mach s2) with (set_ram m2 (d_mach s1)).
  assert (Hm2 : forall a, a < block_addr f + o_pos \/ block_addr f + o_pos + 4 <= a -> rd8 m2 a = rd8 (dram s1) a) by (intros a Ha; apply rd8_wr32; lia).
  pose proof (same_heap_rep _ _ _ HR Hsh) as HR1.
  assert (Hblk : forall b a, b = f \/ b = i \/ b = e -> in_heap b -> entry_is_free (d_mach s) b = false -> in_block b a -> rd8 (dram s1) a = rd8 (dram s) a).
  { intros b a Hb Hh Hu Ha. pose proof (Aout b Hb). pose proof (Acs b Hb). unfold in_block in Ha.
    apply Hk; [by apply (used_stable _ b) | lia | lia]. }
  assert (HO1 : opened (dram s1) f i e pos) by (apply (opened_ext (dram s)); [|done]; intros a [Ha|Ha]; [apply (Hblk f) | apply (Hblk i)]; auto).
  split_and!; try done.
  - apply heap_rep_ram; [done|]. intros k Hk'. apply Hm2. unfold o_pos. blk. lia.
  - destruct HO1 as [Q1 Q2 Q3]. split.
    + rewrite <- Q1. apply rd32_ext. intros a Ha. apply Hm2. unfold o_pos. lia.
    + unfold m2. rewrite rd32_wr32. apply u32_small. lia.
    + apply (file_item_ext (dram s1)); [|done]. intros a Ha. apply Hm2. unfold in_block, o_pos in *. blk. lia.
  - intros a Ha. rewrite Hm2; [by apply Hin|]. pose proof (Aout f ltac:(auto)). unfold o_pos. lia.
  - intros a Ha Hn. unfold in_read in Hn. rewrite Hm2 by lia. apply Hk; [done | lia | lia].
Qed.

(** ** Closing *)

Lemma with_file_lookup A f i e : file_blocks A f i e ->
  with_file A f i e !! e = Some 1 /\ delete e (with_file A f i e) !! i = Some 1 /\
  delete i (delete e (with_file A f i e)) !! f = Some 1 /\ delete f (delete i (delete e (with_file A f i e))) = A.
Proof.
  intros [_ (N1 & N2 & N3) (D1 & D2 & D3)]. unfold with_file.
  rewrite delete_insert_id by (by rewrite !lookup_insert_ne by congruence).
  rewrite delete_insert_id by (by rewrite lookup_insert_ne by congruence).
  rewrite delete_insert_id by done. by rewrite !lookup_insert_eq.
Qed.

(** The blocks of an open file are allocated. *)
Lemma file_used x A f i e b :
  heap_rep x (with_file A f i e) -> file_blocks A f i e -> b = f \/ b = i \/ b = e -> in_heap b /\ entry_is_free x b = false.
Proof.
  intros HR [(Hf & Hi & He) _ (D1 & D2 & D3)] Hb. assert (Hh : in_heap b) by (destruct Hb as [-> | [-> | ->]]; done).
  split; [done|]. apply (rep_used _ _ _ HR Hh). unfold with_file.
  destruct Hb as [-> | [-> | ->]]; rewrite ?lookup_insert_ne by congruence; by rewrite lookup_insert_eq.
Qed.

Lemma mach_kfree s A b (Q : Z -> dstate -> Prop) :
  heap_rep (d_mach s) A -> A !! b = Some 1 ->
  (forall r s', d_disk s' = d_disk s -> heap_rep (d_mach s') (delete b A) ->
    (forall a, a < KHEAP_TABLE_ADDR \/ TABLE_END <= a -> rd8 (dram s') a = rd8 (dram s) a) -> Q r s') ->
  wp (mach (kfree (block_addr b))) s Q.
Proof. intros HR HA HQ. apply wp_mach. wp_apply (kfree_block (d_mach s) A b _ HR HA); [unfold in_block; lia|]. intros r y (HR' & _ & Hm). by apply HQ. Qed.

Lemma close_spec s A f i e pos :
  heap_rep (d_mach s) (with_file A f i e) -> file_blocks A f i e -> opened (dram s) f i e pos ->
  wp (fat16_close (block_addr f)) s (fun r s' => r = 0 /\ d_disk s' = d_disk s /\ heap_rep (d_mach s') A /\
    forall a, a < KHEAP_TABLE_ADDR \/ TABLE_END <= a -> rd8 (dram s') a = rd8 (dram s) a).
Proof.
  intros HR HB [P1 P2 [F1 F2]]. pose proof HB as [(Hf & Hi & He) _ _]. destruct (with_file_lookup A f i e HB) as (L1 & L2 & L3 & L4).
  unfold fat16_close, fat16_fd_free. rewrite (proj2 (Z.eqb_neq _ 0)) by (blk; lia). cbn [negb]. wpf. rewrite set_mach_id.
  unfold dram in P1, F1, F2. rewrite (u32_small (block_addr f)), P1 by (blk; lia). unfold fat16_free_item.
  rewrite (proj2 (Z.eqb_neq (block_addr i) 0)) by (blk; lia). wpf. rewrite !set_mach_id, (u32_small (block_addr i + o_item_type)), F2 by (unfold o_item_type; blk; lia).
  change (FAT16_ITEM_TYPE_FILE =? FAT16_ITEM_TYPE_DIR) with false. change (FAT16_ITEM_TYPE_FILE =? FAT16_ITEM_TYPE_FILE) with true. cbn iota.
  wpf. rewrite !set_mach_id, (u32_small (block_addr i)), F1 by (blk; lia). rewrite (proj2 (Z.eqb_neq (block_addr e) 0)) by (blk; lia). cbn [negb]. wpf.
  apply (mach_kfree s _ e _ HR L1). intros _ s1 D1 HR1 M1. wpf.
  apply (mach_kfree s1 _ i _ HR1 L2). intros _ s2 D2 HR2 M2. wpf.
  apply (mach_kfree s2 _ f _ HR2 L3). intros _ s3 D3 HR3 M3. wpf. rewrite L4 in HR3.
  split_and!; [done | congruence | done |]. intros a Ha. by rewrite M3, M2, M1.
Qed.
End volume.
