(* ===== verification/Session.v ===== *)
(** * Files from kfopen to kfclose

    The file layer (fs/file.c) on top of a mounted FAT16 volume: a file of the
    root directory is opened by its path, read and closed.  The operations of
    the path parser, the descriptor table, the file system, the stream and the
    disk driver are composed as the kernel composes them. *)
From Stdlib Require Import ZArith Lia String.
From stdpp Require Import base numbers gmap list strings.
From S2P Require Import Prelude Config Memory Strings Machine Console Kheap Paging Blocks Disk Path File Fat16 Volume.
Local Open Scope Z_scope.

(** ** Paths of one part *)

Lemma grown_kept x y A n : grown x y A n -> mem_kept (fun _ => False) x y.
Proof. intros [_ _ F K]. by split; [intros a Ha _; apply K|]. Qed.

Lemma split_path_single l : 47 ∉ l -> split_path l = [l].
Proof.
  induction l as [|c l IH]; [done|]. intros [Hc Hl]%not_elem_of_cons. cbn [split_path].
  rewrite (proj2 (Z.eqb_neq c 47)), IH by (congruence || done). done.
Qed.

(** Part of a block that is allocated. *)
Lemma used_obj x A b p n :
  heap_rep x A -> in_heap b -> A !! b = Some 1 -> block_addr b <= p -> p + n <= block_addr b + 4096 -> heap_obj x p n.
Proof.
  intros HR Hb HA H1 H2. split_and!; [blk; lia | blk; lia |]. intros a Ha.
  apply (used_stable x b); [done | by apply (rep_used x A) | unfold in_block; lia].
Qed.

(** What parse_path returns for "d:/name". *)
Lemma parsed_single x A drive name c b bs :
  heap_rep x (add_blocks (c :: b :: bs) A) -> path_at (m_ram x) drive [name] c b bs -> (length name <= 105)%nat ->
  single_path x (rd32 (m_ram x) (block_addr b + 4)) (block_addr c + 3) name /\ exists q, bs = [q].
Proof.
  intros HR (Hc & Hb & _ & Hn & Hp) Hl. destruct bs as [|q [|q' bs]]; cbn [parts_at] in Hp; [done | | by destruct Hp as (_ & _ & _ & Hp)].
  destruct Hp as (Er & Hq & Hs & Hx). rewrite Hn in Hs. rewrite Er in *. split; [|by exists q].
  assert (Hin : forall k, k ∈ [c; b; q] -> add_blocks [c; b; q] A !! k = Some 1).
  { intros k Hk. rewrite lookup_add_blocks. by rewrite decide_True. }
  split; try done.
  - apply (used_obj x _ q _ _ HR Hq); [apply Hin; set_solver | lia | lia].
  - apply (used_obj x _ c _ _ HR Hc); [apply Hin; set_solver | lia | lia].
Qed.

Section session.
Context {plat : Platform} {fsys : FileSystems}.

(** ** A kernel with a mounted volume *)

(** What the linker and fs_init provide: the disk and the file system have
    addresses, and the operations at the latter are those of fat16.c. *)
Record platform_ok : Prop := {
  pl_disk : 0 < disk_addr < 4294967296;
  pl_fs : 0 < fat16_fs_addr < 4294967296;
  pl_ops : fs_at fat16_fs_addr = fat16_fs;
  pl_stack : on_stack stack_name FS_MAX_PATH_LEN }.

Record fat_files (s : fstate) (priv spc data entries n cs off : Z) : Prop := {
  ff_table : fd_table_ok s;
  ff_fs : fs (d_disk (f_dev s)) = fat16_fs_addr;
  ff_volume : volume (f_dev s) priv spc data entries n;
  ff_cs : rd32 (ram_of s) (priv + o_cluster_stream) = cs;
  ff_obj : heap_obj (d_mach (f_dev s)) cs 8;
  ff_stream : stream_at (d_mach (f_dev s)) cs off }.

Lemma stream_kept E x y cs off :
  mem_kept E x y -> (forall a, KHEAP_ADDR <= a < HEAP_END -> ~ E a) -> heap_obj x cs 8 -> stream_at x cs off -> stream_at y cs off.
Proof.
  intros K He (O1 & O2 & O3) (S1 & S2 & S3 & S4 & S5). split_and!; try done.
  - rewrite <- S1. apply (mem_kept_word E); [done | intros a Ha; apply O3; lia | intros a Ha; apply He; lia].
  - rewrite <- S2. apply (mem_kept_word E); [done | intros a Ha; apply O3; lia | intros a Ha; apply He; lia].
  - intros a Ha. by apply (kp_stable E x), S5.
Qed.

Lemma fat_files_kept E s s' priv spc data entries n cs off :
  d_disk (f_dev s') = d_disk (f_dev s) -> mem_kept E (d_mach (f_dev s)) (d_mach (f_dev s')) -> fd_table_ok s' ->
  (forall a, KHEAP_ADDR <= a < HEAP_END -> ~ E a) -> fat_files s priv spc data entries n cs off -> fat_files s' priv spc data entries n cs off.
Proof.
  intros Ed K Ht He [_ F V C O S]. pose proof (vl_priv _ _ _ _ _ _ V) as (P1 & P2 & P3). unfold SIZEOF_FAT16_PRIVATE in *.
  split; [done | congruence | by apply (volume_kept E (f_dev s)) | | by apply (heap_obj_kept E (d_mach (f_dev s))) |
          by apply (stream_kept E (d_mach (f_dev s)))].
  rewrite <- C. unfold o_cluster_stream. apply (mem_kept_word E); [done | intros a Ha; apply P3; lia | intros a Ha; apply He; lia].
Qed.

(** The directory as it was. *)
Lemma dir_find_kept E s s' priv spc data entries n cs off name :
  mem_kept E (d_mach (f_dev s)) (d_mach (f_dev s')) -> (forall a, KHEAP_ADDR <= a < HEAP_END -> ~ E a) ->
  fat_files s priv spc data entries n cs off ->
  (forall a, entries <= a < entries + 32 * n -> rd8 (ram_of s') a = rd8 (ram_of s) a) /\
  dir_find (ram_of s') entries 0 (Z.to_nat n) name = dir_find (ram_of s) entries 0 (Z.to_nat n) name.
Proof.
  intros K He H. pose proof (vl_root _ _ _ _ _ _ (ff_volume _ _ _ _ _ _ _ _ H)) as [_ _ _ R (I1 & I2 & I3)].
  assert (Eb : forall a, entries <= a < entries + 32 * n -> rd8 (ram_of s') a = rd8 (ram_of s) a).
  { intros a Ha. apply (kp_mem _ _ _ K); [apply I3; lia | apply He; lia]. }
  split; [done|]. apply dir_find_ext. intros a Ha. apply Eb. lia.
Qed.

(** ** kfopen *)

(** The arguments of kfopen: "0:/name" and "r". *)
Record open_args (s : fstate) (path_str mode : Z) (name : list Z) : Prop := {
  oa_path : cstr (ram_of s) path_str (48 :: 58 :: 47 :: name);
  oa_name : (0 < length name <= 105)%nat /\ 47 ∉ name;
  oa_stable : stable_range (d_mach (f_dev s)) path_str (3 + Z.of_nat (length name));
  oa_mode : rdc (ram_of s) mode = 114 /\ stable (d_mach (f_dev s)) mode }.

(** A state of the file layer on another machine state. *)
Definition moved (s s' : fstate) : Prop := s' = set_dev (set_mach (d_mach (f_dev s')) (f_dev s)) s.

(** Kfopen up to the call of the file system. *)
Lemma kfopen_prefix s A path_str mode name (Q : Z -> fstate -> Prop) :
  platform_ok -> heap_rep (d_mach (f_dev s)) A -> 3 <= kheap_num_free_blocks (d_mach (f_dev s)) ->
  fs (d_disk (f_dev s)) = fat16_fs_addr -> open_args s path_str mode name ->
  (forall s1 root fname c b q, moved s s1 -> all_new [c; b; q] A ->
     grown (d_mach (f_dev s)) (d_mach (f_dev s1)) (add_blocks [c; b; q] A) 3 ->
     single_path (d_mach (f_dev s1)) root fname name ->
     wp (private ← dev (fat16_open disk_addr root FILE_READ);
         if ISERR private then mret (ERROR_I private)
         else
           '(res, fd) ← new_file_descriptor;
           if res <? 0 then mret res
           else
             dfs ← gets (fun s => fs (d_disk (f_dev s)));
             fmach (store32 fd dfs);;
             fmach (store32 (fd + 4) private);;
             fmach (store32 (fd + 12) disk_addr);;
             index ← fmach (load32 (fd + 8));
             mret (i32 index)) s1 (fun r s' => Q (if r <? 0 then 0 else r) s')) ->
  wp (kfopen path_str mode) s Q.
Proof.
  intros Hpl HR Hn Hfs [Hc [[Hl1 Hl2] Hns] Hst [Hm Hms]] HQ. destruct name as [|c0 name]; [cbn [length] in Hl1; lia|].
  unfold kfopen, kfopen_body. wp_step. apply wp_bind, wp_fmach.
  pose proof (parse_path_spec (d_mach (f_dev s)) A path_str 48 (c0 :: name) HR Hc eq_refl) as W.
  rewrite take_ge, split_path_single in W by (done || lia).
  wp_apply W; [intros a Ha; apply Hst; lia | cbn [length]; lia |]. clear W.
  intros p mc (c & b & bs & -> & HP & Hnew & G). pose proof HP as (Hch & Hbh & Hdrive & Hname & _).
  destruct (parsed_single mc A _ _ c b bs (gr_rep _ _ _ _ G) HP Hl2) as [SP [q ->]].
  pose proof (pa_cstr _ _ _ _ SP) as (_ & Hcz & Hrd & _)%cstr_cons. pose proof (pl_disk Hpl). pose proof (pl_fs Hpl).
  rewrite (proj2 (Z.eqb_neq _ 0)) by (blk; lia). wp_step. apply wp_fmach, wp_gets. wp_step. apply wp_fmach, wp_gets. wp_steps.
  set (s1 := set_dev _ _). change (ram_of s1) with (m_ram mc). change (d_mach (f_dev s1)) with mc.
  rewrite Hname, Hrd, (proj2 (Z.eqb_neq c0 0)) by done. wp_step. apply wp_fmach, wp_gets.
  change (rd32 _ (block_addr b)) with (rd32 (m_ram mc) (block_addr b)). rewrite Hdrive. wp_step. apply wp_dev.
  change (i32 (48 - 48)) with 0. unfold get_disk. cbn [Z.eqb negb]. apply wp_ret.
  rewrite (proj2 (Z.eqb_neq disk_addr 0)) by lia. wp_steps.
  match goal with |- context [fs (d_disk (f_dev ?x)) =? 0] => change (fs (d_disk (f_dev x))) with (fs (d_disk (f_dev s))) end.
  rewrite Hfs, (proj2 (Z.eqb_neq fat16_fs_addr 0)) by lia. wp_steps. set (s2 := set_dev _ _).
  assert (Em : parse_mode mode (ram_of s2) = FILE_READ).
  { unfold parse_mode. replace (rdc (ram_of s2) mode) with 114; [done|]. rewrite <- Hm. unfold rdc. f_equal.
    symmetry. exact (gr_keep _ _ _ _ G mode Hms). }
  rewrite Em. change (FILE_READ =? FILE_MODE_INVALID) with false. cbn iota. wp_step. apply wp_fmach, wp_gets.
  rewrite (pl_ops Hpl). change (fs_open fat16_fs) with fat16_open. change (m_ram (d_mach (f_dev s2))) with (m_ram mc).
  set (s3 := set_dev (set_mach (d_mach (f_dev s2)) (f_dev s2)) s2). eapply wp_mono; [|intros r s' H'; apply wp_ret; exact H'].
  apply (HQ s3 (rd32 (m_ram mc) (block_addr b + 4)) (block_addr c + 3) c b q); [reflexivity | exact Hnew | exact G | exact SP].
Qed.

(** The descriptor [fd], in block [p], is that of an open FAT16 file at position
    [pos], whose blocks are [f], [i] and [e]; [B] are the other allocations. *)
Record fd_open (s : fstate) (B : gmap Z Z) (fd p f i e pos : Z) : Prop := {
  fo_slot : get_file_descriptor fd s = block_addr p;
  fo_heap : in_heap p;
  fo_new : B !! p = None;
  fo_fs : rd32 (ram_of s) (block_addr p) = fat16_fs_addr;
  fo_private : rd32 (ram_of s) (block_addr p + 4) = block_addr f;
  fo_blocks : file_blocks (<[p := 1]> B) f i e;
  fo_rep : heap_rep (d_mach (f_dev s)) (with_file (<[p := 1]> B) f i e);
  fo_opened : opened (ram_of s) f i e pos }.

(** The lowest index that is not in use. *)
Definition lowest_free (s : fstate) (fd : Z) : Prop :=
  1 <= fd <= MAX_FILE_DESCRIPTORS /\ get_file_descriptor fd s = 0 /\ forall k, 1 <= k < fd -> get_file_descriptor k s <> 0.

(** The descriptor of a file that has been opened. *)
Lemma with_file_insert B p f i e :
  p <> f -> p <> i -> p <> e -> <[p := 1]> (with_file B f i e) = with_file (<[p := 1]> B) f i e.
Proof. intros H1 H2 H3. unfold with_file. by rewrite !(insert_insert_ne _ p) by done. Qed.

(** The three stores into the descriptor in block [p]. *)
Lemma fd_stores m p dfs private disk :
  in_heap p -> is_u32 dfs -> is_u32 private ->
  let m' := wr32 (wr32 (wr32 m (block_addr p) dfs) (block_addr p + 4) private) (block_addr p + 12) disk in
  rd32 m' (block_addr p) = dfs /\ rd32 m' (block_addr p + 4) = private /\ rd32 m' (block_addr p + 8) = rd32 m (block_addr p + 8) /\
  forall a, a < block_addr p \/ block_addr p + 16 <= a -> rd8 m' a = rd8 m a.
Proof.
  intros Hp Hd Hv m'. unfold m'. split_and!.
  - rewrite !rd32_wr32_ne, rd32_wr32 by lia. by apply u32_small.
  - rewrite rd32_wr32_ne, rd32_wr32 by lia. by apply u32_small.
  - by rewrite !rd32_wr32_ne by lia.
  - intros a Ha. by rewrite !rd8_wr32 by lia.
Qed.

(** The table of descriptors after [fd] was handed out. *)
Record fd_taken (s s' : fstate) (fd : Z) : Prop := {
  ft_lowest : lowest_free s fd;
  ft_table : fd_table_ok s';
  ft_others : forall k, k <> fd -> get_file_descriptor k s' = get_file_descriptor k s }.

(** An open file with its descriptor in block [p]. *)
Lemma fd_open_intro s s' B fd p f i e pos :
  file_blocks B f i e -> heap_rep (d_mach (f_dev s)) (with_file B f i e) -> opened (ram_of s) f i e pos ->
  mem_kept (fun _ => False) (d_mach (f_dev s)) (d_mach (f_dev s')) ->
  get_file_descriptor fd s' = block_addr p -> in_heap p -> with_file B f i e !! p = None ->
  rd32 (ram_of s') (block_addr p) = fat16_fs_addr -> rd32 (ram_of s') (block_addr p + 4) = block_addr f ->
  heap_rep (d_mach (f_dev s')) (<[p := 1]> (with_file B f i e)) -> fd_open s' B fd p f i e pos.
Proof.
  intros HB HR HO K Hs Hp Hn Hf Hv HR'. pose proof HB as [(Hhf & Hhi & Hhe) (N1 & N2 & N3) D].
  unfold with_file in Hn.
  apply lookup_insert_None in Hn as [[[Hn Hpf]%lookup_insert_None Hpi]%lookup_insert_None Hpe].
  rewrite with_file_insert in HR' by done. split; try done.
  - split; [done | | done]. by rewrite !lookup_insert_ne by done.
  - apply (opened_ext (ram_of s)); [|done]. unfold ram_of.
    intros a Ha. apply (kp_mem _ _ _ K); [|exact (fun H => H)].
    destruct Ha; [apply (used_stable _ f) | apply (used_stable _ i)]; try done; apply (file_used _ B f i e); auto.
Qed.

(** The rest of kfopen: a descriptor for the file that was opened. *)
Lemma install_spec s B f i e :
  platform_ok -> fd_table_ok s -> fs (d_disk (f_dev s)) = fat16_fs_addr -> file_blocks B f i e ->
  heap_rep (d_mach (f_dev s)) (with_file B f i e) -> opened (ram_of s) f i e 0 -> 0 < kheap_num_free_blocks (d_mach (f_dev s)) ->
  (exists fd, 1 <= fd <= MAX_FILE_DESCRIPTORS /\ get_file_descriptor fd s = 0) ->
  wp ('(res, fd) ← new_file_descriptor;
      if res <? 0 then mret res
      else
        dfs ← gets (fun s => fs (d_disk (f_dev s)));
        fmach (store32 fd dfs);;
        fmach (store32 (fd + 4) (block_addr f));;
        fmach (store32 (fd + 12) disk_addr);;
        index ← fmach (load32 (fd + 8));
        mret (i32 index)) s (fun r s' => exists p,
    fd_taken s s' r /\ fd_open s' B r p f i e 0 /\ entry_is_free (d_mach (f_dev s)) p = true /\
    d_disk (f_dev s') = d_disk (f_dev s) /\ mem_kept (fun _ => False) (d_mach (f_dev s)) (d_mach (f_dev s')) /\
    kheap_num_free_blocks (d_mach (f_dev s')) = kheap_num_free_blocks (d_mach (f_dev s)) - 1).
Proof.
  intros Hpl Ht Hfs HB HR HO Hn Hslot. wp_step. wp_apply (new_descriptor_correct s _ Ht HR Hn Hslot).
  intros [r p0] s1 (fd & p & -> & -> & Hp & Hfp & HA & G & Hu & Ed & Ht1 & Hfd & Hz & Hlow & Hidx & Hget & Hoth).
  change (0 <? 0) with false. cbn iota. wp_steps. rewrite Ed. change (d_disk (set_mach _ _)) with (d_disk (f_dev s)). rewrite Hfs.
  apply wp_fmach, wp_modify. do 2 (wp_step; apply wp_fmach, wp_modify). wp_step. apply wp_fmach, wp_gets. wp_step.
  destruct (fd_stores (ram_of s1) p fat16_fs_addr (block_addr f) disk_addr Hp) as (M1 & M2 & M3 & M4);
    [destruct (pl_fs Hpl); unfold is_u32; lia | destruct (fb_heap _ _ _ _ HB) as [? _]; unfold is_u32; blk; lia |].
  set (m' := wr32 (wr32 (wr32 (ram_of s1) _ _) _ _) _ _) in *. set (s' := set_dev _ _).
  replace (rd32 _ (block_addr p + 8)) with fd by (symmetry; rewrite <- Hidx; exact M3).
  assert (Em : d_mach (f_dev s') = set_ram m' (d_mach (f_dev s1))) by reflexivity.
  assert (Er : ram_of s' = m') by reflexivity. assert (Ef : file_descriptors s' = file_descriptors s1) by reflexivity.
  assert (Ed' : d_disk (f_dev s') = d_disk (f_dev s)) by (change (d_disk (f_dev s1) = d_disk (f_dev s)); by rewrite Ed).
  clearbody s'. rewrite (i32_small fd) by (unfold MAX_FILE_DESCRIPTORS in Hfd; lia).
  assert (K : mem_kept (fun _ => False) (d_mach (f_dev s)) (d_mach (f_dev s'))).
  { rewrite Em. apply (mem_kept_new _ _ _ p m' (block_addr p) 16 (grown_kept _ _ _ _ G)); try done; try lia. apply (gr_rep _ _ _ _ G). }
  assert (HR' : heap_rep (d_mach (f_dev s')) (<[p := 1]> (with_file B f i e))).
  { rewrite Em. apply heap_rep_ram; [apply (gr_rep _ _ _ _ G)|]. intros k Hk. apply M4. blk. lia. }
  exists p. split_and!; try done.
  - split; [done | unfold fd_table_ok; by rewrite Ef |]. intros k Hk. rewrite <- Hoth by done. unfold get_file_descriptor. by rewrite Ef.
  - apply (fd_open_intro s s'); rewrite ?Er; try done. rewrite <- Hget. unfold get_file_descriptor. by rewrite Ef.
  - rewrite <- (gr_count _ _ _ _ G), Em. apply num_free_ext; [apply (gr_rep _ _ _ _ G) | rewrite <- Em; apply HR' |].
    intros k Hk. apply same_table_free; [apply (gr_rep _ _ _ _ G) | | done]. intros j Hj. apply M4. blk. lia.
Qed.

(** A file that kfopen has opened between [s] and [s']. *)
Record fd_new (s s' : fstate) (B : gmap Z Z) (entry fd p f i e : Z) : Prop := {
  fn_taken : fd_taken s s' fd;
  fn_open : fd_open s' B fd p f i e 0;
  fn_free : forall k, k = p \/ k = f \/ k = i \/ k = e -> entry_is_free (d_mach (f_dev s)) k = true;
  fn_count : kheap_num_free_blocks (d_mach (f_dev s')) = kheap_num_free_blocks (d_mach (f_dev s)) - 7;
  fn_entry : forall k, 0 <= k < 32 -> rd8 (ram_of s') (block_addr e + k) = rd8 (ram_of s) (entry + k) }.

Lemma moved_table s s' : moved s s' -> file_descriptors s' = file_descriptors s /\ d_disk (f_dev s') = d_disk (f_dev s).
Proof. by intros ->. Qed.

Lemma table_ext s s' k : file_descriptors s' = file_descriptors s -> get_file_descriptor k s' = get_file_descriptor k s.
Proof. unfold get_file_descriptor. by intros ->. Qed.

(** The table with [s] and [s'] as the same state. *)
Lemma fd_taken_from s s1 s' fd : file_descriptors s1 = file_descriptors s -> fd_taken s1 s' fd -> fd_taken s s' fd.
Proof.
  intros E [(L1 & L2 & L3) T O]. assert (X := fun k => table_ext s s1 k E). split; [split; [done | split] | done |].
  - by rewrite <- X.
  - intros k Hk. rewrite <- X. by apply L3.
  - intros k Hk. rewrite <- X. by apply O.
Qed.

Lemma kfopen_spec s A priv spc data entries n cs off path_str mode name :
  platform_ok -> heap_rep (d_mach (f_dev s)) A -> 7 <= kheap_num_free_blocks (d_mach (f_dev s)) ->
  fat_files s priv spc data entries n cs off -> open_args s path_str mode name ->
  (exists fd, 1 <= fd <= MAX_FILE_DESCRIPTORS /\ get_file_descriptor fd s = 0) ->
  (forall j, dir_find (ram_of s) entries 0 (Z.to_nat n) name = Some j ->
     Z.land (rd8 (ram_of s) (entries + 32 * j + o_attribs)) FAT16_ATTR_SUB_DIRECTORY = 0) ->
  wp (kfopen path_str mode) s (fun r s' => exists c b q, all_new [c; b; q] A /\
    d_disk (f_dev s') = d_disk (f_dev s) /\ mem_kept in_name (d_mach (f_dev s)) (d_mach (f_dev s')) /\
    match dir_find (ram_of s) entries 0 (Z.to_nat n) name with
    | None => r = 0 /\ heap_rep (d_mach (f_dev s')) (add_blocks [c; b; q] A) /\ file_descriptors s' = file_descriptors s
    | Some j => exists p f i e, fd_new s s' (add_blocks [c; b; q] A) (entries + 32 * j) r p f i e
    end).
Proof.
  intros Hpl HR Hn FF HA Hslot Hat. pose proof (pl_stack Hpl) as Hst.
  apply (kfopen_prefix s A path_str mode name _ Hpl HR ltac:(lia) (ff_fs _ _ _ _ _ _ _ _ FF) HA).
  intros s1 root fname c b q Hm Hnew G SP. pose proof (grown_kept _ _ _ _ G) as K1. destruct (moved_table _ _ Hm) as [Et1 Ed1].
  assert (Ht1 : fd_table_ok s1) by (unfold fd_table_ok; rewrite Et1; apply FF).
  pose proof (fat_files_kept _ s s1 _ _ _ _ _ _ _ Ed1 K1 Ht1 ltac:(tauto) FF) as FF1.
  destruct (dir_find_kept _ s s1 _ _ _ _ _ _ _ name K1 ltac:(tauto) FF) as [Eb1 Ef1].
  pose proof (dr_range _ _ _ _ (vl_root _ _ _ _ _ _ (ff_volume _ _ _ _ _ _ _ _ FF))) as Hr.
  wp_step. apply wp_dev. wp_apply (open_spec (f_dev s1) _ priv spc data entries n disk_addr root fname name (gr_rep _ _ _ _ G)
    ltac:(rewrite (gr_count _ _ _ _ G); lia) Hst (ff_volume _ _ _ _ _ _ _ _ FF1) SP).
  { change (dram (f_dev s1)) with (ram_of s1). rewrite Ef1. intros j Hj. rewrite Eb1; [by apply Hat|].
    apply dir_find_some in Hj. unfold o_attribs. lia. }
  change (dram (f_dev s1)) with (ram_of s1). rewrite Ef1. intros r t (Kt & Hres). set (s2 := set_dev t s1).
  assert (K2 : mem_kept in_name (d_mach (f_dev s)) (d_mach (f_dev s2))).
  { apply (mem_kept_trans _ _ (d_mach (f_dev s1))); [|apply Kt]. by apply (mem_kept_weaken (fun _ => False)). }
  assert (Ed2 : d_disk (f_dev s2) = d_disk (f_dev s)) by (rewrite <- Ed1; by apply (on_machine_disk in_name)).
  destruct (dir_find (ram_of s) entries 0 (Z.to_nat n) name) as [j|] eqn:Ej.
  - destruct Hres as (f & i & e & -> & [HB Hfr HR2 Hc2 HO Hent]). apply dir_find_some in Ej as Hj.
    assert (Hf : in_heap f) by apply HB. assert (He : in_heap e) by apply HB.
    replace (ISERR (block_addr f)) with false by (symmetry; unfold ISERR; rewrite i32_small by (blk; lia); apply Z.ltb_ge; blk; lia).
    wp_apply (install_spec s2 _ f i e Hpl Ht1 (eq_trans (f_equal fs Ed2) (ff_fs _ _ _ _ _ _ _ _ FF)) HB HR2 HO).
    { change (d_mach (f_dev s2)) with (d_mach t). rewrite Hc2, (gr_count _ _ _ _ G). lia. }
    { destruct Hslot as (fd & Hfd & E). exists fd. split; [done|]. by rewrite (table_ext s). }
    intros r s' (p & T & O & Hp & Ed & K & Hc). pose proof (ft_lowest _ _ _ T) as ((L1 & _) & _).
    rewrite (proj2 (Z.ltb_ge r 0)) by lia. exists c, b, q. split; [done|]. split; [congruence|].
    split; [apply (mem_kept_trans _ _ _ _ K2); by apply (mem_kept_weaken (fun _ => False))|].
    exists p, f, i, e. split; [by apply (fd_taken_from s s2) | done | | |].
    + intros k [-> | Hk]; [by apply (kp_free _ _ _ K2); [apply O|]|].
      apply (kp_free _ _ _ K1); [destruct Hk as [-> | [-> | ->]]; apply HB | by apply Hfr].
    + rewrite Hc. change (d_mach (f_dev s2)) with (d_mach t). rewrite Hc2, (gr_count _ _ _ _ G). lia.
    + intros k Hk. unfold ram_of. rewrite (kp_mem _ _ _ K); [|apply (used_stable _ e); [done | by apply (file_used _ _ f i e _ HR2 HB); auto | unfold in_block; lia] | exact (fun H => H)].
      etransitivity; [exact (Hent k Hk)|]. apply Eb1. lia.
  - destruct Hres as [-> HR2]. change (ISERR (ERROR (- STATUS_IO_ERROR))) with true. cbn iota. wp_step.
    change (ERROR_I _ <? 0) with true. cbn iota. exists c, b, q. done.
Qed.

(** ** kfread *)

(** Ranges apart from the blocks of an open file and of its descriptor. *)
Definition clear_of (p f i e q n : Z) : Prop :=
  forall b, b = p \/ b = f \/ b = i \/ b = e -> q + n <= block_addr b \/ block_addr b + 4096 <= q.

Lemma clear_apart p f i e q n : clear_of p f i e q n -> apart_from f i e q n.
Proof. intros H b Hb. apply H. by right. Qed.

(** The descriptor and the blocks of the file are allocated. *)
Lemma fd_used s B fd p f i e pos b :
  fd_open s B fd p f i e pos -> b = p \/ b = f \/ b = i \/ b = e -> in_heap b /\ entry_is_free (d_mach (f_dev s)) b = false.
Proof.
  intros O [-> | Hb]; [|by apply (file_used _ (<[p := 1]> B) f i e b (fo_rep _ _ _ _ _ _ _ _ O) (fo_blocks _ _ _ _ _ _ _ _ O))].
  pose proof (fo_heap _ _ _ _ _ _ _ _ O) as Hp. split; [done|]. apply (rep_used _ _ _ (fo_rep _ _ _ _ _ _ _ _ O) Hp).
  destruct (fb_new _ _ _ _ (fo_blocks _ _ _ _ _ _ _ _ O)) as (N1 & N2 & N3).
  apply lookup_insert_None in N1 as [_ N1]. apply lookup_insert_None in N2 as [_ N2]. apply lookup_insert_None in N3 as [_ N3].
  unfold with_file. by rewrite !lookup_insert_ne, lookup_insert_eq by done.
Qed.

Lemma fd_positive fd s p : get_file_descriptor fd s = block_addr p -> in_heap p -> 1 <= fd.
Proof. unfold get_file_descriptor. destruct (Z.leb_spec fd 0); [|lia]. cbn [orb]. intros E Hp. blk. lia. Qed.

Lemma kfread_spec s B priv spc data entries n cs off fd p f i e pos c len out :
  platform_ok -> 0 < kheap_num_free_blocks (d_mach (f_dev s)) -> fat_files s priv spc data entries n cs off ->
  fd_open s B fd p f i e pos -> starts_at (ram_of s) (block_addr e) c ->
  read_args (d_mach (f_dev s)) spc data c pos len out cs -> clear_of p f i e out len -> clear_of p f i e cs 8 ->
  wp (kfread out len 1 fd) s (fun r s' => r = 1 /\ file_descriptors s' = file_descriptors s /\
    d_disk (f_dev s') = d_disk (f_dev s) /\ fd_open s' B fd p f i e (pos + len) /\
    (forall a, out <= a < out + len -> rd8 (ram_of s') a = u8 (disk_image (cluster_base spc data c + pos + (a - out)))) /\
    forall a, stable (d_mach (f_dev s)) a -> ~ in_read f cs out len a -> rd8 (ram_of s') a = rd8 (ram_of s) a).
Proof.
  intros Hpl Hn [_ _ V C _ S] O HC RA Co Cc. pose proof (fd_used _ _ _ _ _ _ _ _ p O ltac:(auto)) as [Hp Up].
  pose proof (fd_positive fd s p (fo_slot _ _ _ _ _ _ _ _ O) Hp) as Hfd. pose proof (ra_len _ _ _ _ _ _ _ _ RA) as Hlen.
  assert (U := fun b H => fd_used _ _ _ _ _ _ _ _ b O (or_intror H)). pose proof O as [O1 _ O3 O4 O5 O6 O7 O8].
  pose proof (proj1 (fb_apart _ _ _ _ O6)) as Hfi. destruct (fb_new _ _ _ _ O6) as ([_ Hpf]%lookup_insert_None & _ & _).
  unfold kfread. rewrite (proj2 (Z.eqb_neq len 0)), (proj2 (Z.ltb_ge fd 1)) by lia. change (1 =? 0) with false. cbn [orb].
  wp_steps. rewrite O1, (proj2 (Z.eqb_neq _ 0)) by (blk; lia). wp_steps. unfold fd_fs, fd_private. rewrite O4, O5, (pl_ops Hpl).
  apply wp_dev. pose proof (fo_rep _ _ _ _ _ _ _ _ O) as HR.
  wp_apply (read_spec (f_dev s) _ priv spc data entries n (fd_disk (block_addr p) s) f i e pos c cs off len out HR
    (num_free_pos _ (proj1 HR) Hn) V C S); try done; try (apply U; by auto); try by apply (clear_apart p).
  intros r t (-> & Ed & HR' & HO' & Hin & Hk). set (s' := set_dev t s). split_and!; try done.
  assert (Hw : forall a, in_block p a -> rd8 (ram_of s') a = rd8 (ram_of s) a).
  { intros a Ha. apply Hk; [by apply (used_stable _ p)|]. pose proof (Co p ltac:(auto)). pose proof (Cc p ltac:(auto)).
    assert (block_addr f + 4096 <= block_addr p \/ block_addr p + 4096 <= block_addr f) by (destruct (U f ltac:(auto)); blk; lia).
    unfold in_block, in_read, o_pos in *. lia. }
  split; try done.
  - rewrite <- O4. apply rd32_ext. intros a Ha. apply Hw. unfold in_block. lia.
  - rewrite <- O5. apply rd32_ext. intros a Ha. apply Hw. unfold in_block. lia.
Qed.

(** ** kfclose *)

Lemma kfclose_spec s B fd p f i e pos :
  platform_ok -> fd_table_ok s -> fd < 1024 -> fd_open s B fd p f i e pos ->
  wp (kfclose fd) s (fun r s' => r = 0 /\ get_file_descriptor fd s' = 0 /\ heap_rep (d_mach (f_dev s')) B /\
    (forall k, k <> fd -> get_file_descriptor k s' = get_file_descriptor k s) /\ d_disk (f_dev s') = d_disk (f_dev s) /\
    forall a, a < KHEAP_TABLE_ADDR \/ TABLE_END <= a -> rd8 (ram_of s') a = rd8 (ram_of s) a).
Proof.
  intros Hpl Ht Hlt O. pose proof O as [O1 Hp O3 O4 O5 O6 O7 O8].
  destruct (proj1 (wp_run _ _ _) (close_spec (f_dev s) (<[p := 1]> B) f i e pos O7 O6 O8)) as (r & d & E & -> & Ed & HR & Hk).
  pose proof (fd_positive fd s p O1 Hp) as Hfd.
  wp_apply (close_fd_spec s d 0 fd p _ Ht (conj Hfd Hlt) O1 Hp); [|exact HR | apply lookup_insert_eq |].
  - unfold fd_fs, fd_private. rewrite O4, O5, (pl_ops Hpl). exact E.
  - intros r s' (-> & Hz & HR' & Ho & Ed' & Hk'). rewrite delete_insert_id in HR' by done. split_and!; try done; [congruence|].
    intros a Ha. rewrite Hk' by done. by apply Hk.
Qed.

(** ** A session *)

Lemma starts_at_copy m m' p q c :
  (forall k, 0 <= k < 32 -> rd8 m' (q + k) = rd8 m (p + k)) -> starts_at m p c -> starts_at m' q c.
Proof.
  intros H [H1 H2]. assert (X : forall o, 0 <= o < 31 -> rd16 m' (q + o) = rd16 m (p + o)).
  { intros o Ho. unfold rd16. rewrite <- !Z.add_assoc. by rewrite !H by lia. }
  unfold starts_at, o_high_cluster, o_low_cluster in *. by rewrite !X by lia.
Qed.

Lemma read_args_kept E x y spc data c pos n out cs :
  mem_kept E x y -> read_args x spc data c pos n out cs -> read_args y spc data c pos n out cs.
Proof.
  intros K [R1 R2 R3 R4 R5 R6 (O1 & O2 & O3) R8]. split; try done. split_and!; try done.
  intros a Ha. by apply (kp_stable E x), O3.
Qed.

Lemma free_clear x p f i e q n :
  0 < n -> (forall b, b = p \/ b = f \/ b = i \/ b = e -> in_heap b /\ entry_is_free x b = true) -> stable_range x q n -> clear_of p f i e q n.
Proof. intros Hn H Hs b Hb. destruct (H b Hb). by apply (stable_apart x). Qed.

(** C7: kfopen finds the file that the path names.  For "0:/name" and a mode
    that starts with r, kfopen searches the root directory for the first entry
    with that name, letters compared without regard to case.  When there is
    one, kfopen returns the lowest free descriptor, which is now open on a copy
    of that entry at position 0; every other descriptor is as it was.  When
    there is none, kfopen returns 0, and not a negative number as the comment
    above it says, and no descriptor changes.  In both cases the three blocks
    of the parsed path stay allocated, and memory that the allocator does not
    own is unchanged except for the buffer of the search. *)
Theorem kfopen_finds_file (s : fstate) (A : gmap Z Z) (priv spc data entries n cs off path_str mode : Z) (name : list Z)
    (Hpl : platform_ok) (HR : heap_rep (d_mach (f_dev s)) A) (Hn : 7 <= kheap_num_free_blocks (d_mach (f_dev s)))
    (HF : fat_files s priv spc data entries n cs off) (HA : open_args s path_str mode name)
    (Hslot : exists fd, 1 <= fd <= MAX_FILE_DESCRIPTORS /\ get_file_descriptor fd s = 0)
    (Hfile : forall j, dir_find (ram_of s) entries 0 (Z.to_nat n) name = Some j ->
       Z.land (rd8 (ram_of s) (entries + 32 * j + o_attribs)) FAT16_ATTR_SUB_DIRECTORY = 0) :
  wp (kfopen path_str mode) s (fun r s' => exists c b q, all_new [c; b; q] A /\
    (forall a, stable (d_mach (f_dev s)) a -> ~ in_name a -> rd8 (ram_of s') a = rd8 (ram_of s) a) /\
    match dir_find (ram_of s) entries 0 (Z.to_nat n) name with
    | None => r = 0 /\ heap_rep (d_mach (f_dev s')) (add_blocks [c; b; q] A) /\ file_descriptors s' = file_descriptors s
    | Some j => exists p f i e, fd_new s s' (add_blocks [c; b; q] A) (entries + 32 * j) r p f i e
    end).
Proof.
  wp_apply (kfopen_spec s A priv spc data entries n cs off path_str mode name Hpl HR Hn HF HA Hslot Hfile).
  intros r s' (c & b & q & Hnew & _ & K & Hres). exists c, b, q. split; [done|]. split; [|done]. apply K.
Qed.

(** Opening "0:/name", reading [len] bytes of its first cluster and closing it. *)
Definition session (path_str mode out len : Z) : M fstate (Z * Z * Z) :=
  fd ← kfopen path_str mode; got ← kfread out len 1 fd; res ← kfclose fd; mret (fd, got, res).

(** What a session leaves behind. *)
Record session_done (s s' : fstate) (A : gmap Z Z) (base cs out len fd : Z) : Prop := {
  sd_fd : lowest_free s fd;
  sd_bytes : forall a, out <= a < out + len -> rd8 (ram_of s') a = u8 (disk_image (base + (a - out)));
  sd_table : forall k, get_file_descriptor k s' = get_file_descriptor k s;
  sd_rep : exists c b q, all_new [c; b; q] A /\ heap_rep (d_mach (f_dev s')) (add_blocks [c; b; q] A);
  sd_kept : forall a, stable (d_mach (f_dev s)) a -> ~ in_name a -> ~ out <= a < out + len -> ~ cs + 4 <= a < cs + 8 ->
    rd8 (ram_of s') a = rd8 (ram_of s) a }.

Lemma session_spec (s : fstate) (A : gmap Z Z) (priv spc data entries n cs off path_str mode j c len out : Z) (name : list Z)
    (Hpl : platform_ok) (HR : heap_rep (d_mach (f_dev s)) A) (Hn : 8 <= kheap_num_free_blocks (d_mach (f_dev s)))
    (HF : fat_files s priv spc data entries n cs off) (HA : open_args s path_str mode name)
    (Hslot : exists fd, 1 <= fd < 1024 /\ get_file_descriptor fd s = 0)
    (Hj : dir_find (ram_of s) entries 0 (Z.to_nat n) name = Some j)
    (Hfile : Z.land (rd8 (ram_of s) (entries + 32 * j + o_attribs)) FAT16_ATTR_SUB_DIRECTORY = 0)
    (Hc : starts_at (ram_of s) (entries + 32 * j) c) (Hr : read_args (d_mach (f_dev s)) spc data c 0 len out cs) :
  wp (session path_str mode out len) s (fun '(fd, got, res) s' =>
    got = 1 /\ res = 0 /\ session_done s s' A (cluster_base spc data c) cs out len fd).
Proof.
  destruct Hslot as (fd0 & Hfd0 & Hz). pose proof (ra_len _ _ _ _ _ _ _ _ Hr) as Hlen.
  unfold session. wp_step. wp_apply (kfopen_spec s A priv spc data entries n cs off path_str mode name Hpl HR ltac:(lia) HF HA);
    [exists fd0; split; [unfold MAX_FILE_DESCRIPTORS; lia | done] | intros j' Hj'; by replace j' with j by congruence |].
  rewrite Hj. intros fd s1 (k1 & k2 & k3 & Hnew & Ed1 & K1 & p & f & i & e & [T O Hfr Hct Hent]).
  pose proof (fat_files_kept in_name s s1 _ _ _ _ _ _ _ Ed1 K1 (ft_table _ _ _ T) (fun a => in_name_off a (pl_stack Hpl)) HF) as HF1.
  assert (Hnew4 : forall b, b = p \/ b = f \/ b = i \/ b = e -> in_heap b /\ entry_is_free (d_mach (f_dev s)) b = true).
  { intros b Hb. split; [by apply (fd_used _ _ _ _ _ _ _ _ b O) | by apply Hfr]. }
  pose proof (ft_lowest _ _ _ T) as (L1 & L2 & L3).
  assert (Hfd : fd < 1024) by (destruct (decide (fd0 < fd)); [by destruct (L3 fd0 ltac:(lia)) | lia]).
  wp_step. wp_apply (kfread_spec s1 _ priv spc data entries n cs off fd p f i e 0 c len out Hpl ltac:(lia) HF1 O).
  { by apply (starts_at_copy (ram_of s) _ (entries + 32 * j)). }
  { by apply (read_args_kept in_name (d_mach (f_dev s))). }
  { apply (free_clear (d_mach (f_dev s))); [lia | done | apply Hr]. }
  { apply (free_clear (d_mach (f_dev s))); [lia | done | apply (ff_obj _ _ _ _ _ _ _ _ HF)]. }
  intros got s2 (-> & Et2 & Ed2 & O2 & Hin & Hk2). wp_step.
  wp_apply (kfclose_spec s2 _ fd p f i e (0 + len) Hpl ltac:(unfold fd_table_ok; rewrite Et2; apply T) Hfd O2).
  intros res s3 (-> & Hz3 & HR3 & Ho3 & Ed3 & Hk3). wp_step. destruct (ra_out _ _ _ _ _ _ _ _ Hr) as (_ & _ & Hso).
  split; [done|]. split; [done|]. split; [done | | | |].
  - intros a Ha. rewrite Hk3 by (apply (Hso a Ha)). rewrite Hin by done. do 2 f_equal. lia.
  - intros k. destruct (decide (k = fd)) as [->|Hk]; [congruence|]. rewrite Ho3, (table_ext s1 s2) by done. by apply T.
  - by exists k1, k2, k3.
  - intros a Ha Hna Hno Hnc. rewrite Hk3 by apply Ha. rewrite Hk2; [by apply (kp_mem _ _ _ K1) | by apply (kp_stable in_name (d_mach (f_dev s))) |].
    destruct (Hnew4 f ltac:(auto)) as [Hf Hff]. destruct Ha as [_ Ha]. specialize (Ha f Hf Hff). unfold in_read, in_block, o_pos in *. lia.
Qed.

(** C6: a file is read through the kernel's file layer.  Opening "0:/name",
    reading [len] bytes of its first cluster and closing it returns a valid
    descriptor, one member read and 0.  The buffer then holds the bytes that
    the disk has at the start of the cluster the directory entry names; every
    descriptor is as before; the heap has the allocations it had and the three
    blocks of the parsed path; and other memory that the allocator does not own
    is unchanged, the position of the cluster stream and the buffer of the
    search excepted. *)
Theorem file_session (s : fstate) (A : gmap Z Z) (priv spc data entries n cs off path_str mode j c len out : Z) (name : list Z)
    (Hpl : platform_ok) (HR : heap_rep (d_mach (f_dev s)) A) (Hn : 8 <= kheap_num_free_blocks (d_mach (f_dev s)))
    (HF : fat_files s priv spc data entries n cs off) (HA : open_args s path_str mode name)
    (Hslot : exists fd, 1 <= fd < 1024 /\ get_file_descriptor fd s = 0)
    (Hj : dir_find (ram_of s) entries 0 (Z.to_nat n) name = Some j)
    (Hfile : Z.land (rd8 (ram_of s) (entries + 32 * j + o_attribs)) FAT16_ATTR_SUB_DIRECTORY = 0)
    (Hc : starts_at (ram_of s) (entries + 32 * j) c) (Hr : read_args (d_mach (f_dev s)) spc data c 0 len out cs) :
  wp (session path_str mode out len) s (fun '(fd, got, res) s' =>
    got = 1 /\ res = 0 /\ session_done s s' A (cluster_base spc data c) cs out len fd).
Proof. by apply (session_spec s A priv spc data entries n cs off path_str mode j c len out name). Qed.
End session.

(** ** Witnesses *)

(** Block 0 of a kernel with a mounted volume: the private structure with a root
    directory of two entries at offset 1024, "X" and "A.B", a stream at 128, the
    path "0:/a.b" at 512 and the mode "r" at 600.  The file "A.B" starts at
    cluster 3. *)
Definition session_ram : ram :=
  let b := block_addr 0 in
  let w a v m := wr32 m (b + a) v in
  let c a v m := wr8 m (b + a) v in
  foldr (fun '(a, v) m => c a v m)
    (w 64 (b + 1024) (w 68 2 (w 76 4 (w 80 (b + 128) (w 128 0x100000 (w 132 0 block0_ram))))))
    [(13, 1); (512, 48); (513, 58); (514, 47); (515, 97); (516, 46); (517, 98); (600, 114);
     (1024, 88); (1025, 32); (1032, 32); (1056, 65); (1057, 32); (1064, 66); (1065, 32); (1082, 3)].
Definition session_state : fstate :=
  mk_fstate (mk_dstate (ready session_ram) (mk_ata 0 0 0 0 0 0 0 0) (mk_disk 0 0 512 0x100100 (block_addr 0))) [] (replicate 1024 0).

(** The operations of fat16.c at the address of the file system. *)
Definition session_fs : FileSystems := fun _ => fat16_fs (plat := test_platform).

Lemma session_only : only_block0 session_ram.
Proof.
  unfold session_ram. cbv zeta. cbn [foldr]. do 16 (apply only_block0_wr8; [|blk; lia]).
  do 6 (apply only_block0_wr32; [|blk; lia]). apply block0_only.
Qed.

Lemma session_budget : kheap_num_free_blocks (d_mach (f_dev session_state)) = 25599.
Proof. exact (block0_budget _ session_only). Qed.

Lemma session_obj p n : block_addr 0 <= p -> p + n <= block_addr 0 + 4096 -> heap_obj (d_mach (f_dev session_state)) p n.
Proof. intros H1 H2. split_and!; [blk; lia | blk; lia | apply block0_stable; [apply session_only | done | done]]. Qed.

Lemma session_platform : platform_ok (plat := test_platform) (fsys := session_fs).
Proof.
  split; [done | done | done |]. unfold on_stack, FS_MAX_PATH_LEN. cbn [stack_name test_platform]. split; [lia|]. split; [lia|].
  intros a Ha. unfold off_heap. hp. lia.
Qed.

Lemma session_files : fat_files (plat := test_platform) session_state (block_addr 0) 1 4 (block_addr 0 + 1024) 2 (block_addr 0 + 128) 0.
Proof.
  split; [reflexivity | reflexivity | | reflexivity | apply session_obj; blk; lia |].
  - split; [split; try reflexivity; unfold SIZEOF_FAT16_PRIVATE; blk; lia | apply session_obj; unfold SIZEOF_FAT16_PRIVATE; blk; lia |].
    split; [apply session_obj; unfold SIZEOF_FAT16_DIR, o_root_dir; lia | reflexivity | reflexivity | lia | apply session_obj; lia].
  - split_and!; [reflexivity | reflexivity | blk; lia | blk; lia | apply session_obj; lia].
Qed.

Lemma session_args : open_args session_state (block_addr 0 + 512) (block_addr 0 + 600) [97; 46; 98].
Proof.
  split.
  - split_and!; [blk; lia | cbn [length]; blk; lia | | reflexivity].
    intros i Hi. cbn [length] in Hi. do 6 (destruct i as [|i]; [by vm_compute|]). lia.
  - split; [cbn [length]; lia|]. by apply (bool_decide_unpack _).
  - apply session_obj; cbn [length]; lia.
  - split; [reflexivity|]. apply (proj2 (proj2 (session_obj (block_addr 0 + 600) 1 ltac:(lia) ltac:(lia)))). lia.
Qed.

Lemma session_found : dir_find (ram_of session_state) (block_addr 0 + 1024) 0 (Z.to_nat 2) [97; 46; 98] = Some 1.
Proof. vm_compute. reflexivity. Qed.

Lemma kfopen_finds_file_witness :
  exists s', kfopen (plat := test_platform) (fsys := session_fs) (block_addr 0 + 512) (block_addr 0 + 600) session_state = Ret 1 s' /\
    get_file_descriptor (plat := test_platform) 1 s' <> 0.
Proof.
  assert (Hslot : exists fd, 1 <= fd <= MAX_FILE_DESCRIPTORS /\ get_file_descriptor (plat := test_platform) fd session_state = 0)
    by (exists 1; split; [unfold MAX_FILE_DESCRIPTORS; lia | reflexivity]).
  assert (Hfile : forall j, dir_find (ram_of session_state) (block_addr 0 + 1024) 0 (Z.to_nat 2) [97; 46; 98] = Some j ->
    Z.land (rd8 (ram_of session_state) (block_addr 0 + 1024 + 32 * j + o_attribs)) FAT16_ATTR_SUB_DIRECTORY = 0).
  { rewrite session_found. intros j [= <-]. vm_compute. reflexivity. }
  destruct (proj1 (wp_run _ _ _) (kfopen_finds_file (plat := test_platform) (fsys := session_fs) session_state (<[0 := 1]> ∅)
    (block_addr 0) 1 4 (block_addr 0 + 1024) 2 (block_addr 0 + 128) 0 (block_addr 0 + 512) (block_addr 0 + 600) [97; 46; 98]
    session_platform (block0_rep _ session_only) ltac:(rewrite session_budget; lia) session_files session_args
    Hslot Hfile))
    as (r & s' & E & c & b & q & _ & _ & H).
  rewrite session_found in H. destruct H as (p & f & i & e & [T O _ _ _]).
  destruct T as [(L1 & L2 & L3) _ _]. assert (Hr : r = 1) by (destruct (decide (r = 1)); [done | by destruct (L3 1 ltac:(lia))]).
  subst r. exists s'. split; [exact E|]. rewrite (fo_slot _ _ _ _ _ _ _ _ O). pose proof (fo_heap _ _ _ _ _ _ _ _ O). blk. lia.
Defined.

Lemma file_session_witness :
  exists s', session (plat := test_platform) (fsys := session_fs) (block_addr 0 + 512) (block_addr 0 + 600) (block_addr 0 + 2048) 6
      session_state = Ret (1, 1, 0) s' /\
    rd8 (ram_of s') (block_addr 0 + 2053) = 5.
Proof.
  assert (Hslot : exists fd, 1 <= fd < 1024 /\ get_file_descriptor (plat := test_platform) fd session_state = 0) by (exists 1; split; [lia | reflexivity]).
  assert (Hr : read_args (d_mach (f_dev session_state)) 1 4 3 0 6 (block_addr 0 + 2048) (block_addr 0 + 128)).
  { split; try lia; [unfold cluster_base; lia|]. split_and!; [blk; lia | blk; lia | apply session_obj; lia]. }
  destruct (proj1 (wp_run _ _ _) (file_session (plat := test_platform) (fsys := session_fs) session_state (<[0 := 1]> ∅)
    (block_addr 0) 1 4 (block_addr 0 + 1024) 2 (block_addr 0 + 128) 0 (block_addr 0 + 512) (block_addr 0 + 600) 1 3 6 (block_addr 0 + 2048)
    [97; 46; 98] session_platform (block0_rep _ session_only) ltac:(rewrite session_budget; lia) session_files session_args
    Hslot session_found eq_refl (conj eq_refl eq_refl) Hr)) as ([[fd got] res] & s' & E & -> & -> & [L Hin _ _ _]).
  destruct L as (L1 & L2 & L3). assert (Hfd : fd = 1) by (destruct (decide (fd = 1)); [done | by destruct (L3 1 ltac:(lia))]).
  subst fd. exists s'. split; [exact E|]. rewrite Hin by lia. reflexivity.
Defined.
