(* ===== verification/Mount.v ===== *)
(** * Mounting a FAT16 volume

    fat16_resolve (fs/fat/fat16.c) reads the boot sector and the root directory
    of the disk into memory.  What it leaves is a volume on which the operations
    of the file layer work. *)
From Stdlib Require Import ZArith Lia String.
From stdpp Require Import base numbers gmap list strings.
From S2P Require Import Prelude Config Memory Strings Machine Console Kheap Paging Blocks Disk Path File Fat16 Volume Session.
Local Open Scope Z_scope.

(** ** Steps on allocated memory *)

(** Composition of steps when what the second one touches was free at the start,
    or may be touched anyway. *)
Lemma mem_kept_through E E' x y z :
  mem_kept E x y -> mem_kept E' y z -> (forall a, E' a -> stable x a -> E a) -> mem_kept E x z.
Proof.
  intros K1 K2 H. split; [|intros k Hk Hf; by apply (kp_free _ _ _ K1), (kp_free _ _ _ K2)].
  intros a Ha He. rewrite (kp_mem _ _ _ K2); [by apply (kp_mem _ _ _ K1) | by apply (kp_stable E x) | auto].
Qed.

(** A block that was free is not stable. *)
Lemma free_unstable x b a : in_heap b -> entry_is_free x b = true -> in_block b a -> ~ stable x a.
Proof. intros Hb Hf Ha [_ H]. by apply (H b). Qed.

Lemma rep_mono x y A B k :
  heap_rep x A -> heap_rep y B -> (forall i n, A !! i = Some n -> B !! i = Some n) -> in_heap k ->
  entry_is_free y k = true -> entry_is_free x k = true.
Proof.
  intros HA HB Hs Hk Hf. apply (rep_free x A k HA Hk). apply (rep_free y B k HB Hk) in Hf. intros (i & n & Hi & Hr).
  apply Hf. exists i, n. auto.
Qed.

(** One block more is allocated. *)
Lemma rep_insert_count x y A b :
  heap_rep x A -> heap_rep y (<[b := 1]> A) -> A !! b = None -> in_heap b ->
  kheap_num_free_blocks y = kheap_num_free_blocks x - 1.
Proof.
  intros HA HB Hb Hh. assert (Hc : ~ covers A b).
  { intros (i & n & Hi & Hr). assert (Hne : i <> b) by congruence.
    pose proof (rep_disjoint y (<[b := 1]> A) i n b 1 HB ltac:(by rewrite lookup_insert_ne) (lookup_insert_eq _ _ _)). lia. }
  assert (Hx : forall k, in_heap k -> k <> b -> entry_is_free y k = entry_is_free x k).
  { intros k Hk Hne. apply eq_bool_prop_intro. rewrite !Is_true_true, (rep_free y _ k HB Hk), (rep_free x _ k HA Hk), covers_insert by done.
    split; [tauto|]. intros H [?|?]; [lia | done]. }
  apply (num_free_take x y b 1); [apply HA | apply HB | blk; lia | lia | blk; lia | |].
  - intros k Hk. replace k with b by lia. split; [by apply (rep_free x A b HA Hh) | by apply (rep_used y _ b HB Hh), lookup_insert_eq].
  - intros k Hk Hne. apply Hx; [done | lia].
Qed.

(** [step E A s s']: between [s] and [s'] the disk layer has changed only memory,
    of which the allocator does not own the part in [E]; the allocations are
    now [A]. *)
Record step (E : Z -> Prop) (A : gmap Z Z) (s s' : dstate) : Prop := {
  sp_disk : d_disk s' = d_disk s;
  sp_rep : heap_rep (d_mach s') A;
  sp_con : m_con (d_mach s') = m_con (d_mach s);
  sp_kept : mem_kept E (d_mach s) (d_mach s') }.

(** Bytes of a block in use that the step does not touch. *)
Lemma step_used E A B s s' b a :
  step E B s s' -> heap_rep (d_mach s) A -> A !! b = Some 1 -> in_heap b -> in_block b a -> ~ E a -> rd8 (dram s') a = rd8 (dram s) a.
Proof. intros K HR HA Hb Ha He. apply (kp_mem _ _ _ (sp_kept _ _ _ _ K)); [|done]. apply (used_stable _ b); [done | by apply (rep_used _ A) | done]. Qed.

Lemma step_word E A B s s' b p :
  step E B s s' -> heap_rep (d_mach s) A -> A !! b = Some 1 -> in_heap b -> block_addr b <= p -> p + 4 <= block_addr b + 4096 ->
  (forall a, p <= a < p + 4 -> ~ E a) -> rd32 (dram s') p = rd32 (dram s) p.
Proof. intros K HR HA Hb H1 H2 He. apply rd32_ext. intros a Ha. apply (step_used E A B s s' b); try done; [unfold in_block; lia | auto]. Qed.

(** Writes inside a block in use. *)
Lemma step_write A s m b p n :
  heap_rep (d_mach s) A -> A !! b = Some 1 -> in_heap b -> block_addr b <= p -> p + n <= block_addr b + 4096 ->
  (forall a, a < p \/ p + n <= a -> rd8 m a = rd8 (dram s) a) ->
  let s' := set_mach (set_ram m (d_mach s)) s in
  step (fun a => p <= a < p + n) A s s' /\ kheap_num_free_blocks (d_mach s') = kheap_num_free_blocks (d_mach s).
Proof.
  intros HR HA Hb H1 H2 Hm s'. pose proof HR as (Hs & _).
  assert (Hst : stable_range (d_mach s) p n) by (intros a Ha; apply (used_stable _ b); [done | by apply (rep_used _ A) | unfold in_block; lia]).
  assert (HR' : heap_rep (d_mach s') A) by (apply heap_rep_ram; [done | by apply (stable_write _ _ p n)]).
  split; [split; [done | done | done |] | by apply (rep_num_free _ _ A)]. apply (ram_kept_write (d_mach s) m p n); done.
Qed.

Section mount.
Context {plat : Platform}.

(** A new stream at the start of the disk. *)
Lemma new_stream s A :
  heap_rep (d_mach s) A -> 0 < kheap_num_free_blocks (d_mach s) -> 0 < disk_addr < 4294967296 ->
  wp (disk_stream_new 0) s (fun p s' => exists b, p = block_addr b /\ in_heap b /\ A !! b = None /\
    entry_is_free (d_mach s) b = true /\ step (fun _ => False) (<[b := 1]> A) s s' /\
    kheap_num_free_blocks (d_mach s') = kheap_num_free_blocks (d_mach s) - 1 /\
    rd32 (dram s') (block_addr b) = disk_addr /\ rd32 (dram s') (block_addr b + 4) = 0).
Proof.
  intros HR Hn Hd. unfold disk_stream_new, get_disk. change (negb (0 =? 0)) with false. cbn iota. wpf.
  rewrite (proj2 (Z.eqb_neq disk_addr 0)) by lia. wpf. apply wp_mach.
  wp_apply (kzalloc_kept (d_mach s) A SIZEOF_DISK_STREAM HR ltac:(done) Hn).
  intros p y (b & -> & Hb & HAb & Hf & HR1 & K1 & Hu & Hc & _). wpf. apply wp_mach, wp_modify. wpf. apply wp_mach, wp_modify. wpf.
  set (s1 := set_mach y s). set (m := wr32 (wr32 (dram s1) (block_addr b) disk_addr) (block_addr b + 4) 0). exists b.
  assert (Hm : forall a, a < block_addr b \/ block_addr b + 8 <= a -> rd8 m a = rd8 (dram s1) a) by (intros a Ha; unfold m; by rewrite !rd8_wr32 by lia).
  destruct (step_write _ s1 m b (block_addr b) 8 HR1 (lookup_insert_eq _ _ _) Hb) as [S2 Hc2]; try done; try lia.
  split_and!; try done.
  - split; [done | apply S2 | |]; [destruct K1 as [_ [m1 ->]]; done|]. apply (mem_kept_through _ _ _ _ _ (kp_kept _ _ _ K1) (sp_kept _ _ _ _ S2)).
    intros a Ha Hst. exfalso. apply (free_unstable (d_mach s) b a); try done. unfold in_block. lia.
  - rewrite <- Hc. exact Hc2.
  - change (rd32 m (block_addr b) = disk_addr). unfold m. rewrite rd32_wr32_ne, rd32_wr32 by lia. apply u32_small. lia.
  - change (rd32 m (block_addr b + 4) = 0). unfold m. by rewrite rd32_wr32.
Qed.

(** Reading from a stream in block [d] into stable memory. *)
Lemma read_step s A d off out size :
  heap_rep (d_mach s) A -> A !! d = Some 1 -> in_heap d -> 0 < kheap_num_free_blocks (d_mach s) -> sector_size (d_disk s) = 512 ->
  rd32 (dram s) (block_addr d) = disk_addr -> rd32 (dram s) (block_addr d + 4) = off ->
  0 < size -> off + size < 4294967296 -> 0 <= out -> out + size < 4294967296 ->
  stable_range (d_mach s) out size -> (out + size <= block_addr d \/ block_addr d + 8 <= out) ->
  wp (disk_stream_read (block_addr d) out size) s (fun r s' => r = 0 /\
    step (fun a => out <= a < out + size \/ block_addr d + 4 <= a < block_addr d + 8) A s s' /\
    kheap_num_free_blocks (d_mach s') = kheap_num_free_blocks (d_mach s) /\
    rd32 (dram s') (block_addr d + 4) = off + size /\
    forall a, out <= a < out + size -> rd8 (dram s') a = u8 (disk_image (off + (a - out)))).
Proof.
  intros HR HA Hd Hn Hss H0 H4 Hsz Hoff Ho1 Ho2 Host Hap. pose proof HR as (Hs & _).
  assert (Hst : stream_at (d_mach s) (block_addr d) off).
  { split_and!; [done | done | blk; lia | blk; lia |]. apply (used_obj _ A d); try done; lia. }
  wp_apply (stream_read_spec s (block_addr d) out off size Hs Hss Hst Hsz Hoff Ho1 Ho2 Host Hap (num_free_pos _ Hs Hn)).
  intros r s' (-> & Ed & Sh & (_ & E4 & _) & Hin & Hk). pose proof (same_heap_rep _ _ _ HR Sh) as HR'.
  split_and!; try done; [|by apply (rep_num_free _ _ A)]. split; [done | done | apply Sh |]. split.
  - intros a Ha He. apply Hk; [done | lia | lia].
  - intros k Hk' Hf. by rewrite (sh_free _ _ Sh) in Hf.
Qed.

(** Moving the stream in block [d]. *)
Lemma seek_step s A d pos :
  heap_rep (d_mach s) A -> A !! d = Some 1 -> in_heap d -> is_u32 pos ->
  wp (disk_stream_seek (block_addr d) pos) s (fun r s' => r = 0 /\
    step (fun a => block_addr d + 4 <= a < block_addr d + 8) A s s' /\
    kheap_num_free_blocks (d_mach s') = kheap_num_free_blocks (d_mach s) /\ rd32 (dram s') (block_addr d + 4) = pos).
Proof.
  intros HR HA Hd Hp. unfold disk_stream_seek. wpf. apply wp_mach, wp_modify. wpf. set (m := wr32 (dram s) (block_addr d + 4) pos).
  destruct (step_write A s m d (block_addr d + 4) 4 HR HA Hd) as [S Hc]; [lia | lia | intros a Ha; apply rd8_wr32; lia |].
  replace (block_addr d + 4 + 4) with (block_addr d + 8) in S by lia. split_and!; try done.
  change (rd32 m (block_addr d + 4) = pos). unfold m. rewrite rd32_wr32. by apply u32_small.
Qed.

(** ** Scanning the root directory *)

(** A byte of the disk. *)
Definition img (k : Z) : Z := u8 (disk_image k).

(** The number of entries in use among the [n] entries from byte [off] of the
    disk; 0xE5 marks a deleted one. *)
Fixpoint live (n : nat) (off : Z) : Z :=
  match n with
  | O => 0
  | S n => (if img off =? 0xE5 then 0 else 1) + live n (off + 32)
  end.

Lemma live_range n : forall off, 0 <= live n off <= Z.of_nat n.
Proof. induction n as [|n IH]; intros off; cbn [live]; [lia|]. specialize (IH (off + 32)). destruct (img off =? 0xE5); lia. Qed.

(** The local [entry] of the scan. *)
Definition in_entry (a : Z) : Prop := stack_entry <= a < stack_entry + 32.

Definition scan_area (d a : Z) : Prop := in_entry a \/ block_addr d + 4 <= a < block_addr d + 8.

Lemma step_trans E A B s s1 s2 : step E A s s1 -> step E B s1 s2 -> step E B s s2.
Proof. intros [D1 R1 C1 K1] [D2 R2 C2 K2]. split; [congruence | done | congruence | by apply (mem_kept_trans _ _ (d_mach s1))]. Qed.

Lemma step_refl E A s : heap_rep (d_mach s) A -> step E A s s.
Proof. by split. Qed.

Lemma entry_apart d : on_stack stack_entry 32 -> in_heap d ->
  stack_entry + 32 <= block_addr d \/ block_addr d + 4096 <= stack_entry.
Proof.
  intros (_ & _ & H) Hd. destruct (decide (stack_entry + 32 <= block_addr d \/ block_addr d + 4096 <= stack_entry)); [done|].
  assert (Hm : stack_entry <= Z.max stack_entry (block_addr d) < stack_entry + 32) by lia.
  destruct (H _ Hm) as [_ Ho]. blk. lia.
Qed.

Lemma count_items_spec n : forall fuel s A d off cnt,
  (n < fuel)%nat -> heap_rep (d_mach s) A -> A !! d = Some 1 -> in_heap d -> 0 < kheap_num_free_blocks (d_mach s) ->
  sector_size (d_disk s) = 512 -> on_stack stack_entry 32 ->
  rd32 (dram s) (block_addr d) = disk_addr -> rd32 (dram s) (block_addr d + 4) = off ->
  0 <= off -> off + 32 * (Z.of_nat n + 1) < 4294967296 -> (forall j, 0 <= j < Z.of_nat n -> img (off + 32 * j) <> 0) ->
  img (off + 32 * Z.of_nat n) = 0 -> 0 <= cnt -> cnt + Z.of_nat n < 2147483648 ->
  wp (count_items fuel (block_addr d) cnt) s (fun r s' => r = cnt + live n off /\ step (scan_area d) A s s' /\
    kheap_num_free_blocks (d_mach s') = kheap_num_free_blocks (d_mach s)).
Proof.
  induction n as [|n IH]; intros [|fuel] s A d off cnt Hfu HR HA Hd Hn Hss Hst H0 H4 Ho Hr Hnz Hz Hc0 Hc; try lia;
    cbn [count_items live]; wp_step; pose proof Hst as (St0 & St1 & _); pose proof (entry_apart d Hst Hd) as Ha.
  all: wp_apply (read_step s A d off stack_entry SIZEOF_DIR_ENTRY HR HA Hd Hn Hss H0 H4); unfold SIZEOF_DIR_ENTRY in *;
    [lia | lia | lia | lia | by apply on_stack_stable | lia |]; intros r s1 (-> & S1 & C1 & E1 & Hin);
    change (negb (0 =? STATUS_OK)) with false; cbn iota; wpf; rewrite set_mach_id, (u32_small stack_entry) by lia;
    fold (dram s1); rewrite (Hin stack_entry) by lia; rewrite Z.sub_diag, Z.add_0_r; fold (img off).
  - rewrite Z.mul_0_r, Z.add_0_r in Hz. rewrite Hz. wpf. split_and!; [lia | exact S1 | done].
  - pose proof (Hnz 0 ltac:(lia)) as Hf. rewrite Z.mul_0_r, Z.add_0_r in Hf. rewrite (proj2 (Z.eqb_neq _ 0)) by done.
    assert (W : forall c, 0 <= c -> c + Z.of_nat n < 2147483648 ->
      wp (count_items fuel (block_addr d) c) s1 (fun r s' => r = c + live n (off + 32) /\ step (scan_area d) A s s' /\
        kheap_num_free_blocks (d_mach s') = kheap_num_free_blocks (d_mach s))).
    { intros c Hc1 Hc2. wp_apply (IH fuel s1 A d (off + 32) c); try done; try lia; try apply S1.
      - by rewrite (sp_disk _ _ _ _ S1).
      - rewrite <- H0. apply (step_word _ A A s s1 d _ S1 HR HA Hd); try lia.
      - intros j Hj. replace (off + 32 + 32 * j) with (off + 32 * (j + 1)) by lia. apply Hnz. lia.
      - rewrite <- Hz. f_equal. lia.
      - intros r s2 (-> & S2 & C2). split_and!; [done | by apply (step_trans _ A A s s1) | lia]. }
    destruct (Z.eqb_spec (img off) 229) as [E|E]; [exact (W cnt ltac:(lia) ltac:(lia))|].
    rewrite i32_small by lia. wp_apply (W (cnt + 1) ltac:(lia) ltac:(lia)). intros r s2 (-> & S2 & C2). split_and!; [lia | done | done].
Qed.

(** A deleted entry hides a file: it is not counted, but it stays in the table,
    so that the search ends before the last entry in use. *)
Lemma deleted_entry_hides_file (m : ram) (entries off : Z) (name : list Z) :
  img off = 0xE5 -> img (off + 32) <> 0xE5 -> names_match (full_name m entries) name = false ->
  names_match (full_name m (entries + 32)) name = true ->
  dir_find m entries 0 (Z.to_nat (live 2 off)) name = None /\ dir_find m entries 0 2 name = Some 1.
Proof.
  intros H1 H2 H3 H4. cbn [live]. rewrite H1, (proj2 (Z.eqb_neq (img (off + 32)) 0xE5)) by done.
  change (Z.to_nat _) with 1%nat. rewrite !dir_find_S, Z.mul_0_r, Z.add_0_r, H3. split; [done|].
  change (32 * (0 + 1)) with 32. by rewrite H4.
Qed.

(** ** The layout of a volume *)

Definition img16 (k : Z) : Z := img k + 256 * img (k + 1).

(** The geometry that the boot sector gives. *)
Definition root_start : Z := img o_fat_copies * img16 o_sectors_per_fat + img16 o_reserved_sectors.
Definition root_bytes : Z := img16 o_root_dir_entries * 32.
Definition data_start : Z := root_start + (root_bytes + 511) / 512.

(** A FAT16 disk whose root directory has [n] entries before the end mark; the
    table fits in one block of the heap. *)
Record fat_image (n : nat) : Prop := {
  im_signature : img o_signature = FAT16_SIGNATURE;
  im_entries : Z.of_nat n < img16 o_root_dir_entries <= 128;
  im_used : forall j, 0 <= j < Z.of_nat n -> img (512 * root_start + 32 * j) <> 0;
  im_end : img (512 * root_start + 32 * Z.of_nat n) = 0;
  im_range : 512 * root_start + root_bytes < 4294967296;
  im_scan : (n < scan_fuel)%nat }.

Lemma img_range k : 0 <= img k < 256.
Proof. apply u8_range. Qed.

Lemma img16_range k : 0 <= img16 k < 65536.
Proof. unfold img16. pose proof (img_range k). pose proof (img_range (k + 1)). lia. Qed.

(** The boot sector is in memory at [p]. *)
Definition header_at (m : ram) (p : Z) : Prop := forall k, 0 <= k < SIZEOF_FAT16_H -> rd8 m (p + k) = img k.

Lemma header_word m p k : header_at m p -> 0 <= k < 61 -> rd16 m (p + k) = img16 k.
Proof. intros H Hk. unfold rd16, img16. rewrite <- Z.add_assoc, !H by (unfold SIZEOF_FAT16_H; lia). done. Qed.

(** The count of the entries of the root directory. *)
Lemma total_items_spec s A v d n :
  fat_image n -> heap_rep (d_mach s) A -> A !! d = Some 1 -> in_heap d -> in_heap v -> 0 < kheap_num_free_blocks (d_mach s) ->
  fs_private (d_disk s) = block_addr v -> sector_size (d_disk s) = 512 -> on_stack stack_entry 32 ->
  rd32 (dram s) (block_addr v + o_dir_stream) = block_addr d -> rd32 (dram s) (block_addr d) = disk_addr ->
  wp (fat16_get_total_items_in_dir root_start) s (fun r s' => r = live n (512 * root_start) /\ step (scan_area d) A s s' /\
    kheap_num_free_blocks (d_mach s') = kheap_num_free_blocks (d_mach s)).
Proof.
  intros [_ I2 I3 I4 I5 I6] HR HA Hd Hv Hn Hpv Hss Hst Hds Hdd. pose proof (img_range o_fat_copies). pose proof (img16_range o_sectors_per_fat).
  pose proof (img16_range o_reserved_sectors). assert (Hr : 0 <= root_start) by (unfold root_start; nia). unfold root_bytes in I5.
  unfold fat16_get_total_items_in_dir. wpf. rewrite !set_mach_id, Hpv, Hss.
  rewrite (u32_small (block_addr v + o_dir_stream)) by (unfold o_dir_stream; blk; lia). fold (dram s). rewrite Hds.
  replace (root_start * 512) with (512 * root_start) by lia. rewrite (u32_small (512 * root_start)) by lia.
  wp_apply (seek_step s A d (512 * root_start) HR HA Hd ltac:(unfold is_u32; lia)). intros r s1 (-> & S1 & C1 & E1).
  change (negb (0 =? STATUS_OK)) with false. cbn iota.
  wp_apply (count_items_spec n scan_fuel s1 A d (512 * root_start) 0); try done; try lia; try apply S1.
  - by rewrite (sp_disk _ _ _ _ S1).
  - rewrite <- Hdd. apply (step_word _ A A s s1 d _ S1 HR HA Hd); lia.
  - intros r s2 (-> & S2 & C2). split_and!; [lia | | lia]. apply (step_trans _ A A s s1); [|done].
    destruct S1 as [D1 R1 N1 K1]. split; [done | done | done |]. apply (mem_kept_weaken _ _ _ _ (fun a Ha => or_intror Ha) K1).
Qed.

(** ** Loading the root directory *)

Definition load_area (v d a : Z) : Prop := scan_area d a \/ block_addr v + o_root_dir <= a < block_addr v + o_root_dir + SIZEOF_FAT16_DIR.

Lemma step_weaken (E E' : Z -> Prop) A s s' : (forall a, E a -> E' a) -> step E A s s' -> step E' A s s'.
Proof. intros H [D R C K]. split; [done | done | done | by apply (mem_kept_weaken E)]. Qed.

(** A step that follows the allocation of block [e]. *)
Lemma step_fresh E E' A B s s1 s2 e :
  step E A s s1 -> step E' B s1 s2 -> in_heap e -> entry_is_free (d_mach s) e = true ->
  (forall a, E' a -> in_block e a \/ E a) -> step E B s s2.
Proof.
  intros [D1 R1 C1 K1] [D2 R2 C2 K2] He Hf H. split; [congruence | done | congruence |]. apply (mem_kept_through E E' _ _ _ K1 K2).
  intros a Ha Hst. destruct (H a Ha) as [Hb|]; [|done]. by destruct (free_unstable _ e a He Hf Hb).
Qed.

(** The table of the root directory, read from the disk into the new block [e]. *)
Lemma read_table s A v d n :
  fat_image n -> heap_rep (d_mach s) A -> A !! d = Some 1 -> in_heap d -> in_heap v -> A !! v = Some 1 -> v <> d ->
  1 < kheap_num_free_blocks (d_mach s) -> sector_size (d_disk s) = 512 ->
  rd32 (dram s) (block_addr v + o_dir_stream) = block_addr d -> rd32 (dram s) (block_addr d) = disk_addr ->
  forall (K : Z -> Z -> M dstate Z) Q,
  (forall e s', in_heap e -> A !! e = None -> entry_is_free (d_mach s) e = true -> step (scan_area d) (<[e := 1]> A) s s' ->
     kheap_num_free_blocks (d_mach s') = kheap_num_free_blocks (d_mach s) - 1 ->
     (forall k, 0 <= k < root_bytes -> rd8 (dram s') (block_addr e + k) = img (512 * root_start + k)) ->
     wp (K (block_addr e) 0) s' Q) ->
  wp (dir_entries ← mach (kzalloc root_bytes);
      if dir_entries =? 0 then mret (- STATUS_NOT_ENOUGH_MEM)
      else
        stream ← ld32 (block_addr v + o_dir_stream);
        res ← disk_stream_seek stream (u32 (root_start * 512));
        if negb (res =? STATUS_OK) then mach (kfree dir_entries);; mret res
        else
          res ← disk_stream_read stream dir_entries root_bytes;
          if negb (res =? STATUS_OK) then mach (kfree dir_entries);; mret res
          else K dir_entries res) s Q.
Proof.
  intros [_ I2 I3 I4 I5 I6] HR HA Hd Hv HAv Hvd Hn Hss Hds Hdd K Q HK. pose proof (img_range o_fat_copies). pose proof (img16_range o_sectors_per_fat).
  pose proof (img16_range o_reserved_sectors). assert (Hr : 0 <= root_start) by (unfold root_start; nia).
  assert (Hrb : 0 < root_bytes <= 4096) by (unfold root_bytes; lia).
  wp_step. apply wp_mach. wp_apply (kzalloc_kept (d_mach s) A root_bytes HR Hrb ltac:(lia)).
  intros p y (e & -> & He & HAe & Hf & HR1 & K1 & Hu & Hc & _). rewrite (proj2 (Z.eqb_neq _ 0)) by (blk; lia).
  set (s1 := set_mach y s). assert (S1 : step (fun _ => False) (<[e := 1]> A) s s1) by (split; [done | done | by destruct K1 as [_ [m1 ->] ] | apply K1]).
  assert (HA1 : forall b, A !! b = Some 1 -> <[e := 1]> A !! b = Some 1) by (intros b Hb; rewrite lookup_insert_ne; [done | congruence]).
  wpf. rewrite (u32_small (block_addr v + o_dir_stream)) by (unfold o_dir_stream; blk; lia).
  change (rd32 (m_ram (d_mach s1)) ?p) with (rd32 (dram s1) p).
  assert (Hds1 : rd32 (dram s1) (block_addr v + o_dir_stream) = block_addr d).
  { rewrite <- Hds. unfold o_dir_stream. apply (step_word _ A _ s s1 v _ S1 HR HAv Hv); [lia | lia | tauto]. }
  rewrite Hds1, set_mach_id. replace (root_start * 512) with (512 * root_start) by lia. rewrite (u32_small (512 * root_start)) by lia.
  wp_apply (seek_step s1 _ d (512 * root_start) HR1 (HA1 d HA) Hd ltac:(unfold is_u32; lia)). intros r s2 (-> & S2 & C2 & E2).
  change (negb (0 =? STATUS_OK)) with false. cbn iota. wp_step.
  assert (Hed : block_addr e + 4096 <= block_addr d \/ block_addr d + 4096 <= block_addr e).
  { assert (e <> d) by congruence. blk. lia. }
  assert (Hdd2 : rd32 (dram s2) (block_addr d) = disk_addr).
  { rewrite <- Hdd. transitivity (rd32 (dram s1) (block_addr d)); [apply (step_word _ _ _ s1 s2 d _ S2 HR1 (HA1 d HA) Hd); lia|].
    apply (step_word _ A _ s s1 d _ S1 HR HA Hd); [lia | lia | tauto]. }
  wp_apply (read_step s2 _ d (512 * root_start) (block_addr e) root_bytes (sp_rep _ _ _ _ S2) (HA1 d HA) Hd); try done; try lia.
  { change (d_mach s1) with y in C2. lia. }
  { by rewrite (sp_disk _ _ _ _ S2). } { blk; lia. } { blk; lia. }
  { apply (used_obj _ _ e _ _ (sp_rep _ _ _ _ S2) He (lookup_insert_eq _ _ _)); lia. }
  intros r s3 (-> & S3 & C3 & _ & Hin). change (negb (0 =? STATUS_OK)) with false. cbn iota. apply (HK e s3); try done.
  - apply (step_fresh (scan_area d) (fun a => block_addr e <= a < block_addr e + root_bytes \/ block_addr d + 4 <= a < block_addr d + 8) (<[e := 1]> A) _ s s2 _ e); try done.
    + apply (step_trans _ (<[e := 1]> A) _ s s1); [by apply (step_weaken (fun _ => False))|].
      apply (step_weaken _ _ _ _ _ (fun a Ha => or_intror Ha) S2).
    + unfold in_block, scan_area. lia.
  - change (d_mach s1) with y in C2. lia.
  - intros k Hk. rewrite Hin by lia. unfold img. do 2 f_equal. lia.
Qed.

(** The private structure in block [v] describes a root directory of [n] entries
    in block [e]. *)
Record root_loaded (m : ram) (v e n : Z) : Prop := {
  rl_entries : rd32 m (block_addr v + o_root_dir) = block_addr e;
  rl_count : rd32 m (block_addr v + o_root_dir + o_total_entries) = n;
  rl_end : rd32 m (block_addr v + o_root_dir + o_end_sector) = data_start;
  rl_bytes : forall k, 0 <= k < root_bytes -> rd8 m (block_addr e + k) = img (512 * root_start + k) }.

Lemma data_start_quot : Z.quot (root_bytes + 512 - 1) 512 = data_start - root_start.
Proof.
  pose proof (img16_range o_root_dir_entries). unfold data_start, root_bytes. rewrite Z.quot_div_nonneg by lia.
  replace (img16 o_root_dir_entries * 32 + 512 - 1) with (img16 o_root_dir_entries * 32 + 511) by lia. lia.
Qed.

(** The stores that end fat16_load_root_dir. *)
Lemma store_root s v e cnt st fin res (Q : Z -> dstate -> Prop) :
  in_heap v ->
  (let p := block_addr v + 64 in
   Q res (set_mach (set_ram (wr32 (wr32 (wr32 (wr32 (dram s) p e) (p + 4) cnt) (p + 8) st) (p + 12) fin) (d_mach s)) s)) ->
  wp (st32 (block_addr v + o_root_dir) e;; st32 (block_addr v + o_root_dir + o_total_entries) cnt;;
      st32 (block_addr v + o_root_dir + o_start_sector) st;; st32 (block_addr v + o_root_dir + o_end_sector) fin;; mret res) s Q.
Proof.
  intros Hv HQ. wpf. unfold o_total_entries, o_start_sector, o_end_sector, o_root_dir.
  rewrite (u32_small (block_addr v + 64)), !(u32_small (block_addr v + 64 + _)) by (blk; lia). exact HQ.
Qed.

Lemma load_root_spec s A v d n :
  fat_image n -> heap_rep (d_mach s) A -> A !! d = Some 1 -> in_heap d -> in_heap v -> A !! v = Some 1 -> v <> d ->
  1 < kheap_num_free_blocks (d_mach s) -> fs_private (d_disk s) = block_addr v -> sector_size (d_disk s) = 512 -> on_stack stack_entry 32 ->
  header_at (dram s) (block_addr v) ->
  rd32 (dram s) (block_addr v + o_dir_stream) = block_addr d -> rd32 (dram s) (block_addr d) = disk_addr ->
  wp (fat16_load_root_dir (block_addr v)) s (fun r s' => r = 0 /\ exists e, in_heap e /\ A !! e = None /\
    entry_is_free (d_mach s) e = true /\ step (load_area v d) (<[e := 1]> A) s s' /\
    kheap_num_free_blocks (d_mach s') = kheap_num_free_blocks (d_mach s) - 1 /\
    root_loaded (dram s') v e (live n (512 * root_start))).
Proof.
  intros I HR HA Hd Hv HAv Hvd Hn Hpv Hss Hst Hh Hds Hdd. pose proof (img_range o_fat_copies). pose proof (img16_range o_sectors_per_fat).
  pose proof (img16_range o_reserved_sectors). pose proof (im_entries _ I) as Hen. pose proof (im_range _ I) as Hrg.
  assert (Hr : 0 <= root_start) by (unfold root_start; nia). pose proof (live_range n (512 * root_start)) as Hl.
  unfold fat16_load_root_dir. wpf. rewrite !set_mach_id, Hss.
  rewrite !(u32_small (block_addr v + _)) by (unfold o_fat_copies, o_sectors_per_fat, o_reserved_sectors, o_root_dir_entries; blk; lia).
  fold (dram s). rewrite (Hh o_fat_copies), !(header_word _ _ _ Hh) by done. fold root_start. unfold SIZEOF_DIR_ENTRY. fold root_bytes.
  change (512 =? 0) with false. cbn iota. rewrite data_start_quot. wp_step.
  wp_apply (total_items_spec s A v d n I HR HA Hd Hv ltac:(lia) Hpv Hss Hst Hds Hdd). intros r s1 (-> & S1 & C1).
  rewrite (proj2 (Z.ltb_ge (live n (512 * root_start)) 0)) by lia.
  assert (Hvd' : block_addr v + 4096 <= block_addr d \/ block_addr d + 4096 <= block_addr v) by (blk; lia).
  pose proof (entry_apart v Hst Hv) as Hve. pose proof (entry_apart d Hst Hd) as Hde.
  apply (read_table s1 A v d n I (sp_rep _ _ _ _ S1) HA Hd Hv HAv Hvd ltac:(lia) ltac:(by rewrite (sp_disk _ _ _ _ S1))).
  { rewrite <- Hds. unfold o_dir_stream. apply (step_word _ A A s s1 v _ S1 HR HAv Hv); unfold scan_area, in_entry; lia. }
  { rewrite <- Hdd. apply (step_word _ A A s s1 d _ S1 HR HA Hd); unfold scan_area, in_entry; lia. }
  intros e s2 He HAe Hf S2 C2 Hb. assert (Hev : e <> v) by congruence.
  assert (Hev' : block_addr v + 4096 <= block_addr e \/ block_addr e + 4096 <= block_addr v) by (blk; lia).
  apply store_root; [done|]. cbn zeta. set (m := wr32 (wr32 (wr32 (wr32 _ _ _) _ _) _ _) _ _). set (s3 := set_mach _ _).
  assert (Hm : forall a, a < block_addr v + 64 \/ block_addr v + 64 + 16 <= a -> rd8 m a = rd8 (dram s2) a).
  { intros a Ha. unfold m. by rewrite !rd8_wr32 by lia. }
  destruct (step_write _ s2 m v (block_addr v + 64) 16 (sp_rep _ _ _ _ S2)) as [S3 C3];
    [by rewrite lookup_insert_ne | done | lia | lia | exact Hm |]. fold s3 in S3, C3.
  split; [done|]. exists e. split_and!; try done.
  - by apply (kp_free _ _ _ (sp_kept _ _ _ _ S1)).
  - apply (step_trans _ (<[e := 1]> A) _ s s2).
    + apply (step_weaken (scan_area d)); [by left|]. by apply (step_trans _ A _ s s1).
    + apply (step_weaken _ _ _ _ _ (fun a Ha => or_intror Ha) S3).
  - lia.
  - change (dram s3) with m. unfold m. split; unfold o_total_entries, o_end_sector, o_root_dir.
    + rewrite !rd32_wr32_ne, rd32_wr32 by lia. apply u32_small. blk. lia.
    + rewrite !rd32_wr32_ne, rd32_wr32 by lia. apply u32_small. lia.
    + rewrite rd32_wr32. replace (root_start + (data_start - root_start)) with data_start by lia. apply u32_small.
      pose proof data_start_quot. unfold data_start, root_bytes in *. zlia.
    + intros k Hk. unfold root_bytes in Hk. fold m. rewrite Hm by lia. apply Hb. unfold root_bytes. lia.
Qed.

(** ** The private structure *)

(** A stream at the start of the disk, in block [b]. *)
Definition stream_zero (m : ram) (b : Z) : Prop := rd32 m (block_addr b) = disk_addr /\ rd32 m (block_addr b + 4) = 0.

(** A new stream in block [b], with a pointer to it at offset [o] of block [v]. *)
Record slot (s s' : dstate) (A : gmap Z Z) (v o b : Z) : Prop := {
  sl_heap : in_heap b;
  sl_new : A !! b = None;
  sl_free : entry_is_free (d_mach s) b = true;
  sl_step : step (fun a => block_addr v + o <= a < block_addr v + o + 4) (<[b := 1]> A) s s';
  sl_count : kheap_num_free_blocks (d_mach s') = kheap_num_free_blocks (d_mach s) - 1;
  sl_ptr : rd32 (dram s') (block_addr v + o) = block_addr b;
  sl_stream : stream_zero (dram s') b }.

Lemma slot_spec s A v o :
  heap_rep (d_mach s) A -> A !! v = Some 1 -> in_heap v -> 0 <= o <= 4000 -> 0 < kheap_num_free_blocks (d_mach s) ->
  0 < disk_addr < 4294967296 ->
  wp (disk_stream_new 0) s (fun st s1 => wp (st32 (block_addr v + o) st) s1 (fun _ s' => exists b, slot s s' A v o b)).
Proof.
  intros HR HA Hv Ho Hn Hd. wp_apply (new_stream s A HR Hn Hd). intros p s1 (b & -> & Hb & HAb & Hf & S1 & C1 & E0 & E4).
  wpf. rewrite (u32_small (block_addr v + o)) by (blk; lia). fold (dram s1). set (m := wr32 (dram s1) (block_addr v + o) (block_addr b)).
  assert (Hvb : v <> b) by congruence. assert (Hvb' : block_addr v + 4096 <= block_addr b \/ block_addr b + 4096 <= block_addr v) by (blk; lia).
  assert (Hm : forall a, a < block_addr v + o \/ block_addr v + o + 4 <= a -> rd8 m a = rd8 (dram s1) a) by (intros a Ha; apply rd8_wr32; lia).
  destruct (step_write _ s1 m v (block_addr v + o) 4 (sp_rep _ _ _ _ S1)) as [S2 C2]; [by rewrite lookup_insert_ne | done | lia | lia | exact Hm |].
  exists b. split; try done.
  - apply (step_trans _ (<[b := 1]> A) _ s s1); [by apply (step_weaken (fun _ => False)) | exact S2].
  - etransitivity; [exact C2 | exact C1].
  - change (rd32 m (block_addr v + o) = block_addr b). unfold m. rewrite rd32_wr32. apply u32_small. blk. lia.
  - split; [rewrite <- E0 | rewrite <- E4]; apply rd32_ext; intros a Ha; apply Hm; lia.
Qed.

(** A stream that a step does not touch. *)
Lemma stream_zero_kept E A B s s' b :
  step E B s s' -> heap_rep (d_mach s) A -> A !! b = Some 1 -> in_heap b -> (forall a, in_block b a -> ~ E a) ->
  stream_zero (dram s) b -> stream_zero (dram s') b.
Proof.
  intros S HR HA Hb He [H0 H4]. split; [rewrite <- H0 | rewrite <- H4]; apply (step_word E A B s s' b _ S HR HA Hb); try lia;
    intros a Ha; apply He; unfold in_block; lia.
Qed.

(** The three streams of the private structure in block [v]. *)
Record streams (m : ram) (v c r d : Z) : Prop := {
  st_cluster : rd32 m (block_addr v + o_cluster_stream) = block_addr c;
  st_fat : rd32 m (block_addr v + o_fat16_read_stream) = block_addr r;
  st_dir : rd32 m (block_addr v + o_dir_stream) = block_addr d;
  st_cluster0 : stream_zero m c;
  st_fat0 : stream_zero m r;
  st_dir0 : stream_zero m d }.

Definition in_private (v a : Z) : Prop := block_addr v <= a < block_addr v + SIZEOF_FAT16_PRIVATE.

(** A slot keeps the words of block [v] that are not its pointer, and the
    streams in other blocks. *)
Lemma slot_word s s' A v o b p :
  slot s s' A v o b -> heap_rep (d_mach s) A -> A !! v = Some 1 -> in_heap v -> block_addr v <= p -> p + 4 <= block_addr v + 4096 ->
  (p + 4 <= block_addr v + o \/ block_addr v + o + 4 <= p) -> rd32 (dram s') p = rd32 (dram s) p.
Proof. intros H HR HA Hv H1 H2 H3. apply (step_word _ A _ s s' v _ (sl_step _ _ _ _ _ _ H) HR HA Hv); try done. lia. Qed.

Lemma slot_stream s s' A v o b c :
  slot s s' A v o b -> heap_rep (d_mach s) A -> A !! c = Some 1 -> in_heap c -> in_heap v -> c <> v -> 0 <= o <= 4000 ->
  stream_zero (dram s) c -> stream_zero (dram s') c.
Proof.
  intros H HR HA Hc Hv Hne Ho. apply (stream_zero_kept _ A _ s s' c (sl_step _ _ _ _ _ _ H) HR HA Hc).
  assert (block_addr v + 4096 <= block_addr c \/ block_addr c + 4096 <= block_addr v) by (blk; lia). unfold in_block. lia.
Qed.

Lemma three_slots s0 s1 s2 s3 A v c r d :
  A !! v = Some 1 -> in_heap v -> slot s0 s1 A v o_cluster_stream c -> slot s1 s2 (<[c := 1]> A) v o_fat16_read_stream r ->
  slot s2 s3 (<[r := 1]> (<[c := 1]> A)) v o_dir_stream d ->
  all_new [c; r; d] A /\ (forall b, b ∈ [c; r; d] -> in_heap b /\ entry_is_free (d_mach s0) b = true) /\
  step (in_private v) (add_blocks [c; r; d] A) s0 s3 /\
  kheap_num_free_blocks (d_mach s3) = kheap_num_free_blocks (d_mach s0) - 3 /\ streams (dram s3) v c r d.
Proof.
  intros HA Hv H1 H2 H3. pose proof H1 as [B1 N1 F1 S1 C1 P1 Z1]. pose proof H2 as [B2 N2 F2 S2 C2 P2 Z2]. pose proof H3 as [B3 N3 F3 S3 C3 P3 Z3].
  assert (Hc : c <> v) by congruence. pose proof N2 as [N2' Hrc]%lookup_insert_None. assert (Hr : r <> v) by congruence.
  assert (L1 : <[c := 1]> A !! v = Some 1) by (by rewrite lookup_insert_ne).
  assert (L2 : <[r := 1]> (<[c := 1]> A) !! v = Some 1) by (by rewrite lookup_insert_ne).
  assert (Lc : <[r := 1]> (<[c := 1]> A) !! c = Some 1) by (by rewrite lookup_insert_ne, lookup_insert_eq).
  assert (Hw : forall E A s s', (forall a, E a -> in_private v a) -> step E A s s' -> step (in_private v) A s s') by (intros; by apply (step_weaken E)).
  assert (T1 : step (in_private v) (<[c := 1]> A) s0 s1) by (eapply Hw; [|exact S1]; unfold in_private, SIZEOF_FAT16_PRIVATE, o_cluster_stream; lia).
  assert (T2 : step (in_private v) (<[r := 1]> (<[c := 1]> A)) s1 s2)
    by (eapply Hw; [|exact S2]; unfold in_private, SIZEOF_FAT16_PRIVATE, o_fat16_read_stream; lia).
  assert (T3 : step (in_private v) (add_blocks [c; r; d] A) s2 s3)
    by (eapply Hw; [|exact S3]; unfold in_private, SIZEOF_FAT16_PRIVATE, o_dir_stream; lia).
  unfold o_cluster_stream, o_fat16_read_stream, o_dir_stream in *. split_and!.
  - done.
  - intros b Hb. apply elem_of_cons in Hb as [->|Hb]; [done|]. apply elem_of_cons in Hb as [->|Hb];
      [split; [done | by apply (kp_free _ _ _ (sp_kept _ _ _ _ T1))]|]. apply list_elem_of_singleton in Hb as ->.
    split; [done|]. apply (kp_free _ _ _ (sp_kept _ _ _ _ T1)); [done|]. by apply (kp_free _ _ _ (sp_kept _ _ _ _ T2)).
  - exact (step_trans _ _ _ _ _ _ T1 (step_trans _ _ _ _ _ _ T2 T3)).
  - lia.
  - split; unfold o_cluster_stream, o_fat16_read_stream, o_dir_stream.
    + rewrite <- P1, (slot_word _ _ _ _ _ _ _ H3 (sp_rep _ _ _ _ S2) L2 Hv), (slot_word _ _ _ _ _ _ _ H2 (sp_rep _ _ _ _ S1) L1 Hv) by lia. done.
    + by rewrite <- P2, (slot_word _ _ _ _ _ _ _ H3 (sp_rep _ _ _ _ S2) L2 Hv) by lia.
    + done.
    + apply (slot_stream _ _ _ _ _ _ _ H3 (sp_rep _ _ _ _ S2) Lc B1 Hv Hc ltac:(lia)).
      apply (slot_stream _ _ _ _ _ _ _ H2 (sp_rep _ _ _ _ S1) (lookup_insert_eq _ _ _) B1 Hv Hc ltac:(lia) Z1).
    + apply (slot_stream _ _ _ _ _ _ _ H3 (sp_rep _ _ _ _ S2) (lookup_insert_eq _ _ _) B2 Hv Hr ltac:(lia) Z2).
    + done.
Qed.

Lemma init_private_spec s A v :
  heap_rep (d_mach s) A -> A !! v = Some 1 -> in_heap v -> 3 <= kheap_num_free_blocks (d_mach s) -> 0 < disk_addr < 4294967296 ->
  id (d_disk s) = 0 ->
  wp (fat16_init_private (block_addr v)) s (fun _ s' => exists c r d, all_new [c; r; d] A /\
    (forall b, b ∈ [c; r; d] -> in_heap b /\ entry_is_free (d_mach s) b = true) /\
    step (in_private v) (add_blocks [c; r; d] A) s s' /\
    kheap_num_free_blocks (d_mach s') = kheap_num_free_blocks (d_mach s) - 3 /\ streams (dram s') v c r d).
Proof.
  intros HR HA Hv Hn Hd Hid. unfold fat16_init_private. wp_step. apply wp_mach, wp_modify.
  set (m := memset (block_addr v) 0 SIZEOF_FAT16_PRIVATE (dram s)).
  destruct (step_write _ s m v (block_addr v) SIZEOF_FAT16_PRIVATE HR HA Hv) as [S0 C0];
    [lia | unfold SIZEOF_FAT16_PRIVATE; lia | intros a Ha; apply rd8_memset_out; unfold SIZEOF_FAT16_PRIVATE in *; blk; lia |].
  change (set_mach _ s) with (set_mach (set_ram m (d_mach s)) s). set (s0 := set_mach (set_ram m (d_mach s)) s) in *.
  wpf. change (id (d_disk s0)) with (id (d_disk s)). rewrite Hid.
  eapply wp_mono; [apply (slot_spec s0 A v o_cluster_stream (sp_rep _ _ _ _ S0) HA Hv); (done || lia)|]. intros st sx W. wp_step.
  eapply wp_mono; [exact W|]. clear W st sx. intros _ s1 (c & H1). pose proof H1 as [_ N1 _ S1 C1 _ _].
  wpf. rewrite (sp_disk _ _ _ _ S1). change (id (d_disk s0)) with (id (d_disk s)). rewrite Hid.
  assert (L1 : <[c := 1]> A !! v = Some 1) by (rewrite lookup_insert_ne; [done | congruence]).
  eapply wp_mono; [apply (slot_spec s1 _ v o_fat16_read_stream (sp_rep _ _ _ _ S1) L1 Hv); (done || lia)|]. intros st sx W. wp_step.
  eapply wp_mono; [exact W|]. clear W st sx. intros _ s2 (r & H2). pose proof H2 as [_ N2 _ S2 C2 _ _].
  wpf. rewrite (sp_disk _ _ _ _ S2), (sp_disk _ _ _ _ S1). change (id (d_disk s0)) with (id (d_disk s)). rewrite Hid.
  assert (L2 : <[r := 1]> (<[c := 1]> A) !! v = Some 1) by (rewrite lookup_insert_ne; [done | congruence]).
  eapply wp_mono; [apply (slot_spec s2 _ v o_dir_stream (sp_rep _ _ _ _ S2) L2 Hv); (done || lia)|]. intros st sx W.
  eapply wp_mono; [exact W|]. clear W st sx. intros _ s3 (d & H3). exists c, r, d.
  destruct (three_slots s0 s1 s2 s3 A v c r d HA Hv H1 H2 H3) as (Hnew & Hfr & S & C & St). split_and!; try done.
  - intros b Hb. destruct (Hfr b Hb) as [Hb1 Hb2]. split; [done|]. by apply (kp_free _ _ _ (sp_kept _ _ _ _ S0)).
  - exact (step_trans _ _ _ _ _ _ S0 S).
  - lia.
Qed.

(** ** fat16_resolve *)

(** What resolve_body writes: the local of the scan, the private structure in
    block [v], and the positions of the streams in blocks [d] and [t]. *)
Definition body_area (v d t a : Z) : Prop :=
  load_area v d a \/ block_addr v <= a < block_addr v + SIZEOF_FAT16_H \/ block_addr t + 4 <= a < block_addr t + 8.

(** What is in memory after a successful mount. *)
Record mounted_mem (m : ram) (v c r e n : Z) : Prop := {
  mm_header : header_at m (block_addr v);
  mm_root : root_loaded m v e n;
  mm_cluster : rd32 m (block_addr v + o_cluster_stream) = block_addr c;
  mm_fat : rd32 m (block_addr v + o_fat16_read_stream) = block_addr r;
  mm_cluster0 : stream_zero m c;
  mm_fat0 : stream_zero m r }.

(** Two different blocks do not overlap. *)
Lemma blocks_apart b c : in_heap b -> in_heap c -> b <> c -> block_addr b + 4096 <= block_addr c \/ block_addr c + 4096 <= block_addr b.
Proof. intros. blk. lia. Qed.

Lemma body_area_v v d t a :
  in_heap v -> in_heap d -> in_heap t -> on_stack stack_entry 32 -> v <> d -> v <> t -> block_addr v + o_cluster_stream <= a < block_addr v + 4096 -> ~ body_area v d t a.
Proof.
  intros Hv Hd Ht Hst H1 H2 Ha. pose proof (blocks_apart v d Hv Hd H1). pose proof (blocks_apart v t Hv Ht H2). pose proof (entry_apart v Hst Hv).
  unfold body_area, load_area, scan_area, in_entry, o_root_dir, SIZEOF_FAT16_DIR, SIZEOF_FAT16_H, o_cluster_stream in *. lia.
Qed.

Lemma body_area_b v d t b a :
  in_heap v -> in_heap d -> in_heap t -> in_heap b -> on_stack stack_entry 32 -> b <> v -> b <> d -> b <> t -> in_block b a -> ~ body_area v d t a.
Proof.
  intros Hv Hd Ht Hb Hst H1 H2 H3 Ha. pose proof (blocks_apart b v Hb Hv H1). pose proof (blocks_apart b d Hb Hd H2).
  pose proof (blocks_apart b t Hb Ht H3). pose proof (entry_apart b Hst Hb).
  unfold in_block, body_area, load_area, scan_area, in_entry, o_root_dir, SIZEOF_FAT16_DIR, SIZEOF_FAT16_H in *. lia.
Qed.

(** Reading the boot sector through the stream in block [t]. *)
Lemma read_header s A v t :
  heap_rep (d_mach s) A -> A !! v = Some 1 -> A !! t = Some 1 -> in_heap v -> in_heap t -> v <> t ->
  0 < kheap_num_free_blocks (d_mach s) -> sector_size (d_disk s) = 512 -> stream_zero (dram s) t ->
  wp (disk_stream_read (block_addr t) (block_addr v) SIZEOF_FAT16_H) s (fun r s' => r = 0 /\
    step (fun a => block_addr v <= a < block_addr v + SIZEOF_FAT16_H \/ block_addr t + 4 <= a < block_addr t + 8) A s s' /\
    kheap_num_free_blocks (d_mach s') = kheap_num_free_blocks (d_mach s) /\ header_at (dram s') (block_addr v)).
Proof.
  intros HR HAv HAt Hv Ht Hvt Hn Hss [Z0 Z4]. pose proof (blocks_apart v t Hv Ht Hvt) as Hx. unfold SIZEOF_FAT16_H.
  wp_apply (read_step s A t 0 (block_addr v) 62 HR HAt Ht Hn Hss Z0 Z4); try lia; try (blk; lia).
  - apply (used_obj _ A v _ _ HR Hv HAv); lia.
  - intros r s1 (-> & S & C & _ & Hin). split_and!; try done. intros k Hk. unfold SIZEOF_FAT16_H in Hk. rewrite Hin by lia. unfold img. do 2 f_equal. lia.
Qed.

Lemma resolve_body_spec s A v c r d t n :
  fat_image n -> heap_rep (d_mach s) A -> (forall b, b ∈ [v; c; r; d; t] -> in_heap b /\ A !! b = Some 1) -> NoDup [v; c; r; d; t] ->
  2 <= kheap_num_free_blocks (d_mach s) -> fs_private (d_disk s) = block_addr v -> sector_size (d_disk s) = 512 -> on_stack stack_entry 32 ->
  streams (dram s) v c r d -> stream_zero (dram s) t ->
  wp (resolve_body (block_addr v) (block_addr t)) s (fun res s' => res = 0 /\ exists e, in_heap e /\ A !! e = None /\
    entry_is_free (d_mach s) e = true /\ step (body_area v d t) (<[e := 1]> A) s s' /\ mounted_mem (dram s') v c r e (live n (512 * root_start))).
Proof.
  intros I HR Hin Hnd Hn Hpv Hss Hst [T1 T2 T3 T4 T5 T6] Zt.
  destruct (Hin v ltac:(set_solver)) as [Hv Av], (Hin c ltac:(set_solver)) as [Hc Ac], (Hin r ltac:(set_solver)) as [Hr Ar],
    (Hin d ltac:(set_solver)) as [Hd Ad], (Hin t ltac:(set_solver)) as [Ht At].
  assert (D : v <> c /\ v <> r /\ v <> d /\ v <> t /\ c <> d /\ c <> t /\ r <> d /\ r <> t /\ d <> t).
  { rewrite !NoDup_cons in Hnd. set_solver. }
  destruct D as (D1 & D2 & D3 & D4 & D5 & D6 & D7 & D8 & D9).
  unfold resolve_body. rewrite (proj2 (Z.eqb_neq (block_addr t) 0)) by (blk; lia). wp_step.
  wp_apply (read_header s A v t HR Av At Hv Ht D4 ltac:(lia) Hss Zt). intros x s1 (-> & S1 & C1 & Hh).
  change (negb (0 =? STATUS_OK)) with false. cbn iota. wpf. rewrite set_mach_id, (u32_small (block_addr v + o_signature)) by (unfold o_signature; blk; lia).
  fold (dram s1). rewrite Hh, (im_signature _ I) by done. change (negb (FAT16_SIGNATURE =? FAT16_SIGNATURE)) with false. cbn iota. wp_step.
  pose proof (blocks_apart v t Hv Ht D4) as Xvt. pose proof (blocks_apart d t Hd Ht D9) as Xdt. pose proof (blocks_apart v d Hv Hd D3) as Xvd.
  wp_apply (load_root_spec s1 A v d n I (sp_rep _ _ _ _ S1) Ad Hd Hv Av D3); try done; try lia; rewrite ?(sp_disk _ _ _ _ S1); try done.
  { rewrite <- T3. unfold o_dir_stream, SIZEOF_FAT16_H in *. apply (step_word _ A A s s1 v _ S1 HR Av Hv); lia. }
  { rewrite <- (proj1 T6). unfold SIZEOF_FAT16_H in *. apply (step_word _ A A s s1 d _ S1 HR Ad Hd); lia. }
  intros x s2 (-> & e & He & Ae & Fe & S2 & C2 & RL). change (negb (0 =? STATUS_OK)) with false. cbn iota. wp_step. split; [done|].
  exists e. assert (Hev : e <> v) by congruence.
  assert (S : step (body_area v d t) (<[e := 1]> A) s s2).
  { apply (step_trans _ A _ s s1); [eapply step_weaken; [|exact S1]; unfold body_area; tauto | eapply step_weaken; [|exact S2]; unfold body_area; tauto]. }
  split_and!; try done; [by apply (kp_free _ _ _ (sp_kept _ _ _ _ S1))|].
  pose proof (entry_apart v Hst Hv) as Xv. split.
  - intros k Hk. rewrite <- (Hh k Hk). unfold SIZEOF_FAT16_H in Hk.
    apply (step_used _ A _ s1 s2 v _ S2 (sp_rep _ _ _ _ S1) Av Hv); [unfold in_block; lia|].
    unfold load_area, scan_area, in_entry, o_root_dir, SIZEOF_FAT16_DIR. lia.
  - done.
  - rewrite <- T1. unfold o_cluster_stream. apply (step_word _ A _ s s2 v _ S HR Av Hv); [lia | lia |].
    intros a Ha. apply body_area_v; try done. unfold o_cluster_stream. lia.
  - rewrite <- T2. unfold o_fat16_read_stream. apply (step_word _ A _ s s2 v _ S HR Av Hv); [lia | lia |].
    intros a Ha. apply body_area_v; try done. unfold o_cluster_stream. lia.
  - apply (stream_zero_kept _ A _ s s2 c S HR Ac Hc); [|done]. intros a Ha. apply (body_area_b v d t c); congruence || done.
  - apply (stream_zero_kept _ A _ s s2 r S HR Ar Hr); [|done]. intros a Ha. apply (body_area_b v d t r); congruence || done.
Qed.

Lemma all_new_nodup bs : forall A, all_new bs A -> NoDup bs.
Proof.
  induction bs as [|b bs IH]; intros A; [constructor|]. intros [Hb H]. constructor; [|by apply (IH (<[b := 1]> A))].
  apply (all_new_notin bs (<[b := 1]> A) b H). by rewrite lookup_insert_eq.
Qed.

(** The effect of a successful mount: the five blocks, the fields of the disk
    and the contents of memory. *)
Record resolved (s s' : dstate) (A : gmap Z Z) (v c r d e n : Z) : Prop := {
  rs_new : all_new [v; c; r; d; e] A;
  rs_heap : forall b, b ∈ [v; c; r; d; e] -> in_heap b /\ entry_is_free (d_mach s) b = true;
  rs_count : kheap_num_free_blocks (d_mach s') = kheap_num_free_blocks (d_mach s) - 5;
  rs_rep : heap_rep (d_mach s') (add_blocks [v; c; r; d; e] A);
  rs_fs : fs (d_disk s') = fat16_fs_addr;
  rs_private : fs_private (d_disk s') = block_addr v;
  rs_sector : sector_size (d_disk s') = sector_size (d_disk s);
  rs_mem : mounted_mem (dram s') v c r e n;
  rs_kept : forall a, stable (d_mach s) a -> ~ in_entry a -> off_lines (m_con (d_mach s)) a -> rd8 (dram s') a = rd8 (dram s) a }.

(** What a mount has built lives in blocks of the heap. *)
Lemma mounted_mem_ext m m' v c r e n :
  in_heap v -> in_heap c -> in_heap r -> in_heap e -> root_bytes <= 4096 -> (forall a, KHEAP_ADDR <= a -> rd8 m' a = rd8 m a) ->
  mounted_mem m v c r e n -> mounted_mem m' v c r e n.
Proof.
  intros Hv Hc Hr He Hb H [M1 [R1 R2 R3 R4] M3 M4 [M5 M5'] [M6 M6']].
  assert (W : forall p, KHEAP_ADDR <= p -> rd32 m' p = rd32 m p) by (intros p Hp; apply rd32_ext; intros a Ha; apply H; lia).
  unfold o_cluster_stream, o_fat16_read_stream in *.
  split; [|split| | |split|split]; unfold o_root_dir, o_total_entries, o_end_sector, o_cluster_stream, o_fat16_read_stream in *;
    rewrite ?W by (blk; lia); try done.
  - intros k Hk. rewrite H by (blk; lia). by apply M1.
  - intros k Hk. rewrite H by (blk; lia). by apply R4.
Qed.

(** The end of fat16_resolve: the stream in block [t] is closed and the console
    says that the volume is mounted. *)
Lemma resolve_end s A t p :
  heap_rep (d_mach s) A -> A !! t = Some 1 -> in_heap t ->
  wp ((if negb (block_addr t =? 0) then disk_stream_close (block_addr t) else mret tt);;
      (if 0 <? 0 then mach (kfree p);; modify (set_fs_private 0);; modify (set_fs 0) else mret tt);;
      (if 0 =? 0 then mach (modify (println (chars "FAT16: resolved"))) else mret tt);; mret 0) s (fun r s' => r = 0 /\
    heap_rep (d_mach s') (delete t A) /\ d_disk s' = d_disk s /\
    forall a, (a < KHEAP_TABLE_ADDR \/ TABLE_END <= a) -> off_lines (m_con (d_mach s)) a -> rd8 (dram s') a = rd8 (dram s) a).
Proof.
  intros HR HA Ht. rewrite (proj2 (Z.eqb_neq (block_addr t) 0)) by (blk; lia). change (0 <? 0) with false. change (0 =? 0) with true.
  cbn [negb]. unfold disk_stream_close. wpf. apply wp_mach.
  wp_apply (kfree_block (d_mach s) A t _ HR HA); [unfold in_block; lia|]. intros x y (HR1 & [m1 Ey] & M1).
  assert (Nc : m_con y = m_con (d_mach s)) by (by rewrite Ey). clear Ey. set (s1 := set_mach y s). wpf. apply wp_mach, wp_modify. wpf.
  pose proof HR1 as ((Hh & Hcon) & _). destruct (println_frame (chars "FAT16: resolved") (d_mach s1) Hcon) as (F1 & F2 & F3).
  split; [done|]. split; [|split; [done|]].
  - apply (heap_rep_ext (d_mach s1)); [done | split; [by rewrite <- Hh | done] |]. intros k Hk. apply F3. blk. vga. lia.
  - intros a Ha1 Ha2. transitivity (rd8 (dram s1) a); [|by apply M1]. change (dram (set_mach _ _)) with (m_ram (println (chars "FAT16: resolved") (d_mach s1))).
    unfold println. rewrite <- print_app. apply print_message; [done | by apply printable_chars | done | change (d_mach s1) with y; by rewrite Nc].
Qed.

(** The areas that the steps of a mount touch were free, the local apart. *)
Lemma area_free x v d t a :
  (forall b, b = v \/ b = d \/ b = t -> in_heap b /\ entry_is_free x b = true) -> body_area v d t a -> stable x a -> in_entry a.
Proof.
  intros H Ha Hst. assert (U : forall b, b = v \/ b = d \/ b = t -> ~ in_block b a).
  { intros b Hb Hi. destruct (H b Hb). by apply (free_unstable x b a). }
  pose proof (U v ltac:(auto)). pose proof (U d ltac:(auto)). pose proof (U t ltac:(auto)).
  unfold body_area, load_area, scan_area, in_block, SIZEOF_FAT16_H, SIZEOF_FAT16_DIR, o_root_dir in *.
  destruct Ha as [ [ [Ha|Ha]|Ha]|[Ha|Ha] ]; [done | exfalso; lia..].
Qed.

(** Before the disk is read: the private structure in block [v] with its streams
    and one more stream in block [t]. *)
Record prepared (s s' : dstate) (A : gmap Z Z) (v c r d t : Z) : Prop := {
  pp_new : all_new [v; c; r; d; t] A;
  pp_heap : forall b, b ∈ [v; c; r; d; t] -> in_heap b /\ entry_is_free (d_mach s) b = true;
  pp_rep : heap_rep (d_mach s') (add_blocks [v; c; r; d; t] A);
  pp_count : kheap_num_free_blocks (d_mach s') = kheap_num_free_blocks (d_mach s) - 5;
  pp_disk : sector_size (d_disk s') = sector_size (d_disk s) /\ fs (d_disk s') = fat16_fs_addr /\ fs_private (d_disk s') = block_addr v;
  pp_streams : streams (dram s') v c r d;
  pp_stream : stream_zero (dram s') t;
  pp_con : m_con (d_mach s') = m_con (d_mach s);
  pp_kept : mem_kept (fun _ => False) (d_mach s) (d_mach s') }.

Lemma streams_kept s s' A B v c r d :
  step (fun _ => False) B s s' -> heap_rep (d_mach s) A -> (forall b, b ∈ [v; c; r; d] -> in_heap b /\ A !! b = Some 1) ->
  streams (dram s) v c r d -> streams (dram s') v c r d.
Proof.
  intros S HR Hb [T1 T2 T3 T4 T5 T6]. destruct (Hb v ltac:(set_solver)) as [Hv Av].
  assert (W : forall o, 0 <= o <= 4000 -> rd32 (dram s') (block_addr v + o) = rd32 (dram s) (block_addr v + o)).
  { intros o Ho. apply (step_word _ A B s s' v _ S HR Av Hv); [lia | lia | tauto]. }
  assert (Zs : forall b, b ∈ [v; c; r; d] -> stream_zero (dram s) b -> stream_zero (dram s') b).
  { intros b Hb'. destruct (Hb b Hb') as [Hh HA]. apply (stream_zero_kept _ A B s s' b S HR HA Hh). tauto. }
  split; rewrite ?W by done; try done; apply Zs; set_solver.
Qed.

Lemma resolve_prefix s A (K : Z -> Z -> M dstate Z) (Q : Z -> dstate -> Prop) :
  heap_rep (d_mach s) A -> 5 <= kheap_num_free_blocks (d_mach s) -> 0 < disk_addr < 4294967296 -> id (d_disk s) = 0 ->
  (forall v c r d t s', prepared s s' A v c r d t -> wp (K (block_addr v) (block_addr t)) s' Q) ->
  wp (fat_private ← mach (kzalloc SIZEOF_FAT16_PRIVATE);
      fat16_init_private fat_private;;
      modify (set_fs_private fat_private);;
      modify (set_fs fat16_fs_addr);;
      i ← gets (fun s => id (d_disk s));
      stream ← disk_stream_new i;
      K fat_private stream) s Q.
Proof.
  intros HR Hn Hd Hid HQ. wp_step. apply wp_mach. wp_apply (kzalloc_kept (d_mach s) A SIZEOF_FAT16_PRIVATE HR ltac:(done) ltac:(lia)).
  intros p y (v & -> & Hv & HAv & Fv & HR1 & K1 & _ & C1 & _). set (s1 := set_mach y s). wp_step.
  wp_apply (init_private_spec s1 _ v HR1 (lookup_insert_eq _ _ _) Hv ltac:(change (d_mach s1) with y; lia) Hd Hid).
  intros [] s2 (c & r & d & Hnew & Hcrd & S2 & C2 & T). wpf. change (d_mach s1) with y in *.
  set (s3 := set_fs fat16_fs_addr (set_fs_private (block_addr v) s2)). set (B := add_blocks [c; r; d] (<[v := 1]> A)) in *.
  assert (M3 : d_mach s3 = d_mach s2) by (unfold s3, set_fs_private; by destruct (d_disk s2)).
  assert (D3 : id (d_disk s3) = 0 /\ sector_size (d_disk s3) = sector_size (d_disk s) /\ fs (d_disk s3) = fat16_fs_addr /\ fs_private (d_disk s3) = block_addr v).
  { pose proof (sp_disk _ _ _ _ S2) as E. change (d_disk s1) with (d_disk s) in E. unfold s3, set_fs_private. rewrite E. by destruct (d_disk s). }
  destruct D3 as (E1 & E2). rewrite E1. assert (HR3 : heap_rep (d_mach s3) B) by (rewrite M3; apply S2).
  wp_apply (new_stream s3 B HR3 ltac:(rewrite M3; lia) Hd). intros p s4 (t & -> & Ht & HBt & Ft & S4 & C4 & Z4). rewrite M3 in C4, Ft.
  assert (K2 : mem_kept (fun _ => False) (d_mach s) (d_mach s2)).
  { apply (mem_kept_through _ (in_private v) _ y); [apply K1 | apply S2 |]. intros a Ha Hst.
    apply (free_unstable (d_mach s) v a); try done. unfold in_private, in_block, SIZEOF_FAT16_PRIVATE in *. lia. }
  apply (HQ v c r d t s4). split; try done.
  - cbn [all_new] in Hnew |- *. tauto.
  - intros b Hb. apply elem_of_cons in Hb as [->|Hb]; [done|]. destruct (decide (b = t)) as [->|Hbt]; [split; [done | by apply (kp_free _ _ _ K2)]|].
    destruct (Hcrd b ltac:(set_solver)). split; [done|]. by apply (kp_free _ _ _ (kp_kept _ _ _ K1)).
  - exact (sp_rep _ _ _ _ S4).
  - lia.
  - by rewrite (sp_disk _ _ _ _ S4).
  - apply (streams_kept s3 s4 B _ v c r d S4 HR3).
    + intros b Hb. split; [apply elem_of_cons in Hb as [->|Hb]; [done | by apply Hcrd]|]. unfold B. rewrite lookup_add_blocks.
      destruct (decide (b ∈ [c; r; d])); [done|]. replace b with v by set_solver. apply lookup_insert_eq.
    + unfold dram. rewrite M3. exact T.
  - rewrite (sp_con _ _ _ _ S4), M3, (sp_con _ _ _ _ S2). by destruct K1 as [_ [m1 ->] ].
  - apply (mem_kept_trans _ _ _ _ K2). rewrite <- M3. apply S4.
Qed.

Lemma resolve_spec s A n :
  fat_image n -> heap_rep (d_mach s) A -> 7 <= kheap_num_free_blocks (d_mach s) -> 0 < disk_addr < 4294967296 ->
  id (d_disk s) = 0 -> sector_size (d_disk s) = 512 -> on_stack stack_entry 32 ->
  wp (fat16_resolve disk_addr) s (fun res s' => res = 0 /\ exists v c r d e, resolved s s' A v c r d e (live n (512 * root_start))).
Proof.
  intros I HR Hn Hd Hid Hss Hst. unfold fat16_resolve. apply (resolve_prefix s A _ _ HR ltac:(lia) Hd Hid).
  intros v c r d t s4 [Hall Hh HR4 C4 (D1 & D2 & D3) T Zt N4 K4]. pose proof (all_new_nodup _ _ Hall) as Hnd. wp_step.
  set (A4 := add_blocks [v; c; r; d; t] A) in *.
  assert (Hin : forall b, b ∈ [v; c; r; d; t] -> in_heap b /\ A4 !! b = Some 1).
  { intros b Hb. split; [by apply Hh|]. unfold A4. rewrite lookup_add_blocks. by rewrite decide_True. }
  wp_apply (resolve_body_spec s4 A4 v c r d t n I HR4 Hin Hnd ltac:(lia) D3 ltac:(congruence) Hst T Zt).
  intros x s5 (-> & e & He & Ae & Fe & S5 & MM). assert (Het : e <> t) by (intros ->; rewrite (proj2 (Hin t ltac:(set_solver))) in Ae; done).
  assert (L5 : <[e := 1]> A4 !! t = Some 1) by (rewrite lookup_insert_ne by done; apply Hin; set_solver).
  destruct (Hin t ltac:(set_solver)) as [Ht _].
  wp_apply (resolve_end s5 _ t (block_addr v) (sp_rep _ _ _ _ S5) L5 Ht). intros x s6 (-> & HR6 & D6 & M6). split; [done|]. exists v, c, r, d, e.
  assert (Hd6 : delete t (<[e := 1]> A4) = add_blocks [v; c; r; d; e] A).
  { rewrite delete_insert_ne by done. cbn [add_blocks]. f_equal. unfold A4. cbn [add_blocks]. apply delete_insert_id.
    cbn [all_new] in Hall. tauto. }
  assert (Hall' : all_new [v; c; r; d; e] A).
  { cbn [all_new] in Hall |- *. split_and!; try tauto. unfold A4 in Ae. cbn [add_blocks] in Ae. by apply lookup_insert_None in Ae as [Ae _]. }
  assert (Hb6 : forall b, b ∈ [v; c; r; d; e] -> in_heap b /\ entry_is_free (d_mach s) b = true).
  { intros b Hb. destruct (decide (b = e)) as [->|]; [split; [done | by apply (kp_free _ _ _ K4)]|]. apply Hh. set_solver. }
  pose proof (rep_insert_count _ _ A4 e HR4 (sp_rep _ _ _ _ S5) Ae He) as C5.
  assert (C6 : kheap_num_free_blocks (d_mach s5) = kheap_num_free_blocks (d_mach s6) - 1).
  { apply (rep_insert_count _ _ (delete t (<[e := 1]> A4)) t HR6); [|apply lookup_delete_eq | done]. rewrite insert_delete_id by done. apply S5. }
  rewrite Hd6 in HR6. split; try done; [lia|..]; rewrite ?D6, ?(sp_disk _ _ _ _ S5); try done.
  - apply (mounted_mem_ext (dram s5)); try (apply Hb6; set_solver); [|intros a Ha; apply M6; [hp; lia|] | done].
    + pose proof (im_entries _ I). unfold root_bytes. lia.
    + apply off_lines_above; [apply (sp_rep _ _ _ _ S5) | hp; vga; lia].
  - intros a Ha Hne Hv. rewrite M6; [|apply Ha | by rewrite (sp_con _ _ _ _ S5), N4]. etransitivity; [|apply (kp_mem _ _ _ K4 a Ha); tauto].
    apply (kp_mem _ _ _ (sp_kept _ _ _ _ S5)); [by apply (kp_stable _ _ _ _ K4)|]. intros Hba. apply Hne.
    apply (area_free (d_mach s) v d t); [|done | done]. intros b Hb. apply Hh. destruct Hb as [-> | [-> | ->] ]; set_solver.
Qed.

(** ** Starting the file layer *)

Lemma arr_get_zero k n : 0 <= k < Z.of_nat n -> arr_get (replicate n 0) k = 0.
Proof. intros Hk. apply array_lookup; [lia|]. apply lookup_replicate. lia. Qed.

(** fat16_init writes the name of the file system. *)
Lemma fat16_init_spec s A :
  heap_rep (d_mach s) A -> on_stack fat16_fs_addr 6 ->
  wp fat16_init s (fun r s' => r = fat16_fs_addr /\ step (fun a => fat16_fs_addr <= a < fat16_fs_addr + 6) A s s' /\
    kheap_num_free_blocks (d_mach s') = kheap_num_free_blocks (d_mach s)).
Proof.
  intros HR Hst. pose proof Hst as (H0 & H1 & _). unfold fat16_init. wpf. cbn [set_mach d_mach on_ram set_ram m_ram].
  rewrite (u32_small fat16_fs_addr), !(u32_small (fat16_fs_addr + _)) by lia. split; [done|].
  set (m := wr8 (wr8 (wr8 (wr8 (wr8 (wr8 (dram s) fat16_fs_addr 70) (fat16_fs_addr + 1) 65) (fat16_fs_addr + 2) 84)
    (fat16_fs_addr + 3) 49) (fat16_fs_addr + 4) 54) (fat16_fs_addr + 5) 0).
  change (set_mach _ _) with (set_mach (set_ram m (d_mach s)) s).
  assert (Hm : forall a, a < fat16_fs_addr \/ fat16_fs_addr + 6 <= a -> rd8 m a = rd8 (dram s) a) by (intros a Ha; unfold m; by rewrite !rd8_wr8_ne by lia).
  pose proof HR as (Hs & _). pose proof (on_stack_stable (d_mach s) _ _ Hst) as Hss.
  assert (HR' : heap_rep (set_ram m (d_mach s)) A) by (apply heap_rep_ram; [done | by apply (stable_write _ _ fat16_fs_addr 6)]).
  split; [|by apply (rep_num_free _ _ A)]. split; [done | done | done |]. apply (ram_kept_write (d_mach s) m fat16_fs_addr 6 Hs Hss Hm).
Qed.

Context {fsys : FileSystems}.

Lemma volume_files s A v c r d e n :
  heap_rep (d_mach (f_dev s)) (add_blocks [v; c; r; d; e] A) -> (forall b, b ∈ [v; c; r; d; e] -> in_heap b) ->
  mounted_mem (ram_of s) v c r e n -> fs (d_disk (f_dev s)) = fat16_fs_addr -> fs_private (d_disk (f_dev s)) = block_addr v ->
  sector_size (d_disk (f_dev s)) = 512 -> fd_table_ok s -> 0 <= 32 * n <= 4096 ->
  fat_files s (block_addr v) (img o_sectors_per_cluster) data_start (block_addr e) n (block_addr c) 0.
Proof.
  intros HR Hb [M1 [R1 R2 R3 _] M3 _ [Z0 Z4] _] Hf Hp Hs Ht Hn.
  assert (U : forall b p k, b ∈ [v; c; r; d; e] -> block_addr b <= p -> p + k <= block_addr b + 4096 -> heap_obj (d_mach (f_dev s)) p k).
  { intros b p k Hin. apply (used_obj _ _ b p k HR (Hb b Hin)). rewrite lookup_add_blocks. by rewrite decide_True. }
  pose proof (Hb v ltac:(set_solver)) as Hv. pose proof (Hb c ltac:(set_solver)) as Hc. split; try done.
  - split; [split; try done | |].
    + unfold SIZEOF_FAT16_PRIVATE. blk. lia.
    + by apply M1.
    + apply (U v); [set_solver | lia | unfold SIZEOF_FAT16_PRIVATE; lia].
    + split; try done; [|lia|].
      * apply (U v); unfold o_root_dir, SIZEOF_FAT16_DIR; [set_solver | lia | lia].
      * apply (U e); [set_solver | lia | lia].
  - apply (U c); [set_solver | lia | lia].
  - split_and!; [done | done | blk; lia | blk; lia | apply (U c); [set_solver | lia | lia]].
Qed.

(** What starting the file layer may change: a local variable, the name in the
    structure of the file system and the two lines of the screen at the cursor. *)
Definition mount_area (c : console) (a : Z) : Prop :=
  in_entry a \/ fat16_fs_addr <= a < fat16_fs_addr + 6 \/ on_line (curr_y c) a \/ on_line (u16 (curr_y c + 1)) a.

(** The file layer on a mounted volume, with no descriptor in use. *)
Record started (s s' : fstate) (A : gmap Z Z) (n v c r d e : Z) : Prop := {
  sa_new : all_new [v; c; r; d; e] A;
  sa_heap : forall b, b ∈ [v; c; r; d; e] -> in_heap b /\ entry_is_free (d_mach (f_dev s)) b = true;
  sa_rep : heap_rep (d_mach (f_dev s')) (add_blocks [v; c; r; d; e] A);
  sa_count : kheap_num_free_blocks (d_mach (f_dev s')) = kheap_num_free_blocks (d_mach (f_dev s)) - 5;
  sa_files : fat_files s' (block_addr v) (img o_sectors_per_cluster) data_start (block_addr e) n (block_addr c) 0;
  sa_table : forall k, get_file_descriptor k s' = 0;
  sa_root : forall k, 0 <= k < root_bytes -> rd8 (ram_of s') (block_addr e + k) = img (512 * root_start + k);
  sa_kept : mem_kept (mount_area (m_con (d_mach (f_dev s)))) (d_mach (f_dev s)) (d_mach (f_dev s')) }.

Lemma mount_spec (s : fstate) (A : gmap Z Z) (n : nat)
    (Hpl : platform_ok) (HR : heap_rep (d_mach (f_dev s)) A) (Hn : 7 <= kheap_num_free_blocks (d_mach (f_dev s)))
    (Hst : on_stack stack_entry 32) (Hname : on_stack fat16_fs_addr 6) (I : fat_image n) :
  wp (fs_init fat16_init;; disk_init) s (fun _ s' => exists v c r d e, started s s' A (live n (512 * root_start)) v c r d e).
Proof.
  unfold fs_init, fs_insert_filesystem, disk_init. wp_steps. apply wp_dev. set (s0 := set_fds _ _).
  wp_apply (fat16_init_spec (f_dev s0) A HR Hname). intros x d1 (-> & S1 & C1). wp_steps.
  change (get_free_filesystem _) with (Some 0). cbn iota. wp_steps. apply wp_dev, wp_modify. unfold fs_resolve.
  change (Z.to_nat MAX_FILESYSTEMS) with 8%nat. cbn [resolve_loop]. wp_steps. set (s1 := set_dev _ _).
  change (arr_get (filesystems s1) 0) with fat16_fs_addr. pose proof (pl_fs Hpl). rewrite (proj2 (Z.eqb_neq fat16_fs_addr 0)) by lia. cbn [negb].
  rewrite (pl_ops Hpl). change (fs_resolve_op fat16_fs) with fat16_resolve. wp_step. apply wp_dev.
  assert (M1 : d_mach (f_dev s1) = d_mach d1) by done. change (d_mach (f_dev s0)) with (d_mach (f_dev s)) in *.
  wp_apply (resolve_spec (f_dev s1) A n I); try done; [apply S1 | by rewrite M1, C1 | apply (pl_disk Hpl) |].
  intros x d2 (-> & v & c & r & d & e & [Hnew Hin Hct HR2 Hf Hp Hs MM Hk]). change (0 =? 0) with true. cbn iota. wp_steps.
  apply wp_dev, wp_modify. wp_steps. apply wp_dev, wp_modify. set (s' := set_dev _ _).
  assert (E : d_mach (f_dev s') = d_mach d2 /\ fs (d_disk (f_dev s')) = fat16_fs_addr /\ fs_private (d_disk (f_dev s')) = block_addr v /\
    sector_size (d_disk (f_dev s')) = 512).
  { rewrite <- Hp. change (sector_size (d_disk (f_dev s1))) with 512 in Hs. rewrite <- Hs. unfold s'. by destruct d2 as [mc at2 [i ty ss f pr]]. }
  assert (Et : file_descriptors s' = replicate 1024 0) by reflexivity. clearbody s'. destruct E as (E1 & E2 & E3 & E4).
  assert (Er : ram_of s' = dram d2) by (unfold ram_of; by rewrite E1). exists v, c, r, d, e. rewrite M1 in Hct, Hin.
  assert (Hmono : forall k, in_heap k -> entry_is_free (d_mach (f_dev s')) k = true -> entry_is_free (d_mach (f_dev s)) k = true).
  { intros k Hk'. rewrite E1. apply (rep_mono _ _ A (add_blocks [v; c; r; d; e] A) k HR HR2); [|done]. intros i z Hi. rewrite lookup_add_blocks.
    rewrite decide_False; [done|]. apply (all_new_notin _ A i Hnew). congruence. }
  split; rewrite ?E1, ?Er; try done.
  - intros b Hb. destruct (Hin b Hb) as [Hb1 Hb2]. split; [done|]. by apply (kp_free _ _ _ (sp_kept _ _ _ _ S1)).
  - by rewrite Hct, C1.
  - pose proof (live_range n (512 * root_start)). pose proof (im_entries _ I).
    apply (volume_files s' A v c r d e); try done; [by rewrite E1 | intros b Hb; by apply Hin | by rewrite Er | unfold fd_table_ok; by rewrite Et | lia].
  - intros k. unfold get_file_descriptor. rewrite Et. destruct (_ || _) eqn:Eb; [done|]. breflect. apply arr_get_zero. unfold MAX_FILE_DESCRIPTORS in *. lia.
  - apply (rl_bytes _ _ _ _ (mm_root _ _ _ _ _ _ MM)).
  - split; [|by rewrite E1 in Hmono]. intros a Ha He. unfold mount_area in He.
    pose proof (kp_mem _ _ _ (sp_kept _ _ _ _ S1) a Ha ltac:(tauto)) as E. change (m_ram (d_mach (f_dev s0))) with (m_ram (d_mach (f_dev s))) in E.
    rewrite <- E. apply Hk; [|tauto | rewrite M1, (sp_con _ _ _ _ S1); unfold off_lines; tauto]. rewrite M1. by apply (kp_stable _ _ _ _ (sp_kept _ _ _ _ S1)).
Qed.

(** C8: starting the file layer mounts the volume.  On a disk with a FAT16 boot
    sector whose root directory has [n] entries before its end mark, fs_init
    and disk_init leave a mounted volume: the geometry of the boot sector and
    the root directory are in memory, byte for byte as on the disk; the number
    of entries is the number of those that are not marked as deleted; the
    stream for clusters is at the start of the disk; no descriptor is in use.
    Five blocks have been allocated, and of the memory that the allocator does
    not own only the name of the file system, the local of the scan and the two
    lines of the screen from the cursor on have changed. *)
Theorem mount_ready (s : fstate) (A : gmap Z Z) (n : nat)
    (Hpl : platform_ok) (HR : heap_rep (d_mach (f_dev s)) A) (Hn : 7 <= kheap_num_free_blocks (d_mach (f_dev s)))
    (Hst : on_stack stack_entry 32) (Hname : on_stack fat16_fs_addr 6) (I : fat_image n) :
  wp (fs_init fat16_init;; disk_init) s (fun _ s' => exists v c r d e, started s s' A (live n (512 * root_start)) v c r d e).
Proof. by apply mount_spec. Qed.
End mount.

(** ** Witness *)

(** A disk with one sector per cluster, one reserved sector, one FAT of one
    sector and a root directory of 16 entries, of which two are in use; the file
    "A.B" starts at cluster 3, with the text "Hi!". *)
Definition mount_image (k : Z) : Z :=
  match k with
  | 13 => 1 | 14 => 1 | 16 => 1 | 17 => 16 | 22 => 1 | 38 => 0x29
  | 1024 => 88 | 1025 => 32 | 1032 => 32
  | 1056 => 65 | 1057 => 32 | 1064 => 66 | 1065 => 32 | 1082 => 3
  | 2048 => 72 | 2049 => 105 | 2050 => 33
  | _ => 0
  end.
Definition mount_platform : Platform :=
  {| disk_image := mount_image; ata_latency := 2; disk_addr := 0x100000; fat16_fs_addr := 0x100100;
     stack_entry := 0x110000; stack_result := 0x110100; stack_name := 0x110200; scan_fuel := 20; beyond := fun _ => 0x100100 |}.
Definition mount_fs : FileSystems := fun _ => fat16_fs (plat := mount_platform).
Definition mount_state : fstate :=
  mk_fstate (mk_dstate (ready block0_ram) (mk_ata 0 0 0 0 0 0 0 0) (mk_disk 0 0 0 0 0)) [] [].

Lemma low_buffer p n : 0x110000 <= p \/ 0x100000 <= p <= 0x100100 -> 0 <= n <= 4096 -> p + n <= 0x111000 -> on_stack p n.
Proof. intros H1 H2 H3. split; [lia|]. split; [lia|]. intros a Ha. unfold off_heap. hp. lia. Qed.

Lemma mount_image_ok : fat_image (plat := mount_platform) 2.
Proof.
  split; try (vm_compute; lia || reflexivity || (split; [reflexivity | discriminate])).
  - intros j Hj. assert (j = 0 \/ j = 1) as [-> | ->] by lia; vm_compute; discriminate.
Qed.

Lemma mount_ready_witness :
  exists s' v c e, (fs_init (plat := mount_platform) (fat16_init (plat := mount_platform));; disk_init (plat := mount_platform) (fsys := mount_fs)) mount_state = Ret tt s' /\
    fat_files (plat := mount_platform) s' (block_addr v) 1 3 (block_addr e) 2 (block_addr c) 0.
Proof.
  assert (Hpl : platform_ok (plat := mount_platform) (fsys := mount_fs)) by (split; [done | done | done | apply low_buffer; unfold FS_MAX_PATH_LEN; cbn; lia]).
  assert (Hn : 7 <= kheap_num_free_blocks (d_mach (f_dev mount_state))) by (change (7 <= kheap_num_free_blocks (ready block0_ram)); rewrite (block0_budget _ block0_only); lia).
  destruct (proj1 (wp_run _ _ _) (mount_ready (plat := mount_platform) (fsys := mount_fs) mount_state (<[0 := 1]> ∅) 2 Hpl
    (block0_rep _ block0_only) Hn ltac:(apply low_buffer; cbn; lia) ltac:(apply low_buffer; cbn; lia) mount_image_ok))
    as ([] & s' & E & v & c & r & d & e & [_ _ _ _ H _ _ _]).
  exists s', v, c, e. split; [exact E|].
  replace 1 with (img (plat := mount_platform) o_sectors_per_cluster) by (vm_compute; reflexivity).
  replace 3 with (data_start (plat := mount_platform)) by (vm_compute; reflexivity).
  replace 2 with (live (plat := mount_platform) 2 (512 * root_start (plat := mount_platform))) by (vm_compute; reflexivity). exact H.
Defined.
