(* ===== verification/FirstRead.v ===== *)
(** * From a disk to the bytes of a file

    The file layer is started, a file of the root directory is opened, read and
    closed: the theorem speaks of the bytes of the disk only, not of what the
    kernel keeps of them in memory. *)
From Stdlib Require Import ZArith Lia String.
From stdpp Require Import base numbers gmap list strings.
From S2P Require Import Prelude Config Memory Strings Machine Console Kheap Paging Blocks Disk Path File Fat16 Volume Session Mount.
Local Open Scope Z_scope.

(** ** Directories at another place *)

Lemma field_move m m' p q n : (forall k, 0 <= k < Z.of_nat n -> rd8 m' (q + k) = rd8 m (p + k)) -> field m' q n = field m p n.
Proof. intros H. unfold field. apply list_fmap_ext. intros j x [-> Hj]%lookup_seq. unfold rdc. by rewrite H by lia. Qed.

Lemma full_name_move m m' p q : (forall k, 0 <= k < 32 -> rd8 m' (q + k) = rd8 m (p + k)) -> full_name m' q = full_name m p.
Proof.
  intros H. unfold full_name, o_ext. rewrite (field_move m m' p q 8), (field_move m m' (p + 8) (q + 8) 3), H; try done; try lia.
  - intros k Hk. rewrite <- !Z.add_assoc. apply H. lia.
  - intros k Hk. apply H. lia.
Qed.

Lemma dir_find_move m m' p q name n : forall i, 0 <= i ->
  (forall k, 0 <= k < 32 * (i + Z.of_nat n) -> rd8 m' (q + k) = rd8 m (p + k)) -> dir_find m' q i n name = dir_find m p i n name.
Proof.
  induction n as [|n IH]; intros i Hi H; [done|]. rewrite !dir_find_S, (full_name_move m m' (p + 32 * i)), IH; try done; try lia.
  - intros k Hk. apply H. lia.
  - intros k Hk. rewrite <- !Z.add_assoc. apply H. lia.
Qed.

Section first_read.
Context {plat : Platform} {fsys : FileSystems}.

(** ** The root directory on the disk *)

(** The [n] bytes of the disk from [base] on, as a memory. *)
Definition disk_ram (base n : Z) : ram := foldr (fun k m => wr8 m k (img (base + k))) ∅ (seqZ 0 n).

Lemma rd8_written (f : Z -> Z) l k : k ∈ l -> rd8 (foldr (fun k m => wr8 m k (f k)) ∅ l) k = u8 (f k).
Proof.
  induction l as [|x l IH]; [by intros ?%not_elem_of_nil|]. cbn [foldr]. intros Hk%elem_of_cons.
  destruct (decide (k = x)) as [->|Hne]; [by rewrite rd8_wr8_eq|]. rewrite rd8_wr8_ne by done. apply IH. by destruct Hk.
Qed.

Lemma rd8_disk_ram base n k : 0 <= k < n -> rd8 (disk_ram base n) k = img (base + k).
Proof. intros Hk. unfold disk_ram. rewrite rd8_written by (apply elem_of_seqZ; lia). apply Z.mod_small, img_range. Qed.

(** The entry of the root directory that a name denotes, on the disk. *)
Definition image_find (n : nat) (name : list Z) : option Z :=
  dir_find (disk_ram (512 * root_start) root_bytes) 0 0 (Z.to_nat (live n (512 * root_start))) name.

(** The byte of the disk at which entry [j] starts. *)
Definition image_entry (j : Z) : Z := 512 * root_start + 32 * j.

(** Entry [j] is of a file that starts at cluster [c]. *)
Record image_file (j c : Z) : Prop := {
  if_file : Z.land (img (image_entry j + o_attribs)) FAT16_ATTR_SUB_DIRECTORY = 0;
  if_high : img16 (image_entry j + o_high_cluster) = 0;
  if_low : img16 (image_entry j + o_low_cluster) = c }.

(** What the kernel holds of the directory is what the disk has. *)
Lemma started_find s s' A n v c r d e name :
  fat_image n -> started s s' A (live n (512 * root_start)) v c r d e ->
  dir_find (ram_of s') (block_addr e) 0 (Z.to_nat (live n (512 * root_start))) name = image_find n name.
Proof.
  intros I S. pose proof (live_range n (512 * root_start)) as Hl. pose proof (im_entries _ I) as He. unfold image_find.
  apply dir_find_move; [lia|]. intros k Hk. assert (Hkb : 0 <= k < root_bytes) by (unfold root_bytes; lia).
  rewrite Z.add_0_l, rd8_disk_ram by done. by apply (sa_root _ _ _ _ _ _ _ _ _ S).
Qed.

Lemma started_file s s' A n v c r d e j cl :
  fat_image n -> started s s' A (live n (512 * root_start)) v c r d e -> 0 <= j < live n (512 * root_start) -> image_file j cl ->
  Z.land (rd8 (ram_of s') (block_addr e + 32 * j + o_attribs)) FAT16_ATTR_SUB_DIRECTORY = 0 /\ starts_at (ram_of s') (block_addr e + 32 * j) cl.
Proof.
  intros I S Hj [F1 F2 F3]. pose proof (live_range n (512 * root_start)) as Hl. pose proof (im_entries _ I) as He.
  assert (B : forall o, 0 <= o < 32 -> rd8 (ram_of s') (block_addr e + 32 * j + o) = img (image_entry j + o)).
  { intros o Ho. unfold image_entry. rewrite <- !Z.add_assoc. apply (sa_root _ _ _ _ _ _ _ _ _ S). unfold root_bytes. lia. }
  assert (W : forall o, 0 <= o < 31 -> rd16 (ram_of s') (block_addr e + 32 * j + o) = img16 (image_entry j + o)).
  { intros o Ho. unfold rd16, img16. rewrite <- (Z.add_assoc _ o 1), <- (Z.add_assoc (image_entry j) o 1), !B by lia. done. }
  unfold starts_at, o_attribs, o_high_cluster, o_low_cluster in *. by rewrite B, !W by lia.
Qed.

(** The arguments of kfopen, where starting the file layer does not write. *)
Record early_args (s : fstate) (path_str mode : Z) (name : list Z) : Prop := {
  ea_args : open_args s path_str mode name;
  ea_stable : stable_range (d_mach (f_dev s)) path_str (4 + Z.of_nat (length name));
  ea_path : forall a, path_str <= a < path_str + 4 + Z.of_nat (length name) -> ~ mount_area (m_con (d_mach (f_dev s))) a;
  ea_mode : ~ mount_area (m_con (d_mach (f_dev s))) mode }.

Lemma early_args_kept s s' path_str mode name :
  mem_kept (mount_area (m_con (d_mach (f_dev s)))) (d_mach (f_dev s)) (d_mach (f_dev s')) -> early_args s path_str mode name -> open_args s' path_str mode name.
Proof.
  intros K [[P N S [M Ms]] St Np Nm]. split; [|done | |].
  - revert P. apply cstr_ext. intros a Ha. cbn [length] in Ha. apply (kp_mem _ _ _ K); [apply St; lia | apply Np; lia].
  - intros a Ha. by apply (kp_stable _ _ _ _ K), S.
  - split; [|by apply (kp_stable _ _ _ _ K)]. rewrite <- M. unfold rdc, ram_of. f_equal. by apply (kp_mem _ _ _ K).
Qed.

(** The range that is read, in terms of the geometry on the disk. *)
Record image_range (x : machine) (c len out : Z) : Prop := {
  ir_spc : 0 < img o_sectors_per_cluster;
  ir_data : data_start < 65536;
  ir_cluster : 2 <= c;
  ir_len : 0 < len <= img o_sectors_per_cluster * 512;
  ir_end : cluster_base (img o_sectors_per_cluster) data_start c + len < 4294967296;
  ir_out : 0 <= out /\ out + len < 4294967296 /\ stable_range x out len }.

(** C5: a file is read from the disk.  On a disk with a FAT16 volume, starting
    the file layer, opening "0:/name", reading [len] bytes and closing the file
    returns descriptor 1, one member read and 0, and the buffer holds the
    bytes that the disk has at the start of the first cluster of the file:
    the cluster that the entry of that name in the root directory of the disk
    gives, where the geometry of the boot sector puts it. *)
Theorem boot_reads_file (s : fstate) (A : gmap Z Z) (n : nat) (path_str mode out len j c : Z) (name : list Z)
    (Hpl : platform_ok) (HR : heap_rep (d_mach (f_dev s)) A) (Hn : 13 <= kheap_num_free_blocks (d_mach (f_dev s)))
    (Hst : on_stack stack_entry 32) (Hname : on_stack fat16_fs_addr 6) (I : fat_image n)
    (HA : early_args s path_str mode name) (Hj : image_find n name = Some j) (HF : image_file j c)
    (Hr : image_range (d_mach (f_dev s)) c len out) :
  wp ((fs_init fat16_init;; disk_init);; session path_str mode out len) s (fun '(fd, got, res) s' =>
    fd = 1 /\ got = 1 /\ res = 0 /\
    forall a, out <= a < out + len -> rd8 (ram_of s') a = img (cluster_base (img o_sectors_per_cluster) data_start c + (a - out))).
Proof.
  wp_step. wp_apply (mount_spec s A n Hpl HR ltac:(lia) Hst Hname I). intros _ s1 (v & cs & r & d & e & S).
  pose proof (started_find _ _ _ _ _ _ _ _ _ name I S) as Ef. rewrite Hj in Ef. pose proof (dir_find_some _ _ _ _ _ _ Ef) as Hjr.
  pose proof (live_range n (512 * root_start)) as Hl. destruct (started_file _ _ _ _ _ _ _ _ _ j c I S ltac:(lia) HF) as [Hat Hc].
  pose proof S as [Hnew Hh HR1 Hct HF1 Ht _ K]. destruct Hr as [R1 R2 R3 R4 R5 (O1 & O2 & O3)]. destruct (Hh cs ltac:(set_solver)) as [Hcs Fcs].
  pose proof (img_range o_sectors_per_cluster). pose proof (img_range o_fat_copies). pose proof (img16_range o_sectors_per_fat).
  pose proof (img16_range o_reserved_sectors). pose proof (img16_range o_root_dir_entries).
  assert (Hr1 : read_args (d_mach (f_dev s1)) (img o_sectors_per_cluster) data_start c 0 len out (block_addr cs)).
  { split; try lia.
    - split; [|lia]. unfold data_start, root_start, root_bytes. assert (0 <= (img16 o_root_dir_entries * 32 + 511) / 512) by (apply Z.div_pos; lia). nia.
    - split_and!; try done. intros a Ha. by apply (kp_stable _ _ _ _ K), O3.
    - pose proof (stable_apart _ cs out len ltac:(lia) Hcs Fcs O3). lia. }
  wp_apply (session_spec s1 _ (block_addr v) (img o_sectors_per_cluster) data_start (block_addr e) (live n (512 * root_start)) (block_addr cs) 0
    path_str mode j c len out name Hpl HR1 ltac:(lia) HF1 (early_args_kept _ _ _ _ _ K HA)
    (ex_intro _ 1 (conj (conj (Z.le_refl 1) eq_refl) (Ht 1))) Ef Hat Hc Hr1).
  intros [[fd got] res] s2 (-> & -> & [(L1 & L2 & L3) Hb _ _ _]). split_and!; try done.
  destruct (decide (fd = 1)); [done|]. by destruct (L3 1 ltac:(lia)).
Qed.
End first_read.

(** ** Witness *)

(** The path "0:/a.b" and the mode "r" in block 0, on the disk of Mount.v. *)
Definition first_ram : ram :=
  foldr (fun '(a, v) m => wr8 m (block_addr 0 + a) v) block0_ram
    [(512, 48); (513, 58); (514, 47); (515, 97); (516, 46); (517, 98); (600, 114)].
Definition first_state : fstate :=
  mk_fstate (mk_dstate (ready first_ram) (mk_ata 0 0 0 0 0 0 0 0) (mk_disk 0 0 0 0 0)) [] [].

Lemma first_only : only_block0 first_ram.
Proof. unfold first_ram. cbn [foldr]. do 7 (apply only_block0_wr8; [|blk; lia]). apply block0_only. Qed.

Lemma first_stable p n : block_addr 0 <= p -> p + n <= block_addr 0 + 4096 -> stable_range (d_mach (f_dev first_state)) p n.
Proof. intros H1 H2. apply block0_stable; [apply first_only | done | done]. Qed.

Lemma first_area a : block_addr 0 <= a -> ~ mount_area (plat := mount_platform) (m_con (d_mach (f_dev first_state))) a.
Proof. unfold mount_area, in_entry, on_line. cbn [stack_entry fat16_fs_addr mount_platform]. change (curr_y _) with 0. change (u16 (0 + 1)) with 1. vga. blk. lia. Qed.

Lemma first_args : early_args (plat := mount_platform) first_state (block_addr 0 + 512) (block_addr 0 + 600) [97; 46; 98].
Proof.
  split; [split | | |].
  - split_and!; [blk; lia | cbn [length]; blk; lia | | reflexivity].
    intros i Hi. cbn [length] in Hi. do 6 (destruct i as [|i]; [by vm_compute|]). lia.
  - split; [cbn [length]; lia|]. by apply (bool_decide_unpack _).
  - apply first_stable; cbn [length]; lia.
  - split; [reflexivity|]. apply (first_stable (block_addr 0 + 600) 1); lia.
  - apply first_stable; cbn [length]; lia.
  - intros a Ha. apply first_area. lia.
  - apply first_area. lia.
Qed.

Lemma boot_reads_file_witness :
  exists s', ((fs_init (plat := mount_platform) (fat16_init (plat := mount_platform));; disk_init (plat := mount_platform) (fsys := mount_fs));;
      session (plat := mount_platform) (fsys := mount_fs) (block_addr 0 + 512) (block_addr 0 + 600) (block_addr 0 + 2048) 6) first_state
      = Ret (1, 1, 0) s' /\ rd8 (ram_of s') (block_addr 0 + 2050) = 33.
Proof.
  assert (Hpl : platform_ok (plat := mount_platform) (fsys := mount_fs)) by (split; [done | done | done | apply low_buffer; unfold FS_MAX_PATH_LEN; cbn; lia]).
  assert (Hn : 13 <= kheap_num_free_blocks (d_mach (f_dev first_state))) by (change (13 <= kheap_num_free_blocks (ready first_ram)); rewrite (block0_budget _ first_only); lia).
  assert (Hj : image_find (plat := mount_platform) 2 [97; 46; 98] = Some 1) by (vm_compute; reflexivity).
  assert (HF : image_file (plat := mount_platform) 1 3) by (split; vm_compute; reflexivity).
  assert (Hr : image_range (plat := mount_platform) (d_mach (f_dev first_state)) 3 6 (block_addr 0 + 2048)).
  { split; [vm_compute; reflexivity | vm_compute; reflexivity | lia | split; [lia | vm_compute; discriminate] | vm_compute; reflexivity |].
    split_and!; [blk; lia | blk; lia | apply first_stable; lia]. }
  destruct (proj1 (wp_run _ _ _) (boot_reads_file (plat := mount_platform) (fsys := mount_fs) first_state (<[0 := 1]> ∅) 2
    (block_addr 0 + 512) (block_addr 0 + 600) (block_addr 0 + 2048) 6 1 3 [97; 46; 98] Hpl (block0_rep _ first_only) Hn
    ltac:(apply low_buffer; cbn; lia) ltac:(apply low_buffer; cbn; lia) mount_image_ok first_args Hj HF Hr))
    as ([[fd got] res] & s' & E & -> & -> & -> & H).
  exists s'. split; [exact E|]. rewrite H by lia. vm_compute. reflexivity.
Defined.
