(* ===== verification/Gdt.v ===== *)
(** * gdt/gdt.c, and the tables of kernel.c and idt.c: descriptor encodings

    Segment descriptors are written as bytes to RAM; [seg_of] is how the
    processor reads them.  Interrupt gates are the records of [struct
    idt_entry]. *)
From Stdlib Require Import ZArith Lia String.
From stdpp Require Import base numbers gmap list strings.
From S2P Require Import Prelude Config Memory Machine Console.
Local Open Scope Z_scope.

Record gdt_structured := mk_gdts { base : Z; limit : Z; gtype : Z }.

Definition gdt_panic_msg : string := "encodeGdtEntry: Invalid argument" +:+ String (Ascii.ascii_of_nat 10) EmptyString.

(** The address [target + i]. *)
Definition encodeGdtEntry (target : Z) (source : gdt_structured) : M machine unit :=
  if (65536 <? limit source) && negb (Z.land (limit source) 0xFFF =? 0xFFF)
  then panic gdt_panic_msg
  else
    store8 (target + 6) 0x40;;
    (if 65536 <? limit source then store8 (target + 6) 0xC0 else mret tt);;
    let lim := if 65536 <? limit source then Z.shiftr (limit source) 12 else limit source in
    store8 target (Z.land lim 0xFF);;
    store8 (target + 1) (Z.land (Z.shiftr lim 8) 0xFF);;
    t6 ← load8 (target + 6);
    store8 (target + 6) (Z.lor t6 (Z.land (Z.shiftr lim 16) 0x0F));;
    store8 (target + 2) (Z.land (base source) 0xFF);;
    store8 (target + 3) (Z.land (Z.shiftr (base source) 8) 0xFF);;
    store8 (target + 4) (Z.land (Z.shiftr (base source) 16) 0xFF);;
    store8 (target + 7) (Z.land (Z.shiftr (base source) 24) 0xFF);;
    store8 (target + 5) (gtype source).

Fixpoint gdt_structured_to_gdt (gdt : Z) (structured_gdt : list gdt_structured) : M machine unit :=
  match structured_gdt with
  | [] => mret tt
  | e :: es => encodeGdtEntry gdt e;; gdt_structured_to_gdt (gdt + 8) es
  end.

Definition SIZEOF_TSS : Z := 100.

(** The segments of kernel.c, the TSS at [tss]. *)
Definition gdt_segments (tss : Z) : list gdt_structured :=
  [ mk_gdts 0 0 0; mk_gdts 0 0xFFFFFFFF 0x9a; mk_gdts 0 0xFFFFFFFF 0x92; mk_gdts 0 0xFFFFFFFF 0xf8;
    mk_gdts 0 0xFFFFFFFF 0xf2; mk_gdts tss SIZEOF_TSS 0xE9 ].

(** [gdt_init] up to [lgdt]. *)
Definition gdt_init (gdt_real tss : Z) : M machine unit :=
  modify (on_ram (memset gdt_real 0 (8 * TOTAL_GDT_SEGS)));;
  gdt_structured_to_gdt gdt_real (gdt_segments tss).

(** ** What the processor reads: base, limit and access byte *)
Definition seg_of (m : ram) (p : Z) : gdt_structured :=
  let lim := rd8 m p + 256 * rd8 m (p + 1) + 65536 * (rd8 m (p + 6) mod 16) in
  mk_gdts (rd8 m (p + 2) + 256 * rd8 m (p + 3) + 65536 * rd8 m (p + 4) + 16777216 * rd8 m (p + 7))
    (if 128 <=? rd8 m (p + 6) then lim * 4096 + 4095 else lim)
    (rd8 m (p + 5)).

(** The widths of the fields of [struct gdt_structured]. *)
Definition seg_ok (e : gdt_structured) : Prop := is_u32 (base e) /\ is_u32 (limit e) /\ is_byte (gtype e).

(** A limit that is encoded: up to 2^16 in bytes, above it in whole pages. *)
Definition limit_ok (l : Z) : Prop := l <= 65536 \/ l mod 4096 = 4095.

Lemma limit_test l :
  (65536 <? l) && negb (Z.land l 0xFFF =? 0xFFF) = false /\ limit_ok l \/
  (65536 <? l) && negb (Z.land l 0xFFF =? 0xFFF) = true /\ ~ limit_ok l.
Proof.
  change 0xFFF with (2 ^ 12 - 1). rewrite land_low by lia. change (2 ^ 12) with 4096. unfold limit_ok.
  destruct (Z.ltb_spec 65536 l); [|left; split; [done | lia]].
  destruct (Z.eqb_spec (l mod 4096) (4096 - 1)); [left | right]; (split; [done | lia]).
Qed.

Lemma land_FF x : Z.land x 0xFF = x mod 256.
Proof. apply (land_low x 8). lia. Qed.

Lemma land_0F x : Z.land x 0x0F = x mod 16.
Proof. apply (land_low x 4). lia. Qed.

(** The bytes that encodeGdtEntry leaves. *)
Definition seg_bytes (e : gdt_structured) : list Z :=
  let big := 65536 <? limit e in
  let lim := if big then limit e / 4096 else limit e in
  [ lim mod 256; lim / 256 mod 256; base e mod 256; base e / 256 mod 256; base e / 65536 mod 256; gtype e;
    (if big then 0xC0 else 0x40) + lim / 65536 mod 16; base e / 16777216 mod 256 ].

(** Bytes written one after the other. *)
Ltac read_back := rewrite !rd8_wr8; repeat (case_test; try lia).

Lemma encode_spec t e s :
  seg_ok e -> limit_ok (limit e) ->
  wp (encodeGdtEntry t e) s (fun _ s' => exists m, s' = set_ram m s /\
    (forall i b, seg_bytes e !! i = Some b -> rd8 m (t + Z.of_nat i) = b) /\
    forall a, a < t \/ t + 8 <= a -> rd8 m a = rd8 (m_ram s) a).
Proof.
  intros (Hb & Hl & Ht) Hg. unfold is_u32, is_byte in *. unfold encodeGdtEntry, seg_bytes.
  destruct (limit_test (limit e)) as [ [Hnp _]|[_ H] ]; [|done]. rewrite Hnp. set (lim := if 65536 <? limit e then limit e / 4096 else limit e).
  set (g := if 65536 <? limit e then 0xC0 else 0x40).
  assert (El : (if 65536 <? limit e then Z.shiftr (limit e) 12 else limit e) = lim).
  { unfold lim. rewrite Z.shiftr_div_pow2 by lia. done. }
  rewrite El, !Z.shiftr_div_pow2, !land_FF, !land_0F by lia.
  change (2 ^ 8) with 256. change (2 ^ 16) with 65536. change (2 ^ 24) with 16777216.
  assert (Hlim : 0 <= lim < 1048576) by (unfold lim; case_test; zlia).
  assert (E6 : Z.lor g (lim / 65536 mod 16) = g + lim / 65536 mod 16).
  { apply (lor_disjoint _ _ 4); [lia | unfold g; destruct (65536 <? limit e); reflexivity | zlia]. }
  clear El Hnp Hg. clearbody lim.
  wp_step. apply wp_modify. wp_step.
  apply wp_mono with (P := fun _ s' => exists m0, s' = set_ram m0 s /\ rd8 m0 (t + 6) = g /\
    forall a, a <> t + 6 -> rd8 m0 a = rd8 (m_ram s) a).
  { unfold g. destruct (65536 <? limit e); [apply wp_modify | apply wp_ret]; eexists; (split; [reflexivity|]);
      (split; [rewrite rd8_wr8_eq; reflexivity | intros a Ha; cbn [on_ram set_ram m_ram]; by rewrite !rd8_wr8_ne by lia]). }
  assert (Hgr : 0 <= g <= 192) by (unfold g; destruct (65536 <? limit e); lia). clearbody g.
  intros _ s1 (m0 & -> & G6 & G). unfold store8, load8. wp_steps. eexists. split; [reflexivity|].
  cbn [on_ram set_ram m_ram]. split.
  - intros i b Hi. do 8 (destruct i as [|i]; [injection Hi as <-; cbn [Z.of_nat Pos.of_succ_nat Pos.succ];
      read_back; rewrite ?G6, ?E6; try (apply u8_small; zlia) |]). { done. }
  - intros a Ha. read_back. apply G. lia.
Qed.

(** The processor reads back what the bytes encode. *)
Lemma seg_read_back e m t : seg_ok e -> limit_ok (limit e) ->
  (forall i x, seg_bytes e !! i = Some x -> rd8 m (t + Z.of_nat i) = x) -> seg_of m t = e.
Proof.
  intros (Hb & Hl & Ht) Hg Hi. unfold is_u32, is_byte, limit_ok in *. destruct e as [b l ty]. cbn [base limit gtype] in *.
  pose proof (Hi 0%nat _ eq_refl) as H0. pose proof (Hi 1%nat _ eq_refl) as H1. pose proof (Hi 2%nat _ eq_refl) as H2.
  pose proof (Hi 3%nat _ eq_refl) as H3. pose proof (Hi 4%nat _ eq_refl) as H4. pose proof (Hi 5%nat _ eq_refl) as H5.
  pose proof (Hi 6%nat _ eq_refl) as H6. pose proof (Hi 7%nat _ eq_refl) as H7.
  change (Z.of_nat 1) with 1 in H1. change (Z.of_nat 2) with 2 in H2. change (Z.of_nat 3) with 3 in H3. change (Z.of_nat 4) with 4 in H4.
  change (Z.of_nat 5) with 5 in H5. change (Z.of_nat 6) with 6 in H6. change (Z.of_nat 7) with 7 in H7.
  rewrite Z.add_0_r in H0. cbn [base limit gtype] in *.
  unfold seg_of. rewrite H0, H1, H2, H3, H4, H5, H6, H7. clear H0 H1 H2 H3 H4 H5 H6 H7 Hi.
  f_equal; [zlia|]. destruct (Z.ltb_spec 65536 l); case_test; zlia.
Qed.

(** C38: encodeGdtEntry, for every 32-bit base and limit and every type.  With a
    limit of at most 65536, or one that ends in FFF, the descriptor decodes to
    what was encoded: the processor reads back the same base, limit and access
    byte, and only the eight bytes of the entry are written.  Every other limit
    ends in a panic with its message and no entry, also the limits from 65537
    to 0xFFFFF, which the format could express in bytes. *)
Theorem gdt_roundtrip (t : Z) (e : gdt_structured) (s : machine) (Hok : seg_ok e) :
  (limit e <= 65536 \/ limit e mod 4096 = 4095 ->
   wp (encodeGdtEntry t e) s (fun _ s' =>
     seg_of (m_ram s') t = e /\ forall a, a < t \/ t + 8 <= a -> rd8 (m_ram s') a = rd8 (m_ram s) a)) /\
  (65536 < limit e -> limit e mod 4096 <> 4095 ->
   encodeGdtEntry t e s = Panic gdt_panic_msg (println (chars gdt_panic_msg) s)).
Proof.
  split.
  - intros Hl. wp_apply (encode_spec t e s Hok Hl). intros _ s' (m & -> & Hm & Hk). split; [|done]. by apply seg_read_back.
  - intros Hl Hn. unfold encodeGdtEntry. destruct (limit_test (limit e)) as [ [_ H]|[-> _] ]; [|done].
    unfold limit_ok in H. lia.
Qed.

Lemma gdt_roundtrip_witness :
  (exists s', encodeGdtEntry 0x5000 (mk_gdts 0x12345678 0xFFFFFFFF 0xf8) (boot_machine ∅) = Ret tt s' /\
     seg_of (m_ram s') 0x5000 = mk_gdts 0x12345678 0xFFFFFFFF 0xf8) /\
  exists s', encodeGdtEntry 0x5000 (mk_gdts 0 70000 0x92) (boot_machine ∅) = Panic gdt_panic_msg s'.
Proof.
  assert (H1 : seg_ok (mk_gdts 0x12345678 0xFFFFFFFF 0xf8)) by (unfold seg_ok, is_u32, is_byte; cbn; lia).
  assert (H2 : seg_ok (mk_gdts 0 70000 0x92)) by (unfold seg_ok, is_u32, is_byte; cbn; lia).
  split.
  - destruct (proj1 (wp_run _ _ _) (proj1 (gdt_roundtrip 0x5000 _ (boot_machine ∅) H1) (or_intror eq_refl))) as ([] & s' & E & H & _).
    exists s'. split; [exact E | exact H].
  - eexists. apply (proj2 (gdt_roundtrip 0x5000 _ (boot_machine ∅) H2)); [reflexivity | discriminate].
Defined.
