(* ===== verification/Kernel.v ===== *)
(** * The state of the running kernel

    On top of the file layer: the registers of the MMU and of the CPU, the
    statics of task.c, process.c, idt.c, ps2.c, and the addresses the linker
    gives to the statics and literals that live in memory ([Layout]).

    [struct task], [struct process] and [struct elf_file] live in RAM; their
    fields are the offsets below.  Kernel addresses are translated by the
    identity, so the kernel's own accesses go to RAM directly; addresses
    that come from user code go through the tables that CR3 points to. *)
From Stdlib Require Import ZArith Lia String.
From stdpp Require Import base numbers gmap list strings.
From S2P Require Import Prelude Config Memory Machine Console Kheap Paging Disk Path File.
Local Open Scope Z_scope.

(** The functions that idt_register_interrupt_call_back and
    syscall_register_command are given. *)
Inductive callback := idt_handle_exception_cb | idt_handle_clock_cb | keyboard_intr_handler_cb.
Inductive syscall :=
| syscall_hello_sum_fn | syscall_print_fn | syscall_get_char_fn | syscall_put_char_fn | syscall_mmap_fn
| syscall_munmap_fn | syscall_clear_screen_fn | syscall_create_process_fn | syscall_exit_fn | syscall_wait_pid_fn.

Class Layout := {
  procs_addr : Z;           (** [&procs[0]] of process.c *)
  kpage_table_addr : Z;     (** [&kpage_table] of paging.c *)
  idt_addr : Z;             (** [&idt[0]] of idt.c *)
  tss_addr : Z;             (** [&tss] of kernel.c *)
  stack_stat : Z;           (** the local [stat] of elf_load and process_load_binary *)
  stack_item : Z;           (** the local [item] of task_get_stack_item *)
  lit_r : Z;                (** the literal ["r"] *)
  uninit_argv : Z;          (** what [arg_ptrs_va] of process_add_arguments holds before it is set *)
  elf_signature_addr : Z;   (** [elf_signature] of elfloader.c *)
  gdt_real_addr : Z;        (** [gdt_real] of kernel.c *)
  int_wrapper : Z -> Z;     (** [interrupt_handler_asm_wrappers] of idt.asm *)
  int80h : Z;               (** the label of idt.asm *)
  scan_set_next : Z;        (** the byte after [keyboard_scan_set_one] of ps2.c *)
  lit_shell : Z;            (** the literal ["0:/shell"] of kernel.c *)
  lit_shell_args : Z;       (** the literal with the arguments of the first process *)
  calls_beyond : Z -> option syscall }. (** what is called at an index outside of [sys_calls] *)

(** [struct registers] *)
Record registers := mk_regs {
  edi : Z; esi : Z; ebp : Z; ebx : Z; edx : Z; ecx : Z; eax : Z;
  eip : Z; cs : Z; eflags : Z; esp : Z; ss : Z }.

Record vm := mk_vm { cr3_reg : Z; paging_on : bool; current_pt : Z }.
Record sched := mk_sched { curr_task : Z; tasks_ll_head : Z; tasks_ll_tail : Z; current_proc : Z }.
Record intr := mk_intr {
  interrupt_call_backs : list (option callback);
  sys_calls : list (option syscall);
  cli_count : Z; interrupts_on : bool;
  idtr : Z * Z;             (** limit and base, loaded by idt_load *)
  task_register : Z;        (** loaded by tss_load *)
  pic_acks : nat }.         (** acknowledgements written to the interrupt controller *)
Record kbd := mk_kbd {
  caps_lock_state : Z;
  ps2_enabled : bool;
  ps2_data : nat -> Z }.    (** what the next reads of the data port return *)

Record kstate := mk_kstate {
  k_fs : fstate; k_vm : vm; k_sched : sched; k_intr : intr; k_kbd : kbd; k_cpu : registers }.

Definition set_k_fs (x : fstate) (s : kstate) : kstate :=
  mk_kstate x (k_vm s) (k_sched s) (k_intr s) (k_kbd s) (k_cpu s).
Definition set_vm (x : vm) (s : kstate) : kstate :=
  mk_kstate (k_fs s) x (k_sched s) (k_intr s) (k_kbd s) (k_cpu s).
Definition set_sched (x : sched) (s : kstate) : kstate :=
  mk_kstate (k_fs s) (k_vm s) x (k_intr s) (k_kbd s) (k_cpu s).
Definition set_intr (x : intr) (s : kstate) : kstate :=
  mk_kstate (k_fs s) (k_vm s) (k_sched s) x (k_kbd s) (k_cpu s).
Definition set_kbd (x : kbd) (s : kstate) : kstate :=
  mk_kstate (k_fs s) (k_vm s) (k_sched s) (k_intr s) x (k_cpu s).
Definition set_cpu (x : registers) (s : kstate) : kstate :=
  mk_kstate (k_fs s) (k_vm s) (k_sched s) (k_intr s) (k_kbd s) x.

Definition set_curr_task (t : Z) (s : kstate) : kstate :=
  set_sched (mk_sched t (tasks_ll_head (k_sched s)) (tasks_ll_tail (k_sched s)) (current_proc (k_sched s))) s.
Definition set_head (t : Z) (s : kstate) : kstate :=
  set_sched (mk_sched (curr_task (k_sched s)) t (tasks_ll_tail (k_sched s)) (current_proc (k_sched s))) s.
Definition set_tail (t : Z) (s : kstate) : kstate :=
  set_sched (mk_sched (curr_task (k_sched s)) (tasks_ll_head (k_sched s)) t (current_proc (k_sched s))) s.
Definition set_current_proc (p : Z) (s : kstate) : kstate :=
  set_sched (mk_sched (curr_task (k_sched s)) (tasks_ll_head (k_sched s)) (tasks_ll_tail (k_sched s)) p) s.

(** Computations of the layers below. *)
Definition files {A} (m : M fstate A) : M kstate A := zoom k_fs set_k_fs m.
Definition km {A} (m : M machine A) : M kstate A := files (fmach m).

Definition k_mach (s : kstate) : machine := d_mach (f_dev (k_fs s)).
Definition k_ram (s : kstate) : ram := m_ram (k_mach s).
Definition set_k_mach (m : machine) (s : kstate) : kstate :=
  set_k_fs (set_dev (set_mach m (f_dev (k_fs s))) (k_fs s)) s.

Definition kpanic {A} (msg : string) : M kstate A := km (panic msg).

Lemma wp_files {A} (m : M fstate A) s Q :
  wp m (k_fs s) (fun a t => Q a (set_k_fs t s)) -> wp (files m) s Q.
Proof. apply wp_zoom. Qed.

Lemma wp_km {A} (m : M machine A) s Q :
  wp m (k_mach s) (fun a t => Q a (set_k_mach t s)) -> wp (km m) s Q.
Proof. intros H. apply wp_files, wp_fmach, H. Qed.

(** What [km] does to each outcome of a computation on the machine. *)
Lemma km_run {A} (m : M machine A) s :
  km m s = match m (k_mach s) with
           | Ret a t => Ret a (set_k_mach t s)
           | Panic msg t => Panic msg (set_k_mach t s)
           | User t => User (set_k_mach t s)
           | Spin => Spin
           end.
Proof. unfold km, files, fmach, dev, mach, zoom, k_mach, set_k_mach. by destruct (m _). Qed.

(** Words, half-words and bytes of RAM. *)
Definition kld32 (a : Z) : M kstate Z := km (load32 (u32 a)).
Definition kld16 (a : Z) : M kstate Z := gets (fun s => rd16 (k_ram s) (u32 a)).
Definition kld8 (a : Z) : M kstate Z := km (load8 (u32 a)).
Definition kst32 (a v : Z) : M kstate unit := km (store32 (u32 a) v).
Definition kst16 (a v : Z) : M kstate unit := km (modify (on_ram (fun m => wr16 m (u32 a) v))).
Definition kst8 (a v : Z) : M kstate unit := km (store8 (u32 a) v).

(** Symbolic execution of the accesses. *)
Definition set_k_ram (m : ram) (s : kstate) : kstate := set_k_mach (set_ram m (k_mach s)) s.

Lemma set_k_mach_id s : set_k_mach (k_mach s) s = s.
Proof. by destruct s as [[[]]]. Qed.

Lemma set_k_ram_id s : set_k_ram (k_ram s) s = s.
Proof. by destruct s as [[[[]]]]. Qed.

Lemma wp_kld32 a s Q : Q (rd32 (k_ram s) (u32 a)) s -> wp (kld32 a) s Q.
Proof. intros H. apply wp_km, wp_gets. by rewrite set_k_mach_id. Qed.

Lemma wp_kld16 a s Q : Q (rd16 (k_ram s) (u32 a)) s -> wp (kld16 a) s Q.
Proof. done. Qed.

Lemma wp_kld8 a s Q : Q (rd8 (k_ram s) (u32 a)) s -> wp (kld8 a) s Q.
Proof. intros H. apply wp_km, wp_gets. by rewrite set_k_mach_id. Qed.

Lemma wp_kst32 a v s Q : Q tt (set_k_ram (wr32 (k_ram s) (u32 a) v) s) -> wp (kst32 a v) s Q.
Proof. intros H. apply wp_km, wp_modify, H. Qed.

Lemma wp_kst16 a v s Q : Q tt (set_k_ram (wr16 (k_ram s) (u32 a) v) s) -> wp (kst16 a v) s Q.
Proof. intros H. apply wp_km, wp_modify, H. Qed.

Lemma wp_kst8 a v s Q : Q tt (set_k_ram (wr8 (k_ram s) (u32 a) v) s) -> wp (kst8 a v) s Q.
Proof. intros H. apply wp_km, wp_modify, H. Qed.

(** An assertion of invariants.h. *)
Lemma wp_kassert (a : M machine unit) s Q : a = mret tt -> Q tt s -> wp (km a) s Q.
Proof. intros -> H. apply wp_km, wp_ret. by destruct s as [[[]]]. Qed.

Ltac wpk :=
  repeat first
    [ wp_step
    | match goal with
      | |- wp (kld32 _) _ _ => apply wp_kld32
      | |- wp (kld16 _) _ _ => apply wp_kld16
      | |- wp (kld8 _) _ _ => apply wp_kld8
      | |- wp (kst32 _ _) _ _ => apply wp_kst32
      | |- wp (kst16 _ _) _ _ => apply wp_kst16
      | |- wp (kst8 _ _) _ _ => apply wp_kst8
      | |- wp (km ?a) _ _ => apply (wp_kassert a); [reflexivity|]
      end ].

(** States reached by writes to RAM, to the scheduler's statics and to the
    MMU, in a normal form. *)
Create Rewrite HintDb kn.
Lemma k_ram_ram m s : k_ram (set_k_ram m s) = m.
Proof. done. Qed.
Lemma k_ram_sched x s : k_ram (set_sched x s) = k_ram s.
Proof. done. Qed.
Lemma k_ram_vm x s : k_ram (set_vm x s) = k_ram s.
Proof. done. Qed.
Lemma k_mach_ram m s : k_mach (set_k_ram m s) = set_ram m (k_mach s).
Proof. done. Qed.
Lemma k_mach_sched x s : k_mach (set_sched x s) = k_mach s.
Proof. done. Qed.
Lemma k_mach_vm x s : k_mach (set_vm x s) = k_mach s.
Proof. done. Qed.
Lemma k_sched_ram m s : k_sched (set_k_ram m s) = k_sched s.
Proof. done. Qed.
Lemma k_sched_sched x s : k_sched (set_sched x s) = x.
Proof. done. Qed.
Lemma k_sched_vm x s : k_sched (set_vm x s) = k_sched s.
Proof. done. Qed.
Lemma set_ram_ram m m' s : set_k_ram m (set_k_ram m' s) = set_k_ram m s.
Proof. done. Qed.
Lemma set_ram_sched m x s : set_k_ram m (set_sched x s) = set_sched x (set_k_ram m s).
Proof. done. Qed.
Lemma set_ram_vm m x s : set_k_ram m (set_vm x s) = set_vm x (set_k_ram m s).
Proof. done. Qed.
Lemma set_sched_sched x y s : set_sched x (set_sched y s) = set_sched x s.
Proof. done. Qed.
Lemma set_sched_vm x y s : set_sched x (set_vm y s) = set_vm y (set_sched x s).
Proof. done. Qed.
Lemma set_vm_vm x y s : set_vm x (set_vm y s) = set_vm x s.
Proof. done. Qed.
Lemma k_ram_mach x s : k_ram (set_k_mach x s) = m_ram x.
Proof. done. Qed.
Lemma k_mach_mach x s : k_mach (set_k_mach x s) = x.
Proof. done. Qed.
Lemma k_sched_mach x s : k_sched (set_k_mach x s) = k_sched s.
Proof. done. Qed.
Lemma set_ram_mach m x s : set_k_ram m (set_k_mach x s) = set_k_mach (set_ram m x) s.
Proof. done. Qed.
Lemma set_mach_mach x y s : set_k_mach x (set_k_mach y s) = set_k_mach x s.
Proof. done. Qed.
Lemma set_mach_sched x y s : set_k_mach x (set_sched y s) = set_sched y (set_k_mach x s).
Proof. done. Qed.
Lemma set_mach_vm x y s : set_k_mach x (set_vm y s) = set_vm y (set_k_mach x s).
Proof. done. Qed.
Lemma m_ram_set m x : m_ram (set_ram m x) = m.
Proof. done. Qed.
Lemma set_ram_set m m' x : set_ram m (set_ram m' x) = set_ram m x.
Proof. done. Qed.
Lemma k_ram_cpu x s : k_ram (set_cpu x s) = k_ram s.
Proof. done. Qed.
Lemma k_mach_cpu x s : k_mach (set_cpu x s) = k_mach s.
Proof. done. Qed.
Lemma k_sched_cpu x s : k_sched (set_cpu x s) = k_sched s.
Proof. done. Qed.
Lemma k_ram_intr x s : k_ram (set_intr x s) = k_ram s.
Proof. done. Qed.
Lemma k_mach_intr x s : k_mach (set_intr x s) = k_mach s.
Proof. done. Qed.
Lemma k_sched_intr x s : k_sched (set_intr x s) = k_sched s.
Proof. done. Qed.
#[export] Hint Rewrite k_ram_intr k_mach_intr k_sched_intr : kn.
#[export] Hint Rewrite k_ram_cpu k_mach_cpu k_sched_cpu k_ram_mach k_mach_mach k_sched_mach set_ram_mach set_mach_mach set_mach_sched
  set_mach_vm m_ram_set set_ram_set : kn.
#[export] Hint Rewrite k_ram_ram k_ram_sched k_ram_vm k_mach_ram k_mach_sched k_mach_vm k_sched_ram k_sched_sched
  k_sched_vm set_ram_ram set_ram_sched set_ram_vm set_sched_sched set_sched_vm set_vm_vm : kn.

Ltac knorm :=
  unfold set_head, set_tail, set_curr_task, set_current_proc in *; autorewrite with kn in *;
  cbn [curr_task tasks_ll_head tasks_ll_tail current_proc] in *.

(** [ends m s P]: [m] started in [s] has an outcome in [P]; for calls that do
    not return. *)
Definition ends {A} (m : M kstate A) (s : kstate) (P : outcome kstate A -> Prop) : Prop := P (m s).

Lemma ends_bind {A B} (m : M kstate A) (f : A -> M kstate B) s P :
  wp m s (fun a s' => ends (f a) s' P) -> ends (m ≫= f) s P.
Proof. unfold wp, ends, mbind, M_bind. by destruct (m s). Qed.

Lemma ends_assoc {A B C} (m : M kstate A) (f : A -> M kstate B) (g : B -> M kstate C) s P :
  ends ((m ≫= f) ≫= g) s P <-> ends (m ≫= fun a => f a ≫= g) s P.
Proof. unfold ends, mbind, M_bind. by destruct (m s). Qed.

(** Leave the kernel in a state that satisfies [Q]. *)
Definition leaves {A} (Q : kstate -> Prop) (o : outcome kstate A) : Prop :=
  match o with User s => Q s | _ => False end.
Definition panics {A} (msg : string) (o : outcome kstate A) : Prop :=
  match o with Panic m _ => m = msg | _ => False end.

Lemma leaves_bind {A B} (m : M kstate A) (f : A -> M kstate B) s Q :
  ends m s (leaves Q) -> ends (m ≫= f) s (leaves Q).
Proof. unfold ends, leaves, mbind, M_bind. by destruct (m s). Qed.

Lemma leaves_mono {A} (m : M kstate A) s (P Q : kstate -> Prop) :
  ends m s (leaves P) -> (forall s', P s' -> Q s') -> ends m s (leaves Q).
Proof. unfold ends, leaves. destruct (m s); auto. Qed.

Lemma panics_bind {A B} (m : M kstate A) (f : A -> M kstate B) s msg :
  ends m s (panics msg) -> ends (m ≫= f) s (panics msg).
Proof. unfold ends, panics, mbind, M_bind. by destruct (m s). Qed.

Lemma ends_leaves {A} (m : M kstate A) s Q :
  ends m s (leaves Q) <-> exists s', m s = User s' /\ Q s'.
Proof.
  unfold ends, leaves. destruct (m s) eqn:E; split; try done; try (intros (? & [=] & ?); by subst).
  intros H. by eexists.
Qed.

Lemma kpanic_ends {A} msg s : ends (kpanic msg : M kstate A) s (panics msg).
Proof. unfold ends, kpanic. rewrite km_run. done. Qed.

(** ** struct task *)

Definition TASK_RUNNING : Z := 0.
Definition TASK_BLOCKED : Z := 1.
Definition TASK_READY : Z := 2.
Definition TASK_DEAD : Z := 3.

Definition t_page_table : Z := 0.
Definition t_state : Z := 8.
Definition t_registers : Z := 12.
Definition t_proc : Z := 60.
Definition t_next : Z := 64.
Definition t_prev : Z := 68.
Definition SIZEOF_TASK : Z := 76.

(** Offsets in [struct registers]. *)
Definition r_edi : Z := 0.
Definition r_esi : Z := 4.
Definition r_ebp : Z := 8.
Definition r_ebx : Z := 12.
Definition r_edx : Z := 16.
Definition r_ecx : Z := 20.
Definition r_eax : Z := 24.
Definition r_eip : Z := 28.
Definition r_cs : Z := 32.
Definition r_eflags : Z := 36.
Definition r_esp : Z := 40.
Definition r_ss : Z := 44.

Definition regs_at (m : ram) (p : Z) : registers :=
  mk_regs (rd32 m (p + r_edi)) (rd32 m (p + r_esi)) (rd32 m (p + r_ebp)) (rd32 m (p + r_ebx))
          (rd32 m (p + r_edx)) (rd32 m (p + r_ecx)) (rd32 m (p + r_eax)) (rd32 m (p + r_eip))
          (rd32 m (p + r_cs)) (rd32 m (p + r_eflags)) (rd32 m (p + r_esp)) (rd32 m (p + r_ss)).

(** ** struct process *)

Definition PROC_FILE_TYPE_ELF : Z := 0.
Definition PROC_FILE_TYPE_BINARY : Z := 1.
Definition PROC_UNUSED : Z := 0.
Definition PROC_CREATING : Z := 1.
Definition PROC_CAN_START : Z := 2.
Definition PROC_ZOMBIE : Z := 3.

Definition p_pid : Z := 0.
Definition p_parent_pid : Z := 2.
Definition p_exit_status : Z := 4.
Definition p_status : Z := 8.
Definition p_task : Z := 12.
Definition p_file_type : Z := 16.
Definition p_image : Z := 20.       (** the union of code_data_paddr and elf_file *)
Definition p_stack_paddr : Z := 24.
Definition p_size : Z := 28.
Definition p_program_file : Z := 36.
Definition SIZEOF_PROGRAM_FILE : Z := FS_MAX_PATH_LEN + 10.
Definition p_vmem_start : Z := 156.
Definition p_vmem_end : Z := 196.
Definition p_kbd_buf : Z := 276.
Definition p_kbd_head : Z := 1300.
Definition p_kbd_tail : Z := 1304.
Definition SIZEOF_PROCESS : Z := 1308.

(** ** Paging at run time *)

Section kernel.
Context {lay : Layout}.

Definition proc_addr (i : Z) : Z := procs_addr + i * SIZEOF_PROCESS.

(** [current_pt[0]]: there is one CPU. *)
Definition paging_switch (pt : Z) : M kstate unit :=
  dir ← kld32 pt;
  modify (fun s => set_vm (mk_vm dir (paging_on (k_vm s)) (current_pt (k_vm s))) s);;
  modify (fun s => set_vm (mk_vm (cr3_reg (k_vm s)) (paging_on (k_vm s)) pt) s).

Definition paging_load_kernel_page_table : M kstate unit := paging_switch kpage_table_addr.

Definition paging_enable : M kstate unit :=
  modify (fun s => set_vm (mk_vm (cr3_reg (k_vm s)) true (current_pt (k_vm s))) s).

(** A [struct page_table_32b] in RAM. *)
Definition load_pt (p : Z) : M kstate page_table_32b :=
  dir ← kld32 p; nl ← kld32 (p + 4); mret (mk_pt dir (i32 nl)).
Definition store_pt (p : Z) (pt : page_table_32b) : M kstate unit :=
  kst32 p (cr3 pt);; kst32 (p + 4) (num_levels pt).

(** paging_create_4gb_page_tables on a table in RAM, which it writes only
    when it succeeds. *)
Definition create_4gb_at (flags p : Z) : M kstate Z :=
  '(res, pt) ← km (paging_create_4gb_page_tables flags (mk_pt 0 0));
  (if res =? STATUS_OK then store_pt p pt else mret tt);;
  mret res.

Definition kpaging_init : M kstate unit :=
  res ← create_4gb_at (Z.lor PAGE_PRESENT PAGE_WRITE_ALLOW) kpage_table_addr;
  (if negb (res =? STATUS_OK) then kpanic "Failed to create kernel page table" else mret tt);;
  paging_switch kpage_table_addr;;
  paging_enable.

(** ** Addresses of user code *)

(** A byte at a virtual address.  A page that is not present faults: the
    outcome is a [Panic] that says so, and the nested exception is not
    followed. *)
Definition vload8 (va : Z) : M kstate Z :=
  w ← gets (fun s => mmu_walk (k_mach s) (cr3_reg (k_vm s)) (u32 va));
  match w with
  | Some (pa, _) => kld8 pa
  | None => fun s => Panic "page fault" s
  end.

(** memcpy from a virtual address to a kernel address. *)
Fixpoint vmemcpy_loop (n : nat) (dest src i : Z) : M kstate unit :=
  match n with
  | O => mret tt
  | S n => b ← vload8 (src + i); kst8 (dest + i) b;; vmemcpy_loop n dest src (i + 1)
  end.

Definition vmemcpy (dest src num : Z) : M kstate unit := vmemcpy_loop (Z.to_nat num) dest src 0.

(** set_current_process of process.c. *)
Definition set_current_process (proc : Z) : M kstate unit :=
  st ← kld8 (proc + p_status);
  (if negb (st =? PROC_CAN_START) then kpanic "set_current_process called, but process is not ready to run"
   else mret tt);;
  modify (set_current_proc proc).
End kernel.

(** A kernel state on a given machine, for examples. *)
Definition kernel_on (x : machine) (sc : sched) : kstate :=
  mk_kstate (mk_fstate (mk_dstate x (mk_ata 0 0 0 0 0 0 0 0) (mk_disk 0 0 512 0 0)) [] []) (mk_vm 0 true 0) sc
    (mk_intr [] [] 0 false (0, 0) 0 0) (mk_kbd 0 false (fun _ => 0)) (mk_regs 0 0 0 0 0 0 0 0 0 0 0 0).
