(* ===== verification/Elf.v ===== *)
(** * loader/elf.c and loader/elfloader.c: loading an ELF file

    The file is read into one heap allocation ([elf_memory]); the loader checks
    the header there and walks the program headers to find the extent of the
    loadable segments.  [struct elf_file] and the ELF structures are in RAM. *)
From Stdlib Require Import ZArith Lia String.
From stdpp Require Import base numbers gmap list strings.
From S2P Require Import Prelude Config Memory Machine Console Kheap Paging Disk Path File Kernel.
Local Open Scope Z_scope.

Definition PF_W : Z := 2.
Definition PT_LOAD : Z := 1.
Definition ET_EXEC : Z := 2.
Definition EI_CLASS : Z := 4.
Definition EI_DATA : Z := 5.
Definition ELFCLASSNONE : Z := 0.
Definition ELFCLASS32 : Z := 1.
Definition ELFDATANONE : Z := 0.
Definition ELFDATA2LSB : Z := 1.

(** Offsets in [struct elf_header]. *)
Definition e_type : Z := 16.
Definition e_entry : Z := 24.
Definition e_phoff : Z := 28.
Definition e_shoff : Z := 32.
Definition e_phnum : Z := 44.
Definition e_shstrndx : Z := 50.

(** Offsets in [struct elf32_phdr] and [struct elf32_shdr]. *)
Definition ph_type : Z := 0.
Definition ph_offset : Z := 4.
Definition ph_vaddr : Z := 8.
Definition ph_filesz : Z := 16.
Definition ph_memsz : Z := 20.
Definition ph_flags : Z := 24.
Definition SIZEOF_PHDR : Z := 32.
Definition sh_offset : Z := 16.
Definition SIZEOF_SHDR : Z := 40.

(** Offsets in [struct elf_file]. *)
Definition f_elf_memory : Z := 112.
Definition f_virtual_base : Z := 116.
Definition f_virtual_end : Z := 120.
Definition f_physical_base : Z := 124.
Definition f_physical_end : Z := 128.
Definition SIZEOF_ELF_FILE : Z := 132.

(** A word of a structure, by pointer and offset. *)
Definition word (m : ram) (p off : Z) : Z := rd32 m (u32 (p + off)).

(** The array [elf_signature], which the image of the kernel has at
    [elf_signature_addr]. *)
Definition elf_signature : list Z := [0x7f; 69; 76; 70].

Section elf.
Context {plat : Platform} {fsys : FileSystems} {lay : Layout}.

Definition elf_get_entry_ptr (m : ram) (header : Z) : Z := word m header e_entry.
Definition elf_get_entry (m : ram) (header : Z) : Z := word m header e_entry.

Definition elf_valid_signature (m : ram) (buffer : Z) : bool := memcmp buffer elf_signature_addr 4 m =? 0.

Definition elf_valid_class (m : ram) (header : Z) : bool :=
  (rd8 m (u32 (header + EI_CLASS)) =? ELFCLASSNONE) || (rd8 m (u32 (header + EI_CLASS)) =? ELFCLASS32).

Definition elf_valid_encoding (m : ram) (header : Z) : bool :=
  (rd8 m (u32 (header + EI_DATA)) =? ELFDATANONE) || (rd8 m (u32 (header + EI_DATA)) =? ELFDATA2LSB).

Definition elf_is_executable (m : ram) (header : Z) : bool :=
  (rd16 m (u32 (header + e_type)) =? ET_EXEC) && (DEFAULT_USER_PROG_ENTRY <=? word m header e_entry).

Definition elf_has_program_header (m : ram) (header : Z) : bool := negb (word m header e_phoff =? 0).

Definition elf_memory (m : ram) (file : Z) : Z := word m file f_elf_memory.
Definition elf_header (m : ram) (file : Z) : Z := word m file f_elf_memory.
Definition elf_sheader (m : ram) (header : Z) : Z := u32 (header + word m header e_shoff).

Definition elf_pheader (m : ram) (header : Z) : Z :=
  if word m header e_phoff =? 0 then 0 else u32 (header + word m header e_phoff).

Definition elf_program_header (m : ram) (header index : Z) : Z :=
  u32 (elf_pheader m header + index * SIZEOF_PHDR).

Definition elf_section (m : ram) (header index : Z) : Z := u32 (elf_sheader m header + index * SIZEOF_SHDR).

Definition elf_str_table (m : ram) (header : Z) : Z :=
  u32 (header + word m (elf_section m header (rd16 m (u32 (header + e_shstrndx)))) sh_offset).

Definition elf_virtual_base (m : ram) (file : Z) : Z := word m file f_virtual_base.
Definition elf_virtual_end (m : ram) (file : Z) : Z := word m file f_virtual_end.
Definition elf_phys_base (m : ram) (file : Z) : Z := word m file f_physical_base.
Definition elf_phys_end (m : ram) (file : Z) : Z := word m file f_physical_end.

Definition elf_validate_loaded (m : ram) (header : Z) : Z :=
  if elf_valid_signature m header && elf_valid_class m header && elf_valid_encoding m header &&
     elf_has_program_header m header
  then STATUS_OK else - STATUS_INVALID_EXEC_FORMAT.

Definition elf_phdr_phys_address (m : ram) (file phdr : Z) : Z := u32 (elf_memory m file + word m phdr ph_offset).

Definition elf_process_phdr_pt_load (elf_file phdr : Z) : M kstate Z :=
  m ← gets k_ram;
  (if (word m phdr ph_vaddr <=? elf_virtual_base m elf_file) || (elf_virtual_base m elf_file =? 0) then
     kst32 (elf_file + f_virtual_base) (word m phdr ph_vaddr);;
     m ← gets k_ram;
     kst32 (elf_file + f_physical_base) (u32 (elf_memory m elf_file + word m phdr ph_offset))
   else mret tt);;
  m ← gets k_ram;
  let end_virtual_address := u32 (word m phdr ph_vaddr + word m phdr ph_filesz) in
  (if (elf_virtual_end m elf_file <=? end_virtual_address) || (elf_virtual_end m elf_file =? 0) then
     kst32 (elf_file + f_virtual_end) end_virtual_address;;
     m ← gets k_ram;
     kst32 (elf_file + f_physical_end)
       (u32 (elf_memory m elf_file + word m phdr ph_offset + word m phdr ph_filesz))
   else mret tt);;
  mret 0.

Definition elf_process_pheader (elf_file phdr : Z) : M kstate Z :=
  m ← gets k_ram;
  if word m phdr ph_type =? PT_LOAD then elf_process_phdr_pt_load elf_file phdr else mret 0.

(** The loop of elf_process_pheaders; [n] counts the headers left.  The count
    [e_phnum] is read again in every round of the source. *)
Fixpoint pheaders_loop (n : nat) (elf_file header i res : Z) : M kstate Z :=
  match n with
  | O => mret res
  | S n =>
    m ← gets k_ram;
    if i <? rd16 m (u32 (header + e_phnum)) then
      res ← elf_process_pheader elf_file (elf_program_header m header i);
      if res <? 0 then mret res else pheaders_loop n elf_file header (i + 1) res
    else mret res
  end.

(** [e_phnum] has 16 bits, so 65536 rounds are enough for every header. *)
Definition elf_process_pheaders (elf_file : Z) : M kstate Z :=
  header ← gets (fun s => elf_header (k_ram s) elf_file);
  pheaders_loop (Z.to_nat 65536) elf_file header 0 0.

Definition elf_process_loaded (elf_file : Z) : M kstate Z :=
  header ← gets (fun s => elf_header (k_ram s) elf_file);
  res ← gets (fun s => elf_validate_loaded (k_ram s) header);
  if res <? 0 then mret res else elf_process_pheaders elf_file.

(** Returns the status and, on success, the file ([*file_out]). *)
Definition elf_load (filename : Z) : M kstate (Z * Z) :=
  elf_file ← km (kzalloc SIZEOF_ELF_FILE);
  if elf_file =? 0 then mret (- STATUS_NOT_ENOUGH_MEM, 0)
  else
    res ← files (kfopen filename lit_r);
    if res <=? 0 then km (kfree elf_file);; mret (- STATUS_IO_ERROR, 0)
    else
      let fd := res in
      res ← files (kfstat fd stack_stat);
      if res <? 0 then files (kfclose fd);; km (kfree elf_file);; mret (res, 0)
      else
        fsize ← kld32 (stack_stat + 4);
        mem ← km (kzalloc fsize);
        kst32 (elf_file + f_elf_memory) mem;;
        if mem =? 0 then files (kfclose fd);; km (kfree elf_file);; mret (- STATUS_NOT_ENOUGH_MEM, 0)
        else
          mem ← gets (fun s => elf_memory (k_ram s) elf_file);
          fsize ← kld32 (stack_stat + 4);
          res ← files (kfread mem fsize 1 fd);
          let fail res :=
            files (kfclose fd);;
            mem ← gets (fun s => elf_memory (k_ram s) elf_file);
            km (kfree mem);;
            km (kfree elf_file);;
            mret (res, 0) in
          if res <? 0 then fail res
          else
            res ← elf_process_loaded elf_file;
            if res <? 0 then fail res
            else files (kfclose fd);; mret (res, elf_file).

Definition elf_close (file : Z) : M kstate unit :=
  if file =? 0 then mret tt
  else
    mem ← gets (fun s => elf_memory (k_ram s) file);
    (if negb (mem =? 0) then km (kfree mem);; mret tt else mret tt);;
    km (kfree file);; mret tt.
End elf.
