(* ===== verification/Task.v ===== *)
(** * task/task.c: tasks and the scheduler

    Tasks are structures in heap blocks, linked in both directions from
    [tasks_ll_head] to [tasks_ll_tail].  task_return leaves the kernel: its
    outcome is [User] with the registers that the CPU takes over. *)
From Stdlib Require Import ZArith Lia String.
From stdpp Require Import base numbers gmap list strings.
From S2P Require Import Prelude Config Memory Machine Console Invariants Kheap Paging AddressSpace Blocks Disk Path File Kernel Elf.
Local Open Scope Z_scope.

Section task.
Context {plat : Platform} {fsys : FileSystems} {lay : Layout}.

Definition task_current : M kstate Z := gets (fun s => curr_task (k_sched s)).

(** The fields that task_init sets once the page table exists. *)
Definition task_init_fields (task proc : Z) : M kstate unit :=
  kst32 (task + t_registers + r_eip) DEFAULT_USER_PROG_ENTRY;;
  ft ← kld32 (proc + p_file_type);
  (if ft =? PROC_FILE_TYPE_ELF then
     entry ← gets (fun s => word (k_ram s) (elf_header (k_ram s) (word (k_ram s) proc p_image)) e_entry);
     kst32 (task + t_registers + r_eip) entry
   else mret tt);;
  kst32 (task + t_registers + r_ss) DEFAULT_USER_DATA_SEGMENT;;
  kst32 (task + t_registers + r_esp) DEFAULT_USER_STACK_START;;
  kst32 (task + t_registers + r_cs) DEFAULT_USER_CODE_SEGMENT;;
  kst32 (task + t_registers + r_eflags) 514;;
  kst32 (task + t_proc) proc;;
  kst8 (task + t_state) TASK_READY.

Definition task_init (task proc : Z) : M kstate Z :=
  km (modify (on_ram (memset task 0 SIZEOF_TASK)));;
  res ← create_4gb_at (Z.lor PAGE_PRESENT PAGE_WRITE_ALLOW) (task + t_page_table);
  if negb (res =? STATUS_OK) then mret res
  else task_init_fields task proc;; mret STATUS_OK.

(** The last part of task_new. *)
Definition task_link (task : Z) : M kstate unit :=
  head ← gets (fun s => tasks_ll_head (k_sched s));
  if head =? 0 then
    modify (set_head task);;
    modify (set_tail task);;
    kst32 (task + t_prev) 0;;
    kst32 (task + t_next) 0
  else
    tail ← gets (fun s => tasks_ll_tail (k_sched s));
    kst32 (tail + t_next) task;;
    tail ← gets (fun s => tasks_ll_tail (k_sched s));
    kst32 (task + t_prev) tail;;
    kst32 (task + t_next) 0;;
    modify (set_tail task).

Definition task_new (proc : Z) : M kstate Z :=
  task ← km (kzalloc SIZEOF_TASK);
  if task =? 0 then mret 0
  else
    res ← task_init task proc;
    if negb (res =? STATUS_OK) then km (kfree task);; mret 0
    else task_link task;; mret task.

Definition task_get_next : M kstate Z :=
  curr ← task_current;
  if curr =? 0 then mret 0
  else
    next ← kld32 (curr + t_next);
    if next =? 0 then gets (fun s => tasks_ll_head (k_sched s)) else kld32 (curr + t_next).

(** The middle part of task_free: take the task out of the list. *)
Definition task_unlink (task : Z) : M kstate unit :=
  prev ← kld32 (task + t_prev);
  (if negb (prev =? 0) then next ← kld32 (task + t_next); kst32 (prev + t_next) next else mret tt);;
  next ← kld32 (task + t_next);
  (if negb (next =? 0) then prev ← kld32 (task + t_prev); kst32 (next + t_prev) prev else mret tt);;
  head ← gets (fun s => tasks_ll_head (k_sched s));
  (if task =? head then next ← kld32 (task + t_next); modify (set_head next) else mret tt);;
  tail ← gets (fun s => tasks_ll_tail (k_sched s));
  (if task =? tail then prev ← kld32 (task + t_prev); modify (set_tail prev) else mret tt);;
  curr ← task_current;
  if task =? curr then modify (set_curr_task 0) else mret tt.

Definition task_free (task : Z) : M kstate Z :=
  if task =? 0 then mret 0
  else
    st ← kld8 (task + t_state);
    (if negb (st =? TASK_DEAD) then kpanic "Trying to free a task that is not dead" else mret tt);;
    pt ← load_pt (task + t_page_table);
    km (paging_free_page_table pt);;
    task_unlink task;;
    km (kfree task);;
    mret 0.

Definition task_switch (task : Z) : M kstate Z :=
  curr ← task_current;
  (if negb (curr =? 0) then
     st ← kld8 (curr + t_state);
     if st =? TASK_RUNNING then kst8 (curr + t_state) TASK_READY else mret tt
   else mret tt);;
  modify (set_curr_task task);;
  kst8 (task + t_state) TASK_RUNNING;;
  proc ← kld32 (task + t_proc);
  set_current_process proc;;
  paging_switch (task + t_page_table);;
  mret 0.

(** task.asm: the registers are loaded and [iretd] continues user code. *)
Definition task_return (regs : Z) : M kstate unit :=
  fun s => User (set_cpu (regs_at (k_ram s) regs) s).

Definition task_switch_and_run (task : Z) : M kstate Z :=
  st ← kld8 (task + t_state);
  (if negb (st =? TASK_READY) then kpanic "Can't switch to a non ready task" else mret tt);;
  task_switch task;;
  task_return (task + t_registers);;
  mret 0.

(** A task takes a heap block, so a list of tasks ends within this many
    steps. *)
Definition list_fuel : nat := Z.to_nat (HEAP_BLOCKS + 1).

Fixpoint run_any_loop (fuel : nat) (task : Z) : M kstate unit :=
  match fuel with
  | O => spin
  | S fuel =>
    if task =? 0 then kpanic ("Deadlock: No ready task found" +:+ String (Ascii.ascii_of_nat 10) EmptyString)
    else
      st ← kld8 (task + t_state);
      (if st =? TASK_READY then task_switch_and_run task else mret 0);;
      next ← kld32 (task + t_next);
      run_any_loop fuel next
  end.

Definition task_switch_and_run_any : M kstate unit :=
  km assert_single_cpu;;
  km assert_interrupt_handler_cli_always;;
  head ← gets (fun s => tasks_ll_head (k_sched s));
  run_any_loop list_fuel head.

Definition task_run_init_task : M kstate Z :=
  head ← gets (fun s => tasks_ll_head (k_sched s));
  (if head =? 0 then
     kpanic ("Can't start init task: no curr tasks exists" +:+ String (Ascii.ascii_of_nat 10) EmptyString)
   else mret tt);;
  proc ← kld32 (head + t_proc);
  pid ← kld16 (proc + p_pid);
  kst16 (proc + p_parent_pid) pid;;
  task_switch_and_run head.

(** [struct interrupt_frame] is pushed by pushad and the processor. *)
Definition i_edi : Z := 0.
Definition i_esi : Z := 4.
Definition i_ebp : Z := 8.
Definition i_ebx : Z := 16.
Definition i_edx : Z := 20.
Definition i_ecx : Z := 24.
Definition i_eax : Z := 28.
Definition i_eip : Z := 32.
Definition i_cs : Z := 36.
Definition i_eflags : Z := 40.
Definition i_esp : Z := 44.
Definition i_ss : Z := 48.

Definition save_reg (frame r i : Z) : M kstate unit :=
  curr ← task_current; v ← kld32 (frame + i); kst32 (curr + t_registers + r) v.

Definition task_save_current_state (frame : Z) : M kstate unit :=
  curr ← task_current;
  (if curr =? 0 then kpanic "Saved state called but no curr task" else mret tt);;
  save_reg frame r_eip i_eip;;
  save_reg frame r_cs i_cs;;
  save_reg frame r_eflags i_eflags;;
  save_reg frame r_esp i_esp;;
  save_reg frame r_ss i_ss;;
  save_reg frame r_eax i_eax;;
  save_reg frame r_ebp i_ebp;;
  save_reg frame r_ebx i_ebx;;
  save_reg frame r_ecx i_ecx;;
  save_reg frame r_edi i_edi;;
  save_reg frame r_edx i_edx;;
  save_reg frame r_esi i_esi.

Definition copy_data_from_user (dst src nbytes : Z) : M kstate Z :=
  if (src <? KHEAP_SAFE_BOUNDARY) || (u32 (src + nbytes) <? KHEAP_SAFE_BOUNDARY) then
    kpanic "Invalid user memory access"
  else
    vmemcpy dst src nbytes;;
    mret STATUS_OK.

Definition verify_user_pointer (ptr : Z) : Z :=
  if ptr <? KHEAP_SAFE_BOUNDARY then - STATUS_INVALID_USER_MEM_ACCESS else STATUS_OK.

Definition task_get_stack_item (task index : Z) : M kstate Z :=
  stack ← kld32 (task + t_registers + r_esp);
  res ← copy_data_from_user stack_item (u32 (stack + 4 * index)) 4;
  if negb (res =? STATUS_OK) then mret 0 else kld32 stack_item.

Fixpoint next_loop (fuel : nat) (start next : Z) : M kstate Z :=
  match fuel with
  | O => spin
  | S fuel =>
    if negb (next =? start) then
      st ← kld8 (next + t_state);
      if st =? TASK_READY then mret next
      else next ← task_get_next; next_loop fuel start next
    else mret next
  end.

Definition task_switch_to_next_and_run : M kstate Z :=
  start ← task_current;
  (if start =? 0 then kpanic "No curr task" else mret tt);;
  st ← kld8 (start + t_state);
  (if st =? TASK_RUNNING then kst8 (start + t_state) TASK_READY else mret tt);;
  next ← task_get_next;
  next ← next_loop list_fuel start next;
  task_switch_and_run next.
End task.
