(* ===== verification/TaskList.v ===== *)
(** * The list of tasks

    [task_list s l]: the tasks are exactly [l], each in a heap block of its
    own, linked in both directions from [tasks_ll_head] to [tasks_ll_tail].
    task_new appends to the list and task_free removes from it. *)
From Stdlib Require Import ZArith Lia String.
From stdpp Require Import base numbers gmap list strings.
From S2P Require Import Prelude Config Memory Machine Console Kheap Paging AddressSpace Blocks Disk Path File Kernel Elf Task.
Local Open Scope Z_scope.

(** ** Doubly linked segments *)

(** The tasks [l], the first with predecessor [p], the last with successor
    [q]. *)
Fixpoint links (m : ram) (p : Z) (l : list Z) (q : Z) : Prop :=
  match l with
  | [] => True
  | t :: l => rd32 m (t + t_prev) = p /\ rd32 m (t + t_next) = hd q l /\ links m t l q
  end.

Lemma hd_app {A} (d : A) l1 l2 : hd d (l1 ++ l2) = hd (hd d l2) l1.
Proof. by destruct l1. Qed.

Lemma last_cons {A} (d x : A) l : List.last (x :: l) d = List.last l x.
Proof. revert d x. induction l as [|y l IH]; intros; [done|]. change (List.last (y :: l) d = List.last (y :: l) x). by rewrite !IH. Qed.

Lemma links_app m l1 : forall p l2 q,
  links m p (l1 ++ l2) q <-> links m p l1 (hd q l2) /\ links m (List.last l1 p) l2 q.
Proof.
  induction l1 as [|t l1 IH]; intros p l2 q; [cbn; tauto|].
  rewrite last_cons. cbn [app links]. rewrite IH, hd_app. tauto.
Qed.

Lemma links_ext m m' l : forall p q,
  (forall t, t ∈ l -> rd32 m' (t + t_prev) = rd32 m (t + t_prev) /\ rd32 m' (t + t_next) = rd32 m (t + t_next)) ->
  links m p l q -> links m' p l q.
Proof.
  induction l as [|t l IH]; intros p q H; [done|]. cbn [links]. intros (H1 & H2 & H3).
  destruct (H t ltac:(left)) as [-> ->]. split_and!; [done | done |]. apply IH; [|done]. intros u Hu. apply H. by right.
Qed.

(** ** The invariant *)

Definition is_task (s : machine) (t : Z) : Prop := exists b, in_heap b /\ t = block_addr b /\ page_entry s b.

Record task_list (s : kstate) (l : list Z) : Prop := {
  tl_heap : heap_ok (k_mach s);
  tl_task : forall t, t ∈ l -> is_task (k_mach s) t;
  tl_nodup : NoDup l;
  tl_head : tasks_ll_head (k_sched s) = hd 0 l;
  tl_tail : tasks_ll_tail (k_sched s) = List.last l 0;
  tl_links : links (k_ram s) 0 l 0 }.

Lemma task_pos s t : is_task s t -> KHEAP_ADDR <= t /\ t + 4096 <= HEAP_END.
Proof. intros (b & Hb & -> & _). blk. lia. Qed.

Lemma task_apart s t u : is_task s t -> is_task s u -> t <> u -> t + 4096 <= u \/ u + 4096 <= t.
Proof. intros (b & Hb & -> & _) (c & Hc & -> & _) Hne. assert (b <> c) by congruence. blk. lia. Qed.

Lemma task_u32 s t off : is_task s t -> 0 <= off < 4096 -> u32 (t + off) = t + off.
Proof. intros (b & Hb & -> & _) Ho. apply u32_small. blk. lia. Qed.

(** The fields of a task. *)
Ltac tfields := unfold t_prev, t_next, t_state, t_proc, t_registers, t_page_table,
  r_edi, r_esi, r_ebp, r_ebx, r_edx, r_ecx, r_eax, r_eip, r_cs, r_eflags, r_esp, r_ss in *.

(** Only the words [next] and [prev] of tasks in [l] change. *)
Definition relinked (l : list Z) (m m' : ram) : Prop :=
  forall a, (forall t, t ∈ l -> a < t + t_next \/ t + t_prev + 4 <= a) -> rd8 m' a = rd8 m a.

Lemma relinked_entry s l m k :
  heap_ok s -> (forall t, t ∈ l -> is_task s t) -> relinked l (m_ram s) m -> in_heap k ->
  get_entry (set_ram m s) k = get_entry s k.
Proof.
  intros Hs Ht Hr Hk. rewrite !heap_entry by (done || blk; lia). apply Hr. intros t Hin.
  pose proof (task_pos s t (Ht t Hin)). tfields. blk. lia.
Qed.

Lemma relinked_task s l m t :
  heap_ok s -> (forall t, t ∈ l -> is_task s t) -> relinked l (m_ram s) m -> is_task s t -> is_task (set_ram m s) t.
Proof.
  intros Hs Ht Hr (b & Hb & -> & Hp). exists b. split_and!; try done. unfold page_entry.
  by rewrite (relinked_entry s l m).
Qed.

Lemma relinked_field s l m t off :
  (forall t, t ∈ l -> is_task s t) -> relinked l (m_ram s) m -> is_task s t -> 0 <= off < t_next ->
  rd8 m (t + off) = rd8 (m_ram s) (t + off).
Proof.
  intros Ht Hr Hit Ho. apply Hr. intros u Hu. destruct (decide (t = u)) as [->|]; [tfields; lia|].
  pose proof (task_apart s t u Hit (Ht u Hu)). tfields. lia.
Qed.

(** Setting a link word of a task. *)
Lemma relinked_wr l m m' t off v :
  relinked l m m' -> t ∈ l -> off = t_next \/ off = t_prev -> relinked l m (wr32 m' (t + off) v).
Proof.
  intros Hr Ht Ho a Ha. rewrite rd8_wr32; [by apply Hr|]. specialize (Ha t Ht). tfields. lia.
Qed.

Lemma rd32_link m t v u off off' :
  (t <> u -> t + 4096 <= u \/ u + 4096 <= t) -> 0 <= v < 4294967296 ->
  (off = t_next \/ off = t_prev) -> (off' = t_next \/ off' = t_prev) ->
  rd32 (wr32 m (t + off) v) (u + off') = if (t =? u) && (off =? off') then v else rd32 m (u + off').
Proof.
  intros Ha Hv Ho Ho'. destruct (Z.eqb_spec t u) as [->|Hne]; cbn [andb].
  - destruct (Z.eqb_spec off off') as [->|]; [rewrite rd32_wr32; by apply u32_small|].
    apply rd32_wr32_ne. tfields. lia.
  - apply rd32_wr32_ne. specialize (Ha Hne). tfields. lia.
Qed.

(** Links of tasks that are not written to stay. *)
Lemma links_out s m l u off v p q :
  (forall t, t ∈ l -> is_task s t) -> is_task s u -> u ∉ l -> 0 <= v < 4294967296 -> off = t_next \/ off = t_prev ->
  links m p l q -> links (wr32 m (u + off) v) p l q.
Proof.
  intros Ht Hu Hn Hv Ho. apply links_ext. intros t Hin. assert (u <> t) by (intros ->; done).
  rewrite !rd32_link by (auto; by intros; apply (task_apart s); auto).
  rewrite (proj2 (Z.eqb_neq u t)) by done. done.
Qed.

(** The last task of a segment gets a new successor, the first one a new
    predecessor. *)
Lemma links_next s m l u v p q :
  (forall t, t ∈ l -> is_task s t) -> is_task s u -> u ∉ l -> 0 <= v < 4294967296 ->
  links m p (l ++ [u]) q -> links (wr32 m (u + t_next) v) p (l ++ [u]) v.
Proof.
  intros Ht Hu Hn Hv. rewrite !links_app. intros [H1 (H2 & _)]. split.
  - apply (links_out s); auto.
  - cbn. rewrite !rd32_link by (auto; done). rewrite Z.eqb_refl. done.
Qed.

Lemma links_prev s m l u v p q :
  (forall t, t ∈ l -> is_task s t) -> is_task s u -> u ∉ l -> 0 <= v < 4294967296 ->
  links m p (u :: l) q -> links (wr32 m (u + t_prev) v) v (u :: l) q.
Proof.
  intros Ht Hu Hn Hv (H1 & H2 & H3). cbn [links]. rewrite !rd32_link by (auto; done). rewrite Z.eqb_refl.
  split_and!; [done | done |]. apply (links_out s); auto.
Qed.

Lemma hd_task s l : (forall t, t ∈ l -> is_task s t) -> hd 0 l = 0 <-> l = [].
Proof.
  destruct l as [|t l]; [done|]. intros H. split; [|done]. cbn. pose proof (task_pos s t (H t ltac:(left))). hp. lia.
Qed.

(** [l] of tasks, the last one [u]. *)
Lemma relinked_refl l m : relinked l m m.
Proof. by intros a _. Qed.

(** Joining the neighbours [p] and [n] of a task that is taken out. *)
Definition join (m : ram) (p n : Z) : ram :=
  let m := if p =? 0 then m else wr32 m (p + t_next) n in
  if n =? 0 then m else wr32 m (n + t_prev) p.

Lemma last_task s l : (forall t, t ∈ l -> is_task s t) -> List.last l 0 = 0 <-> l = [].
Proof.
  destruct l as [|t l _] using rev_ind; [done|]. intros H. rewrite List.last_last. split; [|by destruct l].
  pose proof (task_pos s t (H t ltac:(apply elem_of_app; right; by apply list_elem_of_singleton))). hp. lia.
Qed.

Lemma hd_range s l : (forall t, t ∈ l -> is_task s t) -> 0 <= hd 0 l < 4294967296.
Proof. destruct l as [|t l]; cbn; [lia|]. intros H. pose proof (task_pos s t (H t ltac:(left))). hp. lia. Qed.

Lemma last_range s l : (forall t, t ∈ l -> is_task s t) -> 0 <= List.last l 0 < 4294967296.
Proof.
  destruct l as [|t l _] using rev_ind; [cbn; lia|]. intros H. rewrite List.last_last.
  pose proof (task_pos s t (H t ltac:(apply elem_of_app; right; by apply list_elem_of_singleton))). hp. lia.
Qed.

Lemma join_links s m l1 l2 q r :
  (forall t, t ∈ l1 -> is_task s t) -> (forall t, t ∈ l2 -> is_task s t) -> NoDup (l1 ++ l2) ->
  links m 0 l1 q -> links m r l2 0 -> links (join m (List.last l1 0) (hd 0 l2)) 0 (l1 ++ l2) 0.
Proof.
  intros H1 H2 Hnd L1 L2. pose proof (hd_range s l2 H2) as Rn. pose proof (last_range s l1 H1) as Rp.
  apply NoDup_app in Hnd as (N1 & N12 & N2). apply links_app. unfold join.
  assert (Hn : hd 0 l2 = 0 <-> l2 = []) by (by apply (hd_task s)).
  assert (Hp : List.last l1 0 = 0 <-> l1 = []) by (by apply (last_task s)).
  assert (L1' : links (if List.last l1 0 =? 0 then m else wr32 m (List.last l1 0 + t_next) (hd 0 l2)) 0 l1 (hd 0 l2)).
  { destruct (Z.eqb_spec (List.last l1 0) 0) as [->%Hp|_]; [done|].
    destruct l1 as [|p l1 _] using rev_ind; [done|]. rewrite List.last_last. apply NoDup_app in N1 as (_ & N1 & _).
    apply (links_next s) with (q := q); auto; [| |].
    - intros t Ht. apply H1, elem_of_app. by left.
    - apply H1, elem_of_app. right. by apply list_elem_of_singleton.
    - intros Hin. apply (N1 p Hin). by apply list_elem_of_singleton. }
  assert (L2' : links (if List.last l1 0 =? 0 then m else wr32 m (List.last l1 0 + t_next) (hd 0 l2)) r l2 0).
  { destruct (Z.eqb_spec (List.last l1 0) 0) as [_|Hne]; [done|].
    destruct l1 as [|p l1 _] using rev_ind; [done|]. rewrite List.last_last.
    assert (p ∈ l1 ++ [p]) by (apply elem_of_app; right; by apply list_elem_of_singleton).
    apply (links_out s); auto. }
  generalize dependent (if List.last l1 0 =? 0 then m else wr32 m (List.last l1 0 + t_next) (hd 0 l2)). intros m1 L1' L2'.
  destruct l2 as [|n l2]; [done|]. cbn [hd] in *. assert (is_task s n) by (apply H2; left).
  destruct (Z.eqb_spec n 0) as [E|_]; [by apply Hn in E|]. apply NoDup_cons in N2 as [? ?]. split.
  - apply (links_out s); auto. intros Hin. apply (N12 n Hin). left.
  - apply (links_prev s) with (p := r); auto. intros t Ht. apply H2. by right.
Qed.

Lemma join_relinked s m l1 l2 :
  (forall t, t ∈ l1 ++ l2 -> is_task s t) -> relinked (l1 ++ l2) m (join m (List.last l1 0) (hd 0 l2)).
Proof.
  intros H. unfold join.
  assert (R1 : relinked (l1 ++ l2) m (if List.last l1 0 =? 0 then m else wr32 m (List.last l1 0 + t_next) (hd 0 l2))).
  { destruct (Z.eqb_spec (List.last l1 0) 0) as [|Hne]; [apply relinked_refl|]. apply relinked_wr; auto using relinked_refl.
    destruct l1 as [|p l1 _] using rev_ind; [done|]. rewrite List.last_last, !elem_of_app, list_elem_of_singleton. tauto. }
  destruct (Z.eqb_spec (hd 0 l2) 0) as [|Hne]; [done|]. apply relinked_wr; auto. destruct l2; [done|].
  apply elem_of_app. right. left.
Qed.

(** A state with new links, head and tail. *)
Lemma relink_list s l0 l sc m :
  heap_ok (k_mach s) -> (forall t, t ∈ l0 -> is_task (k_mach s) t) -> relinked l0 (k_ram s) m ->
  (forall t, t ∈ l -> is_task (k_mach s) t) -> NoDup l -> tasks_ll_head sc = hd 0 l ->
  tasks_ll_tail sc = List.last l 0 -> links m 0 l 0 -> task_list (set_sched sc (set_k_ram m s)) l.
Proof. intros Hs Ht Hr Hl Hn Hh Htl Hlk. split; try done. intros t Hin. apply (relinked_task _ l0); auto. Qed.

Section lists.
Context {plat : Platform} {fsys : FileSystems} {lay : Layout}.

Lemma task_link_spec s l t :
  task_list s l -> is_task (k_mach s) t -> t ∉ l ->
  wp (task_link t) s (fun _ s' => task_list s' (l ++ [t]) /\
    exists m sc, s' = set_sched sc (set_k_ram m s) /\ relinked (l ++ [t]) (k_ram s) m /\
      curr_task sc = curr_task (k_sched s) /\ current_proc sc = current_proc (k_sched s)).
Proof.
  intros [Hs Ht Hnd Hh Htl Hl] Hit Hnew. unfold task_link. wpk. rewrite Hh.
  pose proof (task_pos _ t Hit) as Hp. assert (0 <= t < 4294967296) by (hp; lia).
  assert (Hall : forall v, v ∈ l ++ [t] -> is_task (k_mach s) v) by (intros v [?| ->%list_elem_of_singleton]%elem_of_app; auto).
  assert (Hnd' : NoDup (l ++ [t])).
  { apply NoDup_app; split_and!; [done | | apply NoDup_singleton]. intros v Hv ->%list_elem_of_singleton. done. }
  assert (Hin : t ∈ l ++ [t]) by (apply elem_of_app; right; by apply list_elem_of_singleton).
  destruct l as [|u l _] using rev_ind.
  - cbn [hd]. rewrite Z.eqb_refl. wpk. knorm. rewrite !(task_u32 _ t _ Hit) by (tfields; lia).
    set (m := wr32 _ (t + t_next) 0).
    assert (Hr : relinked ([] ++ [t]) (k_ram s) m) by (repeat apply relinked_wr; auto using relinked_refl).
    split; [|by eexists m, _]. apply (relink_list s ([] ++ [t])); try done.
    cbn. unfold m. rewrite !rd32_link by (auto || lia || (intros; done)). by rewrite !Z.eqb_refl.
  - assert (Hiu : is_task (k_mach s) u) by (apply Ht; apply elem_of_app; right; by apply list_elem_of_singleton).
    pose proof (task_pos _ u Hiu). assert (Hu : u ∈ (l ++ [u]) ++ [t]) by (rewrite !elem_of_app, !list_elem_of_singleton; tauto).
    rewrite (proj2 (Z.eqb_neq _ 0)) by (rewrite (hd_task (k_mach s) _ Ht); by destruct l).
    wpk. knorm. rewrite Htl, List.last_last. rewrite !(task_u32 _ u _ Hiu), !(task_u32 _ t _ Hit) by (tfields; lia).
    set (m := wr32 _ (t + t_next) 0).
    assert (Hr : relinked ((l ++ [u]) ++ [t]) (k_ram s) m) by (repeat apply relinked_wr; auto using relinked_refl).
    split; [|by eexists m, _]. apply (relink_list s ((l ++ [u]) ++ [t])); try done.
    + cbn. rewrite Hh, !hd_app. by destruct l.
    + cbn. by rewrite List.last_last.
    + apply NoDup_app in Hnd as (_ & Hnd & _). rewrite links_app, List.last_last. unfold m. split.
      * do 2 (apply (links_out (k_mach s)); auto; [hp; lia|]). apply (links_next (k_mach s)) with (q := 0); auto.
        -- intros v Hv. apply Ht, elem_of_app. by left.
        -- intros Hul. apply (Hnd u Hul). by apply list_elem_of_singleton.
      * cbn. rewrite !rd32_link by (auto || (hp; lia) || (by intros; apply (task_apart (k_mach s)))).
        by rewrite !Z.eqb_refl.
Qed.

(** The two writes of task_unlink. *)
Lemma unlink_next s0 s t p n :
  is_task s0 t -> rd32 (k_ram s) (t + t_next) = n -> p = 0 \/ is_task s0 p ->
  wp (if negb (p =? 0) then next ← kld32 (t + t_next); kst32 (p + t_next) next else mret tt) s
    (fun _ s' => s' = set_k_ram (if p =? 0 then k_ram s else wr32 (k_ram s) (p + t_next) n) s).
Proof.
  intros Ht Hn Hp. destruct (Z.eqb_spec p 0) as [->|]; cbn [negb]; wpk; [by rewrite set_k_ram_id|].
  destruct Hp as [|Hp]; [done|]. rewrite (task_u32 _ t _ Ht), Hn, (task_u32 _ p _ Hp) by (tfields; lia). done.
Qed.

Lemma unlink_prev s0 s t p n :
  is_task s0 t -> rd32 (k_ram s) (t + t_prev) = p -> n = 0 \/ is_task s0 n ->
  wp (if negb (n =? 0) then prev ← kld32 (t + t_prev); kst32 (n + t_prev) prev else mret tt) s
    (fun _ s' => s' = set_k_ram (if n =? 0 then k_ram s else wr32 (k_ram s) (n + t_prev) p) s).
Proof.
  intros Ht Hn Hp. destruct (Z.eqb_spec n 0) as [->|]; cbn [negb]; wpk; [by rewrite set_k_ram_id|].
  destruct Hp as [|Hp]; [done|]. rewrite (task_u32 _ t _ Ht), Hn, (task_u32 _ n _ Hp) by (tfields; lia). done.
Qed.

Lemma last_neighbour l : List.last l 0 = 0 \/ List.last l 0 ∈ l.
Proof.
  destruct l as [|t l _] using rev_ind; [by left|]. right. rewrite List.last_last. apply elem_of_app. right.
  by apply list_elem_of_singleton.
Qed.

Lemma last_app {A} (d : A) l1 l2 : List.last (l1 ++ l2) d = List.last l2 (List.last l1 d).
Proof. revert d. induction l1 as [|x l1 IH]; intros d; [done|]. cbn [app]. by rewrite !last_cons, IH. Qed.

(** Head and tail of the list after a task was taken out. *)
Lemma hd_removed (t : Z) l1 l2 :
  t ∉ l1 -> (t =? hd t l1) = true /\ hd 0 (l1 ++ l2) = hd 0 l2 \/ (t =? hd t l1) = false /\ hd 0 (l1 ++ l2) = hd t l1.
Proof.
  intros Hn. destruct l1 as [|u l1]; [left; cbn; by rewrite Z.eqb_refl | right]. split; [|done].
  apply Z.eqb_neq. cbn. intros ->. apply Hn. left.
Qed.

Lemma last_removed (t : Z) l1 l2 :
  t ∉ l2 -> (t =? List.last l2 t) = true /\ List.last (l1 ++ l2) 0 = List.last l1 0 \/
            (t =? List.last l2 t) = false /\ List.last (l1 ++ l2) 0 = List.last l2 t.
Proof.
  intros Hn. rewrite last_app. destruct l2 as [|u l2 _] using rev_ind; [left; cbn; by rewrite Z.eqb_refl | right].
  rewrite !List.last_last. split; [|done]. apply Z.eqb_neq. intros ->. apply Hn, elem_of_app. right.
  by apply list_elem_of_singleton.
Qed.

(** A neighbour of a task that is taken out: none, or another task. *)
Lemma neighbour s t (l : list Z) u :
  (forall v, v ∈ l -> is_task s v) -> t ∉ l -> u = 0 \/ u ∈ l -> u = 0 \/ is_task s u /\ u <> t.
Proof. intros Ht Hn [->|Hu]; [by left | right]. split; [auto|]. by intros ->. Qed.

Lemma hd_neighbour (l : list Z) : hd 0 l = 0 \/ hd 0 l ∈ l.
Proof. destruct l; [by left | right; left]. Qed.

Lemma task_unlink_spec s l1 t l2 :
  task_list s (l1 ++ t :: l2) ->
  wp (task_unlink t) s (fun _ s' => task_list s' (l1 ++ l2) /\
    exists m sc, s' = set_sched sc (set_k_ram m s) /\ relinked (l1 ++ l2) (k_ram s) m /\
      curr_task sc = (if t =? curr_task (k_sched s) then 0 else curr_task (k_sched s)) /\
      current_proc sc = current_proc (k_sched s)).
Proof.
  intros [Hs Ht Hnd Hh Htl Hl]. apply links_app in Hl as (L1 & Lp & Ln & L2).
  assert (Hit : is_task (k_mach s) t) by (apply Ht, elem_of_app; right; left).
  assert (H12 : forall u, u ∈ l1 ++ l2 -> is_task (k_mach s) u).
  { intros u Hu. apply Ht. rewrite elem_of_app in *. rewrite elem_of_cons. tauto. }
  assert (Hnt : (t ∉ l1 ++ l2) /\ NoDup (l1 ++ l2)).
  { rewrite <- Permutation_middle in Hnd. by apply NoDup_cons in Hnd. }
  destruct Hnt as [Hnt Hnd'].
  pose proof (join_relinked (k_mach s) (k_ram s) l1 l2 H12) as HR.
  assert (HL : links (join (k_ram s) (List.last l1 0) (hd 0 l2)) 0 (l1 ++ l2) 0).
  { apply (join_links (k_mach s)) with (q := t) (r := t); auto; intros u Hu; apply H12, elem_of_app; auto. }
  assert (Hp : List.last l1 0 = 0 \/ is_task (k_mach s) (List.last l1 0) /\ List.last l1 0 <> t).
  { apply (neighbour _ t (l1 ++ l2)); auto. rewrite elem_of_app. pose proof (last_neighbour l1). tauto. }
  assert (Hn : hd 0 l2 = 0 \/ is_task (k_mach s) (hd 0 l2) /\ hd 0 l2 <> t).
  { apply (neighbour _ t (l1 ++ l2)); auto. rewrite elem_of_app. pose proof (hd_neighbour l2). tauto. }
  assert (Eh : tasks_ll_head (k_sched s) = hd t l1) by (by rewrite Hh, hd_app).
  assert (Et : tasks_ll_tail (k_sched s) = List.last l2 t) by (by rewrite Htl, last_app, last_cons).
  assert (Rn : 0 <= hd 0 l2 < 4294967296) by (apply (hd_range (k_mach s)); intros u Hu; apply H12, elem_of_app; auto).
  assert (Rp : 0 <= List.last l1 0 < 4294967296) by (apply (last_range (k_mach s)); intros u Hu; apply H12, elem_of_app; auto).
  assert (F : forall u v off off' m, is_task (k_mach s) u -> u <> t -> 0 <= v < 4294967296 ->
    off = t_next \/ off = t_prev -> off' = t_next \/ off' = t_prev -> rd32 (wr32 m (u + off) v) (t + off') = rd32 m (t + off')).
  { intros u v off off' m Hu Hne Hv Ho Ho'. rewrite rd32_link by (auto; by intros; apply (task_apart (k_mach s))).
    by rewrite (proj2 (Z.eqb_neq u t)). }
  unfold join in *. set (p := List.last l1 0) in *. set (n := hd 0 l2) in *.
  unfold task_unlink. wpk. rewrite (task_u32 _ t _ Hit), Lp by (tfields; lia).
  wp_apply (unlink_next (k_mach s) s t p n Hit Ln); [tauto|]. intros _ ? ->. wpk. knorm.
  set (m1 := if p =? 0 then _ else _) in *.
  assert (Fp : rd32 m1 (t + t_prev) = p /\ rd32 m1 (t + t_next) = n).
  { unfold m1. destruct (Z.eqb_spec p 0), Hp as [|[? ?]]; try done. by rewrite !F by auto. }
  destruct Fp as [Fp Fn]. rewrite (task_u32 _ t _ Hit), Fn by (tfields; lia).
  wp_apply (unlink_prev (k_mach s) (set_k_ram m1 s) t p n Hit Fp); [tauto|]. intros _ ? ->. wpk. knorm.
  set (m2 := if n =? 0 then _ else _) in *.
  assert (F2 : rd32 m2 (t + t_prev) = p /\ rd32 m2 (t + t_next) = n).
  { unfold m2. destruct (Z.eqb_spec n 0), Hn as [|[? ?]]; try done. by rewrite !F by auto. }
  destruct F2 as [F2p F2n]. clearbody m2. rewrite Eh. clear L1 L2.
  pose proof (hd_removed t l1 l2 ltac:(set_solver)) as Hhd. pose proof (last_removed t l1 l2 ltac:(set_solver)) as Htl'.
  fold n in Hhd. fold p in Htl'.
  assert (Hfin : forall sc, tasks_ll_head sc = hd 0 (l1 ++ l2) -> tasks_ll_tail sc = List.last (l1 ++ l2) 0 ->
    task_list (set_sched sc (set_k_ram m2 s)) (l1 ++ l2)) by (intros; by apply (relink_list s (l1 ++ l2))).
  assert (E0 : set_k_ram m2 s = set_sched (k_sched s) (set_k_ram m2 s)) by (by destruct s).
  destruct Hhd as [[-> Eh']|[-> Eh']]; wpk; knorm; rewrite Et; destruct Htl' as [[-> Et']|[-> Et']]; wpk; knorm;
    rewrite ?(task_u32 _ t _ Hit), ?F2n, ?F2p by (tfields; lia); unfold task_current; wpk; knorm;
    destruct (t =? curr_task (k_sched s)); wpk; knorm;
    lazymatch goal with |- task_list (set_k_ram _ _) _ /\ _ => rewrite E0 | _ => idtac end;
    (split; [apply Hfin; cbn; congruence | by exists m2; eexists]).
Qed.
End lists.
