(* ===== verification/TaskLife.v ===== *)
(** * The life of a task: task_new and task_free

    Both keep the list of tasks well-formed; a new task has an address space of
    its own and the registers of a fresh start, and a released one gives its
    blocks back. *)
From Stdlib Require Import ZArith Lia String.
From stdpp Require Import base numbers gmap list strings.
From S2P Require Import Prelude Config Memory Machine Console Kheap Paging AddressSpace Blocks Disk Path File Kernel Elf Task TaskList.
Local Open Scope Z_scope.

(** ** Memory that allocation leaves alone *)

(** Addresses of [P], and those of blocks in use. *)
Definition safe (P : Z -> Prop) (s : machine) (a : Z) : Prop := P a \/ exists b, in_heap b /\ used s b /\ in_block b a.
Definition safe_word (s : machine) (a : Z) : Prop := forall i, a <= i < a + 4 -> safe off_heap s i.

Lemma kept_safe P s s' a : kept P s s' -> safe P s a -> rd8 (m_ram s') a = rd8 (m_ram s) a.
Proof. intros K [Hq|(b & Hb & Hu & Ha)]; [by apply (kept_out _ _ _ K) | by apply (kept_block _ _ _ K b)]. Qed.

Lemma kept_word s s' a : kept off_heap s s' -> safe_word s a -> rd32 (m_ram s') a = rd32 (m_ram s) a.
Proof. intros K Ha. apply rd32_ext. intros i Hi. by apply (kept_safe off_heap), Ha. Qed.

(** Writes into a block that was free, and the taking of that block. *)
Lemma kept_write (P : Z -> Prop) s x m b :
  (forall a, P a -> off_heap a) -> kept P s x -> heap_ok x -> in_heap b -> entry_is_free s b = true ->
  (forall a, ~ in_block b a -> rd8 m a = rd8 (m_ram x) a) -> kept P s (set_ram m x).
Proof.
  intros HP K Hx Hb Hf Hm.
  assert (Ho : forall c a, in_heap c -> used s c -> in_block c a -> ~ in_block b a).
  { intros c a Hc Hu Ha Ha'. assert (c = b) by (unfold in_block in *; blk; lia). subst. unfold used in Hu. congruence. }
  split; cbn [set_ram m_ram].
  - intros c a Hc Hu Ha. rewrite Hm by eauto. by apply (kept_block _ _ _ K c).
  - intros a Ha. rewrite Hm; [by apply (kept_out _ _ _ K) | by apply off_heap_block; [apply HP|]].
  - intros c Hc Hu. rewrite <- (kept_entry _ _ _ K) by done. rewrite !heap_entry by (done || blk; lia). apply Hm.
    unfold in_block. blk. lia.
Qed.

Lemma page_taken_kept s i n m :
  heap_ok s -> in_heap i -> entry_is_free s i = true -> n <= 4096 -> page_taken s i n m -> kept off_heap s (set_ram m s).
Proof.
  intros Hs Hi Hf Hn Hm.
  assert (Ha : forall a, ~ in_block i a -> a <> KHEAP_TABLE_ADDR + i -> rd8 m a = rd8 (m_ram s) a).
  { intros a H1 H2. rewrite Hm. unfold in_block in H1. by repeat case_test; try lia. }
  assert (Hne : forall c, used s c -> c <> i) by (intros c Hu ->; unfold used in Hu; congruence).
  split; cbn [set_ram m_ram].
  - intros c a Hc Hu%Hne Hac. apply Ha; unfold in_block in *; blk; lia.
  - intros a Hq. apply Ha; [by apply off_heap_block|]. unfold off_heap in Hq. blk. lia.
  - intros c Hc Hu%Hne. rewrite !heap_entry by (done || blk; lia). apply Ha; unfold in_block; blk; lia.
Qed.

(** ** task_init *)

(** Where the program of a process starts. *)
Definition entry_point (m : ram) (proc : Z) : Z :=
  if rd32 m (u32 (proc + p_file_type)) =? PROC_FILE_TYPE_ELF
  then word m (elf_header m (word m proc p_image)) e_entry else DEFAULT_USER_PROG_ENTRY.

(** The fields that [entry_point] depends on are safe. *)
Definition entry_safe (s : machine) (proc : Z) : Prop :=
  let m := m_ram s in
  safe_word s (u32 (proc + p_file_type)) /\
  (rd32 m (u32 (proc + p_file_type)) = PROC_FILE_TYPE_ELF ->
   safe_word s (u32 (proc + p_image)) /\ safe_word s (u32 (word m proc p_image + f_elf_memory)) /\
   safe_word s (u32 (elf_header m (word m proc p_image) + e_entry))).

Lemma entry_point_kept s s' proc :
  kept off_heap s s' -> entry_safe s proc -> entry_point (m_ram s') proc = entry_point (m_ram s) proc.
Proof.
  intros K [H1 H2]. unfold entry_point. rewrite (kept_word s s') by done.
  destruct (Z.eqb_spec (rd32 (m_ram s) (u32 (proc + p_file_type))) PROC_FILE_TYPE_ELF) as [E|]; [|done].
  destruct (H2 E) as (H3 & H4 & H5). unfold elf_header, word in *. by rewrite (kept_word s s' (u32 (proc + p_image)) K H3),
    (kept_word s s' _ K H4), (kept_word s s' _ K H5).
Qed.

(** The last writes of task_init. *)
Definition finish_ram (m : ram) (t proc : Z) : ram :=
  wr8 (wr32 (wr32 (wr32 (wr32 (wr32 m (t + t_registers + r_ss) DEFAULT_USER_DATA_SEGMENT)
    (t + t_registers + r_esp) DEFAULT_USER_STACK_START) (t + t_registers + r_cs) DEFAULT_USER_CODE_SEGMENT)
    (t + t_registers + r_eflags) 514) (t + t_proc) proc) (t + t_state) TASK_READY.

(** The registers a task starts with. *)
Definition start_regs (eip : Z) : registers :=
  mk_regs 0 0 0 0 0 0 0 eip DEFAULT_USER_CODE_SEGMENT 514 DEFAULT_USER_STACK_START DEFAULT_USER_DATA_SEGMENT.

(** Words of a RAM built by writes at known distances. *)
Ltac rdw := repeat first
  [ rewrite rd32_wr32 | rewrite rd32_wr32_ne by lia | rewrite rd32_wr8_ne by lia
  | rewrite rd8_wr8_eq | rewrite rd8_wr8_ne by lia | rewrite rd8_wr32 by lia ].

Lemma finish_out m t proc a : a < t + 8 \/ t + 64 <= a -> rd8 (finish_ram m t proc) a = rd8 m a.
Proof. intros Ha. unfold finish_ram. tfields. by rdw. Qed.

Lemma finish_fields m t proc eip :
  is_u32 proc -> (forall a, t + 12 <= a < t + 40 -> rd8 m a = 0) -> rd32 m (t + t_registers + r_eip) = eip ->
  let m' := finish_ram m t proc in
  rd8 m' (t + t_state) = TASK_READY /\ rd32 m' (t + t_proc) = proc /\ regs_at m' (t + t_registers) = start_regs eip /\
  rd32 m' t = rd32 m t /\ rd32 m' (t + 4) = rd32 m (t + 4).
Proof.
  intros Hp Hz He m'. assert (Hz32 : forall a, t + 12 <= a < t + 37 -> rd32 m a = 0).
  { intros a Ha. unfold rd32, rd16. by rewrite !Hz by lia. }
  unfold m', finish_ram, regs_at, start_regs. split_and!.
  - by rewrite rd8_wr8_eq.
  - tfields. rdw. by apply u32_small.
  - f_equal; tfields; rdw; try done; apply Hz32; lia.
  - tfields. by rdw.
  - tfields. by rdw.
Qed.

(** A task in [x] that is ready to start: its fields, and an address space
    that is the identity for the kernel only.  The blocks of its tables were
    free in [s0]. *)
Record task_at (s0 x : machine) (t proc eip : Z) : Prop := {
  ta_state : rd8 (m_ram x) (t + t_state) = TASK_READY;
  ta_proc : rd32 (m_ram x) (t + t_proc) = proc;
  ta_regs : regs_at (m_ram x) (t + t_registers) = start_regs eip;
  ta_levels : rd32 (m_ram x) (t + 4) = 2;
  ta_wf : pt_wf x (rd32 (m_ram x) t);
  ta_walk : forall va, 0 <= va < 4294967296 -> mmu_walk x (rd32 (m_ram x) t) va = Some (va, PAGE_WRITE_ALLOW);
  ta_own : forall k, owned x (rd32 (m_ram x) t) k -> page_entry x k /\ entry_is_free s0 k = true /\ block_addr k <> t }.

Section keep_space.
Context (x : machine) (m : ram) (dir : Z) (Hwf : pt_wf x dir).
Context (Hent : forall k, in_heap k -> get_entry (set_ram m x) k = get_entry x k).
Context (Hown : forall k a, owned x dir k -> in_block k a -> rd8 m a = rd8 (m_ram x) a).

Lemma space_used b : in_heap b -> used x b -> used (set_ram m x) b.
Proof. intros Hb. unfold used, entry_is_free. by rewrite Hent. Qed.

Lemma space_wf : pt_wf (set_ram m x) dir.
Proof. apply (keep_wf x); try done; [apply (wf_heap _ _ Hwf) | apply space_used]. Qed.

Lemma space_owned k : owned (set_ram m x) dir k <-> owned x dir k.
Proof. by apply (keep_owned x). Qed.

Lemma space_walk va : 0 <= va < 4294967296 -> mmu_walk (set_ram m x) dir va = mmu_walk x dir va.
Proof.
  intros Hva. apply mmu_walk_ext; [done | apply (keep_pte x); try done; zlia | apply (keep_pde x); try done; zlia].
Qed.
End keep_space.

Lemma task_at_ext s0 x m t proc eip :
  task_at s0 x t proc eip -> (forall k, in_heap k -> get_entry (set_ram m x) k = get_entry x k) ->
  (forall a, t <= a < t + 64 -> rd8 m a = rd8 (m_ram x) a) ->
  (forall k a, owned x (rd32 (m_ram x) t) k -> in_block k a -> rd8 m a = rd8 (m_ram x) a) ->
  task_at s0 (set_ram m x) t proc eip.
Proof.
  intros [T1 T2 T3 T4 T5 T6 T7] He Ht Ho.
  assert (Hw : forall off, 0 <= off <= 60 -> rd32 m (t + off) = rd32 (m_ram x) (t + off)).
  { intros off Hoff. apply rd32_ext. intros a Ha. apply Ht. lia. }
  assert (Hd : rd32 m t = rd32 (m_ram x) t) by (rewrite <- (Z.add_0_r t); apply Hw; lia).
  split; cbn [set_ram m_ram]; rewrite ?Hd.
  - rewrite <- T1. apply Ht. tfields. lia.
  - rewrite <- T2. apply Hw. tfields. lia.
  - rewrite <- T3. unfold regs_at. tfields. rewrite <- !Z.add_assoc. f_equal; apply Hw; lia.
  - rewrite <- T4. apply Hw. lia.
  - by apply space_wf.
  - intros va Hva. rewrite space_walk by done. by apply T6.
  - intros k Hk. rewrite space_owned in Hk by done. destruct (owned_used _ _ _ T5 Hk), (T7 k Hk) as (? & ? & ?).
    split_and!; try done. unfold page_entry. by rewrite He.
Qed.

(** Writes inside the first 64 bytes of the block of a new task, after its
    page table was built. *)
Lemma task_init_writes s0 x0 x m b d proc eip :
  kept off_heap s0 x0 -> creating x0 x (block_addr d) d 1024 3 -> heap_writes x0 x -> in_heap b -> entry_is_free s0 b = true -> page_entry x0 b ->
  (forall a, a < block_addr b \/ block_addr b + 64 <= a -> rd8 m a = rd8 (m_ram x) a) ->
  rd8 m (block_addr b + t_state) = TASK_READY -> rd32 m (block_addr b + t_proc) = proc ->
  regs_at m (block_addr b + t_registers) = start_regs eip -> rd32 m (block_addr b) = block_addr d ->
  rd32 m (block_addr b + 4) = 2 ->
  kept off_heap s0 (set_ram m x) /\ page_entry (set_ram m x) b /\ task_at s0 (set_ram m x) (block_addr b) proc eip.
Proof.
  intros K C HW Hb Hf Hpe Hm Hst Hpr Hrg Hd Hl. pose proof (cr_wf _ _ _ _ _ _ C) as Hwf. pose proof (wf_heap _ _ Hwf) as Hx.
  assert (Hub : used x0 b) by (by apply page_entry_used).
  assert (Hnb : ~ owned x (block_addr d) b) by (by apply (creating_used x0 x _ d 1024 3)).
  assert (Hm' : forall a, ~ in_block b a -> rd8 m a = rd8 (m_ram x) a) by (intros a Ha; apply Hm; unfold in_block in Ha; lia).
  assert (He : forall k, in_heap k -> get_entry (set_ram m x) k = get_entry x k).
  { intros k Hk. rewrite !heap_entry by (done || blk; lia). apply Hm'. unfold in_block. blk. lia. }
  assert (Ho : forall k a, owned x (block_addr d) k -> in_block k a -> rd8 m a = rd8 (m_ram x) a).
  { intros k a Hk Ha. apply Hm'. intros Ha'. assert (b = k) as ->; [|done].
    destruct (owned_used _ _ _ Hwf Hk). unfold in_block in *. blk. lia. }
  split_and!.
  - apply (kept_write off_heap s0 x m b); try done. by apply (kept_trans _ s0 x0), (creating_kept _ x0 x (block_addr d) d 1024 3).
  - unfold page_entry. rewrite He by done. rewrite (cr_rest _ _ _ _ _ _ C); done.
  - split; cbn [set_ram m_ram]; rewrite ?Hd; try done.
    + by apply space_wf.
    + intros va Hva. rewrite space_walk by done. by rewrite (created_identity x0 x _ d 3) by (done || lia).
    + intros k Hk. rewrite space_owned in Hk by done. destruct (cr_page _ _ _ _ _ _ C k Hk) as [Hp Hfk].
      destruct (owned_used _ _ _ Hwf Hk) as [Hkh _]. split_and!.
      * unfold page_entry. by rewrite He.
      * destruct (entry_is_free s0 k) eqn:E; [done|]. unfold entry_is_free in Hfk. rewrite (kept_entry _ _ _ K) in Hfk by done.
        unfold entry_is_free in E. congruence.
      * intros E%block_addr_inj. congruence.
Qed.

Section life.
Context {plat : Platform} {fsys : FileSystems} {lay : Layout}.

Lemma task_init_fields_spec s0 s b proc :
  let t := block_addr b in let m := k_ram s in
  kept off_heap s0 (k_mach s) -> heap_ok (k_mach s) -> in_heap b -> entry_is_free s0 b = true -> entry_safe s0 proc ->
  is_u32 proc -> (forall a, t + 12 <= a < t + 40 -> rd8 m a = 0) ->
  wp (task_init_fields t proc) s (fun _ s' => exists m', s' = set_k_ram m' s /\
    (forall a, a < t + 8 \/ t + 64 <= a -> rd8 m' a = rd8 m a) /\ rd8 m' (t + t_state) = TASK_READY /\
    rd32 m' (t + t_proc) = proc /\ regs_at m' (t + t_registers) = start_regs (entry_point (m_ram s0) proc) /\
    rd32 m' t = rd32 m t /\ rd32 m' (t + 4) = rd32 m (t + 4)).
Proof.
  intros t m K Hs Hb Hf Hsafe Hproc Hz.
  assert (U : forall o, 0 <= o < 4096 -> u32 (t + o) = t + o) by (intros; apply u32_small; unfold t; blk; lia).
  assert (U2 : forall o1 o2, 0 <= o1 + o2 < 4096 -> u32 (t + o1 + o2) = t + o1 + o2) by (intros; rewrite <- Z.add_assoc; auto).
  unfold task_init_fields. wpk. rewrite U2 by (tfields; lia). set (m2 := wr32 _ _ _).
  assert (Hm2 : forall a, a < t + 40 \/ t + 44 <= a -> rd8 m2 a = rd8 m a) by (intros a Ha; unfold m2; tfields; by rdw).
  assert (K2 : kept off_heap s0 (set_ram m2 (k_mach s))).
  { apply (kept_write off_heap s0 _ m2 b); try done. intros a Ha. apply Hm2. unfold in_block in Ha. fold t in Ha. lia. }
  rewrite <- (entry_point_kept s0 _ proc K2 Hsafe). knorm.
  apply (wp_mono _ _ (fun _ s' => exists m3, s' = set_k_ram m3 s /\ (forall a, a < t + 40 \/ t + 44 <= a -> rd8 m3 a = rd8 m a) /\
    rd32 m3 (t + t_registers + r_eip) = entry_point m2 proc)).
  { unfold entry_point. destruct (rd32 m2 _ =? PROC_FILE_TYPE_ELF); wpk; knorm.
    - rewrite U2 by (tfields; lia). eexists. split_and!; [done | |].
      + intros a Ha. rewrite rd8_wr32 by (tfields; lia). by apply Hm2.
      + rewrite rd32_wr32. apply u32_small, rd32_range.
    - exists m2. split_and!; [done | done |]. unfold m2. by rewrite rd32_wr32. }
  intros _ s' (m3 & -> & Hm3 & He). wpk. knorm. rewrite !U2, !U by (tfields; lia). fold (finish_ram m3 t proc).
  destruct (finish_fields m3 t proc (entry_point m2 proc)) as (F1 & F2 & F3 & F4 & F5); [done | | done|].
  { intros a Ha. rewrite Hm3 by lia. by apply Hz. }
  exists (finish_ram m3 t proc). split_and!; try done.
  - intros a Ha. rewrite finish_out by done. destruct (decide (t + 40 <= a < t + 44)); [lia|]. apply Hm3. lia.
  - rewrite F4. apply rd32_ext. intros a Ha. apply Hm3. lia.
  - rewrite F5. apply rd32_ext. intros a Ha. apply Hm3. lia.
Qed.

Lemma task_init_spec s0 s b proc :
  kept off_heap s0 (k_mach s) -> heap_ok (k_mach s) -> m_con (k_mach s) = m_con s0 -> in_heap b -> entry_is_free s0 b = true ->
  page_entry (k_mach s) b -> entry_safe s0 proc -> is_u32 proc ->
  wp (task_init (block_addr b) proc) s (fun r s' => exists x, s' = set_k_mach x s /\ heap_ok x /\ page_entry x b /\
    ((r = STATUS_OK /\ kept off_heap s0 x /\ pages_spent (k_mach s) x 1025 /\
      task_at s0 x (block_addr b) proc (entry_point (m_ram s0) proc)) \/
     (r = - STATUS_NOT_ENOUGH_MEM /\ kept (calm (m_con s0)) s0 x /\ kheap_num_free_blocks (k_mach s) < 1025 /\
      forall k, in_heap k -> entry_is_free x k = entry_is_free (k_mach s) k))).
Proof.
  intros K Hs Hcon Hb Hf Hpe Hsafe Hproc. unfold task_init. wp_step. apply wp_km, wp_modify.
  set (m0 := memset (block_addr b) 0 SIZEOF_TASK (k_ram s)). change (on_ram _ _) with (set_ram m0 (k_mach s)).
  assert (Hm0 : forall a, ~ in_block b a -> rd8 m0 a = rd8 (k_ram s) a).
  { intros a Ha. apply rd8_memset_out; unfold in_block, SIZEOF_TASK in *; blk; lia. }
  assert (K0 : kept off_heap s0 (set_ram m0 (k_mach s))) by (by apply (kept_write off_heap s0 _ m0 b)).
  assert (He0 : forall k, in_heap k -> get_entry (set_ram m0 (k_mach s)) k = get_entry (k_mach s) k).
  { intros k Hk. rewrite !heap_entry by (done || blk; lia). apply Hm0. unfold in_block. blk. lia. }
  assert (S0 : pages_spent (k_mach s) (set_ram m0 (k_mach s)) 0).
  { apply spent_same; try done. intros a Ha. apply Hm0. by apply off_heap_block. }
  set (x0 := set_ram m0 (k_mach s)) in *. assert (Hx0 : heap_ok x0) by done.
  assert (Hpe0 : page_entry x0 b) by (unfold page_entry; by rewrite He0).
  unfold create_4gb_at. wp_steps. change (Z.lor PAGE_PRESENT PAGE_WRITE_ALLOW) with 3. apply wp_km.
  wp_apply (create_4gb_spec 3 (mk_pt 0 0) x0 Hx0); [lia | done |].
  intros [r pt] x [(-> & d & -> & C & S1)|(-> & -> & Hlow & [Hx Hk] & K1)].
  2: { cbn [Z.eqb STATUS_OK]. wpk. exists x. split_and!; [done | done | |].
       - unfold page_entry. rewrite (kept_entry _ _ _ K1); [done | done | by apply page_entry_used].
       - right. rewrite <- Hcon. split_and!; [done | | by rewrite (ps_free _ _ _ S0), Z.sub_0_r in Hlow |].
         + apply (kept_trans _ s0 x0); [by apply (kept_weaken off_heap); [apply calm_off|] | done].
         + intros k Hk'. rewrite Hk by done. unfold entry_is_free. by rewrite He0. }
  rewrite Z.eqb_refl. cbn [negb]. unfold store_pt. wpk. rewrite Z.eqb_refl. cbn [negb cr3 num_levels]. wpk. knorm.
  change (block_addr b + t_page_table) with (block_addr b + 0). rewrite Z.add_0_r.
  rewrite !u32_small by (blk; lia). set (m1 := wr32 _ (block_addr b + 4) 2).
  assert (Hx : heap_ok x) by apply (wf_heap _ _ (cr_wf _ _ _ _ _ _ C)).
  assert (Kx : kept off_heap s0 x) by (by apply (kept_trans _ s0 x0), (creating_kept _ x0 x (block_addr d) d 1024 3), (ps_writes _ _ _ S1)).
  assert (Hm1 : forall a, a < block_addr b \/ block_addr b + 8 <= a -> rd8 m1 a = rd8 (m_ram x) a) by (intros a Ha; unfold m1; by rdw).
  wp_apply (task_init_fields_spec s0 _ b proc); knorm; try done.
  - apply (kept_write off_heap s0 x m1 b); try done. intros a Ha. apply Hm1. unfold in_block in Ha. lia.
  - intros a Ha. rewrite Hm1 by lia.
    rewrite (cr_keep _ _ _ _ _ _ C b); [|done | by apply page_entry_used | unfold in_block; lia].
    apply rd8_memset_in; unfold SIZEOF_TASK in *; blk; lia.
  - intros _ s' (m' & -> & Hm' & Hst & Hpr & Hrg & H1 & H2). wpk. knorm.
    assert (Hm2 : forall a, a < block_addr b \/ block_addr b + 64 <= a -> rd8 m' a = rd8 (m_ram x) a)
      by (intros a Ha; rewrite Hm' by lia; apply Hm1; lia).
    destruct (task_init_writes s0 x0 x m' b d proc (entry_point (m_ram s0) proc)) as (? & ? & ?); try done.
    + apply (ps_writes _ _ _ S1).
    + rewrite H1. unfold m1. rdw. apply u32_small. blk. destruct (cr_dir _ _ _ _ _ _ C) as [_ ?]. blk. lia.
    + rewrite H2. unfold m1. by rdw.
    + exists (set_ram m' x). split_and!; try done. left. split_and!; try done.
      change 1025 with (0 + 1025 + 0). apply (pages_spent_trans _ x), (spent_same x); try done.
      * by apply (pages_spent_trans _ x0).
      * intros a Ha. apply Hm2. unfold off_heap in Ha. blk. lia.
      * intros k Hk. rewrite !heap_entry by (done || blk; lia). apply Hm2. blk. lia.
Qed.

Lemma task_list_kept P s x l : task_list s l -> heap_ok x -> kept P (k_mach s) x -> task_list (set_k_mach x s) l.
Proof.
  intros [Hs Ht Hnd Hh Htl Hl] Hx K. split; try done; knorm.
  - intros t Hin. destruct (Ht t Hin) as (b & Hb & -> & Hp). exists b. split_and!; try done.
    unfold page_entry. by rewrite (kept_entry _ _ _ K) by (done || by apply page_entry_used).
  - revert Hl. apply links_ext. intros t Hin. destruct (Ht t Hin) as (b & Hb & -> & Hp).
    assert (Hw : forall off, 0 <= off <= 4092 -> rd32 (m_ram x) (block_addr b + off) = rd32 (k_ram s) (block_addr b + off)).
    { intros off Ho. apply rd32_ext. intros a Ha. apply (kept_block _ _ _ K b); [done | by apply page_entry_used | unfold in_block; lia]. }
    split; apply Hw; tfields; lia.
Qed.

Lemma kept_set_entry (P : Z -> Prop) s0 x b :
  (forall a, P a -> off_heap a) -> kept P s0 x -> heap_ok x -> in_heap b -> entry_is_free s0 b = true -> kept P s0 (set_entry b 0 x).
Proof.
  intros HP K Hx Hb Hf. split.
  - intros c a Hc Hu Ha. rewrite (set_entry_block x b 0 c) by done. by apply (kept_block _ _ _ K c).
  - intros a Ha. rewrite set_entry_ram by (done || blk; lia). cbn [on_ram set_ram m_ram].
    rewrite rd8_wr8_ne; [by apply (kept_out _ _ _ K)|]. destruct (HP a Ha). blk. lia.
  - intros c Hc Hu. rewrite set_entry_get by done. destruct (Z.eqb_spec b c) as [<-|]; [unfold used in Hu; congruence|].
    by apply (kept_entry _ _ _ K).
Qed.

(** No word of a task in the list is in a block that was free. *)
Lemma fresh_apart s l b a :
  task_list s l -> in_heap b -> entry_is_free (k_mach s) b = true -> in_block b a ->
  forall u, u ∈ l -> a < u + t_next \/ u + t_prev + 4 <= a.
Proof.
  intros HL Hb Hf Ha u Hu. destruct (tl_task _ _ HL u Hu) as (c & Hc & -> & Hpc%page_entry_used).
  assert (c <> b) by (intros ->; unfold used in Hpc; congruence). unfold in_block in Ha. tfields. blk. lia.
Qed.

Lemma safe_not_free s b a : in_heap b -> entry_is_free s b = true -> safe off_heap s a -> ~ in_block b a.
Proof.
  intros Hb Hf [Hq|(c & Hc & Hu & Ha)] Hin; [by apply (off_heap_block a b)|].
  assert (c = b) by (unfold in_block in *; blk; lia). subst. unfold used in Hu. congruence.
Qed.

(** Linking a task that was just set up in block [b]. *)
Lemma link_new_task s x b l proc eip :
  task_list s l -> in_heap b -> entry_is_free (k_mach s) b = true -> heap_ok x -> kept off_heap (k_mach s) x -> page_entry x b ->
  task_at (k_mach s) x (block_addr b) proc eip ->
  wp (task_link (block_addr b)) (set_k_mach x s) (fun _ s' => task_list s' (l ++ [block_addr b]) /\
    task_at (k_mach s) (k_mach s') (block_addr b) proc eip /\ curr_task (k_sched s') = curr_task (k_sched s) /\ pages_spent x (k_mach s') 0 /\
    forall a, safe off_heap (k_mach s) a -> (forall u, u ∈ l -> a < u + t_next \/ u + t_prev + 4 <= a) ->
      rd8 (k_ram s') a = rd8 (k_ram s) a).
Proof.
  intros HL Hb Hf Hx K Hpx T. assert (HL' : task_list (set_k_mach x s) l) by (by apply (task_list_kept off_heap)).
  assert (Hnew : block_addr b ∉ l).
  { intros Hin. assert (Ha : in_block b (block_addr b + t_next)) by (unfold in_block; tfields; lia).
    pose proof (fresh_apart s l b _ HL Hb Hf Ha _ Hin). tfields. lia. }
  wp_apply (task_link_spec _ l (block_addr b) HL'); [by exists b | done |].
  assert (Hall : forall u, u ∈ l ++ [block_addr b] -> is_task x u).
  { intros u [Hu| ->%list_elem_of_singleton]%elem_of_app; [apply (tl_task _ _ HL' u Hu) | by exists b]. }
  intros _ s' (HL2 & m' & sc & -> & Hr & Hc & _). knorm. split_and!; [done | | done | |].
  - apply (task_at_ext (k_mach s) x m'); try done.
    + intros k Hk. by apply (relinked_entry x (l ++ [block_addr b])).
    + intros a Ha. replace a with (block_addr b + (a - block_addr b)) by lia.
      apply (relinked_field x (l ++ [block_addr b])); [done | done | by exists b | tfields; lia].
    + intros k a Hk Ha. destruct (ta_own _ _ _ _ _ T k Hk) as (_ & Hfk & Hne).
      destruct (owned_used _ _ _ (ta_wf _ _ _ _ _ T) Hk) as [Hkh _]. apply Hr.
      intros u [Hu| ->%list_elem_of_singleton]%elem_of_app; [by apply (fresh_apart s l k)|].
      assert (k <> b) by congruence. unfold in_block in Ha. tfields. blk. lia.
  - apply spent_same; try done; [|intros k Hk; by apply (relinked_entry x (l ++ [block_addr b]))].
    intros a Ha. apply Hr. intros u Hu. pose proof (task_pos _ u (Hall u Hu)). unfold off_heap in Ha. tfields. hp. lia.
  - intros a Ha Hla. rewrite Hr; [by apply (kept_safe off_heap)|].
    intros u [Hu| ->%list_elem_of_singleton]%elem_of_app; [auto|].
    pose proof (safe_not_free _ b a Hb Hf Ha) as Hn. unfold in_block in Hn. tfields. lia.
Qed.

(** C17: task_new appends a task that can run.  It needs 1026 free blocks of
    the heap, for the task, its page directory and 1024 tables.  With so many
    the list of tasks grows at its end by a task in a block that was free, which
    is ready, starts at the entry point of the process with the user segments
    and the top of the user stack, and whose address space translates every
    address to itself with kernel rights only; memory in use and memory outside
    of the heap, the process included, keeps its contents, the links of the list
    apart.  With fewer, 0 is returned, the list is as before, every block is
    free exactly if it was, and memory in use keeps its contents, as does memory
    outside of the heap but for the first page and the two lines of the console
    at the cursor. *)
Theorem task_new_correct (s : kstate) (l : list Z) (proc : Z)
    (HL : task_list s l) (Hsafe : entry_safe (k_mach s) proc) (Hp : is_u32 proc) :
  wp (task_new proc) s (fun t s' =>
    (kheap_num_free_blocks (k_mach s) < 1026 /\ t = 0 /\ task_list s' l /\
     (forall k, in_heap k -> entry_is_free (k_mach s') k = entry_is_free (k_mach s) k) /\
     forall a, safe (calm (m_con (k_mach s))) (k_mach s) a -> rd8 (k_ram s') a = rd8 (k_ram s) a) \/
    (1026 <= kheap_num_free_blocks (k_mach s) /\
     (exists b, in_heap b /\ t = block_addr b /\ entry_is_free (k_mach s) b = true) /\ task_list s' (l ++ [t]) /\
     task_at (k_mach s) (k_mach s') t proc (entry_point (k_ram s) proc) /\
     curr_task (k_sched s') = curr_task (k_sched s) /\
     kheap_num_free_blocks (k_mach s') = kheap_num_free_blocks (k_mach s) - 1026 /\
     forall a, safe off_heap (k_mach s) a -> (forall u, u ∈ l -> a < u + t_next \/ u + t_prev + 4 <= a) ->
       rd8 (k_ram s') a = rd8 (k_ram s) a)).
Proof.
  pose proof (tl_heap _ _ HL) as Hs. unfold task_new. wp_step. apply wp_km.
  wp_apply (kzalloc_page SIZEOF_TASK (k_mach s) Hs); [unfold SIZEOF_TASK; lia|].
  intros p x [(-> & Hnone & Hl)|(b & m & Hb & -> & Hf & -> & Hm)].
  { wpk. left. pose proof (low_cleared_kept SIZEOF_TASK _ _ Hs ltac:(done) Hl) as K.
    assert (Hx : forall k, in_heap k -> heap_ok x /\ entry_is_free x k = entry_is_free (k_mach s) k).
    { intros k Hk. apply (low_cleared_free SIZEOF_TASK); done. }
    rewrite (num_free_none _ Hs Hnone). split_and!; [lia | done | | intros k Hk; by apply Hx | intros a; by apply kept_safe].
    apply (task_list_kept _ _ _ _ HL (proj1 (Hx 0 ltac:(blk; lia))) K). }
  rewrite (proj2 (Z.eqb_neq _ 0)) by (blk; lia). wp_step.
  assert (K1 : kept off_heap (k_mach s) (set_ram m (k_mach s))) by (by apply (page_taken_kept _ b SIZEOF_TASK)).
  assert (S1 : pages_spent (k_mach s) (set_ram m (k_mach s)) 1) by (by apply (page_taken_spent _ b SIZEOF_TASK)).
  assert (Hpe : page_entry (set_ram m (k_mach s)) b).
  { unfold page_entry. rewrite heap_entry by (done || blk; lia). cbn [set_ram m_ram]. rewrite Hm.
    unfold SIZEOF_TASK. blk. by repeat case_test; try lia. }
  wp_apply (task_init_spec (k_mach s) (set_k_mach (set_ram m (k_mach s)) s) b proc); try done.
  intros r s' (x & -> & Hx & Hpx & [(-> & K & S2 & T)|(-> & K & Hlow & Hfree)]); knorm.
  - rewrite Z.eqb_refl. cbn [negb]. wp_step.
    wp_apply (link_new_task s x b l proc _ HL Hb Hf Hx K Hpx T). intros _ s' (? & ? & ? & S3 & ?). wpk. right.
    pose proof (num_free_nonneg (k_mach s')). rewrite (ps_free _ _ _ S3), (ps_free _ _ _ S2), (ps_free _ _ _ S1) in *.
    split_and!; try done; [lia | by exists b | lia].
  - change (negb _) with true. cbv iota. wp_step. apply wp_km. eapply wp_of_run; [by apply kfree_page|]. wpk. left. knorm.
    assert (K2 : kept (calm (m_con (k_mach s))) (k_mach s) (set_entry b 0 x)) by (apply kept_set_entry; try done; apply calm_off).
    rewrite (ps_free _ _ _ S1) in Hlow. split_and!; [lia | done | exact (task_list_kept _ s (set_entry b 0 x) l HL Hx K2) | | intros a; by apply kept_safe].
    intros k Hk. unfold entry_is_free. rewrite set_entry_get by done. destruct (Z.eqb_spec b k) as [<-|Hne]; [done|].
    specialize (Hfree k Hk). rewrite (page_taken_free _ b SIZEOF_TASK) in Hfree by done.
    by rewrite (proj2 (Z.eqb_neq k b)) in Hfree by done.
Qed.

(** ** task_free *)

Lemma task_list_table s x l :
  task_list s l -> table_only (k_mach s) x -> (forall b, block_addr b ∈ l -> get_entry x b = get_entry (k_mach s) b) ->
  task_list (set_k_mach x s) l.
Proof.
  intros [Hs Ht Hnd Hh Htl Hl] Hto He. split; try done; knorm.
  - by apply (table_only_ok (k_mach s)).
  - intros t Hin. destruct (Ht t Hin) as (b & Hb & -> & Hp). exists b. split_and!; try done. unfold page_entry. by rewrite He.
  - destruct Hto as (m & -> & Hm). revert Hl. apply links_ext. intros t Hin. pose proof (task_pos _ t (Ht t Hin)).
    split; apply rd32_ext; intros a Ha; apply Hm; tfields; hp; lia.
Qed.

Lemma set_entry_table b s : heap_ok s -> in_heap b -> table_only s (set_entry b 0 s).
Proof.
  intros Hs Hb. rewrite set_entry_ram by (done || blk; lia). eexists. split; [done|]. intros a Ha. apply rd8_wr8_ne. blk. lia.
Qed.

(** What task_free needs to know about a task. *)
Record task_dead (s : kstate) (t : Z) (l : list Z) : Prop := {
  td_state : rd8 (k_ram s) (t + t_state) = TASK_DEAD;
  td_levels : rd32 (k_ram s) (t + 4) = 2;
  td_wf : pt_wf (k_mach s) (rd32 (k_ram s) t);
  td_own : forall k, owned (k_mach s) (rd32 (k_ram s) t) k -> page_entry (k_mach s) k /\ block_addr k ∉ l }.

(** task_free takes a dead task out of the list. *)
Record task_gone (s s' : kstate) (l : list Z) (t : Z) : Prop := {
  tg_list : task_list s' l;
  tg_curr : curr_task (k_sched s') = (if t =? curr_task (k_sched s) then 0 else curr_task (k_sched s));
  tg_freed : forall k, in_heap k -> owned (k_mach s) (rd32 (k_ram s) t) k \/ block_addr k = t ->
    entry_is_free (k_mach s') k = true;
  tg_kept : forall k, in_heap k -> ~ owned (k_mach s) (rd32 (k_ram s) t) k -> block_addr k <> t ->
    get_entry (k_mach s') k = get_entry (k_mach s) k }.

(** task_free removes a dead task from anywhere in the list and gives
    back its tables and its own block, and no other block; the rest of the
    list keeps its order, and the current task is forgotten if it was the one
    freed. *)
Lemma task_free_spec s l1 t l2 :
  task_list s (l1 ++ t :: l2) -> task_dead s t (l1 ++ t :: l2) ->
  wp (task_free t) s (fun r s' => r = 0 /\ task_gone s s' (l1 ++ l2) t /\
    forall a, off_heap a -> rd8 (k_ram s') a = rd8 (k_ram s) a).
Proof.
  intros HL [Hst Hlv Hwf Hown]. assert (Hin : t ∈ l1 ++ t :: l2) by (apply elem_of_app; right; left).
  destruct (tl_task _ _ HL t Hin) as (b & Hb & Et & Hpb). assert (Hit : is_task (k_mach s) t) by (by exists b).
  pose proof (tl_heap _ _ HL) as Hs. pose proof (task_pos _ t Hit).
  unfold task_free. rewrite (proj2 (Z.eqb_neq t 0)) by (hp; lia). wpk.
  rewrite (task_u32 _ t _ Hit), Hst, Z.eqb_refl by (tfields; lia). cbn [negb]. wpk. unfold load_pt. wpk.
  change (t + t_page_table) with (t + 0). rewrite !Z.add_0_r, (task_u32 _ t _ Hit), Hlv by lia.
  rewrite (u32_small t) by (hp; lia). set (dir := rd32 (k_ram s) t) in *. change (i32 2) with 2. apply wp_km.
  wp_apply (wp_conj _ _ _ _ (free_page_table_spec (k_mach s) dir 2 Hwf ltac:(done) (fun k Hk => proj1 (Hown k Hk)))
    (free_page_table_frame (k_mach s) (mk_pt dir 2) Hs ltac:(done))).
  intros _ x ((_ & Hx & He) & Hto). wp_step.
  assert (HL1 : task_list (set_k_mach x s) (l1 ++ t :: l2)).
  { apply task_list_table; try done. intros k Hk. destruct (tl_task _ _ HL _ Hk) as (k' & Hk' & ->%block_addr_inj & _).
    apply He; [done|]. intros Ho. by destruct (Hown k' Ho). }
  wp_apply (task_unlink_spec _ l1 t l2 HL1). intros _ s2 (HL2 & m & sc & -> & Hr & Hc & _). wp_step. apply wp_km. knorm.
  assert (Em : forall k, in_heap k -> get_entry (set_ram m x) k = get_entry x k).
  { intros k Hk. apply (relinked_entry x (l1 ++ l2)); try done. intros u Hu. apply (tl_task _ _ HL1).
    rewrite elem_of_app in *. rewrite elem_of_cons. tauto. }
  assert (Hob : ~ owned (k_mach s) dir b) by (intros Ho; destruct (Hown b Ho) as [_ []]; by rewrite <- Et).
  eapply wp_of_run; [rewrite Et at 1; apply kfree_page; try done|].
  { unfold page_entry. rewrite Em by done. by rewrite (proj2 (He b Hb)). }
  pose proof (set_entry_table b (set_ram m x) Hx Hb) as Hto2. wpk. knorm. split_and!; [done | split; try done |].
  - rewrite <- set_mach_sched. apply (task_list_table _ _ _ HL2 Hto2). intros k Hk.
    destruct (tl_task _ _ HL2 _ Hk) as (k' & Hk' & ->%block_addr_inj & _). rewrite set_entry_get by done.
    destruct (Z.eqb_spec b k') as [->|]; [|done]. pose proof (tl_nodup _ _ HL) as Hnd.
    rewrite <- Permutation_middle in Hnd. apply NoDup_cons in Hnd as [[] _]. by rewrite Et.
  - intros k Hk [Ho|Eb]; knorm; unfold entry_is_free; rewrite set_entry_get, Em by done;
      destruct (Z.eqb_spec b k) as [Ebk|Hne]; try done; [by rewrite (proj1 (He k Hk))|].
    rewrite Et in Eb. by apply block_addr_inj in Eb.
  - intros k Hk Hno Hne. knorm. rewrite set_entry_get, Em, (proj2 (Z.eqb_neq b k)) by (done || congruence). by apply He.
  - intros a Ha. assert (Hq : a < KHEAP_TABLE_ADDR \/ TABLE_END <= a) by apply Ha.
    destruct Hto2 as (m2 & E2 & Hm2), Hto as (m1 & -> & Hm1). rewrite E2. cbn [set_ram m_ram]. rewrite Hm2 by done. cbn [set_ram m_ram].
    rewrite Hr; [by apply Hm1|]. intros u Hu. assert (Hu' : is_task (set_ram m1 (k_mach s)) u).
    { apply (tl_task _ _ HL1). rewrite elem_of_app in *. rewrite elem_of_cons. tauto. }
    apply task_pos in Hu'. unfold off_heap in Ha. tfields. hp. lia.
Qed.
End life.

(** The structure of a process that is a flat binary, in the kernel image at
    1 MB, and no task yet. *)
Definition no_tasks : kstate := kernel_on (ready (wr32 ∅ (0x110000 + p_file_type) PROC_FILE_TYPE_BINARY)) (mk_sched 0 0 0 0).

Lemma no_tasks_free : kheap_num_free_blocks (k_mach no_tasks) = HEAP_BLOCKS.
Proof. apply ready_free. intros k Hk. rewrite rd8_wr32 by (unfold p_file_type; hp; lia). reflexivity. Qed.

Lemma task_new_correct_witness :
  exists t s', task_new 0x110000 no_tasks = Ret t s' /\
    task_list s' [t] /\ rd32 (k_ram s') (t + t_registers + r_eip) = DEFAULT_USER_PROG_ENTRY /\
    rd32 (k_ram s') (0x110000 + p_file_type) = PROC_FILE_TYPE_BINARY.
Proof.
  assert (HL : task_list no_tasks []).
  { split; [apply ready_ok | intros t H; by apply not_elem_of_nil in H | apply NoDup_nil_2 | done..]. }
  assert (Hoff : forall a, 0x110000 <= a < 0x120000 -> safe off_heap (k_mach no_tasks) a) by (intros a Ha; left; unfold off_heap; hp; lia).
  assert (Hsafe : entry_safe (k_mach no_tasks) 0x110000).
  { split; [|intros H; vm_compute in H; discriminate H]. intros a Ha. apply Hoff.
    change (u32 (0x110000 + p_file_type)) with 0x110010 in Ha. lia. }
  destruct (proj1 (wp_run _ _ _) (task_new_correct no_tasks [] 0x110000 HL Hsafe ltac:(unfold is_u32; lia)))
    as (t & s' & E & H). exists t, s'. split; [exact E|]. rewrite no_tasks_free in H.
  destruct H as [[H _]|(_ & _ & HL' & T & _ & _ & Hk)]; [hp; lia|]. split; [exact HL'|]. split.
  - exact (f_equal eip (ta_regs _ _ _ _ _ T)).
  - assert (Er : rd32 (k_ram s') (0x110000 + p_file_type) = rd32 (k_ram no_tasks) (0x110000 + p_file_type)).
    { clear E HL' T. apply rd32_ext. intros a Ha. unfold p_file_type in Ha. apply Hk; [|intros u Hu; by apply not_elem_of_nil in Hu].
      apply Hoff. lia. }
    rewrite Er. vm_compute. reflexivity.
Defined.

(** A dead task in block 1 with an empty page directory in block 0. *)
Definition dead_ram : ram :=
  wr8 (wr32 (wr32 (m_ram two_spaces) (block_addr 1) (block_addr 0)) (block_addr 1 + 4) 2) (block_addr 1 + t_state) TASK_DEAD.
Definition dead_task : kstate := kernel_on (ready dead_ram) (mk_sched (block_addr 1) (block_addr 1) (block_addr 1) 0).

Lemma dead_ram_out a : a < block_addr 1 \/ block_addr 1 + 16 <= a -> rd8 dead_ram a = rd8 (m_ram two_spaces) a.
Proof. intros Ha. unfold dead_ram. tfields. by rdw. Qed.

Lemma dead_space : pt_wf (ready dead_ram) (block_addr 0) /\ forall k, owned (ready dead_ram) (block_addr 0) k -> k = 0.
Proof.
  assert (Hwf : pt_wf two_spaces (block_addr 0)) by (apply two_spaces_wf; lia).
  assert (Ho : forall k, owned two_spaces (block_addr 0) k -> k = 0).
  { intros k [E%block_addr_inj|(i & Hi & Hp & _)]; [done|].
    by rewrite two_spaces_zero in Hp by (blk; lia). }
  assert (Hown : forall k a, owned two_spaces (block_addr 0) k -> in_block k a -> rd8 dead_ram a = rd8 (m_ram two_spaces) a).
  { intros k a Hk%Ho Ha. subst k. apply dead_ram_out. unfold in_block in Ha. blk. lia. }
  assert (He : forall k, in_heap k -> get_entry (set_ram dead_ram two_spaces) k = get_entry two_spaces k).
  { intros k Hk. rewrite !heap_entry by (apply ready_ok || blk; lia). apply dead_ram_out. blk. lia. }
  split; [by apply (space_wf two_spaces)|]. intros k Hk. apply Ho. by apply (space_owned two_spaces dead_ram).
Qed.

Lemma dead_task_list : task_list dead_task ([] ++ block_addr 1 :: []).
Proof.
  split; [apply ready_ok | | apply NoDup_singleton | done..].
  intros t ->%list_elem_of_singleton. exists 1. split_and!; try done; blk; lia.
Qed.

Lemma dead_task_dead : task_dead dead_task (block_addr 1) ([] ++ block_addr 1 :: []).
Proof.
  destruct dead_space as [Hwf Hown]. split; [reflexivity | reflexivity | exact Hwf |]. intros k Hk%Hown. subst k.
  split; [reflexivity|]. intros H%list_elem_of_singleton. discriminate H.
Qed.
