(* ===== verification/Scheduler.v ===== *)
(** * The scheduler

    Which task runs after task_switch_and_run_any and
    task_switch_to_next_and_run, and with which registers and address space. *)
From Stdlib Require Import ZArith Lia String.
From stdpp Require Import base numbers gmap list strings.
From S2P Require Import Prelude Config Memory Machine Console Kheap Paging AddressSpace Blocks Disk Path File Kernel Elf Task TaskList TaskLife.
Local Open Scope Z_scope.

Definition state_of (m : ram) (t : Z) : Z := rd8 m (t + t_state).
Definition proc_of (m : ram) (t : Z) : Z := rd32 m (t + t_proc).

(** The process of [t] can be made current; its status byte is not in the
    heap, where the tasks are. *)
Definition startable (m : ram) (t : Z) : Prop :=
  off_heap (u32 (proc_of m t + p_status)) /\ rd8 m (u32 (proc_of m t + p_status)) = PROC_CAN_START.

(** [s'] is [s] after a switch to [t], with the CPU in user mode. *)
Record switched (s s' : kstate) (t : Z) : Prop := {
  sw_curr : curr_task (k_sched s') = t;
  sw_proc : current_proc (k_sched s') = proc_of (k_ram s) t;
  sw_cr3 : cr3_reg (k_vm s') = rd32 (k_ram s) t;
  sw_cpu : k_cpu s' = regs_at (k_ram s) (t + t_registers);
  sw_list : tasks_ll_head (k_sched s') = tasks_ll_head (k_sched s) /\ tasks_ll_tail (k_sched s') = tasks_ll_tail (k_sched s);
  sw_intr : k_intr s' = k_intr s;
  sw_state : state_of (k_ram s') t = TASK_RUNNING;
  sw_other : forall u, is_task (k_mach s) u -> u <> t -> state_of (k_ram s') u =
    if (u =? curr_task (k_sched s)) && (state_of (k_ram s) u =? TASK_RUNNING) then TASK_READY else state_of (k_ram s) u;
  sw_mem : forall a, (forall u, is_task (k_mach s) u -> a <> u + t_state) -> rd8 (k_ram s') a = rd8 (k_ram s) a }.

(** Only state bytes of tasks change. *)
Definition restated (s : machine) (m : ram) : Prop :=
  forall a, (forall u, is_task s u -> a <> u + t_state) -> rd8 m a = rd8 (m_ram s) a.

Lemma restated_word s m t off :
  restated s m -> is_task s t -> off = 0 \/ off = 4 \/ 12 <= off <= 4092 -> rd32 m (t + off) = rd32 (m_ram s) (t + off).
Proof.
  intros Hr Ht Ho. apply rd32_ext. intros a Ha. apply Hr. intros u Hu E.
  destruct (decide (t = u)) as [->|Hne]; [|pose proof (task_apart s t u Ht Hu Hne)]; tfields; lia.
Qed.

Lemma restated_off s m a : restated s m -> off_heap a -> rd8 m a = rd8 (m_ram s) a.
Proof. intros Hr Hq. apply Hr. intros u Hu. pose proof (task_pos s u Hu). unfold off_heap in Hq. tfields. hp. lia. Qed.

Lemma restated_refl s : restated s (m_ram s).
Proof. by intros a _. Qed.

Lemma restated_wr s m t v : restated s m -> is_task s t -> restated s (wr8 m (t + t_state) v).
Proof. intros Hr Ht a Ha. rewrite rd8_wr8_ne; [by apply Hr|]. intros E. by apply (Ha t). Qed.

Lemma restated_task s m t : heap_ok s -> restated s m -> is_task (set_ram m s) t <-> is_task s t.
Proof.
  intros Hs Hr. assert (He : forall b, in_heap b -> get_entry (set_ram m s) b = get_entry s b).
  { intros b Hb. rewrite !heap_entry by (done || blk; lia). apply Hr. intros u Hu. pose proof (task_pos s u Hu). tfields. blk. lia. }
  split; intros (b & Hb & -> & Hp); exists b; (split_and!; [done | done |]); unfold page_entry in *; by rewrite He in *.
Qed.

Lemma state_wr s m t v u :
  is_task s t -> is_task s u -> state_of (wr8 m (t + t_state) v) u = if u =? t then u8 v else state_of m u.
Proof.
  intros Ht Hu. unfold state_of. rewrite rd8_wr8. destruct (Z.eqb_spec u t) as [->|Hne]; [by rewrite Z.eqb_refl|].
  rewrite (proj2 (Z.eqb_neq _ _)); [done|]. lia.
Qed.

(** The first ready task of a list. *)
Fixpoint first_ready (m : ram) (l : list Z) : option Z :=
  match l with
  | [] => None
  | t :: l => if state_of m t =? TASK_READY then Some t else first_ready m l
  end.

Lemma first_ready_some m l t : first_ready m l = Some t -> t ∈ l /\ state_of m t = TASK_READY.
Proof.
  induction l as [|u l IH]; cbn; [done|]. destruct (Z.eqb_spec (state_of m u) TASK_READY); [intros [= <-]; by split; [left|]|].
  intros [? ?]%IH. split; [by right | done].
Qed.

(** Tasks are in different blocks, so there are at most as many as blocks. *)
Lemma tasks_bounded s l : (forall t, t ∈ l -> is_task s t) -> NoDup l -> (length l < list_fuel)%nat.
Proof.
  intros Ht Hnd. assert (Hsub : l ⊆+ block_addr <$> seqZ 0 HEAP_BLOCKS).
  { apply NoDup_submseteq; [done|]. intros t Hin. destruct (Ht t Hin) as (b & Hb & -> & _).
    apply list_elem_of_fmap. exists b. split; [done|]. apply elem_of_seqZ. blk. lia. }
  apply submseteq_length in Hsub. rewrite length_fmap, length_seqZ in Hsub. unfold list_fuel. hp. lia.
Qed.

Lemma list_fuel_S : exists f, list_fuel = S f.
Proof. exists (Z.to_nat HEAP_BLOCKS). unfold list_fuel. hp. lia. Qed.

Definition deadlock_msg : string := "Deadlock: No ready task found" +:+ String (Ascii.ascii_of_nat 10) EmptyString.

Section scheduler.
Context {plat : Platform} {fsys : FileSystems} {lay : Layout}.

(** The first part of task_switch: the task that was running becomes ready. *)
Lemma preempt_spec s :
  curr_task (k_sched s) = 0 \/ is_task (k_mach s) (curr_task (k_sched s)) ->
  wp (if negb (curr_task (k_sched s) =? 0) then
        st ← kld8 (curr_task (k_sched s) + t_state);
        if st =? TASK_RUNNING then kst8 (curr_task (k_sched s) + t_state) TASK_READY else mret tt
      else mret tt) s
    (fun _ s' => exists m, s' = set_k_ram m s /\ restated (k_mach s) m /\
      forall u, is_task (k_mach s) u -> state_of m u =
        if (u =? curr_task (k_sched s)) && (state_of (k_ram s) u =? TASK_RUNNING) then TASK_READY else state_of (k_ram s) u).
Proof.
  set (c := curr_task (k_sched s)). intros Hc. destruct (Z.eqb_spec c 0) as [E|Hne]; cbn [negb]; wpk.
  { exists (k_ram s). rewrite set_k_ram_id. split_and!; [done | apply restated_refl |]. intros u Hu.
    pose proof (task_pos _ u Hu). rewrite (proj2 (Z.eqb_neq u c)) by (hp; lia). done. }
  destruct Hc as [|Hc]; [done|]. rewrite (task_u32 _ c _ Hc) by (tfields; lia). fold (state_of (k_ram s) c).
  destruct (Z.eqb_spec (state_of (k_ram s) c) TASK_RUNNING) as [Er|Hnr]; wpk.
  - rewrite (task_u32 _ c _ Hc) by (tfields; lia). eexists. split_and!; [done | by apply restated_wr, Hc |].
    intros u Hu. rewrite (state_wr (k_mach s)) by done. destruct (Z.eqb_spec u c) as [->|]; [|done]. by rewrite Er.
  - exists (k_ram s). rewrite set_k_ram_id. split_and!; [done | apply restated_refl |]. intros u Hu.
    destruct (Z.eqb_spec u c) as [->|]; [|done]. by rewrite (proj2 (Z.eqb_neq _ _)).
Qed.

Lemma switch_and_run_spec s t :
  curr_task (k_sched s) = 0 \/ is_task (k_mach s) (curr_task (k_sched s)) ->
  is_task (k_mach s) t -> state_of (k_ram s) t = TASK_READY -> startable (k_ram s) t ->
  ends (task_switch_and_run t) s (leaves (fun s' => switched s s' t)).
Proof.
  intros Hc Ht Hst [Hq Hps]. unfold task_switch_and_run. apply ends_bind. wpk. rewrite (task_u32 _ t _ Ht) by (tfields; lia).
  fold (state_of (k_ram s) t). rewrite Hst, Z.eqb_refl. cbn [negb]. apply ends_bind. wpk. apply ends_bind.
  unfold task_switch, task_current. wpk. wp_apply (preempt_spec s Hc). intros _ s1 (m1 & -> & Hr1 & Hs1). wpk. knorm.
  rewrite !(task_u32 _ t _ Ht) by (tfields; lia). set (m2 := wr8 m1 (t + t_state) TASK_RUNNING).
  assert (Hr2 : restated (k_mach s) m2) by (by apply restated_wr).
  assert (Ep : rd32 m2 (t + t_proc) = proc_of (k_ram s) t) by (apply restated_word; [done.. | tfields; lia]). rewrite Ep.
  assert (Es : rd8 m2 (u32 (proc_of (k_ram s) t + p_status)) = PROC_CAN_START) by (rewrite (restated_off (k_mach s)); done).
  unfold set_current_process. wpk. knorm. rewrite Es, Z.eqb_refl. cbn [negb]. wpk.
  unfold paging_switch. wpk. knorm. apply leaves_bind. unfold task_return, ends, leaves. knorm.
  change (t + t_page_table) with (t + 0). rewrite (task_u32 _ t _ Ht) by lia.
  split; knorm; try done.
  - rewrite (restated_word (k_mach s)) by auto. by rewrite Z.add_0_r.
  - cbn [k_cpu set_cpu]. unfold regs_at. rewrite <- !Z.add_assoc. f_equal; apply restated_word; (done || (tfields; lia)).
  - unfold m2. rewrite (state_wr (k_mach s)) by done. by rewrite Z.eqb_refl.
  - intros u Hu Hne. unfold m2. rewrite (state_wr (k_mach s)), (proj2 (Z.eqb_neq u t)) by done. by apply Hs1.
Qed.
Lemma run_any_loop_spec s : forall l fuel p,
  curr_task (k_sched s) = 0 \/ is_task (k_mach s) (curr_task (k_sched s)) ->
  (forall t, t ∈ l -> is_task (k_mach s) t) -> links (k_ram s) p l 0 -> (length l < fuel)%nat ->
  match first_ready (k_ram s) l with
  | Some t => startable (k_ram s) t -> ends (run_any_loop fuel (hd 0 l)) s (leaves (fun s' => switched s s' t))
  | None => ends (run_any_loop fuel (hd 0 l)) s (panics deadlock_msg)
  end.
Proof.
  induction l as [|t l IH]; intros [|fuel] p Hc Ht Hl Hf; [cbn in Hf; lia.. | |cbn in Hf; lia |].
  - cbn [first_ready hd run_any_loop]. rewrite Z.eqb_refl. apply kpanic_ends.
  - assert (Hit : is_task (k_mach s) t) by (apply Ht; left). pose proof (task_pos _ t Hit).
    cbn [first_ready hd run_any_loop]. rewrite (proj2 (Z.eqb_neq t 0)) by (hp; lia).
    destruct Hl as (_ & Hn & Hl). cbn [length] in Hf.
    specialize (IH fuel t Hc ltac:(intros u Hu; apply Ht; by right) Hl ltac:(lia)).
    destruct (Z.eqb_spec (state_of (k_ram s) t) TASK_READY) as [E|E].
    + intros Hstart. apply ends_bind. wpk. rewrite (task_u32 _ t _ Hit) by (tfields; lia). fold (state_of (k_ram s) t).
      rewrite E, Z.eqb_refl. apply leaves_bind. by apply switch_and_run_spec.
    + destruct (first_ready (k_ram s) l) as [u|] eqn:Ef; [intros Hstart; specialize (IH Hstart)|];
        apply ends_bind; wpk; rewrite (task_u32 _ t _ Hit) by (tfields; lia); fold (state_of (k_ram s) t);
        rewrite (proj2 (Z.eqb_neq _ _)) by done; apply ends_bind; wpk; apply ends_bind; wpk;
        rewrite (task_u32 _ t _ Hit), Hn by (tfields; lia); exact IH.
Qed.

(** The assertions at its start hold. *)
Lemma run_any_start s : task_switch_and_run_any s = run_any_loop list_fuel (tasks_ll_head (k_sched s)) s.
Proof. by destruct s as [[[]]]. Qed.

(** C29: task_switch_and_run_any gives the CPU to the first ready task of the
    list: it becomes the current task and is running, the task that was
    running before becomes ready, CR3 points to its page directory, the CPU
    holds its saved registers, and nothing but state bytes of tasks changes.
    When no task is ready the kernel panics with the deadlock message.  The
    processes of ready tasks are marked as able to start, in structures outside
    of the heap and its table, as the kernel image is. *)
Theorem run_any_first_ready (s : kstate) (l : list Z) (HL : task_list s l)
    (Hc : curr_task (k_sched s) = 0 \/ curr_task (k_sched s) ∈ l)
    (Hstart : forall t, first_ready (k_ram s) l = Some t -> startable (k_ram s) t) :
  match first_ready (k_ram s) l with
  | Some t => exists s', task_switch_and_run_any s = User s' /\ switched s s' t
  | None => exists s', task_switch_and_run_any s = Panic deadlock_msg s'
  end.
Proof.
  assert (Hc' : curr_task (k_sched s) = 0 \/ is_task (k_mach s) (curr_task (k_sched s))).
  { destruct Hc as [|Hin]; [by left | right]. by apply (tl_task _ _ HL). }
  pose proof (run_any_loop_spec s l list_fuel 0 Hc' (tl_task _ _ HL) (tl_links _ _ HL)
    (tasks_bounded _ l (tl_task _ _ HL) (tl_nodup _ _ HL))) as H.
  rewrite run_any_start, (tl_head _ _ HL).
  destruct (first_ready (k_ram s) l) as [t|].
  - apply ends_leaves. apply H. by apply Hstart.
  - unfold ends, panics in H. destruct (run_any_loop _ _ s); try done. by subst; eexists.
Qed.
(** ** The clock: task_switch_to_next_and_run *)

(** The task after [c] in the list [l1 ++ c :: l2], from the front again after
    the last one. *)
Definition successor (l1 : list Z) (c : Z) (l2 : list Z) : Z := hd (hd c l1) l2.

Lemma successor_in l1 c l2 : successor l1 c l2 ∈ l1 ++ c :: l2.
Proof.
  unfold successor. destruct l2 as [|u l2]; [destruct l1|]; cbn; rewrite ?elem_of_cons, ?elem_of_app, ?elem_of_cons; tauto.
Qed.

Lemma get_next_spec s l1 c l2 :
  task_list s (l1 ++ c :: l2) -> curr_task (k_sched s) = c ->
  wp task_get_next s (fun r s' => r = successor l1 c l2 /\ s' = s).
Proof.
  intros HL Hc. assert (Hit : is_task (k_mach s) c) by (apply (tl_task _ _ HL), elem_of_app; right; left).
  pose proof (task_pos _ c Hit). unfold task_get_next, task_current. wpk. rewrite Hc, (proj2 (Z.eqb_neq c 0)) by (hp; lia). wpk.
  pose proof (tl_links _ _ HL) as (_ & _ & Hn & _)%links_app. rewrite (task_u32 _ c _ Hit), Hn by (tfields; lia).
  unfold successor. destruct l2 as [|u l2]; cbn [hd].
  - rewrite Z.eqb_refl. wpk. split; [|done]. rewrite (tl_head _ _ HL), hd_app. done.
  - assert (Hu : is_task (k_mach s) u) by (apply (tl_task _ _ HL); rewrite elem_of_app, !elem_of_cons; tauto).
    pose proof (task_pos _ u Hu). rewrite (proj2 (Z.eqb_neq u 0)) by (hp; lia). wpk.
    rewrite (task_u32 _ c _ Hit), Hn by (tfields; lia). done.
Qed.

(** The scan asks for the successor of the current task in every round, so a
    successor that is not ready is looked at for ever. *)
Lemma next_loop_diverges s start next :
  next <> start -> rd8 (k_ram s) (u32 (next + t_state)) <> TASK_READY ->
  wp task_get_next s (fun r s' => r = next /\ s' = s) -> forall fuel, next_loop fuel start next s = Spin.
Proof.
  intros Hne Hst Hg. induction fuel as [|fuel IH]; [done|]. cbn [next_loop]. rewrite (proj2 (Z.eqb_neq next start)) by done.
  cbn [negb]. change (ends (st ← kld8 (next + t_state); if st =? TASK_READY then mret next else next ← task_get_next; next_loop fuel start next) s (fun o => o = Spin)).
  apply ends_bind. wpk. rewrite (proj2 (Z.eqb_neq _ _)) by done. apply ends_bind. wp_apply Hg. intros r s' [-> ->]. exact IH.
Qed.

(** The current task becomes ready before the scan. *)
Lemma yield_list s l c v :
  task_list s l -> is_task (k_mach s) c -> task_list (set_k_ram (wr8 (k_ram s) (c + t_state) v) s) l.
Proof.
  intros HL Hc. pose proof HL as [Hs Ht Hnd Hh Htl Hl]. set (m := wr8 _ _ _).
  assert (Hr : restated (k_mach s) m) by (by apply restated_wr; [apply restated_refl|]).
  split; try done; knorm.
  - intros t Hin. apply restated_task; auto.
  - revert Hl. apply links_ext. intros t Hin. split; apply (restated_word (k_mach s)); auto; tfields; lia.
Qed.

Lemma switched_yield s c v s' t :
  is_task (k_mach s) c -> curr_task (k_sched s) = c -> state_of (k_ram s) c = TASK_RUNNING -> u8 v = TASK_READY ->
  heap_ok (k_mach s) -> is_task (k_mach s) t ->
  switched (set_k_ram (wr8 (k_ram s) (c + t_state) v) s) s' t -> switched s s' t.
Proof.
  intros Hic Hc Hrun Hv Hs Hit [W1 W2 W3 W4 W5 Wi W6 W7 W8]. set (m := wr8 _ _ _) in *.
  assert (Hr : restated (k_mach s) m) by (by apply restated_wr; [apply restated_refl|]). knorm.
  assert (Hw : forall off, off = 0 \/ off = 4 \/ 12 <= off <= 4092 -> rd32 m (t + off) = rd32 (k_ram s) (t + off))
    by (intros; by apply (restated_word (k_mach s))).
  split; try done.
  - rewrite W2. apply Hw. tfields. lia.
  - rewrite W3. rewrite <- (Z.add_0_r t). apply Hw. lia.
  - rewrite W4. unfold regs_at. rewrite <- !Z.add_assoc. f_equal; apply Hw; tfields; lia.
  - intros u Hu Hne. rewrite W7 by (done || by apply restated_task). unfold m. rewrite (state_wr (k_mach s)) by done. rewrite Hc, Hv.
    destruct (Z.eqb_spec u c) as [->|]; [|done]. by rewrite Hrun.
  - intros a Ha. rewrite W8; [by apply Hr|]. intros u Hu. apply Ha. by apply (restated_task _ m).
Qed.

(** What happens up to the choice of the next task. *)
Lemma tick_spec s l1 c l2 (P : outcome kstate Z -> Prop) :
  task_list s (l1 ++ c :: l2) -> curr_task (k_sched s) = c -> state_of (k_ram s) c = TASK_RUNNING ->
  let s1 := set_k_ram (wr8 (k_ram s) (c + t_state) TASK_READY) s in
  ends (next ← next_loop list_fuel c (successor l1 c l2); task_switch_and_run next) s1 P ->
  ends task_switch_to_next_and_run s P.
Proof.
  intros HL Hc Hrun s1 H. assert (Hit : is_task (k_mach s) c) by (apply (tl_task _ _ HL), elem_of_app; right; left).
  pose proof (task_pos _ c Hit). unfold task_switch_to_next_and_run, task_current. apply ends_bind. wpk. rewrite Hc.
  rewrite (proj2 (Z.eqb_neq c 0)) by (hp; lia). apply ends_bind. wpk. apply ends_bind. wpk.
  rewrite (task_u32 _ c _ Hit) by (tfields; lia). fold (state_of (k_ram s) c). rewrite Hrun, Z.eqb_refl. apply ends_bind. wpk.
  rewrite (task_u32 _ c _ Hit) by (tfields; lia). fold s1. apply ends_bind.
  wp_apply (get_next_spec s1 l1 c l2); [by apply yield_list | done |]. intros r s' [-> ->]. exact H.
Qed.
(** On a clock tick the CPU goes to the successor of the running task, if it
    is ready or the running task itself. *)
Lemma switch_next_spec s l1 c l2 :
  task_list s (l1 ++ c :: l2) -> curr_task (k_sched s) = c -> state_of (k_ram s) c = TASK_RUNNING ->
  successor l1 c l2 = c \/ state_of (k_ram s) (successor l1 c l2) = TASK_READY ->
  startable (k_ram s) (successor l1 c l2) ->
  ends task_switch_to_next_and_run s (leaves (fun s' => switched s s' (successor l1 c l2))).
Proof.
  intros HL Hc Hrun Hn Hstart. pose proof (tl_heap _ _ HL) as Hs.
  assert (Hic : is_task (k_mach s) c) by (apply (tl_task _ _ HL), elem_of_app; right; left).
  assert (Hin : is_task (k_mach s) (successor l1 c l2)) by (apply (tl_task _ _ HL), successor_in).
  apply (tick_spec s l1 c l2); try done. cbn zeta. set (s1 := set_k_ram _ s). set (n := successor l1 c l2) in *.
  assert (Hr : restated (k_mach s) (k_ram s1)) by (by apply restated_wr; [apply restated_refl|]).
  assert (Hst : state_of (k_ram s1) n = TASK_READY).
  { unfold s1. knorm. rewrite (state_wr (k_mach s)) by done. destruct (Z.eqb_spec n c); [done|]. by destruct Hn. }
  assert (Hn1 : is_task (k_mach s1) n) by (by apply restated_task).
  assert (Hgo : ends (task_switch_and_run n) s1 (leaves (fun s' => switched s s' n))).
  { apply (leaves_mono _ _ (fun s' => switched s1 s' n)); [|intros s'; by apply (switched_yield s c TASK_READY)].
    apply switch_and_run_spec; [|done | done |].
    - right. rewrite <- Hc in Hic. by apply restated_task.
    - unfold startable, proc_of in *. rewrite (restated_word (k_mach s)) by (done || (tfields; lia)).
      rewrite (restated_off (k_mach s)); [done | done | apply Hstart]. }
  destruct list_fuel_S as [f ->]. cbn [next_loop]. apply ends_bind.
  destruct (Z.eqb_spec n c) as [E|Hne]; cbn [negb]; wpk; [exact Hgo|].
  rewrite (task_u32 _ n _ Hin) by (tfields; lia). fold (state_of (k_ram s1) n). rewrite Hst, Z.eqb_refl. wpk. exact Hgo.
Qed.

(** C39: if the successor of the running task is neither ready nor the running
    task itself, the scan of task_switch_to_next_and_run never ends: it asks
    for the successor of the current task again in every round instead of
    moving on, whatever number of rounds it is given, even when another task
    is ready. *)
Theorem clock_scan_hangs (s : kstate) (l1 : list Z) (c : Z) (l2 : list Z)
    (HL : task_list s (l1 ++ c :: l2)) (Hc : curr_task (k_sched s) = c) (Hrun : state_of (k_ram s) c = TASK_RUNNING)
    (Hne : successor l1 c l2 <> c) (Hn : state_of (k_ram s) (successor l1 c l2) <> TASK_READY) :
  task_switch_to_next_and_run s = Spin /\
  forall fuel, next_loop fuel c (successor l1 c l2) (set_k_ram (wr8 (k_ram s) (c + t_state) TASK_READY) s) = Spin.
Proof.
  assert (Hic : is_task (k_mach s) c) by (apply (tl_task _ _ HL), elem_of_app; right; left).
  assert (Hin : is_task (k_mach s) (successor l1 c l2)) by (apply (tl_task _ _ HL), successor_in).
  set (n := successor l1 c l2) in *. set (s1 := set_k_ram _ s).
  assert (Hspin : forall fuel, next_loop fuel c n s1 = Spin).
  { apply next_loop_diverges; [done | |].
    - rewrite (task_u32 _ n _ Hin) by (tfields; lia). fold (state_of (k_ram s1) n). unfold s1. knorm.
      rewrite (state_wr (k_mach s)) by done. by rewrite (proj2 (Z.eqb_neq n c)).
    - apply (get_next_spec s1 l1 c l2); [by apply yield_list | done]. }
  split; [|exact Hspin]. apply (tick_spec s l1 c l2 (fun o => o = Spin)); try done. fold n s1.
  unfold ends, mbind, M_bind. by rewrite Hspin.
Qed.

(** ** Saving the registers *)

Definition frame_regs (m : ram) (p : Z) : registers :=
  mk_regs (rd32 m (p + i_edi)) (rd32 m (p + i_esi)) (rd32 m (p + i_ebp)) (rd32 m (p + i_ebx))
          (rd32 m (p + i_edx)) (rd32 m (p + i_ecx)) (rd32 m (p + i_eax)) (rd32 m (p + i_eip))
          (rd32 m (p + i_cs)) (rd32 m (p + i_eflags)) (rd32 m (p + i_esp)) (rd32 m (p + i_ss)).

(** A frame on the kernel stack, which is below the heap. *)
Definition frame_ok (p : Z) : Prop := 0 <= p /\ p + 52 <= 4294967296 /\ (p + 52 <= KHEAP_ADDR \/ HEAP_END <= p).

Lemma frame_apart s p t : frame_ok p -> is_task s t -> p + 52 <= t \/ t + 4096 <= p.
Proof.
  intros (_ & _ & Hq) Ht. pose proof (task_pos s t Ht). lia.
Qed.

(** The registers [L] (offset in the task, offset in the frame) are saved. *)
Definition saved (c fr : Z) (m0 m : ram) (L : list (Z * Z)) : Prop :=
  Forall (fun '(r, i) => rd32 m (c + t_registers + r) = rd32 m0 (fr + i)) L /\
  forall a, a < c + 12 \/ c + 60 <= a -> rd8 m a = rd8 m0 a.

Lemma saved_step c fr m0 m L r i :
  saved c fr m0 m L -> fr + 52 <= c \/ c + 4096 <= fr -> 0 <= r <= 44 -> 0 <= i <= 48 ->
  Forall (fun '(r', _) => r' + 4 <= r \/ r + 4 <= r') L ->
  saved c fr m0 (wr32 m (c + t_registers + r) (rd32 m (fr + i))) ((r, i) :: L).
Proof.
  intros [HL Hm] Hd Hr Hi Hne.
  assert (Hfr : rd32 m (fr + i) = rd32 m0 (fr + i)) by (apply rd32_ext; intros a Ha; apply Hm; lia).
  split; [constructor|].
  - rewrite rd32_wr32, Hfr. apply u32_small, rd32_range.
  - rewrite Forall_forall in *. intros [r' i'] Hin. rewrite rd32_wr32_ne; [by apply (HL (r', i'))|].
    specialize (Hne (r', i') Hin). cbn in Hne. lia.
  - intros a Ha. rewrite rd8_wr32 by (tfields; lia). by apply Hm.
Qed.

Lemma save_reg_spec s c fr r i m0 L (Q : unit -> kstate -> Prop) :
  curr_task (k_sched s) = c -> KHEAP_ADDR <= c /\ c + 4096 <= HEAP_END -> frame_ok fr -> fr + 52 <= c \/ c + 4096 <= fr ->
  0 <= r <= 44 -> 0 <= i <= 48 -> saved c fr m0 (k_ram s) L -> Forall (fun '(r', _) => r' + 4 <= r \/ r + 4 <= r') L ->
  (forall m, saved c fr m0 m ((r, i) :: L) -> Q tt (set_k_ram m s)) -> wp (save_reg fr r i) s Q.
Proof.
  intros Hc Hit (Hf & Hf' & _) Hd Hr Hi HL Hne HQ. unfold save_reg, task_current. wpk.
  rewrite Hc, !u32_small by (tfields; hp; lia). apply HQ. by apply saved_step.
Qed.

Lemma save_state_spec s c fr :
  curr_task (k_sched s) = c -> is_task (k_mach s) c -> frame_ok fr ->
  wp (task_save_current_state fr) s (fun _ s' => exists m, s' = set_k_ram m s /\
    regs_at m (c + t_registers) = frame_regs (k_ram s) fr /\
    forall a, a < c + 12 \/ c + 60 <= a -> rd8 m a = rd8 (k_ram s) a).
Proof.
  intros Hc Hit Hf. pose proof (task_pos _ c Hit) as Hp. pose proof (frame_apart _ fr c Hf Hit) as Hd.
  unfold task_save_current_state. wp_step. unfold task_current at 1. wpk. rewrite Hc, (proj2 (Z.eqb_neq c 0)) by (hp; lia). wpk.
  assert (H0 : saved c fr (k_ram s) (k_ram s) []) by (split; [constructor | done]).
  repeat (eapply (save_reg_spec _ c); [done | exact Hp | exact Hf | exact Hd | done | done | eassumption |
    repeat (apply List.Forall_cons; [tfields; clear; lia|]); apply List.Forall_nil |];
    let m := fresh "m" in let H := fresh "H" in intros m H; try wp_step).
  eexists. split; [reflexivity|]. match goal with H : saved _ _ _ ?m (_ :: _ :: _ :: _ :: _ :: _ :: _ :: _ :: _ :: _ :: _ :: _) |- _ => destruct H as [HL Hm] end.
  split; [|exact Hm]. unfold regs_at, frame_regs. repeat (apply Forall_cons in HL as [? HL]). by f_equal.
Qed.
End scheduler.

(** Two tasks of one process, in blocks 0 and 1, in the given states; the first
    one is current. *)
Definition two_tasks_ram (st0 st1 : Z) : ram :=
  let t0 := block_addr 0 in let t1 := block_addr 1 in
  let m := wr8 (m_ram two_spaces) (0x110000 + p_status) PROC_CAN_START in
  let m := wr32 (wr32 m (t0 + t_next) t1) (t1 + t_prev) t0 in
  let m := wr32 (wr32 m (t0 + t_proc) 0x110000) (t1 + t_proc) 0x110000 in
  wr8 (wr8 m (t0 + t_state) st0) (t1 + t_state) st1.

Definition two_tasks (st0 st1 : Z) : kstate :=
  kernel_on (ready (two_tasks_ram st0 st1)) (mk_sched (block_addr 0) (block_addr 0) (block_addr 1) 0x110000).

Lemma two_tasks_entry st0 st1 k :
  in_heap k -> get_entry (ready (two_tasks_ram st0 st1)) k = get_entry two_spaces k.
Proof.
  intros Hk. rewrite !heap_entry by (apply ready_ok || blk; lia). cbn [ready m_ram]. unfold two_tasks_ram. cbn zeta. tfields.
  unfold p_status. blk. by rdw.
Qed.

Lemma two_tasks_list st0 st1 : task_list (two_tasks st0 st1) [block_addr 0; block_addr 1].
Proof.
  split; [apply ready_ok | | | done | done |].
  - assert (Hp : forall b, b = 0 \/ b = 1 -> is_task (k_mach (two_tasks st0 st1)) (block_addr b)).
    { intros b Hb. exists b. split; [blk; lia|]. split; [done|].
      refine (eq_trans (two_tasks_entry st0 st1 b ltac:(blk; lia)) _). by destruct Hb as [-> | ->]. }
    intros t H. rewrite !elem_of_cons in H. destruct H as [->|[->|H]]; [apply Hp.. | by apply not_elem_of_nil in H]; lia.
  - apply NoDup_cons. split; [|apply NoDup_singleton]. intros E%list_elem_of_singleton. discriminate E.
  - change (k_ram (two_tasks st0 st1)) with (two_tasks_ram st0 st1). unfold links, two_tasks_ram. cbn zeta. cbn [hd]. tfields.
    unfold p_status. split_and!; try done; blk; by rdw.
Qed.

Lemma two_tasks_startable st0 st1 t : t = block_addr 0 \/ t = block_addr 1 -> startable (k_ram (two_tasks st0 st1)) t.
Proof.
  assert (E : forall t, t = block_addr 0 \/ t = block_addr 1 -> proc_of (k_ram (two_tasks st0 st1)) t = 0x110000).
  { change (k_ram (two_tasks st0 st1)) with (two_tasks_ram st0 st1).
    intros u [-> | ->]; unfold proc_of, two_tasks_ram; cbn zeta; tfields; unfold p_status; blk; by rdw. }
  intros Ht. unfold startable. rewrite E by done. change (u32 (0x110000 + p_status)) with 0x110008. split.
  - unfold off_heap. hp. lia.
  - change (k_ram (two_tasks st0 st1)) with (two_tasks_ram st0 st1). unfold two_tasks_ram. cbn zeta. tfields. unfold p_status.
    blk. by rdw.
Qed.

Lemma run_any_first_ready_witness :
  exists s', task_switch_and_run_any (two_tasks TASK_DEAD TASK_READY) = User s' /\ curr_task (k_sched s') = block_addr 1.
Proof.
  assert (Hc : curr_task (k_sched (two_tasks TASK_DEAD TASK_READY)) = 0 \/
    curr_task (k_sched (two_tasks TASK_DEAD TASK_READY)) ∈ [block_addr 0; block_addr 1]) by (right; left).
  assert (Ef : first_ready (k_ram (two_tasks TASK_DEAD TASK_READY)) [block_addr 0; block_addr 1] = Some (block_addr 1))
    by (vm_compute; reflexivity).
  pose proof (run_any_first_ready (two_tasks TASK_DEAD TASK_READY) _ (two_tasks_list _ _) Hc) as H. rewrite Ef in H.
  destruct H as (s' & E & W); [intros t [= <-]; apply two_tasks_startable; by right|].
  exists s'. split; [exact E | exact (sw_curr _ _ _ W)].
Defined.

Lemma clock_scan_hangs_witness : task_switch_to_next_and_run (two_tasks TASK_RUNNING TASK_DEAD) = Spin.
Proof.
  refine (proj1 (clock_scan_hangs (two_tasks TASK_RUNNING TASK_DEAD) [] (block_addr 0) [block_addr 1] (two_tasks_list _ _)
    eq_refl eq_refl _ _)); vm_compute; discriminate.
Defined.
