(* ===== verification/Process.v ===== *)
(** * task/process.c: processes

    The table [procs] is an array of structures in the kernel image.  Every
    operation of process.c is here; [M kstate (Z * Z)] returns a status and
    what the source stores through its out parameter. *)
From Stdlib Require Import ZArith Lia String.
From stdpp Require Import base numbers gmap list strings.
From S2P Require Import Prelude Config Memory Strings Machine Console Invariants Kheap Paging Disk Path File Kernel Elf Task.
Local Open Scope Z_scope.

Section process.
Context {plat : Platform} {fsys : FileSystems} {lay : Layout}.

Definition kprintln (msg : string) : M kstate unit := km (modify (println (chars msg))).

(** ** Loading *)

Definition process_load_binary (filename proc : Z) : M kstate Z :=
  fd ← files (kfopen filename lit_r);
  if fd <=? 0 then mret (- STATUS_IO_ERROR)
  else
    res ← files (kfstat fd stack_stat);
    if negb (res =? STATUS_OK) then mret res
    else
      fsize ← kld32 (stack_stat + 4);
      program_data_ptr ← km (kzalloc fsize);
      if program_data_ptr =? 0 then files (kfclose fd);; mret (- STATUS_NOT_ENOUGH_MEM)
      else
        n ← files (kfread program_data_ptr fsize 1 fd);
        if negb (n =? 1) then
          km (kfree program_data_ptr);;
          files (kfclose fd);;
          mret (- STATUS_IO_ERROR)
        else
          kst32 (proc + p_file_type) PROC_FILE_TYPE_BINARY;;
          kst32 (proc + p_image) program_data_ptr;;
          kst32 (proc + p_size) fsize;;
          files (kfclose fd);;
          mret res.

Definition process_load_elf (filename proc : Z) : M kstate Z :=
  '(res, elf_file) ← elf_load filename;
  if negb (res =? STATUS_OK) then mret res
  else
    kst32 (proc + p_file_type) PROC_FILE_TYPE_ELF;;
    kst32 (proc + p_image) elf_file;;
    mret STATUS_OK.

Definition process_load_data (filename proc : Z) : M kstate Z :=
  res ← process_load_elf filename proc;
  if res =? STATUS_INVALID_EXEC_FORMAT then
    kprintln "Could not load ELF file, trying binary format";;
    process_load_binary filename proc
  else mret res.

(** ** The table *)

Definition process_init (process : Z) : M kstate unit :=
  km (modify (on_ram (memset process 0 SIZEOF_PROCESS))).

Fixpoint mark_unused (n : nat) (i : Z) : M kstate unit :=
  match n with
  | O => mret tt
  | S n => kst8 (proc_addr i + p_status) PROC_UNUSED;; mark_unused n (i + 1)
  end.

Definition procs_init : M kstate unit :=
  km (modify (on_ram (memset procs_addr 0 (MAX_PROCS * SIZEOF_PROCESS))));;
  mark_unused (Z.to_nat MAX_PROCS) 0.

Definition process_set_parent_pid (proc pid : Z) : M kstate unit := kst16 (proc + p_parent_pid) pid.

Definition current_process : M kstate Z := gets (fun s => current_proc (k_sched s)).
Definition process_current : M kstate Z := gets (fun s => current_proc (k_sched s)).

Definition status_at (m : ram) (i : Z) : Z := rd8 m (u32 (proc_addr i + p_status)).
Definition pid_at (m : ram) (i : Z) : Z := rd16 m (u32 (proc_addr i + p_pid)).

(** The first index from [i] on, within [n] steps, that passes a test. *)
Fixpoint scan_procs (n : nat) (i : Z) (test : Z -> bool) : option Z :=
  match n with
  | O => None
  | S n => if test i then Some i else scan_procs n (i + 1) test
  end.

Definition get_free_slot : M kstate Z :=
  m ← gets k_ram;
  mret (default (-1) (scan_procs (Z.to_nat MAX_PROCS) 0 (fun i => status_at m i =? PROC_UNUSED))).

Definition free_pid_slot (pid : Z) : M kstate Z :=
  m ← gets k_ram;
  match scan_procs (Z.to_nat MAX_PROCS) 0 (fun i => pid_at m i =? pid) with
  | Some i =>
    kst8 (proc_addr i + p_status) PROC_UNUSED;;
    process_init (proc_addr i);;
    mret STATUS_OK
  | None => mret (- STATUS_INVALID_ARG)
  end.

Definition get_proc_by_pid (pid : Z) : M kstate Z :=
  m ← gets k_ram;
  mret (match scan_procs (Z.to_nat MAX_PROCS) 0 (fun i => pid_at m i =? pid) with
        | Some i => proc_addr i
        | None => 0
        end).

Definition process_reap (proc : Z) : M kstate Z :=
  st ← kld8 (proc + p_status);
  if st =? PROC_ZOMBIE then
    task ← kld32 (proc + p_task);
    task_free task;;
    pid ← kld16 (proc + p_pid);
    free_pid_slot pid;;
    mret STATUS_OK
  else mret (- STATUS_PROC_NOT_ZOMBIE).

Definition process_waitpid (proc waitpid : Z) : M kstate Z :=
  waitproc ← get_proc_by_pid waitpid;
  if waitproc =? 0 then mret (- STATUS_INVALID_ARG)
  else
    parent ← kld16 (waitproc + p_parent_pid);
    pid ← kld16 (proc + p_pid);
    if negb (parent =? pid) then mret (- STATUS_INVALID_ARG)
    else process_reap waitproc.

(** ** Memory regions of a process *)

Definition vmem_start (m : ram) (proc i : Z) : Z := rd32 m (u32 (proc + p_vmem_start + 4 * i)).
Definition vmem_end (m : ram) (proc i : Z) : Z := rd32 m (u32 (proc + p_vmem_end + 4 * i)).

Definition process_add_vmem_block (proc va_start va_end : Z) : M kstate Z :=
  m ← gets k_ram;
  match scan_procs (Z.to_nat PROCESS_VMEM_MAX_BLOCKS) 0 (fun i => vmem_start m proc i =? 0) with
  | Some i =>
    kst32 (proc + p_vmem_start + 4 * i) va_start;;
    kst32 (proc + p_vmem_end + 4 * i) va_end;;
    mret i
  | None => mret (- STATUS_OUT_OF_VMEM_BLOCKS)
  end.

Definition process_get_vmem_block (proc va_start : Z) : M kstate Z :=
  m ← gets k_ram;
  mret (default (- STATUS_INVALID_ARG)
    (scan_procs (Z.to_nat PROCESS_VMEM_MAX_BLOCKS) 0 (fun i => vmem_start m proc i =? va_start))).

(** [&proc->task->page_table] *)
Definition proc_page_table (proc : Z) : M kstate page_table_32b :=
  task ← kld32 (proc + p_task); load_pt (task + t_page_table).

Definition process_free_vmem_block (proc va_start : Z) : M kstate Z :=
  block_id ← process_get_vmem_block proc va_start;
  if block_id <? 0 then mret block_id
  else
    pt ← proc_page_table proc;
    va_end ← kld32 (proc + p_vmem_end + 4 * block_id);
    km (paging_free_va pt va_start va_end);;
    kst32 (proc + p_vmem_start + 4 * block_id) 0;;
    kst32 (proc + p_vmem_end + 4 * block_id) 0;;
    mret STATUS_OK.

(** ** Termination *)

Fixpoint exit_vmem (n : nat) (proc i : Z) : M kstate unit :=
  match n with
  | O => mret tt
  | S n =>
    start ← kld32 (proc + p_vmem_start + 4 * i);
    (if negb (start =? 0) then process_free_vmem_block proc start else mret 0);;
    exit_vmem n proc (i + 1)
  end.

Definition process_exit (proc status : Z) : M kstate Z :=
  if proc =? 0 then mret 0
  else
    km assert_single_task_per_process;;
    task ← kld32 (proc + p_task);
    kst8 (task + t_state) TASK_DEAD;;
    ft ← kld32 (proc + p_file_type);
    (if ft =? PROC_FILE_TYPE_BINARY then
       p ← kld32 (proc + p_image); km (kfree p)
     else if ft =? PROC_FILE_TYPE_ELF then
       f ← kld32 (proc + p_image);
       p ← gets (fun s => elf_memory (k_ram s) f);
       km (kfree p)
     else mret 0);;
    exit_vmem (Z.to_nat PROCESS_VMEM_MAX_BLOCKS) proc 0;;
    stack ← kld32 (proc + p_stack_paddr);
    (if negb (stack =? 0) then km (kfree stack) else mret 0);;
    cur ← current_process;
    (if proc =? cur then modify (set_current_proc 0) else mret tt);;
    kst8 (proc + p_status) PROC_ZOMBIE;;
    kst32 (proc + p_exit_status) status;;
    mret 0.

(** ** Address space of a new process *)

Definition USER_FLAGS : Z := Z.lor (Z.lor PAGE_PRESENT PAGE_WRITE_ALLOW) PAGE_USER_ACCESS_ALLOW.

Definition map_stack (proc : Z) : M kstate Z :=
  pt ← proc_page_table proc;
  stack ← kld32 (proc + p_stack_paddr);
  km (paging_map_memory_region pt DEFAULT_USER_STACK_END stack DEFAULT_USER_STACK_START USER_FLAGS).

Definition process_map_binary (proc : Z) : M kstate Z :=
  pt ← proc_page_table proc;
  size ← kld32 (proc + p_size);
  let data_end := paging_up_align_addr (u32 (DEFAULT_USER_PROG_ENTRY + size)) in
  code ← kld32 (proc + p_image);
  res ← km (paging_map_memory_region pt DEFAULT_USER_PROG_ENTRY code data_end USER_FLAGS);
  if negb (res =? STATUS_OK) then mret res else map_stack proc.

(** The memory of a segment: the pages of the file, or a zeroed copy when the
    segment is larger in memory than in the file ([None]: out of memory). *)
Definition segment_memory (proc elf_file ph : Z) : M kstate (option Z) :=
  m ← gets k_ram;
  let pa_start := paging_down_align_addr (elf_phdr_phys_address m elf_file ph) in
  if word m ph ph_filesz =? word m ph ph_memsz then mret (Some pa_start)
  else
    (if word m ph ph_memsz <? word m ph ph_filesz
     then kpanic "process_map_elf: invalid segment, p_filesz > p_memsz" else mret tt);;
    pa_start ← km (kzalloc (word m ph ph_memsz));
    if pa_start =? 0 then mret None
    else
      m ← gets k_ram;
      km (modify (on_ram (memcpy pa_start (elf_phdr_phys_address m elf_file ph) (word m ph ph_filesz))));;
      m ← gets k_ram;
      process_add_vmem_block proc pa_start (u32 (pa_start + word m ph ph_memsz));;
      mret (Some pa_start).

(** One iteration of the loop of process_map_elf; the result is what the
    source returns early, or [STATUS_OK] to go on. *)
Definition map_segment (proc elf_file ph : Z) : M kstate Z :=
  m ← gets k_ram;
  if negb (word m ph ph_type =? PT_LOAD) then mret STATUS_OK
  else if word m ph ph_memsz =? 0 then
    kprintln "[Warning] process_map_elf: empty segment";; mret STATUS_OK
  else
    pa ← segment_memory proc elf_file ph;
    match pa with
    | None => mret (- STATUS_NOT_ENOUGH_MEM)
    | Some pa_start =>
      m ← gets k_ram;
      let va_start := paging_down_align_addr (word m ph ph_vaddr) in
      let va_end := paging_up_align_addr (u32 (word m ph ph_vaddr + word m ph ph_memsz)) in
      let flags := Z.lor PAGE_PRESENT PAGE_USER_ACCESS_ALLOW in
      let flags := if Z.land (word m ph ph_flags) PF_W =? 0 then flags else Z.lor flags PAGE_WRITE_ALLOW in
      if va_end <=? va_start then kprintln "[Warning] process_map_elf: empty segment";; mret STATUS_OK
      else
        pt ← proc_page_table proc;
        km (paging_map_memory_region pt va_start pa_start va_end flags)
    end.

Fixpoint map_segments (n : nat) (proc elf_file phdrs i : Z) : M kstate Z :=
  match n with
  | O => map_stack proc
  | S n =>
    res ← map_segment proc elf_file (u32 (phdrs + i * SIZEOF_PHDR));
    if negb (res =? STATUS_OK) then mret res else map_segments n proc elf_file phdrs (i + 1)
  end.

Definition process_map_elf (proc : Z) : M kstate Z :=
  elf_file ← kld32 (proc + p_image);
  header ← gets (fun s => elf_header (k_ram s) elf_file);
  phdrs ← gets (fun s => elf_pheader (k_ram s) header);
  ph_count ← kld16 (header + e_phnum);
  map_segments (Z.to_nat ph_count) proc elf_file phdrs 0.

Definition process_map_memory (proc : Z) : M kstate Z :=
  ft ← kld32 (proc + p_file_type);
  if ft =? PROC_FILE_TYPE_BINARY then process_map_binary proc
  else if ft =? PROC_FILE_TYPE_ELF then process_map_elf proc
  else kpanic "process_map_memory: can't map invalid exec file type".

(** ** Creation *)

(** Returns the status and, on success, the process ([*process_out]). *)
Definition process_new (filename : Z) : M kstate (Z * Z) :=
  pid ← get_free_slot;
  if pid <? 0 then mret (- STATUS_OUT_OF_PROCS, 0)
  else
    let proc := proc_addr pid in
    process_init proc;;
    stack_ptr ← km (kzalloc DEFAULT_USER_STACK_SIZE);
    if stack_ptr =? 0 then mret (- STATUS_NOT_ENOUGH_MEM, 0)
    else
      kst32 (proc + p_stack_paddr) stack_ptr;;
      res ← process_load_data filename proc;
      if res <? 0 then mret (res, 0)
      else
        kst16 (proc + p_pid) pid;;
        km (modify (on_ram (strncpy (u32 (proc + p_program_file)) filename SIZEOF_PROGRAM_FILE)));;
        task ← task_new proc;
        if ERROR_I task =? 0 then mret (ERROR_I task, 0)
        else
          kst32 (proc + p_task) task;;
          res ← process_map_memory proc;
          if negb (res =? STATUS_OK) then mret (res, 0)
          else
            kst32 (proc + p_kbd_head) 0;;
            kst32 (proc + p_kbd_tail) 0;;
            kst16 (proc + p_pid) pid;;
            kst8 (proc + p_status) PROC_CREATING;;
            km (modify (on_ram (memset (u32 (proc + p_kbd_buf)) 0 PROCESS_KEYBOARD_BUFFER_SIZE)));;
            mret (res, proc).

(** ** Arguments *)

(** The loop that sets [arg_ptrs[1] ..]; an argument that is not terminated
    within [scan_fuel] bytes is beyond the model. *)
Fixpoint set_arg_ptrs (n : nat) (i arg_ptrs curr_arg curr_arg_va : Z) : M kstate unit :=
  match n with
  | O => mret tt
  | S n =>
    m ← gets k_ram;
    match strlen scan_fuel m curr_arg with
    | None => spin
    | Some l =>
      let len := l + 1 in
      kst32 (arg_ptrs + 4 * i) (u32 (curr_arg_va + len));;
      set_arg_ptrs n (i + 1) arg_ptrs (u32 (curr_arg + len)) (u32 (curr_arg_va + len))
    end
  end.

(** The strings and the pointers to them; returns [stack] and
    [arg_ptrs_va]. *)
Definition push_args (proc argc len args stack : Z) : M kstate (Z * Z) :=
  task ← kld32 (proc + p_task);
  let esp := task + t_registers + r_esp in
  let stack := u32 (stack - len) in
  e ← kld32 esp; kst32 esp (u32 (e - len));;
  let args_buf := stack in
  args_buf_va ← kld32 esp;
  km (modify (on_ram (memcpy args_buf args (u32 len))));;
  let stack := u32 (stack - u32 (4 * argc)) in
  e ← kld32 esp; kst32 esp (u32 (e - u32 (4 * argc)));;
  let arg_ptrs := stack in
  arg_ptrs_va ← kld32 esp;
  kst32 arg_ptrs args_buf_va;;
  set_arg_ptrs (Z.to_nat (argc - 1)) 1 arg_ptrs args_buf args_buf_va;;
  mret (stack, arg_ptrs_va).

Definition process_add_arguments (proc argc len args : Z) : M kstate Z :=
  st ← kld8 (proc + p_status);
  (if negb (st =? PROC_CREATING)
   then kpanic "process_add_arguments: process is not in creating state" else mret tt);;
  if DEFAULT_USER_STACK_SIZE <? u32 (u32 (4 * argc) + len) then mret (- STATUS_NOT_ENOUGH_MEM)
  else
    base ← kld32 (proc + p_stack_paddr);
    task ← kld32 (proc + p_task);
    let stack := u32 (base + DEFAULT_USER_STACK_SIZE) in
    '(stack, arg_ptrs_va) ← (if argc =? 0 then mret (stack, uninit_argv) else push_args proc argc len args stack);
    let stack := u32 (stack - 4) in
    kst32 stack arg_ptrs_va;;
    let stack := u32 (stack - 4) in
    kst32 stack argc;;
    e ← kld32 (task + t_registers + r_esp);
    kst32 (task + t_registers + r_esp) (u32 (e - 8));;
    kst8 (proc + p_status) PROC_CAN_START;;
    mret STATUS_OK.
End process.
