(* ===== verification/ProcTable.v ===== *)
(** * The process table: lookup, waiting, loading

    waitpid and the reaping of a zombie on a table whose slots agree with the
    list of tasks, and the format fallback of the loader. *)
From Stdlib Require Import ZArith Lia String.
From stdpp Require Import base numbers gmap list strings.
From S2P Require Import Prelude Config Memory Strings Machine Console Kheap Paging AddressSpace Blocks Disk Path File Kernel Elf Task TaskList TaskLife Scheduler Process.
Local Open Scope Z_scope.

Section proc_table.
Context {plat : Platform} {fsys : FileSystems} {lay : Layout}.

(** ** Loading: the fallback to flat binaries *)

Ltac wlp_run :=
  repeat match goal with
  | |- wlp (mret _) _ _ => apply wlp_ret
  | |- wlp (mbind _ _) _ _ => apply wlp_any; intros; cbn beta zeta
  end.

Lemma pheaders_loop_zero n : forall f h i s, wlp (pheaders_loop n f h i 0) s (fun r _ => r = 0).
Proof.
  induction n as [|n IH]; intros f h i s; cbn [pheaders_loop]; [done|]. apply wlp_any. intros m s1.
  destruct (i <? _); [|done]. apply wlp_bind.
  assert (H : wlp (elf_process_pheader f (elf_program_header m h i)) s1 (fun r _ => r = 0)).
  { unfold elf_process_pheader. apply wlp_any. intros m' s2. destruct (_ =? PT_LOAD); [|done].
    unfold elf_process_phdr_pt_load. by wlp_run. }
  eapply wlp_mono; [exact H|]. intros r s2 ->. cbn. apply IH.
Qed.

Lemma process_loaded_range f s : wlp (elf_process_loaded f) s (fun r _ => r <= 0).
Proof.
  unfold elf_process_loaded. apply wlp_any. intros h s1. apply wlp_any. intros r s2.
  destruct (Z.ltb_spec r 0); [apply wlp_ret; lia|]. unfold elf_process_pheaders. apply wlp_any. intros h' s3.
  eapply wlp_mono; [apply pheaders_loop_zero|]. intros a s' ->. done.
Qed.

(** elf_load returns 0 or a negative status. *)
Lemma elf_load_range filename s : wlp (elf_load filename) s (fun '(r, _) _ => r <= 0).
Proof.
  unfold elf_load. apply wlp_any. intros f s1. destruct (f =? 0); [by wlp_run|]. apply wlp_any. intros fd s2.
  destruct (fd <=? 0); [by wlp_run|]. apply wlp_any. intros r s3. destruct (Z.ltb_spec r 0); [wlp_run; lia|].
  do 3 (apply wlp_any; intros ? ?). case_match; [by wlp_run|]. do 3 (apply wlp_any; intros ? ?).
  case_match; [wlp_run; breflect; lia|]. apply wlp_bind. eapply wlp_mono; [apply process_loaded_range|].
  intros r' s4 Hr. cbn. destruct (r' <? 0); by wlp_run.
Qed.

(** Process_load_data never tries the flat binary format.  The status of
    process_load_elf is 0 or negative, and the test compares it with the
    positive code, so loading a program is loading an ELF file and every file
    that is not one is refused. *)
Lemma binary_fallback_dead (filename proc : Z) (s : kstate) :
  process_load_data filename proc s = process_load_elf filename proc s.
Proof.
  assert (H : wlp (process_load_elf filename proc) s (fun r _ => r <= 0)).
  { unfold process_load_elf. apply wlp_bind. eapply wlp_mono; [apply elf_load_range|]. intros [r f] s' Hr. cbn in Hr.
    case_match; by wlp_run. }
  unfold process_load_data, mbind, M_bind. unfold wlp in H. destruct (process_load_elf filename proc s) as [r s'| | |]; try done.
  rewrite (proj2 (Z.eqb_neq _ _)); [done|]. unfold STATUS_INVALID_EXEC_FORMAT. lia.
Qed.

(** ** Lookup by pid *)

Lemma scan_first n test j : forall i, i <= j < i + Z.of_nat n -> test j = true ->
  (forall k, i <= k < j -> test k = false) -> scan_procs n i test = Some j.
Proof.
  induction n as [|n IH]; intros i Hj Ht Hk; [lia|]. cbn [scan_procs]. destruct (decide (i = j)) as [->|]; [by rewrite Ht|].
  rewrite (Hk i) by lia. apply IH; [lia | done | intros; apply Hk; lia].
Qed.

Lemma scan_none n test : forall i, (forall k, i <= k < i + Z.of_nat n -> test k = false) -> scan_procs n i test = None.
Proof.
  induction n as [|n IH]; intros i Hk; [done|]. cbn [scan_procs]. rewrite Hk by lia. apply IH. intros. apply Hk. lia.
Qed.

(** The slot of a pid: a process has the index of its slot as its pid, and an
    unused slot has pid 0. *)
Definition pids_ok (m : ram) : Prop := forall i, 0 <= i < MAX_PROCS -> pid_at m i = 0 \/ pid_at m i = i.

Definition slot_of (m : ram) (pid : Z) : option Z :=
  if pid =? 0 then Some 0
  else if (0 <? pid) && (pid <? MAX_PROCS) && (pid_at m pid =? pid) then Some pid else None.

Lemma scan_pid m pid :
  pids_ok m -> scan_procs (Z.to_nat MAX_PROCS) 0 (fun i => pid_at m i =? pid) = slot_of m pid.
Proof.
  intros Hp. unfold slot_of. destruct (Z.eqb_spec pid 0) as [->|].
  { apply scan_first; [unfold MAX_PROCS; lia | | intros; lia]. apply Z.eqb_eq. destruct (Hp 0); unfold MAX_PROCS; lia. }
  destruct (_ && _) eqn:E; breflect.
  - apply scan_first; [unfold MAX_PROCS in *; lia | by apply Z.eqb_eq | intros k Hk; apply Z.eqb_neq].
    destruct (Hp k); lia.
  - apply scan_none. intros k Hk. apply Z.eqb_neq. intros Ek. apply not_true_iff_false in E. apply E.
    destruct (Hp k); [unfold MAX_PROCS in *; lia | lia |]. subst pid. rewrite Z2Nat.id in Hk by (unfold MAX_PROCS; lia).
    rewrite H. rewrite !andb_true_iff, !Z.ltb_lt, Z.eqb_eq. lia.
Qed.

(** ** Waiting for a child *)

(** The table is an array of the kernel image: it is neither in the heap nor in
    the entry table of the heap. *)
Definition procs_placed : Prop :=
  forall a, procs_addr <= a < procs_addr + MAX_PROCS * SIZEOF_PROCESS -> 0 < a < 4294967296 /\ off_heap a.

Definition slot_bytes (i a : Z) : Prop := proc_addr i <= a < proc_addr i + SIZEOF_PROCESS.

Lemma slot_off i a : procs_placed -> 0 <= i < MAX_PROCS -> slot_bytes i a -> 0 < a < 4294967296 /\ off_heap a.
Proof. intros H Hi Ha. apply H. unfold slot_bytes, proc_addr, SIZEOF_PROCESS in *. lia. Qed.

Lemma slot_bounds i : procs_placed -> 0 <= i < MAX_PROCS -> 0 <= proc_addr i /\ proc_addr i + SIZEOF_PROCESS <= 4294967296.
Proof.
  intros HP Hi. assert (H0 : slot_bytes i (proc_addr i)) by (unfold slot_bytes, SIZEOF_PROCESS; lia).
  assert (H1 : slot_bytes i (proc_addr i + SIZEOF_PROCESS - 1)) by (unfold slot_bytes, SIZEOF_PROCESS; lia).
  apply slot_off in H0, H1; try done. lia.
Qed.

Lemma slot_u32 i off : procs_placed -> 0 <= i < MAX_PROCS -> 0 <= off < SIZEOF_PROCESS -> u32 (proc_addr i + off) = proc_addr i + off.
Proof. intros H Hi Ho. apply u32_small. cut (0 < proc_addr i + off < 4294967296); [lia|]. apply (slot_off i); try done. unfold slot_bytes. lia. Qed.

Definition parent_at (m : ram) (i : Z) : Z := rd16 m (u32 (proc_addr i + p_parent_pid)).
Definition task_of (m : ram) (i : Z) : Z := rd32 m (u32 (proc_addr i + p_task)).

(** Every zombie still has its task, which is dead and in the list. *)
Definition zombies_ok (s : kstate) (l : list Z) : Prop :=
  forall i, 0 <= i < MAX_PROCS -> status_at (k_ram s) i = PROC_ZOMBIE ->
    task_of (k_ram s) i ∈ l /\ task_dead s (task_of (k_ram s) i) l.

(** Slot [i] is given back: its task is gone from the list and its heap blocks
    are free, the slot is zero, and the rest of the table is untouched. *)
Record reaped (s s' : kstate) (l : list Z) (i : Z) : Prop := {
  re_task : exists l1 l2, l = l1 ++ task_of (k_ram s) i :: l2 /\ task_gone s s' (l1 ++ l2) (task_of (k_ram s) i);
  re_slot : forall a, slot_bytes i a -> rd8 (k_ram s') a = 0;
  re_rest : forall j a, 0 <= j < MAX_PROCS -> j <> i -> slot_bytes j a -> rd8 (k_ram s') a = rd8 (k_ram s) a }.

(** Writes outside of the heap and its table keep the heap and the task list. *)
Definition static_writes (m m' : ram) : Prop := forall a, ~ off_heap a -> rd8 m' a = rd8 m a.

Lemma static_entry x m k : heap_ok x -> in_heap k -> static_writes (m_ram x) m -> get_entry (set_ram m x) k = get_entry x k.
Proof. intros Hx Hk Hm. rewrite !heap_entry by (done || blk; lia). apply Hm. unfold off_heap. blk. vga. lia. Qed.

Lemma static_task_list s m l : task_list s l -> static_writes (k_ram s) m -> task_list (set_k_ram m s) l.
Proof.
  intros [Hs Ht Hnd Hh Htl Hl] Hm. split; try done; knorm.
  - intros t Hin. destruct (Ht t Hin) as (b & Hb & -> & Hp). exists b. split_and!; try done.
    unfold page_entry. by rewrite static_entry.
  - revert Hl. apply links_ext. intros t Hin. pose proof (task_pos _ t (Ht t Hin)).
    split; apply rd32_ext; intros a Ha; apply Hm; unfold off_heap; tfields; hp; vga; lia.
Qed.

Lemma static_task_gone s s' m l t : task_gone s s' l t -> static_writes (k_ram s') m -> task_gone s (set_k_ram m s') l t.
Proof.
  intros [HL Hc Hf Hk] Hm. pose proof (tl_heap _ _ HL) as Hs. split; [by apply static_task_list | done | |]; knorm.
  - intros k Hin Ho. unfold entry_is_free. rewrite static_entry by done. by apply Hf.
  - intros k Hin Hno Hne. rewrite static_entry by done. by apply Hk.
Qed.

Lemma clear_slot_off m i : procs_placed -> 0 <= i < MAX_PROCS ->
  static_writes m (memset (proc_addr i) 0 SIZEOF_PROCESS (wr8 m (proc_addr i + p_status) PROC_UNUSED)).
Proof.
  intros HP Hi a Ha. assert (Hno : ~ slot_bytes i a) by (intros Hb; by apply Ha, (slot_off i)).
  pose proof (slot_bounds i HP Hi).
  unfold slot_bytes in Hno. rewrite rd8_memset_out by lia. apply rd8_wr8_ne. unfold p_status, SIZEOF_PROCESS in *. lia.
Qed.

(** free_pid_slot on a pid whose slot is [i]. *)
Lemma free_slot_spec s pid i (Q : Z -> kstate -> Prop) :
  procs_placed -> pids_ok (k_ram s) -> 0 <= i < MAX_PROCS -> slot_of (k_ram s) pid = Some i ->
  Q STATUS_OK (set_k_ram (memset (proc_addr i) 0 SIZEOF_PROCESS (wr8 (k_ram s) (proc_addr i + p_status) PROC_UNUSED)) s) ->
  wp (free_pid_slot pid) s Q.
Proof.
  intros HP Hp Hi Hsl HQ. unfold free_pid_slot. wpk. rewrite scan_pid, Hsl by done. wpk. unfold process_init.
  apply wp_km. wpk. rewrite slot_u32 by (done || unfold p_status, SIZEOF_PROCESS; lia). exact HQ.
Qed.

Lemma slot_of_range m pid i : slot_of m pid = Some i -> 0 <= i < MAX_PROCS.
Proof. unfold slot_of, MAX_PROCS. repeat case_match; intros [= <-]; breflect; lia. Qed.

Lemma slot_of_pid m pid i : pids_ok m -> slot_of m pid = Some i -> pid_at m i = pid.
Proof.
  intros Hp. unfold slot_of. destruct (Z.eqb_spec pid 0) as [->|].
  - intros [= <-]. destruct (Hp 0); unfold MAX_PROCS; lia.
  - case_match; intros [= <-]. by breflect.
Qed.

(** Reading a pid after writes outside the table. *)
Lemma pid_off m m' i : procs_placed -> (forall a, off_heap a -> rd8 m' a = rd8 m a) ->
  0 <= i < MAX_PROCS -> pid_at m' i = pid_at m i.
Proof.
  intros HP Hm Hi. unfold pid_at. rewrite slot_u32 by (done || unfold p_pid, SIZEOF_PROCESS; lia).
  apply rd16_ext. intros a Ha. apply Hm, (slot_off i); try done. unfold slot_bytes, SIZEOF_PROCESS, p_pid in *. lia.
Qed.

Lemma slot_of_off m m' pid : procs_placed -> (forall a, off_heap a -> rd8 m' a = rd8 m a) -> slot_of m' pid = slot_of m pid.
Proof.
  intros HP Hm. unfold slot_of. destruct (pid =? 0); [done|]. destruct (Z.ltb_spec 0 pid), (Z.ltb_spec pid MAX_PROCS); cbn; try done.
  by rewrite (pid_off m m') by (done || lia).
Qed.

Lemma reap_spec s l i :
  procs_placed -> pids_ok (k_ram s) -> task_list s l -> 0 <= i < MAX_PROCS ->
  task_of (k_ram s) i ∈ l -> task_dead s (task_of (k_ram s) i) l ->
  slot_of (k_ram s) (pid_at (k_ram s) i) = Some i -> status_at (k_ram s) i = PROC_ZOMBIE ->
  wp (process_reap (proc_addr i)) s (fun r s' => r = STATUS_OK /\ reaped s s' l i).
Proof.
  intros HP Hp HL Hi Hin HD Hsl Hst. unfold process_reap. wpk.
  fold (status_at (k_ram s) i). rewrite Hst, Z.eqb_refl. wpk. fold (task_of (k_ram s) i).
  apply list_elem_of_split in Hin as (l1 & l2 & ->). wp_apply (task_free_spec s l1 _ l2 HL HD).
  intros _ s1 (_ & Hg & Hq). wpk. fold (pid_at (k_ram s1) i). rewrite (pid_off (k_ram s)) by done.
  assert (Hp1 : pids_ok (k_ram s1)) by (intros j Hj; rewrite (pid_off (k_ram s)) by done; by apply Hp).
  apply (free_slot_spec s1 _ i); try done; [by rewrite (slot_of_off (k_ram s))|]. wpk.
  pose proof (slot_bounds i HP Hi) as HB. split; [done|]. split.
  - exists l1, l2. split; [done|]. apply static_task_gone; [done|]. by apply clear_slot_off.
  - intros a Ha. knorm. unfold slot_bytes in Ha. by rewrite rd8_memset_in by lia.
  - intros j a Hj Hne Ha. knorm. rewrite <- Hq by (by apply (slot_off j)).
    assert (a < proc_addr i \/ proc_addr i + SIZEOF_PROCESS <= a) by (unfold slot_bytes, proc_addr, SIZEOF_PROCESS in *; lia).
    rewrite rd8_memset_out by lia. apply rd8_wr8_ne. unfold p_status, SIZEOF_PROCESS in *. lia.
Qed.

Lemma waitpid_spec s l proc waitpid :
  procs_placed -> pids_ok (k_ram s) -> task_list s l ->
  (forall i, slot_of (k_ram s) waitpid = Some i -> status_at (k_ram s) i = PROC_ZOMBIE ->
     task_of (k_ram s) i ∈ l /\ task_dead s (task_of (k_ram s) i) l) ->
  wp (process_waitpid proc waitpid) s (fun r s' =>
    match slot_of (k_ram s) waitpid with
    | None => r = - STATUS_INVALID_ARG /\ s' = s
    | Some i =>
      if negb (parent_at (k_ram s) i =? rd16 (k_ram s) (u32 (proc + p_pid))) then r = - STATUS_INVALID_ARG /\ s' = s
      else if negb (status_at (k_ram s) i =? PROC_ZOMBIE) then r = - STATUS_PROC_NOT_ZOMBIE /\ s' = s
      else r = STATUS_OK /\ reaped s s' l i
    end).
Proof.
  intros HP Hp HL HZ. unfold process_waitpid, get_proc_by_pid. wpk. rewrite scan_pid by done.
  destruct (slot_of (k_ram s) waitpid) as [i|] eqn:Hsl; [|done]. pose proof (slot_of_range _ _ _ Hsl) as Hi.
  pose proof (slot_off i (proc_addr i) HP Hi) as Hq. unfold slot_bytes, SIZEOF_PROCESS, off_heap in Hq.
  rewrite (proj2 (Z.eqb_neq (proc_addr i) 0)) by (hp; vga; lia). wpk. fold (parent_at (k_ram s) i).
  destruct (parent_at _ _ =? _); cbn [negb]; [|done].
  destruct (Z.eqb_spec (status_at (k_ram s) i) PROC_ZOMBIE) as [Hst|Hst]; cbn [negb].
  - destruct (HZ i eq_refl Hst). apply reap_spec; try done. by rewrite (slot_of_pid _ waitpid).
  - unfold process_reap. wpk. fold (status_at (k_ram s) i). by rewrite (proj2 (Z.eqb_neq _ _) Hst).
Qed.

(** C16: process_waitpid.  A pid that no process has, or one whose process is
    not a child of the caller, is an invalid argument; a child that still runs
    is reported as not a zombie; in these cases nothing changes.  A zombie
    child is reaped: its task leaves the list, the heap gets back exactly the
    task's block and its page tables, its slot of the table is zero, and every
    other slot keeps its contents.  The table of processes is outside of the
    heap and its table, as the kernel image is. *)
Theorem waitpid_correct (s : kstate) (l : list Z) (proc waitpid : Z) (HP : procs_placed) (Hp : pids_ok (k_ram s))
    (HL : task_list s l) (HZ : zombies_ok s l) :
  wp (process_waitpid proc waitpid) s (fun r s' =>
    match slot_of (k_ram s) waitpid with
    | None => r = - STATUS_INVALID_ARG /\ s' = s
    | Some i =>
      if negb (parent_at (k_ram s) i =? rd16 (k_ram s) (u32 (proc + p_pid))) then r = - STATUS_INVALID_ARG /\ s' = s
      else if negb (status_at (k_ram s) i =? PROC_ZOMBIE) then r = - STATUS_PROC_NOT_ZOMBIE /\ s' = s
      else r = STATUS_OK /\ reaped s s' l i
    end).
Proof.
  apply (waitpid_spec s l); try done. intros i Hsl Hst. apply HZ; [by apply (slot_of_range _ _ _ Hsl) | done].
Qed.
End proc_table.

(** ** Examples *)

(** A kernel image at 1 MB, with its stack below 2 MB. *)
Definition image : Layout := {|
  procs_addr := 0x110000; kpage_table_addr := 0x128000; idt_addr := 0x125000; tss_addr := 0x128100; stack_stat := 0x1FF000;
  stack_item := 0x1FF100; lit_r := 0x10C000; uninit_argv := 0; elf_signature_addr := 0x10C010;
  gdt_real_addr := 0x128200; int_wrapper := fun i => 0x100000 + 16 * i; int80h := 0x102000; scan_set_next := 0;
  lit_shell := 0x10C020; lit_shell_args := 0x10C040;
  calls_beyond := fun _ => Some syscall_exit_fn |}.

Lemma image_placed : procs_placed (lay := image).
Proof. intros a Ha. change (0x110000 <= a < 0x110000 + 64 * 1308) in Ha. unfold off_heap. hp. vga. lia. Qed.

(** Process 1, a zombie, is a child of process 0; its task is the dead one of
    [dead_task]. *)
Definition zombie_ram : ram :=
  wr32 (wr8 (wr16 dead_ram (0x110000 + 1308) 1) (0x110000 + 1308 + p_status) PROC_ZOMBIE) (0x110000 + 1308 + p_task) (block_addr 1).
Definition zombie : kstate := set_k_ram zombie_ram dead_task.

Lemma zombie_off : static_writes dead_ram zombie_ram.
Proof.
  intros a Ha. unfold zombie_ram, p_status, p_task. unfold off_heap in Ha. rewrite rd8_wr32, rd8_wr8_ne, rd8_wr16; hp; vga; try lia; done.
Qed.

Lemma static_task_dead s m t l :
  is_task (k_mach s) t -> task_dead s t l -> static_writes (k_ram s) m -> task_dead (set_k_ram m s) t l.
Proof.
  intros Ht [Hst Hlv Hwf Hown] Hm. pose proof (task_pos _ _ Ht) as Hpos. pose proof (wf_heap _ _ Hwf) as Hs.
  assert (Hw : forall off, 0 <= off <= 4 -> rd32 m (t + off) = rd32 (k_ram s) (t + off)).
  { intros off Ho. apply rd32_ext. intros a Ha. apply Hm. unfold off_heap. hp. vga. lia. }
  pose proof (Hw 0 ltac:(lia)) as H0. rewrite Z.add_0_r in H0.
  assert (He : forall k, in_heap k -> get_entry (set_ram m (k_mach s)) k = get_entry (k_mach s) k) by (intros; by apply static_entry).
  assert (Hb : forall k a, owned (k_mach s) (rd32 (k_ram s) t) k -> in_block k a -> rd8 m a = rd8 (m_ram (k_mach s)) a).
  { intros k a Ho Ha. destruct (owned_used _ _ _ Hwf Ho) as [Hk _]. apply Hm. unfold off_heap, in_block in *. blk. vga. lia. }
  split; knorm; rewrite ?H0.
  - rewrite Hm; [done|]. unfold off_heap. tfields. hp. vga. lia.
  - by rewrite Hw by lia.
  - by apply space_wf.
  - intros k Hk. apply space_owned in Hk; try done. destruct (Hown k Hk) as [Hp Hl]. split; [|done].
    unfold page_entry. rewrite He; [done|]. by destruct (owned_used _ _ _ Hwf Hk).
Qed.

(** A test of every slot of the table. *)
Lemma all_slots (P : Z -> bool) : forallb P (map Z.of_nat (seq 0 64)) = true -> forall i, 0 <= i < MAX_PROCS -> P i = true.
Proof.
  intros H i Hi. apply (proj1 (forallb_forall P _) H). apply in_map_iff. exists (Z.to_nat i). unfold MAX_PROCS in Hi.
  split; [lia|]. apply in_seq. lia.
Qed.

Lemma waitpid_correct_witness :
  exists s', process_waitpid (lay := image) 0x110000 1 zombie = Ret STATUS_OK s' /\
    (forall a, slot_bytes (lay := image) 1 a -> rd8 (k_ram s') a = 0).
Proof.
  assert (Hp : pids_ok (lay := image) (k_ram zombie)).
  { intros i Hi. pose proof (all_slots (fun i => let p := pid_at (lay := image) (k_ram zombie) i in (p =? 0) || (p =? i))
      ltac:(vm_compute; reflexivity) i Hi) as H. apply orb_prop in H as [H|H]; apply Z.eqb_eq in H; auto. }
  assert (HL : task_list zombie ([] ++ block_addr 1 :: [])) by (apply static_task_list; [exact dead_task_list | exact zombie_off]).
  assert (HD : task_dead zombie (block_addr 1) ([] ++ block_addr 1 :: [])).
  { apply static_task_dead; [|exact dead_task_dead | exact zombie_off]. apply (tl_task _ _ dead_task_list). left. }
  assert (HZ : zombies_ok (lay := image) zombie ([] ++ block_addr 1 :: [])).
  { intros i Hi Hst. pose proof (all_slots (fun i => (i =? 1) || negb (status_at (lay := image) (k_ram zombie) i =? PROC_ZOMBIE))
      ltac:(vm_compute; reflexivity) i Hi) as H.
    cbv beta in H. rewrite Hst, orb_false_r, Z.eqb_eq in H. subst i. split; [left | exact HD]. }
  assert (E1 : slot_of (lay := image) (k_ram zombie) 1 = Some 1) by (vm_compute; reflexivity).
  assert (E2 : (parent_at (lay := image) (k_ram zombie) 1 =? rd16 (k_ram zombie) (u32 (0x110000 + p_pid))) = true)
    by (vm_compute; reflexivity).
  assert (E3 : (status_at (lay := image) (k_ram zombie) 1 =? PROC_ZOMBIE) = true) by (vm_compute; reflexivity).
  pose proof (waitpid_correct (lay := image) zombie _ 0x110000 1 image_placed Hp HL HZ) as W. rewrite E1, E2, E3 in W. cbn [negb] in W.
  destruct (proj1 (wp_run _ _ _) W) as (r & s' & E & W'). destruct W' as [-> Re].
  exists s'. split; [exact E | exact (re_slot _ _ _ _ Re)].
Defined.
