(* ===== verification/Arguments.v ===== *)
(** * process_add_arguments: the stack that a process starts on

    A process starts with [argc] and [argv] on its stack, as if main had been
    called.  The arguments come as one buffer of terminated strings. *)
From Stdlib Require Import ZArith Lia String.
From stdpp Require Import base numbers gmap list strings.
From S2P Require Import Prelude Config Memory Strings Machine Console Kheap Paging AddressSpace Blocks Disk Path File Kernel Elf Task TaskList TaskLife Scheduler Process ProcTable.
Local Open Scope Z_scope.

(** [argv_at m pp va pa strs]: the words from [pp] on are pointers to the
    strings, which are at [pa] in physical memory and at [va] for the
    process. *)
Definition argv_at (m : ram) (pp va pa : Z) (strs : list (list Z)) (size : Z) : Prop :=
  forall i l, strs !! i = Some l -> exists o, (0 <= o /\ o + Z.of_nat (length l) < size) /\ rd32 m (pp + 4 * Z.of_nat i) = va + o /\ cstr m (pa + o) l.

Section arguments.
Context {plat : Platform} {fsys : FileSystems} {lay : Layout}.

Lemma set_arg_ptrs_spec rest : forall s cur i pp a va,
  args_at (k_ram s) a (cur :: rest) -> Forall (fun l => (length l < scan_fuel)%nat) (cur :: rest) ->
  0 <= pp -> 0 <= i -> pp + 4 * (i + Z.of_nat (length rest)) <= a -> a + args_len (cur :: rest) <= 4294967296 ->
  0 <= va -> va + args_len (cur :: rest) <= 4294967296 ->
  wp (set_arg_ptrs (length rest) i pp a va) s (fun _ s' => exists m, s' = set_k_ram m s /\
    argv_at m (pp + 4 * i) va a rest (args_len (cur :: rest)) /\
    forall x, x < pp + 4 * i \/ pp + 4 * (i + Z.of_nat (length rest)) <= x -> rd8 m x = rd8 (k_ram s) x).
Proof.
  induction rest as [|r0 rest IH]; intros s cur i pp a va HA HF Hpp Hi Hbelow Ha Hva Hva'; cbn [set_arg_ptrs length].
  { exists (k_ram s). rewrite set_k_ram_id. by split_and!. }
  destruct HA as [Hcur Hrest]. apply Forall_cons in HF as [Hlen HF]. cbn [length args_len] in *. pose proof (args_len_nonneg rest).
  wpk. rewrite (strlen_cstr _ _ cur) by done. wpk. set (L := Z.of_nat (length cur) + 1).
  rewrite (u32_small (pp + 4 * i)), !(u32_small (a + L)), !(u32_small (va + L)) by lia. set (s1 := set_k_ram _ s).
  assert (Hk1 : forall x, x < pp + 4 * i \/ pp + 4 * i + 4 <= x -> rd8 (k_ram s1) x = rd8 (k_ram s) x)
    by (intros x Hx; unfold s1; knorm; by apply rd8_wr32).
  wp_apply (IH s1 r0 (i + 1) pp (a + L) (va + L)); try done; cbn [args_len]; try lia.
  { apply (args_at_ext (k_ram s)); cbn [args_len]; try lia; [intros; apply Hk1; lia|].
    by replace (a + L) with (a + Z.of_nat (length cur) + 1) by lia. }
  intros _ s' (m & -> & Hv & Hk). exists m. split_and!; [done | |].
  - intros k l Hl. destruct k as [|k]; cbn in Hl.
    + injection Hl as <-. exists L. split; [lia|]. split.
      * transitivity (rd32 (k_ram s1) (pp + 4 * i)).
        { rewrite Z.add_0_r. apply rd32_ext. intros x Hx. apply Hk. lia. }
        unfold s1. knorm. rewrite rd32_wr32. apply u32_small. lia.
      * destruct Hrest as [Hr0 _]. replace (a + Z.of_nat (length cur) + 1) with (a + L) in Hr0 by lia.
        apply (cstr_ext (k_ram s)); [|done]. intros x Hx. rewrite Hk by lia. apply Hk1. lia.
    + destruct (Hv k l Hl) as (o & Ho & Hp & Hc). exists (L + o). split; [lia|].
      replace (pp + 4 * i + 4 * Z.of_nat (S k)) with (pp + 4 * (i + 1) + 4 * Z.of_nat k) by lia.
      replace (va + (L + o)) with (va + L + o) by lia. by replace (a + (L + o)) with (a + L + o) by lia.
  - intros x Hx. rewrite Hk by lia. apply Hk1. lia.
Qed.

(** ** The layout of memory *)

Definition stack_base (m : ram) (proc : Z) : Z := rd32 m (proc + p_stack_paddr).
Definition main_task (m : ram) (proc : Z) : Z := rd32 m (proc + p_task).
Definition esp_addr (m : ram) (proc : Z) : Z := main_task m proc + t_registers + r_esp.
Definition stack_ptr (m : ram) (proc : Z) : Z := rd32 m (esp_addr m proc).

(** The process, its task, its stack and the buffer are four separate pieces
    of memory. *)
Record args_placed (m : ram) (proc args size : Z) : Prop := {
  ap_proc : 0 <= proc /\ proc + SIZEOF_PROCESS <= 4294967296;
  ap_task : main_task m proc + SIZEOF_TASK <= 4294967296;
  ap_stack : stack_base m proc + DEFAULT_USER_STACK_SIZE < 4294967296;
  ap_args : 0 <= args /\ args + size <= 4294967296;
  ap_proc_task : apart proc SIZEOF_PROCESS (main_task m proc) SIZEOF_TASK;
  ap_proc_stack : apart proc SIZEOF_PROCESS (stack_base m proc) DEFAULT_USER_STACK_SIZE;
  ap_task_stack : apart (main_task m proc) SIZEOF_TASK (stack_base m proc) DEFAULT_USER_STACK_SIZE;
  ap_args_stack : apart args size (stack_base m proc) DEFAULT_USER_STACK_SIZE;
  ap_args_task : apart args size (main_task m proc) SIZEOF_TASK }.

(** What starts on the stack: [strs] is not empty and fits. *)
Record args_fit (m : ram) (proc : Z) (strs : list (list Z)) : Prop := {
  af_some : strs <> [];
  af_scan : Forall (fun l => (length l < scan_fuel)%nat) strs;
  af_room : 4 * Z.of_nat (length strs) + args_len strs + 8 <= DEFAULT_USER_STACK_SIZE;
  af_esp : DEFAULT_USER_STACK_SIZE <= stack_ptr m proc }.

Ltac args_lia :=
  unfold apart, esp_addr, stack_ptr, p_status, p_task, p_stack_paddr, SIZEOF_PROCESS, SIZEOF_TASK, DEFAULT_USER_STACK_SIZE in *;
  tfields; lia.

Lemma wp_kram f s (Q : unit -> kstate -> Prop) : Q tt (set_k_ram (f (k_ram s)) s) -> wp (km (modify (on_ram f))) s Q.
Proof. intros H. apply wp_km, wp_modify, H. Qed.

(** The buffer after the first change of the stack pointer. *)
Lemma copied_args m ea args dest E' size strs :
  args_at m args strs -> args_len strs = size -> 0 <= E' < 4294967296 ->
  0 <= args -> args + size <= 4294967296 -> 0 <= dest -> dest + size <= 4294967296 ->
  apart args size dest size -> apart args size ea 4 -> apart ea 4 dest size ->
  let m2 := memcpy dest args size (wr32 m ea E') in
  rd32 m2 ea = E' /\ args_at m2 dest strs /\
  forall a, a < dest \/ dest + size <= a -> a < ea \/ ea + 4 <= a -> rd8 m2 a = rd8 m a.
Proof.
  intros HA Hs HE Ha Ha' Hd Hd' D1 D2 D3 m2. unfold apart in *. pose proof (args_len_nonneg strs). split_and!.
  - transitivity (rd32 (wr32 m ea E') ea); [|rewrite rd32_wr32; by apply u32_small].
    apply rd32_ext. intros a Hb. apply rd8_memcpy_out; lia.
  - replace dest with (args + (dest - args)) by lia. apply (args_at_move m); try lia; [|done].
    intros a Hb. unfold m2. rewrite rd8_memcpy_in by lia. rewrite rd8_wr32 by lia. f_equal. lia.
  - intros a Hb Hb'. unfold m2. rewrite rd8_memcpy_out by lia. apply rd8_wr32. lia.
Qed.

(** push_args: the strings at the top of the stack, the pointers below. *)
Lemma push_args_spec s proc args strs :
  let m := k_ram s in let n := Z.of_nat (length strs) in let size := args_len strs in
  let top := stack_base m proc + DEFAULT_USER_STACK_SIZE in let E := stack_ptr m proc in
  args_placed m proc args size -> args_fit m proc strs -> args_at m args strs ->
  wp (push_args proc n size args top) s (fun '(stack, va) s' => exists m',
    s' = set_k_ram m' s /\ stack = top - size - 4 * n /\ va = E - size - 4 * n /\
    rd32 m' (esp_addr m proc) = va /\ argv_at m' stack (E - size) (top - size) strs size /\
    forall a, a < stack \/ top <= a -> a < esp_addr m proc \/ esp_addr m proc + 4 <= a -> rd8 m' a = rd8 m a).
Proof.
  intros m n size top E [P1 P2 P3 P4 D1 D2 D3 D4 D5] [F1 F2 F3 F4] HA.
  destruct strs as [|cur rest]; [done|]. assert (Hs : 1 <= size) by (unfold size; cbn [args_len]; pose proof (args_len_nonneg rest); lia).
  pose proof (rd32_range m (proc + p_stack_paddr)) as Rb. pose proof (rd32_range m (proc + p_task)) as Rt.
  pose proof (rd32_range m (esp_addr m proc)) as RE. fold (stack_base m proc) in Rb. fold (main_task m proc) in Rt. fold E in RE, F4.
  set (ea := esp_addr m proc) in *. assert (Hea : ea = main_task m proc + 52) by (unfold ea; args_lia).
  set (B := stack_base m proc) in *. set (T := main_task m proc) in *.
  assert (Hn : n = 1 + Z.of_nat (length rest)) by (unfold n; cbn [length]; lia).
  assert (Htop : top = B + 16384) by done. change (4 * n + size + 8 <= 16384) in F3. change (16384 <= E) in F4.
  unfold SIZEOF_PROCESS, SIZEOF_TASK, DEFAULT_USER_STACK_SIZE, apart in *.
  unfold push_args. wpk. rewrite (u32_small (proc + p_task)) by (unfold p_task; lia).
  change (rd32 (k_ram s) (proc + p_task)) with T. change (T + t_registers + r_esp) with ea.
  assert (HE : rd32 m ea = E) by done. assert (Hsize : args_len (cur :: rest) = size) by done.
  clearbody T ea B E size n top. rewrite HE in RE. rewrite ?(u32_small ea) by lia. knorm. fold m. rewrite HE.
  rewrite !rd32_wr32, !(u32_small (E - size)), !(u32_small (top - size)), (u32_small size), (u32_small (4 * n)) by lia.
  rewrite !(u32_small (top - size - 4 * n)) by lia.
  apply wp_kram. wpk. knorm. rewrite ?(u32_small ea), ?(u32_small (top - size - 4 * n)) by lia. fold m.
  destruct (copied_args m ea args (top - size) (E - size) size (cur :: rest) HA Hsize) as (E2 & A2 & K2);
    [unfold apart; lia..|].
  set (m2 := memcpy (top - size) args size (wr32 m ea (E - size))) in *. rewrite E2, !rd32_wr32.
  rewrite !(u32_small (E - size - 4 * n)) by lia.
  set (m4 := wr32 (wr32 m2 ea (E - size - 4 * n)) (top - size - 4 * n) (E - size)).
  assert (K4 : forall a, a < top - size - 4 * n \/ top - size - 4 * n + 4 <= a -> a < ea \/ ea + 4 <= a -> rd8 m4 a = rd8 m2 a)
    by (intros a Ha Ha'; unfold m4; by rewrite !rd8_wr32 by lia).
  replace (Z.to_nat (n - 1)) with (length rest) by lia. set (s4 := set_k_ram m4 s).
  assert (A4 : args_at m4 (top - size) (cur :: rest)) by (apply (args_at_ext m2); try done; try lia; intros; apply K4; lia).
  wp_apply (set_arg_ptrs_spec rest s4 cur 1 (top - size - 4 * n) (top - size) (E - size)); try done; try lia.
  intros _ s' (m5 & -> & Hv & K5). wpk. exists m5. split_and!; try done.
  - transitivity (rd32 m4 ea); [apply rd32_ext; intros; apply K5; lia|]. unfold m4. rewrite rd32_wr32_ne, rd32_wr32 by lia.
    apply u32_small. lia.
  - intros [|i] l Hl; [injection Hl as <-|].
    + exists 0. split; [cbn [args_len] in Hsize; pose proof (args_len_nonneg rest); lia|]. rewrite !Z.add_0_r. split.
      * transitivity (rd32 m4 (top - size - 4 * n)); [apply rd32_ext; intros; apply K5; lia|]. unfold m4. rewrite rd32_wr32.
        apply u32_small. lia.
      * destruct A4 as [C4 _]. cbn [args_len] in Hsize. pose proof (args_len_nonneg rest).
        apply (cstr_ext m4); [|done]. intros a Ha. apply K5. lia.
    + destruct (Hv i l Hl) as (o & Ho & Hp & Hc). exists o. rewrite <- Hp. split; [lia|]. split; [f_equal; lia | done].
  - intros a Ha Ha'. rewrite K5, <- K2 by lia. apply K4; lia.
Qed.

(** The stack of a process that can start: [argc], [argv] and the pointers
    are read through the process's addresses ([pa] maps them to the stack
    buffer). *)
Record starts_with (m m' : ram) (proc : Z) (strs : list (list Z)) : Prop := {
  sw_status : rd8 m' (proc + p_status) = PROC_CAN_START;
  sw_esp : rd32 m' (esp_addr m proc) = stack_ptr m proc - args_len strs - 4 * Z.of_nat (length strs) - 8;
  sw_main : let pa va := stack_base m proc + DEFAULT_USER_STACK_SIZE - (stack_ptr m proc - va) in
    let sp := rd32 m' (esp_addr m proc) in
    rd32 m' (pa sp) = Z.of_nat (length strs) /\
    rd32 m' (pa (sp + 4)) = sp + 8 /\
    forall i l, strs !! i = Some l -> exists va,
      rd32 m' (pa (sp + 8 + 4 * Z.of_nat i)) = va /\ stack_ptr m proc - args_len strs <= va < stack_ptr m proc /\
      cstr m' (pa va) l;
  sw_frame : forall a, a <> proc + p_status -> a < esp_addr m proc \/ esp_addr m proc + 4 <= a ->
    a < stack_base m proc \/ stack_base m proc + DEFAULT_USER_STACK_SIZE <= a -> rd8 m' a = rd8 m a }.

(** The last writes, below the pointers. *)
Lemma starts_with_intro m m5 proc args strs (stack va : Z) :
  args_placed m proc args (args_len strs) -> args_fit m proc strs ->
  let n := Z.of_nat (length strs) in let size := args_len strs in
  let top := stack_base m proc + DEFAULT_USER_STACK_SIZE in let E := stack_ptr m proc in let ea := esp_addr m proc in
  stack = top - size - 4 * n -> va = E - size - 4 * n -> argv_at m5 stack (E - size) (top - size) strs size ->
  (forall a, a < stack \/ top <= a -> a < ea \/ ea + 4 <= a -> rd8 m5 a = rd8 m a) ->
  starts_with m (wr8 (wr32 (wr32 (wr32 m5 (stack - 4) va) (stack - 8) n) ea (va - 8)) (proc + p_status) PROC_CAN_START) proc strs.
Proof.
  intros [P1 P2 P3 P4 D1 D2 D3 D4 D5] [F1 F2 F3 F4] n size top E ea Est Eva Hv Hk.
  pose proof (args_len_nonneg strs) as Hs. assert (Hn : 1 <= n) by (unfold n; destruct strs; [done | cbn [length]; lia]).
  pose proof (rd32_range m (proc + p_stack_paddr)) as Rb. pose proof (rd32_range m (proc + p_task)) as Rt.
  pose proof (rd32_range m ea) as RE. fold (stack_base m proc) in Rb. fold (main_task m proc) in Rt.
  assert (Hea : ea = main_task m proc + 52) by (unfold ea; args_lia). fold n size in F3. fold size in Hs, D4, D5, P4. fold E in F4.
  change (rd32 m ea) with E in RE. unfold apart, SIZEOF_PROCESS, SIZEOF_TASK, DEFAULT_USER_STACK_SIZE, p_status in *.
  set (B := stack_base m proc) in *. set (T := main_task m proc) in *. set (m' := wr8 _ _ _).
  assert (Hk' : forall a, stack <= a -> a < top -> rd8 m' a = rd8 m5 a)
    by (intros a Ha Ha'; unfold m'; rewrite rd8_wr8_ne, !rd8_wr32 by lia; done).
  assert (Hesp : rd32 m' ea = va - 8)
    by (unfold m'; rewrite rd32_wr8_ne, rd32_wr32 by lia; apply u32_small; lia).
  split; fold ea E B size n; rewrite ?Hesp.
  - apply rd8_wr8_eq.
  - lia.
  - cbn zeta. unfold DEFAULT_USER_STACK_SIZE. split_and!.
    + replace (B + 1024 * 16 - (E - (va - 8))) with (stack - 8) by lia. unfold m'.
      rewrite rd32_wr8_ne, rd32_wr32_ne, rd32_wr32 by lia. apply u32_small. lia.
    + replace (B + 1024 * 16 - (E - (va - 8 + 4))) with (stack - 4) by lia. unfold m'.
      rewrite rd32_wr8_ne, !rd32_wr32_ne, rd32_wr32 by lia. rewrite u32_small by lia. lia.
    + intros i l Hl. destruct (Hv i l Hl) as (o & Ho & Hp & Hc). exists (E - size + o). split_and!; try lia.
      * replace (B + 1024 * 16 - (E - (va - 8 + 8 + 4 * Z.of_nat i))) with (stack + 4 * Z.of_nat i) by lia.
        rewrite <- Hp. apply lookup_lt_Some in Hl. apply rd32_ext. intros a Ha. apply Hk'; lia.
      * replace (B + 1024 * 16 - (E - (E - size + o))) with (top - size + o) by lia.
        apply (cstr_ext m5); [|done]. intros a Ha. apply Hk'; lia.
  - unfold DEFAULT_USER_STACK_SIZE, p_status. intros a Ha Ha1 Ha2. unfold m'. rewrite rd8_wr8_ne, !rd8_wr32 by lia. apply Hk; lia.
Qed.

(** C18: process_add_arguments.  For a process that is being created and a
    buffer of [argc] terminated strings that fits on the stack together with
    the pointers, [argv] and [argc], the call succeeds and the process can
    start: at its stack pointer are [argc] and [argv], [argv] points to [argc]
    pointers, and pointer [i] is the address, in the address space of the
    process, of a copy of argument [i].  Only the stack, the saved stack
    pointer and the status change. *)
Theorem arguments_on_stack (s : kstate) (proc args : Z) (strs : list (list Z))
    (HP : args_placed (k_ram s) proc args (args_len strs)) (HF : args_fit (k_ram s) proc strs)
    (HA : args_at (k_ram s) args strs) (Hst : rd8 (k_ram s) (proc + p_status) = PROC_CREATING) :
  wp (process_add_arguments proc (Z.of_nat (length strs)) (args_len strs) args) s (fun r s' =>
    r = STATUS_OK /\ exists m', s' = set_k_ram m' s /\ starts_with (k_ram s) m' proc strs).
Proof.
  pose proof HP as [P1 P2 P3 P4 D1 D2 D3 D4 D5]. pose proof HF as [F1 F2 F3 F4].
  pose proof (push_args_spec s proc args strs HP HF HA) as HW. cbn zeta in HW. pose proof (args_len_nonneg strs) as Hs.
  assert (Hn : 1 <= Z.of_nat (length strs)) by (destruct strs; [done | cbn [length]; lia]).
  pose proof (rd32_range (k_ram s) (proc + p_stack_paddr)) as Rb. pose proof (rd32_range (k_ram s) (proc + p_task)) as Rt.
  pose proof (rd32_range (k_ram s) (esp_addr (k_ram s) proc)) as RE.
  fold (stack_base (k_ram s) proc) in Rb. fold (main_task (k_ram s) proc) in Rt. fold (stack_ptr (k_ram s) proc) in RE.
  assert (Hea : esp_addr (k_ram s) proc = main_task (k_ram s) proc + 52) by args_lia.
  set (m := k_ram s) in *. set (n := Z.of_nat (length strs)) in *. set (size := args_len strs) in *.
  set (B := stack_base m proc) in *. set (T := main_task m proc) in *. set (ea := esp_addr m proc) in *. set (E := stack_ptr m proc) in *.
  change (4 * n + size + 8 <= 16384) in F3. change (16384 <= E) in F4. change (B + 16384 < 4294967296) in P3.
  unfold process_add_arguments. wpk. rewrite (u32_small (proc + p_status)) by args_lia. fold m. rewrite Hst, Z.eqb_refl. cbn [negb]. wpk.
  rewrite (u32_small (4 * n)), (u32_small (4 * n + size)) by lia.
  rewrite (proj2 (Z.ltb_ge DEFAULT_USER_STACK_SIZE (4 * n + size))) by args_lia. wpk.
  rewrite (u32_small (proc + p_stack_paddr)), (u32_small (proc + p_task)) by args_lia. fold m.
  change (rd32 m (proc + p_stack_paddr)) with B. change (rd32 m (proc + p_task)) with T.
  rewrite (u32_small (B + DEFAULT_USER_STACK_SIZE)) by args_lia.
  rewrite (proj2 (Z.eqb_neq n 0)) by lia. wp_apply HW. intros [stack va] s' (m5 & -> & Est & Eva & Hesp & Hv & Hk). wpk. knorm.
  change (T + t_registers + r_esp) with ea.
  assert (Hst4 : 8 <= stack /\ stack < 4294967296) by (unfold DEFAULT_USER_STACK_SIZE in *; lia).
  rewrite !(u32_small (stack - 4)) by lia. replace (stack - 4 - 4) with (stack - 8) by lia.
  rewrite !(u32_small (stack - 8)), !(u32_small ea), (u32_small (proc + p_status)) by args_lia.
  rewrite !rd32_wr32_ne, Hesp by args_lia. rewrite (u32_small (va - 8)) by lia.
  split; [done|]. eexists. split; [reflexivity|]. by apply (starts_with_intro m m5 proc args strs).
Qed.
End arguments.

(** A process at 0x110000 that is being created, with its task at 0xC00000
    and its stack at 0xD00000, and the arguments "ab" and "c" at 0xE00000. *)
Definition creating_ram : ram :=
  let m := wr8 ∅ (0x110000 + p_status) PROC_CREATING in
  let m := wr32 (wr32 m (0x110000 + p_task) 0xC00000) (0x110000 + p_stack_paddr) 0xD00000 in
  let m := wr32 m (0xC00000 + t_registers + r_esp) DEFAULT_USER_STACK_START in
  wr8 (wr8 (wr8 m 0xE00000 97) 0xE00001 98) 0xE00003 99.
Definition creating_proc : kstate := kernel_on (ready creating_ram) (mk_sched 0 0 0 0).

Lemma arguments_on_stack_witness :
  exists s', process_add_arguments (plat := test_platform) (lay := image) 0x110000 2 5 0xE00000 creating_proc = Ret STATUS_OK s' /\
    rd32 (k_ram s') (0xC00000 + t_registers + r_esp) = DEFAULT_USER_STACK_START - 21.
Proof.
  set (strs := [[97; 98]; [99]]).
  assert (ET : main_task (k_ram creating_proc) 0x110000 = 0xC00000) by (vm_compute; reflexivity).
  assert (EB : stack_base (k_ram creating_proc) 0x110000 = 0xD00000) by (vm_compute; reflexivity).
  assert (EE : stack_ptr (k_ram creating_proc) 0x110000 = DEFAULT_USER_STACK_START) by (vm_compute; reflexivity).
  assert (HP : args_placed (k_ram creating_proc) 0x110000 0xE00000 (args_len strs)).
  { split; rewrite ?ET, ?EB; unfold apart, SIZEOF_PROCESS, SIZEOF_TASK, DEFAULT_USER_STACK_SIZE; cbn; lia. }
  assert (HF : args_fit (plat := test_platform) (k_ram creating_proc) 0x110000 strs).
  { split; rewrite ?EE; [done | | vm_compute; discriminate | vm_compute; discriminate]. repeat constructor; cbn; lia. }
  assert (HA : args_at (k_ram creating_proc) 0xE00000 strs).
  { cbn [args_at strs length]. split_and!; [..|exact I];
      repeat (apply cstr_cons; split; [lia|]; split; [lia|]; split; [vm_compute; reflexivity|]);
      (apply cstr_nil; [lia | vm_compute; reflexivity]). }
  assert (Hst : rd8 (k_ram creating_proc) (0x110000 + p_status) = PROC_CREATING) by (vm_compute; reflexivity).
  destruct (proj1 (wp_run _ _ _) (arguments_on_stack (plat := test_platform) (lay := image) creating_proc 0x110000 0xE00000 strs HP HF HA Hst))
    as (r & s' & E & HQ).
  destruct HQ as [-> (m' & Es & W)]. exists s'. split; [exact E|]. pose proof (sw_esp _ _ _ _ W) as He. rewrite EE in He.
  unfold esp_addr in He. rewrite ET in He. rewrite Es. exact He.
Defined.
