(* ===== verification/ElfBounds.v ===== *)
(** * elf_process_loaded: the extent of an ELF image

    The loader walks the program headers once and keeps, in the structure of
    the file, the lowest address of the loadable segments and the highest end
    of their bytes in the file, where 0 stands for "none yet". *)
From Stdlib Require Import ZArith Lia String.
From stdpp Require Import base numbers gmap list strings.
From S2P Require Import Prelude Config Memory Machine Console Kheap Paging Disk Path File Kernel Elf Blocks Task TaskList TaskLife Scheduler Process ProcTable.
Local Open Scope Z_scope.

Section bounds.
Context {plat : Platform} {fsys : FileSystems} {lay : Layout}.
Context (m0 : ram) (file : Z).

(** The file in memory, and the header [i] of its program header table. *)
Definition image_header : Z := rd32 m0 (file + f_elf_memory).
Definition phdr (i : Z) : Z := image_header + rd32 m0 (image_header + e_phoff) + SIZEOF_PHDR * i.
Definition phnum : Z := rd16 m0 (image_header + e_phnum).

Definition seg_load (i : Z) : Prop := rd32 m0 (phdr i + ph_type) = PT_LOAD.
Definition seg_start (i : Z) : Z := rd32 m0 (phdr i + ph_vaddr).
Definition seg_end (i : Z) : Z := seg_start i + rd32 m0 (phdr i + ph_filesz).
Definition seg_phys (i : Z) : Z := u32 (image_header + rd32 m0 (phdr i + ph_offset)).
Definition seg_phys_end (i : Z) : Z :=
  u32 (image_header + rd32 m0 (phdr i + ph_offset) + rd32 m0 (phdr i + ph_filesz)).

(** The structure and the file lie in the address space, apart from each
    other; loadable segments neither start at 0 nor wrap around. *)
Record elf_placed : Prop := {
  ep_file : 0 <= file /\ file + SIZEOF_ELF_FILE <= 4294967296;
  ep_header : image_header + 52 <= 4294967296 /\ apart image_header 52 file SIZEOF_ELF_FILE;
  ep_table : phdr phnum <= 4294967296 /\ apart (phdr 0) (SIZEOF_PHDR * phnum) file SIZEOF_ELF_FILE;
  ep_segs : forall i, 0 <= i < phnum -> seg_load i -> 0 < seg_start i /\ seg_end i < 4294967296;
  ep_fresh : rd32 m0 (file + f_virtual_base) = 0 /\ rd32 m0 (file + f_virtual_end) = 0 }.

(** Only the four fields are written. *)
Definition elf_frame (m : ram) : Prop :=
  forall a, a < file + f_virtual_base \/ file + SIZEOF_ELF_FILE <= a -> rd8 m a = rd8 m0 a.

(** The fields after the first [n] headers. *)
Definition elf_extent (n : Z) (m : ram) : Prop :=
  ((forall i, 0 <= i < n -> ~ seg_load i) /\ rd32 m (file + f_virtual_base) = 0 /\ rd32 m (file + f_virtual_end) = 0) \/
  (exists lo hi, 0 <= lo < n /\ 0 <= hi < n /\ seg_load lo /\ seg_load hi /\
     rd32 m (file + f_virtual_base) = seg_start lo /\ rd32 m (file + f_physical_base) = seg_phys lo /\
     rd32 m (file + f_virtual_end) = seg_end hi /\ rd32 m (file + f_physical_end) = seg_phys_end hi /\
     forall i, 0 <= i < n -> seg_load i -> seg_start lo <= seg_start i /\ seg_end i <= seg_end hi).

Ltac elf_off := unfold f_elf_memory, f_virtual_base, f_virtual_end, f_physical_base, f_physical_end, SIZEOF_ELF_FILE,
  SIZEOF_PHDR, ph_type, ph_offset, ph_vaddr, ph_filesz, e_phoff, e_phnum in *.

Hypothesis HP : elf_placed.

Lemma frame_word m a : elf_frame m -> 0 <= a -> a + 4 <= 4294967296 ->
  apart a 4 (file + f_virtual_base) 16 -> rd32 m (u32 a) = rd32 m0 a.
Proof. intros H ???. rewrite u32_small by lia. apply rd32_ext. intros b Hb. apply H. unfold apart in *. elf_off. lia. Qed.

(** The words of program header [i] are those of the file, whatever the fields
    hold. *)
Lemma phdr_word m i off : elf_frame m -> 0 <= i < phnum -> 0 <= off <= 28 -> word m (phdr i) off = rd32 m0 (phdr i + off).
Proof.
  intros H Hi Ho. destruct HP as [H1 H2 [H3 H4] _ _]. apply frame_word; [done | | |]; unfold apart, phdr in *;
    pose proof (rd32_range m0 (file + f_elf_memory)); pose proof (rd32_range m0 (image_header + e_phoff));
    unfold image_header in *; elf_off; lia.
Qed.

Lemma file_word m : elf_frame m -> elf_memory m file = image_header.
Proof. intros H. destruct HP as [H1 _ _ _ _]. apply frame_word; [done | ..]; unfold apart; elf_off; lia. Qed.

Lemma frame_wr32 m off v : elf_frame m -> 116 <= off <= 128 -> elf_frame (wr32 m (u32 (file + off)) v).
Proof.
  intros H Ho a Ha. destruct HP as [H1 _ _ _ _]. rewrite u32_small by (elf_off; lia).
  rewrite rd8_wr32 by (elf_off; lia). by apply H.
Qed.

Lemma field_word m off : 0 <= off <= 128 -> word m file off = rd32 m (file + off).
Proof. intros Ho. destruct HP as [H1 _ _ _ _]. unfold word. by rewrite u32_small by (elf_off; lia). Qed.

Lemma field_addr off : 0 <= off <= 128 -> u32 (file + off) = file + off.
Proof. intros Ho. destruct HP as [H1 _ _ _ _]. apply u32_small. elf_off. lia. Qed.
(** The two fields of one bound, updated together or not at all. *)
Definition fields_set (b : bool) (m m' : ram) (off off' v v' : Z) : Prop :=
  elf_frame m' /\ rd32 m' (file + off) = (if b then v else rd32 m (file + off)) /\
  rd32 m' (file + off') = (if b then v' else rd32 m (file + off')) /\
  forall x, apart x 4 (file + off) 4 -> apart x 4 (file + off') 4 -> rd32 m' x = rd32 m x.

Lemma wp_fields (b : bool) off off' v v' (f : ram -> Z) (s : kstate) (Q : unit -> kstate -> Prop) :
  elf_frame (k_ram s) -> 116 <= off -> off + 8 = off' -> off' <= 128 -> is_u32 v -> is_u32 v' ->
  (forall m, elf_frame m -> f m = v') ->
  (forall m', fields_set b (k_ram s) m' off off' v v' -> Q tt (set_k_ram m' s)) ->
  wp (if b then kst32 (file + off) v;; m ← gets k_ram; kst32 (file + off') (f m) else mret tt) s Q.
Proof.
  intros F H1 H2 H3 Hv Hv' Hf HQ. unfold is_u32 in *. destruct b; wpk.
  - assert (F1 := frame_wr32 (k_ram s) off v F ltac:(lia)). knorm. rewrite Hf by done. apply HQ.
    split; [apply frame_wr32; [exact F1 | lia]|]. rewrite !field_addr by lia.
    rewrite rd32_wr32_ne, !rd32_wr32, !u32_small by lia. split_and!; [done | done |].
    intros x Ha Hb. by rewrite !rd32_wr32_ne by (unfold apart in *; lia).
  - rewrite <- (set_k_ram_id s). by apply HQ.
Qed.

Lemma load_fields (s : kstate) i :
  elf_frame (k_ram s) -> 0 <= i < phnum -> seg_load i ->
  wp (elf_process_phdr_pt_load file (phdr i)) s (fun r s' => r = 0 /\ exists m1 m2, s' = set_k_ram m2 s /\
    let base := rd32 (k_ram s) (file + f_virtual_base) in
    let vend := rd32 (k_ram s) (file + f_virtual_end) in
    fields_set ((seg_start i <=? base) || (base =? 0)) (k_ram s) m1 f_virtual_base f_physical_base (seg_start i) (seg_phys i) /\
    fields_set ((vend <=? seg_end i) || (vend =? 0)) m1 m2 f_virtual_end f_physical_end (seg_end i) (seg_phys_end i)).
Proof.
  intros F Hi Hl. pose proof (ep_segs HP i Hi Hl) as [Hs He]. unfold elf_process_phdr_pt_load.
  apply wp_bind, wp_gets, wp_bind. unfold elf_virtual_base. rewrite phdr_word, !field_word by (done || elf_off; lia).
  pose proof (rd32_range m0 (phdr i + ph_vaddr)) as Rv. pose proof (rd32_range m0 (phdr i + ph_filesz)) as Rf.
  apply (wp_fields _ _ _ _ (seg_phys i)); [done | elf_off; lia.. | exact Rv | apply u32_range | |].
  { intros m Fm. by rewrite (file_word m Fm), phdr_word by (done || elf_off; lia). }
  intros m1 S1. apply wp_bind, wp_gets, wp_bind. pose proof S1 as (F1 & _ & _ & O1). knorm.
  unfold elf_virtual_end. rewrite !phdr_word, !field_word by (done || elf_off; lia).
  change (rd32 m0 (phdr i + ph_vaddr) + rd32 m0 (phdr i + ph_filesz)) with (seg_end i).
  assert (0 <= seg_end i < 4294967296) by (split; [unfold seg_end, seg_start; lia | done]).
  rewrite (u32_small (seg_end i)) by done. rewrite (O1 (file + f_virtual_end)) by (unfold apart; elf_off; lia).
  apply (wp_fields _ _ _ _ (seg_phys_end i)); [done | elf_off; lia.. | done | apply u32_range | |].
  { intros m Fm. by rewrite (file_word m Fm), !phdr_word by (done || elf_off; lia). }
  intros m2 S2. apply wp_ret. split; [done|]. exists m1, m2. split_and!; [by knorm | exact S1 | exact S2].
Qed.

Lemma extent_skip n m : 0 <= n -> elf_extent n m -> ~ seg_load n -> elf_extent (n + 1) m.
Proof.
  intros Hn H Hl. assert (Hs : forall i, 0 <= i < n + 1 -> seg_load i -> 0 <= i < n).
  { intros i Hi Hi'. destruct (decide (i = n)) as [->|]; [done | lia]. }
  destruct H as [(H1 & H2)|(lo & hi & ? & ? & ? & ? & ? & ? & ? & ? & H3)].
  - left. split; [|done]. intros i Hi Hi'. apply (H1 i); auto.
  - right. exists lo, hi. split_and!; try done; try lia. intros i Hi Hi'. apply H3; auto.
Qed.

Lemma extent_step n m m1 m2 : 0 <= n < phnum -> seg_load n -> elf_extent n m ->
  let base := rd32 m (file + f_virtual_base) in
  let vend := rd32 m (file + f_virtual_end) in
  fields_set ((seg_start n <=? base) || (base =? 0)) m m1 f_virtual_base f_physical_base (seg_start n) (seg_phys n) ->
  fields_set ((vend <=? seg_end n) || (vend =? 0)) m1 m2 f_virtual_end f_physical_end (seg_end n) (seg_phys_end n) ->
  elf_extent (n + 1) m2.
Proof.
  intros Hn Hl Hx. cbv zeta. intros (_ & B1 & B2 & O1) (_ & E1 & E2 & O2).
  assert (A : forall x y, apart (file + x) 4 (file + y) 4 <-> x + 4 <= y \/ y + 4 <= x) by (intros; unfold apart; lia).
  rewrite (O1 (file + f_virtual_end)) in E1 by (apply A; elf_off; lia).
  rewrite (O1 (file + f_physical_end)) in E2 by (apply A; elf_off; lia).
  rewrite <- (O2 (file + f_virtual_base)) in B1 by (apply A; elf_off; lia).
  rewrite <- (O2 (file + f_physical_base)) in B2 by (apply A; elf_off; lia).
  right. destruct Hx as [(H1 & H2 & H3)|(lo & hi & Hlo & Hhi & L1 & L2 & V1 & V2 & V3 & V4 & H3)].
  - rewrite H2, H3, Z.eqb_refl, orb_true_r in *. exists n, n. split_and!; try done; try lia.
    intros i Hi Hi'. destruct (decide (i = n)) as [->|]; [lia|]. exfalso. apply (H1 i); [lia | done].
  - rewrite V1, V3 in *. pose proof (ep_segs HP lo ltac:(lia) L1) as [P1 _].
    pose proof (ep_segs HP hi ltac:(lia) L2) as [P2 _]. pose proof (rd32_range m0 (phdr hi + ph_filesz)) as Rf.
    rewrite (proj2 (Z.eqb_neq (seg_start lo) 0)), orb_false_r in * by lia.
    rewrite (proj2 (Z.eqb_neq (seg_end hi) 0)), orb_false_r in * by (unfold seg_end; lia).
    exists (if seg_start n <=? seg_start lo then n else lo), (if seg_end hi <=? seg_end n then n else hi).
    destruct (Z.leb_spec (seg_start n) (seg_start lo)), (Z.leb_spec (seg_end hi) (seg_end n));
      split_and!; try done; try lia; try congruence; intros i Hi Hi';
      (destruct (decide (i = n)) as [->|]; [lia | pose proof (H3 i ltac:(lia) Hi'); lia]).
Qed.
Lemma program_header_addr m i : elf_frame m -> rd32 m0 (image_header + e_phoff) <> 0 -> 0 <= i < phnum ->
  elf_program_header m image_header i = phdr i.
Proof.
  intros F Hne Hi. destruct HP as [H1 [H2 H2'] [H3 H4] _ _]. unfold elf_program_header, elf_pheader, word.
  assert (0 <= image_header) by (unfold image_header; apply rd32_range).
  rewrite (frame_word m (image_header + e_phoff) F) by (unfold apart in *; elf_off; lia).
  rewrite (proj2 (Z.eqb_neq _ 0)) by done. pose proof (rd32_range m0 (image_header + e_phoff)).
  unfold phdr in *. elf_off. rewrite (u32_small (image_header + _)) by lia. rewrite u32_small by lia. lia.
Qed.

Lemma phnum_read m : elf_frame m -> rd16 m (u32 (image_header + e_phnum)) = phnum.
Proof.
  intros F. destruct HP as [H1 [H2 H2'] _ _ _]. assert (0 <= image_header) by (unfold image_header; apply rd32_range).
  rewrite u32_small by (elf_off; lia). apply rd16_ext. intros a Ha. apply F. unfold apart in *. elf_off. lia.
Qed.

Lemma pheaders_loop_spec n : rd32 m0 (image_header + e_phoff) <> 0 -> forall (s : kstate) i,
  elf_frame (k_ram s) -> elf_extent i (k_ram s) -> 0 <= i <= phnum -> phnum - i <= Z.of_nat n ->
  wp (pheaders_loop n file image_header i 0) s (fun r s' => r = 0 /\ exists m', s' = set_k_ram m' s /\ elf_frame m' /\ elf_extent phnum m').
Proof.
  intros Hne. induction n as [|n IH]; intros s i F Hx Hi Hn; cbn [pheaders_loop].
  { apply wp_ret. split; [done|]. exists (k_ram s). rewrite set_k_ram_id. by replace phnum with i by lia. }
  apply wp_bind, wp_gets. rewrite (phnum_read _ F). destruct (Z.ltb_spec i phnum) as [Hlt|].
  2: { apply wp_ret. split; [done|]. exists (k_ram s). rewrite set_k_ram_id. by replace phnum with i by lia. }
  rewrite program_header_addr by (done || lia). apply wp_bind. unfold elf_process_pheader. apply wp_bind, wp_gets.
  rewrite phdr_word by (done || elf_off; lia). destruct (Z.eqb_spec (rd32 m0 (phdr i + ph_type)) PT_LOAD) as [Hl|Hl].
  - wp_apply (load_fields s i F ltac:(lia) Hl). intros r s1 (-> & m1 & m2 & -> & S1 & S2). cbn [Z.ltb Z.compare].
    eapply wp_mono; [apply IH; knorm; [apply S2 | apply (extent_step i (k_ram s) m1); done || lia | lia | lia]|].
    intros r s' (-> & m' & -> & ?). split; [done|]. exists m'. split; [by knorm | done].
  - apply wp_ret. cbn [Z.ltb Z.compare]. apply IH; [done | | lia | lia]. apply extent_skip; [lia | done..].
Qed.
End bounds.

(** The header of a file that the loader accepts: 0x7F and "ELF", a class, a
    byte order and a program header table. *)
Definition elf_accepted (m : ram) (header : Z) : Prop :=
  (rd8 m header = 0x7F /\ rd8 m (header + 1) = 0x45 /\ rd8 m (header + 2) = 0x4C /\ rd8 m (header + 3) = 0x46) /\
  (rd8 m (header + EI_CLASS) = ELFCLASSNONE \/ rd8 m (header + EI_CLASS) = ELFCLASS32) /\
  (rd8 m (header + EI_DATA) = ELFDATANONE \/ rd8 m (header + EI_DATA) = ELFDATA2LSB) /\
  rd32 m (header + e_phoff) <> 0.

Section load.
Context {plat : Platform} {fsys : FileSystems} {lay : Layout}.
Context (Hsig : 0 <= elf_signature_addr /\ elf_signature_addr + 4 <= 4294967296).

(** The constant is in memory as the image has it. *)
Definition signature_loaded (m : ram) : Prop :=
  forall i c, elf_signature !! i = Some c -> rd8 m (elf_signature_addr + Z.of_nat i) = c.

Lemma signature_compared m header : signature_loaded m ->
  (forall k, 0 <= k < 4 -> rd8 m (header + k) = rd8 m (elf_signature_addr + k)) <->
  (rd8 m header = 0x7F /\ rd8 m (header + 1) = 0x45 /\ rd8 m (header + 2) = 0x4C /\ rd8 m (header + 3) = 0x46).
Proof.
  intros HL. pose proof (HL 0%nat _ eq_refl) as L0. pose proof (HL 1%nat _ eq_refl) as L1.
  pose proof (HL 2%nat _ eq_refl) as L2. pose proof (HL 3%nat _ eq_refl) as L3.
  change (Z.of_nat 0) with 0 in L0. change (Z.of_nat 1) with 1 in L1. change (Z.of_nat 2) with 2 in L2. change (Z.of_nat 3) with 3 in L3.
  split.
  - intros H. rewrite <- (Z.add_0_r header) at 1. by rewrite !H, L0, L1, L2, L3 by lia.
  - intros (H0 & H1 & H2 & H3) k Hk. rewrite <- (Z.add_0_r header) in H0.
    assert (k = 0 \/ k = 1 \/ k = 2 \/ k = 3) as [-> | [-> | [-> | ->] ] ] by lia; congruence.
Qed.

Lemma validate_accepted m header : signature_loaded m -> 0 <= header -> header + 52 <= 4294967296 ->
  elf_validate_loaded m header = STATUS_OK /\ elf_accepted m header \/
  elf_validate_loaded m header = - STATUS_INVALID_EXEC_FORMAT /\ ~ elf_accepted m header.
Proof.
  intros HL H1 H2. unfold elf_validate_loaded.
  assert (H : elf_valid_signature m header && elf_valid_class m header && elf_valid_encoding m header &&
              elf_has_program_header m header = true <-> elf_accepted m header).
  { unfold elf_valid_signature, elf_valid_class, elf_valid_encoding, elf_has_program_header, elf_accepted, word.
    rewrite (u32_small (header + EI_CLASS)), (u32_small (header + EI_DATA)), (u32_small (header + e_phoff))
      by (unfold EI_CLASS, EI_DATA, e_phoff; lia).
    rewrite !andb_true_iff, !orb_true_iff, negb_true_iff, Z.eqb_neq, !Z.eqb_eq, memcmp_zero, signature_compared by (done || lia). tauto. }
  destruct (_ && _) eqn:Eb; [left | right]; (split; [done|]); rewrite <- H; done.
Qed.

(** C22: elf_process_loaded, with the constant elf_signature in memory, on a
    file whose loadable segments are at addresses other than 0 and do not wrap
    around.  A file whose header has the bytes 7F 45 4C 46, an accepted class
    and byte order and a program header table is accepted, and any other is
    refused with nothing changed.  When it is accepted, the structure of the
    file records the extent of the image: the lowest address of the loadable
    segments and the highest end of the bytes that they have in the file
    (p_filesz; the end in memory, p_memsz, is not recorded), each with the place
    in the file of the segment that has it, or zero if there is no such segment;
    nothing else is written.  With a segment at address 0 the lowest address is
    lost, since the loader takes 0 for "none yet" ([zero_base_lost]). *)
Theorem elf_extent_correct (s : kstate) (file : Z) (HP : elf_placed (k_ram s) file) (HL : signature_loaded (k_ram s)) :
  let header := image_header (k_ram s) file in
  wp (elf_process_loaded file) s (fun r s' =>
    (elf_accepted (k_ram s) header -> r = STATUS_OK /\ exists m', s' = set_k_ram m' s /\
       elf_frame (k_ram s) file m' /\ elf_extent (k_ram s) file (phnum (k_ram s) file) m') /\
    (~ elf_accepted (k_ram s) header -> r = - STATUS_INVALID_EXEC_FORMAT /\ s' = s)).
Proof.
  intros header. unfold elf_process_loaded. apply wp_bind, wp_gets.
  assert (F0 : elf_frame (k_ram s) file (k_ram s)) by done.
  change (elf_header (k_ram s) file) with (elf_memory (k_ram s) file). rewrite (file_word _ _ HP _ F0). fold header.
  apply wp_bind, wp_gets. pose proof (ep_header _ _ HP) as [Hh _]. fold header in Hh.
  destruct (validate_accepted (k_ram s) header HL) as [[-> Ha]|[-> Ha]]; [apply rd32_range | done | |].
  2: { apply wp_ret. split; [done | by split]. }
  change (STATUS_OK <? 0) with false. cbn iota. unfold elf_process_pheaders. apply wp_bind, wp_gets.
  change (elf_header (k_ram s) file) with (elf_memory (k_ram s) file). rewrite (file_word _ _ HP _ F0).
  pose proof (rd16_range (k_ram s) (header + e_phnum)) as Rn. fold header. change (rd16 _ _) with (phnum (k_ram s) file) in Rn.
  wp_apply (pheaders_loop_spec (k_ram s) file HP); [apply Ha | done | | lia | lia |].
  - left. split; [lia | apply (ep_fresh _ _ HP)].
  - intros r s' [-> H]. split; [by intros _ | done].
Qed.
End load.

(** A file of two loadable segments at 0x1010000, its structure at 0x1000000. *)
Definition elf_ram (start1 start2 : Z) : ram :=
  let h := 0x1010000 in
  let sig p m := wr32 m p 0x464C457F in
  let seg p vaddr filesz m := wr32 (wr32 (wr32 m (p + ph_type) PT_LOAD) (p + ph_vaddr) vaddr) (p + ph_filesz) filesz in
  let m := wr32 (sig h (sig 0x10C010 ∅)) (0x1000000 + f_elf_memory) h in
  let m := wr8 (wr8 m (h + EI_CLASS) ELFCLASS32) (h + EI_DATA) ELFDATA2LSB in
  let m := wr16 (wr32 m (h + e_phoff) 52) (h + e_phnum) 2 in
  seg (h + 84) start2 0x20 (seg (h + 52) start1 0x100 m).
Definition elf_example : kstate := kernel_on (ready (elf_ram 0x8400000 0x8500000)) (mk_sched 0 0 0 0).

Lemma elf_example_placed : elf_placed (k_ram elf_example) 0x1000000 /\ elf_accepted (k_ram elf_example) 0x1010000 /\
  signature_loaded (lay := image) (k_ram elf_example).
Proof.
  split_and!.
  - assert (EH : image_header (k_ram elf_example) 0x1000000 = 0x1010000) by (vm_compute; reflexivity).
    assert (EN : phnum (k_ram elf_example) 0x1000000 = 2) by (vm_compute; reflexivity).
    split; rewrite ?EH, ?EN.
    + vm_compute. split; discriminate.
    + unfold apart, SIZEOF_ELF_FILE. lia.
    + change (phdr (k_ram elf_example) 0x1000000 2) with 0x1010074. change (phdr (k_ram elf_example) 0x1000000 0) with 0x1010034.
      unfold apart, SIZEOF_ELF_FILE, SIZEOF_PHDR. lia.
    + intros i Hi _. assert (i = 0 \/ i = 1) as [-> | ->] by lia; vm_compute; split; reflexivity.
    + split; vm_compute; reflexivity.
  - unfold elf_accepted. split_and!.
    1-4: vm_compute; reflexivity.
    + right. vm_compute. reflexivity.
    + right. vm_compute. reflexivity.
    + vm_compute. discriminate.
  - intros i c. do 4 (destruct i as [|i]; [intros [= <-]; vm_compute; reflexivity|]). done.
Qed.

(** With its first segment at address 0 the file is recorded as if it began
    with the second one. *)
Lemma zero_base_lost :
  match elf_process_loaded (lay := image) 0x1000000 (kernel_on (ready (elf_ram 0 0x8500000)) (mk_sched 0 0 0 0)) with
  | Ret r s => r = STATUS_OK /\ elf_virtual_base (k_ram s) 0x1000000 = 0x8500000
  | _ => False
  end.
Proof. vm_compute. by split. Qed.

Lemma elf_extent_correct_witness :
  exists m', elf_process_loaded (lay := image) 0x1000000 elf_example = Ret STATUS_OK (set_k_ram m' elf_example) /\
    elf_extent (k_ram elf_example) 0x1000000 2 m'.
Proof.
  destruct elf_example_placed as (HP & HA & HL).
  assert (Hsig : 0 <= @elf_signature_addr image /\ @elf_signature_addr image + 4 <= 4294967296) by (cbn; lia).
  destruct (proj1 (wp_run _ _ _) (elf_extent_correct (lay := image) Hsig elf_example 0x1000000 HP HL)) as (r & s' & E & HQ).
  destruct HQ as [HQ _]. destruct (HQ HA) as (-> & m' & -> & _ & HX). exists m'. split; [exact E | exact HX].
Defined.
