(* ===== verification/ProcessImage.v ===== *)
(** * process_map_elf: the address space of a new process

    The pages of the loadable segments are mapped to the file image in the
    kernel heap, and the stack to its memory.  The mapping writes only page
    tables, so the structures that the loop reads keep their contents. *)
From Stdlib Require Import ZArith Lia String.
From stdpp Require Import base numbers gmap list strings.
From S2P Require Import Prelude Config Memory Strings Machine Console Kheap Paging AddressSpace Blocks Disk Path File Kernel Elf Task TaskList TaskLife Scheduler Process ProcTable Arguments ElfBounds.
Local Open Scope Z_scope.

(** ** Memory that work on the tables of [dir] leaves alone *)

Definition safe (x : machine) (dir a : Z) : Prop :=
  off_heap a \/ exists b, in_heap b /\ used x b /\ ~ owned x dir b /\ in_block b a.
Definition safe_range (x : machine) (dir a n : Z) : Prop := forall k, a <= k < a + n -> safe x dir k.

(** Work on the tables of [dir] that writes to the heap and its table only. *)
Definition dir_work (dir : Z) (x x' : machine) : Prop := pt_ext dir x x' /\ heap_writes x x'.

Lemma dir_work_trans dir x y z : dir_work dir x y -> dir_work dir y z -> dir_work dir x z.
Proof. intros [E1 W1] [E2 W2]. split; [by apply (pt_ext_trans _ _ y) | by apply (heap_writes_trans _ y)]. Qed.

Lemma safe_rd8 x x' dir a : dir_work dir x x' -> safe x dir a -> rd8 (m_ram x') a = rd8 (m_ram x) a.
Proof. intros [H W] [Hq|(b & ? & ? & ? & ?)]; [by apply W | by apply (ext_keep _ _ _ H b)]. Qed.

Lemma safe_rd32 x x' dir a n p :
  dir_work dir x x' -> safe_range x dir a n -> a <= p -> p + 4 <= a + n -> rd32 (m_ram x') p = rd32 (m_ram x) p.
Proof. intros H Hs ??. apply rd32_ext. intros k Hk. apply (safe_rd8 x x' dir); [done | apply Hs; lia]. Qed.

(** ** Mapped pages *)

(** Page [v] is mapped to frame [f] for user code. *)
Definition page_at (x : machine) (dir v f : Z) : Prop :=
  exists fl, (fl = 5 \/ fl = 7) /\ pte_at x dir v = Z.lor (f * 4096) fl /\ Z.testbit (pde x dir (v / 1024)) 2 = true.

Lemma testbit_mod e k : 0 <= k < 12 -> Z.testbit e k = Z.testbit (e mod 4096) k.
Proof. intros Hk. change 4096 with (2 ^ 12). by rewrite Z.mod_pow2_bits_low by lia. Qed.

Lemma page_walk x dir v f va :
  page_at x dir v f -> 0 <= va < 4294967296 -> va / 4096 = v -> 0 <= f < 1048576 ->
  exists r, mmu_walk x dir va = Some (f * 4096 + va mod 4096, r) /\ Z.testbit r 2 = true.
Proof.
  intros (fl & Hfl & Hp & Hd) Hva <- Hf. assert (Hm : f * 4096 mod 4096 = 0) by (by apply Z.mod_mul).
  rewrite mmu_walk_pte by done. cbn zeta. rewrite Hp, entry_present, entry_frame by (done || lia).
  replace (present fl) with true by (destruct Hfl as [-> | ->]; reflexivity). eexists. split; [done|].
  unfold rights. rewrite !Z.land_spec, Z.lor_spec. replace (va / 4194304) with (va / 4096 / 1024) by zlia.
  rewrite Hd. replace (Z.testbit fl 2) with true by (destruct Hfl as [-> | ->]; reflexivity).
  by rewrite orb_true_r.
Qed.

(** All tables of the region are there. *)
Definition tables_at (x : machine) (dir lo hi : Z) : Prop :=
  forall v, lo <= v < hi -> present (pde x dir (v / 1024)) = true.

Lemma map_pages x dir nl va pa va_end flags :
  pt_wf x dir -> region_args va pa va_end -> flags = 5 \/ flags = 7 -> pa + (va_end - va) <= 4294967296 ->
  tables_at x dir (va / 4096) (va_end / 4096) ->
  wp (paging_map_memory_region (mk_pt dir nl) va pa va_end flags) x (fun r x' =>
    r = STATUS_OK /\ dir_work dir x x' /\
    (forall v, va / 4096 <= v < va_end / 4096 -> page_at x' dir v (pa / 4096 + (v - va / 4096))) /\
    (forall a, va <= a < va_end -> mmu_walk x' dir a = Some (pa + (a - va), Z.land flags 6)) /\
    (forall v f, 0 <= v < 1048576 -> v < va / 4096 \/ va_end / 4096 <= v -> page_at x dir v f -> page_at x' dir v f) /\
    (forall lo hi, 0 <= lo -> hi <= 1048576 -> tables_at x dir lo hi -> tables_at x' dir lo hi)).
Proof.
  intros Hwf Ha Hfl Hfit Ht. assert (Hf : 0 <= flags < 256) by (destruct Hfl; lia).
  assert (Hp : present flags = true) by (destruct Hfl as [-> | ->]; reflexivity).
  assert (Hb : Z.testbit flags 2 = true) by (destruct Hfl as [-> | ->]; reflexivity).
  wp_apply (map_region_spec x dir nl va pa va_end flags Hwf Ha Hf Hp). intros r x' (He & Ho & Hd & Hr).
  destruct Ha as (? & ? & ? & ? & ? & ? & ?). unfold is_u32 in *.
  destruct Hr as [(-> & Hw & Hm)|(_ & _ & v & Hv & Hmiss)]; [|by rewrite (Ht v Hv) in Hmiss].
  split; [done|]. split; [done|]. split_and!.
  - intros v Hv. destruct (Hm v Hv) as (E1 & E2 & _). exists flags. split_and!; [done | | by rewrite testbit_mod, E2 by lia].
    rewrite E1. f_equal. unfold PAGE_SIZE. apply u32_small. zlia.
  - intros a Hr. destruct (Hm (a / 4096)) as (E1 & E2 & _); [zlia|].
    replace (pa + (a - va)) with (pa + (a / 4096 - va / 4096) * 4096 + a mod 4096) by zlia.
    apply mmu_walk_mapped; try done; [lia | zlia | zlia | | by replace (a / 4194304) with (a / 4096 / 1024) by zlia].
    rewrite E1. f_equal. unfold PAGE_SIZE. rewrite u32_small by zlia. zlia.
  - intros v f Hv Hout (fl & ? & E1 & E2). exists fl. split_and!; [done | by rewrite Ho |].
    destruct (Hd (v / 1024) ltac:(zlia)) as [->|(E & _)]; [done | by rewrite testbit_mod, E by lia].
  - intros lo hi Hlo Hhi Hpre v Hv. destruct (Hd (v / 1024) ltac:(zlia)) as [->|(_ & E & _)]; [by apply Hpre | done].
Qed.

(** ** The image *)

Section image.
Context {plat : Platform} {fsys : FileSystems} {lay : Layout} (s0 : kstate) (proc : Z).

Definition proc_file : Z := rd32 (k_ram s0) (proc + p_image).
Definition proc_task : Z := rd32 (k_ram s0) (proc + p_task).
Definition proc_dir : Z := rd32 (k_ram s0) (proc_task + t_page_table).
Definition proc_stack : Z := rd32 (k_ram s0) (proc + p_stack_paddr).

Local Abbreviation m0 := (k_ram s0).
Local Abbreviation x0 := (k_mach s0).
Local Abbreviation file := proc_file.
Local Abbreviation dir := proc_dir.
Local Abbreviation header := (image_header m0 file).
Local Abbreviation load := (seg_load m0 file).
Local Abbreviation start := (seg_start m0 file).
Local Abbreviation phys := (seg_phys m0 file).

Definition seg_size (i : Z) : Z := rd32 m0 (phdr m0 file i + ph_memsz).

(** The pages of segment [i]. *)
Definition seg_lo (i : Z) : Z := start i / 4096.
Definition seg_hi (i : Z) : Z := (start i + seg_size i + 4095) / 4096.

(** A segment that is the same in memory and in the file, whose place in
    memory agrees with its place in the image up to a multiple of the page size,
    as the format requires. *)
Record seg_ok (i : Z) : Prop := {
  so_size : rd32 m0 (phdr m0 file i + ph_filesz) = seg_size i /\ 0 < seg_size i;
  so_room : start i + seg_size i <= 4294963200 /\ phys i + seg_size i <= 4294963200;
  so_place : header + rd32 m0 (phdr m0 file i + ph_offset) < 4294967296 /\ phys i mod 4096 = start i mod 4096;
  so_tables : tables_at x0 dir (seg_lo i) (seg_hi i);
  so_stack : seg_hi i <= DEFAULT_USER_STACK_END / 4096 \/ DEFAULT_USER_STACK_START / 4096 <= seg_lo i }.

Record image_placed : Prop := {
  ip_wf : pt_wf x0 dir;
  ip_proc : 0 <= proc /\ proc + SIZEOF_PROCESS <= 4294967296 /\ safe_range x0 dir proc SIZEOF_PROCESS;
  ip_task : proc_task + SIZEOF_TASK <= 4294967296 /\ safe_range x0 dir proc_task SIZEOF_TASK;
  ip_file : file + SIZEOF_ELF_FILE <= 4294967296 /\ safe_range x0 dir file SIZEOF_ELF_FILE;
  ip_header : header + 52 <= 4294967296 /\ rd32 m0 (header + e_phoff) <> 0;
  ip_table : phdr m0 file (phnum m0 file) < 4294967296 /\
    safe_range x0 dir (phdr m0 file 0) (SIZEOF_PHDR * phnum m0 file);
  ip_segs : forall i, 0 <= i < phnum m0 file -> load i -> seg_ok i;
  ip_apart : forall i j, 0 <= i < phnum m0 file -> 0 <= j < phnum m0 file -> load i -> load j -> i <> j ->
    seg_hi i <= seg_lo j \/ seg_hi j <= seg_lo i;
  ip_stack : proc_stack mod 4096 = 0 /\ proc_stack + DEFAULT_USER_STACK_SIZE <= 4294967296 /\
    tables_at x0 dir (DEFAULT_USER_STACK_END / 4096) (DEFAULT_USER_STACK_START / 4096) }.

Hypothesis HI : image_placed.

(** After the first [k] headers. *)
Record mapped_to (k : Z) (x : machine) : Prop := {
  mt_ext : dir_work dir x0 x;
  mt_tables : forall lo hi, 0 <= lo -> hi <= 1048576 -> tables_at x0 dir lo hi -> tables_at x dir lo hi;
  mt_pages : forall i v, 0 <= i < k -> load i -> seg_lo i <= v < seg_hi i -> page_at x dir v (phys i / 4096 + (v - seg_lo i)) }.

Lemma dir_read (s : kstate) : dir_work dir x0 (k_mach s) ->
  wp (proc_page_table proc) s (fun pt s' => cr3 pt = dir /\ s' = s).
Proof.
  intros He. destruct (ip_proc HI) as (H1 & H2 & H3). destruct (ip_task HI) as (H4 & H5).
  pose proof (rd32_range m0 (proc + p_task)) as Rt. fold proc_task in Rt.
  unfold proc_page_table, load_pt. wpk.
  assert (Et : rd32 (k_ram s) (u32 (proc + p_task)) = proc_task).
  { unfold SIZEOF_PROCESS, p_task in *. rewrite u32_small by lia. apply (safe_rd32 x0 (k_mach s) dir proc 1308); done || lia. }
  rewrite Et. split; [|done]. cbn [cr3]. unfold SIZEOF_TASK, t_page_table in *. rewrite u32_small by lia.
  apply (safe_rd32 x0 (k_mach s) dir proc_task 76); done || lia.
Qed.

Lemma seg_word (x : machine) i off : dir_work dir x0 x -> 0 <= i < phnum m0 file -> 0 <= off <= 28 ->
  word (m_ram x) (phdr m0 file i) off = rd32 m0 (phdr m0 file i + off).
Proof.
  intros He Hi Ho. destruct (ip_table HI) as [H1 H2]. unfold word.
  assert (0 <= phdr m0 file 0).
  { unfold phdr. pose proof (rd32_range m0 (header + e_phoff)). unfold image_header at 1.
    pose proof (rd32_range m0 (file + f_elf_memory)). unfold SIZEOF_PHDR. lia. }
  unfold phdr, SIZEOF_PHDR in *. rewrite u32_small by lia. eapply (safe_rd32 x0 x dir); [done | exact H2 | lia | lia].
Qed.
Lemma file_read (x : machine) : dir_work dir x0 x -> elf_memory (m_ram x) file = header.
Proof.
  intros He. destruct (ip_file HI) as [H1 H2]. unfold elf_memory, word. pose proof (rd32_range m0 (proc + p_image)) as R.
  fold proc_file in R. unfold SIZEOF_ELF_FILE, f_elf_memory in *. rewrite u32_small by lia.
  apply (safe_rd32 x0 x dir file 132); done || lia.
Qed.

(** The region that is mapped for segment [i]. *)
Lemma seg_region i : 0 <= i < phnum m0 file -> seg_ok i ->
  let va := paging_down_align_addr (start i) in
  let va_end := paging_up_align_addr (u32 (start i + seg_size i)) in
  let pa := paging_down_align_addr (u32 (header + rd32 m0 (phdr m0 file i + ph_offset))) in
  region_args va pa va_end /\ va / 4096 = seg_lo i /\ va_end / 4096 = seg_hi i /\ pa / 4096 = phys i / 4096 /\
  pa + (va_end - va) <= 4294967296.
Proof.
  intros Hi [[_ S0] S1 [S2 S3] _ _]. cbv zeta. pose proof (rd32_range m0 (phdr m0 file i + ph_vaddr)) as R1.
  fold (start i) in R1. pose proof (u32_range (header + rd32 m0 (phdr m0 file i + ph_offset))) as R2. fold (phys i) in *.
  rewrite (u32_small (start i + seg_size i)) by lia.
  destruct (align_addr_correct (start i) ltac:(done)) as (A1 & A2 & _).
  destruct (align_addr_correct (phys i) ltac:(done)) as (B1 & B2 & _).
  destruct (align_addr_correct (start i + seg_size i) ltac:(unfold is_u32; lia)) as (_ & _ & C1 & C2 & _).
  specialize (C2 ltac:(lia)). unfold region_args, is_u32, seg_lo, seg_hi. split_and!; try done; zlia.
Qed.

(** Mapping it adds it to the pages that are mapped. *)
Lemma map_seg (s : kstate) k nl va ve pa flags :
  mapped_to k (k_mach s) -> 0 <= k < phnum m0 file -> load k -> region_args va pa ve ->
  va / 4096 = seg_lo k -> ve / 4096 = seg_hi k -> pa / 4096 = phys k / 4096 -> pa + (ve - va) <= 4294967296 ->
  flags = 5 \/ flags = 7 ->
  wp (km (paging_map_memory_region (mk_pt dir nl) va pa ve flags)) s (fun r s' =>
    r = STATUS_OK /\ exists x', s' = set_k_mach x' s /\ mapped_to (k + 1) x').
Proof.
  intros [He Ht Hp] Hk Hl HA L1 L2 L3 L4 Hf.
  assert (Hb : 0 <= seg_lo k /\ seg_hi k <= 1048576) by (destruct HA as (? & ? & ? & _); unfold is_u32 in *; zlia).
  apply wp_km. wp_apply (map_pages (k_mach s) dir nl va pa ve flags); [apply (ext_wf _ _ _ (proj1 He)) | done..| |].
  { rewrite L1, L2. apply Ht; [lia | lia | apply (so_tables _ (ip_segs HI k Hk Hl))]. }
  intros r x' (-> & E1 & M1 & _ & M2 & M3). rewrite L1, L2, L3 in *. split; [done|]. exists x'. split; [done|]. split.
  - by apply (dir_work_trans _ _ (k_mach s)).
  - intros lo hi ? ? ?. apply M3; [done | done | by apply Ht].
  - intros i v Hi Hi' Hv. destruct (decide (i = k)) as [->|Hne]; [by apply M1|].
    pose proof (ip_segs HI i ltac:(lia) Hi') as [_ [S1 _] _ _ _].
    pose proof (rd32_range m0 (phdr m0 file i + ph_vaddr)) as R. fold (start i) in R.
    apply M2; [unfold seg_lo, seg_hi in *; zlia | | apply Hp; [lia | done | done]].
    destruct (ip_apart HI i k ltac:(lia) Hk Hi' Hl Hne); lia.
Qed.

Lemma segment_step (s : kstate) k : mapped_to k (k_mach s) -> 0 <= k < phnum m0 file ->
  wp (map_segment proc file (phdr m0 file k)) s (fun r s' =>
    r = STATUS_OK /\ exists x', s' = set_k_mach x' s /\ mapped_to (k + 1) x').
Proof.
  intros HM Hk. pose proof HM as [He Ht Hp]. unfold map_segment, segment_memory. apply wp_bind, wp_gets. change (k_ram s) with (m_ram (k_mach s)).
  rewrite (seg_word (k_mach s) k ph_type) by (done || unfold ph_type; lia).
  destruct (Z.eqb_spec (rd32 m0 (phdr m0 file k + ph_type)) PT_LOAD) as [Hl|Hl]; cbn [negb].
  2: { apply wp_ret. split; [done|]. exists (k_mach s). rewrite set_k_mach_id. split; [done|]. split; [done..|].
       intros i v Hi Hi'. destruct (decide (i = k)) as [->|]; [by destruct Hl|]. apply Hp; [lia | done]. }
  pose proof (ip_segs HI k Hk Hl) as Hs. pose proof (seg_region k Hk Hs) as Hr. destruct (so_size _ Hs) as [Z1 Z2].
  rewrite !(seg_word (k_mach s) k ph_memsz) by (done || unfold ph_memsz; lia). fold (seg_size k).
  rewrite (proj2 (Z.eqb_neq (seg_size k) 0)) by lia. apply wp_bind, wp_bind, wp_gets. change (k_ram s) with (m_ram (k_mach s)).
  rewrite (seg_word (k_mach s) k ph_filesz), (seg_word (k_mach s) k ph_memsz), Z1 by (done || unfold ph_filesz, ph_memsz; lia).
  fold (seg_size k). rewrite Z.eqb_refl. apply wp_ret, wp_bind, wp_gets. unfold elf_phdr_phys_address. change (k_ram s) with (m_ram (k_mach s)).
  rewrite (file_read (k_mach s) He), (seg_word (k_mach s) k ph_offset), (seg_word (k_mach s) k ph_vaddr),
    (seg_word (k_mach s) k ph_memsz) by (done || unfold ph_offset, ph_vaddr, ph_memsz; lia).
  fold (seg_size k). change (rd32 m0 (phdr m0 file k + ph_vaddr)) with (start k).
  cbv zeta in Hr |- *. remember (paging_down_align_addr (start k)) as va eqn:Eva.
  remember (paging_up_align_addr (u32 (start k + seg_size k))) as ve eqn:Eve.
  remember (paging_down_align_addr (u32 (header + rd32 m0 (phdr m0 file k + ph_offset)))) as pa eqn:Epa.
  destruct Hr as (HA & L1 & L2 & L3 & L4). rewrite (proj2 (Z.leb_gt ve va)) by apply HA.
  apply wp_bind. wp_apply (dir_read s He). intros [c nl] s' [Ec ->]. cbn in Ec. subst c.
  apply (map_seg s k nl va ve pa); try done. case_match; [by left | by right].
Qed.

(** The segments and the stack are mapped. *)
Definition image_mapped (x : machine) : Prop :=
  mapped_to (phnum m0 file) x /\
  forall a, DEFAULT_USER_STACK_END <= a < DEFAULT_USER_STACK_START ->
    mmu_walk x dir a = Some (proc_stack + (a - DEFAULT_USER_STACK_END), PAGE_USER_ACCESS_ALLOW + PAGE_WRITE_ALLOW).

Lemma stack_step (s : kstate) : mapped_to (phnum m0 file) (k_mach s) ->
  wp (map_stack proc) s (fun r s' => r = STATUS_OK /\ exists x', s' = set_k_mach x' s /\ image_mapped x').
Proof.
  intros [He Ht Hp]. destruct (ip_stack HI) as (K1 & K2 & K3). destruct (ip_proc HI) as (P1 & P2 & P3).
  pose proof (rd32_range m0 (proc + p_stack_paddr)) as R. fold proc_stack in R.
  change (tables_at x0 dir 33787 33791) in K3. unfold DEFAULT_USER_STACK_SIZE in K2.
  unfold map_stack. apply wp_bind. wp_apply (dir_read s He). intros [c nl] s' [Ec ->]. cbn in Ec. subst c.
  apply wp_bind, wp_kld32.
  assert (Es : rd32 (k_ram s) (u32 (proc + p_stack_paddr)) = proc_stack).
  { unfold SIZEOF_PROCESS, p_stack_paddr in *. rewrite u32_small by lia. apply (safe_rd32 x0 (k_mach s) dir proc 1308); done || lia. }
  rewrite Es. change USER_FLAGS with 7. change DEFAULT_USER_STACK_END with 0x83FB000. change DEFAULT_USER_STACK_START with 0x83FF000.
  apply wp_km. wp_apply (map_pages (k_mach s) dir nl 0x83FB000 proc_stack 0x83FF000 7);
    [apply (ext_wf _ _ _ (proj1 He)) | unfold region_args, is_u32; split_and!; done || lia | by right | lia | by apply Ht |].
  intros r x' (-> & E1 & _ & W & M2 & M3). split; [done|]. exists x'. split; [done|]. split; [split|exact W].
  - by apply (dir_work_trans _ _ (k_mach s)).
  - intros lo hi ? ? ?. apply M3; [done | done | by apply Ht].
  - intros i v Hi Hi' Hv. pose proof (ip_segs HI i Hi Hi') as [_ [S1 _] _ _ S4].
    pose proof (rd32_range m0 (phdr m0 file i + ph_vaddr)) as Rv. fold (start i) in Rv.
    change (seg_hi i <= 33787 \/ 33791 <= seg_lo i) in S4.
    apply M2; [unfold seg_lo, seg_hi in *; zlia | change (v < 33787 \/ 33791 <= v); lia | by apply Hp].
Qed.

Lemma segments_loop n : forall (s : kstate) k, mapped_to k (k_mach s) -> 0 <= k -> k + Z.of_nat n = phnum m0 file ->
  wp (map_segments n proc file (phdr m0 file 0) k) s (fun r s' =>
    r = STATUS_OK /\ exists x', s' = set_k_mach x' s /\ image_mapped x').
Proof.
  induction n as [|n IH]; intros s k HM Hk Hn; cbn [map_segments].
  { apply stack_step. by replace (phnum m0 file) with k by lia. }
  assert (Ea : u32 (phdr m0 file 0 + k * SIZEOF_PHDR) = phdr m0 file k).
  { destruct (ip_table HI) as [H1 _]. pose proof (rd32_range m0 (file + f_elf_memory)) as R. fold header in R.
    pose proof (rd32_range m0 (header + e_phoff)). unfold phdr, SIZEOF_PHDR in *. rewrite u32_small by lia. lia. }
  rewrite Ea. apply wp_bind. wp_apply (segment_step s k HM ltac:(lia)). intros r s' (-> & x & -> & HM').
  change (negb (STATUS_OK =? STATUS_OK)) with false. cbn iota.
  eapply wp_mono; [apply IH; [done | lia | lia]|]. intros r s' (-> & x' & -> & HX). split; [done|]. exists x'. by knorm.
Qed.

(** C19: process_map_elf.  For a process whose file has loadable segments that
    are the same in memory and in the file and do not share pages with each
    other or with the stack, and whose page tables are there, the mapping
    succeeds.  Afterwards every address of every loadable segment translates to
    the place of that byte in the file image, with user access, every address
    of the stack to its byte of the memory of the stack, with user and write
    access.  Nothing outside of the heap and its table is written, so that the
    kernel image with the structure of the process is unchanged, nor any block
    that was in use and is not a page table of the process, so that the file
    image, the task and the stack are unchanged. *)
Theorem process_image_mapped : wp (process_map_elf proc) s0 (fun r s' =>
    r = STATUS_OK /\ exists x', s' = set_k_mach x' s0 /\ pt_wf x' dir /\
    (forall i a, 0 <= i < phnum m0 file -> load i -> start i <= a < start i + seg_size i ->
       exists rights, mmu_walk x' dir a = Some (phys i + (a - start i), rights) /\ Z.testbit rights 2 = true) /\
    (forall a, DEFAULT_USER_STACK_END <= a < DEFAULT_USER_STACK_START ->
       mmu_walk x' dir a = Some (proc_stack + (a - DEFAULT_USER_STACK_END), PAGE_USER_ACCESS_ALLOW + PAGE_WRITE_ALLOW)) /\
    (forall a, safe x0 dir a -> rd8 (m_ram x') a = rd8 m0 a)).
Proof.
  destruct (ip_proc HI) as (P1 & P2 & P3). pose proof (rd32_range m0 (proc + p_image)) as Rf. fold file in Rf.
  destruct (ip_header HI) as [H1 H2]. pose proof (rd32_range m0 (file + f_elf_memory)) as Rh. fold header in Rh.
  assert (HE : dir_work dir x0 x0) by (split; [apply pt_ext_refl, HI | done]). destruct (ip_table HI) as [T1 _].
  pose proof (rd32_range m0 (header + e_phoff)) as Ro. pose proof (rd16_range m0 (header + e_phnum)) as Rn. fold (phnum m0 file) in Rn.
  unfold process_map_elf. wpk. rewrite (u32_small (proc + p_image)) by (unfold SIZEOF_PROCESS, p_image in *; lia). fold file.
  change (elf_header m0 file) with (elf_memory (m_ram x0) file). rewrite (file_read x0 HE).
  rewrite (u32_small (header + e_phnum)) by (unfold e_phnum; lia). fold (phnum m0 file).
  assert (Ep : elf_pheader m0 header = phdr m0 file 0).
  { unfold elf_pheader, word, phdr, SIZEOF_PHDR in *. rewrite (u32_small (header + e_phoff)) by (unfold e_phoff; lia).
    rewrite (proj2 (Z.eqb_neq _ 0)) by done. rewrite u32_small by lia. lia. }
  rewrite Ep. assert (HM : mapped_to 0 (k_mach s0)) by (split; [done | done | intros; lia]).
  wp_apply (segments_loop _ s0 0 HM); [lia | lia |]. intros r s' (-> & x' & -> & [Me _ Mp] & HS).
  split; [done|]. exists x'. split_and!; [done | apply (ext_wf _ _ _ (proj1 Me)) | | exact HS | intros a Ha; by apply (safe_rd8 x0 x' dir)].
  intros i a Hi Hl Ha. pose proof (ip_segs HI i Hi Hl) as [_ [S1 S2] [S3 S4] _ _].
  pose proof (rd32_range m0 (phdr m0 file i + ph_vaddr)) as Rv. fold (start i) in Rv.
  pose proof (u32_range (header + rd32 m0 (phdr m0 file i + ph_offset))) as Rp. fold (phys i) in Rp.
  destruct (page_walk x' dir (a / 4096) (phys i / 4096 + (a / 4096 - seg_lo i)) a) as (rt & E & Hb);
    [apply Mp; [done | done | unfold seg_lo, seg_hi; zlia] | lia | done | unfold seg_lo; zlia |].
  exists rt. split; [|done]. rewrite E. do 2 f_equal. unfold seg_lo. zlia.
Qed.
End image.

(** ** Example

    A process at 0x110000 of the kernel image, with the directory in block 0 of
    the heap, the table of slot 32 in block 1, the task in block 2, its file, of
    one segment, in block 3, the structure of the file in block 4 and the stack
    from block 5 on. *)
Definition image_ram : ram :=
  let h := 0x1003000 in
  let ph := h + 52 in
  let m := wr32 (wr32 (wr32 ∅ (0x110000 + p_task) 0x1002000) (0x110000 + p_image) 0x1004000) (0x110000 + p_stack_paddr) 0x1005000 in
  let m := wr32 (wr32 m (0x1002000 + t_page_table) (block_addr 0)) (0x1004000 + f_elf_memory) h in
  let m := wr16 (wr32 m (h + e_phoff) 52) (h + e_phnum) 1 in
  let m := wr32 (wr32 (wr32 (wr32 m (ph + ph_type) PT_LOAD) (ph + ph_vaddr) 0x8000000) (ph + ph_filesz) 0x100) (ph + ph_memsz) 0x100 in
  wr32 (foldr (fun k m => wr8 m (KHEAP_TABLE_ADDR + k) 65) m [0; 1; 2; 3; 4; 5; 6; 7; 8]) (block_addr 0 + 4 * 32) (block_addr 1 + 7).
Definition image_state : kstate := kernel_on (ready image_ram) (mk_sched 0 0 0 0).

Lemma image_pde i : 0 <= i < 1024 ->
  pde (k_mach image_state) (block_addr 0) i = if i =? 32 then block_addr 1 + 7 else 0.
Proof.
  assert (H : forallb (fun n => pde (k_mach image_state) (block_addr 0) (Z.of_nat n) =?
    (if Z.of_nat n =? 32 then block_addr 1 + 7 else 0)) (seq 0 1024) = true) by (vm_compute; reflexivity).
  intros Hi. rewrite forallb_forall in H. specialize (H (Z.to_nat i)). rewrite Z2Nat.id in H by lia.
  apply Z.eqb_eq, H, in_seq. lia.
Qed.

Lemma image_wf : pt_wf (k_mach image_state) (block_addr 0).
Proof.
  assert (Hp : forall i, 0 <= i < 1024 -> present (pde (k_mach image_state) (block_addr 0) i) = true -> i = 32).
  { intros i Hi. rewrite image_pde by done. destruct (Z.eqb_spec i 32); [done | intros [=]]. }
  split.
  - apply ready_ok.
  - exists 0. split_and!; [blk; lia | done | vm_compute; reflexivity].
  - intros i Hi ->%Hp; [|done]. rewrite image_pde by lia. exists 1. split_and!; [blk; lia | reflexivity | vm_compute; reflexivity | blk; lia].
  - intros i j Hi Hj Pi Pj _. by rewrite (Hp i Hi Pi), (Hp j Hj Pj).
Qed.

Lemma image_unowned b : b = 2 \/ b = 3 \/ b = 4 -> ~ owned (k_mach image_state) (block_addr 0) b.
Proof.
  intros Hb [E | (i & Hi & Pi & E)]; [blk; lia|]. rewrite image_pde in Pi, E by done. destruct (Z.eqb_spec i 32); [|done].
  change (frame_of (block_addr 1 + 7)) with (block_addr 1) in E. blk. lia.
Qed.

Lemma image_state_placed : image_placed image_state 0x110000.
Proof.
  assert (EF : proc_file image_state 0x110000 = 0x1004000) by (vm_compute; reflexivity).
  assert (ET : proc_task image_state 0x110000 = 0x1002000) by (vm_compute; reflexivity).
  assert (ED : proc_dir image_state 0x110000 = block_addr 0) by (vm_compute; reflexivity).
  assert (ES : proc_stack image_state 0x110000 = 0x1005000) by (vm_compute; reflexivity).
  assert (EH : image_header (k_ram image_state) 0x1004000 = 0x1003000) by (vm_compute; reflexivity).
  assert (EN : phnum (k_ram image_state) 0x1004000 = 1) by (vm_compute; reflexivity).
  assert (Eph : forall i, phdr (k_ram image_state) 0x1004000 i = 0x1003034 + 32 * i).
  { intros i. unfold phdr. rewrite EH. change (rd32 (k_ram image_state) (0x1003000 + e_phoff)) with 52. unfold SIZEOF_PHDR. lia. }
  assert (Hb : forall b a n, b = 2 \/ b = 3 \/ b = 4 -> block_addr b <= a -> a + n <= block_addr b + 4096 ->
    safe_range (k_mach image_state) (block_addr 0) a n).
  { intros b a n Hb H1 H2 k Hk. right. exists b. split_and!; [blk; lia | | by apply image_unowned | unfold in_block; lia].
    destruct Hb as [-> | [-> | ->] ]; vm_compute; reflexivity. }
  assert (Ht : forall lo hi, 32768 <= lo -> hi <= 33792 -> tables_at (k_mach image_state) (block_addr 0) lo hi).
  { intros lo hi H1 H2 v Hv. rewrite image_pde by zlia. by replace (v / 1024) with 32 by zlia. }
  split; rewrite ?EF, ?ET, ?ED, ?ES, ?EH, ?EN, ?Eph; unfold SIZEOF_PROCESS, SIZEOF_TASK, SIZEOF_ELF_FILE, SIZEOF_PHDR.
  - exact image_wf.
  - split_and!; [lia | lia |]. intros k Hk. left. unfold off_heap. hp. lia.
  - split; [lia | apply (Hb 2); blk; lia].
  - split; [lia | apply (Hb 4); blk; lia].
  - split; [lia | vm_compute; discriminate].
  - split; [lia | apply (Hb 3); blk; lia].
  - intros i Hi _. replace i with 0 by lia. split; rewrite ?EF, ?ED, ?EH.
    + split; [vm_compute; reflexivity | vm_compute; reflexivity].
    + split; vm_compute; discriminate.
    + split; vm_compute; reflexivity.
    + apply Ht; vm_compute; discriminate.
    + left. vm_compute. discriminate.
  - intros i j Hi Hj _ _ Hne. lia.
  - split_and!; [reflexivity | vm_compute; discriminate | apply Ht; vm_compute; discriminate].
Qed.

Lemma process_image_mapped_witness :
  exists x', process_map_elf 0x110000 image_state = Ret STATUS_OK (set_k_mach x' image_state) /\
    exists rights, mmu_walk x' (block_addr 0) 0x8000007 = Some (0x1003007, rights).
Proof.
  destruct (proj1 (wp_run _ _ _) (process_image_mapped image_state 0x110000 image_state_placed))
    as (r & s' & E & HQ).
  destruct HQ as (-> & x' & -> & _ & H & _). exists x'. split; [exact E|].
  assert (ED : proc_dir image_state 0x110000 = block_addr 0) by (vm_compute; reflexivity).
  assert (EP : seg_phys (k_ram image_state) (proc_file image_state 0x110000) 0 = 0x1003000) by (vm_compute; reflexivity).
  assert (EV : seg_start (k_ram image_state) (proc_file image_state 0x110000) 0 = 0x8000000) by (vm_compute; reflexivity).
  assert (EZ : seg_size image_state 0x110000 0 = 0x100) by (vm_compute; reflexivity).
  assert (EN : phnum (k_ram image_state) (proc_file image_state 0x110000) = 1) by (vm_compute; reflexivity).
  assert (EL : seg_load (k_ram image_state) (proc_file image_state 0x110000) 0) by (vm_compute; reflexivity).
  destruct (H 0 0x8000007) as (rt & HW & _); [rewrite EN; lia | exact EL | rewrite EV, EZ; lia |].
  exists rt. rewrite EP, EV, ED in HW. exact HW.
Defined.
