(* ===== verification/Idt.v ===== *)
(** * idt/idt.c: the interrupt table and its registrations

    The descriptors are in RAM; the tables of C function pointers hold the
    functions that are registered in them, by name.  The handlers themselves
    are in Interrupts.v. *)
From Stdlib Require Import ZArith Lia String.
From stdpp Require Import base numbers gmap list strings.
From S2P Require Import Prelude Config Memory Machine Console Kheap Paging Disk Path File Kernel.
Local Open Scope Z_scope.

Definition SIZEOF_IDT_ENTRY : Z := 8.

(** The registers of the interrupt logic. *)
Definition on_intr (f : intr -> intr) : M kstate unit := modify (fun s => set_intr (f (k_intr s)) s).
Definition set_call_backs (l : list (option callback)) (x : intr) : intr :=
  mk_intr l (sys_calls x) (cli_count x) (interrupts_on x) (idtr x) (task_register x) (pic_acks x).
Definition set_sys_calls (l : list (option syscall)) (x : intr) : intr :=
  mk_intr (interrupt_call_backs x) l (cli_count x) (interrupts_on x) (idtr x) (task_register x) (pic_acks x).
Definition set_cli_count (n : Z) (x : intr) : intr :=
  mk_intr (interrupt_call_backs x) (sys_calls x) n (interrupts_on x) (idtr x) (task_register x) (pic_acks x).
Definition set_interrupts (b : bool) (x : intr) : intr :=
  mk_intr (interrupt_call_backs x) (sys_calls x) (cli_count x) b (idtr x) (task_register x) (pic_acks x).
Definition set_idtr (p : Z * Z) (x : intr) : intr :=
  mk_intr (interrupt_call_backs x) (sys_calls x) (cli_count x) (interrupts_on x) p (task_register x) (pic_acks x).
Definition set_task_register (v : Z) (x : intr) : intr :=
  mk_intr (interrupt_call_backs x) (sys_calls x) (cli_count x) (interrupts_on x) (idtr x) v (pic_acks x).
Definition add_ack (x : intr) : intr :=
  mk_intr (interrupt_call_backs x) (sys_calls x) (cli_count x) (interrupts_on x) (idtr x) (task_register x) (S (pic_acks x)).

(** idt.asm: [sti] and [cli]. *)
Definition enable_interrupts : M kstate unit := on_intr (set_interrupts true).
Definition disable_interrupts : M kstate unit := on_intr (set_interrupts false).

(** [port_io_out_byte(MASTER_PIC_PORT, MASTER_PIC_INTR_ACK)] *)
Definition pic_ack : M kstate unit := on_intr add_ack.

Definition get_cli_count : M kstate Z := gets (fun s => cli_count (k_intr s)).

Definition pop_cli : M kstate unit :=
  c ← get_cli_count;
  if c <=? 0 then km (modify (println (chars "error pop cli with count already <= 0")))
  else on_intr (set_cli_count (i32 (c - 1)));; disable_interrupts.

Definition push_cli : M kstate unit :=
  c ← get_cli_count;
  if c <? 0 then km (modify (println (chars "error push cli with count < 0")))
  else
    on_intr (set_cli_count (i32 (c + 1)));;
    c ← get_cli_count;
    if c =? 1 then enable_interrupts else mret tt.

Definition idt_register_interrupt_call_back (interrupt_no : Z) (call_back : option callback) : M kstate Z :=
  match call_back with
  | None => mret (- STATUS_INVALID_ARG)
  | Some cb =>
    if (interrupt_no <? 0) || (NUM_INTERRUPTS <=? interrupt_no) then mret (- STATUS_INVALID_ARG)
    else
      on_intr (fun x => set_call_backs (<[Z.to_nat interrupt_no := Some cb]> (interrupt_call_backs x)) x);;
      mret 0
  end.

Definition intr_generic_handler : M kstate unit := pic_ack.

Section idt.
Context {lay : Layout}.

Definition syscall_register_command (command_num : Z) (handler : option syscall) : M kstate unit :=
  (if (command_num <? 0) || (NUM_SYS_CALLS <=? command_num) then kpanic "couldn't register syscall" else mret tt);;
  calls ← gets (fun s => sys_calls (k_intr s));
  (match array_at calls_beyond calls command_num with
   | Some _ => kpanic "syscall command number already in use"
   | None => mret tt
   end);;
  on_intr (fun x => set_sys_calls (<[Z.to_nat command_num := handler]> (sys_calls x)) x).

(** [struct idt_entry], packed. *)
Definition idt_set (intr_num addr : Z) : M kstate unit :=
  let entry := idt_addr + intr_num * SIZEOF_IDT_ENTRY in
  kst16 entry (Z.land (u32 addr) 0x0000FFFF);;
  kst16 (entry + 2) KERNEL_CODE_SEGMENT;;
  kst8 (entry + 4) 0;;
  kst8 (entry + 5) 0xEE;;
  kst16 (entry + 6) (Z.shiftr (Z.land (u32 addr) 0xFFFF0000) 16).

Fixpoint idt_set_all (n : nat) (i : Z) : M kstate unit :=
  match n with
  | O => mret tt
  | S n => idt_set i (int_wrapper i);; idt_set_all n (i + 1)
  end.

Fixpoint register_exceptions (n : nat) (i : Z) : M kstate unit :=
  match n with
  | O => mret tt
  | S n => idt_register_interrupt_call_back i (Some idt_handle_exception_cb);; register_exceptions n (i + 1)
  end.

Definition idt_init : M kstate unit :=
  km (modify (on_ram (memset idt_addr 0 (NUM_INTERRUPTS * SIZEOF_IDT_ENTRY))));;
  on_intr (set_sys_calls (replicate (Z.to_nat NUM_SYS_CALLS) None));;
  on_intr (set_call_backs (replicate (Z.to_nat NUM_INTERRUPTS) None));;
  on_intr (set_cli_count 0);;
  idt_set_all (Z.to_nat NUM_INTERRUPTS) 0;;
  idt_set 0x80 int80h;;
  register_exceptions 32 0;;
  idt_register_interrupt_call_back 0x20 (Some idt_handle_clock_cb);;
  on_intr (set_idtr (NUM_INTERRUPTS * SIZEOF_IDT_ENTRY - 1, idt_addr)).
End idt.
