(* ===== verification/Keyboard.v ===== *)
(** * dev/keyboard.c and dev/ps2.c: the keyboard

    Every process has a ring buffer of [PROCESS_KEYBOARD_BUFFER_SIZE] bytes in
    its structure; the interrupt handler pushes at [tail], the system call
    get_char pops at [head]. *)
From Stdlib Require Import ZArith Lia String.
From stdpp Require Import base numbers gmap list strings.
From S2P Require Import Prelude Config Memory Machine Console Kheap Paging Disk Path File Kernel Elf Task Process Idt.
Local Open Scope Z_scope.

Definition KEYBOARD_STATE_CAPS_ON : Z := 1.
Definition KEYBOARD_STATE_CAPS_OFF : Z := 0.
Definition ISR_KEYBOARD_INTERRUPT : Z := 0x21.
Definition PS2_KEY_RELEASED : Z := 0x80.
Definition PS2_KEYBOARD_CAPSLOCK : Z := 0x3A.

Definition on_kbd (f : kbd -> kbd) : M kstate unit := modify (fun s => set_kbd (f (k_kbd s)) s).

(** ** keyboard.c *)

Definition keyboard_push (c proc : Z) : M kstate unit :=
  if proc =? 0 then mret tt
  else if i8 c =? 0 then mret tt
  else
    tail ← kld32 (proc + p_kbd_tail);
    kst32 (proc + p_kbd_tail) (tail + 1);;
    kst8 (proc + p_kbd_buf + i32 tail) c;;
    tail ← kld32 (proc + p_kbd_tail);
    kst32 (proc + p_kbd_tail) (Z.rem (i32 tail) PROCESS_KEYBOARD_BUFFER_SIZE).

(** The result is a [char]. *)
Definition keyboard_pop (task : Z) : M kstate Z :=
  p ← kld32 (task + t_proc);
  if p =? 0 then mret 0
  else
    head ← kld32 (p + p_kbd_head);
    b ← kld8 (p + p_kbd_buf + i32 head);
    let c := i8 b in
    if c =? 0 then mret 0
    else
      head ← kld32 (p + p_kbd_head);
      kst32 (p + p_kbd_head) (head + 1);;
      head ← kld32 (p + p_kbd_head);
      kst32 (p + p_kbd_head) (Z.rem (i32 head) PROCESS_KEYBOARD_BUFFER_SIZE);;
      mret c.

(** There is one keyboard, [ps2_keyboard]. *)
Definition keyboard_set_capslock (state : Z) : M kstate unit :=
  on_kbd (fun k => mk_kbd state (ps2_enabled k) (ps2_data k)).
Definition keyboard_get_capslock : M kstate Z := gets (fun s => caps_lock_state (k_kbd s)).
Definition keyboard_toggle_capslock : M kstate unit :=
  st ← keyboard_get_capslock;
  keyboard_set_capslock (if st =? KEYBOARD_STATE_CAPS_ON then KEYBOARD_STATE_CAPS_OFF else KEYBOARD_STATE_CAPS_ON).

(** ** ps2.c *)

Definition keyboard_scan_set_one : list Z := [
  0x00; 0x1B; 49; 50; 51; 52; 53; 54; 55; 56; 57; 48;
  45; 61; 0x08; 9; 81; 87; 69; 82; 84; 89; 85; 73;
  79; 80; 91; 93; 0x0d; 0x00; 65; 83; 68; 70; 71; 72;
  74; 75; 76; 59; 39; 96; 0x00; 92; 90; 88; 67; 86;
  66; 78; 77; 44; 46; 47; 0x00; 42; 0x00; 0x20; 0x00; 0x00;
  0x00; 0x00; 0x00; 0x00; 0x00; 0x00; 0x00; 0x00; 0x00; 55; 56; 57;
  45; 52; 53; 54; 43; 49; 50; 51; 48; 46 ].

(** [port_io_input_byte(PS2_DATA_PORT)] *)
Definition ps2_read : M kstate Z :=
  b ← gets (fun s => u8 (ps2_data (k_kbd s) 0));
  on_kbd (fun k => mk_kbd (caps_lock_state k) (ps2_enabled k) (fun n => ps2_data k (S n)));;
  mret b.

Section ps2.
Context {lay : Layout}.

(** The table as it lies in memory: the index just after it is not refused. *)
Definition scan_set (scancode : Z) : Z :=
  nth (Z.to_nat scancode) keyboard_scan_set_one scan_set_next.

Definition ps2_scancode_to_char (scancode : Z) : M kstate Z :=
  if 82 <? scancode then mret 0
  else
    let c := i8 (scan_set scancode) in
    caps ← keyboard_get_capslock;
    let c := if caps =? KEYBOARD_STATE_CAPS_OFF
             then if (65 <=? c) && (c <=? 90) then i8 (c + (97 - 65)) else c
             else c in
    mret (u8 c).

Definition keyboard_intr_handler (frame : Z) : M kstate unit :=
  scancode ← ps2_read;
  ps2_read;;
  (if negb (Z.land scancode PS2_KEY_RELEASED =? 0) then mret tt
   else
     (if scancode =? PS2_KEYBOARD_CAPSLOCK then keyboard_toggle_capslock else mret tt);;
     c ← ps2_scancode_to_char scancode;
     if negb (c =? 0) then proc ← process_current; keyboard_push c proc else mret tt);;
  pic_ack.

Definition ps2_init : M kstate Z :=
  idt_register_interrupt_call_back ISR_KEYBOARD_INTERRUPT (Some keyboard_intr_handler_cb);;
  keyboard_set_capslock KEYBOARD_STATE_CAPS_OFF;;
  on_kbd (fun k => mk_kbd (caps_lock_state k) true (ps2_data k));;
  mret 0.

Definition keyboard_init : M kstate unit := ps2_init;; mret tt.
End ps2.
