(* ===== verification/KeyBuffer.v ===== *)
(** * The keyboard buffer of a process

    A process's buffer is a queue of characters as long as fewer than
    [PROCESS_KEYBOARD_BUFFER_SIZE] characters have gone through it. *)
From Stdlib Require Import ZArith Lia String.
From stdpp Require Import base numbers gmap list strings.
From S2P Require Import Prelude Config Memory Machine Console Kheap Paging AddressSpace Blocks Disk Path File Kernel Elf Task TaskList TaskLife Process Idt Keyboard.
Local Open Scope Z_scope.

(** ** Sequences of operations *)

Inductive key_op := KPush (c : Z) | KPop.

(** The operations on a process and its task; the characters popped. *)
Fixpoint run_keys (proc task : Z) (ops : list key_op) : M kstate (list Z) :=
  match ops with
  | [] => mret []
  | KPush c :: ops => keyboard_push c proc;; run_keys proc task ops
  | KPop :: ops => c ← keyboard_pop task; l ← run_keys proc task ops; mret (c :: l)
  end.

(** The same operations on a queue: 0 is not stored, and is the answer of an
    empty queue. *)
Fixpoint queue_keys (q : list Z) (ops : list key_op) : list Z :=
  match ops with
  | [] => []
  | KPush c :: ops => queue_keys (if i8 c =? 0 then q else q ++ [i8 c]) ops
  | KPop :: ops => match q with [] => 0 :: queue_keys [] ops | c :: q => c :: queue_keys q ops end
  end.

(** The number of characters that the operations store. *)
Fixpoint pushes (ops : list key_op) : nat :=
  match ops with
  | [] => 0
  | KPush c :: ops => if i8 c =? 0 then pushes ops else S (pushes ops)
  | KPop :: ops => pushes ops
  end.

(** ** The buffer *)

(** The buffer of [proc], the task's pointer to it, and where they are. *)
Record keys_placed (proc task : Z) : Prop := {
  kp_proc : 0 < proc /\ proc + SIZEOF_PROCESS <= 4294967296;
  kp_task : 0 <= task /\ task + SIZEOF_TASK <= 4294967296;
  kp_apart : task + SIZEOF_TASK <= proc \/ proc + SIZEOF_PROCESS <= task }.

(** [key_buf m proc task h hist]: the characters [hist] have been pushed since
    the buffer was zeroed, and the first [h] of them popped. *)
Record key_buf (m : ram) (proc task : Z) (h : nat) (hist : list Z) : Prop := {
  kb_proc : rd32 m (task + t_proc) = proc;
  kb_head : rd32 m (proc + p_kbd_head) = Z.of_nat h mod 1024;
  kb_tail : rd32 m (proc + p_kbd_tail) = Z.of_nat (length hist) mod 1024;
  kb_le : (h <= length hist)%nat;
  kb_size : (length hist <= 1024)%nat;
  kb_char : forall k c, hist !! k = Some c -> i8 (rd8 m (proc + p_kbd_buf + Z.of_nat k)) = c /\ c <> 0;
  kb_zero : forall k, Z.of_nat (length hist) <= k < 1024 -> rd8 m (proc + p_kbd_buf + k) = 0 }.

Ltac kfields := unfold p_kbd_buf, p_kbd_head, p_kbd_tail, SIZEOF_PROCESS, SIZEOF_TASK in *; tfields.

Section key_buffer.
Context {lay : Layout}.

Lemma push_spec s proc task h hist c :
  keys_placed proc task -> key_buf (k_ram s) proc task h hist -> (i8 c <> 0 -> (length hist < 1024)%nat) ->
  wp (keyboard_push c proc) s (fun _ s' =>
    key_buf (k_ram s') proc task h (if i8 c =? 0 then hist else hist ++ [i8 c])).
Proof.
  intros [P1 P2 P3] [B1 B2 B3 B4 B5 B6 B7] Hroom. unfold keyboard_push. rewrite (proj2 (Z.eqb_neq proc 0)) by lia.
  destruct (Z.eqb_spec (i8 c) 0) as [|Hc]; [wpk; by split|]. specialize (Hroom Hc). wpk. knorm.
  set (n := Z.of_nat (length hist)) in *. rewrite Z.mod_small in B3 by lia.
  rewrite !(u32_small (proc + p_kbd_tail)), B3 by (kfields; lia). rewrite (i32_small n) by lia.
  rewrite (u32_small (proc + p_kbd_buf + n)) by (kfields; lia). rewrite (rd32_wr8_ne _ (proc + p_kbd_buf + n)) by (kfields; lia).
  rewrite rd32_wr32, (u32_small (n + 1)), i32_small, Z.rem_mod_nonneg by (unfold PROCESS_KEYBOARD_BUFFER_SIZE; lia).
  set (m' := wr32 _ _ _).
  assert (Hk : forall a, a <> proc + p_kbd_buf + n -> a < proc + p_kbd_tail \/ proc + p_kbd_tail + 4 <= a -> rd8 m' a = rd8 (k_ram s) a).
  { intros a Ha Ha'. unfold m'. by rewrite rd8_wr32, rd8_wr8_ne, rd8_wr32 by lia. }
  split; rewrite ?length_app; cbn [length].
  - rewrite <- B1. apply rd32_ext. intros a Ha. apply Hk; kfields; lia.
  - rewrite <- B2. apply rd32_ext. intros a Ha. apply Hk; kfields; lia.
  - unfold m'. rewrite rd32_wr32. unfold PROCESS_KEYBOARD_BUFFER_SIZE. rewrite u32_small by zlia. f_equal. lia.
  - lia.
  - lia.
  - intros k x Hx. destruct (decide (k < length hist)%nat) as [Hlt|].
    + rewrite lookup_app_l in Hx by done. rewrite Hk by (kfields; lia). by apply B6.
    + pose proof (lookup_lt_Some _ _ _ Hx) as Hl. rewrite length_app in Hl. cbn [length] in Hl.
      replace k with (length hist) in * by lia. rewrite list_lookup_middle in Hx by done. injection Hx as <-.
      fold n. unfold m'. rewrite rd8_wr32, rd8_wr8_eq by (kfields; lia). by rewrite i8_u8.
  - intros k Hk'. rewrite Hk by (kfields; lia). apply B7. lia.
Qed.

Lemma pop_spec s proc task h hist :
  keys_placed proc task -> key_buf (k_ram s) proc task h hist ->
  wp (keyboard_pop task) s (fun r s' =>
    match hist !! (h mod 1024)%nat with
    | Some c => r = c /\ ((h < length hist)%nat -> key_buf (k_ram s') proc task (S h) hist)
    | None => r = 0 /\ s' = s
    end).
Proof.
  intros [P1 P2 P3] [B1 B2 B3 B4 B5 B6 B7]. unfold keyboard_pop. wpk. rewrite (u32_small (task + t_proc)), B1 by (kfields; lia).
  rewrite (proj2 (Z.eqb_neq proc 0)) by lia. wpk. rewrite !(u32_small (proc + p_kbd_head)), B2 by (kfields; lia).
  set (k := Z.of_nat h mod 1024). assert (Hk : 0 <= k < 1024) by (unfold k; zlia). rewrite (i32_small k) by lia.
  rewrite (u32_small (proc + p_kbd_buf + k)) by (kfields; lia).
  assert (Ek : Z.of_nat (h mod 1024) = k) by (unfold k; by rewrite Nat2Z.inj_mod).
  destruct (hist !! (h mod 1024)%nat) as [c|] eqn:Hc.
  - destruct (B6 _ _ Hc) as [Ec Hnz]. rewrite Ek in Ec. rewrite Ec, (proj2 (Z.eqb_neq c 0)) by done. wpk. knorm.
    rewrite !(u32_small (proc + p_kbd_head)), B2 by (kfields; lia). fold k.
    rewrite rd32_wr32, (u32_small (k + 1)), i32_small, Z.rem_mod_nonneg by (unfold PROCESS_KEYBOARD_BUFFER_SIZE; lia).
    split; [done|]. intros Hlt. set (m' := wr32 _ _ _).
    assert (Hkeep : forall a, a < proc + p_kbd_head \/ proc + p_kbd_head + 4 <= a -> rd8 m' a = rd8 (k_ram s) a)
      by (intros a Ha; unfold m'; by rewrite !rd8_wr32 by lia).
    split; try done.
    + rewrite <- B1. apply rd32_ext. intros a Ha. apply Hkeep. kfields. lia.
    + unfold m'. rewrite rd32_wr32. unfold PROCESS_KEYBOARD_BUFFER_SIZE, k. rewrite u32_small by zlia. zlia.
    + rewrite <- B3. apply rd32_ext. intros a Ha. apply Hkeep. kfields. lia.
    + intros j x Hx. pose proof (lookup_lt_Some _ _ _ Hx). rewrite Hkeep by (kfields; lia). by apply B6.
    + intros j Hj. rewrite Hkeep by (kfields; lia). by apply B7.
  - apply lookup_ge_None in Hc. rewrite B7 by lia. by wpk.
Qed.

Lemma run_keys_spec proc task : keys_placed proc task -> forall ops s h hist,
  key_buf (k_ram s) proc task h hist -> (length hist + pushes ops < 1024)%nat ->
  wp (run_keys proc task ops) s (fun out s' =>
    out = queue_keys (drop h hist) ops /\ exists h' hist', key_buf (k_ram s') proc task h' hist' /\ (length hist' < 1024)%nat).
Proof.
  intros HP ops. induction ops as [|[c|] ops IH]; intros s h hist HB Hn; cbn [run_keys queue_keys pushes] in *.
  - wpk. split; [done|]. exists h, hist. split; [done | lia].
  - wp_step. wp_apply (push_spec s proc task h hist c HP HB); [intros Hc; lia|]. intros _ s1 HB1. pose proof (kb_le _ _ _ _ _ HB).
    destruct (Z.eqb_spec (i8 c) 0) as [|Hc].
    + by apply IH.
    + rewrite <- (drop_app_le hist [i8 c] h) by done. apply IH; [done|]. rewrite length_app. cbn [length]. lia.
  - wp_step. wp_apply (pop_spec s proc task h hist HP HB). intros r s1 H1. pose proof (kb_le _ _ _ _ _ HB).
    rewrite Nat.mod_small in H1 by lia. destruct (hist !! h) as [c|] eqn:Hh.
    + destruct H1 as [-> HB1]. specialize (HB1 (lookup_lt_Some _ _ _ Hh)). wp_step.
      wp_apply (IH s1 (S h) hist HB1 Hn). intros out s2 [-> Hs2]. wpk. by rewrite (drop_S hist c h Hh).
    + destruct H1 as [-> ->]. wp_step. wp_apply (IH s h hist HB Hn). intros out s2 [-> Hs2]. wpk.
      apply lookup_ge_None in Hh. by rewrite drop_ge by done.
Qed.

(** A buffer of zeroes is empty. *)
Lemma zeroed_buf m proc task :
  rd32 m (task + t_proc) = proc -> (forall a, proc + p_kbd_buf <= a < proc + SIZEOF_PROCESS -> rd8 m a = 0) ->
  key_buf m proc task 0 [].
Proof.
  intros Hp Hz. assert (Hw : forall a, proc + p_kbd_buf <= a -> a + 4 <= proc + SIZEOF_PROCESS -> rd32 m a = 0).
  { intros a Ha Ha'. unfold rd32, rd16. rewrite !Hz by lia. done. }
  split; try done; [apply Hw; kfields; lia | apply Hw; kfields; lia | cbn; lia |].
  intros k Hk. apply Hz. kfields. lia.
Qed.

(** C24: the keyboard buffer is a queue.  From the zeroed buffer of a new
    process, any sequence of keyboard_push and keyboard_pop in which fewer than
    1024 characters are stored returns exactly what a queue returns: the
    characters in the order in which they were pushed, and 0 when there is
    none. *)
Theorem keyboard_fifo (s : kstate) (proc task : Z) (ops : list key_op) (HP : keys_placed proc task)
    (Ht : rd32 (k_ram s) (task + t_proc) = proc)
    (Hz : forall a, proc + p_kbd_buf <= a < proc + SIZEOF_PROCESS -> rd8 (k_ram s) a = 0)
    (Hn : Z.of_nat (pushes ops) < PROCESS_KEYBOARD_BUFFER_SIZE) :
  wp (run_keys proc task ops) s (fun out _ => out = queue_keys [] ops).
Proof.
  wp_apply (run_keys_spec proc task HP ops s 0 [] (zeroed_buf _ _ _ Ht Hz)); [unfold PROCESS_KEYBOARD_BUFFER_SIZE in *; cbn [length]; lia|]. by intros out s' [-> _].
Qed.

(** ** A full round of the ring *)

Lemma fill_spec proc task : keys_placed proc task -> forall cs s hist,
  key_buf (k_ram s) proc task 0 hist -> (length hist + length cs <= 1024)%nat -> Forall (fun c => i8 c <> 0) cs ->
  forall ops Q, (forall s', key_buf (k_ram s') proc task 0 (hist ++ (i8 <$> cs)) -> wp (run_keys proc task ops) s' Q) ->
  wp (run_keys proc task ((KPush <$> cs) ++ ops)) s Q.
Proof.
  intros HP cs. induction cs as [|c cs IH]; intros s hist HB Hn HF ops Q HQ; cbn [fmap list_fmap app run_keys length] in *.
  { apply HQ. by rewrite app_nil_r. }
  apply Forall_cons in HF as [Hc HF]. wp_step. wp_apply (push_spec s proc task 0 hist c HP HB); [lia|]. intros _ s1 HB1.
  rewrite (proj2 (Z.eqb_neq (i8 c) 0)) in HB1 by done. apply (IH s1 (hist ++ [i8 c])); try done; [rewrite length_app; cbn; lia|].
  intros s' HB'. apply HQ. by rewrite <- app_assoc in HB'.
Qed.

Lemma drain_spec proc task hist : keys_placed proc task -> length hist = 1024%nat -> forall n h s,
  key_buf (k_ram s) proc task h hist -> (h + n = 1024)%nat ->
  wp (run_keys proc task (replicate (S n) KPop)) s (fun out _ => out = drop h hist ++ [hd 0 hist]).
Proof.
  intros HP Hl n. induction n as [|n IH]; intros h s HB Hn; cbn [replicate run_keys]; wp_step;
    wp_apply (pop_spec s proc task h hist HP HB); intros r s1 H1.
  - replace h with 1024%nat in * by lia. change (1024 mod 1024)%nat with 0%nat in H1. destruct hist as [|c hist]; [discriminate Hl|].
    destruct H1 as [-> _]. wpk. by rewrite drop_ge by lia.
  - rewrite Nat.mod_small in H1 by lia. destruct (lookup_lt_is_Some_2 hist h ltac:(lia)) as [c Hc]. rewrite Hc in H1.
    destruct H1 as [-> HB1]. specialize (HB1 ltac:(lia)). wp_step. wp_apply (IH (S h) s1 HB1); [lia|]. intros out s2 ->. wpk.
    by rewrite (drop_S hist c h Hc).
Qed.

(** After a full round of the ring the buffer repeats itself.  When
    exactly 1024 characters have been pushed into a zeroed buffer and all of
    them popped, one more keyboard_pop does not answer that the buffer is
    empty: it returns the first character again, because the popped slots are
    never cleared. *)
Lemma keyboard_replays (s : kstate) (proc task : Z) (cs : list Z) (HP : keys_placed proc task)
    (Ht : rd32 (k_ram s) (task + t_proc) = proc)
    (Hz : forall a, proc + p_kbd_buf <= a < proc + SIZEOF_PROCESS -> rd8 (k_ram s) a = 0)
    (Hn : Z.of_nat (length cs) = PROCESS_KEYBOARD_BUFFER_SIZE) (Hc : Forall (fun c => i8 c <> 0) cs) :
  wp (run_keys proc task ((KPush <$> cs) ++ replicate 1025 KPop)) s (fun out _ => out = (i8 <$> cs) ++ [i8 (hd 0 cs)]).
Proof.
  assert (Hl : length cs = 1024%nat) by (unfold PROCESS_KEYBOARD_BUFFER_SIZE in Hn; lia).
  apply (fill_spec proc task HP cs s [] (zeroed_buf _ _ _ Ht Hz)); [cbn [length]; lia | done |]. intros s1 HB. cbn [app] in HB.
  wp_apply (drain_spec proc task (i8 <$> cs) HP ltac:(by rewrite length_fmap) 1024 0 s1 HB); [done|].
  intros out _ ->. rewrite drop_0. by destruct cs.
Qed.
End key_buffer.

(** A process at 0x110000 and its task at 0xC00000. *)
Definition typist : kstate := kernel_on (ready (wr32 ∅ (0xC00000 + t_proc) 0x110000)) (mk_sched 0 0 0 0).

Lemma typist_placed : keys_placed 0x110000 0xC00000.
Proof. split; kfields; lia. Qed.

Lemma typist_zero a : 0x110000 + p_kbd_buf <= a < 0x110000 + SIZEOF_PROCESS -> rd8 (k_ram typist) a = 0.
Proof.
  intros Ha. change (k_ram typist) with (wr32 ∅ (0xC00000 + t_proc) 0x110000). rewrite rd8_wr32 by (kfields; lia). apply rd8_empty.
Qed.

Lemma keyboard_fifo_witness :
  exists s', run_keys 0x110000 0xC00000 [KPush 97; KPop; KPush 0; KPush 98; KPush 99; KPop; KPop; KPop] typist = Ret [97; 98; 99; 0] s'.
Proof.
  destruct (proj1 (wp_run _ _ _) (keyboard_fifo typist 0x110000 0xC00000
    [KPush 97; KPop; KPush 0; KPush 98; KPush 99; KPop; KPop; KPop] typist_placed eq_refl typist_zero ltac:(vm_compute; reflexivity))) as (out & s' & E & ->).
  exists s'. exact E.
Defined.
