(* ===== verification/Syscall.v ===== *)
(** * syscall/: the system calls

    Every handler takes its arguments from the user stack of the current task
    (task_get_stack_item reads through the page tables in force) and returns a
    [void *], here the 32-bit value of it. *)
From Stdlib Require Import ZArith Lia String.
From stdpp Require Import base numbers gmap list strings.
From S2P Require Import Prelude Config Memory Strings Machine Console Invariants Kheap Paging Disk Path File Kernel Elf Task Process Idt Keyboard.
Local Open Scope Z_scope.

Definition O_WRITE : Z := 2.

Section syscall.
Context {plat : Platform} {fsys : FileSystems} {lay : Layout}.

(** [task_get_stack_item(task_current(), index)] *)
Definition stack_arg (index : Z) : M kstate Z :=
  task ← task_current; task_get_stack_item task index.

(** [task_current()->proc] *)
Definition task_proc : M kstate Z := task ← task_current; kld32 (task + t_proc).

Definition kprint (msg : string) : M kstate unit := km (modify (print (chars msg))).

(** ** syscall.c *)

Definition syscall_hello_sum (frame : Z) : M kstate Z :=
  kprint "Hello world syscall! Sum: ";;
  kst32 (frame + i_ecx) 1989;;
  v2 ← stack_arg 1;
  v1 ← stack_arg 0;
  km (modify (print_int (i32 (v1 + v2))));;
  kprintln "";;
  mret (u32 (v1 + v2)).

(** ** user_io.c *)

Definition syscall_print (frame : Z) : M kstate Z :=
  str ← stack_arg 1;
  len ← stack_arg 0;
  buf ← km (kzalloc (u32 (len + 1)));
  if buf =? 0 then mret 0
  else
    copy_data_from_user buf str len;;
    km (modify (printn buf (i32 len)));;
    km (kfree buf);;
    mret 0.

Definition syscall_get_char (frame : Z) : M kstate Z :=
  task ← task_current;
  c ← keyboard_pop task;
  mret (u32 c).

Definition syscall_put_char (frame : Z) : M kstate Z :=
  c ← stack_arg 0;
  km (modify (print_char (i8 c)));;
  mret 0.

Definition syscall_clear_screen (frame : Z) : M kstate Z :=
  km (modify clear_screen);;
  mret 0.

(** ** umem.c *)

Definition mmap_flags (user_flags : Z) : Z :=
  let page_flags := Z.lor PAGE_PRESENT PAGE_USER_ACCESS_ALLOW in
  if Z.land user_flags O_WRITE =? 0 then page_flags else Z.lor page_flags PAGE_WRITE_ALLOW.

(** The part of syscall_mmap after the arguments are read. *)
Definition mmap (va_start va_end user_flags : Z) : M kstate Z :=
  let page_flags := mmap_flags user_flags in
  let va_start_aligned := paging_down_align_addr va_start in
  let va_end_aligned := paging_up_align_addr va_end in
  if negb (va_start =? va_start_aligned) || negb (va_end =? va_end_aligned) then mret (u32 (- STATUS_INVALID_ARG))
  else if negb (verify_user_pointer va_start_aligned =? STATUS_OK) ||
          negb (verify_user_pointer va_end_aligned =? STATUS_OK) || (va_end_aligned <=? va_start_aligned)
  then mret (u32 (- STATUS_INVALID_USER_MEM_ACCESS))
  else
    let nbytes := u32 (va_end_aligned - va_start_aligned) in
    pa_start ← km (kzalloc nbytes);
    if pa_start =? 0 then mret (u32 (- STATUS_NOT_ENOUGH_MEM))
    else
      task ← task_current;
      proc ← task_proc;
      block_idx ← process_add_vmem_block proc va_start_aligned va_end_aligned;
      if block_idx <? 0 then km (kfree pa_start);; mret (u32 block_idx)
      else
        pt ← load_pt (task + t_page_table);
        res ← km (paging_map_memory_region pt va_start_aligned pa_start va_end_aligned page_flags);
        if negb (res =? STATUS_OK) then
          proc ← task_proc;
          kst32 (proc + p_vmem_start + 4 * block_idx) 0;;
          proc ← task_proc;
          kst32 (proc + p_vmem_end + 4 * block_idx) 0;;
          km (kfree pa_start);;
          mret (u32 res)
        else mret STATUS_OK.

Definition syscall_mmap (frame : Z) : M kstate Z :=
  va_start ← stack_arg 2;
  va_end ← stack_arg 1;
  user_flags ← stack_arg 0;
  mmap va_start va_end user_flags.

Definition syscall_munmap (frame : Z) : M kstate Z :=
  addr ← stack_arg 0;
  proc ← task_proc;
  r ← process_free_vmem_block proc addr;
  mret (u32 r).

(** ** proc_mgmt.c *)

(** Code of the kernel that is handed a pointer of user code reads through the
    MMU.  A string whose bytes, up to the terminator, are at consecutive
    physical addresses from [pa] on is the same string at [pa]; every region
    that the kernel maps for a process is of this kind.  Other strings are
    beyond the model. *)
Fixpoint string_at (fuel : nat) (x : machine) (dir va pa : Z) : bool :=
  match fuel with
  | O => false
  | S fuel =>
    match mmu_walk x dir (u32 va) with
    | Some (p, _) =>
      if p =? pa then (if rd8 (m_ram x) pa =? 0 then true else string_at fuel x dir (va + 1) (pa + 1)) else false
    | None => false
    end
  end.

Definition user_string (va : Z) : M kstate Z :=
  w ← gets (fun s => mmu_walk (k_mach s) (cr3_reg (k_vm s)) (u32 va));
  match w with
  | None => fun s => Panic "page fault" s
  | Some (pa, _) =>
    ok ← gets (fun s => string_at scan_fuel (k_mach s) (cr3_reg (k_vm s)) va pa);
    if ok : bool then mret pa else spin
  end.

Definition _create_proccess (file_path argc len args : Z) : M kstate Z :=
  path ← user_string file_path;
  '(res, proc) ← process_new path;
  if negb (res =? STATUS_OK) then mret (u32 res)
  else
    cur ← task_proc;
    pid ← kld16 (cur + p_pid);
    process_set_parent_pid proc pid;;
    args_kspace ← km (kzalloc (u32 len));
    copy_data_from_user args_kspace args (u32 len);;
    res ← process_add_arguments proc argc len args_kspace;
    km (kfree args_kspace);;
    if negb (res =? STATUS_OK) then mret (u32 res)
    else pid ← kld16 (proc + p_pid); mret pid.

Definition syscall_create_process (frame : Z) : M kstate Z :=
  args ← stack_arg 0;
  len ← stack_arg 1;
  argc ← stack_arg 2;
  file_path ← stack_arg 3;
  _create_proccess file_path (i32 argc) (i32 len) args.

Definition syscall_exit (frame : Z) : M kstate Z :=
  status ← stack_arg 0;
  km assert_single_task_per_process;;
  proc ← task_proc;
  process_exit proc (i32 status);;
  task_switch_and_run_any;;
  mret 0.

Definition syscall_wait_pid (frame : Z) : M kstate Z :=
  pid ← stack_arg 0;
  proc ← task_proc;
  r ← process_waitpid proc (i32 pid);
  mret (u32 r).

(** ** Registration *)

Definition register_syscalls : M kstate unit :=
  syscall_register_command 0 (Some syscall_hello_sum_fn);;
  syscall_register_command 1 (Some syscall_print_fn);;
  syscall_register_command 2 (Some syscall_get_char_fn);;
  syscall_register_command 3 (Some syscall_put_char_fn);;
  syscall_register_command 4 (Some syscall_mmap_fn);;
  syscall_register_command 5 (Some syscall_munmap_fn);;
  syscall_register_command 6 (Some syscall_clear_screen_fn);;
  syscall_register_command 7 (Some syscall_create_process_fn);;
  syscall_register_command 8 (Some syscall_exit_fn);;
  syscall_register_command 9 (Some syscall_wait_pid_fn).

(** The function that a table entry stands for. *)
Definition run_syscall (f : syscall) (frame : Z) : M kstate Z :=
  match f with
  | syscall_hello_sum_fn => syscall_hello_sum frame
  | syscall_print_fn => syscall_print frame
  | syscall_get_char_fn => syscall_get_char frame
  | syscall_put_char_fn => syscall_put_char frame
  | syscall_mmap_fn => syscall_mmap frame
  | syscall_munmap_fn => syscall_munmap frame
  | syscall_clear_screen_fn => syscall_clear_screen frame
  | syscall_create_process_fn => syscall_create_process frame
  | syscall_exit_fn => syscall_exit frame
  | syscall_wait_pid_fn => syscall_wait_pid frame
  end.
End syscall.
