(* ===== verification/Interrupts.v ===== *)
(** * idt/idt.c: the handlers

    Entry from user code: idt.asm pushes the frame, calls interrupt_handler or
    intr_80h_handler and returns to user code with [iretd]. *)
From Stdlib Require Import ZArith Lia String.
From stdpp Require Import base numbers gmap list strings.
From S2P Require Import Prelude Config Memory Machine Console Kheap Paging AddressSpace Blocks Disk Path File Kernel Elf Task TaskList TaskLife Scheduler Process ProcTable Idt Keyboard Syscall.
Local Open Scope Z_scope.

Section interrupts.
Context {plat : Platform} {fsys : FileSystems} {lay : Layout}.

Definition idt_handle_exception (frame : Z) : M kstate unit :=
  task_save_current_state frame;;
  proc ← task_proc;
  process_exit proc (- STATUS_PROC_EXCEPTION);;
  task_switch_and_run_any.

Definition idt_handle_clock (frame : Z) : M kstate unit :=
  task_save_current_state frame;;
  pic_ack;;
  task_switch_to_next_and_run;;
  mret tt.

Definition run_call_back (f : callback) (frame : Z) : M kstate unit :=
  match f with
  | idt_handle_exception_cb => idt_handle_exception frame
  | idt_handle_clock_cb => idt_handle_clock frame
  | keyboard_intr_handler_cb => keyboard_intr_handler frame
  end.

Definition interrupt_handler (interrupt_no frame : Z) : M kstate unit :=
  (if interrupt_no =? 0xE then kprintln "[OS Warning] page fault.. maybe a bug in code" else mret tt);;
  cbs ← gets (fun s => interrupt_call_backs (k_intr s));
  match nth (Z.to_nat interrupt_no) cbs None with
  | Some f => run_call_back f frame
  | None => pic_ack
  end.

Definition syscall_handle_command (command frame : Z) : M kstate Z :=
  if (command <? 0) || (NUM_SYS_CALLS <=? command) then mret (u32 (- SYSCALL_NOT_IMPLEMENTED))
  else
    calls ← gets (fun s => sys_calls (k_intr s));
    match array_at calls_beyond calls command with
    | None => mret (u32 (- SYSCALL_NOT_IMPLEMENTED))
    | Some f => run_syscall f frame
    end.

Definition intr_80h_handler (command frame : Z) : M kstate Z :=
  task_save_current_state frame;;
  syscall_handle_command command frame.

(** ** idt.asm *)

(** [popad] and [iretd]. *)
Definition return_to_user (frame : Z) (result : option Z) : M kstate unit :=
  fun s =>
    let r := frame_regs (k_ram s) frame in
    User (set_cpu (mk_regs (edi r) (esi r) (ebp r) (ebx r) (edx r) (ecx r) (default (eax r) result)
                           (eip r) (cs r) (eflags r) (esp r) (ss r)) s).

Definition int80h_asm (frame : Z) : M kstate unit :=
  disable_interrupts;;
  command ← kld32 (frame + i_eax);
  res ← intr_80h_handler (i32 command) frame;
  return_to_user frame (Some res).

Definition interrupt_asm (interrupt_no frame : Z) : M kstate unit :=
  interrupt_handler interrupt_no frame;;
  return_to_user frame None.

(** ** The clock *)

(** Saving registers in task [c] keeps the list. *)
Lemma save_keeps_list s m l c :
  task_list s l -> is_task (k_mach s) c -> (forall a, a < c + 12 \/ c + 60 <= a -> rd8 m a = rd8 (k_ram s) a) ->
  task_list (set_k_ram m s) l.
Proof.
  intros [Hs Ht Hnd Hh Htl Hl] Hc Hm. pose proof (task_pos _ c Hc) as Hp. split; try done; knorm.
  - intros t Hin. destruct (Ht t Hin) as (b & Hb & -> & He). exists b. split_and!; try done. unfold page_entry in *.
    rewrite !heap_entry in * by (done || blk; lia). cbn [set_ram m_ram]. rewrite Hm by (blk; lia). exact He.
  - revert Hl. apply links_ext. intros t Hin. pose proof (task_pos _ t (Ht t Hin)).
    split; apply rd32_ext; intros a Ha; apply Hm; destruct (decide (t = c)) as [->|Hne]; tfields; try lia;
      pose proof (task_apart _ t c (Ht t Hin) Hc Hne); lia.
Qed.

Lemma save_keeps_regs s m t c :
  is_task (k_mach s) t -> is_task (k_mach s) c -> t <> c -> (forall a, a < c + 12 \/ c + 60 <= a -> rd8 m a = rd8 (k_ram s) a) ->
  regs_at m (t + t_registers) = regs_at (k_ram s) (t + t_registers).
Proof.
  intros Ht Hc Hne Hm. pose proof (task_apart _ t c Ht Hc Hne). unfold regs_at.
  f_equal; apply rd32_ext; intros a Ha; apply Hm; tfields; lia.
Qed.

(** Saving registers does not change which tasks there are, their states or
    their processes. *)
Lemma save_keeps_fields s m t c :
  is_task (k_mach s) t -> is_task (k_mach s) c -> (forall a, a < c + 12 \/ c + 60 <= a -> rd8 m a = rd8 (k_ram s) a) ->
  state_of m t = state_of (k_ram s) t /\ proc_of m t = proc_of (k_ram s) t.
Proof.
  intros Ht Hc Hm. assert (Hd : t = c \/ t + 4096 <= c \/ c + 4096 <= t).
  { destruct (decide (t = c)); [by left|]. right. by apply (task_apart (k_mach s)). }
  unfold state_of, proc_of. split; [apply Hm | apply rd32_ext; intros a Ha; apply Hm]; tfields; lia.
Qed.

(** C9: a clock interrupt is a round-robin step.  The registers of the
    interrupted task are saved as they were in the frame, the interrupt is
    acknowledged once, and the CPU goes to user mode in the next task of the
    list (from the front again after the last one): with that task's address
    space and process, and with its saved registers, or with the registers of
    the frame when the interrupted task is alone.  It requires that the next
    task is ready, and that the structure of its process is outside of the heap
    and its table, as the kernel image is, and marked as able to start. *)
Theorem clock_round_robin (s : kstate) (l1 : list Z) (c : Z) (l2 : list Z) (frame : Z)
    (HL : task_list s (l1 ++ c :: l2)) (Hc : curr_task (k_sched s) = c) (Hrun : state_of (k_ram s) c = TASK_RUNNING)
    (Hn : successor l1 c l2 = c \/ state_of (k_ram s) (successor l1 c l2) = TASK_READY)
    (Hstart : startable (k_ram s) (successor l1 c l2)) (Hf : frame_ok frame) :
  let n := successor l1 c l2 in
  exists s', idt_handle_clock frame s = User s' /\
    curr_task (k_sched s') = n /\ state_of (k_ram s') n = TASK_RUNNING /\
    current_proc (k_sched s') = proc_of (k_ram s) n /\
    cr3_reg (k_vm s') = rd32 (k_ram s) n /\
    k_cpu s' = (if n =? c then frame_regs (k_ram s) frame else regs_at (k_ram s) (n + t_registers)) /\
    (n <> c -> state_of (k_ram s') c = TASK_READY /\ regs_at (k_ram s') (c + t_registers) = frame_regs (k_ram s) frame) /\
    pic_acks (k_intr s') = S (pic_acks (k_intr s)).
Proof.
  set (n := successor l1 c l2) in *. assert (Hic : is_task (k_mach s) c) by (apply (tl_task _ _ HL), elem_of_app; right; left).
  assert (Hin : is_task (k_mach s) n) by (apply (tl_task _ _ HL), successor_in). apply ends_leaves.
  unfold idt_handle_clock. apply ends_bind. wp_apply (save_state_spec s c frame Hc Hic Hf). intros _ s1 (m & -> & Hregs & Hm).
  apply ends_bind. unfold pic_ack, on_intr. wpk. set (s2 := set_intr _ _). apply leaves_bind.
  destruct (save_keeps_fields s m n c Hin Hic Hm) as [En Ep], (save_keeps_fields s m c c Hic Hic Hm) as [Ec _].
  assert (HL2 : task_list s2 (l1 ++ c :: l2)) by (destruct (save_keeps_list s m _ c HL Hic Hm); by split).
  assert (Hq : forall a, off_heap a -> rd8 m a = rd8 (k_ram s) a).
  { intros a Ha. pose proof (task_pos _ c Hic). apply Hm. unfold off_heap in Ha. hp. vga. lia. }
  assert (Hst2 : startable (k_ram s2) n).
  { change (k_ram s2) with m. unfold startable in *. rewrite Ep, Hq by apply Hstart. exact Hstart. }
  eapply leaves_mono; [apply (switch_next_spec s2 l1 c l2); try done; change (k_ram s2) with m|].
  - by rewrite Ec.
  - fold n. by rewrite En.
  - fold n. change (k_ram s2) with m in *. intros s' [W1 W2 W3 W4 W5 Wi W6 W7 W8].
    change (k_ram s2) with m in *. split_and!; try done.
    + by rewrite W2, Ep.
    + rewrite W3. apply rd32_ext. intros a Ha. apply Hm. pose proof (task_apart _ n c Hin Hic). lia.
    + rewrite W4. destruct (Z.eqb_spec n c) as [->|Hne]; [done|]. by apply (save_keeps_regs s m n c).
    + intros Hne. assert (Hic2 : is_task (k_mach s2) c) by (apply (tl_task _ _ HL2), elem_of_app; right; left). split.
      * rewrite W7, Ec, Hrun by (done || congruence). change (k_sched s2) with (k_sched s). by rewrite Hc, Z.eqb_refl.
      * rewrite <- Hregs. unfold regs_at. pose proof (task_pos _ c Hic).
        f_equal; apply rd32_ext; intros a Ha; apply W8; intros u Hu; destruct (decide (u = c)) as [->|Hu']; tfields; try lia;
          pose proof (task_apart _ u c Hu Hic2 Hu'); lia.
    + by rewrite Wi.
Qed.

(** ** Dispatch of system calls *)

Definition syscall_table : list syscall :=
  [syscall_hello_sum_fn; syscall_print_fn; syscall_get_char_fn; syscall_put_char_fn; syscall_mmap_fn; syscall_munmap_fn;
   syscall_clear_screen_fn; syscall_create_process_fn; syscall_exit_fn; syscall_wait_pid_fn].

Lemma register_spec s i f l :
  0 <= i < NUM_SYS_CALLS -> sys_calls (k_intr s) = l -> array_at calls_beyond l i = None ->
  forall Q, (forall x, sys_calls x = <[Z.to_nat i := Some f]> l -> Q tt (set_intr x s)) ->
  wp (syscall_register_command i (Some f)) s Q.
Proof.
  intros Hi Hl Hnone Q HQ. unfold syscall_register_command.
  destruct (Z.ltb_spec i 0); [lia|]. destruct (Z.leb_spec NUM_SYS_CALLS i); [lia|]. cbn [orb]. wpk. rewrite Hl, Hnone. wpk.
  unfold on_intr. wpk. apply HQ. cbn [sys_calls set_sys_calls]. by rewrite Hl.
Qed.

(** C30: the system calls.  Once idt_init has emptied the table,
    register_syscalls succeeds; from then on the commands 0 to 9 run the ten
    handlers in order, and every other number, negative ones, the unused part
    of the table and numbers past its end included, is answered with
    SYSCALL_NOT_IMPLEMENTED and changes nothing, whatever memory holds next to
    the table. *)
Theorem syscall_dispatch (s : kstate) (Hempty : sys_calls (k_intr s) = replicate (Z.to_nat NUM_SYS_CALLS) None) :
  wp register_syscalls s (fun _ s' => k_mach s' = k_mach s /\ forall x command frame, k_intr x = k_intr s' ->
    syscall_handle_command command frame x =
    match (if command <? 0 then None else syscall_table !! Z.to_nat command) with
    | Some f => run_syscall f frame x
    | None => Ret (u32 (- SYSCALL_NOT_IMPLEMENTED)) x
    end).
Proof.
  unfold register_syscalls.
  repeat (try wp_step; eapply register_spec; [unfold NUM_SYS_CALLS; lia | first [exact Hempty | eassumption] | reflexivity |];
    let x := fresh "x" in let H := fresh "H" in intros x H).
  split; [done|]. intros x' command frame Ex. unfold syscall_handle_command.
  destruct (Z.ltb_spec command 0); [done|]. destruct (Z.leb_spec NUM_SYS_CALLS command) as [Hbig|Hsmall]; cbn [orb].
  { rewrite lookup_ge_None_2; [done|]. unfold NUM_SYS_CALLS in *. cbn. lia. }
  unfold mbind, M_bind, gets. rewrite Ex. cbn [k_intr set_intr]. match goal with H : sys_calls ?y = _ |- context [sys_calls ?y] => rewrite H end.
  assert (Hc : exists k, command = Z.of_nat k /\ (k < 64)%nat) by (exists (Z.to_nat command); unfold NUM_SYS_CALLS in *; lia).
  destruct Hc as (k & -> & Hk). rewrite Nat2Z.id. match goal with |- context [array_at calls_beyond ?L _] => assert (E : array_at calls_beyond L (Z.of_nat k) = syscall_table !! k) end.
  { clear - Hk. do 64 (destruct k as [|k]; [vm_compute; reflexivity|]). lia. }
  rewrite E. by destruct (syscall_table !! k).
Qed.
End interrupts.

Lemma clock_round_robin_witness :
  exists s', idt_handle_clock 0x5FFFCC (two_tasks TASK_RUNNING TASK_READY) = User s' /\ curr_task (k_sched s') = block_addr 1.
Proof.
  assert (Hf : frame_ok 0x5FFFCC) by (split_and!; hp; lia).
  assert (Es : state_of (k_ram (two_tasks TASK_RUNNING TASK_READY)) (block_addr 1) = TASK_READY) by (vm_compute; reflexivity).
  assert (Er : state_of (k_ram (two_tasks TASK_RUNNING TASK_READY)) (block_addr 0) = TASK_RUNNING) by (vm_compute; reflexivity).
  destruct (clock_round_robin (two_tasks TASK_RUNNING TASK_READY) [] (block_addr 0) [block_addr 1] 0x5FFFCC
    (two_tasks_list _ _) eq_refl Er (or_intror Es) (two_tasks_startable _ _ _ (or_intror eq_refl)) Hf) as (s' & E & Hn & _).
  exists s'. split; [exact E | exact Hn].
Defined.

(** A kernel with an empty table of system calls. *)
Definition no_calls : kstate :=
  set_intr (mk_intr [] (replicate (Z.to_nat NUM_SYS_CALLS) None) 0 false (0, 0) 0 0) (kernel_on (ready ∅) (mk_sched 0 0 0 0)).

(** A number next to the table, where memory holds a handler, is refused. *)
Lemma syscall_dispatch_witness :
  exists s', register_syscalls (lay := image) no_calls = Ret tt s' /\
    syscall_handle_command (plat := test_platform) (fsys := null_filesystems) (lay := image) NUM_SYS_CALLS 0 s'
    = Ret (u32 (- SYSCALL_NOT_IMPLEMENTED)) s' /\ calls_beyond (Layout := image) NUM_SYS_CALLS <> None.
Proof.
  destruct (proj1 (wp_run _ _ _)
    (syscall_dispatch (plat := test_platform) (fsys := null_filesystems) (lay := image) no_calls eq_refl)) as ([] & s' & E & _ & H).
  exists s'. split; [exact E|]. split; [exact (H s' NUM_SYS_CALLS 0 eq_refl) | discriminate].
Defined.
