(* ===== verification/UserMemory.v ===== *)
(** * mmap: memory for user code

    The system call takes zeroed heap blocks, records the region in the
    process and maps it into the address space of the current task. *)
From Stdlib Require Import ZArith Lia String.
From stdpp Require Import base numbers gmap list strings.
From S2P Require Import Prelude Config Memory Machine Console Kheap Paging AddressSpace Blocks Disk Path File Kernel Elf Task TaskList TaskLife Scheduler Process ProcTable Idt Keyboard Syscall.
Local Open Scope Z_scope.

(** ** Zeroed runs of blocks *)

(** [s'] is [s] after a zeroed run of [n] blocks at [i] is taken. *)
Record run_taken (s s' : machine) (i n : Z) : Prop := {
  rt_in : 0 <= i /\ i + n <= HEAP_BLOCKS;
  rt_free : forall k, i <= k < i + n -> entry_is_free s k = true;
  rt_used : forall k, i <= k < i + n -> used s' k;
  rt_zero : forall a, block_addr i <= a < block_addr i + 4096 * n -> rd8 (m_ram s') a = 0;
  rt_heap : exists m, s' = set_ram m s;
  rt_keep : forall a, a < KHEAP_TABLE_ADDR + i \/ KHEAP_TABLE_ADDR + i + n <= a ->
    a < block_addr i \/ block_addr i + 4096 * n <= a -> rd8 (m_ram s') a = rd8 (m_ram s) a }.

Lemma kzalloc_run n s :
  heap_ok s -> 1 <= n < 1048576 -> no_overrun s n ->
  wp (kzalloc (4096 * n)) s (fun p s' =>
    (p = 0 /\ forall k, 0 <= k < HEAP_BLOCKS -> ~ fits s n k) \/ exists i, p = block_addr i /\ run_taken s s' i n).
Proof.
  intros Hs Hn Hno. assert (Hb : blocks_of (4096 * n) = n) by (unfold blocks_of; hp; rewrite u32_small; zlia).
  unfold kzalloc. wp_step. wp_apply (kmalloc_spec (4096 * n) s Hs). rewrite Hb.
  intros p s' [(-> & _ & Hno')|(i & Hi & -> & Hf & Hmin & ->)]; [wp_steps; by left|]. wp_steps. right. exists i. split; [done|].
  specialize (Hno i Hi Hf Hmin). rewrite Z.max_r in Hno by lia. destruct (alloc_run_spec i n s Hs Hi ltac:(lia)) as (m & -> & Hm).
  rewrite Z.max_r in Hm by lia. destruct Hf as [Hf0 Hf].
  assert (Hz : forall a, rd8 (memset (block_addr i) 0 (4096 * n) m) a =
    if (block_addr i <=? a) && (a <? block_addr i + 4096 * n) then 0 else rd8 m a).
  { intros a. by rewrite rd8_memset by (blk; lia). }
  split; cbn [on_ram set_ram m_ram].
  - lia.
  - intros k Hk. destruct (decide (k = i)) as [->|]; [done|]. apply Hf. lia.
  - intros k Hk. unfold used, entry_is_free. rewrite heap_entry by (done || blk; lia). cbn [set_ram m_ram].
    rewrite Hz, Hm, (proj2 (Z.leb_gt _ _)) by (blk; lia). cbn [andb].
    rewrite (proj2 (Z.leb_le _ _)), (proj2 (Z.ltb_lt _ _)) by lia. cbn [andb]. by rewrite run_entry_taken.
  - intros a Ha. rewrite Hz. repeat case_test; cbn; try lia; done.
  - by eexists.
  - intros a Ha Ha'. rewrite Hz, Hm. repeat case_test; cbn; try lia; done.
Qed.

(** Taking a run keeps what is in use. *)
Lemma run_taken_block s s' i n b a :
  heap_ok s -> run_taken s s' i n -> in_heap b -> used s b -> in_block b a -> rd8 (m_ram s') a = rd8 (m_ram s) a.
Proof.
  intros Hs R Hb Hu Ha. destruct (rt_in _ _ _ _ R). apply (rt_keep _ _ _ _ R).
  - unfold in_block in Ha. blk. lia.
  - assert (b < i \/ i + n <= b) by (destruct (decide (b < i \/ i + n <= b)); [done|]; unfold used in Hu;
      by rewrite (rt_free _ _ _ _ R) in Hu by lia). unfold in_block in Ha. blk. lia.
Qed.

Lemma run_taken_ok s s' i n : heap_ok s -> run_taken s s' i n -> heap_ok s'.
Proof. intros Hs R. by destruct (rt_heap _ _ _ _ R) as (m & ->). Qed.

Lemma run_taken_used s s' i n b : heap_ok s -> run_taken s s' i n -> in_heap b -> used s b -> used s' b.
Proof.
  intros Hs R Hb Hu. pose proof (run_taken_ok _ _ _ _ Hs R) as Hs'. destruct (rt_in _ _ _ _ R).
  destruct (decide (i <= b < i + n)); [by apply (rt_used _ _ _ _ R)|].
  unfold used, entry_is_free in *. rewrite !heap_entry in * by (done || blk; lia). rewrite (rt_keep _ _ _ _ R) by (blk; lia). done.
Qed.

(** ** The regions of a process *)

Definition vmem_placed (proc : Z) : Prop :=
  forall a, proc + p_vmem_start <= a < proc + p_vmem_end + 4 * PROCESS_VMEM_MAX_BLOCKS -> 0 <= a < 4294967296 /\ off_heap a.

Lemma vmem_word proc j off : vmem_placed proc -> 0 <= j < PROCESS_VMEM_MAX_BLOCKS -> off = p_vmem_start \/ off = p_vmem_end ->
  u32 (proc + off + 4 * j) = proc + off + 4 * j /\ forall a, proc + off + 4 * j <= a < proc + off + 4 * j + 4 -> off_heap a.
Proof.
  intros HP Hj Ho. assert (H : forall a, proc + off + 4 * j <= a < proc + off + 4 * j + 4 -> 0 <= a < 4294967296 /\ off_heap a).
  { intros a Ha. apply HP. unfold p_vmem_start, p_vmem_end, PROCESS_VMEM_MAX_BLOCKS in *. lia. }
  split; [apply u32_small, H; lia|]. intros a Ha. by apply H.
Qed.

(** Only slot [r] of the regions of the process changes. *)
Definition slots_kept (proc r : Z) (m m' : ram) : Prop :=
  (forall k, 0 <= k < PROCESS_VMEM_MAX_BLOCKS -> k <> r ->
     vmem_start m' proc k = vmem_start m proc k /\ vmem_end m' proc k = vmem_end m proc k) /\
  forall a, a < proc + p_vmem_start \/ proc + p_vmem_end + 4 * PROCESS_VMEM_MAX_BLOCKS <= a -> rd8 m' a = rd8 m a.

Lemma slots_kept_wr proc r m vs ve :
  vmem_placed proc -> 0 <= r < PROCESS_VMEM_MAX_BLOCKS ->
  slots_kept proc r m (wr32 (wr32 m (proc + p_vmem_start + 4 * r) vs) (proc + p_vmem_end + 4 * r) ve).
Proof.
  intros HP Hr. split.
  - intros k Hk Hne. destruct (vmem_word proc k p_vmem_start HP Hk ltac:(auto)) as [U1 _].
    destruct (vmem_word proc k p_vmem_end HP Hk ltac:(auto)) as [U2 _]. unfold vmem_start, vmem_end. rewrite U1, U2.
    unfold p_vmem_start, p_vmem_end, PROCESS_VMEM_MAX_BLOCKS in *. by rewrite !rd32_wr32_ne by lia.
  - intros a Ha. unfold p_vmem_start, p_vmem_end, PROCESS_VMEM_MAX_BLOCKS in *. by rewrite !rd8_wr32 by lia.
Qed.

Section mmap.
Context {plat : Platform} {fsys : FileSystems} {lay : Layout}.

Lemma static_wr32 m p v : (forall a, p <= a < p + 4 -> off_heap a) -> static_writes m (wr32 m p v).
Proof.
  intros Hq a Ha. apply rd8_wr32. destruct (decide (p <= a < p + 4)); [by destruct Ha; apply Hq | lia].
Qed.

Lemma static_writes_trans m1 m2 m3 : static_writes m1 m2 -> static_writes m2 m3 -> static_writes m1 m3.
Proof. intros H1 H2 a Ha. by rewrite H2, H1. Qed.

Lemma scan_some n test : forall i j, scan_procs n i test = Some j -> i <= j < i + Z.of_nat n /\ test j = true.
Proof.
  induction n as [|n IH]; intros i j; cbn [scan_procs]; [done|]. destruct (test i) eqn:E.
  - intros [= <-]. split; [lia | done].
  - intros H%IH. split; [lia | apply H].
Qed.

Lemma scan_none_inv n test : forall i, scan_procs n i test = None -> forall j, i <= j < i + Z.of_nat n -> test j = false.
Proof.
  induction n as [|n IH]; intros i H j Hj; [lia|]. cbn [scan_procs] in H. destruct (test i) eqn:E; [done|].
  destruct (decide (j = i)) as [->|]; [done|]. apply (IH (i + 1)); [done | lia].
Qed.

Lemma add_vmem_spec s proc vs ve :
  vmem_placed proc -> is_u32 vs -> is_u32 ve ->
  wp (process_add_vmem_block proc vs ve) s (fun r s' =>
    (r = - STATUS_OUT_OF_VMEM_BLOCKS /\ s' = s /\ forall j, 0 <= j < PROCESS_VMEM_MAX_BLOCKS -> vmem_start (k_ram s) proc j <> 0) \/
    (0 <= r < PROCESS_VMEM_MAX_BLOCKS /\ vmem_start (k_ram s) proc r = 0 /\ exists m, s' = set_k_ram m s /\
     static_writes (k_ram s) m /\ vmem_start m proc r = vs /\ vmem_end m proc r = ve /\ slots_kept proc r (k_ram s) m)).
Proof.
  intros HP Hvs Hve. unfold process_add_vmem_block. wpk.
  destruct (scan_procs _ _ _) as [j|] eqn:E.
  - apply scan_some in E as [Hj Ht]. rewrite Z2Nat.id in Hj by (unfold PROCESS_VMEM_MAX_BLOCKS; lia). apply Z.eqb_eq in Ht. wpk. right.
    destruct (vmem_word proc j p_vmem_start HP ltac:(lia) ltac:(auto)) as [U1 Q1].
    destruct (vmem_word proc j p_vmem_end HP ltac:(lia) ltac:(auto)) as [U2 Q2]. rewrite U1, U2. knorm.
    split; [lia|]. split; [done|]. eexists. split; [reflexivity|]. split_and!.
    + eapply static_writes_trans; by apply static_wr32.
    + unfold vmem_start. rewrite U1, rd32_wr32_ne, rd32_wr32 by (unfold p_vmem_start, p_vmem_end, PROCESS_VMEM_MAX_BLOCKS in *; lia).
      by apply u32_small.
    + unfold vmem_end. rewrite U2, rd32_wr32. by apply u32_small.
    + by apply slots_kept_wr; [|lia].
  - wpk. left. split_and!; [done | done |]. intros j Hj Hz. pose proof (scan_none_inv _ _ _ E j) as H.
    rewrite Z2Nat.id in H by (unfold PROCESS_VMEM_MAX_BLOCKS; lia). specialize (H ltac:(lia)). by rewrite Hz in H.
Qed.

(** ** Mapping the run *)

Lemma land_6 e : Z.land e 6 = 6 <-> Z.testbit e 1 = true /\ Z.testbit e 2 = true.
Proof.
  split.
  - intros H. split; [change true with (Z.testbit 6 1) | change true with (Z.testbit 6 2)]; rewrite <- H, Z.land_spec; by rewrite andb_true_r.
  - intros [H1 H2]. apply Z.bits_inj'. intros k Hk. rewrite Z.land_spec.
    destruct (decide (k = 1)) as [->|]; [by rewrite H1|]. destruct (decide (k = 2)) as [->|]; [by rewrite H2|].
    replace (Z.testbit 6 k) with false; [apply andb_false_r|]. symmetry.
    destruct (decide (k = 0)) as [->|]; [done|]. apply Z.bits_above_log2; [lia|]. change (Z.log2 6) with 2. lia.
Qed.

(** Access for user code and writing needs both bits at both levels. *)
Lemma rights_full e p : rights e p = 6 <-> Z.land e 6 = 6 /\ Z.land p 6 = 6.
Proof.
  unfold rights. change (PAGE_USER_ACCESS_ALLOW + PAGE_WRITE_ALLOW) with 6. rewrite !land_6, !Z.land_spec, !andb_true_iff. tauto.
Qed.

(** The tables of [dir] after the run is taken and the region recorded. *)
Section prepared.
Context (x x1 : machine) (m : ram) (dir i n : Z).
Context (Hwf : pt_wf x dir) (R : run_taken x x1 i n) (Hm : static_writes (m_ram x1) m).

Lemma prepared_used b : in_heap b -> used x b -> used (set_ram m x1) b.
Proof.
  intros Hb Hu. pose proof (wf_heap _ _ Hwf) as Hs. unfold used, entry_is_free.
  rewrite static_entry; [|by apply (run_taken_ok x _ i n) | done | done]. by apply (run_taken_used x _ i n).
Qed.

Lemma prepared_block b a : in_heap b -> used x b -> in_block b a -> rd8 m a = rd8 (m_ram x) a.
Proof.
  intros Hb Hu Ha. rewrite Hm; [apply (run_taken_block x x1 i n b); try done; apply (wf_heap _ _ Hwf)|].
  unfold off_heap, in_block in *. blk. vga. lia.
Qed.

Lemma prepared_own b a : owned x dir b -> in_block b a -> rd8 (m_ram (set_ram m x1)) a = rd8 (m_ram x) a.
Proof. intros Ho Ha. destruct (owned_used _ _ _ Hwf Ho). by apply (prepared_block b). Qed.

Lemma prepared_ok : heap_ok (set_ram m x1).
Proof. exact (run_taken_ok x x1 i n (wf_heap _ _ Hwf) R). Qed.

Lemma prepared_wf : pt_wf (set_ram m x1) dir.
Proof. apply (keep_wf x); [done | apply prepared_ok | apply prepared_used | apply prepared_own]. Qed.

Lemma prepared_run b : i <= b < i + n -> used (set_ram m x1) b.
Proof.
  intros Hb. destruct (rt_in _ _ _ _ R). unfold used, entry_is_free.
  rewrite static_entry; [|apply prepared_ok | blk; lia | done]. by apply (rt_used _ _ _ _ R).
Qed.

Lemma prepared_owned b : owned (set_ram m x1) dir b <-> owned x dir b.
Proof. apply (keep_owned x); [done | apply prepared_own]. Qed.

Lemma run_unowned b : i <= b < i + n -> ~ owned x dir b.
Proof. intros Hb [_ Hu]%(owned_used _ _ _ Hwf). unfold used in Hu. by rewrite (rt_free _ _ _ _ R) in Hu. Qed.

(** What mapping the run keeps, whether or not it succeeds. *)
Record run_kept (va va_end flags : Z) (x3 : machine) : Prop := {
  rk_wf : pt_wf x3 dir;
  rk_keep : forall b a, in_heap b -> used x b -> ~ owned x dir b -> in_block b a -> rd8 (m_ram x3) a = rd8 (m_ram x) a;
  rk_blocks : forall b, in_heap b -> used x b \/ i <= b < i + n -> ~ owned x dir b -> used x3 b /\ ~ owned x3 dir b;
  rk_rest : forall v, is_u32 v -> v < va \/ va_end <= v -> fst <$> mmu_walk x3 dir v = fst <$> mmu_walk x dir v;
  rk_write : Z.land flags 6 = 6 -> forall v pa, is_u32 v -> v < va \/ va_end <= v ->
    mmu_walk x dir v = Some (pa, 6) -> mmu_walk x3 dir v = Some (pa, 6) }.

Lemma region_kept flags va va_end r x3 new :
  region_args va (block_addr i) va_end -> region_post dir flags (va / 4096) (va_end / 4096) new (set_ram m x1) r x3 ->
  run_kept va va_end flags x3.
Proof.
  intros (Hva & Hpa & Hve & Ava & Apa & Ave & Hlt) (Hext & Hout & Hdir & _). unfold is_u32 in *.
  assert (Hpte : forall v, 0 <= v < 4294967296 -> v < va \/ va_end <= v -> pte_at x3 dir (v / 4096) = pte_at x dir (v / 4096)).
  { intros v Hv Ho. rewrite Hout by zlia. apply (keep_pte x); [done | apply prepared_own | zlia]. }
  split.
  - apply (ext_wf _ _ _ Hext).
  - intros b a Hb Hu Hno Ha. rewrite <- (prepared_block b a) by done.
    apply (ext_keep _ _ _ Hext b); [done | by apply prepared_used | by rewrite prepared_owned | done].
  - intros b Hb Hu Hno. assert (Hu' : used (set_ram m x1) b) by (destruct Hu; [by apply prepared_used | by apply prepared_run]).
    split; [by apply (ext_used _ _ _ Hext)|]. intros [Ho|Hf]%(ext_new _ _ _ Hext); [by rewrite prepared_owned in Ho|].
    unfold used in Hu'. by rewrite Hf in Hu'.
  - intros v Hv Ho. apply region_keeps_frame; [done | by apply Hpte].
  - unfold is_u32. intros Hfl v pa Hv Ho. rewrite !mmu_walk_pte by done. cbn zeta. rewrite (Hpte v Hv Ho).
    destruct (present (pte_at x dir (v / 4096))); [|done]. intros [= -> Hr]. do 2 f_equal.
    destruct (Hdir (v / 4194304) ltac:(zlia)) as [E|(E & _)].
    + by rewrite E, (keep_pde x (set_ram m x1) dir Hwf prepared_own) by zlia.
    + apply rights_full in Hr as [_ Hr]. apply rights_full. split; [by rewrite land_6_mod, E | done].
Qed.

Lemma map_run_spec nl va va_end flags :
  region_args va (block_addr i) va_end -> n = (va_end - va) / 4096 -> 0 <= flags < 256 -> present flags = true ->
  wp (paging_map_memory_region (mk_pt dir nl) va (block_addr i) va_end flags) (set_ram m x1) (fun r x3 =>
    run_kept va va_end flags x3 /\
    ((r = STATUS_OK /\ heap_writes (set_ram m x1) x3 /\ forall v, va <= v < va_end ->
        mmu_walk x3 dir v = Some (block_addr i + (v - va), Z.land flags (PAGE_USER_ACCESS_ALLOW + PAGE_WRITE_ALLOW)) /\
        rd8 (m_ram x3) (block_addr i + (v - va)) = 0) \/
     (r = - STATUS_NOT_ENOUGH_MEM /\ exists v, va <= v < va_end /\ present (pde x dir (v / 4194304)) = false))).
Proof.
  intros Hargs En Hf Hp. wp_apply (map_region_spec (set_ram m x1) dir nl va (block_addr i) va_end flags prepared_wf Hargs Hf Hp).
  intros r x3 Hpost. split; [by apply (region_kept _ _ _ r _ _ Hargs Hpost)|]. destruct Hpost as (Hext & _ & _ & Hres).
  destruct Hargs as (Hva & Hpa & Hve & Ava & Apa & Ave & Hlt). unfold is_u32 in *. destruct (rt_in _ _ _ _ R) as [Hi Hin].
  destruct Hres as [(-> & Hhw & Hmap)|(-> & _ & v & Hv & Hmiss)]; [left | right]; (split; [done|]).
  2: { exists (v * 4096). split; [zlia|]. replace (v * 4096 / 4194304) with (v / 1024) by zlia.
       by rewrite <- (keep_pde x (set_ram m x1) dir Hwf prepared_own) by zlia. }
  split; [done|]. intros v Hv. split.
  - destruct (Hmap (v / 4096)) as (Hpte & Hpde & _); [by apply (proj1 (region_page va va_end v Ava Ave))|].
    replace (block_addr i + (v - va)) with (block_addr i / 4096 * 4096 + (v / 4096 - va / 4096) * 4096 + v mod 4096) by zlia.
    apply mmu_walk_mapped; try done; try lia; [zlia | blk; zlia | | by replace (v / 4194304) with (v / 4096 / 1024) by zlia].
    rewrite Hpte. f_equal. unfold PAGE_SIZE. rewrite u32_small by (blk; zlia). lia.
  - set (b := i + (v - va) / 4096). assert (Hb : in_block b (block_addr i + (v - va))) by (unfold in_block, b; blk; zlia).
    assert (Hbr : i <= b < i + n) by (unfold b; zlia).
    rewrite (ext_keep _ _ _ Hext b); [| blk; lia | by apply prepared_run | rewrite prepared_owned; by apply run_unowned | done].
    cbn [set_ram m_ram]. rewrite Hm by (unfold off_heap; blk; vga; zlia). apply (rt_zero _ _ _ _ R). zlia.
Qed.
End prepared.

(** ** The system call *)

Lemma down_align_id a : is_u32 a -> (a =? paging_down_align_addr a) = (a mod 4096 =? 0).
Proof.
  unfold is_u32, paging_down_align_addr, PAGE_SIZE. intros Ha. destruct (Z.eqb_spec (a mod 4096) 0); cbn [negb]; [apply Z.eqb_refl|].
  apply Z.eqb_neq. rewrite u32_small; zlia.
Qed.

Lemma up_align_id a : is_u32 a -> (a =? paging_up_align_addr a) = (a mod 4096 =? 0).
Proof.
  unfold is_u32, paging_up_align_addr, PAGE_SIZE. intros Ha. destruct (Z.eqb_spec (a mod 4096) 0); cbn [negb]; [apply Z.eqb_refl|].
  apply Z.eqb_neq. unfold u32. zlia.
Qed.

Lemma verify_boundary a : negb (verify_user_pointer a =? STATUS_OK) = (a <? KHEAP_SAFE_BOUNDARY).
Proof. unfold verify_user_pointer. by destruct (a <? KHEAP_SAFE_BOUNDARY). Qed.

Lemma mmap_flags_ok f : 0 <= mmap_flags f < 256 /\ present (mmap_flags f) = true /\
  Z.land (mmap_flags f) (PAGE_USER_ACCESS_ALLOW + PAGE_WRITE_ALLOW) =
  PAGE_USER_ACCESS_ALLOW + (if Z.land f O_WRITE =? 0 then 0 else PAGE_WRITE_ALLOW).
Proof. unfold mmap_flags. by destruct (Z.land f O_WRITE =? 0). Qed.

(** A task in a heap block. *)
Definition task_block (x : machine) (t : Z) : Prop := exists b, in_heap b /\ t = block_addr b /\ used x b.

Lemma task_block_u32 x t off : task_block x t -> 0 <= off < 4096 -> KHEAP_ADDR <= t /\ t + 4096 <= HEAP_END /\ u32 (t + off) = t + off.
Proof. intros (b & Hb & -> & _) Ho. rewrite u32_small; blk; lia. Qed.

(** The current task [t], with its address space and its process. *)
Record mmap_caller (s : kstate) (t dir proc : Z) : Prop := {
  mc_curr : curr_task (k_sched s) = t;
  mc_task : task_block (k_mach s) t;
  mc_dir : rd32 (k_ram s) t = dir;
  mc_proc : rd32 (k_ram s) (t + t_proc) = proc;
  mc_wf : pt_wf (k_mach s) dir;
  mc_apart : forall b, owned (k_mach s) dir b -> block_addr b <> t;
  mc_vmem : vmem_placed proc }.

(** The address space [dir] of a process has got the region: fresh, zeroed
    memory with the rights asked for, recorded in the process; other addresses
    keep their frames. *)
Record user_region (s s' : kstate) (t proc dir va va_end rights : Z) : Prop := {
  ur_caller : mmap_caller s' t dir proc;
  ur_mach : exists y, s' = set_k_mach y s;
  ur_fresh : exists i, (forall k, i <= k < i + (va_end - va) / 4096 -> in_heap k /\ entry_is_free (k_mach s) k = true /\
      used (k_mach s') k /\ ~ owned (k_mach s') dir k) /\
    forall x, va <= x < va_end -> mmu_walk (k_mach s') dir x = Some (block_addr i + (x - va), rights) /\
      rd8 (k_ram s') (block_addr i + (x - va)) = 0;
  ur_rest : forall x, is_u32 x -> x < va \/ va_end <= x ->
    fst <$> mmu_walk (k_mach s') dir x = fst <$> mmu_walk (k_mach s) dir x;
  ur_write : rights = 6 -> forall x pa, is_u32 x -> x < va \/ va_end <= x ->
    mmu_walk (k_mach s) dir x = Some (pa, 6) -> mmu_walk (k_mach s') dir x = Some (pa, 6);
  ur_blocks : forall b, in_heap b -> used (k_mach s) b -> ~ owned (k_mach s) dir b ->
    used (k_mach s') b /\ ~ owned (k_mach s') dir b;
  ur_out : forall a, off_heap a -> a < proc + p_vmem_start \/ proc + p_vmem_end + 4 * PROCESS_VMEM_MAX_BLOCKS <= a ->
    rd8 (k_ram s') a = rd8 (k_ram s) a;
  ur_slot : exists j, 0 <= j < PROCESS_VMEM_MAX_BLOCKS /\ vmem_start (k_ram s) proc j = 0 /\
    vmem_start (k_ram s') proc j = va /\ vmem_end (k_ram s') proc j = va_end /\
    forall k, 0 <= k < PROCESS_VMEM_MAX_BLOCKS -> k <> j ->
      vmem_start (k_ram s') proc k = vmem_start (k_ram s) proc k /\ vmem_end (k_ram s') proc k = vmem_end (k_ram s) proc k }.

(** Words of the task are kept while the bytes of its block are. *)
Lemma caller_word s t m off :
  task_block (k_mach s) t -> (forall b a, block_addr b = t -> in_block b a -> rd8 m a = rd8 (k_ram s) a) ->
  0 <= off <= 4092 -> rd32 m (t + off) = rd32 (k_ram s) (t + off).
Proof.
  intros (b & Hb & -> & _) Hm Ho. apply rd32_ext. intros a Ha. apply (Hm b); [done|]. unfold in_block. lia.
Qed.

Lemma run_taken_off x x1 i n a : run_taken x x1 i n -> off_heap a -> rd8 (m_ram x1) a = rd8 (m_ram x) a.
Proof. intros R Ha. destruct (rt_in _ _ _ _ R). apply (rt_keep _ _ _ _ R); unfold off_heap in Ha; blk; vga; lia. Qed.

Lemma vmem_start_off m m' proc j :
  vmem_placed proc -> 0 <= j < PROCESS_VMEM_MAX_BLOCKS -> (forall a, off_heap a -> rd8 m' a = rd8 m a) ->
  vmem_start m' proc j = vmem_start m proc j /\ vmem_end m' proc j = vmem_end m proc j.
Proof.
  intros HP Hj Hq. destruct (vmem_word proc j p_vmem_start HP Hj ltac:(auto)) as [U1 Q1].
  destruct (vmem_word proc j p_vmem_end HP Hj ltac:(auto)) as [U2 Q2]. unfold vmem_start, vmem_end. rewrite U1, U2.
  split; apply rd32_ext; auto.
Qed.

Lemma wp_kfree p s (Q : Z -> kstate -> Prop) : heap_ok (k_mach s) -> (forall s', Q 0 s') -> wp (km (kfree p)) s Q.
Proof. intros Hs HQ. apply wp_km. destruct (kfree_frame p (k_mach s) Hs) as (m & E & _). eapply wp_of_run; [exact E | apply HQ]. Qed.

(** The region, once it is recorded in slot [r] and mapped. *)
Lemma mapped_region s s' t dir proc va va_end n x1 i m r flags :
  mmap_caller s t dir proc -> n = (va_end - va) / 4096 -> run_taken (k_mach s) x1 i n -> static_writes (m_ram x1) m ->
  0 <= r < PROCESS_VMEM_MAX_BLOCKS -> vmem_start (m_ram x1) proc r = 0 -> vmem_start m proc r = va -> vmem_end m proc r = va_end ->
  slots_kept proc r (m_ram x1) m -> run_kept (k_mach s) dir i n va va_end flags (k_mach s') -> heap_writes (set_ram m x1) (k_mach s') ->
  (exists y, s' = set_k_mach y s) ->
  (forall v, va <= v < va_end ->
     mmu_walk (k_mach s') dir v = Some (block_addr i + (v - va), Z.land flags 6) /\ rd8 (k_ram s') (block_addr i + (v - va)) = 0) ->
  user_region s s' t proc dir va va_end (Z.land flags 6).
Proof.
  intros [Hc Ht Hd Hp Hwf Hap HP] En R Hm Hr Hz Hms Hme [Hsl Hsa] [W3 K3 B3 O3 F3] Hhw [y Hsc] Hmap. destruct (rt_in _ _ _ _ R).
  assert (Hq1 : forall a, off_heap a -> rd8 (m_ram x1) a = rd8 (k_ram s) a) by (intros; by apply (run_taken_off _ _ i n)).
  pose proof (fun j Hj => vmem_start_off _ _ proc j HP Hj Hq1) as V1.
  pose proof (fun j Hj => vmem_start_off m (k_ram s') proc j HP Hj Hhw) as V3.
  assert (Hno : forall b, block_addr b = t -> ~ owned (k_mach s) dir b) by (intros b Eb Ho; by apply (Hap b)).
  assert (Hw : forall off, 0 <= off <= 4092 -> rd32 (k_ram s') (t + off) = rd32 (k_ram s) (t + off)).
  { intros off Ho. apply (caller_word s t); [done | | done]. intros b a Eb Ha. destruct Ht as (b' & Hb & -> & Hu).
    apply block_addr_inj in Eb as ->. apply (K3 b'); [done | done | by apply Hno | done]. }
  split.
  - split; [by rewrite Hsc | | | | done | | done].
    + destruct Ht as (b & Hb & -> & Hu). exists b. split_and!; [done | done |]. apply B3; [done | by left | by apply Hno].
    + rewrite <- Hd. rewrite <- (Z.add_0_r t) at 1. rewrite Hw, Z.add_0_r by lia. done.
    + by rewrite Hw by (tfields; lia).
    + intros b Ho Eb. destruct Ht as (b' & Hb & -> & Hu). apply block_addr_inj in Eb as ->.
      by apply (B3 b' Hb (or_introl Hu) (Hno b' eq_refl)).
  - by exists y.
  - exists i. rewrite <- En. split; [|done]. intros k Hk. split; [blk; lia|]. split; [by apply (rt_free _ _ _ _ R)|].
    apply B3; [blk; lia | by right | by apply (run_unowned _ x1 dir i n)].
  - done.
  - intros Hfl. by apply F3.
  - intros b Hb Hu Ho. apply B3; [done | by left | done].
  - intros a Ha Hout. etransitivity; [exact (Hhw a Ha)|]. cbn [set_ram m_ram]. rewrite Hsa by done. apply (rt_keep _ _ _ _ R); unfold off_heap in Ha; blk; lia.
  - exists r. destruct (V1 r Hr) as [E1 _], (V3 r Hr) as [E3 E3']. rewrite E3, E3', <- E1. split_and!; try done; try lia.
    intros k Hk Hne. destruct (V1 k Hk) as [G1 G2], (V3 k Hk) as [G3 G4], (Hsl k Hk Hne) as [G5 G6].
    by rewrite G3, G4, G5, G6, G1, G2.
Qed.

(** From the allocation of the memory on. *)
Lemma mmap_run_spec s t dir proc va va_end n x1 i flags (Q : Z -> kstate -> Prop) :
  mmap_caller s t dir proc -> region_args va (block_addr i) va_end -> n = (va_end - va) / 4096 ->
  run_taken (k_mach s) x1 i n ->
  (forall s', user_region s s' t proc dir va va_end (Z.land (mmap_flags flags) (PAGE_USER_ACCESS_ALLOW + PAGE_WRITE_ALLOW)) ->
     Q STATUS_OK s') ->
  ((exists v, va <= v < va_end /\ present (pde (k_mach s) dir (v / 4194304)) = false) ->
     forall s', Q (u32 (- STATUS_NOT_ENOUGH_MEM)) s') ->
  ((forall j, 0 <= j < PROCESS_VMEM_MAX_BLOCKS -> vmem_start (k_ram s) proc j <> 0) ->
     forall s', Q (u32 (- STATUS_OUT_OF_VMEM_BLOCKS)) s') ->
  wp (task ← task_current; proc ← task_proc; block_idx ← process_add_vmem_block proc va va_end;
      if block_idx <? 0 then km (kfree (block_addr i));; mret (u32 block_idx)
      else
        pt ← load_pt (task + t_page_table);
        res ← km (paging_map_memory_region pt va (block_addr i) va_end (mmap_flags flags));
        if negb (res =? STATUS_OK) then
          proc ← task_proc; kst32 (proc + p_vmem_start + 4 * block_idx) 0;;
          proc ← task_proc; kst32 (proc + p_vmem_end + 4 * block_idx) 0;;
          km (kfree (block_addr i));; mret (u32 res)
        else mret STATUS_OK) (set_k_mach x1 s) Q.
Proof.
  intros HC Ha En R HOK HNM HOV. pose proof HC as [Hc Ht Hd Hp Hwf Hap HP]. pose proof (fun off H => proj2 (proj2 (task_block_u32 _ t off Ht H))) as Tu. destruct (task_block_u32 _ t 0 Ht ltac:(lia)) as (Hp1 & Hp2 & _).
  pose proof (wf_heap _ _ Hwf) as Hs.
  assert (Hused : forall b, block_addr b = t -> in_heap b /\ used (k_mach s) b)
    by (destruct Ht as (b & Hb & -> & Hpe); by intros b' ->%block_addr_inj).
  assert (Hw1 : forall off, 0 <= off <= 4092 -> rd32 (m_ram x1) (t + off) = rd32 (k_ram s) (t + off)).
  { intros off Ho. apply (caller_word s t); [done | | done]. intros b a Eb. destruct (Hused b Eb).
    by apply (run_taken_block (k_mach s) x1 i n b). }
  unfold task_proc, task_current. wpk. knorm. rewrite Hc, Tu, Hw1, Hp by (tfields; lia).
  pose proof Ha as (Hva & _ & Hve & _).
  wp_apply (add_vmem_spec (set_k_mach x1 s) proc va va_end HP Hva Hve).
  intros r s' [(-> & -> & Hfull)|(Hr & Hz & m & -> & Hm & Hms & Hme & Hsk)]; knorm.
  - change (- STATUS_OUT_OF_VMEM_BLOCKS <? 0) with true. cbn iota. wp_step.
    apply wp_kfree; [by apply (run_taken_ok (k_mach s) _ i n)|]. intros s'. wpk. apply HOV. intros j Hj.
    rewrite <- (proj1 (vmem_start_off (k_ram s) (m_ram x1) proc j HP Hj ltac:(intros; by apply (run_taken_off _ _ i n)))).
    by apply Hfull.
  - rewrite (proj2 (Z.ltb_ge _ _)) by lia. unfold load_pt. wpk. knorm. change (t + t_page_table) with (t + 0).
    rewrite Z.add_0_r, Tu, (u32_small t) by (hp; lia).
    assert (Hwm : forall off, 0 <= off <= 4092 -> rd32 m (t + off) = rd32 (k_ram s) (t + off)).
    { intros off Ho. rewrite <- Hw1 by done. apply rd32_ext. intros a Hb. apply Hm. unfold off_heap. hp. vga. lia. }
    pose proof (Hwm 0 ltac:(lia)) as E0. rewrite Z.add_0_r, Hd in E0. rewrite E0. apply wp_km. knorm.
    destruct (mmap_flags_ok flags) as (F1 & F2 & _).
    wp_apply (map_run_spec (k_mach s) x1 m dir i n Hwf R Hm (i32 (rd32 m (t + 4))) va va_end (mmap_flags flags) Ha En F1 F2).
    intros res x3 (K3 & Hres). destruct Hres as [(-> & Hhw & Hmap)|(-> & Hmiss)].
    + apply HOK. apply (mapped_region s _ t dir proc va va_end n x1 i m r); knorm; try done. by eexists.
    + change (negb _) with true. cbn iota. unfold task_current. wpk. apply wp_kfree; [|intros s'; wpk; by apply HNM].
      knorm. exact (wf_heap _ _ (rk_wf _ _ _ _ _ _ _ _ K3)).
Qed.

(** The error that mmap answers for bad bounds. *)
Definition mmap_refusal (va va_end : Z) : option Z :=
  if negb (va mod 4096 =? 0) || negb (va_end mod 4096 =? 0) then Some STATUS_INVALID_ARG
  else if (va <? KHEAP_SAFE_BOUNDARY) || (va_end <? KHEAP_SAFE_BOUNDARY) || (va_end <=? va) then Some STATUS_INVALID_USER_MEM_ACCESS
  else None.

(** The outcome of mmap in its cases. *)
Definition mmap_post (s : kstate) (t dir proc va va_end flags r : Z) (s' : kstate) : Prop :=
  if negb (va mod 4096 =? 0) || negb (va_end mod 4096 =? 0) then r = u32 (- STATUS_INVALID_ARG) /\ s' = s
  else if (va <? KHEAP_SAFE_BOUNDARY) || (va_end <? KHEAP_SAFE_BOUNDARY) || (va_end <=? va)
  then r = u32 (- STATUS_INVALID_USER_MEM_ACCESS) /\ s' = s
  else
    (r = STATUS_OK /\ user_region s s' t proc dir va va_end
       (PAGE_USER_ACCESS_ALLOW + (if Z.land flags O_WRITE =? 0 then 0 else PAGE_WRITE_ALLOW))) \/
    (r = u32 (- STATUS_NOT_ENOUGH_MEM) /\
     ((forall k, 0 <= k < HEAP_BLOCKS -> ~ fits (k_mach s) ((va_end - va) / 4096) k) \/
      exists x, va <= x < va_end /\ present (pde (k_mach s) dir (x / 4194304)) = false)) \/
    (r = u32 (- STATUS_OUT_OF_VMEM_BLOCKS) /\
     forall j, 0 <= j < PROCESS_VMEM_MAX_BLOCKS -> vmem_start (k_ram s) proc j <> 0).

Lemma mmap_spec s t dir proc va va_end flags :
  mmap_caller s t dir proc -> is_u32 va -> is_u32 va_end ->
  (mmap_refusal va va_end = None -> no_overrun (k_mach s) ((va_end - va) / 4096)) ->
  wp (mmap va va_end flags) s (mmap_post s t dir proc va va_end flags).
Proof.
  intros HC Hva Hve Hno. unfold mmap_post, mmap_refusal in *.
  unfold mmap. rewrite down_align_id, up_align_id by done.
  destruct (Z.eqb_spec (va mod 4096) 0) as [Ava|]; cbn [negb orb]; [|done].
  destruct (Z.eqb_spec (va_end mod 4096) 0) as [Ave|]; cbn [negb]; [|done].
  assert (Ed : paging_down_align_addr va = va) by (symmetry; apply Z.eqb_eq; rewrite down_align_id by done; by apply Z.eqb_eq).
  assert (Eu : paging_up_align_addr va_end = va_end) by (symmetry; apply Z.eqb_eq; rewrite up_align_id by done; by apply Z.eqb_eq).
  rewrite Ed, Eu, !verify_boundary. cbn [negb orb] in Hno. destruct ((va <? KHEAP_SAFE_BOUNDARY) || (va_end <? KHEAP_SAFE_BOUNDARY) || (va_end <=? va)) eqn:Eb; [done|]. specialize (Hno eq_refl). breflect. unfold is_u32, KHEAP_SAFE_BOUNDARY in *.
  remember ((va_end - va) / 4096) as n eqn:En. replace (u32 (va_end - va)) with (4096 * n) by (rewrite u32_small by lia; zlia).
  wp_step. apply wp_km. wp_apply (kzalloc_run n (k_mach s)); [apply (wf_heap _ _ (mc_wf _ _ _ _ HC)) | zlia | done |].
  intros p x1 [[-> Hfull]|(i & -> & R)]; [wpk; right; left; split; [done | by left]|].
  assert (Hn : 1 <= n) by zlia.
  destruct (rt_in _ _ _ _ R). rewrite (proj2 (Z.eqb_neq (block_addr i) 0)) by (blk; lia).
  apply (mmap_run_spec s t dir proc va va_end n x1 i flags); try done.
  - unfold region_args, is_u32. split_and!; try lia; try (blk; zlia).
  - intros s' Hu. left. split; [done|]. by rewrite (proj2 (proj2 (mmap_flags_ok flags))) in Hu.
  - intros Hmiss s'. right. left. split; [done | by right].
  - intros Hf s'. by right; right.
Qed.
End mmap.

(** The task in block 1 with the empty page directory in block 0, now running
    for the process at 0x110000. *)
Definition mapper_ram : ram := wr32 dead_ram (block_addr 1 + t_proc) 0x110000.
Definition mapper : kstate := kernel_on (ready mapper_ram) (mk_sched (block_addr 1) (block_addr 1) (block_addr 1) 0x110000).

Lemma mapper_caller : mmap_caller mapper (block_addr 1) (block_addr 0) 0x110000.
Proof.
  destruct dead_space as [Hwf Hown].
  assert (Hout : forall a, a < block_addr 1 + 60 \/ block_addr 1 + 64 <= a -> rd8 mapper_ram a = rd8 dead_ram a)
    by (intros a Ha; apply rd8_wr32; tfields; lia).
  assert (He : forall k, in_heap k -> get_entry (set_ram mapper_ram (ready dead_ram)) k = get_entry (ready dead_ram) k).
  { intros k Hk. rewrite !heap_entry by (apply ready_ok || blk; lia). apply Hout. blk. lia. }
  assert (Hb : forall k a, owned (ready dead_ram) (block_addr 0) k -> in_block k a -> rd8 mapper_ram a = rd8 (m_ram (ready dead_ram)) a).
  { intros k a ->%Hown Ha. apply Hout. unfold in_block in Ha. blk. lia. }
  split; try done.
  - exists 1. split_and!; [blk; lia | done |]. vm_compute. reflexivity.
  - exact (space_wf (ready dead_ram) mapper_ram (block_addr 0) Hwf He Hb).
  - intros b Ho. apply (space_owned (ready dead_ram) mapper_ram (block_addr 0)) in Ho; try done. apply Hown in Ho as ->. blk. lia.
  - intros a Ha. unfold off_heap, p_vmem_start, p_vmem_end, PROCESS_VMEM_MAX_BLOCKS in *. hp. vga. lia.
Qed.
