(* ===== verification/ProcessExit.v ===== *)
(** * munmap and the end of a process

    [process_free_vmem_block] (the system call munmap) and [process_exit]: what
    they take out of the address space, which heap blocks they give back, and
    what they leave alone. *)
From Stdlib Require Import ZArith Lia String.
From stdpp Require Import base numbers gmap list strings.
From S2P Require Import Prelude Config Memory Machine Console Kheap Paging AddressSpace Blocks Disk Path File Kernel Elf Task TaskList TaskLife Scheduler Process ProcTable Idt Keyboard Syscall UserMemory.
Local Open Scope Z_scope.

(** ** A process and its address space *)

(** The structure of a process, a slot of the table in the kernel image, is
    neither in the heap nor in the entry table of the heap. *)
Definition proc_placed (proc : Z) : Prop :=
  forall a, proc <= a < proc + SIZEOF_PROCESS -> 0 < a < 4294967296 /\ off_heap a.

Ltac pfields := unfold p_pid, p_parent_pid, p_exit_status, p_status, p_task, p_file_type, p_image, p_stack_paddr, p_size,
  p_vmem_start, p_vmem_end, SIZEOF_PROCESS, PROCESS_VMEM_MAX_BLOCKS in *.

Lemma placed_vmem proc : proc_placed proc -> vmem_placed proc.
Proof. intros H a Ha. destruct (H a); [pfields; lia|]. split; [lia | done]. Qed.

Lemma placed_u32 proc off : proc_placed proc -> 0 <= off < SIZEOF_PROCESS -> u32 (proc + off) = proc + off.
Proof. intros H Ho. destruct (H (proc + off)); [lia|]. apply u32_small. lia. Qed.

Lemma placed_bounds proc : proc_placed proc -> 0 <= proc /\ proc + SIZEOF_PROCESS <= 4294967296.
Proof. intros H. pose proof (H proc). pose proof (H (proc + SIZEOF_PROCESS - 1)). pfields. lia. Qed.

Lemma placed_out proc a b : proc_placed proc -> in_heap b -> in_block b a -> a < proc \/ proc + SIZEOF_PROCESS <= a.
Proof.
  intros H Hb Ha. destruct (decide (proc <= a < proc + SIZEOF_PROCESS)) as [Hin|]; [|lia].
  destruct (H a Hin) as [_ Hq]. unfold off_heap, in_block in *. blk. vga. lia.
Qed.

(** Process [proc] has the task [t] with the page directory [dir], and its
    regions are intervals. *)
Record vmem_owner (x : machine) (proc t dir : Z) : Prop := {
  vo_placed : proc_placed proc;
  vo_task : rd32 (m_ram x) (proc + p_task) = t;
  vo_block : task_block x t;
  vo_dir : rd32 (m_ram x) t = dir;
  vo_wf : pt_wf x dir;
  vo_apart : forall b, owned x dir b -> block_addr b <> t;
  vo_slots : forall j, 0 <= j < PROCESS_VMEM_MAX_BLOCKS -> vmem_start (m_ram x) proc j <= vmem_end (m_ram x) proc j }.

(** What the process has for the rest of the kernel is kept by every step that
    leaves these blocks in use and these bytes alone. *)
Lemma owner_keep x y proc t dir :
  vmem_owner x proc t dir -> heap_ok y ->
  (forall b, in_heap b -> owned x dir b \/ block_addr b = t -> used x b -> used y b) ->
  (forall b a, owned x dir b -> in_block b a -> rd8 (m_ram y) a = rd8 (m_ram x) a) ->
  rd32 (m_ram y) t = rd32 (m_ram x) t -> rd32 (m_ram y) (proc + p_task) = rd32 (m_ram x) (proc + p_task) ->
  (forall j, 0 <= j < PROCESS_VMEM_MAX_BLOCKS -> vmem_start (m_ram y) proc j <= vmem_end (m_ram y) proc j) ->
  vmem_owner y proc t dir /\ forall va, is_u32 va -> mmu_walk y dir va = mmu_walk x dir va.
Proof.
  intros [HP HT HB HD HW HA HS] Hy Hu Hk Ed Et Hs.
  split; [split; try done|].
  - congruence.
  - destruct HB as (b & Hb & E & Hub). exists b. split_and!; try done. apply Hu; auto.
  - congruence.
  - apply (keep_wf_owned x); try done. intros b Ho. destruct (owned_used _ _ _ HW Ho). auto.
  - intros b Ho. apply HA. by apply (keep_owned x y).
  - intros va Hva. unfold is_u32 in Hva. apply mmu_walk_ext; [done | apply (keep_pte x); try done; zlia | apply (keep_pde x); try done; zlia].
Qed.

(** ** One region *)

(** The region that starts at [va], as [process_get_vmem_block] finds it. *)
Definition vmem_slot (m : ram) (proc va : Z) : option Z :=
  scan_procs (Z.to_nat PROCESS_VMEM_MAX_BLOCKS) 0 (fun i => vmem_start m proc i =? va).

(** The pages that region [j] touches. *)
Definition in_region (m : ram) (proc j va : Z) : bool :=
  (vmem_start m proc j / 4096 * 4096 <=? va) && (va <? (vmem_end m proc j + 4095) / 4096 * 4096).

(** Region [j] is gone from the address space and from the process; only page
    tables and that slot are written. *)
Record region_freed (x y : machine) (proc dir j : Z) : Prop := {
  rf_ram : y = set_ram (m_ram y) x;
  rf_walk : forall va, is_u32 va -> mmu_walk y dir va = if in_region (m_ram x) proc j va then None else mmu_walk x dir va;
  rf_slot : vmem_start (m_ram y) proc j = 0 /\ vmem_end (m_ram y) proc j = 0;
  rf_slots : forall k, 0 <= k < PROCESS_VMEM_MAX_BLOCKS -> k <> j ->
    vmem_start (m_ram y) proc k = vmem_start (m_ram x) proc k /\ vmem_end (m_ram y) proc k = vmem_end (m_ram x) proc k;
  rf_owned : forall b, owned y dir b <-> owned x dir b;
  rf_keep : forall a, (forall b, owned x dir b -> ~ in_block b a) ->
    a < proc + p_vmem_start \/ proc + p_vmem_end + 4 * PROCESS_VMEM_MAX_BLOCKS <= a -> rd8 (m_ram y) a = rd8 (m_ram x) a }.

Lemma region_freed_owner x y proc t dir j :
  vmem_owner x proc t dir -> 0 <= j < PROCESS_VMEM_MAX_BLOCKS -> pt_wf y dir ->
  region_freed x y proc dir j -> vmem_owner y proc t dir.
Proof.
  intros [HP HT (bt & Hbt & -> & Hut) HD HW HA HS] Hj HW' F.
  assert (Hout : forall a, a < proc + p_vmem_start \/ proc + p_vmem_end + 4 * PROCESS_VMEM_MAX_BLOCKS <= a ->
      (forall b, in_heap b -> ~ in_block b a) \/ in_block bt a -> rd8 (m_ram y) a = rd8 (m_ram x) a).
  { intros a Ho Hin. apply (rf_keep _ _ _ _ _ F); [|done]. intros b Hb Ha. destruct (owned_used _ _ _ HW Hb) as [Hh _].
    destruct Hin as [Hn|Hn]; [by apply (Hn b)|]. apply (HA b Hb). f_equal. unfold in_block in *. blk. lia. }
  split; try done.
  - rewrite <- HT. apply rd32_ext. intros a Ha. apply Hout; [pfields; lia|]. left. intros b Hb Hin.
    pose proof (placed_out proc a b HP Hb Hin). pfields. lia.
  - exists bt. split_and!; try done. unfold used, entry_is_free in *. enough (E : get_entry y bt = get_entry x bt) by by rewrite E.
    rewrite !heap_entry by (apply (wf_heap _ _ HW) || apply (wf_heap _ _ HW') || blk; lia). apply Hout.
    + destruct (decide (proc + p_vmem_start <= KHEAP_TABLE_ADDR + bt < proc + p_vmem_end + 4 * PROCESS_VMEM_MAX_BLOCKS)) as [Hc|]; [|lia].
      destruct (HP (KHEAP_TABLE_ADDR + bt)) as [_ Hq]; [pfields; lia|]. unfold off_heap in Hq. blk. vga. lia.
    + left. intros b Hb Hin. unfold in_block in Hin. blk. lia.
  - rewrite <- HD. apply rd32_ext. intros a Ha. assert (Hin : in_block bt a) by (unfold in_block; lia).
    apply Hout; [|by right]. pose proof (placed_out proc a bt HP Hbt Hin). pfields. lia.
  - intros b Hb. apply HA. by apply (rf_owned _ _ _ _ _ F).
  - intros k Hk. destruct (decide (k = j)) as [->|Hne]; [destruct (rf_slot _ _ _ _ _ F) as [-> ->]; lia|].
    destruct (rf_slots _ _ _ _ _ F k Hk Hne) as [-> ->]. by apply HS.
Qed.

Section exit.
Context {plat : Platform} {fsys : FileSystems} {lay : Layout}.

(** The slot of an unmapped region is cleared. *)
Lemma clear_slot_spec x y proc t dir j :
  vmem_owner x proc t dir -> 0 <= j < PROCESS_VMEM_MAX_BLOCKS ->
  pages_freed dir (vmem_start (m_ram x) proc j / 4096) ((vmem_end (m_ram x) proc j + 4095) / 4096) x y ->
  let m := wr32 (wr32 (m_ram y) (proc + p_vmem_start + 4 * j) 0) (proc + p_vmem_end + 4 * j) 0 in
  region_freed x (set_ram m y) proc dir j /\ vmem_owner (set_ram m y) proc t dir.
Proof.
  intros HO Hj F m. pose proof (placed_vmem _ (vo_placed _ _ _ _ HO)) as HP. pose proof (vo_wf _ _ _ _ HO) as HW.
  destruct (vmem_word proc j p_vmem_start HP Hj ltac:(auto)) as [U1 Q1].
  destruct (vmem_word proc j p_vmem_end HP Hj ltac:(auto)) as [U2 Q2].
  destruct (slots_kept_wr proc j (m_ram y) 0 0 HP Hj) as [K1 K2]. fold m in K1, K2.
  pose proof (ext_wf _ _ _ (pf_ext _ _ _ _ _ F)) as HW1.
  assert (Hq : static_writes (m_ram y) m) by (eapply static_writes_trans; by apply static_wr32).
  assert (Hb : forall b a, in_heap b -> in_block b a -> rd8 m a = rd8 (m_ram y) a).
  { intros b a Hb Ha. apply Hq. unfold off_heap, in_block in *. blk. vga. lia. }
  assert (Hown : forall b, owned y dir b <-> owned x dir b) by apply (pde_owned dir x y), (pf_pde _ _ _ _ _ F).
  assert (Hk : forall b a, owned y dir b -> in_block b a -> rd8 (m_ram (set_ram m y)) a = rd8 (m_ram y) a).
  { intros b a Ho. destruct (owned_used _ _ _ HW1 Ho). by apply Hb. }
  assert (HW2 : pt_wf (set_ram m y) dir).
  { apply (keep_wf y); try done; [apply (wf_heap _ _ HW1)|]. intros b Hin. unfold used, entry_is_free.
    rewrite (static_entry y m b) by (done || apply (wf_heap _ _ HW1)). done. }
  assert (HF : region_freed x (set_ram m y) proc dir j); [|split; [done | by apply (region_freed_owner x _ _ _ _ j)]].
  assert (Hsl : forall k, 0 <= k < PROCESS_VMEM_MAX_BLOCKS ->
    vmem_start (m_ram y) proc k = vmem_start (m_ram x) proc k /\ vmem_end (m_ram y) proc k = vmem_end (m_ram x) proc k).
  { intros k Hr. apply vmem_start_off; [done | done |]. intros a Ha. apply (pf_out _ _ _ _ _ F). intros b Ho. destruct (owned_used _ _ _ HW Ho). by apply off_heap_block. }
  split; cbn [set_ram m_ram].
  - by rewrite (pf_ram _ _ _ _ _ F).
  - intros va Hva. unfold in_region. rewrite <- (pages_freed_walk dir _ _ x y va F Hva). unfold is_u32 in Hva.
    apply mmu_walk_ext; [done | apply (keep_pte y); try done; zlia | apply (keep_pde y); try done; zlia].
  - unfold vmem_start, vmem_end. rewrite U1, U2. unfold m. rewrite rd32_wr32, rd32_wr32_ne, rd32_wr32 by (pfields; lia). done.
  - intros k Hr Hne. destruct (K1 k Hr Hne) as [-> ->]. by apply Hsl.
  - intros b. rewrite <- Hown. by apply (keep_owned y).
  - intros a Ha Ho. rewrite K2 by done. by apply (pf_out _ _ _ _ _ F).
Qed.

Lemma free_vmem_spec s proc t dir va :
  vmem_owner (k_mach s) proc t dir ->
  wp (process_free_vmem_block proc va) s (fun r s' =>
    match vmem_slot (k_ram s) proc va with
    | None => r = - STATUS_INVALID_ARG /\ s' = s
    | Some j => r = STATUS_OK /\ exists y, s' = set_k_mach y s /\
        region_freed (k_mach s) y proc dir j /\ vmem_owner y proc t dir
    end).
Proof.
  intros HO. unfold process_free_vmem_block, process_get_vmem_block. wpk. fold (vmem_slot (k_ram s) proc va).
  destruct (vmem_slot (k_ram s) proc va) as [j|] eqn:E; cbn [from_option Datatypes.id]; [|wpk; done].
  apply scan_some in E as [Hj E]. rewrite Z2Nat.id in Hj by (unfold PROCESS_VMEM_MAX_BLOCKS; lia). apply Z.eqb_eq in E.
  pose proof (vo_placed _ _ _ _ HO) as HP. rewrite (proj2 (Z.ltb_ge j 0)) by lia.
  unfold proc_page_table, load_pt. wpk. rewrite (placed_u32 proc p_task HP) by (pfields; lia).
  change (rd32 (k_ram s) (proc + p_task)) with (rd32 (m_ram (k_mach s)) (proc + p_task)). rewrite (vo_task _ _ _ _ HO).
  destruct (task_block_u32 _ _ 0 (vo_block _ _ _ _ HO) ltac:(lia)) as (_ & _ & U).
  unfold t_page_table. rewrite Z.add_0_r in *. rewrite U.
  change (rd32 (k_ram s) t) with (rd32 (m_ram (k_mach s)) t). rewrite (vo_dir _ _ _ _ HO).
  fold (vmem_end (k_ram s) proc j). apply wp_km.
  wp_apply (free_va_spec (k_mach s) dir (i32 (rd32 (k_ram s) (u32 (t + 4)))) va (vmem_end (k_ram s) proc j) (vo_wf _ _ _ _ HO)).
  { rewrite <- E. apply rd32_range. } { apply rd32_range. }
  { rewrite <- E. apply (vo_slots _ _ _ _ HO). lia. }
  intros r y (-> & F). wpk. split; [done|]. knorm.
  destruct (vmem_word proc j p_vmem_start (placed_vmem _ HP) ltac:(lia) ltac:(auto)) as [U1 _].
  destruct (vmem_word proc j p_vmem_end (placed_vmem _ HP) ltac:(lia) ltac:(auto)) as [U2 _]. rewrite U1, U2.
  eexists. split; [reflexivity|]. rewrite <- E in F. by apply (clear_slot_spec (k_mach s) y proc t dir j).
Qed.

(** ** All regions *)

Definition live_region (m : ram) (proc va j : Z) : bool := negb (vmem_start m proc j =? 0) && in_region m proc j va.

(** [va] is on a page of one of the regions from slot [i] on. *)
Definition in_regions (m : ram) (proc i va : Z) : bool :=
  existsb (live_region m proc va) (seqZ i (PROCESS_VMEM_MAX_BLOCKS - i)).

Lemma in_regions_cons m proc i va : 0 <= i < PROCESS_VMEM_MAX_BLOCKS ->
  in_regions m proc i va = live_region m proc va i || in_regions m proc (i + 1) va.
Proof.
  intros Hi. unfold in_regions. rewrite seqZ_cons by lia. cbn [existsb]. do 3 f_equal. lia.
Qed.

Lemma in_regions_ext m m' proc i va :
  0 <= i -> (forall k, i <= k < PROCESS_VMEM_MAX_BLOCKS -> vmem_start m' proc k = vmem_start m proc k /\ vmem_end m' proc k = vmem_end m proc k) ->
  in_regions m' proc i va = in_regions m proc i va.
Proof.
  intros Hi H. unfold in_regions. apply eq_bool_prop_intro. rewrite !Is_true_true, !existsb_exists.
  assert (Hl : forall k, k ∈ seqZ i (PROCESS_VMEM_MAX_BLOCKS - i) -> live_region m' proc va k = live_region m proc va k).
  { intros k Hk%elem_of_seqZ. unfold live_region, in_region. by destruct (H k ltac:(lia)) as [-> ->]. }
  split; intros (k & Hk & Hv); exists k; (split; [done|]); specialize (Hl k (proj2 (list_elem_of_In _ _) Hk)); congruence.
Qed.

(** The process has lost its regions from slot [i] on. *)
Record regions_freed (x y : machine) (proc dir i : Z) : Prop := {
  rs_ram : y = set_ram (m_ram y) x;
  rs_walk : forall va, is_u32 va -> mmu_walk y dir va = if in_regions (m_ram x) proc i va then None else mmu_walk x dir va;
  rs_slots : forall k, 0 <= k < PROCESS_VMEM_MAX_BLOCKS -> vmem_start (m_ram y) proc k = 0;
  rs_owned : forall b, owned y dir b <-> owned x dir b;
  rs_keep : forall a, (forall b, owned x dir b -> ~ in_block b a) ->
    a < proc + p_vmem_start \/ proc + p_vmem_end + 4 * PROCESS_VMEM_MAX_BLOCKS <= a -> rd8 (m_ram y) a = rd8 (m_ram x) a }.

Lemma regions_freed_cons x y z proc dir i :
  0 <= i < PROCESS_VMEM_MAX_BLOCKS -> vmem_start (m_ram x) proc i <> 0 ->
  region_freed x y proc dir i -> regions_freed y z proc dir (i + 1) -> regions_freed x z proc dir i.
Proof.
  intros Hi Hs [R1 W1 S1 K1 O1 A1] [R2 W2 S2 O2 A2].
  assert (Ext : forall va, in_regions (m_ram y) proc (i + 1) va = in_regions (m_ram x) proc (i + 1) va).
  { intros va. apply in_regions_ext; [lia|]. intros k Hk. apply K1; lia. }
  split.
  - by rewrite R2, R1.
  - intros va Hva. rewrite W2, W1, Ext, (in_regions_cons (m_ram x) proc i) by done. unfold live_region.
    rewrite (proj2 (Z.eqb_neq _ 0)) by done. cbn [negb andb]. by destruct (in_region _ _ _ _), (in_regions _ _ _ _).
  - done.
  - intros b. by rewrite O2, O1.
  - intros a Ha Ho. rewrite A2, A1; try done. intros b. rewrite O1. apply Ha.
Qed.

Lemma exit_vmem_spec n : forall i s proc t dir,
  i + Z.of_nat n = PROCESS_VMEM_MAX_BLOCKS -> 0 <= i -> vmem_owner (k_mach s) proc t dir ->
  (forall k, 0 <= k < i -> vmem_start (k_ram s) proc k = 0) ->
  wp (exit_vmem n proc i) s (fun _ s' => exists y, s' = set_k_mach y s /\
    regions_freed (k_mach s) y proc dir i /\ vmem_owner y proc t dir).
Proof.
  induction n as [|n IH]; intros i s proc t dir Hn Hi HO Hz; cbn [exit_vmem].
  { wpk. exists (k_mach s). split_and!; [by destruct s as [[[]]] | | done]. split; try done.
    - by destruct (k_mach s).
    - intros va Hva. unfold in_regions. by replace (PROCESS_VMEM_MAX_BLOCKS - i) with 0 by lia.
    - intros k Hk. apply Hz. lia. }
  wp_step. apply wp_kld32. fold (vmem_start (k_ram s) proc i). wp_step. destruct (Z.eqb_spec (vmem_start (k_ram s) proc i) 0) as [E|E]; cbn [negb].
  - wp_steps. wp_apply (IH (i + 1) s proc t dir); [lia | lia | done | | ].
    { intros k Hk. destruct (decide (k = i)) as [->|]; [done | apply Hz; lia]. }
    intros _ s' (y & -> & [R W S O K] & HO'). exists y. split_and!; [done | | done]. split; try done.
    intros va Hva. rewrite W by done. rewrite (in_regions_cons _ _ i) by lia. unfold live_region.
    change (m_ram (k_mach s)) with (k_ram s). by rewrite E.
  - wp_apply (free_vmem_spec s proc t dir (vmem_start (k_ram s) proc i) HO).
    assert (Hsl : vmem_slot (k_ram s) proc (vmem_start (k_ram s) proc i) = Some i).
    { apply scan_first; [rewrite Z2Nat.id; unfold PROCESS_VMEM_MAX_BLOCKS in *; lia | apply Z.eqb_refl |].
      intros k Hk. rewrite Hz by lia. by apply Z.eqb_neq. }
    rewrite Hsl. intros r s1 (-> & y & -> & F & HO1). wp_apply (IH (i + 1) (set_k_mach y s) proc t dir); knorm; [lia | lia | done | |].
    { intros k Hk. destruct (decide (k = i)) as [->|]; [apply (rf_slot _ _ _ _ _ F)|].
      rewrite (proj1 (rf_slots _ _ _ _ _ F k ltac:(unfold PROCESS_VMEM_MAX_BLOCKS in *; lia) ltac:(done))). apply Hz. lia. }
    intros _ s' (z & -> & F2 & HO2). knorm. exists z. split_and!; [done | | done].
    apply (regions_freed_cons (k_mach s) y z proc dir i); try done. lia.
Qed.

(** ** Termination *)

(** kfree on an allocation writes the entries of its blocks and nothing else. *)
Lemma kfree_alloc x A i n p :
  heap_rep x A -> A !! i = Some n -> block_addr i <= p < block_addr i + 4096 ->
  wp (kfree p) x (fun r y => heap_rep y (delete i A) /\ exists m, y = set_ram m x /\
    forall a, a < KHEAP_TABLE_ADDR + i \/ KHEAP_TABLE_ADDR + (i + n) <= a -> rd8 m a = rd8 (m_ram x) a).
Proof.
  intros HR Hi Hp. destruct (kfree_loop_rep x A i n HR Hi) as (m & E & Hm). pose proof HR as (Hs & H1 & _).
  destruct (H1 i n Hi) as (? & ? & ? & _).
  wp_apply (wp_conj _ _ _ _ (kfree_refines x A i n p HR Hi Hp)
    (wp_of_run _ _ _ _ (fun _ y => y = set_ram m x) (kfree_run p i x Hs ltac:(lia) Hp) E)).
  intros r y [[_ HR'] ->]. split; [done|]. exists m. split; [done|]. intros a Ha. rewrite Hm.
  destruct (_ && _) eqn:B; [|done]. breflect. lia.
Qed.

(** What [process_exit] gives to kfree for the image. *)
Definition image_ptr (m : ram) (proc : Z) : Z :=
  if rd32 m (proc + p_file_type) =? PROC_FILE_TYPE_BINARY then rd32 m (proc + p_image)
  else elf_memory m (rd32 m (proc + p_image)).

(** The process has its image and its stack in two allocations, apart from its
    task and its page tables. *)
Record can_exit (s : kstate) (proc t dir : Z) (A : gmap Z Z) (img stk : Z) : Prop := {
  ce_owner : vmem_owner (k_mach s) proc t dir;
  ce_heap : heap_rep (k_mach s) A;
  ce_type : rd32 (k_ram s) (proc + p_file_type) = PROC_FILE_TYPE_BINARY \/
    (rd32 (k_ram s) (proc + p_file_type) = PROC_FILE_TYPE_ELF /\
     exists b, in_heap b /\ rd32 (k_ram s) (proc + p_image) = block_addr b /\ block_addr b <> t);
  ce_image : block_addr img <= image_ptr (k_ram s) proc < block_addr img + 4096;
  ce_stack : block_addr stk <= rd32 (k_ram s) (proc + p_stack_paddr) < block_addr stk + 4096;
  ce_alloc : exists n, A !! img = Some n /\ forall b, owned (k_mach s) dir b \/ block_addr b = t -> b < img \/ img + n <= b;
  ce_alloc' : exists n, A !! stk = Some n /\ forall b, owned (k_mach s) dir b \/ block_addr b = t -> b < stk \/ stk + n <= b;
  ce_two : img <> stk }.

(** The step that releases one of them. *)
Lemma owner_kfree x A proc t dir i n p :
  vmem_owner x proc t dir -> heap_rep x A -> A !! i = Some n -> block_addr i <= p < block_addr i + 4096 ->
  (forall b, owned x dir b \/ block_addr b = t -> b < i \/ i + n <= b) ->
  wp (kfree p) x (fun r y => heap_rep y (delete i A) /\ vmem_owner y proc t dir /\ (exists m, y = set_ram m x) /\
    (forall a, a < KHEAP_TABLE_ADDR \/ TABLE_END <= a -> rd8 (m_ram y) a = rd8 (m_ram x) a) /\
    (forall b, owned y dir b <-> owned x dir b) /\ forall va, is_u32 va -> mmu_walk y dir va = mmu_walk x dir va).
Proof.
  intros HO HR Hi Hp Hd. wp_apply (kfree_alloc x A i n p HR Hi Hp). intros r y (HR' & m & -> & Hm).
  pose proof (vo_placed _ _ _ _ HO) as HP. pose proof HR as (Hx & H1 & _). destruct (H1 i n Hi) as (? & ? & ? & _).
  assert (Hout : forall a, a < KHEAP_TABLE_ADDR \/ TABLE_END <= a -> rd8 m a = rd8 (m_ram x) a)
    by (intros a Ha; apply Hm; hp; lia).
  assert (Hown : forall b a, in_heap b -> in_block b a -> rd8 m a = rd8 (m_ram x) a)
    by (intros b a Hb Ha; apply Hout; unfold in_block in Ha; blk; lia).
  assert (Hproc : forall a, proc <= a < proc + SIZEOF_PROCESS -> rd8 m a = rd8 (m_ram x) a).
  { intros a Ha. apply Hout. destruct (HP a Ha) as [_ Hq]. unfold off_heap in Hq. hp. vga. lia. }
  assert (Hsl : forall k, 0 <= k < PROCESS_VMEM_MAX_BLOCKS ->
    vmem_start m proc k = vmem_start (m_ram x) proc k /\ vmem_end m proc k = vmem_end (m_ram x) proc k).
  { intros k Hk. apply vmem_start_off; [by apply placed_vmem | done |]. intros a Hq. apply Hout. unfold off_heap in Hq. hp. vga. lia. }
  destruct (owner_keep x (set_ram m x) proc t dir HO) as [HO' HW]; cbn [set_ram m_ram]; try done.
  - intros b Hb Ho Hu. unfold used, entry_is_free in *. rewrite !heap_entry in * by (done || blk; lia).
    cbn [set_ram m_ram]. rewrite Hm; [done|]. destruct (Hd b Ho); lia.
  - intros b a Ho. destruct (owned_used _ _ _ (vo_wf _ _ _ _ HO) Ho). by apply Hown.
  - destruct (vo_block _ _ _ _ HO) as (b & Hb & -> & _). apply rd32_ext. intros a Ha. apply (Hown b); [done | unfold in_block; lia].
  - apply rd32_ext. intros a Ha. apply Hproc. pfields. lia.
  - intros j Hj. destruct (Hsl j Hj) as [-> ->]. by apply (vo_slots _ _ _ _ HO).
  - split_and!; try done; [by exists m|]. intros b. apply (keep_owned x); [apply HO|].
    intros c a Ho. destruct (owned_used _ _ _ (vo_wf _ _ _ _ HO) Ho). by apply Hown.
Qed.

(** The bytes that the steps of [process_exit] do not write, the last two
    stores apart. *)
Definition untouched (x : machine) (proc t dir a : Z) : Prop :=
  (forall b, owned x dir b -> ~ in_block b a) /\ (a < KHEAP_TABLE_ADDR \/ TABLE_END <= a) /\
  (a < proc + p_vmem_start \/ proc + p_vmem_end + 4 * PROCESS_VMEM_MAX_BLOCKS <= a) /\ a <> t + t_state.

Record exit_step (x y : machine) (proc t dir : Z) : Prop := {
  es_owner : vmem_owner y proc t dir;
  es_ram : y = set_ram (m_ram y) x;
  es_owned : forall b, owned y dir b <-> owned x dir b;
  es_keep : forall a, untouched x proc t dir a -> rd8 (m_ram y) a = rd8 (m_ram x) a }.

Lemma exit_step_trans x y z proc t dir : exit_step x y proc t dir -> exit_step y z proc t dir -> exit_step x z proc t dir.
Proof.
  intros [V1 R1 O1 K1] [V2 R2 O2 K2]. split; [done | by rewrite R2, R1 | intros b; by rewrite O2, O1 |].
  intros a (Ho & Ha). rewrite K2, K1; [done | done |]. split; [|done]. intros b. rewrite O1. apply Ho.
Qed.

(** The fields of the process before its regions are such bytes. *)
Lemma untouched_field x proc t dir a :
  vmem_owner x proc t dir -> proc <= a < proc + p_vmem_start -> untouched x proc t dir a.
Proof.
  intros HO Ha. pose proof (vo_placed _ _ _ _ HO) as HP.
  assert (Hin : proc <= a < proc + SIZEOF_PROCESS) by (pfields; lia). destruct (HP a Hin) as [_ Hq]. split_and!.
  - intros b Ho Hb. destruct (owned_used _ _ _ (vo_wf _ _ _ _ HO) Ho) as [Hh _]. unfold off_heap, in_block in *. blk. vga. lia.
  - unfold off_heap in Hq. hp. vga. lia.
  - pfields. lia.
  - destruct (vo_block _ _ _ _ HO) as (b & Hb & -> & _). unfold off_heap, t_state in *. blk. vga. lia.
Qed.

Lemma exit_step_field x y proc t dir off :
  vmem_owner x proc t dir -> exit_step x y proc t dir -> 0 <= off <= 152 ->
  rd32 (m_ram y) (proc + off) = rd32 (m_ram x) (proc + off).
Proof.
  intros HO E Ho. apply rd32_ext. intros a Ha. apply (es_keep _ _ _ _ _ E), untouched_field; [done|]. pfields. lia.
Qed.

(** The task is marked dead. *)
Lemma dead_step x proc t dir :
  vmem_owner x proc t dir -> let y := set_ram (wr8 (m_ram x) (t + t_state) TASK_DEAD) x in
  exit_step x y proc t dir /\ (forall va, is_u32 va -> mmu_walk y dir va = mmu_walk x dir va) /\
  forall k, 0 <= k < PROCESS_VMEM_MAX_BLOCKS -> vmem_start (m_ram y) proc k = vmem_start (m_ram x) proc k /\
    vmem_end (m_ram y) proc k = vmem_end (m_ram x) proc k.
Proof.
  intros HO y. pose proof (vo_placed _ _ _ _ HO) as HP. pose proof (vo_wf _ _ _ _ HO) as HW. pose proof (wf_heap _ _ HW) as Hx.
  destruct (vo_block _ _ _ _ HO) as (bt & Hbt & Et & Hut). unfold t_state in *.
  assert (Hout : forall a, a <> t + 8 -> rd8 (m_ram y) a = rd8 (m_ram x) a) by (intros; by apply rd8_wr8_ne).
  assert (Hq : forall a, off_heap a -> rd8 (m_ram y) a = rd8 (m_ram x) a) by (intros a Ha; apply Hout; unfold off_heap in Ha; blk; vga; lia).
  assert (Hown : forall b a, owned x dir b -> in_block b a -> rd8 (m_ram y) a = rd8 (m_ram x) a).
  { intros b a Ho Ha. destruct (owned_used _ _ _ HW Ho) as [Hh _]. pose proof (vo_apart _ _ _ _ HO b Ho).
    apply Hout. unfold in_block in *. blk. lia. }
  assert (Hsl := fun k Hk => vmem_start_off (m_ram x) (m_ram y) proc k (placed_vmem _ HP) Hk Hq).
  destruct (owner_keep x y proc t dir HO) as [HO' HW']; try done.
  - intros b Hb _. unfold used, entry_is_free. rewrite !heap_entry by (done || blk; lia). rewrite Hout by (blk; lia). done.
  - apply rd32_ext. intros a Ha. apply Hout. lia.
  - apply rd32_ext. intros a Ha. apply Hq, HP. pfields. lia.
  - intros j Hj. destruct (Hsl j Hj) as [-> ->]. by apply (vo_slots _ _ _ _ HO).
  - split_and!; [|done|done]. split; [done | done | by apply (keep_owned x) |].
    intros a (_ & _ & _ & Ha). by apply Hout.
Qed.

Lemma kfree_step x A proc t dir i n p :
  vmem_owner x proc t dir -> heap_rep x A -> A !! i = Some n -> block_addr i <= p < block_addr i + 4096 ->
  (forall b, owned x dir b \/ block_addr b = t -> b < i \/ i + n <= b) ->
  wp (kfree p) x (fun r y => heap_rep y (delete i A) /\ exit_step x y proc t dir /\
    (forall va, is_u32 va -> mmu_walk y dir va = mmu_walk x dir va) /\
    forall a, a < KHEAP_TABLE_ADDR \/ TABLE_END <= a -> rd8 (m_ram y) a = rd8 (m_ram x) a).
Proof.
  intros HO HR Hi Hp Hd. wp_apply (owner_kfree x A proc t dir i n p HO HR Hi Hp Hd).
  intros r y (HR' & HO' & (m & ->) & Hk & Hown & HW). split_and!; try done. split; try done.
  intros a (_ & Ha & _). by apply Hk.
Qed.

Lemma regions_step x y proc t dir i :
  vmem_owner y proc t dir -> regions_freed x y proc dir i -> exit_step x y proc t dir.
Proof. intros HO [R W S O K]. split; try done. intros a (Ho & _ & Ha & _). by apply K. Qed.

(** The allocations are not changed by writes outside the entry table. *)
Lemma regions_heap x y A proc t dir i :
  vmem_owner x proc t dir -> heap_rep x A -> regions_freed x y proc dir i -> heap_rep y A.
Proof.
  intros HO HR F. rewrite (rs_ram _ _ _ _ _ F). apply heap_rep_ram; [done|]. intros k Hk.
  apply (rs_keep _ _ _ _ _ F).
  - intros b Ho Ha. destruct (owned_used _ _ _ (vo_wf _ _ _ _ HO) Ho). unfold in_block in Ha. blk. lia.
  - destruct (decide (proc <= KHEAP_TABLE_ADDR + k < proc + SIZEOF_PROCESS)) as [Hin|]; [|pfields; lia].
    destruct (vo_placed _ _ _ _ HO _ Hin) as [_ Hq]. unfold off_heap in Hq. blk. vga. lia.
Qed.

Lemma free_image s proc ft (Q : Z -> kstate -> Prop) :
  proc_placed proc -> ft = rd32 (k_ram s) (proc + p_file_type) -> ft = PROC_FILE_TYPE_BINARY \/ ft = PROC_FILE_TYPE_ELF ->
  wp (kfree (image_ptr (k_ram s) proc)) (k_mach s) (fun a y => Q a (set_k_mach y s)) ->
  wp (if ft =? PROC_FILE_TYPE_BINARY then p ← kld32 (proc + p_image); km (kfree p)
      else if ft =? PROC_FILE_TYPE_ELF then
        f ← kld32 (proc + p_image); p ← gets (fun s => elf_memory (k_ram s) f); km (kfree p)
      else mret 0) s Q.
Proof.
  intros HP Eft Hft H. unfold image_ptr in H. rewrite <- Eft in H.
  destruct Hft as [E|E]; rewrite E in *; change (PROC_FILE_TYPE_ELF =? PROC_FILE_TYPE_BINARY) with false in *;
    rewrite ?Z.eqb_refl in *; cbn iota in *; wpk; rewrite placed_u32 by (done || pfields; lia); by apply wp_km.
Qed.

(** Marking the task dead leaves the image where it is. *)
Lemma dead_image s proc t dir A img stk :
  can_exit s proc t dir A img stk ->
  image_ptr (wr8 (k_ram s) (t + t_state) TASK_DEAD) proc = image_ptr (k_ram s) proc.
Proof.
  intros HC. pose proof (ce_owner _ _ _ _ _ _ _ HC) as HO. destruct (dead_step _ _ _ _ HO) as (E & _).
  unfold image_ptr. pose proof (exit_step_field _ _ _ _ _ p_file_type HO E ltac:(pfields; lia)) as F1.
  pose proof (exit_step_field _ _ _ _ _ p_image HO E ltac:(pfields; lia)) as F2. cbn [set_ram m_ram] in F1, F2.
  change (m_ram (k_mach s)) with (k_ram s) in *. rewrite F1, F2.
  destruct (ce_type _ _ _ _ _ _ _ HC) as [->|[-> (b & Hb & -> & Hne)]]; [done|]. cbn.
  unfold elf_memory, word. rewrite u32_small by (unfold f_elf_memory; blk; lia). apply rd32_ext. intros a Ha. apply rd8_wr8_ne.
  destruct (vo_block _ _ _ _ HO) as (bt & Hbt & -> & _). unfold t_state, f_elf_memory in *. blk. lia.
Qed.

(** The outcome of [process_exit]. *)
Record exited (s s' : kstate) (proc t dir status : Z) (A' : gmap Z Z) : Prop := {
  xd_heap : heap_rep (k_mach s') A';
  xd_owner : vmem_owner (k_mach s') proc t dir;
  xd_owned : forall b, owned (k_mach s') dir b <-> owned (k_mach s) dir b;
  xd_dead : rd8 (k_ram s') (t + t_state) = TASK_DEAD;
  xd_walk : forall va, is_u32 va -> mmu_walk (k_mach s') dir va =
    if in_regions (k_ram s) proc 0 va then None else mmu_walk (k_mach s) dir va;
  xd_slots : forall k, 0 <= k < PROCESS_VMEM_MAX_BLOCKS -> vmem_start (k_ram s') proc k = 0;
  xd_status : rd8 (k_ram s') (proc + p_status) = PROC_ZOMBIE /\ rd32 (k_ram s') (proc + p_exit_status) = u32 status;
  xd_state : s' = set_current_proc (if proc =? current_proc (k_sched s) then 0 else current_proc (k_sched s)) (set_k_ram (k_ram s') s);
  xd_keep : forall a, untouched (k_mach s) proc t dir a -> a <> proc + p_status ->
    a < proc + p_exit_status \/ proc + p_exit_status + 4 <= a -> rd8 (k_ram s') a = rd8 (k_ram s) a }.

(** The regions are not in the entry table. *)
Lemma table_vmem m m' proc k :
  proc_placed proc -> 0 <= k < PROCESS_VMEM_MAX_BLOCKS ->
  (forall a, a < KHEAP_TABLE_ADDR \/ TABLE_END <= a -> rd8 m' a = rd8 m a) ->
  vmem_start m' proc k = vmem_start m proc k /\ vmem_end m' proc k = vmem_end m proc k.
Proof.
  intros HP Hk H. apply vmem_start_off; [by apply placed_vmem | done |]. intros a Ha. apply H. unfold off_heap in Ha. hp. vga. lia.
Qed.

(** The last two stores are to bytes of the process. *)
Lemma mark_step x A proc t dir status :
  vmem_owner x proc t dir -> heap_rep x A ->
  let m := wr32 (wr8 (m_ram x) (proc + p_status) PROC_ZOMBIE) (proc + p_exit_status) status in
  heap_rep (set_ram m x) A /\ vmem_owner (set_ram m x) proc t dir /\
  (forall va, is_u32 va -> mmu_walk (set_ram m x) dir va = mmu_walk x dir va) /\
  (forall k, 0 <= k < PROCESS_VMEM_MAX_BLOCKS -> vmem_start m proc k = vmem_start (m_ram x) proc k) /\
  (rd8 m (proc + p_status) = PROC_ZOMBIE /\ rd32 m (proc + p_exit_status) = u32 status) /\
  (forall b, owned (set_ram m x) dir b <-> owned x dir b) /\
  forall a, a <> proc + p_status -> a < proc + p_exit_status \/ proc + p_exit_status + 4 <= a -> rd8 m a = rd8 (m_ram x) a.
Proof.
  intros HO HR m. pose proof (vo_placed _ _ _ _ HO) as HP. pose proof (vo_wf _ _ _ _ HO) as HW. pose proof (wf_heap _ _ HW) as Hx.
  assert (Hm : forall a, a <> proc + p_status -> a < proc + p_exit_status \/ proc + p_exit_status + 4 <= a -> rd8 m a = rd8 (m_ram x) a).
  { intros a Ha Hb. unfold m. by rewrite rd8_wr32, rd8_wr8_ne by (done || lia). }
  assert (Hq : static_writes (m_ram x) m).
  { intros a Ha. apply Hm; [intros -> | destruct (decide (proc + p_exit_status <= a < proc + p_exit_status + 4)); [|lia]];
      exfalso; apply Ha, HP; pfields; lia. }
  assert (Hnq : forall a b, in_heap b -> in_block b a -> rd8 m a = rd8 (m_ram x) a).
  { intros a b Hb Ha. apply Hq. unfold off_heap, in_block in *. blk. vga. lia. }
  assert (Hsl : forall k, 0 <= k < PROCESS_VMEM_MAX_BLOCKS ->
    vmem_start m proc k = vmem_start (m_ram x) proc k /\ vmem_end m proc k = vmem_end (m_ram x) proc k).
  { intros k Hk. destruct (vmem_word proc k p_vmem_start (placed_vmem _ HP) Hk ltac:(auto)) as [U1 _].
    destruct (vmem_word proc k p_vmem_end (placed_vmem _ HP) Hk ltac:(auto)) as [U2 _]. unfold vmem_start, vmem_end. rewrite U1, U2.
    split; apply rd32_ext; intros a Ha; apply Hm; pfields; lia. }
  destruct (owner_keep x (set_ram m x) proc t dir HO) as [HO' HW']; cbn [set_ram m_ram]; try done.
  - intros b Hb _. unfold used, entry_is_free. by rewrite (static_entry x m b).
  - intros b a Ho. destruct (owned_used _ _ _ HW Ho). by apply Hnq.
  - destruct (vo_block _ _ _ _ HO) as (b & Hb & -> & _). apply rd32_ext. intros a Ha. apply (Hnq a b); [done | unfold in_block; lia].
  - apply rd32_ext. intros a Ha. apply Hm; pfields; lia.
  - intros j Hj. destruct (Hsl j Hj) as [-> ->]. by apply (vo_slots _ _ _ _ HO).
  - split_and!; try done.
    + apply heap_rep_ram; [done|]. intros k Hk. apply Hq. unfold off_heap. blk. vga. lia.
    + intros k Hk. by apply Hsl.
    + unfold m. rewrite rd8_wr32, rd8_wr8 by (pfields; lia). by rewrite Z.eqb_refl.
    + unfold m. by rewrite rd32_wr32.
    + intros b. apply (keep_owned x); [done|]. intros c a Ho. destruct (owned_used _ _ _ HW Ho). by apply Hnq.
Qed.

Lemma exit_finish s x proc t dir A' status :
  vmem_owner (k_mach s) proc t dir -> exit_step (k_mach s) x proc t dir -> heap_rep x A' ->
  rd8 (m_ram x) (t + t_state) = TASK_DEAD ->
  (forall va, is_u32 va -> mmu_walk x dir va = if in_regions (k_ram s) proc 0 va then None else mmu_walk (k_mach s) dir va) ->
  (forall k, 0 <= k < PROCESS_VMEM_MAX_BLOCKS -> vmem_start (m_ram x) proc k = 0) ->
  exited s (set_current_proc (if proc =? current_proc (k_sched s) then 0 else current_proc (k_sched s))
    (set_k_ram (wr32 (wr8 (m_ram x) (proc + p_status) PROC_ZOMBIE) (proc + p_exit_status) status) s)) proc t dir status A'.
Proof.
  intros HO E HR Hdead HW HS. destruct (mark_step x A' proc t dir status (es_owner _ _ _ _ _ E) HR) as (HR' & HO' & HW' & HS' & Hst & Hown & Hm).
  assert (Ex : forall m, set_ram m x = set_ram m (k_mach s)) by (intros m; by rewrite (es_ram _ _ _ _ _ E)). rewrite Ex in *.
  split; knorm; try done.
  - intros b. by rewrite Hown, (es_owned _ _ _ _ _ E).
  - rewrite Hm; [done|..]; destruct (vo_block _ _ _ _ HO) as (b & Hb & -> & _).
    + intros Hc. destruct (vo_placed _ _ _ _ HO (block_addr b + t_state)) as [_ Hq]; [pfields; lia|]. unfold off_heap, t_state in *. blk. vga. lia.
    + destruct (decide (proc + p_exit_status <= block_addr b + t_state < proc + p_exit_status + 4)); [|lia].
      destruct (vo_placed _ _ _ _ HO (block_addr b + t_state)) as [_ Hq]; [pfields; lia|]. unfold off_heap, t_state in *. blk. vga. lia.
  - intros va Hva. by rewrite HW', HW.
  - intros k Hk. by rewrite HS', HS.
  - intros a Ha H1 H2. rewrite Hm by done. by apply (es_keep _ _ _ _ _ E).
Qed.

(** The state byte of the task is not written after it is marked dead. *)
Lemma regions_state x y proc t dir i :
  vmem_owner x proc t dir -> regions_freed x y proc dir i -> rd8 (m_ram y) (t + t_state) = rd8 (m_ram x) (t + t_state).
Proof.
  intros HO F. destruct (vo_block _ _ _ _ HO) as (bt & Hbt & -> & _). assert (Hin : in_block bt (block_addr bt + t_state)) by (unfold in_block, t_state; lia).
  apply (rs_keep _ _ _ _ _ F).
  - intros b Ho Hb. apply (vo_apart _ _ _ _ HO b Ho). f_equal. unfold in_block in *. blk. lia.
  - pose proof (placed_out proc _ bt (vo_placed _ _ _ _ HO) Hbt Hin). pfields. lia.
Qed.

(** process_exit.  The heap gets back exactly the allocation of the image and
    the allocation of the stack (what the regions of the process and the ELF
    structure occupy stays allocated); the task is dead; no address of a region
    translates any more and every other address translates as before; all slots
    of regions are empty; the process is a zombie with its exit status, and it
    is the current process no longer. *)
Lemma process_exit_spec s proc t dir A img stk status :
  can_exit s proc t dir A img stk ->
  wp (process_exit proc status) s (fun r s' => r = 0 /\ exited s s' proc t dir status (delete stk (delete img A))).
Proof.
  intros HC. pose proof HC as [HO HR Hft Himg Hstk (n1 & A1 & D1) (n2 & A2 & D2) Hne]. pose proof (vo_placed _ _ _ _ HO) as HP.
  destruct (placed_bounds _ HP). unfold process_exit. rewrite (proj2 (Z.eqb_neq proc 0)).
  2: { intros ->. destruct (HP 0) as [Hq _]; [unfold SIZEOF_PROCESS; lia | lia]. }
  wpk. rewrite (placed_u32 proc p_task), (placed_u32 proc p_file_type) by (done || pfields; lia).
  change (rd32 (k_ram s) (proc + p_task)) with (rd32 (m_ram (k_mach s)) (proc + p_task)). rewrite (vo_task _ _ _ _ HO).
  destruct (task_block_u32 _ _ t_state (vo_block _ _ _ _ HO) ltac:(unfold t_state; lia)) as (_ & _ & ->).
  destruct (dead_step _ _ _ _ HO) as (E1 & W1 & S1). pose proof (dead_image _ _ _ _ _ _ _ HC) as I1.
  set (x1 := set_ram _ (k_mach s)) in *. change (set_k_ram _ s) with (set_k_mach x1 s). pose proof (es_owner _ _ _ _ _ E1) as HO1.
  assert (HR1 : heap_rep x1 A).
  { apply heap_rep_ram; [done|]. intros k Hk. apply rd8_wr8_ne.
    destruct (vo_block _ _ _ _ HO) as (bt & Hbt & -> & _). unfold t_state. blk. lia. }
  apply free_image; knorm; [done | done | |].
  { rewrite (exit_step_field _ _ _ _ _ p_file_type HO E1) by (pfields; lia). destruct Hft as [|[? _]]; auto. }
  rewrite <- I1 in Himg. wp_apply (kfree_step x1 A proc t dir img n1 _ HO1 HR1 A1 Himg).
  { intros b. rewrite (es_owned _ _ _ _ _ E1). apply D1. }
  intros _ x2 (HR2 & E2 & W2 & K2). pose proof (es_owner _ _ _ _ _ E2) as HO2. knorm. wp_step.
  wp_apply (exit_vmem_spec (Z.to_nat PROCESS_VMEM_MAX_BLOCKS) 0 (set_k_mach x2 s) proc t dir); knorm; try done.
  { intros k Hk. lia. }
  intros _ s3 (x3 & -> & F3 & HO3). knorm.
  pose proof (regions_step _ _ _ _ _ _ HO3 F3) as E3. pose proof (regions_heap _ _ _ _ _ _ _ HO2 HR2 F3) as HR3.
  assert (E13 := exit_step_trans _ _ _ _ _ _ E1 (exit_step_trans _ _ _ _ _ _ E2 E3)).
  wpk. rewrite (placed_u32 proc p_stack_paddr) by (done || pfields; lia). knorm.
  rewrite (exit_step_field _ _ _ _ _ p_stack_paddr HO E13) by (pfields; lia).
  assert (HA2 : delete img A !! stk = Some n2) by by rewrite lookup_delete_ne.
  destruct (proj1 (proj2 HR) stk n2 A2) as (? & _).
  change (m_ram (k_mach s)) with (k_ram s). rewrite (proj2 (Z.eqb_neq _ 0)) by (blk; lia). cbn [negb]. apply wp_km. knorm.
  wp_apply (kfree_step x3 _ proc t dir stk n2 _ HO3 HR3 HA2 Hstk).
  { intros b. rewrite (es_owned _ _ _ _ _ E13). apply D2. }
  intros _ x4 (HR4 & E4 & W4 & K4). knorm. unfold current_process. wpk. knorm.
  assert (Hram : forall m, set_k_mach (set_ram m x4) s = set_k_ram m s)
    by (intros m; by rewrite (es_ram _ _ _ _ _ (exit_step_trans _ _ _ _ _ _ E13 E4))).
  unshelve epose proof (exit_finish s x4 proc t dir _ status HO (exit_step_trans _ _ _ _ _ _ E13 E4) HR4 _ _ _) as HE.
  - destruct (task_block_u32 _ _ 0 (vo_block _ _ _ _ HO) ltac:(lia)) as (? & ? & _).
    rewrite K4, (regions_state _ _ _ _ _ _ HO2 F3), K2 by (unfold t_state; hp; lia). unfold x1. knorm. by rewrite rd8_wr8, Z.eqb_refl.
  - intros va Hva. rewrite W4, (rs_walk _ _ _ _ _ F3), W2, W1 by done. rewrite (in_regions_ext (k_ram s)); [done | lia |].
    intros k Hk. destruct (table_vmem _ _ _ k HP Hk K2) as [-> ->]. by apply S1.
  - intros k Hk. rewrite <- (rs_slots _ _ _ _ _ F3 k Hk). by apply table_vmem.
  - revert HE. destruct (proc =? current_proc (k_sched s)); intros HE; wpk; rewrite (placed_u32 proc p_status), (placed_u32 proc p_exit_status) by (done || pfields; lia);
      (split; [done|]); knorm; rewrite Hram; [done|]. revert HE. by destruct (k_sched s) eqn:Es, s; cbn in Es; subst.
Qed.
End exit.

(** ** Examples *)

(** The task in block 1 with the empty page directory in block 0 runs the
    process at [worker_proc], whose image is in block 2, its stack in block 3,
    and which has one region. *)
Definition worker_proc : Z := 0x110000 + 1308.
Definition worker_heap : ram := wr8 (wr8 dead_ram (KHEAP_TABLE_ADDR + 2) 65) (KHEAP_TABLE_ADDR + 3) 65.
Definition worker_ram : ram :=
  wr32 (wr32 (wr32 (wr32 (wr32 (wr32 (wr16 worker_heap worker_proc 1)
    (worker_proc + p_task) (block_addr 1)) (worker_proc + p_file_type) PROC_FILE_TYPE_BINARY)
    (worker_proc + p_image) (block_addr 2)) (worker_proc + p_stack_paddr) (block_addr 3))
    (worker_proc + p_vmem_start) 0x8400000) (worker_proc + p_vmem_end) 0x8401000.
Definition worker : kstate := set_k_ram worker_ram dead_task.
Definition worker_allocs : gmap Z Z := singles 4.

Lemma worker_out a : a < worker_proc \/ worker_proc + SIZEOF_PROCESS <= a -> rd8 worker_ram a = rd8 worker_heap a.
Proof. intros Ha. unfold worker_ram. pfields. rdw. apply rd8_wr16. lia. Qed.

Lemma worker_table k : in_heap k -> get_entry (k_mach worker) k = if (k =? 2) || (k =? 3) then 65 else get_entry (ready dead_ram) k.
Proof.
  intros Hk. rewrite !heap_entry by (apply ready_ok || blk; lia). change (m_ram (k_mach worker)) with worker_ram.
  rewrite worker_out by (unfold worker_proc, SIZEOF_PROCESS; blk; lia). unfold worker_heap. rewrite !rd8_wr8.
  destruct (Z.eqb_spec k 2), (Z.eqb_spec k 3); cbn [orb]; repeat (case_test; try done; try (exfalso; lia)).
Qed.

Lemma worker_owner : vmem_owner (k_mach worker) worker_proc (block_addr 1) (block_addr 0) /\
  forall k, owned (k_mach worker) (block_addr 0) k -> k = 0.
Proof.
  destruct dead_space as [Hwf Hown].
  assert (Hb : forall k a, owned (ready dead_ram) (block_addr 0) k -> in_block k a -> rd8 (m_ram (k_mach worker)) a = rd8 (m_ram (ready dead_ram)) a).
  { intros k a ->%Hown Ha. change (m_ram (k_mach worker)) with worker_ram. unfold in_block in Ha.
    rewrite worker_out by (unfold worker_proc, SIZEOF_PROCESS; blk; lia). unfold worker_heap. rewrite !rd8_wr8_ne by (blk; lia). done. }
  assert (Ho : forall k, owned (k_mach worker) (block_addr 0) k -> k = 0).
  { intros k Hk. apply Hown. by apply (keep_owned (ready dead_ram) (k_mach worker)). }
  split; [split|done]; try reflexivity.
  - intros a Ha. unfold off_heap. change (0x110000 + 1308 <= a < 0x110000 + 1308 + 1308) in Ha. hp. vga. lia.
  - exists 1. split_and!; [blk; lia | done |]. vm_compute. reflexivity.
  - apply (keep_wf (ready dead_ram)); [done | apply ready_ok | | done]. intros b Hin. unfold used, entry_is_free. rewrite worker_table by done.
    by destruct (_ || _).
  - intros b ->%Ho. discriminate.
  - intros j Hj. unfold PROCESS_VMEM_MAX_BLOCKS in Hj.
    assert (H : forallb (fun j => vmem_start worker_ram worker_proc j <=? vmem_end worker_ram worker_proc j) (seqZ 0 10) = true) by (vm_compute; reflexivity).
    apply Z.leb_le. exact (forallb_below _ _ j H Hj).
Qed.

Lemma worker_zero a : 0 <= a < HEAP_END -> a < block_addr 1 \/ block_addr 1 + 16 <= a -> a < KHEAP_TABLE_ADDR \/ KHEAP_TABLE_ADDR + 4 <= a ->
  a < worker_proc \/ worker_proc + SIZEOF_PROCESS <= a -> rd8 worker_ram a = 0.
Proof.
  intros Ha H1 Ht Hp. rewrite worker_out by done. unfold worker_heap. rewrite !rd8_wr8_ne, dead_ram_out by (blk; lia).
  cbn [two_spaces ready m_ram]. rewrite !rd8_wr8_ne by lia. apply rd8_empty.
Qed.

Lemma worker_free j : 4 <= j < HEAP_BLOCKS -> rd8 worker_ram (KHEAP_TABLE_ADDR + j) = 0.
Proof. intros Hj. apply worker_zero; unfold worker_proc, SIZEOF_PROCESS; blk; lia. Qed.

Lemma worker_rep : heap_rep (k_mach worker) worker_allocs.
Proof. apply singles_rep; [apply ready_ok | done | vm_compute; reflexivity | exact worker_free]. Qed.

Lemma worker_can_exit : can_exit worker worker_proc (block_addr 1) (block_addr 0) worker_allocs 2 3.
Proof.
  destruct worker_owner as [HO Hown]. split; [exact HO | exact worker_rep | | | | | | lia].
  - left. vm_compute. reflexivity.
  - change (image_ptr (k_ram worker) worker_proc) with (block_addr 2). lia.
  - change (rd32 (k_ram worker) (worker_proc + p_stack_paddr)) with (block_addr 3). lia.
  - exists 1. split; [reflexivity|]. intros b [->%Hown|E%block_addr_inj]; lia.
  - exists 1. split; [reflexivity|]. intros b [->%Hown|E%block_addr_inj]; lia.
Qed.
