(* ===== verification/SyscallEntry.v ===== *)
(** * A system call, from int 0x80 to the return to user code

    The kernel reads the arguments of a call from the stack of the user,
    through the page tables of the task that calls, and hands the result back
    in EAX. *)
From Stdlib Require Import ZArith Lia String.
From stdpp Require Import base numbers gmap list strings.
From S2P Require Import Prelude Config Memory Machine Console Invariants Kheap Paging AddressSpace Blocks Disk Path File Kernel Elf Task TaskList TaskLife Scheduler Process ProcTable Idt Keyboard Syscall Interrupts UserMemory ProcessExit.
Local Open Scope Z_scope.

(** ** Memory of user code *)

(** Memory of the kernel outside the heap and its table: statics and the kernel
    stack. *)
Definition kernel_byte (a : Z) : Prop := 0 <= a < 4294967296 /\ off_heap a.

(** What user code reads at [va]. *)
Definition user_rd8 (x : machine) (dir va : Z) : Z :=
  match mmu_walk x dir (u32 va) with Some (pa, _) => rd8 (m_ram x) pa | None => 0 end.
Definition user_rd32 (x : machine) (dir va : Z) : Z :=
  user_rd8 x dir va + 256 * user_rd8 x dir (va + 1) + 65536 * (user_rd8 x dir (va + 2) + 256 * user_rd8 x dir (va + 3)).

Lemma user_rd32_range x dir va : is_u32 (user_rd32 x dir va).
Proof.
  assert (H : forall va, 0 <= user_rd8 x dir va < 256).
  { intros a. unfold user_rd8. destruct (mmu_walk _ _ _) as [[pa r]|]; [apply rd8_range | lia]. }
  unfold is_u32, user_rd32. pose proof (H va). pose proof (H (va + 1)). pose proof (H (va + 2)). pose proof (H (va + 3)). lia.
Qed.

(** The [n] bytes at [va] are mapped, to heap blocks that hold neither page
    tables nor the task [t]. *)
Definition readable (x : machine) (dir t va n : Z) : Prop :=
  forall k, 0 <= k < n -> exists pa r b, mmu_walk x dir (u32 (va + k)) = Some (pa, r) /\
    in_heap b /\ in_block b pa /\ ~ owned x dir b /\ block_addr b <> t.

(** Writes outside the heap and its table. *)
Definition off_writes (m m' : ram) : Prop := forall a, ~ kernel_byte a -> rd8 m' a = rd8 m a.

Lemma off_writes_refl m : off_writes m m.
Proof. done. Qed.

Lemma off_writes_trans m1 m2 m3 : off_writes m1 m2 -> off_writes m2 m3 -> off_writes m1 m3.
Proof. intros H1 H2 a Ha. by rewrite H2, H1. Qed.

Lemma off_block b a : in_heap b -> in_block b a -> ~ kernel_byte a.
Proof. intros Hb Ha (_ & _ & H). unfold in_block in Ha. blk. lia. Qed.

Lemma off_table k : in_heap k -> ~ kernel_byte (KHEAP_TABLE_ADDR + k).
Proof. intros Hk (_ & H & _). blk. lia. Qed.

Section off_writes.
Context (x : machine) (m : ram) (dir : Z) (Hwf : pt_wf x dir) (Hm : off_writes (m_ram x) m).

Lemma off_entry k : in_heap k -> get_entry (set_ram m x) k = get_entry x k.
Proof.
  intros Hk. rewrite !heap_entry by (apply (wf_heap _ _ Hwf) || blk; lia). by apply Hm, off_table.
Qed.

Lemma off_own b a : owned x dir b -> in_block b a -> rd8 m a = rd8 (m_ram x) a.
Proof. intros Ho Ha. destruct (owned_used _ _ _ Hwf Ho). by apply Hm, (off_block b). Qed.

Lemma off_wf : pt_wf (set_ram m x) dir.
Proof. exact (space_wf x m dir Hwf off_entry off_own). Qed.

Lemma off_owned b : owned (set_ram m x) dir b <-> owned x dir b.
Proof. exact (space_owned x m dir Hwf off_own b). Qed.

Lemma off_walk va : mmu_walk (set_ram m x) dir (u32 va) = mmu_walk x dir (u32 va).
Proof. apply (space_walk x m dir Hwf off_own), u32_range. Qed.

Lemma off_readable t va n : readable x dir t va n -> readable (set_ram m x) dir t va n.
Proof. intros H k Hk. destruct (H k Hk) as (pa & r & b & ? & ? & ? & ? & ?). exists pa, r, b. by rewrite off_walk, off_owned. Qed.

Lemma off_user_rd8 t va n k : readable x dir t va n -> 0 <= k < n -> user_rd8 (set_ram m x) dir (va + k) = user_rd8 x dir (va + k).
Proof.
  intros H Hk. destruct (H k Hk) as (pa & r & b & Hw & Hb & Hin & _). unfold user_rd8. rewrite off_walk, Hw.
  by apply Hm, (off_block b).
Qed.
End off_writes.

Section copy.
Context {plat : Platform} {fsys : FileSystems} {lay : Layout}.

(** One byte through the MMU. *)
Lemma vload8_spec s dir t va n k (Q : Z -> kstate -> Prop) :
  cr3_reg (k_vm s) = dir -> readable (k_mach s) dir t va n -> 0 <= k < n ->
  Q (user_rd8 (k_mach s) dir (va + k)) s -> wp (vload8 (va + k)) s Q.
Proof.
  intros Hc Hr Hk HQ. destruct (Hr k Hk) as (pa & r & b & Hw & Hb & Hin & _). unfold vload8. wpk. rewrite Hc, Hw. wpk.
  unfold in_block in Hin. rewrite u32_small by (blk; lia). unfold user_rd8 in HQ. by rewrite Hw in HQ.
Qed.

Lemma vmemcpy_loop_spec n : forall s dir t dest src len i,
  cr3_reg (k_vm s) = dir -> pt_wf (k_mach s) dir -> readable (k_mach s) dir t src len ->
  (forall k, 0 <= k < len -> kernel_byte (dest + k)) -> 0 <= i -> i + Z.of_nat n = len ->
  wp (vmemcpy_loop n dest src i) s (fun _ s' => exists m, s' = set_k_ram m s /\
    (forall k, i <= k < len -> rd8 m (dest + k) = user_rd8 (k_mach s) dir (src + k)) /\
    forall a, a < dest + i \/ dest + len <= a -> rd8 m a = rd8 (k_ram s) a).
Proof.
  induction n as [|n IH]; intros s dir t dest src len i Hc Hwf Hr Hd Hi Hn; cbn [vmemcpy_loop].
  { wpk. exists (k_ram s). split_and!; [by destruct s as [[[[]]]] | intros; lia | done]. }
  wp_step. apply (vload8_spec s dir t src len i); [done | done | lia |]. wpk.
  destruct (Hd i ltac:(lia)) as (Hu & Hoff). rewrite u32_small by done. set (v := user_rd8 _ _ _). set (m1 := wr8 (k_ram s) (dest + i) v).
  assert (Hm1 : off_writes (m_ram (k_mach s)) m1).
  { intros a Ha. apply rd8_wr8_ne. intros <-. apply Ha. by split. }
  wp_apply (IH (set_k_ram m1 s) dir t dest src len (i + 1)); knorm; try done; try lia.
  { by apply off_wf. } { by apply off_readable. }
  intros _ s' (m & -> & Hin & Hout). knorm. exists m. split; [done|]. split.
  - intros k Hk. destruct (decide (k = i)) as [->|].
    + rewrite Hout by lia. unfold m1. rewrite rd8_wr8, Z.eqb_refl. unfold v, user_rd8.
      destruct (mmu_walk _ _ _) as [[pa r]|]; [apply u8_small, rd8_range | done].
    + rewrite Hin by lia. by apply (off_user_rd8 (k_mach s) m1 dir Hwf Hm1 t src len k Hr); lia.
  - intros a Ha. rewrite Hout by lia. apply rd8_wr8_ne. lia.
Qed.

(** copy_data_from_user: bytes of user code, which are above the part of the
    address space that belongs to the kernel, arrive in memory of the kernel. *)
Lemma copy_from_user_spec s dir t dst src n :
  cr3_reg (k_vm s) = dir -> pt_wf (k_mach s) dir -> readable (k_mach s) dir t src n -> 0 <= n ->
  KHEAP_SAFE_BOUNDARY <= src -> src + n < 4294967296 -> (forall k, 0 <= k < n -> kernel_byte (dst + k)) ->
  wp (copy_data_from_user dst src n) s (fun r s' => r = STATUS_OK /\ exists m, s' = set_k_ram m s /\
    (forall k, 0 <= k < n -> rd8 m (dst + k) = user_rd8 (k_mach s) dir (src + k)) /\
    forall a, a < dst \/ dst + n <= a -> rd8 m a = rd8 (k_ram s) a).
Proof.
  intros Hc Hwf Hr Hn Hlo Hhi Hd. unfold copy_data_from_user, vmemcpy. assert (0 <= KHEAP_SAFE_BOUNDARY) by done.
  rewrite (proj2 (Z.ltb_ge src _)), u32_small, (proj2 (Z.ltb_ge (src + n) _)) by lia. cbn [orb]. wp_step.
  wp_apply (vmemcpy_loop_spec (Z.to_nat n) s dir t dst src n 0); try done; [lia|].
  intros _ s' (m & -> & Hin & Hout). wpk. split; [done|]. exists m. split_and!; [done | done |]. intros a Ha. apply Hout. lia.
Qed.
End copy.

(** ** From int 0x80 to the return *)

Lemma frame_regs_ext m m' p : (forall a, p <= a < p + 52 -> rd8 m' a = rd8 m a) -> frame_regs m' p = frame_regs m p.
Proof.
  intros H. unfold frame_regs, i_edi, i_esi, i_ebp, i_ebx, i_edx, i_ecx, i_eax, i_eip, i_cs, i_eflags, i_esp, i_ss.
  f_equal; apply rd32_ext; intros a Ha; apply H; lia.
Qed.

(** The ranges of [n] bytes at [p] and of [k] bytes at [q] do not meet. *)
Definition apart (p n q k : Z) : Prop := p + n <= q \/ q + k <= p.

Section call.
Context {plat : Platform} {fsys : FileSystems} {lay : Layout}.

(** Task [t] of process [proc] has entered the kernel: its registers are in the
    frame at [frame], its page directory [dir] is in force, and the kernel works
    on a part of its stack that is below the frame. *)
Record in_call (s : kstate) (frame proc t dir : Z) : Prop := {
  ic_curr : curr_task (k_sched s) = t;
  ic_task : is_task (k_mach s) t;
  ic_proc : proc_of (k_ram s) t = proc;
  ic_owner : vmem_owner (k_mach s) proc t dir;
  ic_cr3 : cr3_reg (k_vm s) = dir;
  ic_frame : frame_ok frame;
  ic_off : forall a, frame <= a < frame + 52 -> off_heap a;
  ic_item : forall k, 0 <= k < 4 -> kernel_byte (stack_item + k);
  ic_below : stack_item + 4 <= frame;
  ic_statics : apart frame 52 proc SIZEOF_PROCESS /\ apart stack_item 4 proc SIZEOF_PROCESS }.

(** The bytes that entering and fetching arguments write: the registers in the
    task, and the local variable of task_get_stack_item. *)
Definition call_writes (t : Z) (m m' : ram) : Prop := forall a,
  a < t + 12 \/ t + 60 <= a -> a < stack_item \/ stack_item + 4 <= a -> rd8 m' a = rd8 m a.

Section writes.
Context (s s' : kstate) (frame proc t dir : Z) (m : ram).
Context (HI : in_call s frame proc t dir) (Hm : call_writes t (k_ram s) m).
Context (Emach : k_mach s' = set_ram m (k_mach s)) (Esched : k_sched s' = k_sched s) (Evm : k_vm s' = k_vm s).

Let HO : vmem_owner (k_mach s) proc t dir := ic_owner _ _ _ _ _ HI.

Lemma item_off a : stack_item <= a < stack_item + 4 -> kernel_byte a.
Proof. intros Ha. replace a with (stack_item + (a - stack_item)) by lia. apply (ic_item _ _ _ _ _ HI). lia. Qed.

Lemma call_out a : ~ kernel_byte a -> a < t + 12 \/ t + 60 <= a -> rd8 m a = rd8 (k_ram s) a.
Proof.
  intros Ha Ht. apply Hm; [done|]. destruct (decide (stack_item <= a < stack_item + 4)) as [Hin|]; [|lia]. by destruct Ha; apply item_off.
Qed.

Lemma call_block b a : in_heap b -> in_block b a -> block_addr b <> t -> rd8 m a = rd8 (k_ram s) a.
Proof.
  intros Hb Ha Hne. destruct (vo_block _ _ _ _ HO) as (bt & Hbt & E & _). apply call_out; [by apply (off_block b)|].
  assert (b <> bt) by (intros ->; by apply Hne). unfold in_block in Ha. blk. lia.
Qed.

Lemma call_own b a : owned (k_mach s) dir b -> in_block b a -> rd8 m a = rd8 (m_ram (k_mach s)) a.
Proof.
  intros Ho Ha. destruct (owned_used _ _ _ (vo_wf _ _ _ _ HO) Ho). apply (call_block b); try done. by apply (vo_apart _ _ _ _ HO).
Qed.

Lemma call_entry k : in_heap k -> get_entry (set_ram m (k_mach s)) k = get_entry (k_mach s) k.
Proof.
  intros Hk. rewrite !heap_entry by (apply (wf_heap _ _ (vo_wf _ _ _ _ HO)) || blk; lia). apply call_out; [by apply off_table|].
  destruct (vo_block _ _ _ _ HO) as (bt & Hbt & -> & _). blk. lia.
Qed.

Lemma call_proc a : proc <= a < proc + SIZEOF_PROCESS -> rd8 m a = rd8 (k_ram s) a.
Proof.
  intros Ha. destruct (vo_block _ _ _ _ HO) as (bt & Hbt & -> & _). destruct (ic_statics _ _ _ _ _ HI) as [_ Hd].
  destruct (vo_placed _ _ _ _ HO a Ha) as [_ Hq]. apply Hm; [unfold off_heap in Hq; blk; vga; lia | unfold apart in Hd; lia].
Qed.

Lemma call_frame : frame_regs m frame = frame_regs (k_ram s) frame.
Proof.
  pose proof (ic_below _ _ _ _ _ HI). pose proof (frame_apart _ _ _ (ic_frame _ _ _ _ _ HI) (ic_task _ _ _ _ _ HI)).
  apply frame_regs_ext. intros a Ha. apply Hm; lia.
Qed.

Lemma call_slots j : 0 <= j < PROCESS_VMEM_MAX_BLOCKS ->
  vmem_start m proc j = vmem_start (k_ram s) proc j /\ vmem_end m proc j = vmem_end (k_ram s) proc j.
Proof.
  intros Hj. pose proof (placed_vmem _ (vo_placed _ _ _ _ HO)) as HP. unfold vmem_start, vmem_end.
  destruct (vmem_word proc j p_vmem_start HP Hj ltac:(auto)) as [-> _]. destruct (vmem_word proc j p_vmem_end HP Hj ltac:(auto)) as [-> _].
  split; apply rd32_ext; intros a Ha; apply call_proc; pfields; lia.
Qed.

Lemma call_owner : vmem_owner (set_ram m (k_mach s)) proc t dir /\
  forall va, is_u32 va -> mmu_walk (set_ram m (k_mach s)) dir va = mmu_walk (k_mach s) dir va.
Proof.
  destruct (vo_block _ _ _ _ HO) as (bt & Hbt & E & _). apply owner_keep; try done.
  - apply (wf_heap _ _ (vo_wf _ _ _ _ HO)).
  - intros b Hb _. unfold used, entry_is_free. by rewrite call_entry.
  - apply call_own.
  - apply rd32_ext. intros a Ha. apply call_out; [|lia]. apply (off_block bt); [done|]. unfold in_block. lia.
  - apply rd32_ext. intros a Ha. apply call_proc. pfields. lia.
  - intros j Hj. cbn [set_ram m_ram]. destruct (call_slots j Hj) as [-> ->]. by apply (vo_slots _ _ _ _ HO).
Qed.

Lemma call_slot va : vmem_slot m proc va = vmem_slot (k_ram s) proc va.
Proof.
  unfold vmem_slot. assert (H : forall n i, 0 <= i -> i + Z.of_nat n <= PROCESS_VMEM_MAX_BLOCKS ->
    scan_procs n i (fun j => vmem_start m proc j =? va) = scan_procs n i (fun j => vmem_start (k_ram s) proc j =? va)).
  { induction n as [|n IH]; intros i Hi Hn; [done|]. cbn [scan_procs]. destruct (call_slots i ltac:(lia)) as [-> _].
    destruct (_ =? va); [done|]. apply IH; lia. }
  apply H; unfold PROCESS_VMEM_MAX_BLOCKS; lia.
Qed.

Lemma call_in_call : in_call s' frame proc t dir.
Proof.
  pose proof HI as [C1 (b & Hb & Eb & Hp) C3 C4 C5 C6 C7 C8 C9 C10]. split; rewrite ?Esched, ?Evm; try done.
  - exists b. split_and!; try done. unfold page_entry. by rewrite Emach, call_entry.
  - unfold k_ram. rewrite Emach, <- C3. apply rd32_ext. intros a Ha. apply call_out; [|tfields; lia].
    apply (off_block b); [done|]. unfold in_block. tfields. lia.
  - rewrite Emach. apply call_owner.
Qed.

Lemma call_readable va n : readable (k_mach s) dir t va n -> readable (k_mach s') dir t va n.
Proof.
  intros H k Hk. destruct (H k Hk) as (pa & r & b & Hw & Hb & Hin & Ho & Hne). exists pa, r, b. rewrite Emach. split_and!; try done.
  - rewrite (proj2 call_owner); [done | apply u32_range].
  - rewrite (keep_owned (k_mach s)); [done | apply (vo_wf _ _ _ _ HO) | apply call_own].
Qed.

Lemma call_user_rd8 va n k : readable (k_mach s) dir t va n -> 0 <= k < n ->
  user_rd8 (k_mach s') dir (va + k) = user_rd8 (k_mach s) dir (va + k).
Proof.
  intros H Hk. destruct (H k Hk) as (pa & r & b & Hw & Hb & Hin & Ho & Hne). unfold user_rd8. rewrite Emach, (proj2 call_owner), Hw by apply u32_range.
  by apply (call_block b).
Qed.

Lemma call_user_rd32 va : readable (k_mach s) dir t va 4 -> user_rd32 (k_mach s') dir va = user_rd32 (k_mach s) dir va.
Proof.
  intros H. unfold user_rd32. pose proof (call_user_rd8 va 4 0 H ltac:(lia)) as E. rewrite Z.add_0_r in E.
  by rewrite E, !(call_user_rd8 va 4 _ H) by lia.
Qed.
End writes.

(** The [n] words on top of the stack of user code, at [esp]. *)
Definition user_stack (x : machine) (t dir esp n : Z) : Prop :=
  readable x dir t esp (4 * n) /\ KHEAP_SAFE_BOUNDARY <= esp /\ esp + 4 * n < 4294967296.

(** task_get_stack_item: word [index] of the stack of user code. *)
Lemma stack_arg_spec s frame proc t dir esp n index :
  in_call s frame proc t dir -> rd32 (k_ram s) (t + t_registers + r_esp) = esp ->
  user_stack (k_mach s) t dir esp n -> 0 <= index < n ->
  wp (stack_arg index) s (fun v s' => v = user_rd32 (k_mach s) dir (esp + 4 * index) /\ exists m, s' = set_k_ram m s /\
    forall a, a < stack_item \/ stack_item + 4 <= a -> rd8 m a = rd8 (k_ram s) a).
Proof.
  intros HI Hesp (Hr & Hlo & Hhi) Hi. assert (0 <= KHEAP_SAFE_BOUNDARY) by done.
  pose proof (task_pos _ _ (ic_task _ _ _ _ _ HI)) as Ht. pose proof (item_off s frame proc t dir HI) as Hoff.
  unfold stack_arg, task_current, task_get_stack_item. wpk. rewrite (ic_curr _ _ _ _ _ HI).
  rewrite (u32_small (t + t_registers + r_esp)), Hesp, (u32_small (esp + 4 * index)) by (tfields; hp; lia).
  assert (Hr' : readable (k_mach s) dir t (esp + 4 * index) 4).
  { intros k Hk. replace (esp + 4 * index + k) with (esp + (4 * index + k)) by lia. apply Hr. lia. }
  wp_apply (copy_from_user_spec s dir t stack_item (esp + 4 * index) 4 (ic_cr3 _ _ _ _ _ HI) (vo_wf _ _ _ _ (ic_owner _ _ _ _ _ HI)) Hr');
    try lia; [apply (ic_item _ _ _ _ _ HI)|].
  intros r s' (-> & m & -> & Hin & Hout). cbn [negb Z.eqb STATUS_OK]. wpk. split; [|by exists m].
  assert (Hu : kernel_byte stack_item) by (apply Hoff; lia). destruct Hu as [Hu _]. knorm. rewrite u32_small by done. unfold user_rd32, rd32, rd16.
  pose proof (Hin 0 ltac:(lia)) as E0. rewrite !Z.add_0_r in E0.
  replace (stack_item + 2 + 1) with (stack_item + 3) by lia. rewrite E0, (Hin 1), (Hin 2), (Hin 3) by lia. lia.
Qed.

(** [intr_80h_handler] has saved the registers: the handler of the system call
    runs in a state [s1] like this. *)
Record entered (s s1 : kstate) (frame proc t dir : Z) : Prop := {
  en_call : in_call s1 frame proc t dir;
  en_mach : exists m, k_mach s1 = set_ram m (k_mach s) /\ call_writes t (k_ram s) m;
  en_regs : regs_at (k_ram s1) (t + t_registers) = frame_regs (k_ram s) frame;
  en_rest : k_sched s1 = k_sched s /\ k_vm s1 = k_vm s /\ k_cpu s1 = k_cpu s /\ sys_calls (k_intr s1) = sys_calls (k_intr s) }.

(** The way of a system call to its handler [f], and what follows the handler
    when it returns. *)
Lemma int80h_spec s frame proc t dir f P :
  in_call s frame proc t dir -> 0 <= i32 (rd32 (k_ram s) (frame + i_eax)) < NUM_SYS_CALLS ->
  nth (Z.to_nat (i32 (rd32 (k_ram s) (frame + i_eax)))) (sys_calls (k_intr s)) None = Some f ->
  (forall s1, entered s s1 frame proc t dir -> ends (r ← run_syscall f frame; return_to_user frame (Some r)) s1 P) ->
  ends (int80h_asm frame) s P.
Proof.
  intros HI Hc Hf HQ. pose proof (ic_frame _ _ _ _ _ HI) as (Hfr & Hfr' & _). unfold int80h_asm, disable_interrupts, on_intr.
  apply ends_bind. wpk. apply ends_bind. wpk. rewrite u32_small by (unfold i_eax; lia). set (s0 := set_intr _ s).
  change (k_ram s0) with (k_ram s). set (c := i32 _) in *. unfold intr_80h_handler. apply ends_assoc, ends_bind.
  wp_apply (save_state_spec s0 t frame (ic_curr _ _ _ _ _ HI) (ic_task _ _ _ _ _ HI) (ic_frame _ _ _ _ _ HI)).
  intros _ s1 (m & -> & Hregs & Hm). unfold syscall_handle_command.
  rewrite (proj2 (Z.ltb_ge c 0)), (proj2 (Z.leb_gt NUM_SYS_CALLS c)) by lia. cbn [orb]. apply ends_assoc, ends_bind, wp_gets.
  change (sys_calls (k_intr (set_k_ram m s0))) with (sys_calls (k_intr s)). rewrite (array_nth _ _ _ _ (proj1 Hc) Hf). apply HQ.
  assert (Hw : call_writes t (k_ram s) m) by (intros a Ha _; by apply Hm).
  split; [|by exists m | done | done]. by apply (call_in_call s _ frame proc t dir m HI Hw).
Qed.

(** In the handler, the first [n] words of the stack are the arguments. *)
Lemma entered_arg s s1 frame proc t dir n index :
  in_call s frame proc t dir -> entered s s1 frame proc t dir -> let e := esp (frame_regs (k_ram s) frame) in
  user_stack (k_mach s) t dir e n -> 0 <= index < n ->
  wp (stack_arg index) s1 (fun v s2 => v = user_rd32 (k_mach s) dir (e + 4 * index) /\ entered s s2 frame proc t dir).
Proof.
  intros HI [HI1 (m & Em & Hm) Hregs (Es & Ev & Ec & Ey)] e [Hr Hb] Hi.
  assert (He : rd32 (k_ram s1) (t + t_registers + r_esp) = e) by exact (f_equal esp Hregs).
  assert (Hst : user_stack (k_mach s1) t dir e n) by (split; [by apply (call_readable s s1 frame proc t dir m HI Hm Em) | done]).
  wp_apply (stack_arg_spec s1 frame proc t dir e n index HI1 He Hst Hi). intros v s2 (-> & m2 & -> & Hm2). split.
  { apply (call_user_rd32 s s1 frame proc t dir m HI Hm Em). intros k Hk.
    replace (e + 4 * index + k) with (e + (4 * index + k)) by lia. apply Hr. lia. }
  assert (Hw : call_writes t (k_ram s) m2) by (intros a Ha Hc; rewrite Hm2 by done; unfold k_ram at 1; rewrite Em; by apply Hm).
  assert (Em2 : k_mach (set_k_ram m2 s1) = set_ram m2 (k_mach s)) by (knorm; by rewrite Em).
  split; [by apply (call_in_call s _ frame proc t dir m2 HI Hw Em2) | by exists m2 | | done].
  rewrite <- Hregs. change (k_ram (set_k_ram m2 s1)) with m2. destruct (ic_task _ _ _ _ _ HI) as (b & Hb' & -> & _).
  unfold regs_at. f_equal; apply rd32_ext; intros a Ha; apply Hm2;
    (destruct (decide (stack_item <= a < stack_item + 4)) as [Hin|]; [|lia]); destruct (item_off s frame proc _ dir HI a Hin) as (_ & _ & Hoff);
    tfields; blk; lia.
Qed.

(** [task_current()->proc] of the caller. *)
Lemma task_proc_spec s frame proc t dir (Q : Z -> kstate -> Prop) : in_call s frame proc t dir -> Q proc s -> wp task_proc s Q.
Proof.
  intros HI HQ. unfold task_proc, task_current. wpk. rewrite (ic_curr _ _ _ _ _ HI).
  pose proof (task_pos _ _ (ic_task _ _ _ _ _ HI)). rewrite u32_small by (tfields; hp; lia).
  pose proof (ic_proc _ _ _ _ _ HI) as E. unfold proc_of in E. by rewrite E.
Qed.

(** The registers [r] with the result [v] of a call. *)
Definition with_eax (v : Z) (r : registers) : registers :=
  mk_regs (edi r) (esi r) (ebp r) (ebx r) (edx r) (ecx r) v (eip r) (cs r) (eflags r) (esp r) (ss r).

(** What munmap of [va] leaves behind, when user code goes on with [s']. *)
Record munmapped (s s' : kstate) (frame proc t dir va : Z) : Prop := {
  um_cpu : k_cpu s' = with_eax (from_option (fun _ => STATUS_OK) (u32 (- STATUS_INVALID_ARG)) (vmem_slot (k_ram s) proc va)) (frame_regs (k_ram s) frame);
  um_sched : k_sched s' = k_sched s /\ k_vm s' = k_vm s;
  um_owner : vmem_owner (k_mach s') proc t dir;
  um_walk : forall x, is_u32 x -> mmu_walk (k_mach s') dir x =
    match vmem_slot (k_ram s) proc va with
    | Some j => if in_region (k_ram s) proc j x then None else mmu_walk (k_mach s) dir x
    | None => mmu_walk (k_mach s) dir x
    end;
  um_slots : forall j, 0 <= j < PROCESS_VMEM_MAX_BLOCKS ->
    vmem_start (k_ram s') proc j = (if decide (vmem_slot (k_ram s) proc va = Some j) then 0 else vmem_start (k_ram s) proc j) /\
    vmem_end (k_ram s') proc j = (if decide (vmem_slot (k_ram s) proc va = Some j) then 0 else vmem_end (k_ram s) proc j) }.

(** The frame is not touched while a region is unmapped. *)
Lemma freed_frame s y frame proc t dir j : in_call s frame proc t dir -> region_freed (k_mach s) y proc dir j ->
  frame_regs (m_ram y) frame = frame_regs (k_ram s) frame.
Proof.
  intros HI F. destruct (ic_statics _ _ _ _ _ HI) as [Hd _]. apply frame_regs_ext. intros a Ha.
  apply (rf_keep _ _ _ _ _ F); [|unfold apart in Hd; pfields; lia]. intros b Hb.
  destruct (owned_used _ _ _ (vo_wf _ _ _ _ (ic_owner _ _ _ _ _ HI)) Hb). apply off_heap_block; [by apply (ic_off _ _ _ _ _ HI) | done].
Qed.

(** The handler of munmap in a state that differs from [s] in what the entry
    writes. *)
Lemma munmap_handler_spec s s1 frame proc t dir m va :
  in_call s frame proc t dir -> in_call s1 frame proc t dir -> call_writes t (k_ram s) m ->
  k_mach s1 = set_ram m (k_mach s) -> k_sched s1 = k_sched s -> k_vm s1 = k_vm s ->
  wp (process_free_vmem_block proc va) s1 (fun r s2 =>
    ends (return_to_user frame (Some (u32 r))) s2 (leaves (fun s' => munmapped s s' frame proc t dir va))).
Proof.
  intros HI HI1 Hm Em Es Ev. destruct (call_owner s frame proc t dir m HI Hm) as [_ Hwalk].
  assert (Er : k_ram s1 = m) by (unfold k_ram; by rewrite Em). pose proof (call_slots s frame proc t dir m HI Hm) as Hsl.
  pose proof (call_frame s frame proc t dir m HI Hm) as Hfr. wp_apply (free_vmem_spec s1 proc t dir va (ic_owner _ _ _ _ _ HI1)).
  intros r s2 H. unfold ends, return_to_user, leaves. rewrite Er, (call_slot s frame proc t dir m HI Hm) in H.
  destruct (vmem_slot (k_ram s) proc va) as [j|] eqn:E.
  - destruct H as (-> & y & -> & F & HO). pose proof (freed_frame s1 y frame proc t dir j HI1 F) as Hy. rewrite Er, Hfr in Hy.
    split; rewrite ?E; try done.
    + change (k_ram (set_k_mach y s1)) with (m_ram y). by rewrite Hy.
    + intros x Hx. change (k_mach (set_cpu _ (set_k_mach y s1))) with y. rewrite (rf_walk _ _ _ _ _ F) by done.
      rewrite Em, Hwalk by done. unfold in_region. cbn [set_ram m_ram].
      assert (Hj : 0 <= j < PROCESS_VMEM_MAX_BLOCKS) by (apply scan_some in E as [Hj _]; unfold PROCESS_VMEM_MAX_BLOCKS in *; lia).
      by destruct (Hsl j Hj) as [-> ->].
    + intros k Hk. change (k_ram (set_cpu _ (set_k_mach y s1))) with (m_ram y). destruct (decide (Some j = Some k)) as [[= <-]|Hne].
      * exact (rf_slot _ _ _ _ _ F).
      * destruct (rf_slots _ _ _ _ _ F k Hk) as [-> ->]; [congruence|]. rewrite Em. by apply Hsl.
  - destruct H as (-> & ->). split; rewrite ?E; try done.
    + rewrite Er. by rewrite Hfr.
    + apply (ic_owner _ _ _ _ _ HI1).
    + intros x Hx. change (k_mach (set_cpu _ s1)) with (k_mach s1). rewrite Em. by apply Hwalk.
    + intros k Hk. rewrite decide_False by done. change (k_ram (set_cpu _ s1)) with (k_ram s1). rewrite Er. by apply Hsl.
Qed.

(** C11: the system call munmap, from the instruction int 0x80 to the return
    to user code. The kernel saves the registers of the caller, takes the
    address from the top of the stack of user code through the page tables,
    and goes back with every register as it was except EAX, in the same task
    and address space. If a region of the process starts at the address (an
    empty slot starts at 0), EAX is 0, no address on the pages of that region
    translates any more, and its slot is empty; otherwise EAX is
    -STATUS_INVALID_ARG, and not -STATUS_INVALID_MEMORY_REGION as the comment
    above syscall_munmap says. Every other address translates as before, and
    every other slot is kept. The structure of the process is outside of the
    heap and its table, as the kernel image is. *)
Theorem munmap_system_call (s : kstate) (frame proc t dir va : Z)
    (HI : in_call s frame proc t dir) (Hn : rd32 (k_ram s) (frame + i_eax) = 5)
    (Hf : nth 5 (sys_calls (k_intr s)) None = Some syscall_munmap_fn)
    (Hstk : user_stack (k_mach s) t dir (esp (frame_regs (k_ram s) frame)) 1)
    (Harg : user_rd32 (k_mach s) dir (esp (frame_regs (k_ram s) frame)) = va) :
  exists s', int80h_asm frame s = User s' /\ munmapped s s' frame proc t dir va.
Proof.
  apply ends_leaves, (int80h_spec s frame proc t dir syscall_munmap_fn _ HI); [by rewrite Hn | by rewrite Hn |].
  intros s1 HE. cbn [run_syscall]. unfold syscall_munmap. apply ends_bind. wp_step.
  wp_apply (entered_arg s s1 frame proc t dir 1 0 HI HE Hstk); [lia|]. intros v s2 (-> & [HI2 (m & Em & Hm) _ (Es & Ev & _)]).
  rewrite Z.add_0_r, Harg. wp_step. apply (task_proc_spec _ frame proc t dir _ HI2). wp_step.
  wp_apply (munmap_handler_spec s s2 frame proc t dir m va HI HI2 Hm Em Es Ev). intros r s' H. by wpk.
Qed.
End call.

(** ** Example *)

(** The process of [worker] with a page table in block 4 for its last 4 MB of
    user memory: the stack page at 0xBFFFF000 is block 3, the region at
    0xBFFFE000 is block 2.  It has asked for munmap of that region. *)
Definition caller_frame : Z := 0x5FFFCC.
Definition caller_ram : ram :=
  let m := wr8 worker_ram (KHEAP_TABLE_ADDR + 4) 65 in
  let m := wr32 m (block_addr 1 + t_proc) worker_proc in
  let m := wr32 m (block_addr 0 + 4 * 767) (block_addr 4 + 7) in
  let m := wr32 (wr32 m (block_addr 4 + 4 * 1022) (block_addr 2 + 7)) (block_addr 4 + 4 * 1023) (block_addr 3 + 7) in
  let m := wr32 (wr32 m (worker_proc + p_vmem_start) 0xBFFFE000) (worker_proc + p_vmem_end) 0xBFFFF000 in
  let m := wr32 m (block_addr 3 + 0xF00) 0xBFFFE000 in
  wr32 (wr32 m (caller_frame + i_eax) 5) (caller_frame + i_esp) 0xBFFFFF00.
Definition caller : kstate :=
  set_vm (mk_vm (block_addr 0) true 0) (set_intr (mk_intr [] (Some <$> syscall_table) 0 true (0, 0) 0 0)
    (kernel_on (ready caller_ram) (mk_sched (block_addr 1) (block_addr 1) (block_addr 1) worker_proc))).

Definition caller_layout : Layout := {|
  procs_addr := 0x110000; kpage_table_addr := 0x128000; idt_addr := 0x125000; tss_addr := 0x128100; stack_stat := 0x1FF000;
  stack_item := 0x5FFF00; lit_r := 0x10C000; uninit_argv := 0; elf_signature_addr := 0x10C010;
  gdt_real_addr := 0x128200; int_wrapper := fun i => 0x100000 + 16 * i; int80h := 0x102000; scan_set_next := 0;
  lit_shell := 0x10C020; lit_shell_args := 0x10C040;
  calls_beyond := fun _ => Some syscall_exit_fn |}.

(** The writes between [worker_ram] and [caller_ram]. *)
Lemma caller_out a : a <> KHEAP_TABLE_ADDR + 4 -> a < block_addr 1 + 60 \/ block_addr 1 + 64 <= a ->
  a < block_addr 0 + 3068 \/ block_addr 0 + 3072 <= a -> a < block_addr 4 \/ block_addr 4 + 4096 <= a ->
  a < block_addr 3 \/ block_addr 3 + 4096 <= a -> a < worker_proc \/ worker_proc + SIZEOF_PROCESS <= a ->
  a < caller_frame \/ caller_frame + 52 <= a -> rd8 caller_ram a = rd8 worker_ram a.
Proof. intros. unfold caller_ram, i_eax, i_esp. cbv zeta. pfields. tfields. by rdw. Qed.

Lemma caller_dir a : in_block 0 a -> a < block_addr 0 + 3068 \/ block_addr 0 + 3072 <= a -> rd8 caller_ram a = 0.
Proof.
  intros Ha Hd. unfold in_block in Ha. rewrite caller_out by (unfold worker_proc, SIZEOF_PROCESS, caller_frame; blk; lia).
  apply worker_zero; unfold worker_proc, SIZEOF_PROCESS; blk; lia.
Qed.

Lemma caller_pde i : 0 <= i < 1024 -> pde (k_mach caller) (block_addr 0) i = if i =? 767 then block_addr 4 + 7 else 0.
Proof.
  intros Hi. unfold pde. rewrite pt_get_block by (blk; lia). change (m_ram (k_mach caller)) with caller_ram.
  destruct (Z.eqb_spec i 767) as [->|Hne]; [vm_compute; reflexivity|]. unfold rd32, rd16. rewrite !caller_dir by (unfold in_block; blk; lia). reflexivity.
Qed.

Lemma caller_wf : pt_wf (k_mach caller) (block_addr 0) /\ forall b, owned (k_mach caller) (block_addr 0) b -> b = 0 \/ b = 4.
Proof.
  assert (Hf : frame_of (block_addr 4 + 7) = block_addr 4) by reflexivity. split; [split|].
  - apply ready_ok.
  - exists 0. split_and!; [blk; lia | done | vm_compute; reflexivity].
  - intros i Hi. rewrite caller_pde by done. destruct (_ =? _); [|done]. intros _. exists 4. rewrite Hf.
    split_and!; [blk; lia | done | vm_compute; reflexivity | done].
  - intros i j Hi Hj. rewrite !caller_pde by done. destruct (Z.eqb_spec i 767), (Z.eqb_spec j 767); try done. intros. congruence.
  - intros b [E|(i & Hi & Hp & E)]; [left; by apply block_addr_inj in E|]. rewrite caller_pde in Hp, E by done.
    destruct (_ =? _); [|done]. rewrite Hf in E. right. by apply block_addr_inj in E.
Qed.

Lemma caller_owner : vmem_owner (k_mach caller) worker_proc (block_addr 1) (block_addr 0).
Proof.
  destruct caller_wf as [Hwf Hown]. split; try reflexivity; [ | | done | | ].
  - intros a Ha. unfold off_heap. change (0x110000 + 1308 <= a < 0x110000 + 1308 + 1308) in Ha. hp. vga. lia.
  - exists 1. split_and!; [blk; lia | done | vm_compute; reflexivity].
  - intros b [-> | ->]%Hown E%block_addr_inj; discriminate E.
  - intros j Hj. apply Z.leb_le.
    refine (forallb_below (fun j => vmem_start caller_ram worker_proc j <=? vmem_end caller_ram worker_proc j) 10 j _ Hj). vm_compute. reflexivity.
Qed.

(** Other contents of memory with the same tables. *)
Section like_caller.
Context (m : ram).
Context (Hblk : forall a, in_block 0 a \/ in_block 4 a -> rd8 m a = rd8 caller_ram a).
Context (Hu : forallb (fun k => rd8 m (KHEAP_TABLE_ADDR + k) =? 65) [0; 1; 4] = true).
Context (Hdir : rd32 m (block_addr 1) = block_addr 0) (Htask : rd32 m (worker_proc + p_task) = block_addr 1).
Context (Hs : forallb (fun j => vmem_start m worker_proc j <=? vmem_end m worker_proc j) (seqZ 0 PROCESS_VMEM_MAX_BLOCKS) = true).

Lemma like_own k a : owned (k_mach caller) (block_addr 0) k -> in_block k a -> rd8 (m_ram (ready m)) a = rd8 (m_ram (k_mach caller)) a.
Proof. intros [-> | ->]%caller_wf Ha; apply Hblk; auto. Qed.

Lemma like_owned k : owned (ready m) (block_addr 0) k -> k = 0 \/ k = 4.
Proof. intros Hk. apply caller_wf. by apply (keep_owned (k_mach caller) (ready m) _ (proj1 caller_wf) like_own). Qed.

Lemma like_owner : vmem_owner (ready m) worker_proc (block_addr 1) (block_addr 0).
Proof.
  refine (proj1 (owner_keep (k_mach caller) (ready m) _ _ _ caller_owner (ready_ok _) _ like_own _ _ _)).
  - intros b Hb Hc _. assert (Hin : In b [0; 1; 4]).
    { destruct Hc as [[-> | ->]%caller_wf| ->%block_addr_inj]; cbn; auto. }
    pose proof (proj1 (forallb_forall _ _) Hu b Hin) as E%Z.eqb_eq.
    unfold used, entry_is_free. rewrite heap_entry by (apply ready_ok || blk; lia). cbn [ready m_ram]. by rewrite E.
  - etransitivity; [exact Hdir|]. vm_compute. reflexivity.
  - etransitivity; [exact Htask|]. vm_compute. reflexivity.
  - intros j Hj. apply Z.leb_le. exact (forallb_below _ _ j Hs Hj).
Qed.

Lemma like_stack n : 0 <= n <= 32 ->
  forallb (fun k => bool_decide (mmu_walk (ready m) (block_addr 0) (u32 (0xBFFFFF00 + k)) = Some (block_addr 3 + 0xF00 + k, 6)))
    (seqZ 0 (4 * n)) = true ->
  user_stack (ready m) (block_addr 1) (block_addr 0) 0xBFFFFF00 n.
Proof.
  intros Hn H. split; [|split; [done | lia]]. intros k Hk. exists (block_addr 3 + 0xF00 + k), 6, 3.
  split_and!; try (unfold in_block; blk; lia).
  - exact (bool_decide_eq_true_1 _ (forallb_below _ _ k H Hk)).
  - intros [E|E]%like_owned; lia.
Qed.
End like_caller.

Lemma caller_in_call : in_call (lay := caller_layout) caller caller_frame worker_proc (block_addr 1) (block_addr 0).
Proof.
  split; try reflexivity.
  - exists 1. split_and!; [blk; lia | done | vm_compute; reflexivity].
  - exact caller_owner.
  - split_and!; unfold caller_frame; hp; lia.
  - intros a Ha. unfold off_heap, caller_frame in *. hp. lia.
  - intros k Hk. unfold kernel_byte, off_heap. cbn [caller_layout stack_item]. hp. lia.
  - unfold caller_frame. cbn [caller_layout stack_item]. lia.
  - unfold apart, caller_frame, worker_proc, SIZEOF_PROCESS. cbn [caller_layout stack_item]. lia.
Qed.

Lemma caller_stack : user_stack (k_mach caller) (block_addr 1) (block_addr 0) 0xBFFFFF00 1.
Proof. apply (like_stack caller_ram); [done | lia | vm_compute; reflexivity]. Qed.

Lemma munmap_system_call_witness :
  (exists pa, mmu_walk (k_mach caller) (block_addr 0) 0xBFFFE000 = Some (pa, 6)) /\
  exists s', int80h_asm (plat := test_platform) (fsys := null_filesystems) (lay := caller_layout) caller_frame caller = User s' /\ eax (k_cpu s') = 0 /\ esp (k_cpu s') = 0xBFFFFF00 /\
    mmu_walk (k_mach s') (block_addr 0) 0xBFFFE000 = None /\ vmem_start (k_ram s') worker_proc 0 = 0.
Proof.
  split; [eexists; vm_compute; reflexivity|].
  assert (Hn : rd32 (k_ram caller) (caller_frame + i_eax) = 5) by (vm_compute; reflexivity).
  assert (Ee : esp (frame_regs (k_ram caller) caller_frame) = 0xBFFFFF00) by (vm_compute; reflexivity).
  assert (Hst : user_stack (k_mach caller) (block_addr 1) (block_addr 0) (esp (frame_regs (k_ram caller) caller_frame)) 1)
    by (rewrite Ee; exact caller_stack).
  assert (Ha : user_rd32 (k_mach caller) (block_addr 0) (esp (frame_regs (k_ram caller) caller_frame)) = 0xBFFFE000)
    by (rewrite Ee; vm_compute; reflexivity).
  destruct (munmap_system_call (plat := test_platform) (fsys := null_filesystems) (lay := caller_layout) caller caller_frame worker_proc (block_addr 1) (block_addr 0) 0xBFFFE000
    caller_in_call Hn eq_refl Hst Ha) as (s' & E & [U1 _ _ U4 U5]).
  assert (Es : vmem_slot (k_ram caller) worker_proc 0xBFFFE000 = Some 0) by (vm_compute; reflexivity).
  rewrite Es in U1, U4. exists s'. split; [exact E|]. rewrite U1. split; [reflexivity|]. split; [exact Ee|]. split.
  - rewrite (U4 0xBFFFE000) by (unfold is_u32; lia). vm_compute. reflexivity.
  - destruct (U5 0 ltac:(unfold PROCESS_VMEM_MAX_BLOCKS; lia)) as [-> _]. by rewrite decide_True by exact Es.
Defined.
