(* ===== verification/SyscallMmap.v ===== *)
(** * The system call mmap, from int 0x80 to the return to user code

    The handler of UserMemory between the entry and the exit of SyscallEntry. *)
From Stdlib Require Import ZArith Lia String.
From stdpp Require Import base numbers gmap list strings.
From S2P Require Import Prelude Config Memory Machine Console Invariants Kheap Paging AddressSpace Blocks Disk Path File Kernel Elf Task TaskList TaskLife Scheduler Process ProcTable Idt Keyboard Syscall Interrupts UserMemory ProcessExit SyscallEntry.
Local Open Scope Z_scope.

(** The kernel can serve the call: free memory in one piece, the page tables of
    the region, and a free slot of the process. *)
Record has_room (s : kstate) (proc dir va va_end : Z) : Prop := {
  hr_run : exists i, 0 <= i /\ i + (va_end - va) / 4096 <= HEAP_BLOCKS /\
    forall k, i <= k < i + (va_end - va) / 4096 -> entry_is_free (k_mach s) k = true;
  hr_tables : forall x, va <= x < va_end -> present (pde (k_mach s) dir (x / 4194304)) = true;
  hr_slot : exists j, 0 <= j < PROCESS_VMEM_MAX_BLOCKS /\ vmem_start (k_ram s) proc j = 0 }.

(** User code goes on in [s'], in the same task and address space, with the
    registers of the frame and the result [v]. *)
Definition resumed (s s' : kstate) (frame v : Z) : Prop :=
  k_cpu s' = with_eax v (frame_regs (k_ram s) frame) /\ k_sched s' = k_sched s /\ k_vm s' = k_vm s.

(** The address space and the regions of the process are as before. *)
Definition same_memory (s s' : kstate) (proc dir : Z) : Prop :=
  (forall x, is_u32 x -> mmu_walk (k_mach s') dir x = mmu_walk (k_mach s) dir x) /\
  forall j, 0 <= j < PROCESS_VMEM_MAX_BLOCKS ->
    vmem_start (k_ram s') proc j = vmem_start (k_ram s) proc j /\ vmem_end (k_ram s') proc j = vmem_end (k_ram s) proc j.

(** The process has got the region. *)
Record got_region (s s' : kstate) (t proc dir va va_end rights : Z) : Prop := {
  gr_caller : mmap_caller s' t dir proc;
  gr_fresh : exists i, (forall k, i <= k < i + (va_end - va) / 4096 -> in_heap k /\ entry_is_free (k_mach s) k = true /\
      used (k_mach s') k /\ ~ owned (k_mach s') dir k) /\
    forall x, va <= x < va_end -> mmu_walk (k_mach s') dir x = Some (block_addr i + (x - va), rights) /\
      rd8 (k_ram s') (block_addr i + (x - va)) = 0;
  gr_rest : forall x, is_u32 x -> x < va \/ va_end <= x ->
    fst <$> mmu_walk (k_mach s') dir x = fst <$> mmu_walk (k_mach s) dir x;
  gr_slot : exists j, 0 <= j < PROCESS_VMEM_MAX_BLOCKS /\ vmem_start (k_ram s) proc j = 0 /\
    vmem_start (k_ram s') proc j = va /\ vmem_end (k_ram s') proc j = va_end /\
    forall k, 0 <= k < PROCESS_VMEM_MAX_BLOCKS -> k <> j ->
      vmem_start (k_ram s') proc k = vmem_start (k_ram s) proc k /\ vmem_end (k_ram s') proc k = vmem_end (k_ram s) proc k }.

Section mmap_call.
Context {plat : Platform} {fsys : FileSystems} {lay : Layout}.

Lemma in_call_caller s frame proc t dir : in_call s frame proc t dir -> mmap_caller s t dir proc.
Proof.
  intros HI. pose proof (ic_owner _ _ _ _ _ HI) as [HP HT HB HD HW HA _].
  split; [apply HI | done | exact HD | apply HI | done | done | by apply placed_vmem].
Qed.

(** Returning from a handler that left the frame alone. *)
Lemma return_resumed s s2 frame v (P : kstate -> Prop) :
  frame_regs (k_ram s2) frame = frame_regs (k_ram s) frame -> k_sched s2 = k_sched s -> k_vm s2 = k_vm s ->
  (forall s', resumed s s' frame v -> k_mach s' = k_mach s2 -> k_sched s' = k_sched s2 -> P s') ->
  ends (return_to_user frame (Some v)) s2 (leaves P).
Proof. intros Ef Es Ev HP. unfold ends, leaves, return_to_user. rewrite Ef. by apply HP. Qed.

Section handler.
Context (s s1 : kstate) (frame proc t dir : Z).
Context (HI : in_call s frame proc t dir) (HE : entered s s1 frame proc t dir).

Lemma entered_frame : frame_regs (k_ram s1) frame = frame_regs (k_ram s) frame.
Proof.
  destruct (en_mach _ _ _ _ _ _ HE) as (m & Em & Hm). unfold k_ram at 1. rewrite Em. by apply (call_frame s frame proc t dir m HI Hm).
Qed.

Lemma entered_memory : same_memory s s1 proc dir.
Proof.
  destruct (en_mach _ _ _ _ _ _ HE) as (m & Em & Hm). split.
  - intros x Hx. rewrite Em. by apply (call_owner s frame proc t dir m HI Hm).
  - intros j Hj. unfold k_ram at 1 3. rewrite Em. by apply (call_slots s frame proc t dir m HI Hm).
Qed.

Lemma entered_free k : in_heap k -> entry_is_free (k_mach s1) k = entry_is_free (k_mach s) k.
Proof.
  intros Hk. destruct (en_mach _ _ _ _ _ _ HE) as (m & Em & Hm). unfold entry_is_free.
  by rewrite Em, (call_entry s frame proc t dir m HI Hm).
Qed.

Lemma entered_pde i : 0 <= i < 1024 -> pde (k_mach s1) dir i = pde (k_mach s) dir i.
Proof.
  intros Hi. destruct (en_mach _ _ _ _ _ _ HE) as (m & Em & Hm). rewrite Em.
  apply (keep_pde (k_mach s)); [apply (vo_wf _ _ _ _ (ic_owner _ _ _ _ _ HI)) | apply (call_own s frame proc t dir m HI Hm) | done].
Qed.

(** There is still room in the handler. *)
Lemma entered_room va va_end : is_u32 va_end -> KHEAP_SAFE_BOUNDARY <= va -> has_room s proc dir va va_end -> has_room s1 proc dir va va_end.
Proof.
  intros Hve Hva [(i & Hi & Hin & Hf) Ht (j & Hj & Hz)]. unfold is_u32, KHEAP_SAFE_BOUNDARY in *. split.
  - exists i. split_and!; try done. intros k Hk. rewrite entered_free by (blk; lia). by apply Hf.
  - intros x Hx. rewrite entered_pde by zlia. by apply Ht.
  - exists j. split; [done|]. by rewrite (proj1 (proj2 entered_memory j Hj)).
Qed.

(** A region that the handler made is one for the caller. *)
Lemma entered_region s2 s' va va_end rights :
  user_region s1 s2 t proc dir va va_end rights -> k_mach s' = k_mach s2 -> k_sched s' = k_sched s2 ->
  got_region s s' t proc dir va va_end rights.
Proof.
  intros [Uc _ (i & Uf & Uw) Ur _ _ _ (j & Hj & S0 & S1 & S2 & Sk)] Em Es. destruct entered_memory as [Mw Ms].
  assert (Er : k_ram s' = k_ram s2) by (unfold k_ram; by rewrite Em). split; rewrite ?Er, ?Em.
  - destruct Uc. split; rewrite ?Er, ?Em, ?Es; done.
  - exists i. split; [|done]. intros k Hk. destruct (Uf k Hk) as (? & Hf & ? & ?). rewrite entered_free in Hf by done. done.
  - intros x Hx Ho. rewrite Ur by done. by rewrite Mw.
  - exists j. destruct (Ms j Hj) as [Ej _]. rewrite <- Ej. split_and!; try done; try lia. intros k Hk Hne.
    destruct (Sk k Hk Hne) as [-> ->]. by apply Ms.
Qed.

(** mmap and the return. *)
Lemma mmap_handler_spec va va_end flags :
  is_u32 va -> is_u32 va_end ->
  (mmap_refusal va va_end = None -> has_room s proc dir va va_end) ->
  wp (mmap va va_end flags) s1 (fun r s2 => ends (return_to_user frame (Some r)) s2 (leaves (fun s' =>
    match mmap_refusal va va_end with
    | Some e => resumed s s' frame (u32 (- e)) /\ same_memory s s' proc dir
    | None => resumed s s' frame STATUS_OK /\ got_region s s' t proc dir va va_end
        (PAGE_USER_ACCESS_ALLOW + (if Z.land flags O_WRITE =? 0 then 0 else PAGE_WRITE_ALLOW))
    end))).
Proof.
  intros Hva Hve Hroom. destruct (en_rest _ _ _ _ _ _ HE) as (Es & Ev & _).
  assert (Hno : mmap_refusal va va_end = None -> no_overrun (k_mach s1) ((va_end - va) / 4096)).
  { intros Hr. pose proof (Hroom Hr) as HR. unfold mmap_refusal in Hr. do 2 (case_match; [done|]). breflect.
    destruct (hr_run _ _ _ _ _ (entered_room va va_end Hve ltac:(lia) HR)) as (i & Hi & Hin & Hf).
    apply (no_overrun_room _ _ i); try done. zlia. }
  wp_apply (mmap_spec s1 t dir proc va va_end flags (in_call_caller _ _ _ _ _ (en_call _ _ _ _ _ _ HE)) Hva Hve Hno).
  intros r s2 H. unfold mmap_post in H. unfold mmap_refusal in *.
  assert (Href : forall e, r = u32 (- e) /\ s2 = s1 -> ends (return_to_user frame (Some r)) s2 (leaves (fun s' =>
    resumed s s' frame (u32 (- e)) /\ same_memory s s' proc dir))).
  { intros e [-> ->]. apply (return_resumed s); [apply entered_frame | done | done |]. intros s' Hr Em _. split; [done|].
    unfold same_memory, k_ram at 1 3. rewrite Em. exact entered_memory. }
  destruct (negb (va mod 4096 =? 0) || negb (va_end mod 4096 =? 0)) eqn:Ea; [by apply Href|].
  destruct ((va <? KHEAP_SAFE_BOUNDARY) || (va_end <? KHEAP_SAFE_BOUNDARY) || (va_end <=? va)) eqn:Eb; [by apply Href|].
  breflect. destruct (entered_room va va_end Hve ltac:(lia) (Hroom eq_refl)) as [(i & Hi & Hin & Hf) Ht (j & Hj & Hz)].
  destruct H as [[-> U]|[[_ [Hfull|(x & Hx & Hm)]]|[_ Hfull]]].
  - destruct (ur_mach _ _ _ _ _ _ _ _ U) as [y Ey]. apply (return_resumed s).
    + rewrite <- entered_frame. apply frame_regs_ext. intros a Ha. apply (ur_out _ _ _ _ _ _ _ _ U); [by apply (ic_off _ _ _ _ _ HI)|].
      destruct (ic_statics _ _ _ _ _ HI) as [Hd _]. unfold apart in Hd. pfields. lia.
    + by rewrite Ey.
    + by rewrite Ey.
    + intros s' Hr Em Es'. split; [done|]. by apply (entered_region s2).
  - exfalso. assert (1 <= (va_end - va) / 4096) by zlia. apply (Hfull i); [lia|]. split; [apply Hf; lia | done].
  - by rewrite Ht in Hm.
  - by destruct (Hfull j Hj).
Qed.
End handler.

(** C10: the system call mmap, from the instruction int 0x80 to the return to
    user code.  The kernel takes the bounds and the flags from the stack of user
    code and goes back with every register as it was except EAX, in the same
    task and address space.  Bounds that are not multiples of the page size, and
    regions that are empty or reach below the user part of the address space,
    are refused with their error code, and no address translates differently.
    Otherwise, when the kernel has free memory in one piece, the page tables of
    the region and a slot for it, EAX is 0 and every page of the region is
    mapped to memory that was free and is zero, with write access exactly if it
    was asked for; the region is recorded in an empty slot, every address
    outside the region keeps its frame, and the other slots are kept.  The
    structure of the process is outside of the heap and its table, as the kernel
    image is. *)
Theorem mmap_system_call (s : kstate) (frame proc t dir va va_end flags : Z)
    (HI : in_call s frame proc t dir) (Hn : rd32 (k_ram s) (frame + i_eax) = 4)
    (Hf : nth 4 (sys_calls (k_intr s)) None = Some syscall_mmap_fn)
    (Hstk : user_stack (k_mach s) t dir (esp (frame_regs (k_ram s) frame)) 3)
    (Ha2 : user_rd32 (k_mach s) dir (esp (frame_regs (k_ram s) frame) + 8) = va)
    (Ha1 : user_rd32 (k_mach s) dir (esp (frame_regs (k_ram s) frame) + 4) = va_end)
    (Ha0 : user_rd32 (k_mach s) dir (esp (frame_regs (k_ram s) frame)) = flags)
    (Hroom : mmap_refusal va va_end = None -> has_room s proc dir va va_end) :
  exists s', int80h_asm frame s = User s' /\
    match mmap_refusal va va_end with
    | Some e => resumed s s' frame (u32 (- e)) /\ same_memory s s' proc dir
    | None => resumed s s' frame STATUS_OK /\ got_region s s' t proc dir va va_end
        (PAGE_USER_ACCESS_ALLOW + (if Z.land flags O_WRITE =? 0 then 0 else PAGE_WRITE_ALLOW))
    end.
Proof.
  apply ends_leaves, (int80h_spec s frame proc t dir syscall_mmap_fn _ HI); [by rewrite Hn | by rewrite Hn |].
  intros s1 HE. cbn [run_syscall]. unfold syscall_mmap. apply ends_bind. wp_step.
  wp_apply (entered_arg s s1 frame proc t dir 3 2 HI HE Hstk); [lia|]. intros v s2 (-> & HE2). wp_step.
  wp_apply (entered_arg s s2 frame proc t dir 3 1 HI HE2 Hstk); [lia|]. intros v s3 (-> & HE3). wp_step.
  wp_apply (entered_arg s s3 frame proc t dir 3 0 HI HE3 Hstk); [lia|]. intros v s4 (-> & HE4).
  change (4 * 2) with 8. change (4 * 1) with 4. rewrite Z.add_0_r, Ha2, Ha1, Ha0.
  apply (mmap_handler_spec s s4 frame proc t dir HI HE4); try done; [rewrite <- Ha2 | rewrite <- Ha1]; apply user_rd32_range.
Qed.
End mmap_call.

(** ** Example *)

(** The process of [caller] asks for a writable page at 0xBFFFD000. *)
Definition asker_ram : ram :=
  let m := wr32 (wr32 (wr32 caller_ram (block_addr 3 + 0xF00) 2) (block_addr 3 + 0xF04) 0xBFFFE000) (block_addr 3 + 0xF08) 0xBFFFD000 in
  wr32 m (caller_frame + i_eax) 4.
Definition asker : kstate :=
  set_vm (mk_vm (block_addr 0) true 0) (set_intr (mk_intr [] (Some <$> syscall_table) 0 true (0, 0) 0 0)
    (kernel_on (ready asker_ram) (mk_sched (block_addr 1) (block_addr 1) (block_addr 1) worker_proc))).

Lemma asker_tables a : in_block 0 a \/ in_block 4 a -> rd8 asker_ram a = rd8 caller_ram a.
Proof. intros Ha. unfold in_block in Ha. unfold asker_ram, caller_frame, i_eax. cbv zeta. blk. by rdw. Qed.

Lemma asker_in_call : in_call (lay := caller_layout) asker caller_frame worker_proc (block_addr 1) (block_addr 0).
Proof.
  destruct caller_in_call as [_ _ _ _ _ C6 C7 C8 C9 C10]. split; try done.
  - exists 1. split_and!; [blk; lia | done | vm_compute; reflexivity].
  - apply (like_owner asker_ram asker_tables); vm_compute; reflexivity.
Qed.

Lemma asker_room : has_room asker worker_proc (block_addr 0) 0xBFFFD000 0xBFFFE000.
Proof.
  split.
  - exists 5. change ((0xBFFFE000 - 0xBFFFD000) / 4096) with 1. split_and!; [lia | hp; lia |]. intros k Hk.
    replace k with 5 by lia. vm_compute. reflexivity.
  - intros x Hx. replace (x / 4194304) with 767 by zlia. vm_compute. reflexivity.
  - exists 1. split; [unfold PROCESS_VMEM_MAX_BLOCKS; lia | vm_compute; reflexivity].
Qed.

Lemma mmap_system_call_witness :
  mmu_walk (k_mach asker) (block_addr 0) 0xBFFFD000 = None /\
  exists s', int80h_asm (plat := test_platform) (fsys := null_filesystems) (lay := caller_layout) caller_frame asker = User s' /\
    eax (k_cpu s') = 0 /\ exists pa, mmu_walk (k_mach s') (block_addr 0) 0xBFFFD000 = Some (pa, 6) /\ rd8 (k_ram s') pa = 0.
Proof.
  split; [vm_compute; reflexivity|].
  assert (Hn : rd32 (k_ram asker) (caller_frame + i_eax) = 4) by (vm_compute; reflexivity).
  assert (Ee : esp (frame_regs (k_ram asker) caller_frame) = 0xBFFFFF00) by (vm_compute; reflexivity).
  assert (Hstk : user_stack (k_mach asker) (block_addr 1) (block_addr 0) (esp (frame_regs (k_ram asker) caller_frame)) 3).
  { rewrite Ee. apply (like_stack asker_ram asker_tables); [lia | vm_compute; reflexivity]. }
  assert (H2 : user_rd32 (k_mach asker) (block_addr 0) (esp (frame_regs (k_ram asker) caller_frame) + 8) = 0xBFFFD000)
    by (rewrite Ee; vm_compute; reflexivity).
  assert (H1 : user_rd32 (k_mach asker) (block_addr 0) (esp (frame_regs (k_ram asker) caller_frame) + 4) = 0xBFFFE000)
    by (rewrite Ee; vm_compute; reflexivity).
  assert (H0 : user_rd32 (k_mach asker) (block_addr 0) (esp (frame_regs (k_ram asker) caller_frame)) = 2)
    by (rewrite Ee; vm_compute; reflexivity).
  assert (Er : mmap_refusal 0xBFFFD000 0xBFFFE000 = None) by (vm_compute; reflexivity).
  pose proof (mmap_system_call (plat := test_platform) (fsys := null_filesystems) (lay := caller_layout) asker caller_frame worker_proc
    (block_addr 1) (block_addr 0) 0xBFFFD000 0xBFFFE000 2 asker_in_call Hn eq_refl Hstk H2 H1 H0 (fun _ => asker_room)) as H.
  rewrite Er in H. destruct H as (s' & E & [[Hc _] [_ (i & _ & Hw) _ _]]).
  exists s'. split; [exact E|]. rewrite Hc. split; [reflexivity|]. destruct (Hw 0xBFFFD000 ltac:(lia)) as [W Z0].
  eexists. split; [exact W | exact Z0].
Defined.
