(* ===== verification/ProcLife.v ===== *)
(** * Exit and wait

    [process_exit] of a child followed by [process_waitpid] of its parent: what
    the two calls together give back to the kernel. *)
From Stdlib Require Import ZArith Lia String.
From stdpp Require Import base numbers gmap list strings.
From S2P Require Import Prelude Config Memory Machine Console Kheap Paging AddressSpace Blocks Disk Path File Kernel Elf Task TaskList TaskLife Scheduler Process ProcTable Idt Keyboard Syscall UserMemory ProcessExit.
Local Open Scope Z_scope.

(** ** The entry table after two allocations are released *)

Definition in_run (i n k : Z) : Prop := i <= k < i + n.

Lemma rep_uncovered x A k : heap_rep x A -> 0 <= k < HEAP_BLOCKS -> ~ covers A k -> rd8 (m_ram x) (KHEAP_TABLE_ADDR + k) = 0.
Proof. intros (_ & _ & H2) Hk Hn. destruct (decide (rd8 (m_ram x) (KHEAP_TABLE_ADDR + k) = 0)) as [|Hc]; [done | by destruct Hn; apply H2]. Qed.

Lemma rep_kept x y A i j n1 n2 k :
  heap_rep x A -> heap_rep y (delete j (delete i A)) -> A !! i = Some n1 -> A !! j = Some n2 ->
  in_heap k -> ~ in_run i n1 k -> ~ in_run j n2 k -> get_entry y k = get_entry x k.
Proof.
  intros HX HY Hi Hj Hk H1 H2. pose proof HX as (Hx & X1 & X2). pose proof HY as (Hy & Y1 & Y2).
  rewrite !heap_entry by (done || blk; lia).
  destruct (decide (rd8 (m_ram x) (KHEAP_TABLE_ADDR + k) = 0)) as [Ez|Hnz].
  - rewrite Ez. apply (rep_uncovered y _ k HY Hk). intros (u & n & Hu & Hr).
    apply lookup_delete_Some in Hu as [_ Hu]. apply lookup_delete_Some in Hu as [_ Hu].
    destruct (X1 u n Hu) as (_ & _ & _ & He). specialize (He (k - u) ltac:(lia)).
    replace (u + (k - u)) with k in He by lia. pose proof (run_entry_taken n (k - u)) as Ht. by rewrite <- He, Ez in Ht.
  - destruct (X2 k Hk Hnz) as (u & n & Hu & Hr).
    assert (u <> i) by (intros ->; rewrite Hu in Hi; injection Hi as ->; by apply H1).
    assert (u <> j) by (intros ->; rewrite Hu in Hj; injection Hj as ->; by apply H2).
    destruct (X1 u n Hu) as (_ & _ & _ & He). destruct (Y1 u n) as (_ & _ & _ & He'); [by rewrite !lookup_delete_ne|].
    specialize (He (k - u) ltac:(lia)). specialize (He' (k - u) ltac:(lia)). replace (u + (k - u)) with k in * by lia. congruence.
Qed.

Lemma rep_released x y A i j n1 n2 k :
  heap_rep x A -> heap_rep y (delete j (delete i A)) -> A !! i = Some n1 -> A !! j = Some n2 ->
  in_heap k -> in_run i n1 k \/ in_run j n2 k -> get_entry y k = 0.
Proof.
  intros HX HY Hi Hj Hk Hr. rewrite heap_entry by (apply HY || blk; lia). apply (rep_uncovered y _ k HY Hk).
  intros (u & n & Hu & Hu'). apply lookup_delete_Some in Hu as [Nj Hu]. apply lookup_delete_Some in Hu as [Ni Hu].
  unfold in_run in Hr. destruct Hr as [Hr|Hr].
  - pose proof (rep_disjoint x A _ _ _ _ HX Hi Hu). pose proof (rep_disjoint x A _ _ _ _ HX Hu Hi). lia.
  - pose proof (rep_disjoint x A _ _ _ _ HX Hj Hu). pose proof (rep_disjoint x A _ _ _ _ HX Hu Hj). lia.
Qed.

(** ** The child *)

Section life.
Context {plat : Platform} {fsys : FileSystems} {lay : Layout}.

(** The process in slot [i] runs in task [t], one of the tasks in [l], and can
    exit; [n1] and [n2] are the lengths of its two allocations. *)
Record live_child (s : kstate) (l : list Z) (i t dir : Z) (A : gmap Z Z) (img n1 stk n2 : Z) : Prop := {
  lc_slot : 0 <= i < MAX_PROCS;
  lc_exit : can_exit s (proc_addr i) t dir A img stk;
  lc_img : A !! img = Some n1;
  lc_stk : A !! stk = Some n2;
  lc_list : task_list s l;
  lc_in : t ∈ l;
  lc_levels : rd32 (k_ram s) (t + 4) = 2;
  lc_tables : forall k, owned (k_mach s) dir k -> page_entry (k_mach s) k /\ block_addr k ∉ l;
  lc_apart : forall k, block_addr k ∈ l -> ~ in_run img n1 k /\ ~ in_run stk n2 k }.

Section exited_child.
Context (s s1 : kstate) (l : list Z) (i t dir status : Z) (A : gmap Z Z) (img n1 stk n2 : Z).
Context (HC : live_child s l i t dir A img n1 stk n2).
Context (HX : exited s s1 (proc_addr i) t dir status (delete stk (delete img A))).

Let HO : vmem_owner (k_mach s) (proc_addr i) t dir := ce_owner _ _ _ _ _ _ _ (lc_exit _ _ _ _ _ _ _ _ _ _ HC).

Lemma child_table_apart k : owned (k_mach s) dir k -> ~ in_run img n1 k /\ ~ in_run stk n2 k.
Proof.
  intros Ho. pose proof (lc_exit _ _ _ _ _ _ _ _ _ _ HC) as HE.
  destruct (ce_alloc _ _ _ _ _ _ _ HE) as (m1 & L1 & D1). destruct (ce_alloc' _ _ _ _ _ _ _ HE) as (m2 & L2 & D2).
  rewrite (lc_img _ _ _ _ _ _ _ _ _ _ HC) in L1. rewrite (lc_stk _ _ _ _ _ _ _ _ _ _ HC) in L2.
  injection L1 as <-. injection L2 as <-. pose proof (D1 k (or_introl Ho)). pose proof (D2 k (or_introl Ho)). unfold in_run. lia.
Qed.

Lemma exited_entry k : in_heap k -> ~ in_run img n1 k -> ~ in_run stk n2 k -> get_entry (k_mach s1) k = get_entry (k_mach s) k.
Proof.
  intros Hk H1 H2. pose proof HC as [_ HE L1 L2 _ _ _ _ _].
  apply (rep_kept _ _ A img stk n1 n2); try done; [apply (ce_heap _ _ _ _ _ _ _ HE) | apply (xd_heap _ _ _ _ _ _ _ HX)].
Qed.

(** The bytes of a task of the list, its state apart, are as before. *)
Lemma exited_task u off : u ∈ l -> 0 <= off < 4096 -> off <> t_state -> rd8 (k_ram s1) (u + off) = rd8 (k_ram s) (u + off).
Proof.
  intros Hu Ho Hs. destruct (tl_task _ _ (lc_list _ _ _ _ _ _ _ _ _ _ HC) u Hu) as (b & Hb & -> & _).
  assert (Hin : in_block b (block_addr b + off)) by (unfold in_block; lia).
  pose proof (placed_out (proc_addr i) _ b (vo_placed _ _ _ _ HO) Hb Hin). apply (xd_keep _ _ _ _ _ _ _ HX).
  - split_and!; [|blk; lia | pfields; lia|].
    + intros c Hc Hc'. destruct (lc_tables _ _ _ _ _ _ _ _ _ _ HC c Hc) as [_ Hn]. apply Hn.
      destruct (owned_used _ _ _ (vo_wf _ _ _ _ HO) Hc). replace c with b by (unfold in_block in *; blk; lia). done.
    + destruct (vo_block _ _ _ _ HO) as (bt & Hbt & -> & _). unfold t_state in *. blk. lia.
  - pfields. lia.
  - pfields. lia.
Qed.

Lemma exited_task_word u off : u ∈ l -> 0 <= off <= 4092 -> off + 4 <= t_state \/ t_state < off ->
  rd32 (k_ram s1) (u + off) = rd32 (k_ram s) (u + off).
Proof.
  intros Hu Ho Hs. apply rd32_ext. intros a Ha. replace a with (u + (a - u)) by lia. apply exited_task; [done | lia | lia].
Qed.

Lemma exited_is_task u : u ∈ l -> is_task (k_mach s1) u.
Proof.
  intros Hu. destruct (tl_task _ _ (lc_list _ _ _ _ _ _ _ _ _ _ HC) u Hu) as (b & Hb & -> & Hp).
  destruct (lc_apart _ _ _ _ _ _ _ _ _ _ HC b Hu). exists b. split_and!; try done. unfold page_entry. by rewrite exited_entry.
Qed.

Lemma exited_task_list : task_list s1 l.
Proof.
  pose proof (lc_list _ _ _ _ _ _ _ _ _ _ HC) as [Hh Ht Hn H1 H2 Hl].
  assert (Es : forall f, f = tasks_ll_head \/ f = tasks_ll_tail -> f (k_sched s1) = f (k_sched s)).
  { intros f Hf. rewrite (xd_state _ _ _ _ _ _ _ HX). by destruct Hf as [-> | ->]. }
  split; [apply (xd_heap _ _ _ _ _ _ _ HX) | apply exited_is_task | done | rewrite Es; auto | rewrite Es; auto |].
  apply (links_ext (k_ram s)); [|done]. intros u Hu. split; apply exited_task_word; try done; tfields; lia.
Qed.

Lemma exited_dead : task_dead s1 t l.
Proof.
  pose proof (xd_owner _ _ _ _ _ _ _ HX) as HO1.
  assert (Ed : rd32 (k_ram s1) t = dir) by apply (vo_dir _ _ _ _ HO1). split; rewrite ?Ed.
  - apply (xd_dead _ _ _ _ _ _ _ HX).
  - rewrite exited_task_word by (done || unfold t_state; lia || apply (lc_in _ _ _ _ _ _ _ _ _ _ HC)).
    apply (lc_levels _ _ _ _ _ _ _ _ _ _ HC).
  - apply (vo_wf _ _ _ _ HO1).
  - intros k Ho. rewrite (xd_owned _ _ _ _ _ _ _ HX) in Ho. destruct (lc_tables _ _ _ _ _ _ _ _ _ _ HC k Ho) as [Hp Hn].
    split; [|done]. destruct (child_table_apart k Ho), (owned_used _ _ _ (vo_wf _ _ _ _ HO) Ho). unfold page_entry. by rewrite exited_entry.
Qed.

(** Memory outside of the heap is kept, but for the structure of the process
    from its third field on. *)
Lemma exited_off a : off_heap a -> a < proc_addr i + 4 \/ proc_addr i + SIZEOF_PROCESS <= a -> rd8 (k_ram s1) a = rd8 (k_ram s) a.
Proof.
  intros Hq Hr. apply (xd_keep _ _ _ _ _ _ _ HX); [split_and! | pfields; lia | pfields; lia].
  - intros b Ho Hb. destruct (owned_used _ _ _ (vo_wf _ _ _ _ HO) Ho). by apply (off_heap_block a b).
  - apply Hq.
  - pfields. lia.
  - destruct (vo_block _ _ _ _ HO) as (bt & Hbt & -> & _). unfold off_heap, t_state in *. blk. lia.
Qed.

(** The fields of the table that the kernel looks processes up by. *)
Lemma exited_pid (HP : procs_placed) j a : 0 <= j < MAX_PROCS -> proc_addr j <= a < proc_addr j + 4 ->
  rd8 (k_ram s1) a = rd8 (k_ram s) a.
Proof.
  intros Hj Ha. pose proof (lc_slot _ _ _ _ _ _ _ _ _ _ HC) as Hi.
  assert (Hs : slot_bytes j a) by (unfold slot_bytes, SIZEOF_PROCESS; lia). destruct (slot_off j a HP Hj Hs) as [_ Hq].
  apply exited_off; [done|]. unfold proc_addr, SIZEOF_PROCESS in *. lia.
Qed.

Lemma exited_pid_word (HP : procs_placed) j off : 0 <= j < MAX_PROCS -> off = p_pid \/ off = p_parent_pid ->
  rd16 (k_ram s1) (u32 (proc_addr j + off)) = rd16 (k_ram s) (u32 (proc_addr j + off)).
Proof.
  intros Hj Ho. rewrite slot_u32 by (done || pfields; lia). apply rd16_ext. intros a Ha. apply (exited_pid HP j); [done|]. pfields. lia.
Qed.

Lemma exited_slot_of (HP : procs_placed) pid : slot_of (k_ram s1) pid = slot_of (k_ram s) pid.
Proof.
  unfold slot_of. destruct (pid =? 0); [done|]. destruct (Z.ltb_spec 0 pid), (Z.ltb_spec pid MAX_PROCS); cbn [andb]; try done.
  unfold pid_at. by rewrite (exited_pid_word HP pid p_pid ltac:(lia) ltac:(auto)).
Qed.

End exited_child.

(** Everything that the two calls give back, and nothing else. *)
Record child_gone (s s' : kstate) (i t dir img n1 stk n2 : Z) : Prop := {
  cg_free : forall k, in_heap k -> in_run img n1 k \/ in_run stk n2 k \/ owned (k_mach s) dir k \/ block_addr k = t ->
    entry_is_free (k_mach s') k = true;
  cg_kept : forall k, in_heap k -> ~ (in_run img n1 k \/ in_run stk n2 k \/ owned (k_mach s) dir k \/ block_addr k = t) ->
    get_entry (k_mach s') k = get_entry (k_mach s) k;
  cg_slot : forall a, slot_bytes i a -> rd8 (k_ram s') a = 0 }.

Lemma reaped_child s s1 s' l i t dir status A img n1 stk n2 l' :
  live_child s l i t dir A img n1 stk n2 -> exited s s1 (proc_addr i) t dir status (delete stk (delete img A)) ->
  task_gone s1 s' l' t -> (forall a, slot_bytes i a -> rd8 (k_ram s') a = 0) -> child_gone s s' i t dir img n1 stk n2.
Proof.
  intros HC HX [_ _ HF HK] Hz. pose proof HC as [_ HE L1 L2 _ _ _ _ _].
  assert (Ed : rd32 (k_ram s1) t = dir) by apply (vo_dir _ _ _ _ (xd_owner _ _ _ _ _ _ _ HX)). rewrite Ed in *.
  assert (Hown := xd_owned _ _ _ _ _ _ _ HX).
  assert (Hrun : forall k, in_run img n1 k \/ in_run stk n2 k -> ~ owned (k_mach s) dir k /\ block_addr k <> t).
  { intros k Hk. split; [intros Ho; destruct (child_table_apart s l i t dir A img n1 stk n2 HC k Ho); naive_solver|].
    intros Ek. destruct (lc_apart _ _ _ _ _ _ _ _ _ _ HC k); [rewrite Ek; apply (lc_in _ _ _ _ _ _ _ _ _ _ HC) | naive_solver]. }
  split; [| |done].
  - intros k Hk Hin. destruct (decide (in_run img n1 k \/ in_run stk n2 k)) as [Hr|Hr].
    + destruct (Hrun k Hr). unfold entry_is_free. rewrite HK by (done || by rewrite Hown).
      by rewrite (rep_released (k_mach s) _ A img stk n1 n2 k) by (done || apply (ce_heap _ _ _ _ _ _ _ HE) || apply (xd_heap _ _ _ _ _ _ _ HX)).
    + apply HF; [done|]. rewrite Hown. naive_solver.
  - intros k Hk Hno. rewrite HK; [|done | rewrite Hown; naive_solver | naive_solver].
    apply (exited_entry s s1 l i t dir status A img n1 stk n2); try done; naive_solver.
Qed.

Lemma exit_wait_spec s l i t dir A img n1 stk n2 status parent pid :
  procs_placed -> pids_ok (k_ram s) -> live_child s l i t dir A img n1 stk n2 ->
  slot_of (k_ram s) pid = Some i -> 0 <= parent < MAX_PROCS -> parent_at (k_ram s) i = pid_at (k_ram s) parent ->
  wp (process_exit (proc_addr i) status;; process_waitpid (proc_addr parent) pid) s (fun r s' =>
    r = STATUS_OK /\ (exists l1 l2, l = l1 ++ t :: l2 /\ task_list s' (l1 ++ l2)) /\ child_gone s s' i t dir img n1 stk n2).
Proof.
  intros HP Hp HC Hsl Hpar Hchild. pose proof (lc_exit _ _ _ _ _ _ _ _ _ _ HC) as HE. pose proof (lc_slot _ _ _ _ _ _ _ _ _ _ HC) as Hi.
  wp_step. wp_apply (process_exit_spec s _ _ _ _ _ _ status HE). intros _ s1 (_ & HX).
  assert (Ht1 : task_of (k_ram s1) i = t).
  { unfold task_of. rewrite slot_u32 by (done || pfields; lia). apply (vo_task _ _ _ _ (xd_owner _ _ _ _ _ _ _ HX)). }
  assert (Hst : status_at (k_ram s1) i = PROC_ZOMBIE).
  { unfold status_at. rewrite slot_u32 by (done || pfields; lia). apply (xd_status _ _ _ _ _ _ _ HX). }
  pose proof (exited_slot_of s s1 l i t dir status A img n1 stk n2 HC HX HP) as Hslots.
  assert (Hw := fun j off Hj Ho => exited_pid_word s s1 l i t dir status A img n1 stk n2 HC HX HP j off Hj Ho).
  pose proof (exited_dead s s1 l i t dir status A img n1 stk n2 HC HX) as Hdead.
  wp_apply (waitpid_spec s1 l (proc_addr parent) pid HP).
  - intros j Hj. unfold pid_at. rewrite (Hw j p_pid Hj ltac:(auto)). by apply Hp.
  - by apply (exited_task_list s s1 l i t dir status A img n1 stk n2).
  - intros j Hj _. rewrite Hslots, Hsl in Hj. injection Hj as <-. rewrite Ht1. split; [apply (lc_in _ _ _ _ _ _ _ _ _ _ HC) | done].
  - rewrite Hslots, Hsl, Hst. unfold parent_at. rewrite (Hw i p_parent_pid Hi ltac:(auto)), (Hw parent p_pid Hpar ltac:(auto)).
    fold (parent_at (k_ram s) i) (pid_at (k_ram s) parent). rewrite Hchild, !Z.eqb_refl. cbn [negb].
    intros r s' (-> & [(l1 & l2 & El & HG) Hz _]). rewrite Ht1 in *. split; [done|]. split; [exists l1, l2; split; [done | apply (tg_list _ _ _ _ HG)]|].
    apply (reaped_child s s1 s' l i t dir status A img n1 stk n2 (l1 ++ l2)); done.
Qed.
(** C13: exit and wait together.  When a child exits and its parent waits for
    it, the wait succeeds, the task of the child is out of the task list, the
    slot of the child in the process table is zero, and the blocks of the image,
    of the stack, of the page tables and of the task are free again; the entry
    of every other block of the heap is as it was before the exit.  So memory
    recorded as a region, which a comment in process_map_elf says is released at
    exit, stays allocated, as does the structure of the ELF file.  The table of
    processes is outside of the heap and its table, as the kernel image is. *)
Theorem exit_wait_releases (s : kstate) (l : list Z) (i t dir : Z) (A : gmap Z Z) (img n1 stk n2 status parent pid : Z)
    (HP : procs_placed) (Hp : pids_ok (k_ram s)) (HC : live_child s l i t dir A img n1 stk n2)
    (Hpid : slot_of (k_ram s) pid = Some i) (Hpar : 0 <= parent < MAX_PROCS)
    (Hchild : parent_at (k_ram s) i = pid_at (k_ram s) parent) :
  wp (process_exit (proc_addr i) status;; process_waitpid (proc_addr parent) pid) s (fun r s' =>
    r = STATUS_OK /\ (exists l1 l2, l = l1 ++ t :: l2 /\ task_list s' (l1 ++ l2)) /\ child_gone s s' i t dir img n1 stk n2).
Proof. exact (exit_wait_spec s l i t dir A img n1 stk n2 status parent pid HP Hp HC Hpid Hpar Hchild). Qed.
End life.

(** ** Example: the process of [worker] is a child of process 0 *)

Lemma worker_child : live_child (lay := image) worker [block_addr 1] 1 (block_addr 1) (block_addr 0) worker_allocs 2 1 3 1.
Proof.
  destruct worker_owner as [_ Hown].
  assert (HL : task_list worker [block_addr 1]).
  { pose proof dead_task_list as [Hh Ht Hn H1 H2 Hl]. split; [apply ready_ok | | apply NoDup_singleton | done | done |].
    - intros t ->%list_elem_of_singleton. exists 1. split_and!; [blk; lia | done |]. vm_compute. reflexivity.
    - vm_compute. split_and!; reflexivity. }
  split; try reflexivity; [unfold MAX_PROCS; lia | exact worker_can_exit | exact HL | left | |].
  - intros k ->%Hown. split; [vm_compute; reflexivity|]. intros [=]%list_elem_of_singleton.
  - intros k E%list_elem_of_singleton. apply block_addr_inj in E as ->. unfold in_run. lia.
Qed.

Lemma exit_wait_releases_witness :
  exists s', (process_exit (proc_addr (lay := image) 1) 7;; process_waitpid (lay := image) (proc_addr (lay := image) 0) 1) worker
    = Ret STATUS_OK s' /\ entry_is_free (k_mach s') 2 = true.
Proof.
  assert (Hp : pids_ok (lay := image) (k_ram worker)).
  { intros i Hi. pose proof (all_slots (fun i => let p := pid_at (lay := image) (k_ram worker) i in (p =? 0) || (p =? i))
      ltac:(vm_compute; reflexivity) i Hi) as H. apply orb_prop in H as [H|H]; apply Z.eqb_eq in H; auto. }
  assert (E1 : slot_of (lay := image) (k_ram worker) 1 = Some 1) by (vm_compute; reflexivity).
  assert (E2 : parent_at (lay := image) (k_ram worker) 1 = pid_at (lay := image) (k_ram worker) 0) by (vm_compute; reflexivity).
  destruct (proj1 (wp_run _ _ _) (exit_wait_releases (lay := image) worker _ 1 _ _ _ _ _ _ _ 7 0 1 image_placed Hp worker_child E1
    ltac:(unfold MAX_PROCS; lia) E2)) as (r & s' & E & -> & _ & G).
  exists s'. split; [exact E|]. apply (cg_free _ _ _ _ _ _ _ _ _ G); [blk; lia | left; unfold in_run; lia].
Defined.
