(* ===== verification/Faults.v ===== *)
(** * Faults: the process that causes an exception is ended, another goes on

    The handler of the CPU exceptions saves the registers, ends the process of
    the current task and gives the CPU to the first ready task. *)
From Stdlib Require Import ZArith Lia String.
From stdpp Require Import base numbers gmap list strings.
From S2P Require Import Prelude Config Memory Machine Console Invariants Kheap Paging AddressSpace Blocks Disk Path File Kernel Elf Task TaskList TaskLife Scheduler Process ProcTable Idt Keyboard Syscall Interrupts UserMemory ProcessExit ProcLife.
Local Open Scope Z_scope.

Lemma first_ready_ext m m' l :
  (forall u, u ∈ l -> (state_of m' u =? TASK_READY) = (state_of m u =? TASK_READY)) -> first_ready m' l = first_ready m l.
Proof.
  induction l as [|u l IH]; intros H; [done|]. cbn [first_ready]. rewrite H by left. destruct (_ =? _); [done|].
  apply IH. intros v Hv. apply H. by right.
Qed.

Section faults.
Context {plat : Platform} {fsys : FileSystems} {lay : Layout}.

(** ** What the entry to the handler changes

    It writes the saved registers of the task, and the bytes of [W] outside of
    the heap: the screen for the message of a page fault, or a local variable on
    the kernel stack for a system call.  The structure of the process is apart
    from them. *)

Definition entry_writes (W : Z -> Prop) (t : Z) (m m' : ram) : Prop :=
  forall a, ~ W a -> a < t + 12 \/ t + 60 <= a -> rd8 m' a = rd8 m a.

(** Bytes outside of the heap that are no part of the structure of process [i]. *)
Definition scratch (W : Z -> Prop) (i : Z) : Prop := forall a, W a -> off_heap a /\ ~ slot_bytes i a.

Section entry.
Context (W : Z -> Prop) (s s' : kstate) (l : list Z) (i t dir : Z) (A : gmap Z Z) (img n1 stk n2 : Z).
Context (HC : live_child s l i t dir A img n1 stk n2) (HW : scratch W i) (Hm : entry_writes W t (k_ram s) (k_ram s')).
Context (Hok : heap_ok (k_mach s')) (Hsched : k_sched s' = k_sched s).

Let HE : can_exit s (proc_addr i) t dir A img stk := lc_exit _ _ _ _ _ _ _ _ _ _ HC.
Let HO : vmem_owner (k_mach s) (proc_addr i) t dir := ce_owner _ _ _ _ _ _ _ HE.

Lemma entry_block b a : in_heap b -> in_block b a -> block_addr b <> t -> rd8 (k_ram s') a = rd8 (k_ram s) a.
Proof.
  intros Hb Ha Hne. destruct (vo_block _ _ _ _ HO) as (bt & Hbt & E & _).
  assert (b <> bt) by (intros ->; by apply Hne). apply Hm; [|unfold in_block in *; blk; lia].
  intros Hw. by apply (off_heap_block a b); [apply HW|..].
Qed.

Lemma entry_off a : off_heap a -> ~ W a -> rd8 (k_ram s') a = rd8 (k_ram s) a.
Proof. intros Ha Hw. destruct (vo_block _ _ _ _ HO) as (bt & Hbt & E & _). apply Hm; [done|]. unfold off_heap in Ha. blk. lia. Qed.

Lemma entry_table k : in_heap k -> rd8 (k_ram s') (KHEAP_TABLE_ADDR + k) = rd8 (k_ram s) (KHEAP_TABLE_ADDR + k).
Proof.
  intros Hk. destruct (vo_block _ _ _ _ HO) as (bt & Hbt & E & _). apply Hm; [|blk; lia].
  intros Hw. destruct (HW _ Hw) as [Ho _]. unfold off_heap in Ho. blk. lia.
Qed.

Lemma entry_entry k : in_heap k -> get_entry (k_mach s') k = get_entry (k_mach s) k.
Proof.
  intros Hk. rewrite !heap_entry by (done || apply (tl_heap _ _ (lc_list _ _ _ _ _ _ _ _ _ _ HC)) || blk; lia). by apply entry_table.
Qed.

Lemma entry_slot a : slot_bytes i a -> rd8 (k_ram s') a = rd8 (k_ram s) a.
Proof. intros Ha. apply entry_off; [by apply (vo_placed _ _ _ _ HO)|]. intros Hw. by destruct (HW a Hw). Qed.

Lemma entry_proc off : 0 <= off <= 152 -> rd32 (k_ram s') (proc_addr i + off) = rd32 (k_ram s) (proc_addr i + off).
Proof. intros Ho. apply rd32_ext. intros a Ha. apply entry_slot. unfold slot_bytes. pfields. lia. Qed.

(** Words of the tasks of the list, outside the saved registers. *)
Lemma entry_task u off : u ∈ l -> 0 <= off <= 4092 -> off + 4 <= 12 \/ 60 <= off \/ u <> t ->
  rd32 (k_ram s') (u + off) = rd32 (k_ram s) (u + off).
Proof.
  intros Hu Ho Hd. destruct (tl_task _ _ (lc_list _ _ _ _ _ _ _ _ _ _ HC) u Hu) as (b & Hb & -> & _).
  destruct (vo_block _ _ _ _ HO) as (bt & Hbt & E & _). apply rd32_ext. intros a Ha.
  destruct (decide (block_addr b = t)) as [Eb|Hne]; [|by apply (entry_block b); [done | unfold in_block; lia|]].
  apply Hm; [|blk; lia]. intros Hw. by apply (off_heap_block a b); [apply HW | done | unfold in_block; lia].
Qed.

Lemma entry_state u : u ∈ l -> state_of (k_ram s') u = state_of (k_ram s) u.
Proof.
  intros Hu. destruct (tl_task _ _ (lc_list _ _ _ _ _ _ _ _ _ _ HC) u Hu) as (b & Hb & -> & _).
  destruct (vo_block _ _ _ _ HO) as (bt & Hbt & E & _). unfold state_of.
  destruct (decide (block_addr b = t)) as [Eb|Hne]; [|apply (entry_block b); [done | unfold in_block, t_state; lia | done]].
  apply Hm; [|unfold t_state; blk; lia]. intros Hw. by apply (off_heap_block (block_addr b + t_state) b); [apply HW | done | unfold in_block, t_state; lia].
Qed.

Lemma entry_own b a : owned (k_mach s) dir b -> in_block b a -> rd8 (k_ram s') a = rd8 (k_ram s) a.
Proof.
  intros Ho Ha. destruct (owned_used _ _ _ (vo_wf _ _ _ _ HO) Ho). apply (entry_block b); try done. by apply (vo_apart _ _ _ _ HO).
Qed.

Lemma entry_owned b : owned (k_mach s') dir b <-> owned (k_mach s) dir b.
Proof. apply (keep_owned (k_mach s)); [apply (vo_wf _ _ _ _ HO) | apply entry_own]. Qed.

Lemma entry_owner : vmem_owner (k_mach s') (proc_addr i) t dir.
Proof.
  apply (owner_keep (k_mach s) (k_mach s')); try done.
  - intros b Hb _. unfold used, entry_is_free. by rewrite entry_entry.
  - apply entry_own.
  - pose proof (entry_task t 0 (lc_in _ _ _ _ _ _ _ _ _ _ HC) ltac:(lia) ltac:(lia)) as Ew. by rewrite Z.add_0_r in Ew.
  - apply entry_proc. pfields. lia.
  - intros j Hj. pose proof (placed_vmem _ (vo_placed _ _ _ _ HO)) as HP. pose proof (vo_slots _ _ _ _ HO j Hj) as H. unfold vmem_start, vmem_end in *.
    destruct (vmem_word _ j p_vmem_start HP Hj ltac:(auto)) as [U1 _], (vmem_word _ j p_vmem_end HP Hj ltac:(auto)) as [U2 _]. rewrite U1, U2 in *.
    change (m_ram (k_mach s')) with (k_ram s'). rewrite !(rd32_ext (k_ram s) (k_ram s')); [done|..]; intros a Ha; apply entry_slot; unfold slot_bytes; pfields; lia.
Qed.

Lemma entry_image : image_ptr (k_ram s') (proc_addr i) = image_ptr (k_ram s) (proc_addr i).
Proof.
  unfold image_ptr. rewrite !entry_proc by (pfields; lia). destruct (ce_type _ _ _ _ _ _ _ HE) as [->|[-> (b & Hb & -> & Hne)]]; [done|]. cbn.
  unfold elf_memory, word. rewrite u32_small by (unfold f_elf_memory; blk; lia). apply rd32_ext. intros a Ha.
  apply (entry_block b); try done. unfold in_block, f_elf_memory in *. lia.
Qed.

Lemma entry_child : live_child s' l i t dir A img n1 stk n2.
Proof.
  pose proof HC as [C1 C2 C3 C4 C5 C6 C7 C8 C9]. pose proof HE as [E1 E2 E3 E4 E5 (m1 & M1 & D1) (m2 & M2 & D2) E8].
  split; try done.
  - split; [apply entry_owner | | | by rewrite entry_image | rewrite entry_proc by (pfields; lia); done | | | done].
    + apply (heap_rep_ext (k_mach s)); [done | done | apply entry_table].
    + rewrite !entry_proc by (pfields; lia). done.
    + exists m1. split; [done|]. intros b. rewrite entry_owned. apply D1.
    + exists m2. split; [done|]. intros b. rewrite entry_owned. apply D2.
  - pose proof C5 as [T1 T2 T3 T4 T5 T6]. split; rewrite ?Hsched; try done.
    + intros u Hu. destruct (T2 u Hu) as (b & Hb & -> & Hp). exists b. split_and!; try done. unfold page_entry. by rewrite entry_entry.
    + revert T6. apply links_ext. intros u Hu. split; apply entry_task; try done; tfields; lia.
  - rewrite entry_task by (done || lia). done.
  - intros k Ho. rewrite entry_owned in Ho. destruct (C8 k Ho), (owned_used _ _ _ (vo_wf _ _ _ _ HO) Ho). split; [|done].
    unfold page_entry. by rewrite entry_entry.
Qed.
End entry.

(** ** Exit and the next task *)

(** Memory outside of the heap is as in [m], the structure of process [i]
    apart. *)
Definition statics_as (m : ram) (s' : kstate) (i : Z) : Prop :=
  forall a, off_heap a -> ~ slot_bytes i a -> rd8 (k_ram s') a = rd8 m a.

(** The CPU is in task [u], as that task was in [s]; the process in slot [i]
    and its task [t] are finished. *)
Record moved_on (s s' : kstate) (i t u status : Z) : Prop := {
  mo_curr : curr_task (k_sched s') = u;
  mo_proc : current_proc (k_sched s') = proc_of (k_ram s) u;
  mo_cr3 : cr3_reg (k_vm s') = rd32 (k_ram s) u;
  mo_cpu : k_cpu s' = regs_at (k_ram s) (u + t_registers);
  mo_state : state_of (k_ram s') u = TASK_RUNNING;
  mo_dead : state_of (k_ram s') t = TASK_DEAD;
  mo_zombie : rd8 (k_ram s') (proc_addr i + p_status) = PROC_ZOMBIE /\
    rd32 (k_ram s') (proc_addr i + p_exit_status) = u32 status }.

(** [u] can be made current, and belongs to another process. *)
Definition other_startable (m : ram) (i u : Z) : Prop :=
  startable m u /\ ~ slot_bytes i (u32 (proc_of m u + p_status)).

Section exit_run.
Context (s s1 : kstate) (l : list Z) (i t dir status : Z) (A : gmap Z Z) (img n1 stk n2 : Z).
Context (HC : live_child s l i t dir A img n1 stk n2).
Context (HX : exited s s1 (proc_addr i) t dir status (delete stk (delete img A))).

Let HO : vmem_owner (k_mach s) (proc_addr i) t dir := ce_owner _ _ _ _ _ _ _ (lc_exit _ _ _ _ _ _ _ _ _ _ HC).
Let Hword := exited_task_word s s1 l i t dir status A img n1 stk n2 HC HX.

Lemma exited_first_ready : state_of (k_ram s) t <> TASK_READY -> first_ready (k_ram s1) l = first_ready (k_ram s) l.
Proof.
  intros Hst. apply first_ready_ext. intros u Hu. destruct (decide (u = t)) as [->|Hne].
  - unfold state_of at 1. rewrite (xd_dead _ _ _ _ _ _ _ HX). symmetry. by apply Z.eqb_neq.
  - destruct (tl_task _ _ (lc_list _ _ _ _ _ _ _ _ _ _ HC) u Hu) as (b & Hb & -> & _).
    destruct (vo_block _ _ _ _ HO) as (bt & Hbt & -> & _). assert (Hin : in_block b (block_addr b + t_state)) by (unfold in_block, t_state; lia).
    pose proof (placed_out (proc_addr i) _ b (vo_placed _ _ _ _ HO) Hb Hin). unfold state_of.
    rewrite (xd_keep _ _ _ _ _ _ _ HX); [done | | pfields; lia | pfields; lia].
    split_and!; [ | blk; unfold t_state; lia | pfields; lia | intros E; apply Hne; lia].
    intros c Hc Hc'. destruct (lc_tables _ _ _ _ _ _ _ _ _ _ HC c Hc) as [_ Hn]. apply Hn.
    destruct (owned_used _ _ _ (vo_wf _ _ _ _ HO) Hc). replace c with b by (unfold in_block in *; blk; lia). done.
Qed.

Lemma exited_startable u : u ∈ l -> other_startable (k_ram s) i u -> startable (k_ram s1) u.
Proof.
  intros Hu [[Hq Hst] Hn]. assert (Ep : proc_of (k_ram s1) u = proc_of (k_ram s) u) by (apply Hword; [done | | ]; tfields; lia).
  split; rewrite Ep; [done|]. rewrite <- Hst. unfold slot_bytes in Hn.
  apply (exited_off s s1 l i t dir status A img n1 stk n2 HC HX); [done | lia].
Qed.

Lemma exited_moved_on s' u : u ∈ l -> u <> t -> state_of (k_ram s) u = TASK_READY ->
  switched s1 s' u -> moved_on s s' i t u status /\ statics_as (k_ram s) s' i.
Proof.
  intros Hu Hne Hst [W1 W2 W3 W4 W5 Wi W6 W7 W8]. pose proof (exited_is_task s s1 l i t dir status A img n1 stk n2 HC HX) as Htask.
  assert (Hoff : forall a, off_heap a -> rd8 (k_ram s') a = rd8 (k_ram s1) a).
  { intros a Hq. apply W8. intros v Hv. pose proof (task_pos _ v Hv). unfold off_heap, t_state in *. hp. lia. }
  split.
  2: { intros a Ha Hn. rewrite Hoff by done. unfold slot_bytes in Hn. apply (exited_off s s1 l i t dir status A img n1 stk n2 HC HX); [done | lia]. }
  split; try done.
  - rewrite W2. apply Hword; [done | |]; tfields; lia.
  - rewrite W3. pose proof (Hword u 0 Hu ltac:(lia) ltac:(unfold t_state; lia)) as E. by rewrite Z.add_0_r in E.
  - rewrite W4. unfold regs_at. f_equal; rewrite <- !Z.add_assoc; apply Hword; (done || tfields; lia).
  - rewrite W7; [|apply Htask, (lc_in _ _ _ _ _ _ _ _ _ _ HC) | done].
    unfold state_of. rewrite (xd_dead _ _ _ _ _ _ _ HX), andb_false_r. done.
  - destruct (xd_status _ _ _ _ _ _ _ HX) as [<- <-]. split; [|apply rd32_ext; intros a Ha]; apply Hoff, (vo_placed _ _ _ _ HO); pfields; lia.
Qed.
End exit_run.

Lemma exit_run_any s l i t dir A img n1 stk n2 status :
  live_child s l i t dir A img n1 stk n2 -> curr_task (k_sched s) = t -> state_of (k_ram s) t = TASK_RUNNING ->
  (forall u, first_ready (k_ram s) l = Some u -> other_startable (k_ram s) i u) ->
  match first_ready (k_ram s) l with
  | Some u => ends (process_exit (proc_addr i) status;; task_switch_and_run_any) s (leaves (fun s' => moved_on s s' i t u status /\ statics_as (k_ram s) s' i))
  | None => ends (process_exit (proc_addr i) status;; task_switch_and_run_any) s (panics deadlock_msg)
  end.
Proof.
  intros HC Hcur Hst Hstart. pose proof (process_exit_spec s _ _ _ _ _ _ status (lc_exit _ _ _ _ _ _ _ _ _ _ HC)) as W.
  assert (Hr : forall s1, exited s s1 (proc_addr i) t dir status (delete stk (delete img A)) ->
    match first_ready (k_ram s) l with
    | Some u => ends task_switch_and_run_any s1 (leaves (fun s' => moved_on s s' i t u status /\ statics_as (k_ram s) s' i))
    | None => ends task_switch_and_run_any s1 (panics deadlock_msg)
    end).
  { intros s1 HX. pose proof (exited_task_list s s1 l i t dir status A img n1 stk n2 HC HX) as HL.
    assert (Hc1 : curr_task (k_sched s1) = t) by by rewrite (xd_state _ _ _ _ _ _ _ HX).
    pose proof (run_any_loop_spec s1 l list_fuel 0) as H. rewrite Hc1 in H.
    specialize (H (or_intror (tl_task _ _ HL t (lc_in _ _ _ _ _ _ _ _ _ _ HC))) (tl_task _ _ HL) (tl_links _ _ HL)
      (tasks_bounded _ l (tl_task _ _ HL) (tl_nodup _ _ HL))).
    rewrite (exited_first_ready s s1 l i t dir status A img n1 stk n2 HC HX) in H by (rewrite Hst; done).
    unfold ends at 1 2. rewrite run_any_start, (tl_head _ _ HL).
    destruct (first_ready (k_ram s) l) as [u|] eqn:Ef; [|done]. destruct (first_ready_some _ _ _ Ef) as [Hu Hready].
    eapply leaves_mono; [apply H, (exited_startable s s1 l i t dir status A img n1 stk n2); auto|].
    intros s' Hsw. apply (exited_moved_on s s1 l i t dir status A img n1 stk n2); try done. intros ->. by rewrite Hst in Hready. }
  destruct (first_ready (k_ram s) l) as [u|]; apply ends_bind; wp_apply W; intros r s1 [_ HX]; by apply Hr.
Qed.

(** ** The handler *)

(** What the task that goes on finds was the same before the handler ran. *)
Section entered.
Context (W : Z -> Prop) (s s1 : kstate) (l : list Z) (i t dir : Z) (A : gmap Z Z) (img n1 stk n2 : Z).
Context (HC : live_child s l i t dir A img n1 stk n2) (HW : scratch W i) (Hm : entry_writes W t (k_ram s) (k_ram s1)).

Lemma entry_moved_on s' u status : u ∈ l -> u <> t -> moved_on s1 s' i t u status -> moved_on s s' i t u status.
Proof.
  intros Hu Hne [M1 M2 M3 M4 M5 M6 M7].
  assert (Hw : forall off, 0 <= off <= 4092 -> rd32 (k_ram s1) (u + off) = rd32 (k_ram s) (u + off)).
  { intros off Ho. apply (entry_task W s s1 l i t dir A img n1 stk n2 HC HW Hm u off Hu Ho). auto. }
  split; try done.
  - rewrite M2. apply Hw. tfields. lia.
  - rewrite M3. pose proof (Hw 0 ltac:(lia)) as E. by rewrite Z.add_0_r in E.
  - rewrite M4. unfold regs_at. f_equal; rewrite <- !Z.add_assoc; apply Hw; tfields; lia.
Qed.

Lemma entry_startable u : u ∈ l -> other_startable (k_ram s) i u -> ~ W (u32 (proc_of (k_ram s) u + p_status)) -> other_startable (k_ram s1) i u.
Proof.
  intros Hu [[Hq Hst] Hn] Hnw.
  assert (Ep : proc_of (k_ram s1) u = proc_of (k_ram s) u) by (apply (entry_task W s s1 l i t dir A img n1 stk n2 HC HW Hm); [done | |]; tfields; lia).
  unfold other_startable, startable. rewrite Ep, (entry_off W s s1 l i t dir A img n1 stk n2 HC Hm) by done. done.
Qed.
End entered.

(** The end of process [i], which runs in [s], in a state that satisfies [P]. *)
Definition ended (s : kstate) (P : kstate -> Prop) (l : list Z) (i t status : Z) {A} (o : outcome kstate A) : Prop :=
  match first_ready (k_ram s) l with
  | Some u => leaves (fun s' => moved_on s s' i t u status /\ P s') o
  | None => panics deadlock_msg o
  end.

Lemma ended_bind {A B} (m : M kstate A) (f : A -> M kstate B) s r s1 l i t status :
  ends m s1 (ended s r l i t status) -> ends (m ≫= f) s1 (ended s r l i t status).
Proof. unfold ended. destruct (first_ready _ _); [apply leaves_bind | apply panics_bind]. Qed.

Lemma ended_outcome {A} (m : M kstate A) s r s1 l i t status :
  ends m s1 (ended s r l i t status) ->
  match first_ready (k_ram s) l with
  | Some u => exists s', m s1 = User s' /\ moved_on s s' i t u status /\ r s'
  | None => exists s', m s1 = Panic deadlock_msg s'
  end.
Proof.
  unfold ended. destruct (first_ready (k_ram s) l) as [u|]; [apply ends_leaves|].
  unfold ends, panics. destruct (m s1); try done. intros ->. by eexists.
Qed.

Lemma ended_mono {A} s (P Q : kstate -> Prop) l i t status (o : outcome kstate A) :
  (forall s', P s' -> Q s') -> ended s P l i t status o -> ended s Q l i t status o.
Proof.
  intros HPQ. unfold ended. destruct (first_ready _ _); [|done]. unfold leaves. destruct o; try done. intros [? ?]. auto.
Qed.

(** The first ready task is one of another process, whose status byte is not
    written on the way in. *)
Definition next_ok (W : Z -> Prop) (m : ram) (l : list Z) (i : Z) : Prop :=
  forall u, first_ready m l = Some u -> other_startable m i u /\ ~ W (u32 (proc_of m u + p_status)).

Lemma ended_spec W s s1 l i t dir A img n1 stk n2 status :
  live_child s l i t dir A img n1 stk n2 -> curr_task (k_sched s) = t -> state_of (k_ram s) t = TASK_RUNNING ->
  heap_ok (k_mach s1) -> k_sched s1 = k_sched s -> scratch W i -> entry_writes W t (k_ram s) (k_ram s1) -> next_ok W (k_ram s) l i ->
  ends (process_exit (proc_addr i) status;; task_switch_and_run_any) s1 (ended s (fun s' => statics_as (k_ram s1) s' i) l i t status).
Proof.
  intros HC Hcur Hrun Hok1 Hs1 HW Hall Hstart. pose proof (lc_in _ _ _ _ _ _ _ _ _ _ HC) as Hin.
  pose proof (entry_child W s s1 l i t dir A img n1 stk n2 HC HW Hall Hok1 Hs1) as HC1.
  assert (Hst := fun u Hu => entry_state W s s1 l i t dir A img n1 stk n2 HC HW Hall u Hu).
  assert (Ef : first_ready (k_ram s1) l = first_ready (k_ram s) l) by (apply first_ready_ext; intros u Hu; by rewrite Hst).
  assert (Hc1 : curr_task (k_sched s1) = t) by by rewrite Hs1.
  pose proof (exit_run_any s1 l i t dir A img n1 stk n2 status HC1 Hc1) as H. rewrite Ef, Hst in H by done. specialize (H Hrun).
  unfold ended. destruct (first_ready (k_ram s) l) as [u|] eqn:Efr; [|apply H; by intros u [=]].
  destruct (first_ready_some _ _ _ Efr) as [Hu Hready]. eapply leaves_mono; [apply H|].
  - intros v [= <-]. destruct (Hstart u Efr). by apply (entry_startable W s s1 l i t dir A img n1 stk n2).
  - intros s' [Hmo Hs']. split; [|done]. apply (entry_moved_on W s s1 l i t dir A img n1 stk n2 HC HW Hall); try done. intros ->. by rewrite Hrun in Hready.
Qed.

(** The screen after the message for a page fault, if there is one. *)
Definition fault_screen (n : Z) (x : machine) : machine :=
  if n =? 0xE then println (chars "[OS Warning] page fault.. maybe a bug in code") x else x.

Lemma warn_spec s n :
  heap_ok (k_mach s) ->
  wp (if n =? 0xE then kprintln "[OS Warning] page fault.. maybe a bug in code" else mret tt) s (fun _ s1 =>
    s1 = set_k_mach (fault_screen n (k_mach s)) s).
Proof.
  intros _. unfold fault_screen. destruct (n =? 0xE).
  - unfold kprintln. by apply wp_km, wp_modify.
  - apply wp_ret. by destruct s as [[[]]].
Qed.

(** The message of a fault is written above the kernel image. *)
Lemma fault_frame n x :
  heap_ok x -> (n = 0xE -> curr_y (m_con x) + 1 < IMAGE_LINE) ->
  heap_ok (fault_screen n x) /\
  forall a, a < VIDEO_MEM \/ IMAGE_ADDR <= a -> rd8 (m_ram (fault_screen n x)) a = rd8 (m_ram x) a.
Proof.
  intros [Hh Hc] Hy. unfold fault_screen. destruct (Z.eqb_spec n 0xE) as [E|]; [|done]. specialize (Hy E). unfold IMAGE_LINE, IMAGE_ADDR in *.
  destruct (println_frame (chars "[OS Warning] page fault.. maybe a bug in code") x Hc) as (Hc' & Hh' & _). split; [split; [congruence | done]|].
  intros a Ha. unfold println. rewrite <- print_app. apply print_message; [done | by apply printable_chars | vm_compute; discriminate |].
  pose proof Hc as (_ & _ & Hy0). unfold off_lines, on_line. rewrite u16_small by lia. vga. lia.
Qed.

(** Video memory above the kernel image, when a message is printed there. *)
Definition screen_bytes (n a : Z) : Prop := n = 0xE /\ VIDEO_MEM <= a < IMAGE_ADDR.

Lemma exception_spec s l i t dir A img n1 stk n2 n frame :
  live_child s l i t dir A img n1 stk n2 -> curr_task (k_sched s) = t -> state_of (k_ram s) t = TASK_RUNNING ->
  proc_of (k_ram s) t = proc_addr i -> frame_ok frame ->
  nth (Z.to_nat n) (interrupt_call_backs (k_intr s)) None = Some idt_handle_exception_cb ->
  (n = 0xE -> IMAGE_ADDR <= procs_addr /\ curr_y (m_con (k_mach s)) + 1 < IMAGE_LINE) -> next_ok (screen_bytes n) (k_ram s) l i ->
  ends (interrupt_asm n frame) s (ended s (fun s' => statics_as (m_ram (fault_screen n (k_mach s))) s' i) l i t (- STATUS_PROC_EXCEPTION)).
Proof.
  intros HC Hcur Hrun Hproc Hf Hcb Hscr Hstart. pose proof (lc_list _ _ _ _ _ _ _ _ _ _ HC) as HL. pose proof (lc_in _ _ _ _ _ _ _ _ _ _ HC) as Hin.
  destruct (fault_frame n (k_mach s) (tl_heap _ _ HL) (fun E => proj2 (Hscr E))) as [Hxok Hmx].
  assert (Hmx' : forall a, ~ screen_bytes n a -> rd8 (m_ram (fault_screen n (k_mach s))) a = rd8 (k_ram s) a).
  { intros a Ha. destruct (decide (n = 0xE)) as [E|E]; [apply Hmx; unfold screen_bytes in Ha; lia|].
    unfold fault_screen. by rewrite (proj2 (Z.eqb_neq n 0xE)). }
  assert (HW : scratch (screen_bytes n) i).
  { intros a [E Ha]. destruct (Hscr E) as [Hp _]. unfold off_heap, slot_bytes, proc_addr, IMAGE_ADDR, SIZEOF_PROCESS in *.
    pose proof (lc_slot _ _ _ _ _ _ _ _ _ _ HC). hp. vga. lia. }
  unfold interrupt_asm. apply ended_bind.
  unfold interrupt_handler. apply ends_bind. wp_apply (warn_spec s n (tl_heap _ _ HL)). intros _ s0 ->.
  generalize dependent (fault_screen n (k_mach s)). intros x Hxok _ Hmx.
  apply ends_bind. wp_step. change (interrupt_call_backs (k_intr (set_k_mach x s))) with (interrupt_call_backs (k_intr s)). rewrite Hcb.
  cbn [run_call_back]. unfold idt_handle_exception. apply ends_bind.
  assert (Hit : is_task (k_mach (set_k_mach x s)) t).
  { destruct (tl_task _ _ HL t Hin) as (b & Hb & -> & Hp). exists b. split_and!; try done. unfold page_entry in *. knorm.
    rewrite heap_entry in * by (done || apply (tl_heap _ _ HL) || blk; lia). rewrite Hmx; [done|]. unfold screen_bytes. blk. vga. lia. }
  wp_apply (save_state_spec (set_k_mach x s) t frame); knorm; try done. intros _ s1 (m & -> & _ & Hm). knorm.
  apply ends_bind. unfold task_proc, task_current. wpk. knorm. rewrite Hcur.
  set (s1 := set_k_mach (set_ram m x) s) in *.
  assert (Hall : entry_writes (screen_bytes n) t (k_ram s) (k_ram s1)) by (intros a Ha Hb; change (k_ram s1) with m; rewrite Hm by done; by apply Hmx).
  assert (Ep : rd32 m (u32 (t + t_proc)) = proc_addr i).
  { rewrite (task_u32 _ t t_proc Hit) by (tfields; lia). rewrite <- Hproc.
    apply (entry_task _ s s1 l i t dir A img n1 stk n2 HC HW Hall); [done | |]; tfields; lia. }
  rewrite Ep. pose proof (ended_spec (screen_bytes n) s s1 l i t dir A img n1 stk n2 (- STATUS_PROC_EXCEPTION) HC Hcur Hrun Hxok eq_refl HW Hall Hstart) as H.
  revert H. apply ended_mono. intros s' Hs a Ha Hn. rewrite <- Hm; [by apply Hs|]. pose proof (task_pos _ t Hit). unfold off_heap in Ha. hp. lia.
Qed.

End faults.

(** ** Example: the process of [worker] and a second task, in block 4 *)

Definition busy_ram : ram :=
  wr8 (wr32 (wr8 (wr32 (wr32 (wr32 (wr8 (wr8 worker_ram (KHEAP_TABLE_ADDR + 4) 65) (block_addr 1 + t_state) TASK_RUNNING)
    (block_addr 1 + t_next) (block_addr 4)) (block_addr 1 + t_proc) worker_proc) (block_addr 4 + t_prev) (block_addr 1))
    (block_addr 4 + t_state) TASK_READY) (block_addr 4 + t_proc) 0x110000) (0x110000 + p_status) PROC_CAN_START.
Definition busy : kstate :=
  set_intr (mk_intr (replicate 32 (Some idt_handle_exception_cb)) [] 0 false (0, 0) 0 0)
    (kernel_on (ready busy_ram) (mk_sched (block_addr 1) (block_addr 1) (block_addr 4) worker_proc)).
Definition busy_allocs : gmap Z Z := singles 5.

Lemma busy_out a : a <> KHEAP_TABLE_ADDR + 4 -> a < block_addr 1 + 8 \/ block_addr 1 + 68 <= a ->
  a < block_addr 4 \/ block_addr 4 + 72 <= a -> a <> 0x110000 + 8 -> rd8 busy_ram a = rd8 worker_ram a.
Proof. intros. unfold busy_ram, p_status in *. tfields. by rdw. Qed.

Lemma busy_table k : in_heap k -> k <> 4 -> rd8 busy_ram (KHEAP_TABLE_ADDR + k) = rd8 worker_ram (KHEAP_TABLE_ADDR + k).
Proof. intros Hk Hne. apply busy_out; blk; lia. Qed.

Lemma busy_rep : heap_rep (k_mach busy) busy_allocs.
Proof.
  apply singles_rep; [apply ready_ok | done | vm_compute; reflexivity |]. intros j Hj.
  change (m_ram (k_mach busy)) with busy_ram. rewrite busy_table by (blk; lia). apply worker_free. lia.
Qed.

Lemma busy_owner : vmem_owner (k_mach busy) worker_proc (block_addr 1) (block_addr 0) /\
  forall k, owned (k_mach busy) (block_addr 0) k -> k = 0.
Proof.
  destruct worker_owner as [HO Hown]. assert (Hok : heap_ok (k_mach busy)) by apply ready_ok.
  assert (Hb : forall k a, owned (k_mach worker) (block_addr 0) k -> in_block k a -> rd8 (m_ram (k_mach busy)) a = rd8 (m_ram (k_mach worker)) a).
  { intros k a ->%Hown Ha. unfold in_block in Ha. apply busy_out; blk; lia. }
  destruct (owner_keep (k_mach worker) (k_mach busy) worker_proc (block_addr 1) (block_addr 0) HO Hok) as [HO' _]; try done.
  - intros b Hin _. unfold used, entry_is_free. rewrite !heap_entry by (apply ready_ok || blk; lia).
    destruct (decide (b = 4)) as [->|]; [vm_compute; done|].
    change (m_ram (k_mach busy)) with busy_ram. by rewrite busy_table.
  - intros j Hj. unfold PROCESS_VMEM_MAX_BLOCKS in Hj.
    assert (H : forallb (fun j => vmem_start busy_ram worker_proc j <=? vmem_end busy_ram worker_proc j) (seqZ 0 10) = true) by (vm_compute; reflexivity).
    apply Z.leb_le. exact (forallb_below _ _ j H Hj).
  - split; [done|]. intros k Hk. apply Hown. by apply (keep_owned (k_mach worker) (k_mach busy) _ (vo_wf _ _ _ _ HO) Hb).
Qed.

Lemma busy_child : live_child (lay := image) busy [block_addr 1; block_addr 4] 1 (block_addr 1) (block_addr 0) busy_allocs 2 1 3 1.
Proof.
  destruct busy_owner as [HO Hown].
  assert (HE : can_exit busy worker_proc (block_addr 1) (block_addr 0) busy_allocs 2 3).
  { split; [exact HO | exact busy_rep | | | | | | lia].
    - left. vm_compute. reflexivity.
    - change (image_ptr (k_ram busy) worker_proc) with (block_addr 2). lia.
    - change (rd32 (k_ram busy) (worker_proc + p_stack_paddr)) with (block_addr 3). lia.
    - exists 1. split; [reflexivity|]. intros b [->%Hown|E%block_addr_inj]; lia.
    - exists 1. split; [reflexivity|]. intros b [->%Hown|E%block_addr_inj]; lia. }
  assert (HL : task_list busy [block_addr 1; block_addr 4]).
  { split; [apply ready_ok | | | done | done |].
    - intros t Ht. apply elem_of_cons in Ht as [-> | ->%list_elem_of_singleton];
        [exists 1 | exists 4]; (split_and!; [blk; lia | done |]); vm_compute; reflexivity.
    - apply NoDup_cons. split; [|apply NoDup_singleton]. intros [=]%list_elem_of_singleton.
    - vm_compute. split_and!; reflexivity. }
  split; try reflexivity; [unfold MAX_PROCS; lia | exact HE | exact HL | left | |].
  - intros k ->%Hown. split; [vm_compute; reflexivity|]. intros [E|E%list_elem_of_singleton]%elem_of_cons; discriminate E.
  - intros k [E|E%list_elem_of_singleton]%elem_of_cons; apply block_addr_inj in E as ->; unfold in_run; lia.
Qed.

