(* ===== verification/SyscallExit.v ===== *)
(** * The system call exit

    The way of a process out: from int 0x80 through process_exit to the task
    that runs next. *)
From Stdlib Require Import ZArith Lia String.
From stdpp Require Import base numbers gmap list strings.
From S2P Require Import Prelude Config Memory Machine Console Invariants Kheap Paging AddressSpace Blocks Disk Path File Kernel Elf Task TaskList TaskLife Scheduler Process ProcTable Idt Keyboard Syscall Interrupts UserMemory ProcessExit SyscallEntry ProcLife Faults.
Local Open Scope Z_scope.

Section exit_call.
Context {plat : Platform} {fsys : FileSystems} {lay : Layout}.

(** The local variable of task_get_stack_item, on the kernel stack. *)
Definition item_bytes (a : Z) : Prop := stack_item <= a < stack_item + 4.

Lemma exit_spec s l i t dir A img n1 stk n2 frame status :
  live_child s l i t dir A img n1 stk n2 -> in_call s frame (proc_addr i) t dir ->
  state_of (k_ram s) t = TASK_RUNNING -> rd32 (k_ram s) (frame + i_eax) = 8 ->
  nth 8 (sys_calls (k_intr s)) None = Some syscall_exit_fn ->
  user_stack (k_mach s) t dir (esp (frame_regs (k_ram s) frame)) 1 ->
  user_rd32 (k_mach s) dir (esp (frame_regs (k_ram s) frame)) = status -> next_ok item_bytes (k_ram s) l i ->
  ends (int80h_asm frame) s (ended s (fun s' => forall a, off_heap a -> ~ slot_bytes i a -> ~ item_bytes a ->
    rd8 (k_ram s') a = rd8 (k_ram s) a) l i t (i32 status)).
Proof.
  intros HC HI Hrun Hn Hf Hstk Harg Hstart.
  apply (int80h_spec s frame (proc_addr i) t dir syscall_exit_fn _ HI); [by rewrite Hn | by rewrite Hn |].
  intros s1 HE. apply ended_bind. cbn [run_syscall]. unfold syscall_exit. apply ends_bind.
  wp_apply (entered_arg s s1 frame _ t dir 1 0 HI HE Hstk); [lia|]. intros v s2 (-> & [HI2 (m & Em & Hm) _ (Es & Ev & _)]).
  rewrite Z.add_0_r, Harg.
  apply ends_bind. wpk. apply ends_bind. apply (task_proc_spec _ frame (proc_addr i) t dir _ HI2).
  apply ends_assoc, ended_bind.
  assert (HW : scratch item_bytes i).
  { intros a Ha. destruct (ic_statics _ _ _ _ _ HI) as [_ Hd]. split; [by apply (item_off s frame _ t dir HI a Ha)|].
    unfold slot_bytes, item_bytes, apart in *. lia. }
  assert (Hw : entry_writes item_bytes t (k_ram s) (k_ram s2)).
  { intros a Ha Ht. unfold k_ram at 1. rewrite Em. apply Hm; [done|]. unfold item_bytes in Ha. lia. }
  assert (Hok : heap_ok (k_mach s2)) by apply (wf_heap _ _ (vo_wf _ _ _ _ (ic_owner _ _ _ _ _ HI2))).
  pose proof (ended_spec item_bytes s s2 l i t dir A img n1 stk n2 (i32 status) HC (ic_curr _ _ _ _ _ HI) Hrun Hok Es HW Hw Hstart) as H.
  revert H. apply ended_mono. intros s' Hs a Ha Hsl Hit. rewrite (Hs a Ha Hsl). apply Hw; [done|].
  pose proof (task_pos _ t (ic_task _ _ _ _ _ HI)). unfold off_heap in Ha. hp. lia.
Qed.

End exit_call.

(** ** Example *)

(** The process of [caller] calls exit with status 42, while a second task, in
    block 5, is ready. *)
Definition quitter_ram : ram :=
  let m := wr8 caller_ram (KHEAP_TABLE_ADDR + 5) 65 in
  let m := wr32 (wr8 m (block_addr 1 + t_state) TASK_RUNNING) (block_addr 1 + t_next) (block_addr 5) in
  let m := wr32 (wr8 m (block_addr 5 + t_state) TASK_READY) (block_addr 5 + t_prev) (block_addr 1) in
  let m := wr8 (wr32 m (block_addr 5 + t_proc) 0x110000) (0x110000 + p_status) PROC_CAN_START in
  wr32 (wr32 m (block_addr 3 + 0xF00) 42) (caller_frame + i_eax) 8.
Definition quitter : kstate :=
  set_vm (mk_vm (block_addr 0) true 0) (set_intr (mk_intr [] (Some <$> syscall_table) 0 true (0, 0) 0 0)
    (kernel_on (ready quitter_ram) (mk_sched (block_addr 1) (block_addr 1) (block_addr 5) worker_proc))).
Definition quitter_tasks : list Z := [block_addr 1; block_addr 5].

Lemma quitter_table k : in_heap k -> k <> 5 -> rd8 quitter_ram (KHEAP_TABLE_ADDR + k) = rd8 caller_ram (KHEAP_TABLE_ADDR + k).
Proof. intros. unfold quitter_ram, caller_frame, p_status, i_eax. cbv zeta. tfields. blk. by rdw. Qed.

Lemma quitter_tables a : in_block 0 a \/ in_block 4 a -> rd8 quitter_ram a = rd8 caller_ram a.
Proof. intros Ha. unfold in_block in Ha. unfold quitter_ram, caller_frame, p_status, i_eax. cbv zeta. tfields. blk. by rdw. Qed.

Lemma quitter_owner : vmem_owner (k_mach quitter) worker_proc (block_addr 1) (block_addr 0) /\
  forall k, owned (k_mach quitter) (block_addr 0) k -> k = 0 \/ k = 4.
Proof.
  split; [|exact (like_owned quitter_ram quitter_tables)].
  apply (like_owner quitter_ram quitter_tables); vm_compute; reflexivity.
Qed.

Lemma quitter_can_exit : can_exit quitter worker_proc (block_addr 1) (block_addr 0) (singles 6) 2 3.
Proof.
  destruct quitter_owner as [HO Hown]. split; [exact HO | | | | | | | lia].
  - apply singles_rep; [apply ready_ok | done | vm_compute; reflexivity |]. intros j Hj.
    change (m_ram (k_mach quitter)) with quitter_ram. rewrite quitter_table, caller_out by (unfold worker_proc, SIZEOF_PROCESS, caller_frame; blk; lia).
    apply worker_free. lia.
  - left. vm_compute. reflexivity.
  - change (image_ptr (k_ram quitter) worker_proc) with (block_addr 2). lia.
  - change (rd32 (k_ram quitter) (worker_proc + p_stack_paddr)) with (block_addr 3). lia.
  - exists 1. split; [reflexivity|]. intros b [[-> | ->]%Hown|E%block_addr_inj]; lia.
  - exists 1. split; [reflexivity|]. intros b [[-> | ->]%Hown|E%block_addr_inj]; lia.
Qed.

Lemma quitter_list : task_list quitter quitter_tasks.
Proof.
  split; [apply ready_ok | | | done | done |].
  - intros t Ht. apply elem_of_cons in Ht as [-> | ->%list_elem_of_singleton];
      [exists 1 | exists 5]; (split_and!; [blk; lia | done |]); vm_compute; reflexivity.
  - apply NoDup_cons. split; [|apply NoDup_singleton]. intros [=]%list_elem_of_singleton.
  - vm_compute. split_and!; reflexivity.
Qed.

Lemma quitter_child : live_child (lay := caller_layout) quitter quitter_tasks 1 (block_addr 1) (block_addr 0) (singles 6) 2 1 3 1.
Proof.
  destruct quitter_owner as [HO Hown].
  split; try reflexivity; [unfold MAX_PROCS; lia | exact quitter_can_exit | exact quitter_list | left | |].
  - intros k [-> | ->]%Hown; (split; [vm_compute; reflexivity|]); intros [E|E%list_elem_of_singleton]%elem_of_cons; discriminate E.
  - intros k [E|E%list_elem_of_singleton]%elem_of_cons; apply block_addr_inj in E as ->; unfold in_run; lia.
Qed.

Lemma quitter_in_call : in_call (lay := caller_layout) quitter caller_frame worker_proc (block_addr 1) (block_addr 0).
Proof.
  destruct caller_in_call as [_ _ _ _ _ C6 C7 C8 C9 C10]. split; try done.
  - exists 1. split_and!; [blk; lia | done | vm_compute; reflexivity].
  - apply quitter_owner.
Qed.

Lemma quitter_stack : user_stack (k_mach quitter) (block_addr 1) (block_addr 0) 0xBFFFFF00 1.
Proof. apply (like_stack quitter_ram quitter_tables); [lia | vm_compute; reflexivity]. Qed.

