(* ===== verification/Boot.v ===== *)
(** * kernel.c: start-up

    kernel_main initialises the components in order and starts the first
    process; it leaves the kernel in task_return or stops in a panic. *)
From Stdlib Require Import ZArith Lia String.
From stdpp Require Import base numbers gmap list strings.
From S2P Require Import Prelude Config Memory Machine Console Kheap Paging Disk Path File Fat16 Gdt Kernel Elf Task Process Idt Keyboard Syscall.
Local Open Scope Z_scope.

Section boot.
Context {plat : Platform} {fsys : FileSystems} {lay : Layout}.

Definition tss_init : M kstate unit :=
  km (modify (on_ram (memset tss_addr 0 SIZEOF_TSS)));;
  kst32 (tss_addr + 4) 0x600000;;
  kst32 (tss_addr + 8) KERNEL_DATA_SEGMENT;;
  on_intr (set_task_register 0x28).

Definition kernel_main : M kstate unit :=
  km (modify console_init);;
  km (gdt_init gdt_real_addr tss_addr);;
  tss_init;;
  km kheap_init;;
  kpaging_init;;
  files (fs_init fat16_init);;
  files disk_init;;
  idt_init;;
  procs_init;;
  keyboard_init;;
  register_syscalls;;
  kprintln "Loading first proc..";;
  '(res, proc) ← process_new lit_shell;
  (if negb (res =? STATUS_OK) then
     kprint "Err code: ";;
     km (modify (print_int res));;
     kpanic (String (Ascii.ascii_of_nat 10) "Failed to load shell")
   else mret tt);;
  process_add_arguments proc 3 22 lit_shell_args;;
  kprintln "Loading success! Starting first proc..";;
  task_run_init_task;;
  spin.
End boot.
