(* ===== verification/SelfTests.v ===== *)
(** * The self-tests of the kernel

    kernel.c keeps calls to these functions in comments; they exercise the heap,
    the paths, the disk streams, the files and the page tables, and report on
    the screen.  Literals and the local buffers are parameters: their
    addresses. *)
From Stdlib Require Import ZArith Lia String.
From stdpp Require Import base numbers gmap list strings.
From S2P Require Import Prelude Config Memory Strings Machine Console Kheap Paging Blocks Disk Path File Kernel Idt.
Local Open Scope Z_scope.

(** [if (!ok) { print(msg); return; }] before the rest of a test. *)
Definition expect (ok : bool) (msg : string) (rest : M machine unit) : M machine unit :=
  if ok then rest else modify (print (chars msg)).

(** ** memory/heap/kheap.c *)

Definition kheap_test : M machine unit :=
  ptr ← kmalloc 50;
  ptr2 ← kmalloc 5000;
  ptr3 ← kmalloc 5300;
  kfree ptr2;;
  ptr4 ← kmalloc 15000;
  mret tt.

(** ** fs/utils.c *)

(** The string literals of the test. *)
Record path_literals := mk_path_literals {
  lit_root : Z;    (** ["0:/"] *)
  lit_a : Z;       (** ["0:/a"] *)
  lit_abdc : Z;    (** ["0:/a/bd/c"] *)
  name_a : Z;      (** ["a"] *)
  name_bd : Z;     (** ["bd"] *)
  name_c : Z }.    (** ["c"] *)

(** [memcmp(p, lit, n) == 0] *)
Definition same_bytes (p lit n : Z) : M machine bool := gets (fun s => memcmp p lit n (m_ram s) =? 0).

Definition print_free (msg : list Z) : M machine unit :=
  modify (print msg);;
  modify (fun s => print_int (kheap_num_free_blocks s) s);;
  modify (println []).

Definition test_root (L : path_literals) (rest : M machine unit) : M machine unit :=
  path ← parse_path (lit_root L);
  expect (negb (path =? 0)) "path is NULL" (
    drive_no ← load32 path;
    expect (drive_no =? 0) "drive_no is not 0" (
      root ← load32 (path + 4);
      name ← load32 root;
      c ← gets (fun s => rdc (m_ram s) name);
      expect (c =? 0) "root name is not empty" (
        next ← load32 (root + 4);
        expect (next =? 0) "root next is not NULL" (
          free_path path;; rest)))).

Definition test_one_name (L : path_literals) (rest : M machine unit) : M machine unit :=
  path ← parse_path (lit_a L);
  expect (negb (path =? 0)) "path is NULL" (
    drive_no ← load32 path;
    expect (drive_no =? 0) "drive_no is not 0" (
      root ← load32 (path + 4);
      name ← load32 root;
      same ← same_bytes name (name_a L) 1;
      expect same "root name is not a" (
        next ← load32 (root + 4);
        expect (next =? 0) "root next is not NULL" (
          free_path path;; rest)))).

Definition test_three_names (L : path_literals) (rest : M machine unit) : M machine unit :=
  path ← parse_path (lit_abdc L);
  expect (negb (path =? 0)) "path is NULL" (
    drive_no ← load32 path;
    expect (drive_no =? 0) "drive_no is not 0" (
      root ← load32 (path + 4);
      name ← load32 root;
      same ← same_bytes name (name_a L) 1;
      expect same "root name is not a" (
        second ← load32 (root + 4);
        name ← load32 second;
        same ← same_bytes name (name_bd L) 2;
        expect same "root next name is not bd" (
          third ← load32 (second + 4);
          name ← load32 third;
          same ← same_bytes name (name_c L) 1;
          expect same "root next next name is not c" (
            next ← load32 (third + 4);
            expect (next =? 0) "root next next next is not NULL" (
              free_path path;; rest)))))).

Definition test_parse_path (L : path_literals) : M machine unit :=
  print_free (10 :: chars " at start: ");;
  test_root L (
    test_one_name L (
      test_three_names L (
        print_free (10 :: chars " at end: ");;
        modify (print (chars "test_parse_path passed"))))).

Definition test_fs_utils (L : path_literals) : M machine unit := test_parse_path L.

Section tests.
Context {plat : Platform}.

(** ** disk/streamer.c *)

Definition d_ram (s : dstate) : ram := m_ram (d_mach s).
Definition report (msg : string) : M dstate unit := mach (modify (println (chars msg))).

(** A read of [n] bytes that must agree with [expected] from [off] on. *)
Definition compared (buf expected off n : Z) : M dstate bool :=
  gets (fun s => memcmp buf (expected + off) n (d_ram s) =? 0).
Definition first_char (buf expected off : Z) : M dstate bool :=
  gets (fun s => rdc (d_ram s) buf =? rdc (d_ram s) (expected + off)).

(** [expected] is the local array of 2048 bytes. *)
Definition disk_streamer_test (expected : Z) : M dstate unit :=
  stream ← disk_stream_new 0;
  disk ← mach (load32 stream);
  disk_read_sectors disk 0 4 expected;;
  buf ← mach (kzalloc 2048);
  disk_stream_read stream buf 1;;
  ok ← first_char buf expected 0;
  if negb ok then report "error: invalid stream read at 0" else
  disk_stream_read stream buf 1;;
  ok ← first_char buf expected 1;
  if negb ok then report "error: invalid stream read at 1" else
  disk_stream_read stream buf 10;;
  ok ← compared buf expected 2 10;
  if negb ok then report "error: invalid stream read at 2 of 10" else
  disk_stream_read stream buf 1000;;
  ok ← compared buf expected 12 1000;
  if negb ok then report "error: invalid stream read at 12 of 1000" else
  disk_stream_seek stream 505;;
  disk_stream_read stream buf 1000;;
  ok ← compared buf expected 505 1000;
  if negb ok then report "error: invalid stream read at 505 of 1000" else
  mach (kfree buf);;
  disk_stream_close stream;;
  mach (modify (print (chars "disk stream tests passed"))).

(** ** io/io.c *)

Definition io_test : M dstate unit := port_io_out_byte 0x60 0xff.

(** ** fs/file.c *)

Section files.
Context {fsys : FileSystems}.

Definition fprintln (msg : list Z) : M fstate unit := fmach (modify (println msg)).
Definition fprint_int (x : Z) : M fstate unit := fmach (modify (print_int x));; fprintln [].

(** [println(buf)] on the string at [buf]. *)
Definition fprintln_at (buf n : Z) : M fstate unit := fmach (modify (printn buf n));; fprintln [].

(** A cleared buffer, one read of 6 bytes, and what came out of it. *)
Definition read_six (buf fd : Z) : M fstate unit :=
  fmach (modify (on_ram (memset buf 0 64)));;
  res ← kfread buf 6 1 fd;
  fprintln_at buf 64;;
  fprint_int res.

(** [buf] is the local array of 64 bytes, [stat] the local structure. *)
Definition fs_test (lit_hello lit_mode buf stat : Z) : M fstate unit :=
  fd ← kfopen lit_hello lit_mode;
  if negb (fd =? 0) then
    fprintln (chars "hello.txt opened sucessfully");;
    read_six buf fd;;
    read_six buf fd;;
    kfseek fd 2 FILE_SEEK_SET;;
    read_six buf fd;;
    kfstat fd stat;;
    fprintln (chars "file stats:");;
    size ← gets (fun s => rd32 (ram_of s) (stat + 4));
    fprint_int (i32 size);;
    flags ← gets (fun s => rd32 (ram_of s) stat);
    fprint_int (i32 flags);;
    fprintln (chars "closing file..");;
    res ← kfclose fd;
    fprint_int res
  else fprintln (chars "failed to open hello.txt").

(** ** memory/paging/paging.c and idt/idt.c *)

Section kernel_tests.
Context {lay : Layout}.

(** A word of the kernel at a virtual address. *)
Definition vstore32 (va v : Z) : M kstate unit :=
  w ← gets (fun s => mmu_walk (k_mach s) (cr3_reg (k_vm s)) (u32 va));
  match w with
  | Some (pa, _) => kst32 pa v
  | None => fun s => Panic "page fault" s
  end.

Definition test_paging_set : M kstate unit :=
  ptr_pa ← km (kzalloc 4096);
  pt ← load_pt kpage_table_addr;
  km (paging_map_page pt 0x1000 ptr_pa (Z.lor PAGE_PRESENT PAGE_WRITE_ALLOW));;
  vstore32 0x1000 198913;;
  v ← kld32 ptr_pa;
  if negb (v =? 198913) then km (modify (println (chars "paging map fail..")))
  else
    km (modify (println (chars "paging map pass..")));;
    v ← kld32 ptr_pa;
    km (modify (print_int (i32 v))).

Definition external_interrupts_test : M kstate unit := enable_interrupts.
End kernel_tests.
End files.
End tests.

(** ** The path test passes *)

(** A literal: its characters, in memory that neither the allocator nor the
    console writes. *)
Definition lit_ok (s : machine) (p : Z) (l : list Z) : Prop :=
  cstr (m_ram s) p l /\ forall a, p <= a <= p + Z.of_nat (length l) -> stable s a /\ (a < VIDEO_MEM \/ VIDEO_END <= a).

Record lits_ok (s : machine) (L : path_literals) : Prop := {
  lo_root : lit_ok s (lit_root L) (chars "0:/");
  lo_a : lit_ok s (lit_a L) (chars "0:/a");
  lo_abdc : lit_ok s (lit_abdc L) (chars "0:/a/bd/c");
  lo_na : lit_ok s (name_a L) (chars "a");
  lo_nbd : lit_ok s (name_bd L) (chars "bd");
  lo_nc : lit_ok s (name_c L) (chars "c") }.

(** A step that keeps the allocations keeps the literals. *)
Definition keeps (s s' : machine) : Prop :=
  forall a, stable s a -> a < VIDEO_MEM \/ VIDEO_END <= a -> rd8 (m_ram s') a = rd8 (m_ram s) a.

Lemma lit_keep s s' p l : keeps s s' -> (forall a, stable s a -> stable s' a) -> lit_ok s p l -> lit_ok s' p l.
Proof.
  intros Hk Hst [Hc Ha]. split.
  - revert Hc. apply cstr_ext. intros a Hr. destruct (Ha a Hr). by apply Hk.
  - intros a Hr. destruct (Ha a Hr). auto.
Qed.

Lemma rep_stable s s' A a : heap_rep s A -> heap_rep s' A -> stable s a -> stable s' a.
Proof. intros H H'. apply stable_iff. intros k Hk. symmetry. by apply (rep_entry_free _ _ A). Qed.

Lemma lits_keep s s' A L : heap_rep s A -> heap_rep s' A -> keeps s s' -> lits_ok s L -> lits_ok s' L.
Proof. intros H H' Hk []. split; eapply lit_keep; eauto using rep_stable. Qed.

Lemma print_free_spec s A msg :
  heap_rep s A -> wp (print_free msg) s (fun _ s' => heap_rep s' A /\ keeps s s').
Proof.
  intros HR. unfold print_free. wp_steps. pose proof HR as ((Hh & Hc) & _).
  assert (F : con_frame s (println [] (print_int (kheap_num_free_blocks (print msg s)) (print msg s)))).
  { pose proof (print_frame msg s Hc) as F1. eapply con_frame_trans; [exact F1|].
    pose proof (print_int_frame (kheap_num_free_blocks (print msg s)) _ (proj1 F1)) as F2. eapply con_frame_trans; [exact F2|].
    apply println_frame, F2. }
  destruct F as (F1 & F2 & F3). split; [|intros a _; apply F3].
  apply (heap_rep_ext s); [done | split; [congruence | done] |]. intros k Hk. apply F3. blk. vga. lia.
Qed.

(** Two strings with the same characters compare equal. *)
Lemma cstr_same m p q l n : cstr m p l -> cstr m q l -> 0 <= n <= Z.of_nat (length l) -> memcmp p q n m = 0.
Proof.
  intros (P1 & P2 & P3 & _) (Q1 & Q2 & Q3 & _) Hn. apply memcmp_zero; try lia. intros k Hk.
  destruct (P3 (Z.to_nat k) ltac:(lia)) as [E1 _], (Q3 (Z.to_nat k) ltac:(lia)) as [E2 _]. rewrite E1 in E2. injection E2 as E2.
  rewrite !Z2Nat.id in E2 by lia. unfold rdc in E2. pose proof (rd8_range m (p + k)). pose proof (rd8_range m (q + k)).
  unfold i8 in E2. zlia.
Qed.

Section path_test.
Context (s : machine) (A : gmap Z Z) (L : path_literals).
Context (HR : heap_rep s A) (HL : lits_ok s L) (Hn : 5 <= kheap_num_free_blocks s).

(** What one of the three tests may leave behind. *)
Definition path_clean (s' : machine) : Prop := heap_rep s' A /\ keeps s s'.

(** A path of the test is parsed as it should be. *)
Lemma parse_literal p rest :
  lit_ok s p (48 :: 58 :: 47 :: rest) -> (length rest <= 6)%nat -> (length (split_path rest) <= 3)%nat ->
  wp (parse_path p) s (fun r s1 => exists c b bs, r = block_addr b /\ path_at (m_ram s1) 0 (split_path rest) c b bs /\
    all_new (c :: b :: bs) A /\ heap_rep s1 (add_blocks (c :: b :: bs) A) /\ keeps s s1 /\
    forall q l, lit_ok s q l -> cstr (m_ram s1) q l).
Proof.
  intros [Hc Ha] H1 H2. pose proof (parse_path_spec s A p 48 rest HR Hc eq_refl) as W. rewrite take_ge in W by lia.
  wp_apply W; [|lia|].
  - intros a Hr. apply Ha. cbn [length]. lia.
  - intros r s1 (c & b & bs & -> & Hp & Hnew & [HR1 _ _ Hk]). exists c, b, bs. split_and!; try done; [by intros a ? _; apply Hk|].
    intros q l [Hq Hqa]. revert Hq. apply cstr_ext. intros a Hr. by apply Hk, Hqa.
Qed.

Lemma block_nonzero b : in_heap b -> negb (block_addr b =? 0) = true.
Proof. intros Hb. rewrite (proj2 (Z.eqb_neq _ 0)); [done | blk; lia]. Qed.

Lemma free_literal s1 names c b bs (K : M machine unit) Q :
  path_at (m_ram s1) 0 names c b bs -> all_new (c :: b :: bs) A -> heap_rep s1 (add_blocks (c :: b :: bs) A) -> keeps s s1 ->
  (length names <= 108)%nat -> (forall s2, path_clean s2 -> wp K s2 Q) -> wp (free_path (block_addr b);; K) s1 Q.
Proof.
  intros Hp Hnew HR1 Hk Hlen HK. wp_step. wp_apply (free_path_spec s1 A 0 names c b bs Hp Hnew HR1 Hlen).
  intros _ s2 (HR2 & Hk2). apply HK. split; [done|]. intros a Ha Hv. rewrite Hk2 by apply Ha. by apply Hk.
Qed.

Lemma root_passes (K : M machine unit) Q : (forall s', path_clean s' -> wp K s' Q) -> wp (test_root L K) s Q.
Proof.
  intros HK. unfold test_root. wp_step. wp_apply (parse_literal _ [] (lo_root _ _ HL)); [cbn; lia | cbn; lia |].
  intros r s1 (c & b & bs & -> & Hp & Hnew & HR1 & Hk & _). pose proof Hp as (Hc & Hb & Hd & _ & Hparts). destruct bs as [|r [|r2 bs]]; cbn in Hparts.
  1: done. 2: by destruct Hparts as (_ & _ & _ & []).
  destruct Hparts as (Er & Hr & Hname & Hnext). rewrite block_nonzero by done. cbn [expect]. wpm. rewrite Hd. cbn [expect Z.eqb]. wpm.
  assert (Hch := Hname). destruct Hch as (_ & _ & _ & Hz). cbn [length Z.of_nat] in Hz. rewrite Z.add_0_r in Hz. rewrite Hz. cbn [expect Z.eqb]. wpm. rewrite Hnext. cbn [expect Z.eqb].
  eapply (free_literal s1 _ c b [r]); try done. cbn. lia.
Qed.

Lemma one_name_passes (K : M machine unit) Q : (forall s', path_clean s' -> wp K s' Q) -> wp (test_one_name L K) s Q.
Proof.
  intros HK. unfold test_one_name. wp_step. wp_apply (parse_literal _ [97] (lo_a _ _ HL)); [cbn; lia | cbn; lia |].
  intros r s1 (c & b & bs & -> & Hp & Hnew & HR1 & Hk & Hl). pose proof Hp as (Hc & Hb & Hd & _ & Hparts). destruct bs as [|r [|r2 bs]]; cbn in Hparts.
  1: done. 2: by destruct Hparts as (_ & _ & _ & []).
  destruct Hparts as (Er & Hr & Hname & Hnext). rewrite block_nonzero by done. cbn [expect]. wpm. rewrite Hd. cbn [expect Z.eqb]. wpm.
  unfold same_bytes. wpm. rewrite (cstr_same _ _ _ [97] 1 Hname (Hl _ _ (lo_na _ _ HL))) by (cbn; lia). cbn [expect Z.eqb]. wpm. rewrite Hnext. cbn [expect Z.eqb].
  eapply (free_literal s1 _ c b [r]); try done. cbn. lia.
Qed.

Lemma three_names_pass (K : M machine unit) Q : (forall s', path_clean s' -> wp K s' Q) -> wp (test_three_names L K) s Q.
Proof.
  intros HK. unfold test_three_names. wp_step. wp_apply (parse_literal _ [97; 47; 98; 100; 47; 99] (lo_abdc _ _ HL)); [cbn; lia | cbn; lia |].
  intros r s1 (c & b & bs & -> & Hp & Hnew & HR1 & Hk & Hl). pose proof Hp as (Hc & Hb & Hd & _ & Hparts).
  destruct bs as [|r1 [|r2 [|r3 [|r4 bs]]]]; cbn in Hparts; try (exfalso; naive_solver).
  destruct Hparts as (E1 & Hr1 & N1 & E2 & Hr2 & N2 & E3 & Hr3 & N3 & Hnext). rewrite block_nonzero by done. cbn [expect]. wpm. rewrite Hd. cbn [expect Z.eqb]. wpm.
  unfold same_bytes. wpm. rewrite (cstr_same _ _ _ [97] 1 N1 (Hl _ _ (lo_na _ _ HL))) by (cbn; lia). cbn [expect Z.eqb]. wpm.
  rewrite (cstr_same _ _ _ [98; 100] 2 N2 (Hl _ _ (lo_nbd _ _ HL))) by (cbn; lia). cbn [expect Z.eqb]. wpm.
  rewrite (cstr_same _ _ _ [99] 1 N3 (Hl _ _ (lo_nc _ _ HL))) by (cbn; lia). cbn [expect Z.eqb]. wpm. rewrite Hnext. cbn [expect Z.eqb].
  eapply (free_literal s1 _ c b [r1; r2; r3]); try done. cbn. lia.
Qed.
End path_test.

(** The test of the paths reports success, and leaves the allocations of the
    heap as they were. *)
Lemma parse_path_test_passes s A L :
  heap_rep s A -> lits_ok s L -> 5 <= kheap_num_free_blocks s ->
  wp (test_fs_utils L) s (fun _ s' => exists s1, s' = print (chars "test_parse_path passed") s1 /\ heap_rep s1 A).
Proof.
  intros HR HL Hn. unfold test_fs_utils, test_parse_path. wp_step.
  assert (Hnext : forall x y, heap_rep x A -> lits_ok x L -> 5 <= kheap_num_free_blocks x -> heap_rep y A -> keeps x y ->
    lits_ok y L /\ 5 <= kheap_num_free_blocks y).
  { intros x y Hx Lx Nx Hy Hk. split; [by apply (lits_keep x y A) | by rewrite (rep_num_free x y A)]. }
  wp_apply (print_free_spec s A (10 :: chars " at start: ") HR). intros _ s1 [R1 K1]. destruct (Hnext s s1) as [L1 N1]; try done.
  apply (root_passes s1 A L R1 L1 N1). intros s2 [R2 K2]. destruct (Hnext s1 s2) as [L2 N2]; try done.
  apply (one_name_passes s2 A L R2 L2 N2). intros s3 [R3 K3]. destruct (Hnext s2 s3) as [L3 N3]; try done.
  apply (three_names_pass s3 A L R3 L3 N3). intros s4 [R4 K4]. wp_step.
  wp_apply (print_free_spec s4 A (10 :: chars " at end: ") R4). intros _ s5 [R5 _]. wp_steps. by exists s5.
Qed.


(** ** The stream test passes *)

Section stream_test.
Context {plat : Platform} (ex : Z).

(** In the middle of the test: the stream at [sp] is at [off], and [ex] holds
    the first four sectors of the disk. *)
Record testing (s : dstate) (sp buf off : Z) : Prop := {
  tg_heap : heap_ok (d_mach s);
  tg_sector : sector_size (d_disk s) = 512;
  tg_stream : stream_at (d_mach s) sp off;
  tg_free : exists k, in_heap k /\ entry_is_free (d_mach s) k = true;
  tg_range : 0 <= buf /\ buf + 2048 < 4294967296 /\ 0 <= ex /\ ex + 2048 < 4294967296;
  tg_apart : (buf + 2048 <= sp \/ sp + 8 <= buf) /\ (ex + 2048 <= sp \/ sp + 8 <= ex) /\ (ex + 2048 <= buf \/ buf + 2048 <= ex);
  tg_buf : stable_range (d_mach s) buf 2048;
  tg_ex : stable_range (d_mach s) ex 2048;
  tg_bytes : forall k, 0 <= k < 2048 -> rd8 (d_ram s) (ex + k) = u8 (disk_image k) }.

Lemma testing_read s sp buf off n :
  testing s sp buf off -> 0 <= off -> 0 < n -> off + n <= 2048 ->
  wp (disk_stream_read sp buf n) s (fun _ s' => testing s' sp buf (off + n) /\
    forall k, 0 <= k < n -> rd8 (d_ram s') (buf + k) = rd8 (d_ram s') (ex + off + k)).
Proof.
  intros [Hh Hss Hst Hfree Hr Hap Hbuf Hex Hby] Ho Hn Hle.
  wp_apply (stream_read_spec s sp buf off n Hh Hss Hst Hn); try lia.
  { intros a Ha. apply Hbuf. lia. } { done. }
  intros _ s' (_ & Hd & [Hh' _ Hsame _] & Hst' & Hin & Hout).
  assert (Hby' : forall k, 0 <= k < 2048 -> rd8 (d_ram s') (ex + k) = u8 (disk_image k)).
  { intros k Hk. unfold d_ram. rewrite Hout; [by apply Hby | apply Hex; lia | lia | lia]. }
  assert (Hstab : forall a, stable (d_mach s) a -> stable (d_mach s') a) by (intros a; by apply stable_iff).
  split; [split|]; try done.
  - by rewrite Hd.
  - destruct Hfree as (k & Hk & Hf). exists k. by rewrite Hsame.
  - intros a Ha. by apply Hstab, Hbuf.
  - intros a Ha. by apply Hstab, Hex.
  - intros k Hk. unfold d_ram in *. rewrite Hin, <- Z.add_assoc, Hby' by lia. do 2 f_equal. lia.
Qed.

Lemma testing_seek s sp buf off pos :
  testing s sp buf off -> is_u32 pos ->
  wp (disk_stream_seek sp pos) s (fun _ s' => testing s' sp buf pos).
Proof.
  intros [Hh Hss (S1 & S2 & S3 & S4 & S5) Hfree Hr Hap Hbuf Hex Hby] Hp. unfold disk_stream_seek. wpd.
  set (m := wr32 (m_ram (d_mach s)) (sp + 4) pos). change (on_ram _ (d_mach s)) with (set_ram m (d_mach s)).
  assert (Hout : forall a, a < sp + 4 \/ sp + 4 + 4 <= a -> rd8 m a = rd8 (m_ram (d_mach s)) a) by (intros a Ha; apply rd8_wr32; lia).
  assert (Ht : same_table (d_mach s) m).
  { apply (stable_write (d_mach s) m (sp + 4) 4); [|done]. intros a Ha. apply S5. lia. }
  assert (Hf := fun k Hk => same_table_free (d_mach s) m k Hh Ht Hk).
  assert (Hstab : forall a, stable (d_mach s) a -> stable (set_ram m (d_mach s)) a) by (intros a; by apply stable_iff).
  split; cbn [set_mach d_mach d_disk]; try done.
  - split_and!; try done; cbn [set_ram m_ram].
    + rewrite <- S1. apply rd32_ext. intros a Ha. apply Hout. lia.
    + unfold m. rewrite rd32_wr32. by apply u32_small.
    + intros a Ha. by apply Hstab, S5.
  - destruct Hfree as (k & Hk & Hk'). exists k. by rewrite Hf.
  - intros a Ha. by apply Hstab, Hbuf.
  - intros a Ha. by apply Hstab, Hex.
  - intros k Hk. unfold d_ram. cbn [set_mach d_mach set_ram m_ram]. rewrite Hout by lia. by apply Hby.
Qed.

Lemma compared_true s buf off n :
  0 <= buf -> buf + n <= 4294967296 -> 0 <= ex + off -> ex + off + n <= 4294967296 -> 0 <= n ->
  (forall k, 0 <= k < n -> rd8 (d_ram s) (buf + k) = rd8 (d_ram s) (ex + off + k)) ->
  (memcmp buf (ex + off) n (d_ram s) =? 0) = true.
Proof. intros. apply Z.eqb_eq. by apply memcmp_zero. Qed.

Lemma first_true s buf off :
  (forall k, 0 <= k < 1 -> rd8 (d_ram s) (buf + k) = rd8 (d_ram s) (ex + off + k)) ->
  (rdc (d_ram s) buf =? rdc (d_ram s) (ex + off)) = true.
Proof. intros H. specialize (H 0 ltac:(lia)). rewrite !Z.add_0_r in H. unfold rdc. rewrite H. apply Z.eqb_refl. Qed.

(** The buffers are ready: a stream in block [i], the first sectors in [ex], and
    the buffer in block [j]. *)
Lemma setup_testing (s0 s : dstate) A i j m :
  heap_rep (d_mach s0) A -> in_heap i -> in_heap j -> i <> j ->
  entry_is_free (d_mach s0) i = false -> entry_is_free (d_mach s0) j = true ->
  rd32 (m_ram (d_mach s0)) (block_addr i) = disk_addr -> rd32 (m_ram (d_mach s0)) (block_addr i + 4) = 0 ->
  sector_size (d_disk s0) = 512 -> 0 <= ex -> ex + 2048 < 4294967296 -> stable_range (d_mach s0) ex 2048 ->
  (ex + 2048 <= block_addr i \/ block_addr i + 8 <= ex) ->
  (forall k, 0 <= k < 2048 -> rd8 (m_ram (d_mach s0)) (ex + k) = u8 (disk_image k)) ->
  d_mach s = set_ram m (d_mach s0) -> d_disk s = d_disk s0 -> page_taken (d_mach s0) j 2048 m ->
  0 < kheap_num_free_blocks (set_ram m (d_mach s0)) -> heap_rep (set_ram m (d_mach s0)) (<[j := 1]> A) ->
  testing s (block_addr i) (block_addr j) 0.
Proof.
  intros HR Hi Hj Hij Ui Fj Ed Eo Hss Hx1 Hx2 Hex Hxi Hby Em Edk Hm Hn HR'. pose proof HR as (Hh & _).
  assert (Hkeep := fun a => page_taken_stable _ j 2048 m a Hj Fj ltac:(lia) Hm).
  pose proof (stable_apart _ j ex 2048 ltac:(lia) Hj Fj Hex) as Hxj.
  assert (Hf : forall k, in_heap k -> entry_is_free (set_ram m (d_mach s0)) k = true -> entry_is_free (d_mach s0) k = true /\ k <> j).
  { intros k Hk Hfr. assert (k <> j) as Hne.
    { intros ->. apply (rep_free _ _ j HR' Hj) in Hfr. apply Hfr. exists j, 1. rewrite lookup_insert_eq. split; [done | lia]. }
    split; [|done]. apply (rep_free _ A k HR Hk). intros (u & n & Hu & Hr). apply (rep_free _ _ k HR' Hk) in Hfr. apply Hfr. exists u, n.
    destruct (decide (u = j)) as [->|]; [|by rewrite lookup_insert_ne].
    exfalso. apply (rep_free _ A j HR Hj) in Fj. apply Fj. destruct (proj1 (proj2 HR) j n Hu) as (? & ? & _). exists j, n. split; [done | lia]. }
  assert (Hstab : forall a, stable (d_mach s0) a -> stable (set_ram m (d_mach s0)) a).
  { intros a. apply stable_mono. intros k Hk Hfr. by apply Hf. }
  assert (Hstr : stable_range (d_mach s0) (block_addr i) 8).
  { intros a Ha. apply (used_stable _ i); [done | done | unfold in_block; lia]. }
  split; rewrite ?Em, ?Edk; cbn [set_ram m_ram]; try done.
  - split_and!; cbn [set_ram m_ram]; [| |blk; lia | blk; lia | intros a Ha; by apply Hstab, Hstr].
    + rewrite <- Ed. apply rd32_ext. intros a Ha. apply Hkeep, Hstr. lia.
    + rewrite <- Eo. apply rd32_ext. intros a Ha. apply Hkeep, Hstr. lia.
  - apply num_free_pos; [done | exact Hn].
  - clear - Hj Hx1 Hx2. blk. lia.
  - assert (block_addr i + 4096 <= block_addr j \/ block_addr j + 4096 <= block_addr i) by (clear - Hij; blk; lia). lia.
  - intros a Ha. split; [clear - Ha Hj; blk; lia|]. intros b Hb Hfr Hin. destruct (Hf b Hb Hfr) as [_ Hne].
    clear - Ha Hb Hj Hne Hin. unfold in_block in Hin. blk. lia.
  - intros a Ha. by apply Hstab, Hex.
  - intros k Hk. unfold d_ram. rewrite Em. cbn [set_ram m_ram]. rewrite Hkeep by (apply Hex; lia). by apply Hby.
Qed.

(** Writes outside the entry table keep the allocations. *)
Lemma rep_write x A m p n : heap_rep x A -> stable_range x p n ->
  (forall a, a < p \/ p + n <= a -> rd8 m a = rd8 (m_ram x) a) ->
  heap_rep (set_ram m x) A /\ (forall a, stable (set_ram m x) a <-> stable x a) /\ same_table x m.
Proof.
  intros HR Hst Hm. assert (Ht : same_table x m) by by apply (stable_write x m p n). pose proof HR as (Hh & _).
  split_and!; [by apply heap_rep_ram | | done]. intros a. apply stable_iff. intros k Hk. by apply same_table_free.
Qed.

Lemma stream_new_spec s A :
  heap_rep (d_mach s) A -> 0 < kheap_num_free_blocks (d_mach s) -> disk_addr <> 0 -> is_u32 disk_addr ->
  wp (disk_stream_new 0) s (fun p s' => exists i, p = block_addr i /\ in_heap i /\ entry_is_free (d_mach s) i = true /\
    heap_rep (d_mach s') (<[i := 1]> A) /\ d_disk s' = d_disk s /\
    kheap_num_free_blocks (d_mach s') = kheap_num_free_blocks (d_mach s) - 1 /\
    rd32 (m_ram (d_mach s')) (block_addr i) = disk_addr /\ rd32 (m_ram (d_mach s')) (block_addr i + 4) = 0 /\
    (forall k, in_heap k -> k <> i -> entry_is_free (d_mach s') k = entry_is_free (d_mach s) k)).
Proof.
  intros HR Hn Hd0 Hdu. unfold disk_stream_new, get_disk. change (negb (0 =? 0)) with false. cbn iota. wpd.
  rewrite (proj2 (Z.eqb_neq disk_addr 0)) by done. wpd.
  wp_apply (kzalloc_obj (d_mach s) A SIZEOF_DISK_STREAM HR ltac:(unfold SIZEOF_DISK_STREAM; lia) Hn).
  intros p x (i & m & -> & Hi & Hf & -> & Hm & HAi & HR1 & Hcnt). wpd. cbn [set_mach d_mach]. exists i.
  set (m' := wr32 (wr32 m (block_addr i) disk_addr) (block_addr i + 4) 0).
  change (on_ram _ (on_ram _ (set_ram m (d_mach s)))) with (set_ram m' (set_ram m (d_mach s))).
  assert (Hi' : entry_is_free (set_ram m (d_mach s)) i = false).
  { apply not_true_iff_false. intros Hfr. apply (rep_free _ _ i HR1 Hi) in Hfr. apply Hfr. exists i, 1. rewrite lookup_insert_eq. split; [done | lia]. }
  destruct (rep_write _ _ m' (block_addr i) 8 HR1) as (HR2 & Hst & Ht).
  { intros a Ha. apply (used_stable _ i); [done | done | unfold in_block; lia]. }
  { intros a Ha. unfold m'. rewrite !rd8_wr32 by lia. done. }
  assert (Hfr : forall k, in_heap k -> entry_is_free (set_ram m' (set_ram m (d_mach s))) k = entry_is_free (set_ram m (d_mach s)) k).
  { intros k Hk. apply same_table_free; [apply HR1 | done | done]. }
  split_and!; try done; cbn [set_ram m_ram].
  - rewrite <- Hcnt. apply num_free_ext; [apply HR1 | apply HR2 | done].
  - unfold m'. rewrite rd32_wr32_ne, rd32_wr32 by lia. by apply u32_small.
  - unfold m'. by rewrite rd32_wr32.
  - intros k Hk Hne. rewrite Hfr by done. pose proof HR as (Hh & _). apply entry_is_free_ext; [done | apply HR1 | blk; lia |].
    cbn [set_ram m_ram]. rewrite Hm. unfold SIZEOF_DISK_STREAM. clear - Hk Hne Hi. blk. by repeat case_test; try lia.
Qed.

Lemma first_sectors_spec s A i :
  heap_rep (d_mach s) A -> stable_range (d_mach s) ex 2048 -> 0 <= ex -> ex + 2048 < 4294967296 ->
  (ex + 2048 <= block_addr i \/ block_addr i + 8 <= ex) ->
  wp (disk_read_sectors disk_addr 0 4 ex) s (fun _ s' => heap_rep (d_mach s') A /\ d_disk s' = d_disk s /\
    stable_range (d_mach s') ex 2048 /\
    (forall k, in_heap k -> entry_is_free (d_mach s') k = entry_is_free (d_mach s) k) /\
    (forall a, block_addr i <= a < block_addr i + 8 -> rd8 (m_ram (d_mach s')) a = rd8 (m_ram (d_mach s)) a) /\
    forall k, 0 <= k < 2048 -> rd8 (m_ram (d_mach s')) (ex + k) = u8 (disk_image k)).
Proof.
  intros HR Hst H1 H2 H3. wp_apply (disk_read_sectors_spec s 0 4 ex); try lia. change (512 * 4) with 2048. change (512 * 0) with 0.
  intros _ s' (_ & Hd & m & Em & Hm). rewrite Em. cbn [set_ram m_ram].
  destruct (rep_write (d_mach s) A m ex 2048 HR Hst) as (HR' & Hs & Ht).
  { intros a Ha. rewrite Hm. by repeat case_test; try lia. }
  split_and!; try done.
  - intros a Ha. by apply Hs, Hst.
  - intros k Hk. apply same_table_free; [apply HR | done | done].
  - intros a Ha. rewrite Hm. by repeat case_test; try lia.
  - intros k Hk. rewrite Hm. repeat case_test; try lia. cbn [andb]. do 2 f_equal. lia.
Qed.

(** The preparation of the test. *)
Lemma start_testing s A (K : Z -> Z -> M dstate unit) Q :
  heap_rep (d_mach s) A -> 3 <= kheap_num_free_blocks (d_mach s) -> sector_size (d_disk s) = 512 ->
  disk_addr <> 0 -> is_u32 disk_addr -> 0 <= ex -> ex + 2048 < 4294967296 -> stable_range (d_mach s) ex 2048 ->
  (forall sp buf s', testing s' sp buf 0 -> wp (K sp buf) s' Q) ->
  wp (stream ← disk_stream_new 0; disk ← mach (load32 stream); disk_read_sectors disk 0 4 ex;;
      buf ← mach (kzalloc 2048); K stream buf) s Q.
Proof.
  intros HR Hn Hss Hd0 Hdu Hx1 Hx2 Hex HK. wp_step.
  wp_apply (stream_new_spec s A HR ltac:(lia) Hd0 Hdu). intros p s1 (i & -> & Hi & Fi & R1 & D1 & N1 & E1 & E2 & F1).
  wpd. rewrite E1. replace (set_mach (d_mach s1) s1) with s1 by by destruct s1.
  pose proof (stable_apart _ i ex 2048 ltac:(lia) Hi Fi Hex) as Hxi.
  assert (Hu : entry_is_free (d_mach s1) i = false).
  { apply not_true_iff_false. intros Hfr. apply (rep_free _ _ i R1 Hi) in Hfr. apply Hfr. exists i, 1. rewrite lookup_insert_eq. split; [done | lia]. }
  wp_apply (first_sectors_spec s1 _ i R1); try lia.
  { intros a Ha. apply (stable_mono (d_mach s)); [|by apply Hex]. intros k Hk Hfr. rewrite <- F1; [done | done |]. congruence. }
  intros _ s2 (R2 & D2 & X2 & F2 & K2 & B2). wpd.
  assert (Hn2 : kheap_num_free_blocks (d_mach s2) = kheap_num_free_blocks (d_mach s1)) by (by apply (rep_num_free _ _ _ R1 R2)).
  wp_apply (kzalloc_obj (d_mach s2) _ 2048 R2 ltac:(lia) ltac:(lia)).
  intros p x (j & m & -> & Hj & Fj & -> & Hm & HAj & R3 & N3).
  apply HK. apply (setup_testing s2 _ (<[i := 1]> A) i j m); try done; try lia; try congruence.
  - intros ->. rewrite F2 in Fj by done. congruence.
  - by rewrite F2.
  - rewrite <- E1. apply rd32_ext. intros a Ha. apply K2. lia.
  - rewrite <- E2. apply rd32_ext. intros a Ha. apply K2. lia.
Qed.

(** C37: the self-test of the disk streams passes.  On a machine with any
    contents of the disk and any latency of the controller, with three free
    blocks and a local buffer outside the memory of the allocator, every read
    of disk_streamer_test delivers the bytes that the driver reads for the same
    sectors, across sector boundaries and after a seek, and the test reports
    success. *)
Theorem disk_streamer_test_passes (s : dstate) (A : gmap Z Z) (HR : heap_rep (d_mach s) A)
    (Hn : 3 <= kheap_num_free_blocks (d_mach s)) (Hss : sector_size (d_disk s) = 512)
    (Hd0 : disk_addr <> 0) (Hdu : is_u32 disk_addr) (Hlo : 0 <= ex) (Hhi : ex + 2048 < 4294967296)
    (Hex : stable_range (d_mach s) ex 2048) :
  wp (disk_streamer_test ex) s (fun _ s' =>
    exists s1, s' = set_mach (print (chars "disk stream tests passed") (d_mach s1)) s1).
Proof.
  unfold disk_streamer_test. eapply start_testing; try done. intros sp buf s0 T0. pose proof (tg_range _ _ _ _ T0).
  wp_step. wp_apply (testing_read s0 sp buf 0 1 T0); try lia. intros _ s1 [T1 E1].
  unfold first_char, compared. wp_steps. rewrite (first_true _ _ _ E1). cbn [negb].
  wp_step. wp_apply (testing_read s1 sp buf 1 1 T1); try lia. intros _ s2 [T2 E2].
  wp_steps. rewrite (first_true _ _ _ E2). cbn [negb].
  wp_step. wp_apply (testing_read s2 sp buf 2 10 T2); try lia. intros _ s3 [T3 E3].
  wp_steps. rewrite (compared_true _ _ 2 10) by (done || lia). cbn [negb].
  wp_step. wp_apply (testing_read s3 sp buf 12 1000 T3); try lia. intros _ s4 [T4 E4].
  wp_steps. rewrite (compared_true _ _ 12 1000) by (done || lia). cbn [negb].
  wp_step. wp_apply (testing_seek s4 sp buf (12 + 1000) 505 T4); [unfold is_u32; lia|]. intros _ s5 T5.
  wp_step. wp_apply (testing_read s5 sp buf 505 1000 T5); try lia. intros _ s6 [T6 E6].
  wp_steps. rewrite (compared_true _ _ 505 1000) by (done || lia). cbn [negb].
  wpd. destruct (kfree_frame buf (d_mach s6) (tg_heap _ _ _ _ T6)) as (m1 & E & _). eapply wp_of_run; [exact E|].
  unfold disk_stream_close. wpd. cbn [set_mach d_mach].
  destruct (kfree_frame sp (set_ram m1 (d_mach s6)) (tg_heap _ _ _ _ T6)) as (m2 & E' & _). eapply wp_of_run; [exact E'|].
  wpd. by eexists (set_mach (set_ram m2 (d_mach s6)) s6).
Qed.

End stream_test.

Lemma disk_streamer_test_passes_witness :
  exists s' s1, disk_streamer_test (plat := test_platform) (block_addr 0) test_state = Ret tt s' /\
    s' = set_mach (print (chars "disk stream tests passed") (d_mach s1)) s1.
Proof.
  assert (HR : heap_rep (d_mach test_state) (<[0 := 1]> ∅)) by (apply block0_rep, test_only).
  assert (Hn : 3 <= kheap_num_free_blocks (d_mach test_state)) by (change (d_mach test_state) with (ready test_ram); rewrite (block0_budget _ test_only); lia).
  assert (Hex : stable_range (d_mach test_state) (block_addr 0) 2048) by (apply block0_stable; [apply test_only | lia | blk; lia]).
  destruct (proj1 (wp_run _ _ _) (disk_streamer_test_passes (plat := test_platform) (block_addr 0) test_state _ HR Hn eq_refl
    ltac:(cbn; lia) ltac:(unfold is_u32; cbn; lia) ltac:(blk; lia) ltac:(blk; lia) Hex)) as ([] & s' & E & s1 & Es).
  exists s', s1. split; [exact E | exact Es].
Defined.
