(* ===== verification/Ustring.v ===== *)
(** * programs/stdlib: the string routines

    stdlib.c repeats the string routines of the kernel's string.c, so they are
    the definitions of [Strings] and its lemmas speak of both; only strcpy and
    strncpy differ, in that they return the destination. *)
From Stdlib Require Import ZArith.
From stdpp Require Import base option.
From S2P Require Import Prelude Strings.
Local Open Scope Z_scope.

Definition strlen := Strings.strlen.
Definition strnlen := Strings.strnlen.
Definition strcpy (fuel : nat) (dst src : Z) (m : ram) : option (Z * ram) :=
  (fun m => (dst, m)) <$> Strings.strcpy fuel dst src m.
Definition strncpy (dst src maxlen : Z) (m : ram) : Z * ram := (dst, Strings.strncpy dst src maxlen m).
Definition strncmp := Strings.strncmp.
Definition strnlen_terminator := Strings.strnlen_terminator.
Definition to_lower := Strings.to_lower.
Definition istrncmp := Strings.istrncmp.
Definition is_digit := Strings.is_digit.
