(* ===== verification/UserLib.v ===== *)
(** * programs/stdlib: the library of the user programs

    A user program runs in the virtual memory of its process and reaches the
    kernel through the stubs of os.asm.  Its state is that memory, the globals
    of stdlib.c ([heap_end], [heap_curr], [sp]) and the rest of the system
    behind the system calls, of which the library knows only the interface
    [OS].  The string routines are those of [Ustring]; loops that only a
    terminator or a key stops take their fuel from the caller. *)
From Stdlib Require Import ZArith Lia String.
From stdpp Require Import base numbers gmap list strings.
From S2P Require Import Prelude Ustring Strings Machine Console.
Local Open Scope Z_scope.

(** ** The stubs of os.asm

    A call may read the memory of the process; mmap and munmap may change it.
    The allocator needs only these two. *)
Class MemoryOS (E : Type) := {
  sys_mmap : Z -> Z -> Z -> ram -> E -> Z * ram * E;
  sys_munmap : Z -> ram -> E -> Z * ram * E }.

Class OS (E : Type) := {
  os_memory :: MemoryOS E;
  sys_print : ram -> Z -> Z -> E -> E;
  sys_get_key : E -> Z * E;
  sys_put_char : Z -> E -> E;
  sys_cls : E -> E;
  sys_create_proccess : ram -> Z -> Z -> Z -> Z -> E -> Z * E;
  sys_waitpid : Z -> E -> Z * E }.

Record ustate (E : Type) := mk_user { u_mem : ram; heap_end : Z; heap_curr : Z; sp : Z; u_env : E }.
Arguments mk_user {E} _ _ _ _ _.
Arguments u_mem {E} _.
Arguments heap_end {E} _.
Arguments heap_curr {E} _.
Arguments sp {E} _.
Arguments u_env {E} _.

Definition HEAP_TOP : Z := 0xc0000000.
Definition HEAP_INFO_MAGIC : Z := 198913.
Definition MAX_DIGITS : Z := 13.
Definition UO_READ : Z := 1.
Definition UO_WRITE : Z := 2.

(** [sizeof(struct malloc_info)] and the offset of its second field. *)
Definition SIZEOF_MALLOC_INFO : Z := 8.
Definition info_magic : Z := 4.

Definition up_align (va : Z) : Z := if va mod 4096 =? 0 then va else u32 (va + 4096 - va mod 4096).
Definition down_align (va : Z) : Z := u32 (va - va mod 4096).

Section state.
Context {E : Type}.

Definition set_mem (m : ram) (u : ustate E) : ustate E := mk_user m (heap_end u) (heap_curr u) (sp u) (u_env u).
Definition set_env (e : E) (u : ustate E) : ustate E := mk_user (u_mem u) (heap_end u) (heap_curr u) (sp u) e.
Definition set_heap_end (v : Z) (u : ustate E) : ustate E := mk_user (u_mem u) v (heap_curr u) (sp u) (u_env u).
Definition set_heap_curr (v : Z) (u : ustate E) : ustate E := mk_user (u_mem u) (heap_end u) v (sp u) (u_env u).
Definition set_sp (v : Z) (u : ustate E) : ustate E := mk_user (u_mem u) (heap_end u) (heap_curr u) v (u_env u).

Definition on_mem (f : ram -> ram) : M (ustate E) unit := modify (fun u => set_mem (f (u_mem u)) u).
Definition call {A} (f : E -> A * E) : M (ustate E) A := fun u => let '(a, e) := f (u_env u) in Ret a (set_env e u).
End state.

Section heap.
Context {E : Type} {mem : MemoryOS E}.

Definition mmap (va_start va_end flags : Z) : M (ustate E) Z := fun u =>
  let '(r, m, e) := sys_mmap va_start va_end flags (u_mem u) (u_env u) in
  Ret (i32 r) (set_env e (set_mem m u)).
Definition munmap (va_start : Z) : M (ustate E) Z := fun u =>
  let '(r, m, e) := sys_munmap va_start (u_mem u) (u_env u) in
  Ret (i32 r) (set_env e (set_mem m u)).

(** ** The heap *)

Definition malloc (size : Z) : M (ustate E) Z :=
  let alloc_size := u32 (size + SIZEOF_MALLOC_INFO) in
  u ← get;
  res ← (if u32 (heap_curr u - alloc_size) <? heap_end u then
           let new_end := down_align (u32 (heap_end u - alloc_size)) in
           res ← mmap new_end (heap_end u) (Z.lor UO_READ UO_WRITE);
           if negb (res =? 0) then mret false else modify (set_heap_end new_end);; mret true
         else mret true);
  if (res : bool) then
    modify (fun u => set_heap_curr (u32 (heap_curr u - alloc_size)) u);;
    info ← gets heap_curr;
    on_mem (fun m => wr32 m info size);;
    on_mem (fun m => wr32 m (u32 (info + info_magic)) HEAP_INFO_MAGIC);;
    mret (u32 (info + SIZEOF_MALLOC_INFO))
  else mret 0.

(** Nothing is released: both branches return. *)
Definition free (ptr : Z) : M (ustate E) unit :=
  m ← gets u_mem;
  if negb (i32 (rd32 m (u32 (u32 (ptr - SIZEOF_MALLOC_INFO) + info_magic))) =? HEAP_INFO_MAGIC)
  then mret tt else mret tt.
End heap.

Section calls.
Context {E : Type} {os : OS E}.

(** The system calls on the state of the program. *)
Definition print (str len : Z) : M (ustate E) unit :=
  modify (fun u => set_env (sys_print (u_mem u) str len (u_env u)) u).
Definition get_key : M (ustate E) Z := call sys_get_key.
Definition put_char (c : Z) : M (ustate E) unit := modify (fun u => set_env (sys_put_char c (u_env u)) u).
Definition cls : M (ustate E) unit := modify (fun u => set_env (sys_cls (u_env u)) u).
Definition create_proccess (file_path argc len args : Z) : M (ustate E) Z := fun u =>
  call (sys_create_proccess (u_mem u) file_path argc len args) u.
Definition waitpid (pid : Z) : M (ustate E) Z := call (sys_waitpid pid).
End calls.

(** ** Numbers *)

(** [buffer[idx++] = c] for the characters [l]. *)
Fixpoint put_chars (l : list Z) (buffer idx : Z) (m : ram) : Z * ram :=
  match l with
  | [] => (idx, m)
  | c :: l => put_chars l buffer (idx + 1) (wr8 m (u32 (buffer + idx)) c)
  end.

(** The array [buf] is filled from the last digit and copied backwards; ten
    rounds count the digits of every [int]. *)
Definition itoa (value buffer : Z) (m : ram) : ram :=
  let '(idx, m) := if value <? 0 then put_chars [45] buffer 0 m else (0, m) in
  let value := if value <? 0 then i32 (- value) else value in
  let num_digits := count_digits 10 value 0 in
  if num_digits =? 0 then
    let '(idx, m) := put_chars [48] buffer idx m in
    wr8 m (u32 (buffer + idx)) 0
  else
    let buf := fill_digits (Z.to_nat num_digits) value in
    let '(idx, m) := put_chars (rev buf) buffer idx m in
    wr8 m (u32 (buffer + idx)) 0.

Fixpoint atoi_loop (fuel : nat) (m : ram) (buffer idx res : Z) : Z :=
  match fuel with
  | O => res
  | S fuel =>
    if negb (rdc m (u32 (buffer + idx)) =? 0) && (idx <? MAX_DIGITS) then
      let res := i32 (res * 10) in
      let res := i32 (res + (rdc m (u32 (buffer + idx)) - 48)) in
      atoi_loop fuel m buffer (idx + 1) res
    else res
  end.

Definition atoi (buffer : Z) (m : ram) : Z :=
  let '(sign, buffer) := if rdc m buffer =? 45 then (-1, u32 (buffer + 1)) else (1, buffer) in
  i32 (atoi_loop (Z.to_nat MAX_DIGITS) m buffer 0 0 * sign).

(** ** Strings *)

Fixpoint str_to_lower_loop (fuel : nat) (str i : Z) (m : ram) : option ram :=
  match fuel with
  | O => None
  | S fuel =>
    if negb (rdc m (u32 (str + i)) =? 0)
    then str_to_lower_loop fuel str (i + 1) (wr8 m (u32 (str + i)) (to_lower (rdc m (u32 (str + i)))))
    else Some m
  end.
Definition str_to_lower (fuel : nat) (str : Z) (m : ram) : option ram := str_to_lower_loop fuel str 0 m.

(** The inner [for] loops of strtok: the index at which [c] is found among the
    [n] delimiters left from [i] on, or the number of delimiters. *)
Fixpoint delim_index (n : nat) (m : ram) (c delimiters i : Z) : Z :=
  match n with
  | O => i
  | S n => if c =? rdc m (u32 (delimiters + i)) then i else delim_index n m c delimiters (i + 1)
  end.

Fixpoint strtok_skip (fuel : nat) (m : ram) (delimiters len p_start : Z) : option Z :=
  match fuel with
  | O => None
  | S fuel =>
    let i := delim_index (Z.to_nat len) m (rdc m p_start) delimiters 0 in
    if i =? len then Some p_start
    else strtok_skip fuel m delimiters len (u32 (p_start + 1))
  end.

Fixpoint strtok_end (fuel : nat) (delimiters len sp : Z) (m : ram) : option (Z * ram) :=
  match fuel with
  | O => None
  | S fuel =>
    if negb (rdc m sp =? 0) then
      let i := delim_index (Z.to_nat len) m (rdc m sp) delimiters 0 in
      if i <? len then Some (u32 (sp + 1), wr8 m sp 0)
      else strtok_end fuel delimiters len (u32 (sp + 1)) m
    else Some (sp, m)
  end.

(** The result, the new value of the global [sp] and the memory. *)
Definition strtok_run (fuel : nat) (str delimiters sp : Z) (m : ram) : option (Z * Z * ram) :=
  match strlen fuel m delimiters with
  | None => None
  | Some len =>
    if (str =? 0) && (sp =? 0) then Some (0, sp, m)
    else
      let sp := if negb (str =? 0) && (sp =? 0) then str else sp in
      match strtok_skip fuel m delimiters len sp with
      | None => None
      | Some p_start =>
        let sp := p_start in
        if rdc m sp =? 0 then Some (0, 0, m)
        else match strtok_end fuel delimiters len sp m with
             | None => None
             | Some (sp, m) => Some (p_start, sp, m)
             end
      end
  end.

Fixpoint ptr_digits (fuel : nat) (val : Z) : list Z :=
  match fuel with
  | O => []
  | S fuel =>
    if val =? 0 then []
    else let c := val mod 16 + 48 in
         (if 57 <? c then c + 7 else c) :: ptr_digits fuel (val / 16)
  end.

(** Eight rounds take every 32-bit value to 0. *)
Definition ptr_to_str (ptr out : Z) (m : ram) : ram :=
  let buf := ptr_digits 8 ptr in
  let buf := match buf with [] => [48] | _ => buf end in
  let '(j, m) := put_chars [48; 120] out 0 m in
  let '(j, m) := put_chars (rev buf) out j m in
  wr8 m (u32 (out + j)) 0.

(** ** Input and output *)

Section stdio.
Context {E : Type} {os : OS E}.

(** A routine on memory that runs out of fuel is still looping. *)
Definition lift_opt {A} (f : ram -> option (A * ram)) : M (ustate E) A := fun u =>
  match f (u_mem u) with Some (a, m) => Ret a (set_mem m u) | None => Spin end.

Definition ustrlen (fuel : nat) (str : Z) : M (ustate E) Z :=
  lift_opt (fun m => (fun n => (n, m)) <$> Ustring.strlen fuel m str).

Definition strtok (fuel : nat) (str delimiters : Z) : M (ustate E) Z := fun u =>
  match strtok_run fuel str delimiters (sp u) (u_mem u) with
  | Some (r, sp', m) => Ret r (set_sp sp' (set_mem m u))
  | None => Spin
  end.

(** [args]: the words above [fmt] on the stack, which va_arg takes in order;
    [buf]: the array of the frame of printf. *)
Fixpoint printf_loop (fuel : nat) (fmt buf idx : Z) (args : nat -> Z) (next : nat) : M (ustate E) Z :=
  match fuel with
  | O => spin
  | S fuel =>
    let bufsz := MAX_DIGITS + 12 in
    m ← gets u_mem;
    let c := rdc m (u32 (fmt + idx)) in
    if c =? 0 then mret 0
    else if c =? 37 then
      let idx := idx + 1 in
      let c := rdc m (u32 (fmt + idx)) in
      if c =? 100 then
        on_mem (itoa (i32 (args next)) buf);;
        print buf bufsz;;
        printf_loop fuel fmt buf (idx + 1) args (S next)
      else if c =? 115 then
        let str := args next in
        n ← ustrlen fuel str;
        print str (n + 1);;
        printf_loop fuel fmt buf (idx + 1) args (S next)
      else if c =? 99 then
        put_char (i8 (args next));;
        printf_loop fuel fmt buf (idx + 1) args (S next)
      else if c =? 112 then
        on_mem (ptr_to_str (args next) buf);;
        print buf bufsz;;
        printf_loop fuel fmt buf (idx + 1) args (S next)
      else printf_loop fuel fmt buf (idx + 1) args next
    else
      put_char c;;
      printf_loop fuel fmt buf (idx + 1) args next
  end.

Definition printf (fuel : nat) (fmt buf : Z) (args : nat -> Z) : M (ustate E) Z :=
  printf_loop fuel fmt buf 0 args 0.

Fixpoint get_key_blocking (fuel : nat) : M (ustate E) Z :=
  match fuel with
  | O => spin
  | S fuel =>
    c ← get_key;
    let c := i8 c in
    if negb (c =? 0) then mret c else get_key_blocking fuel
  end.

Fixpoint readline_loop (fuel : nat) (buf max_len idx : Z) : M (ustate E) unit :=
  match fuel with
  | O => spin
  | S fuel =>
    if idx <? max_len then
      key ← get_key_blocking fuel;
      if key =? 13 then
        put_char 10;;
        on_mem (fun m => wr8 m (u32 (buf + idx)) 0)
      else if key =? 8 then
        if 0 <? idx then
          let idx := idx - 1 in
          on_mem (fun m => wr8 m (u32 (buf + idx)) 0);;
          put_char key;;
          readline_loop fuel buf max_len idx
        else readline_loop fuel buf max_len idx
      else
        put_char key;;
        on_mem (fun m => wr8 m (u32 (buf + idx)) key);;
        readline_loop fuel buf max_len (idx + 1)
    else mret tt
  end.

Definition readline_terminal (fuel : nat) (buf max_len : Z) : M (ustate E) unit :=
  readline_loop fuel buf max_len 0.
End stdio.
