(* ===== verification/UserHeap.v ===== *)
(** * The heap of a user program

    malloc hands out a contiguous chain of blocks that grows down from
    [HEAP_TOP]; the pages under it come from mmap.  What the library relies on
    of the kernel is the class [OSLaws]; the invariant holds in every state
    that a program reaches by allocating, releasing, storing into its own
    blocks or outside of the heap, while the rest of the system does whatever
    leaves its memory mapped. *)
From Stdlib Require Import ZArith Lia.
From stdpp Require Import base numbers gmap list relations.
From S2P Require Import Prelude UserLib.
Local Open Scope Z_scope.

(** The promises of the kernel while it is in order ([os_ok]).  [frame e va] is
    the byte of physical memory that the process reads and writes at [va], if
    there is one; no two addresses share it.  A call of mmap for writable memory
    that answers 0 gives every address of the region such a byte and leaves
    everything outside of the region as it is, provided that the kernel's own
    allocations for it stay inside its heap ([in_bounds]). *)
Class OSLaws (E : Type) {mem : MemoryOS E} := {
  os_ok : E -> Prop;
  frame : E -> Z -> option Z;
  in_bounds : E -> Z -> Z -> Prop;
  frame_inj e va1 va2 pa : os_ok e -> frame e va1 = Some pa -> frame e va2 = Some pa -> va1 = va2;
  mmap_ok a b m e r m' e' :
    os_ok e -> in_bounds e a b -> sys_mmap a b (Z.lor UO_READ UO_WRITE) m e = (r, m', e') -> i32 r = 0 ->
    a mod 4096 = 0 -> b mod 4096 = 0 -> 0 <= a < b -> b <= HEAP_TOP ->
    os_ok e' /\ (forall va, a <= va < b -> is_Some (frame e' va)) /\
    forall va, ~ (a <= va < b) -> rd8 m' va = rd8 m va /\ forall pa, frame e va = Some pa -> frame e' va = Some pa }.

Section heap.
Context {E : Type} {mem : MemoryOS E} {laws : OSLaws E}.

(** The blocks, youngest first, from [lo] up to the top of the heap: every
    block follows its header, which holds its size and the magic number. *)
Fixpoint chain (m : ram) (lo : Z) (bs : list (Z * Z)) : Prop :=
  match bs with
  | [] => lo = HEAP_TOP
  | (p, size) :: bs =>
    p = lo + 8 /\ 0 <= size /\ rd32 m lo = size /\ rd32 m (lo + 4) = HEAP_INFO_MAGIC /\ chain m (p + size) bs
  end.

Record uheap_ok (bs : list (Z * Z)) (u : ustate E) : Prop := {
  uh_aligned : heap_end u mod 4096 = 0;
  uh_order : 0 <= heap_end u <= heap_curr u;
  uh_env : os_ok (u_env u);
  uh_mapped : forall va, heap_end u <= va < HEAP_TOP -> is_Some (frame (u_env u) va);
  uh_chain : chain (u_mem u) (heap_curr u) bs }.

Lemma chain_top m bs : forall lo, chain m lo bs -> lo <= HEAP_TOP.
Proof.
  induction bs as [|[p size] bs IH]; intros lo; cbn; [intros ->; lia|].
  intros (-> & ? & _ & _ & H%IH). lia.
Qed.

(** The chain does not see stores below it, nor above its top, nor into the
    part of one of its blocks that the caller of malloc was given. *)
Lemma chain_ext m m' bs : forall lo,
  chain m lo bs ->
  (forall a, lo <= a < HEAP_TOP -> (forall p size, (p, size) ∈ bs -> ~ (p <= a < p + size)) -> rd8 m' a = rd8 m a) ->
  chain m' lo bs.
Proof.
  induction bs as [|[p size] bs IH]; intros lo; cbn; [done|].
  intros (-> & Hs & H1 & H2 & Hc) Hm. pose proof (chain_top _ _ _ Hc) as Ht.
  assert (Hhdr : forall a, lo <= a < lo + 8 -> rd8 m' a = rd8 m a).
  { intros a Ha. apply Hm; [lia|]. intros q sz [[= -> ->]|Hq]%elem_of_cons; [lia|].
    clear -Hc Hq Ha Hs. remember (lo + 8 + size) as l eqn:El. assert (a < l) as Hl by lia. clear El Ha Hs.
    revert l Hl Hc. induction bs as [|[p' s'] bs IH]; intros l Hl; cbn; [by apply elem_of_nil in Hq|].
    intros (-> & ? & _ & _ & Hc). apply elem_of_cons in Hq as [[= -> ->]|Hq]; [lia|].
    apply (IH Hq (l + 8 + s')); [lia | done]. }
  split_and!; [done | done | | |].
  - rewrite <- H1. apply rd32_ext. intros a Ha. apply Hhdr. lia.
  - rewrite <- H2. apply rd32_ext. intros a Ha. apply Hhdr. lia.
  - apply (IH _ Hc). intros a Ha Hno. apply Hm; [lia|].
    intros q sz [[= -> ->]|Hq]%elem_of_cons; [lia | by apply Hno].
Qed.

Lemma chain_in m bs lo p size :
  chain m lo bs -> (p, size) ∈ bs ->
  lo + 8 <= p /\ 0 <= size /\ p + size <= HEAP_TOP /\ rd32 m (p - 8) = size /\ rd32 m (p - 4) = HEAP_INFO_MAGIC.
Proof.
  revert lo. induction bs as [|[q sz] bs IH]; intros lo; cbn; [by intros _ ?%elem_of_nil|].
  intros (-> & ? & H1 & H2 & Hc) [[= -> ->]|Hq]%elem_of_cons.
  - pose proof (chain_top _ _ _ Hc). replace (lo + 8 - 8) with lo by lia.
    replace (lo + 8 - 4) with (lo + 4) by lia. auto with lia.
  - destruct (IH _ Hc Hq) as (? & ?). split; [lia | done].
Qed.

(** Blocks, with their headers, follow one another without a gap. *)
Lemma chain_order m bs : forall lo i j p1 s1 p2 s2,
  chain m lo bs -> bs !! i = Some (p1, s1) -> bs !! j = Some (p2, s2) -> (i < j)%nat -> p1 + s1 + 8 <= p2.
Proof.
  induction bs as [|[q sz] bs IH]; intros lo [|i] [|j] p1 s1 p2 s2 Hc H1 H2 Hij; try (by inversion H1) || lia;
    cbn in H1, H2; destruct Hc as (-> & ? & _ & _ & Hc).
  - injection H1 as <- <-. apply list_elem_of_lookup_2 in H2. destruct (chain_in _ _ _ _ _ Hc H2). lia.
  - apply (IH _ i j p1 s1 p2 s2 Hc H1 H2). lia.
Qed.

Lemma down_align_range x : 0 <= x < 4294967296 -> down_align x mod 4096 = 0 /\ x - 4096 < down_align x <= x /\ 0 <= down_align x.
Proof. intros. unfold down_align. rewrite u32_small by zlia. zlia. Qed.

(** The end of malloc, once the pages below the chain are there. *)
Definition place (size : Z) : M (ustate E) Z :=
  modify (fun u => set_heap_curr (u32 (heap_curr u - (size + 8))) u);;
  info ← gets heap_curr;
  on_mem (fun m => wr32 m info size);;
  on_mem (fun m => wr32 m (u32 (info + info_magic)) HEAP_INFO_MAGIC);;
  mret (u32 (info + SIZEOF_MALLOC_INFO)).

(** The bytes of the chain are those of [u]. *)
Definition chain_kept (u u' : ustate E) : Prop :=
  forall a, heap_curr u <= a < HEAP_TOP -> rd8 (u_mem u') a = rd8 (u_mem u) a.

Lemma place_spec bs u size :
  uheap_ok bs u -> 0 <= size -> heap_end u <= heap_curr u - (size + 8) ->
  wp (place size) u (fun p u' => p <> 0 /\ p = heap_curr u - size /\ uheap_ok ((p, size) :: bs) u' /\ chain_kept u u').
Proof.
  intros [Ha Ho He Hm Hc] Hs Hfit. pose proof (chain_top _ _ _ Hc) as Ht. unfold HEAP_TOP in Ht.
  unfold place, on_mem, info_magic, SIZEOF_MALLOC_INFO. wp_steps. cbn [heap_curr set_heap_curr set_mem u_mem].
  rewrite !(u32_small (heap_curr u - (size + 8))), (u32_small (_ + 4)), (u32_small (_ + 8)) by lia.
  replace (heap_curr u - (size + 8) + 8) with (heap_curr u - size) by lia.
  assert (Hout : chain_kept u (set_mem (wr32 (wr32 (u_mem u) (heap_curr u - (size + 8)) size)
      (heap_curr u - (size + 8) + 4) HEAP_INFO_MAGIC) u)) by (intros a H; cbn; by rewrite !rd8_wr32 by lia).
  split_and!; [lia | done | | exact Hout].
  split; cbn [heap_end heap_curr u_env u_mem set_mem set_heap_curr]; [done | lia | done | done |].
  split_and!; [lia | done | | |].
  - rewrite rd32_wr32_ne, rd32_wr32 by lia. apply u32_small. lia.
  - by rewrite rd32_wr32.
  - replace (heap_curr u - size + size) with (heap_curr u) by lia. apply (chain_ext (u_mem u)); [done|].
    intros a H _. by apply Hout.
Qed.

(** A successful mmap below the heap extends it. *)
Lemma mmap_below bs u new r m' e' :
  uheap_ok bs u -> new mod 4096 = 0 -> 0 <= new < heap_end u -> in_bounds (u_env u) new (heap_end u) ->
  sys_mmap new (heap_end u) (Z.lor UO_READ UO_WRITE) (u_mem u) (u_env u) = (r, m', e') -> i32 r = 0 ->
  chain_kept u (set_env e' (set_mem m' u)) /\ uheap_ok bs (set_heap_end new (set_env e' (set_mem m' u))).
Proof.
  intros [Ha Ho He Hm Hc] Hn Hlt Hin0 Em Er. pose proof (chain_top _ _ _ Hc) as Ht.
  destruct (mmap_ok _ _ _ _ _ _ _ He Hin0 Em Er Hn Ha ltac:(lia) ltac:(lia)) as (He' & Hin & Hout).
  assert (Hk : chain_kept u (set_env e' (set_mem m' u))) by (intros a H; apply Hout; lia).
  split; [done|]. split; cbn; [done | lia | done | | by apply (chain_ext (u_mem u)); [|intros a H _; apply Hk]].
  intros va Hva. destruct (decide (va < heap_end u)); [apply Hin; lia|].
  destruct (Hm va ltac:(lia)) as [pa Hpa]. exists pa. by apply Hout; [lia|].
Qed.

(** A call of malloc that grows the heap stays within the heap of the kernel. *)
Definition grows_inside (u : ustate E) (size : Z) : Prop :=
  heap_curr u - (size + 8) < heap_end u -> in_bounds (u_env u) (down_align (heap_end u - (size + 8))) (heap_end u).

(** malloc on a well-formed heap: it grows the heap if it must, and then puts
    the new block under the others; it fails only if mmap does. *)
Lemma malloc_spec bs u size :
  uheap_ok bs u -> 0 <= size -> size + 8 <= heap_end u -> grows_inside u size ->
  wp (malloc size) u (fun p u' =>
    (p <> 0 /\ p = heap_curr u - size /\ uheap_ok ((p, size) :: bs) u' /\ chain_kept u u') \/
    (p = 0 /\ exists r m' e', sys_mmap (down_align (heap_end u - (size + 8))) (heap_end u) (Z.lor UO_READ UO_WRITE)
       (u_mem u) (u_env u) = (r, m', e') /\ i32 r <> 0 /\ u' = set_env e' (set_mem m' u))).
Proof.
  intros H Hs Hfit Hgr. pose proof (chain_top _ _ _ (uh_chain _ _ H)) as Ht. pose proof (uh_order _ _ H) as Ho. unfold HEAP_TOP in Ht.
  unfold malloc, SIZEOF_MALLOC_INFO. cbv zeta. rewrite (u32_small (size + 8)) by lia.
  wp_step. apply wp_get. apply wp_bind. rewrite (u32_small (heap_curr u - _)), (u32_small (heap_end u - _)) by lia.
  destruct (Z.ltb_spec (heap_curr u - (size + 8)) (heap_end u)) as [Hlt|Hge].
  2: { wp_step. eapply wp_mono; [by apply (place_spec bs)|]. tauto. }
  destruct (down_align_range (heap_end u - (size + 8)) ltac:(lia)) as (D1 & D2 & D3).
  specialize (Hgr Hlt). remember (down_align _) as new eqn:Enew. apply wp_bind. unfold mmap, wp at 1.
  destruct (sys_mmap new _ _ _ _) as [[r m'] e'] eqn:Em.
  destruct (Z.eqb_spec (i32 r) 0) as [Er|Er]; cbn [negb].
  - destruct (mmap_below bs u new r m' e' H D1 ltac:(lia) Hgr Em Er) as (K & H1).
    do 3 wp_step. eapply wp_mono; [apply (place_spec bs _ _ H1); cbn; lia|]. cbn [heap_curr set_heap_end set_env set_mem].
    intros p u' (P1 & P2 & P3 & P4). left. split_and!; [done..|].
    intros a Ha. rewrite (P4 a Ha). by apply K.
  - do 2 wp_step. right. split; [done|]. by exists r, m', e'.
Qed.

(** ** What a program does to its heap *)

(** What the rest of the system may do meanwhile: the program's memory stays
    where it is. *)
Definition env_kept (e e' : E) : Prop := os_ok e' /\ forall va pa, frame e va = Some pa -> frame e' va = Some pa.

(** A step of the program: the blocks it holds and its state.  An allocation,
    with its header, fits into the addresses below the heap: for a larger size
    the subtractions in malloc wrap around (see [malloc_wraps]).
    A program goes on after a failed allocation if that left its memory as it
    was. *)
Inductive ustep : list (Z * Z) * ustate E -> list (Z * Z) * ustate E -> Prop :=
| step_malloc bs u size p u' :
    0 <= size -> size + 8 <= heap_end u -> grows_inside u size -> malloc size u = Ret p u' -> p <> 0 -> ustep (bs, u) ((p, size) :: bs, u')
| step_malloc_fails bs u size u' :
    0 <= size -> size + 8 <= heap_end u -> grows_inside u size -> malloc size u = Ret 0 u' -> chain_kept u u' -> env_kept (u_env u) (u_env u') ->
    ustep (bs, u) (bs, u')
| step_free bs u p u' : free p u = Ret tt u' -> ustep (bs, u) (bs, u')
| step_store bs u p size a v :
    (p, size) ∈ bs -> p <= a < p + size -> ustep (bs, u) (bs, set_mem (wr8 (u_mem u) a v) u)
| step_store_outside bs u a v :
    a < heap_end u \/ HEAP_TOP <= a -> ustep (bs, u) (bs, set_mem (wr8 (u_mem u) a v) u)
| step_env bs u e : env_kept (u_env u) e -> ustep (bs, u) (bs, set_env e u).

Lemma store_ok bs u a v :
  uheap_ok bs u -> (forall b, heap_curr u <= b < HEAP_TOP -> (forall p size, (p, size) ∈ bs -> ~ (p <= b < p + size)) -> a <> b) ->
  uheap_ok bs (set_mem (wr8 (u_mem u) a v) u).
Proof.
  intros [Ha Ho He Hm Hc] Hno. split; cbn; try done. apply (chain_ext (u_mem u)); [done|].
  intros b Hb Hb'. apply rd8_wr8_ne. by apply Hno.
Qed.

Lemma env_ok bs u u' :
  uheap_ok bs u -> env_kept (u_env u) (u_env u') -> chain_kept u u' ->
  heap_end u' = heap_end u -> heap_curr u' = heap_curr u -> uheap_ok bs u'.
Proof.
  intros [Ha Ho He Hm Hc] [Hok Hf] Hk E1 E2. split; rewrite ?E1, ?E2; [done | done | done | |].
  - intros va Hva. destruct (Hm va Hva) as [pa Hpa]. exists pa. by apply Hf.
  - apply (chain_ext (u_mem u)); [done|]. intros a H _. by apply Hk.
Qed.

Lemma ustep_ok bs u bs' u' : uheap_ok bs u -> ustep (bs, u) (bs', u') -> uheap_ok bs' u'.
Proof.
  intros H Hs. inversion Hs as
    [? ? size p ? Hz Hf Hg Em Hp|? ? size ? Hz Hf Hg Em Hk He|? ? p ? Em|? ? p size a v Hin Ha|? ? a v Ha|? ? e He];
    subst.
  - pose proof (malloc_spec bs u size H Hz Hf Hg) as W. unfold wp in W. rewrite Em in W.
    destruct W as [(_ & _ & W & _)|(-> & _)]; done.
  - pose proof (malloc_spec bs' u size H Hz Hf Hg) as W. unfold wp in W. rewrite Em in W.
    destruct W as [(? & _)|(_ & r & m' & e' & _ & _ & ->)]; [done|]. by apply (env_ok bs' u).
  - revert Em. unfold free, mbind, M_bind, gets. cbn. case_match; by intros [= ->].
  - apply store_ok; [done|]. intros b Hb Hno ->. by apply (Hno p size).
  - apply store_ok; [done|]. pose proof (uh_order _ _ H). intros; lia.
  - by apply (env_ok bs' u).
Qed.

(** A program starts with no heap. *)
Definition ustart (m : ram) (e : E) : ustate E := mk_user m HEAP_TOP HEAP_TOP 0 e.

Lemma ureach_ok x y : rtc ustep x y -> uheap_ok x.1 x.2 -> uheap_ok y.1 y.2.
Proof.
  induction 1 as [|[bs u] [bs' u'] z Hs _ IH]; [done|]. intros H. apply IH. by apply (ustep_ok bs u).
Qed.

Lemma ustart_ok m e : os_ok e -> uheap_ok [] (ustart m e).
Proof. intros He. split; cbn; unfold HEAP_TOP; done || intros; lia. Qed.

(** What the invariant says of the blocks. *)
Lemma uheap_blocks bs u : uheap_ok bs u ->
  (forall p size, (p, size) ∈ bs ->
     rd32 (u_mem u) (p - 8) = size /\ rd32 (u_mem u) (p - 4) = HEAP_INFO_MAGIC /\
     forall a, p - 8 <= a < p + size -> is_Some (frame (u_env u) a)) /\
  (forall i j p1 s1 p2 s2, i <> j -> bs !! i = Some (p1, s1) -> bs !! j = Some (p2, s2) ->
     p1 + s1 <= p2 - 8 \/ p2 + s2 <= p1 - 8).
Proof.
  intros [Ha Ho He Hm Hc]. split.
  - intros p size Hin. destruct (chain_in _ _ _ _ _ Hc Hin) as (? & ? & ? & ? & ?).
    split_and!; [done | done |]. intros a Hr. apply Hm. lia.
  - intros i j p1 s1 p2 s2 Hij H1 H2. destruct (decide (i < j)%nat).
    + left. pose proof (chain_order _ _ _ i j _ _ _ _ Hc H1 H2). lia.
    + right. pose proof (chain_order _ _ _ j i _ _ _ _ Hc H2 H1). lia.
Qed.

(** C23: the heap of a user program.  In every state that a program reaches
    from its start by calls of free and of malloc with sizes that, with the
    8 bytes of the header, are not larger than the address of the lower end of
    the heap (larger sizes make malloc compute modulo 2^32), and by stores into
    blocks it was given or outside of the heap, on a kernel that keeps the
    program's memory mapped and the promises of OSLaws for the regions it maps,
    which it makes for requests within its bounds ([in_bounds]): every byte of
    every block it holds, the header included, has memory behind it, the header
    carries the size of the block and the magic number, and no two blocks,
    headers included, share an address.  For a size above the bound the claim
    fails ([malloc_wraps]). *)
Theorem user_heap_invariant (m : ram) (e : E) bs u (He : os_ok e) (H : rtc ustep ([], ustart m e) (bs, u)) :
  (forall p size, (p, size) ∈ bs ->
     rd32 (u_mem u) (p - 8) = size /\ rd32 (u_mem u) (p - 4) = HEAP_INFO_MAGIC /\
     forall a, p - 8 <= a < p + size -> is_Some (frame (u_env u) a)) /\
  (forall i j p1 s1 p2 s2, i <> j -> bs !! i = Some (p1, s1) -> bs !! j = Some (p2, s2) ->
     p1 + s1 <= p2 - 8 \/ p2 + s2 <= p1 - 8).
Proof. apply uheap_blocks. by apply (ureach_ok _ _ H), ustart_ok. Qed.
End heap.

(** ** A small kernel

    Keys typed, characters shown and regions mapped, ten at most (memory that
    was never written reads 0): the promises of [OSLaws] can be kept. *)
Record terminal := mk_terminal { t_keys : list Z; t_screen : list Z; t_regions : list (Z * Z) }.

Fixpoint chars_at (n : nat) (m : ram) (p : Z) : list Z :=
  match n with
  | O => []
  | S n => if rdc m p =? 0 then [] else rdc m p :: chars_at n m (p + 1)
  end.

#[export] Instance terminal_memory : MemoryOS terminal := {
  sys_mmap a b fl m t :=
    if (length (t_regions t) <? 10)%nat
    then (0, m, mk_terminal (t_keys t) (t_screen t) ((a, b) :: t_regions t))
    else (u32 (-1), m, t);
  sys_munmap a m t := (u32 (-1), m, t) }.

#[export] Instance terminal_os : OS terminal := {
  sys_print m str len t := mk_terminal (t_keys t) (t_screen t ++ chars_at (Z.to_nat len) m str) (t_regions t);
  sys_get_key t := (default 0 (head (t_keys t)), mk_terminal (tail (t_keys t)) (t_screen t) (t_regions t));
  sys_put_char c t := mk_terminal (t_keys t) (t_screen t ++ [c]) (t_regions t);
  sys_cls t := mk_terminal (t_keys t) [] (t_regions t);
  sys_create_proccess m path argc len args t := (-1, t);
  sys_waitpid pid t := (0, t) }.

(** Every mapped address is its own byte. *)
Definition region_frame (t : terminal) (va : Z) : option Z :=
  if existsb (fun r => (r.1 <=? va) && (va <? r.2)) (t_regions t) then Some va else None.

#[export] Program Instance terminal_laws : OSLaws terminal := { os_ok := fun _ => True; frame := region_frame; in_bounds := fun _ _ _ => True }.
Next Obligation. intros e va1 va2 pa _. unfold region_frame. repeat case_match; congruence. Qed.
Next Obligation.
  intros a b m e r m' e' _ _. cbn. case_match; intros [= <- <- <-]; [|done]. intros _ _ _ Hab _. split_and!; [done | |].
  - intros va Hva. unfold region_frame. cbn. rewrite (proj2 (Z.leb_le a va)), (proj2 (Z.ltb_lt va b)) by lia. by eexists.
  - intros va Hva. split; [done|]. intros pa. unfold region_frame. cbn.
    destruct (existsb _ (t_regions e)); [|done]. by rewrite orb_true_r.
Qed.

(** The two subtractions of malloc are modulo 2^32: a request of 2^32 - 8 bytes
    is taken for one of 0 bytes with its header, and the pointer that is
    returned, like the header in front of it, is outside of the heap, where no
    memory is mapped. *)
Lemma malloc_wraps (m : ram) (e : terminal) : t_regions e = [] ->
  exists u', malloc 0xFFFFFFF8 (ustart m e) = Ret (HEAP_TOP + 8) u' /\ heap_curr u' = HEAP_TOP /\
  rd32 (u_mem u') HEAP_TOP = 0xFFFFFFF8 /\ frame (u_env u') HEAP_TOP = None.
Proof.
  intros He. eexists. split; [reflexivity|]. split; [reflexivity|]. split; cbn [u_mem u_env set_mem set_heap_curr ustart].
  - rewrite rd32_wr32_ne by (first [left; vm_compute; discriminate | right; vm_compute; discriminate]). exact (rd32_wr32 m HEAP_TOP 0xFFFFFFF8).
  - cbn. unfold region_frame. by rewrite He.
Qed.

(** Two allocations on the small kernel. *)
Definition run_state {S A} (o : outcome S A) (d : S) : S := match o with Ret _ s => s | _ => d end.
Definition alloc0 : ustate terminal := ustart ∅ (mk_terminal [] [] []).
Definition alloc1 : ustate terminal := run_state (malloc 5 alloc0) alloc0.
Definition alloc2 : ustate terminal := run_state (malloc 3 alloc1) alloc1.

Lemma user_heap_invariant_witness :
  rtc ustep ([], alloc0) ([(0xBFFFFFF0, 3); (0xBFFFFFFB, 5)], alloc2) /\
  rd32 (u_mem alloc2) 0xBFFFFFF3 = 5.
Proof.
  assert (R : rtc ustep ([], alloc0) ([(0xBFFFFFF0, 3); (0xBFFFFFFB, 5)], alloc2)).
  { eapply rtc_l; [apply (step_malloc [] alloc0 5 0xBFFFFFFB alloc1)|eapply rtc_l;
      [apply (step_malloc _ alloc1 3 0xBFFFFFF0 alloc2)|apply rtc_refl]];
      try discriminate; vm_compute; reflexivity || discriminate. }
  assert (Hok : os_ok (mk_terminal [] [] [])) by exact I.
  split; [exact R|]. destruct (user_heap_invariant ∅ (mk_terminal [] [] []) _ alloc2 Hok R) as [H _].
  destruct (H 0xBFFFFFFB 5) as (E & _); [right; left|exact E].
Defined.
