(* ===== verification/KernelMemory.v ===== *)
(** * The kernel keeps its promises to user code

    The system calls mmap and munmap of the running kernel, as the user library
    calls them, and the proof that they keep [OSLaws]: the memory behind the
    regions of a process is in heap blocks that belong to it alone.  The heap of
    a user program is thereby a part of physical memory. *)
From Stdlib Require Import ZArith Lia String.
From stdpp Require Import base numbers gmap list strings relations.
From S2P Require Import Prelude Config Memory Machine Console Kheap Paging AddressSpace Blocks Disk Path File Kernel Elf Task TaskList TaskLife Scheduler Process ProcTable Idt Keyboard Syscall UserMemory UserLib UserHeap.
Local Open Scope Z_scope.

Section kernel_memory.
Context {plat : Platform} {fsys : FileSystems} {lay : Layout}.

(** The current task, its page directory and its process. *)
Context (t dir proc : Z).

(** The memory that the program sees changes with its page tables: fresh memory
    is zero. *)
#[local] Instance kernel_mem : MemoryOS kstate := {
  sys_mmap va va_end flags m s :=
    match Syscall.mmap va va_end flags s with
    | Ret r s' => (r, if r =? STATUS_OK then memset va 0 (va_end - va) m else m, s')
    | _ => (u32 (- STATUS_INVALID_ARG), m, s)
    end;
  sys_munmap va m s :=
    match process_free_vmem_block proc va s with
    | Ret r s' => (u32 r, m, s')
    | _ => (u32 (- STATUS_INVALID_ARG), m, s)
    end }.

(** [va] is in a region that the process has got from mmap. *)
Definition in_slot (s : kstate) (va j : Z) : bool :=
  negb (vmem_start (k_ram s) proc j =? 0) && (vmem_start (k_ram s) proc j <=? va) && (va <? vmem_end (k_ram s) proc j).
Definition recorded (s : kstate) (va : Z) : bool :=
  existsb (in_slot s va) (seqZ 0 PROCESS_VMEM_MAX_BLOCKS).

Lemma recorded_iff s va : recorded s va = true <-> exists j, 0 <= j < PROCESS_VMEM_MAX_BLOCKS /\ in_slot s va j = true.
Proof.
  unfold recorded. rewrite existsb_exists. setoid_rewrite <- list_elem_of_In. setoid_rewrite elem_of_seqZ.
  split; intros (j & H1 & H2); exists j; (split; [lia | done]).
Qed.

(** Where user code reads and writes. *)
Definition user_frame (s : kstate) (va : Z) : option Z :=
  match mmu_walk (k_mach s) dir va with
  | Some (pa, r) => if recorded s va && (r =? 6) then Some pa else None
  | None => None
  end.

Lemma user_frame_iff s va pa : user_frame s va = Some pa <-> recorded s va = true /\ mmu_walk (k_mach s) dir va = Some (pa, 6).
Proof.
  unfold user_frame. destruct (mmu_walk _ _ _) as [[p r]|]; [|by split; [|intros []]].
  destruct (recorded s va); cbn [andb]; [|by split; [|intros []]].
  destruct (Z.eqb_spec r 6) as [->|]; split; naive_solver.
Qed.

(** The kernel is in order for the process: the task can make the call, and every
    recorded address has a byte of its own in a heap block that is in use and
    holds no page table. *)
Record kernel_ok (s : kstate) : Prop := {
  ko_caller : mmap_caller s t dir proc;
  ko_range : forall va, recorded s va = true -> is_u32 va;
  ko_frame : forall va, recorded s va = true -> exists pa b, mmu_walk (k_mach s) dir va = Some (pa, 6) /\
    in_heap b /\ used (k_mach s) b /\ ~ owned (k_mach s) dir b /\ in_block b pa;
  ko_inj : forall va1 va2 pa, user_frame s va1 = Some pa -> user_frame s va2 = Some pa -> va1 = va2 }.

(** The recorded addresses after a call. *)
Lemma region_recorded s s' va0 va_end rights va :
  user_region s s' t proc dir va0 va_end rights -> va0 <> 0 ->
  recorded s' va = true <-> recorded s va = true \/ va0 <= va < va_end.
Proof.
  intros U Hz. destruct (ur_slot _ _ _ _ _ _ _ _ U) as (j & Hj & H0 & H1 & H2 & Hk). rewrite !recorded_iff. split.
  - intros (k & Hr & Hin). unfold in_slot in Hin. destruct (decide (k = j)) as [->|Hne].
    + right. rewrite H1, H2 in Hin. breflect. lia.
    + left. exists k. split; [done|]. destruct (Hk k Hr Hne) as [E1 E2]. unfold in_slot. by rewrite <- E1, <- E2.
  - intros [(k & Hr & Hin)|Hva].
    + exists k. split; [done|]. unfold in_slot in *. assert (k <> j) as Hne by (intros ->; by rewrite H0 in Hin).
      destruct (Hk k Hr Hne) as [E1 E2]. by rewrite E1, E2.
    + exists j. split; [done|]. unfold in_slot. rewrite H1, H2, (proj2 (Z.eqb_neq va0 0)), (proj2 (Z.leb_le va0 va)), (proj2 (Z.ltb_lt va va_end)) by lia.
      done.
Qed.

(** A block holds a byte of the new region, or a byte recorded before, not
    both: the first was free. *)
Lemma region_inj s va0 va_end i :
  kernel_ok s -> (forall k, i <= k < i + (va_end - va0) / 4096 -> in_heap k /\ entry_is_free (k_mach s) k = true) ->
  va0 mod 4096 = 0 -> va_end mod 4096 = 0 ->
  forall va1 va2 pa, recorded s va1 = true -> mmu_walk (k_mach s) dir va1 = Some (pa, 6) ->
    va0 <= va2 < va_end -> pa <> block_addr i + (va2 - va0).
Proof.
  intros HK Hf A1 A2 va1 va2 pa Hr Hw Hv ->. destruct (ko_frame _ HK va1 Hr) as (pa' & b & Hw' & Hb & Hu & _ & Hin).
  rewrite Hw in Hw'. injection Hw' as <-. destruct (Hf (i + (va2 - va0) / 4096)) as [Hh Hfree]; [zlia|].
  assert (b = i + (va2 - va0) / 4096) as -> by (unfold in_block, block_addr in Hin; zlia).
  unfold used in Hu. by rewrite Hfree in Hu.
Qed.

Lemma region_ok s s' va0 va_end :
  kernel_ok s -> va0 mod 4096 = 0 -> va_end mod 4096 = 0 -> 0 < va0 < va_end -> is_u32 va_end ->
  user_region s s' t proc dir va0 va_end 6 -> kernel_ok s'.
Proof.
  intros HK A1 A2 Hlt Hve U. pose proof (fun va => region_recorded s s' va0 va_end 6 va U ltac:(lia)) as Hrec.
  destruct (ur_fresh _ _ _ _ _ _ _ _ U) as (i & Hblk & Hwalk). unfold is_u32 in *.
  assert (Hold : forall va pa, recorded s va = true -> ~ (va0 <= va < va_end) -> mmu_walk (k_mach s) dir va = Some (pa, 6) ->
      mmu_walk (k_mach s') dir va = Some (pa, 6)).
  { intros va pa Hr Ho. apply (ur_write _ _ _ _ _ _ _ _ U eq_refl); [by apply (ko_range _ HK) | lia]. }
  split; [apply (ur_caller _ _ _ _ _ _ _ _ U) | | |].
  - intros va [Hr|Hr]%Hrec; [by apply (ko_range _ HK) | unfold is_u32; lia].
  - intros va Hr. destruct (decide (va0 <= va < va_end)) as [Hin|Ho].
    + destruct (Hwalk va Hin) as [W _]. eexists _, (i + (va - va0) / 4096). split; [exact W|].
      destruct (Hblk (i + (va - va0) / 4096)) as (? & _ & ? & ?); [zlia|]. split_and!; try done.
      unfold in_block, block_addr. zlia.
    + apply Hrec in Hr as [Hr|]; [|lia]. destruct (ko_frame _ HK va Hr) as (pa & b & W & Hb & Hu & Hn & Hp).
      exists pa, b. destruct (ur_blocks _ _ _ _ _ _ _ _ U b Hb Hu Hn). split_and!; auto.
  - assert (Hcase : forall va pa, user_frame s' va = Some pa ->
      va0 <= va < va_end /\ pa = block_addr i + (va - va0) \/ ~ (va0 <= va < va_end) /\ recorded s va = true /\ mmu_walk (k_mach s) dir va = Some (pa, 6)).
    { intros va pa [Hr W]%user_frame_iff. destruct (decide (va0 <= va < va_end)) as [Hin|Ho].
      - left. destruct (Hwalk va Hin) as [W' _]. rewrite W in W'. by injection W'.
      - right. apply Hrec in Hr as [Hr|]; [|lia]. destruct (ko_frame _ HK va Hr) as (pa' & _ & W' & _).
        rewrite (Hold va pa' Hr Ho W') in W. injection W as ->. done. }
    assert (Hb' : forall k, i <= k < i + (va_end - va0) / 4096 -> in_heap k /\ entry_is_free (k_mach s) k = true)
      by (intros k Hk; destruct (Hblk k Hk) as (? & ? & _); done).
    intros va1 va2 pa [[I1 ->]|(O1 & R1 & W1)]%Hcase [[I2 E]|(O2 & R2 & W2)]%Hcase; [lia | | |].
    + exfalso. by apply (region_inj s va0 va_end i HK Hb' A1 A2 va2 va1 _ R2 W2 I1).
    + exfalso. by apply (region_inj s va0 va_end i HK Hb' A1 A2 va1 va2 _ R1 W1 I2).
    + apply (ko_inj _ HK va1 va2 pa); by apply user_frame_iff.
Qed.
Lemma kernel_mmap_ok a b m s r m' s' :
  kernel_ok s -> no_overrun (k_mach s) ((b - a) / 4096) -> sys_mmap a b (Z.lor UO_READ UO_WRITE) m s = (r, m', s') -> i32 r = 0 ->
  a mod 4096 = 0 -> b mod 4096 = 0 -> 0 <= a < b -> b <= HEAP_TOP ->
  kernel_ok s' /\ (forall va, a <= va < b -> is_Some (user_frame s' va)) /\
  forall va, ~ (a <= va < b) -> rd8 m' va = rd8 m va /\ forall pa, user_frame s va = Some pa -> user_frame s' va = Some pa.
Proof.
  intros HK Hno Em Er A1 A2 Hab Hb. unfold HEAP_TOP in Hb.
  destruct (proj1 (wp_run _ _ _) (mmap_spec s t dir proc a b (Z.lor UO_READ UO_WRITE) (ko_caller _ HK)
    ltac:(unfold is_u32; lia) ltac:(unfold is_u32; lia) (fun _ => Hno))) as (r0 & s1 & E & HP).
  cbn [sys_mmap kernel_mem] in Em. rewrite E in Em. injection Em as <- <- <-.
  unfold mmap_post in HP. rewrite A1, A2 in HP. cbn [negb orb Z.eqb] in HP.
  destruct ((a <? KHEAP_SAFE_BOUNDARY) || (b <? KHEAP_SAFE_BOUNDARY) || (b <=? a)) eqn:Eb; [by destruct HP as [-> _]|].
  breflect. unfold KHEAP_SAFE_BOUNDARY in *. destruct HP as [[-> U]|[[-> _]|[-> _]]]; [|done..].
  change (PAGE_USER_ACCESS_ALLOW + _) with 6 in U.
  assert (HK' : kernel_ok s1) by (apply (region_ok s s1 a b); try done; unfold is_u32; lia).
  pose proof (fun va => region_recorded s s1 a b 6 va U ltac:(lia)) as Hrec. split_and!; [done | |].
  - intros va Hva. destruct (ko_frame _ HK' va) as (pa & _ & W & _); [apply Hrec; by right|].
    exists pa. apply user_frame_iff. split; [apply Hrec; by right | done].
  - intros va Hva. split; [change (STATUS_OK =? STATUS_OK) with true; cbn iota; apply rd8_memset_out; lia|].
    intros pa [Hr W]%user_frame_iff. apply user_frame_iff. split; [apply Hrec; by left|].
    apply (ur_write _ _ _ _ _ _ _ _ U eq_refl); [by apply (ko_range _ HK) | lia | done].
Qed.

#[local] Instance kernel_laws : OSLaws kstate :=
  { os_ok := kernel_ok; frame := user_frame; in_bounds := fun s a b => no_overrun (k_mach s) ((b - a) / 4096); frame_inj := fun s va1 va2 pa HK => ko_inj s HK va1 va2 pa; mmap_ok := kernel_mmap_ok }.

End kernel_memory.

(** ** Example: the caller of [mapper], which has no region yet *)

Lemma mapper_ok : kernel_ok (block_addr 1) (block_addr 0) 0x110000 mapper.
Proof.
  assert (Hnone : forall va, recorded 0x110000 mapper va = false).
  { intros va. apply Bool.not_true_iff_false. intros (j & Hj & Hin)%recorded_iff. unfold in_slot in Hin.
    replace (vmem_start (k_ram mapper) 0x110000 j) with 0 in Hin; [done|]. unfold PROCESS_VMEM_MAX_BLOCKS in Hj.
    assert (j = 0 \/ j = 1 \/ j = 2 \/ j = 3 \/ j = 4 \/ j = 5 \/ j = 6 \/ j = 7 \/ j = 8 \/ j = 9) as Hc' by lia.
    destruct_or! Hc'; subst; vm_compute; reflexivity. }
  split.
  - exact mapper_caller.
  - intros va Hr. by rewrite Hnone in Hr.
  - intros va Hr. by rewrite Hnone in Hr.
  - intros va1 va2 pa [Hr _]%user_frame_iff. by rewrite Hnone in Hr.
Qed.

