(* ===== verification/UserText.v ===== *)
(** * Numbers and tokens of the user library

    itoa writes the decimal numeral of an [int] and atoi reads it back; strtok
    cuts a string into the pieces between its delimiters. *)
From Stdlib Require Import ZArith Lia String.
From stdpp Require Import base numbers gmap list strings pretty.
From S2P Require Import Prelude Strings Machine Console UserLib.
Local Open Scope Z_scope.

(** ** Writing a string *)

Lemma put_chars_spec l : forall buffer idx m,
  0 <= buffer + idx -> buffer + idx + Z.of_nat (length l) <= 4294967296 ->
  exists m', put_chars l buffer idx m = (idx + Z.of_nat (length l), m') /\
  (forall i c, l !! i = Some c -> rd8 m' (buffer + idx + Z.of_nat i) = u8 c) /\
  (forall a, a < buffer + idx \/ buffer + idx + Z.of_nat (length l) <= a -> rd8 m' a = rd8 m a).
Proof.
  induction l as [|c l IH]; intros buffer idx m H1 H2; cbn [put_chars length] in *.
  { exists m. rewrite Z.add_0_r. split_and!; [done | by intros | done]. }
  rewrite u32_small by lia.
  destruct (IH buffer (idx + 1) (wr8 m (buffer + idx) c)) as (m' & E & P1 & P2); [lia..|].
  exists m'. rewrite E. split_and!; [f_equal; lia | |].
  - intros [|i] d Hi; cbn in Hi.
    + injection Hi as ->. rewrite P2 by lia. replace (_ + Z.of_nat 0) with (buffer + idx) by lia. apply rd8_wr8_eq.
    + rewrite <- (P1 i d Hi). f_equal. lia.
  - intros a Ha. rewrite P2 by lia. apply rd8_wr8_ne. lia.
Qed.

Lemma put_chars_app l1 l2 buffer : forall idx m,
  put_chars (l1 ++ l2) buffer idx m = let '(idx, m) := put_chars l1 buffer idx m in put_chars l2 buffer idx m.
Proof. induction l1 as [|c l1 IH]; intros; cbn; auto. Qed.

Definition put_string (l : list Z) (buffer : Z) (m : ram) : ram :=
  let '(idx, m) := put_chars l buffer 0 m in wr8 m (u32 (buffer + idx)) 0.

(** Characters that are not the terminator. *)
Definition text (l : list Z) : Prop := Forall (fun c => -128 <= c < 128 /\ c <> 0) l.

Lemma put_string_spec l buffer m :
  text l -> 0 <= buffer -> buffer + Z.of_nat (length l) < 4294967296 ->
  cstr (put_string l buffer m) buffer l /\
  (forall a, a < buffer \/ buffer + Z.of_nat (length l) < a -> rd8 (put_string l buffer m) a = rd8 m a).
Proof.
  intros Ht H1 H2. unfold put_string.
  destruct (put_chars_spec l buffer 0 m) as (m' & E & P1 & P2); [lia..|]. rewrite E, u32_small by lia.
  rewrite Z.add_0_r in *. rewrite Z.add_0_l in *. split.
  - split_and!; [done | done | | unfold rdc; by rewrite rd8_wr8_eq].
    intros i Hi. destruct (lookup_lt_is_Some_2 l i Hi) as [c Hc]. rewrite Hc. unfold rdc.
    rewrite rd8_wr8_ne, (P1 i c Hc), i8_u8 by lia.
    pose proof (Forall_lookup_1 _ _ _ _ Ht Hc) as [? ?]. by rewrite i8_small.
  - intros a Ha. rewrite rd8_wr8_ne by lia. apply P2. lia.
Qed.

(** ** itoa and atoi *)

Lemma fill_digits_range n : forall x, Forall (fun c => 48 <= c <= 57) (fill_digits n x).
Proof.
  induction n as [|n IH]; intros x; cbn; constructor; [|apply IH].
  pose proof (Z.mod_pos_bound x 10). lia.
Qed.

Lemma fill_digits_length n : forall x, length (fill_digits n x) = n.
Proof. induction n as [|n IH]; intros x; cbn; [done | by rewrite IH]. Qed.

(** The numeral of [v] as a list of characters. *)
Definition numeral (v : Z) : list Z := chars (pretty v).

Lemma numeral_pos v : 0 < v < 2147483648 -> numeral v = rev (fill_digits (Z.to_nat (count_digits 10 v 0)) v).
Proof. intros. by rewrite digits_decimal. Qed.

Lemma numeral_neg v : v < 0 -> numeral v = 45 :: numeral (- v).
Proof. intros. destruct v; [lia | lia | done]. Qed.

Lemma put_numeral v buffer idx m : 0 <= v < 2147483648 ->
  (let num_digits := count_digits 10 v 0 in
   if num_digits =? 0 then
     let '(idx, m) := put_chars [48] buffer idx m in
     wr8 m (u32 (buffer + idx)) 0
   else
     let '(idx, m) := put_chars (rev (fill_digits (Z.to_nat num_digits) v)) buffer idx m in
     wr8 m (u32 (buffer + idx)) 0) =
  let '(idx, m) := put_chars (numeral v) buffer idx m in wr8 m (u32 (buffer + idx)) 0.
Proof.
  intros Hv. destruct (decide (v = 0)) as [->|]; [done|]. cbv zeta.
  pose proof (count_digits_pos 9 v ltac:(lia)). destruct (Z.eqb_spec (count_digits 10 v 0) 0); [lia|].
  by rewrite numeral_pos by lia.
Qed.

Lemma itoa_numeral v buffer m : -2147483648 < v < 2147483648 -> itoa v buffer m = put_string (numeral v) buffer m.
Proof.
  intros Hv. unfold itoa, put_string. destruct (Z.ltb_spec v 0) as [Hn|Hn].
  - rewrite i32_small, numeral_neg by lia. cbn [put_chars]. apply (put_numeral (- v)). lia.
  - apply (put_numeral v). lia.
Qed.

Lemma numeral_digits x :
  0 <= x < 2147483648 -> Forall (fun c => 48 <= c <= 57) (numeral x) /\ (length (numeral x) <= 10)%nat.
Proof.
  intros Hx. destruct (decide (x = 0)) as [->|]; [split; [apply (Forall_singleton _ 48); lia | cbn; lia]|].
  rewrite numeral_pos, length_rev, fill_digits_length by lia. split; [apply Forall_rev, fill_digits_range|].
  pose proof (count_digits_nonneg 10 x). lia.
Qed.

Lemma numeral_text v : -2147483648 < v < 2147483648 -> text (numeral v) /\ (length (numeral v) <= 11)%nat.
Proof.
  intros Hv. destruct (numeral_digits (Z.abs v) ltac:(lia)) as [Hd Hl].
  assert (Ht : text (numeral (Z.abs v))) by (eapply Forall_impl; [exact Hd | cbn; lia]).
  destruct (decide (0 <= v)); [rewrite Z.abs_eq in * by lia; split; [done | lia]|].
  rewrite Z.abs_neq in * by lia. rewrite numeral_neg by lia. split; [constructor; [lia | done] | cbn; lia].
Qed.

Lemma count_digits_enough fuel : forall x, 0 <= x < 10 ^ Z.of_nat fuel -> x < 10 ^ count_digits fuel x 0.
Proof.
  induction fuel as [|fuel IH]; intros x Hx; cbn [count_digits]; [cbn in *; lia|].
  destruct (Z.ltb_spec 0 x); [|lia]. rewrite count_digits_acc.
  rewrite Nat2Z.inj_succ, Z.pow_succ_r in Hx by lia. specialize (IH (x / 10) ltac:(zlia)).
  pose proof (count_digits_nonneg fuel (x / 10)). rewrite Z.pow_add_r by lia. zlia.
Qed.

(** The value of a list of digits. *)
Definition digits_value (acc : Z) (l : list Z) : Z := fold_left (fun r c => r * 10 + (c - 48)) l acc.

Lemma digits_value_fill n : forall x acc,
  0 <= x -> digits_value acc (rev (fill_digits n x)) = acc * 10 ^ Z.of_nat n + x mod 10 ^ Z.of_nat n.
Proof.
  induction n as [|n IH]; intros x acc Hx; cbn [fill_digits rev]; [cbn; rewrite Z.mod_1_r; lia|].
  unfold digits_value in *. rewrite fold_left_app, IH by zlia. cbn [fold_left].
  rewrite Nat2Z.inj_succ, Z.pow_succ_r, (Z.rem_mul_r x 10) by lia. lia.
Qed.

Lemma numeral_value x : 0 <= x < 2147483648 -> digits_value 0 (numeral x) = x.
Proof.
  intros Hx. destruct (decide (x = 0)) as [->|]; [done|]. rewrite numeral_pos, digits_value_fill by lia.
  pose proof (count_digits_nonneg 10 x). rewrite Z2Nat.id by lia. apply Z.mod_small. split; [lia|].
  apply count_digits_enough. change (10 ^ Z.of_nat 10) with 10000000000. lia.
Qed.

Lemma i32_step acc d : i32 (i32 (i32 acc * 10) + d) = i32 (acc * 10 + d).
Proof. unfold i32. zlia. Qed.

Lemma atoi_loop_spec m l : forall fuel buffer idx acc,
  cstr m (buffer + idx) l -> 0 <= idx -> idx + Z.of_nat (length l) <= MAX_DIGITS -> (length l <= fuel)%nat -> 
  atoi_loop fuel m buffer idx (i32 acc) = i32 (digits_value acc l).
Proof.
  induction l as [|c l IH]; intros fuel buffer idx acc Hc Hi Hl Hf; pose proof (cstr_head _ _ _ Hc) as Eh; cbn in Eh;
    (destruct fuel as [|fuel]; cbn [length] in *; [try lia; done|]); cbn [atoi_loop]; rewrite Eh; [done|].
  apply cstr_cons in Hc as (_ & Hz & _ & Hc). rewrite (proj2 (Z.eqb_neq c 0) Hz). unfold MAX_DIGITS in *.
  destruct (Z.ltb_spec idx 13); [cbn [negb andb]|lia]. cbv zeta. rewrite i32_step.
  rewrite IH; [done | by rewrite Z.add_assoc | lia | lia | lia].
Qed.

(** C26: itoa writes the decimal numeral of every [int] but the smallest, a
    null-terminated string of at most eleven characters, and touches no other
    byte; atoi reads the number back. *)
Theorem itoa_atoi_roundtrip (v buffer : Z) (m : ram)
    (Hv : -2147483648 < v < 2147483648) (Hb : 0 <= buffer /\ buffer + 12 <= 4294967296) :
  cstr (itoa v buffer m) buffer (chars (pretty v)) /\
  (forall a, a < buffer \/ buffer + 12 <= a -> rd8 (itoa v buffer m) a = rd8 m a) /\
  atoi buffer (itoa v buffer m) = v.
Proof.
  destruct (numeral_text v Hv) as [Ht Hl]. rewrite itoa_numeral by done.
  destruct (put_string_spec (numeral v) buffer m) as [Hc Ho]; [done | lia | lia |].
  split_and!; [done | intros; apply Ho; lia |]. remember (put_string _ _ _) as m' eqn:Em. clear Em Ho.
  pose proof (cstr_head _ _ _ Hc) as Eh. rewrite u32_small in Eh by lia. unfold atoi. rewrite Eh.
  destruct (decide (v < 0)) as [Hn|Hn].
  - rewrite numeral_neg in * by done. cbn [head default id Z.eqb Pos.eqb]. apply cstr_cons in Hc as (_ & _ & _ & Hc).
    rewrite u32_small by lia. change 0 with (i32 0) at 2. cbn [length] in Hl.
    rewrite (atoi_loop_spec _ (numeral (- v))), numeral_value by (rewrite ?Z.add_0_r; unfold MAX_DIGITS; done || lia).
    rewrite !i32_small; rewrite ?i32_small; lia.
  - destruct (numeral_digits v ltac:(lia)) as [Hd _].
    replace (default 0 (head (numeral v)) =? 45) with false
      by (symmetry; apply Z.eqb_neq; destruct Hd; cbn; lia).
    change 0 with (i32 0) at 2.
    rewrite (atoi_loop_spec _ (numeral v)), numeral_value by (rewrite ?Z.add_0_r; unfold MAX_DIGITS; done || lia).
    rewrite !i32_small; rewrite ?i32_small; lia.
Qed.

Lemma itoa_atoi_roundtrip_witness : atoi 0x1000 (itoa (-1989) 0x1000 ∅) = -1989 /\ cstr (itoa (-1989) 0x1000 ∅) 0x1000 [45; 49; 57; 56; 57].
Proof. destruct (itoa_atoi_roundtrip (-1989) 0x1000 ∅) as (H1 & _ & H2); [lia | lia |]. split; [exact H2 | exact H1]. Defined.

(** ** strtok *)

(** The pieces of [l] between the characters of [ds], the empty ones left out. *)
Fixpoint split_at (ds l : list Z) : list (list Z) :=
  match l with
  | [] => [[]]
  | c :: l =>
    if bool_decide (c ∈ ds) then [] :: split_at ds l
    else match split_at ds l with [] => [[c]] | w :: ws => (c :: w) :: ws end
  end.
Definition tokens (ds l : list Z) : list (list Z) := filter (fun w => w <> []) (split_at ds l).

(** strtok until it answers NULL: the pointers, the last [sp] and the memory. *)
Fixpoint strtok_all (n fuel : nat) (str delimiters sp : Z) (m : ram) : option (list Z * Z * ram) :=
  match n with
  | O => None
  | S n =>
    match strtok_run fuel str delimiters sp m with
    | None => None
    | Some (p, sp, m) =>
      if p =? 0 then Some ([], sp, m)
      else match strtok_all n fuel 0 delimiters sp m with
           | None => None
           | Some (ps, sp, m) => Some (p :: ps, sp, m)
           end
    end
  end.

(** Leading delimiters, the first token and what is left. *)
Record cut (ds pre w rest : list Z) : Prop := {
  cut_pre : Forall (.∈ ds) pre;
  cut_tok : Forall (.∉ ds) w;
  cut_stop : w = [] -> rest = [];
  cut_rest : forall c l, rest = c :: l -> c ∈ ds }.

Lemma cut_exists ds l : exists pre w rest, l = pre ++ w ++ rest /\ cut ds pre w rest.
Proof.
  induction l as [|c l (pre & w & rest & -> & [C1 C2 C3 C4])].
  { exists [], [], []. split; [done|]. by split. }
  destruct (decide (c ∈ ds)) as [Hc|Hc].
  - exists (c :: pre), w, rest. split; [done|]. split; [by constructor | done..].
  - destruct pre as [|d pre].
    + exists [], (c :: w), rest. split; [done|]. split; [done | by constructor | done | done].
    + exists [], [c], (d :: pre ++ w ++ rest). split; [done|]. apply Forall_cons in C1 as [Hd _].
      split; [done | by repeat constructor | done | by intros ? ? [= <- _]].
Qed.

Lemma split_at_ne ds l : split_at ds l <> [].
Proof. destruct l as [|c l]; cbn; [done|]. by repeat case_match. Qed.

Lemma tokens_pre ds pre l : Forall (.∈ ds) pre -> tokens ds (pre ++ l) = tokens ds l.
Proof.
  unfold tokens. induction 1 as [|c pre Hc _ IH]; cbn [app split_at]; [done|].
  rewrite bool_decide_true by done. by rewrite filter_cons_False by auto.
Qed.

Lemma split_at_tok ds w l : Forall (.∉ ds) w ->
  split_at ds (w ++ l) = match split_at ds l with [] => [] | v :: vs => (w ++ v) :: vs end.
Proof.
  induction 1 as [|c w Hc _ IH]; cbn [app split_at]; [by destruct (split_at ds l)|].
  rewrite bool_decide_false, IH by done. pose proof (split_at_ne ds l). by destruct (split_at ds l).
Qed.

Lemma tokens_cut ds pre w rest : cut ds pre w rest ->
  tokens ds (pre ++ w ++ rest) = if decide (w = []) then [] else w :: tokens ds (tail rest).
Proof.
  intros [C1 C2 C3 C4]. rewrite tokens_pre by done. destruct (decide (w = [])) as [->|Hw]; [by rewrite C3|].
  unfold tokens. rewrite split_at_tok by done. destruct rest as [|c rest]; cbn [split_at tail].
  - rewrite app_nil_r. by rewrite filter_cons_True.
  - rewrite bool_decide_true by (by eapply C4). rewrite app_nil_r. by rewrite filter_cons_True.
Qed.

Lemma delim_index_spec m c ds : forall d i,
  cstr m (d + i) ds ->
  i <= delim_index (length ds) m c d i <= i + Z.of_nat (length ds) /\
  (delim_index (length ds) m c d i < i + Z.of_nat (length ds) <-> c ∈ ds).
Proof.
  induction ds as [|x ds IH]; intros d i H; cbn [length delim_index].
  { split; [lia|]. split; [lia | by intros ?%elem_of_nil]. }
  rewrite (cstr_head _ _ _ H). cbn [head default id]. destruct (Z.eqb_spec c x) as [->|Hne].
  { split; [lia|]. split; [intros; left | lia]. }
  apply cstr_cons in H as (_ & _ & _ & H). rewrite <- Z.add_assoc in H. destruct (IH d (i + 1) H) as [H1 H2].
  split; [lia|]. rewrite elem_of_cons, <- H2. split; [intros; right; lia | intros [|]; [done | lia]].
Qed.

Section strtok.
Context (d : Z) (ds : list Z).

(** The test of both loops at a character. *)
Lemma delim_test m c : cstr m d ds ->
  (delim_index (Z.to_nat (Z.of_nat (length ds))) m c d 0 =? Z.of_nat (length ds)) = bool_decide (c ∉ ds) /\
  (delim_index (Z.to_nat (Z.of_nat (length ds))) m c d 0 <? Z.of_nat (length ds)) = bool_decide (c ∈ ds).
Proof.
  intros H. rewrite Nat2Z.id. destruct (delim_index_spec m c ds d 0) as [H1 H2]; [by rewrite Z.add_0_r|].
  destruct (decide (c ∈ ds)) as [Hc|Hc].
  - rewrite (bool_decide_true (c ∈ ds)), (bool_decide_false (c ∉ ds)) by tauto.
    rewrite <- H2 in Hc. split; [apply Z.eqb_neq | apply Z.ltb_lt]; lia.
  - rewrite (bool_decide_false (c ∈ ds)), (bool_decide_true (c ∉ ds)) by tauto.
    rewrite <- H2 in Hc. split; [apply Z.eqb_eq | apply Z.ltb_ge]; lia.
Qed.

Lemma strtok_skip_spec m pre r : cstr m d ds -> Forall (.∈ ds) pre -> (forall c l, r = c :: l -> c ∉ ds) ->
  forall fuel p, cstr m p (pre ++ r) -> (length pre < fuel)%nat ->
  strtok_skip fuel m d (Z.of_nat (length ds)) p = Some (p + Z.of_nat (length pre)).
Proof.
  intros Hd Hpre Hr. induction Hpre as [|c pre Hc _ IH]; intros [|fuel] p H Hf; cbn [length app] in *; try lia;
    cbn [strtok_skip]; pose proof (cstr_head _ _ _ H) as Eh; (rewrite u32_small in Eh by (destruct H; lia));
    rewrite Eh, (proj1 (delim_test m _ Hd)).
  - rewrite bool_decide_true; [f_equal; lia|]. destruct r as [|c r]; [|by eapply Hr].
    intros Hin. cbn in Hin. apply list_elem_of_lookup_1 in Hin as [i Hi].
    destruct (cstr_char _ _ _ i Hd (lookup_lt_Some _ _ _ Hi)) as (? & E & ? & _). congruence.
  - cbn [head default id]. rewrite bool_decide_false by tauto.
    assert (p + 1 < 4294967296) by (destruct H as (? & ? & _); cbn [length] in *; lia).
    assert (0 <= p) by (destruct H; lia). apply cstr_cons in H as (_ & _ & _ & H).
    rewrite u32_small by lia. rewrite IH by (done || lia). f_equal. lia.
Qed.

Lemma strtok_end_spec m w rest : cstr m d ds -> Forall (.∉ ds) w -> (forall c l, rest = c :: l -> c ∈ ds) ->
  forall fuel p, cstr m p (w ++ rest) -> (length w < fuel)%nat ->
  strtok_end fuel d (Z.of_nat (length ds)) p m =
  Some (match rest with
        | [] => (p + Z.of_nat (length w), m)
        | _ => (p + Z.of_nat (length w) + 1, wr8 m (p + Z.of_nat (length w)) 0)
        end).
Proof.
  intros Hd Hw Hr. induction Hw as [|c w Hc _ IH]; intros [|fuel] p H Hf; cbn [length app] in *; try lia;
    cbn [strtok_end]; pose proof (cstr_head _ _ _ H) as Eh; (rewrite u32_small in Eh by (destruct H; lia));
    rewrite Eh, (proj2 (delim_test m _ Hd)).
  - rewrite Z.add_0_r. destruct rest as [|c rest]; [done|]. pose proof H as (? & ? & _). cbn [length] in *.
    apply cstr_cons in H as (_ & Hz & _ & _). cbn [head default id].
    rewrite (proj2 (Z.eqb_neq c 0) Hz), bool_decide_true, u32_small by (lia || by eapply Hr). done.
  - pose proof H as (? & ? & _). cbn [length] in *. apply cstr_cons in H as (_ & Hz & _ & H). cbn [head default id].
    rewrite (proj2 (Z.eqb_neq c 0) Hz), bool_decide_false, u32_small by (done || lia). cbn [negb].
    rewrite IH by (done || lia). destruct rest; do 2 f_equal; lia || (f_equal; lia).
Qed.
Lemma cstr_drop m l1 l2 : forall p, cstr m p (l1 ++ l2) -> cstr m (p + Z.of_nat (length l1)) l2.
Proof.
  induction l1 as [|c l1 IH]; intros p H; cbn [app length] in *; [by rewrite Z.add_0_r|].
  apply cstr_cons in H as (_ & _ & _ & H%IH). by replace (p + Z.of_nat (S _)) with (p + 1 + Z.of_nat (length l1)) by lia.
Qed.

(** The front of a string whose next byte has become the terminator. *)
Lemma cstr_cut m p w c rest :
  cstr m p (w ++ c :: rest) -> cstr (wr8 m (p + Z.of_nat (length w)) 0) p w.
Proof.
  intros (H1 & H2 & H3 & _). rewrite length_app in *. cbn [length] in *.
  split_and!; [done | lia | | unfold rdc; by rewrite rd8_wr8_eq].
  intros i Hi. unfold rdc. rewrite rd8_wr8_ne by lia. destruct (H3 i ltac:(lia)) as [E ?].
  rewrite lookup_app_l in E by done. done.
Qed.

(** One call on the string at [p], where the search is: the token, where the
    search goes on and what it finds there. *)
Record token_at (m m' : ram) (p q sp' : Z) (l w rest : list Z) : Prop := {
  ta_tok : cstr m' q w;
  ta_rest : cstr m' sp' (tail rest);
  ta_in : p <= q /\ q + Z.of_nat (length w) <= sp' /\ sp' + Z.of_nat (length (tail rest)) = p + Z.of_nat (length l);
  ta_after : tail rest = [] \/ q + Z.of_nat (length w) < sp';
  ta_frame : forall a, a < p \/ sp' <= a -> rd8 m' a = rd8 m a }.

Lemma strtok_call m pre w rest fuel str sp p :
  cut ds pre w rest -> cstr m d ds -> cstr m p (pre ++ w ++ rest) -> 0 < p ->
  (length ds < fuel)%nat -> (length (pre ++ w ++ rest) < fuel)%nat ->
  (str = p /\ sp = 0 \/ str = 0 /\ sp = p) ->
  if decide (w = []) then strtok_run fuel str d sp m = Some (0, 0, m)
  else exists sp' m', strtok_run fuel str d sp m = Some (p + Z.of_nat (length pre), sp', m') /\
    token_at m m' p (p + Z.of_nat (length pre)) sp' (pre ++ w ++ rest) w rest.
Proof.
  intros C Hd Hl Hp Hf1 Hf2 Hsp.
  unfold strtok_run. rewrite (strlen_cstr _ _ _ _ Hd Hf1).
  replace ((str =? 0) && (sp =? 0)) with false by (destruct Hsp as [[-> ->]|[-> ->]]; symmetry; apply andb_false_iff; rewrite !Z.eqb_neq; lia).
  replace (if negb (str =? 0) && (sp =? 0) then str else sp) with p
    by (destruct Hsp as [[-> ->]|[-> ->]]; [rewrite (proj2 (Z.eqb_neq p 0)) by lia|]; done).
  cbv zeta. rewrite !length_app in Hf2. pose proof (cstr_drop _ _ _ _ Hl) as Hw. pose proof Hl as (_ & Hend & _).
  rewrite !length_app in Hend. rewrite (strtok_skip_spec m pre (w ++ rest)); [|done | apply C | | done | lia].
  2: { intros c l Hc. destruct w as [|x w]; [pose proof (cut_stop _ _ _ _ C eq_refl); by subst rest|].
       injection Hc as <- _. by pose proof (cut_tok _ _ _ _ C) as [? _]%Forall_cons. }
  pose proof (cstr_head _ _ _ Hw) as Eh. rewrite u32_small in Eh by lia. rewrite Eh.
  destruct (decide (w = [])) as [->|Hne]; [by rewrite (cut_stop _ _ _ _ C)|].
  destruct w as [|x w]; [done|]. cbn [app head default id].
  rewrite (proj2 (Z.eqb_neq x 0)) by (by apply cstr_cons in Hw as (_ & ? & _)).
  rewrite (strtok_end_spec m (x :: w) rest); [|done | apply C | apply C | done | cbn in *; lia].
  destruct rest as [|c rest]; (eexists _, _; split; [reflexivity|]); (split; cbn [tail]).
  - by rewrite app_nil_r in Hw.
  - by apply cstr_drop in Hw.
  - rewrite !length_app. cbn [length app] in *. rewrite ?length_app in *. cbn [length] in *. lia.
  - by left.
  - done.
  - by eapply cstr_cut.
  - pose proof (cstr_drop _ _ _ _ Hw) as Hr. apply cstr_cons in Hr as (_ & _ & _ & Hr).
    eapply cstr_ext; [|exact Hr]. intros a Ha. apply rd8_wr8_ne. lia.
  - rewrite !length_app. cbn [length app] in *. rewrite ?length_app in *. cbn [length] in *. lia.
  - right. lia.
  - intros a Ha. apply rd8_wr8_ne. cbn [length] in *. lia.
Qed.

Lemma strtok_all_spec fuel : (length ds < fuel)%nat -> forall n l p m str sp,
  cstr m d ds -> cstr m p l -> 0 < p -> (length l < fuel)%nat -> (length l < n)%nat ->
  (forall a, d <= a <= d + Z.of_nat (length ds) -> a < p \/ p + Z.of_nat (length l) <= a) ->
  (str = p /\ sp = 0 \/ str = 0 /\ sp = p) ->
  exists ps m', strtok_all n fuel str d sp m = Some (ps, 0, m') /\
    Forall2 (fun q w => cstr m' q w /\ p <= q /\ q + Z.of_nat (length w) <= p + Z.of_nat (length l)) ps (tokens ds l) /\
    (forall a, a < p \/ p + Z.of_nat (length l) <= a -> rd8 m' a = rd8 m a).
Proof.
  intros Hfd. induction n as [|n IH]; intros l p m str sp Hd Hl Hp Hf Hn Hdis Hsp; [lia|]. cbn [strtok_all].
  destruct (cut_exists ds l) as (pre & w & rest & El & C).
  assert (Hrun := strtok_call m pre w rest fuel str sp p C Hd). rewrite <- El in Hrun. specialize (Hrun Hl Hp Hfd Hf Hsp).
  rewrite El, (tokens_cut _ _ _ _ C), <- El. destruct (decide (w = [])) as [Hw|Hw].
  { rewrite Hrun. cbn. exists [], m. split_and!; [done | constructor | done]. }
  destruct Hrun as (sp' & m1 & -> & [T1 T2 (T3 & T4 & T5) T6 T7]). set (q := p + Z.of_nat (length pre)) in *.
  rewrite (proj2 (Z.eqb_neq q 0)) by lia.
  assert (Hlen : (length (tail rest) < length l)%nat).
  { rewrite El, !length_app. destruct w; [done|]. destruct rest; cbn; lia. }
  destruct (IH (tail rest) sp' m1 0 sp') as (ps & m2 & -> & F & G); [| done | lia | lia | lia | | by right |].
  { eapply cstr_ext; [|exact Hd]. intros a Ha. apply T7. destruct (Hdis a Ha); lia. }
  { intros a Ha. destruct (Hdis a Ha); lia. }
  exists (q :: ps), m2. split_and!; [done | |].
  - constructor; [|eapply Forall2_impl; [exact F | cbn; intros; lia || (split; [tauto | lia])]]. split; [|lia].
    eapply cstr_ext; [|exact T1]. intros a Ha. apply G. destruct T6 as [E|]; [rewrite E; cbn; lia | lia].
  - intros a Ha. rewrite G by lia. apply T7. lia.
Qed.

(** C25: calling strtok on a string and then on NULL until it answers NULL
    visits, in order, exactly the pieces of the string between delimiters: the
    pointers lie in the string and at the end each holds its piece,
    null-terminated.  No byte outside of the string changes, and the search
    position is NULL again, so that the next string can be cut. *)
Theorem strtok_tokens (m : ram) (l : list Z) (str : Z) (fuel : nat)
    (Hd : cstr m d ds) (Hl : cstr m str l) (Hs : 0 < str)
    (Hdis : d + Z.of_nat (length ds) < str \/ str + Z.of_nat (length l) <= d)
    (Hf : (length ds < fuel)%nat /\ (length l < fuel)%nat) :
  exists ps m', strtok_all fuel fuel str d 0 m = Some (ps, 0, m') /\
    Forall2 (fun q w => cstr m' q w /\ str <= q /\ q + Z.of_nat (length w) <= str + Z.of_nat (length l)) ps (tokens ds l) /\
    (forall a, a < str \/ str + Z.of_nat (length l) <= a -> rd8 m' a = rd8 m a).
Proof. apply strtok_all_spec; try tauto. intros a Ha. lia. Qed.
End strtok.

(** [" ls  -l"] cut at blanks. *)
Definition line_ram : ram := put_string (chars " ls  -l") 0x1000 (put_string (chars " ") 0x2000 ∅).

Lemma strtok_tokens_witness :
  tokens (chars " ") (chars " ls  -l") = [chars "ls"; chars "-l"] /\
  exists ps m', strtok_all 16 16 0x1000 0x2000 0 line_ram = Some (ps, 0, m') /\ length ps = 2%nat.
Proof.
  assert (T : forall s, text (chars s) <-> Forall (fun c => -128 <= c < 128 /\ c <> 0) (chars s)) by done.
  destruct (put_string_spec (chars " ") 0x2000 ∅) as [H1 _]; [by apply T; repeat constructor | lia | cbn; lia |].
  destruct (put_string_spec (chars " ls  -l") 0x1000 (put_string (chars " ") 0x2000 ∅)) as [H2 H3];
    [by apply T; repeat constructor | lia | cbn; lia |].
  destruct (strtok_tokens 0x2000 (chars " ") line_ram (chars " ls  -l") 0x1000 16) as (ps & m' & E & F & _).
  - eapply cstr_ext; [|exact H1]. intros a Ha. apply H3. cbn in *. lia.
  - exact H2.
  - lia.
  - cbn. lia.
  - cbn. lia.
  - split; [reflexivity|]. exists ps, m'. split; [exact E|]. by rewrite (Forall2_length _ _ _ F).
Defined.
