(* ===== verification/Shell.v ===== *)
(** * programs/shell: the shell

    One round of the loop of the shell reads a line, runs a built-in command or
    starts a process from it and waits for the process.  The arrays of the
    frame of [shell] and the string literals of a program are in the memory of
    its process, at the addresses of [ProgramLayout]. *)
From Stdlib Require Import ZArith Lia String.
From stdpp Require Import base numbers gmap list strings.
From S2P Require Import Prelude Memory Ustring Strings Machine UserLib.
Local Open Scope Z_scope.

(** [lit s]: the address of the literal [s]; [lit_showmt_args] that of
    ["0:/blank\0showmt\0"]; the others are addresses in the stack frame, where
    [printf_buf] is the array of the printf called from there. *)
Class ProgramLayout := {
  lit : string -> Z;
  lit_showmt_args : Z;
  shell_buf : Z;
  shell_path : Z;
  printf_buf : Z;
  addr_argc : Z;
  addr_argv : Z }.

Definition newline : string := String (Ascii.ascii_of_nat 10) EmptyString.

Section shell.
Context {E : Type} {os : OS E} {lay : ProgramLayout} (fuel : nat).

(** The variable arguments of a call; the formats of the shell read no more
    than are there. *)
Definition va (l : list Z) (i : nat) : Z := nth i l 0.
Definition sprintf (fmt : string) (args : list Z) : M (ustate E) Z := printf fuel (lit fmt) printf_buf (va args).

Fixpoint wait_loop (n : nat) (pid : Z) : M (ustate E) unit :=
  match n with
  | O => spin
  | S n => r ← waitpid pid; if negb (i32 r =? 0) then wait_loop n pid else mret tt
  end.
Definition wait_pid_blocking (pid : Z) : M (ustate E) unit := wait_loop fuel pid.

(** The loop of the command [tok]. *)
Fixpoint tok_loop (n : nat) (token : Z) : M (ustate E) unit :=
  match n with
  | O => spin
  | S n =>
    if negb (token =? 0) then
      sprintf ("%s" +:+ newline) [token];;
      token ← strtok fuel 0 (lit " ");
      tok_loop n token
    else mret tt
  end.

(** The loop over [argv] of the command [info args]. *)
Fixpoint argv_loop (n : nat) (argc argv i : Z) : M (ustate E) unit :=
  match n with
  | O => mret tt
  | S n =>
    if i <? argc then
      m ← gets u_mem;
      sprintf ("argv[%d]:  %s" +:+ newline) [i; rd32 m (u32 (argv + 4 * i))];;
      argv_loop n argc argv (i + 1)
    else mret tt
  end.

(** The loop that counts the arguments and their length. *)
Fixpoint args_loop (n : nat) (tmp argc len : Z) : M (ustate E) (Z * Z) :=
  match n with
  | O => spin
  | S n =>
    if negb (tmp =? 0) then
      k ← ustrlen fuel tmp;
      tmp ← strtok fuel 0 (lit " ");
      args_loop n tmp (argc + 1) (len + (k + 1))
    else mret (argc, len)
  end.

(** The process is started and waited for. *)
Definition launch (token argc len : Z) : M (ustate E) unit :=
  res ← create_proccess shell_path argc len shell_buf;
  let res := i32 res in
  if res <? 0 then sprintf ("Command not found: %s" +:+ newline) [token];; mret tt
  else wait_pid_blocking res.

(** The last branch: the line is a command and its arguments. *)
Definition start_command : M (ustate E) unit :=
  token ← strtok fuel shell_buf (lit " ");
  k ← ustrlen fuel token;
  tmp ← strtok fuel 0 (lit " ");
  '(argc, len) ← args_loop fuel tmp 1 (k + 1);
  lift_opt (fun m => (fun m => (tt, m)) <$> str_to_lower fuel token m);;
  on_mem (memset shell_path 0 128);;
  lift_opt (Ustring.strcpy fuel shell_path (lit "0:/"));;
  lift_opt (fun m => Some (Ustring.strncpy (u32 (shell_path + 3)) token 120 m));;
  launch token argc len.

(** What is done with a line in the buffer. *)
Definition run_line (argc argv : Z) : M (ustate E) unit :=
  k ← ustrlen fuel shell_buf;
  if k =? 0 then mret tt
  else
    m ← gets u_mem;
    if Ustring.istrncmp m shell_buf (lit "clear") 5 =? 0 then cls
    else if Ustring.istrncmp m shell_buf (lit "tok") 3 =? 0 then
      token ← strtok fuel shell_buf (lit " ");
      k ← ustrlen fuel token;
      sprintf ("Token: %s, length=%d" +:+ newline) [token; k];;
      tok_loop fuel token
    else if Ustring.istrncmp m shell_buf (lit "info args") 9 =? 0 then
      sprintf ("&argc: %p" +:+ newline) [addr_argc];;
      sprintf ("&argv: %p" +:+ newline) [addr_argv];;
      sprintf ("argc: %d" +:+ newline) [argc];;
      sprintf ("argv: %p" +:+ newline) [argv];;
      argv_loop (Z.to_nat argc) argc argv 0
    else if Ustring.istrncmp m shell_buf (lit "showmt") 6 =? 0 then
      cls;;
      sprintf ("Showing multi tasking capabilities: Launching two procs that print to screen counting upwards" +:+ newline) [];;
      p1 ← create_proccess (lit "0:/blank") 2 16 lit_showmt_args;
      p2 ← create_proccess (lit "0:/blank") 2 16 lit_showmt_args;
      (if 0 <=? i32 p1 then wait_pid_blocking (i32 p1) else mret tt);;
      (if 0 <=? i32 p2 then wait_pid_blocking (i32 p2) else mret tt)
    else start_command.

(** The body of the loop of [shell]. *)
Definition shell_line (argc argv : Z) : M (ustate E) unit :=
  print (lit "> ") 10;;
  readline_terminal fuel shell_buf 100;;
  run_line argc argv.

Fixpoint shell_loop (n : nat) (argc argv : Z) : M (ustate E) unit :=
  match n with
  | O => spin
  | S n => shell_line argc argv;; shell_loop n argc argv
  end.

Definition shell (argc argv : Z) : M (ustate E) unit :=
  sprintf ("Welcome to AmogOS, Sussy Baka" +:+ newline) [];;
  shell_loop fuel argc argv.

(** [shell] does not return. *)
Definition shell_main (argc argv : Z) : M (ustate E) Z := shell argc argv;; spin.
End shell.
