(* ===== verification/ShellCommand.v ===== *)
(** * A command line becomes a process

    The shell cuts the line in place, so that the buffer it read becomes the
    buffer of arguments of the new process, in the form in which
    process_add_arguments takes it. *)
From Stdlib Require Import ZArith Lia String.
From stdpp Require Import base numbers gmap list strings.
From S2P Require Import Prelude Memory Ustring Strings Machine UserLib UserHeap UserText Shell.
Local Open Scope Z_scope.

(** Words joined by single blanks. *)
Fixpoint unwords (ws : list (list Z)) : list Z :=
  match ws with
  | [] => []
  | w :: ws => w ++ match ws with [] => [] | _ => 32 :: unwords ws end
  end.

Definition word (w : list Z) : Prop := w <> [] /\ Forall (.∉ [32]) w.

Lemma unwords_cut w ws : word w ->
  cut [32] [] w (match ws with [] => [] | _ => 32 :: unwords ws end).
Proof.
  intros [H1 H2]. split; [done | done | done |]. destruct ws as [|v vs]; [done|]. intros c l [= <- _]. by left.
Qed.

Lemma unwords_length w ws :
  Z.of_nat (length (unwords (w :: ws))) = Z.of_nat (length w) + match ws with [] => 0 | _ => 1 + Z.of_nat (length (unwords ws)) end.
Proof. cbn [unwords]. rewrite length_app. destruct ws; cbn [length]; lia. Qed.

Lemma unwords_count ws : Forall word ws -> (length ws <= length (unwords ws))%nat.
Proof.
  induction 1 as [|w ws [Hw _] _ IH]; [done|]. pose proof (unwords_length w ws). destruct w; [done|].
  destruct ws; cbn [length] in *; lia.
Qed.

Lemma args_len_unwords ws : ws <> [] -> args_len ws = Z.of_nat (length (unwords ws)) + 1.
Proof.
  induction ws as [|w ws IH]; [done|]. intros _. rewrite unwords_length. cbn [args_len].
  destruct ws as [|w' ws]; [cbn; lia|]. rewrite IH by done. lia.
Qed.

Lemma str_to_lower_loop_spec l : forall fuel str i m,
  cstr m (str + i) l -> (length l < fuel)%nat ->
  exists m', str_to_lower_loop fuel str i m = Some m' /\ cstr m' (str + i) (to_lower <$> l) /\
  forall a, a < str + i \/ str + i + Z.of_nat (length l) <= a -> rd8 m' a = rd8 m a.
Proof.
  induction l as [|c l IH]; intros [|fuel] str i m H Hf; cbn [length] in *; try lia;
    pose proof (cstr_head _ _ _ H) as Hh; cbn [head default id] in Hh; cbn [str_to_lower_loop]; rewrite Hh; [by exists m|].
  pose proof H as (H0 & H1 & _). cbn [length] in H1. apply cstr_cons in H as (_ & Hz & Hc & Hl).
  rewrite (proj2 (Z.eqb_neq c 0) Hz), u32_small by lia. cbn [negb].
  destruct (IH fuel str (i + 1) (wr8 m (str + i) (to_lower c))) as (m' & E & C & F); [|lia|].
  { rewrite Z.add_assoc. revert Hl. apply cstr_ext. intros. apply rd8_wr8_ne. lia. }
  exists m'. split_and!; [done | | intros a Ha; rewrite F by lia; apply rd8_wr8_ne; lia].
  rewrite Z.add_assoc in C. cbn [fmap list_fmap]. apply cstr_cons. split_and!; [done | | | done].
  - intros Hl0. by apply Hz, to_lower_zero.
  - unfold rdc. rewrite F, rd8_wr8_eq, i8_u8 by lia. pose proof (rd8_range m (str + i)) as Hr.
    rewrite <- Hc. unfold to_lower, rdc, i8. repeat case_test; cbn; zlia.
Qed.

Section command.
Context {E : Type} {os : OS E} {lay : ProgramLayout} (fuel : nat).

(** A line that begins with the name of a built-in command, in any letter
    case, whatever follows the name. *)
Definition builtins : list string := ["clear"; "tok"; "info args"; "showmt"]%string.
Definition starts_with (cmd line : list Z) : bool := bool_decide (take (length cmd) (to_lower <$> line) = cmd).
Definition builtin_command (line : list Z) : bool := existsb (fun c => starts_with (chars c) line) builtins.

(** The literals that the shell uses for a command are in memory, and those
    that it reads after the first write and the two arrays are apart. *)
Record shell_placed (m : ram) : Prop := {
  sl_blank : cstr m (lit " ") [32];
  sl_prefix : cstr m (lit "0:/") (chars "0:/");
  sl_buf : 0 < shell_buf /\ shell_buf + 1024 <= 4294967296;
  sl_path : 0 <= shell_path /\ shell_path + 128 <= 4294967296;
  sl_blank_buf : apart (lit " ") 2 shell_buf 1024;
  sl_prefix_buf : apart (lit "0:/") 4 shell_buf 1024;
  sl_prefix_path : apart (lit "0:/") 4 shell_path 128;
  sl_path_buf : apart shell_path 128 shell_buf 1024;
  sl_builtins : Forall (fun c => cstr m (lit c) (chars c)) builtins }.

(** A line that is no built-in command and not empty is started as a process. *)
Lemma run_line_starts (u : ustate E) line argc argv :
  cstr (u_mem u) shell_buf line -> line <> [] -> (length line < fuel)%nat ->
  Forall (fun c => cstr (u_mem u) (lit c) (chars c)) builtins -> builtin_command line = false ->
  run_line fuel argc argv u = start_command fuel u.
Proof.
  intros Hl Hne Hf Hb Hn. unfold run_line. erewrite bind_run.
  2: { unfold ustrlen, lift_opt, Ustring.strlen. by rewrite (strlen_cstr _ _ _ _ Hl) by lia. }
  destruct line as [|c line]; [done|]. rewrite (proj2 (Z.eqb_neq _ 0)) by (cbn [length]; lia).
  cbv iota. erewrite bind_run by reflexivity. unfold builtins in Hb. rewrite !Forall_cons in Hb.
  destruct Hb as (H1 & H2 & H3 & H4 & _). cbn [existsb builtin_command builtins] in Hn.
  rewrite !orb_false_iff in Hn. destruct Hn as (N1 & N2 & N3 & N4 & _). unfold starts_with in *.
  apply bool_decide_eq_false in N1, N2, N3, N4. unfold Ustring.istrncmp.
  assert (D : forall cmd n, cstr (u_mem u) (lit cmd) (chars cmd) -> n = Z.of_nat (length (chars cmd)) ->
      to_lower <$> chars cmd = chars cmd -> take (length (chars cmd)) (to_lower <$> c :: line) <> chars cmd ->
      (istrncmp (u_mem u) shell_buf (lit cmd) n =? 0) = false).
  { intros cmd n Hc -> Hlow Hd. apply Z.eqb_neq. rewrite (istrncmp_zero _ _ _ _ _ _ Hl Hc) by lia.
    rewrite Hlow, Nat2Z.id, (take_ge (chars cmd)) by lia. done. }
  by rewrite (D "clear"%string), (D "tok"%string), (D "info args"%string), (D "showmt"%string).
Qed.

(** A call of strtok at the first of the words that are left. *)
Lemma strtok_word (u : ustate E) str p w ws :
  word w -> cstr (u_mem u) (lit " ") [32] -> cstr (u_mem u) p (unwords (w :: ws)) -> 0 < p ->
  (length (unwords (w :: ws)) < fuel)%nat -> (1 < fuel)%nat ->
  (str = p /\ sp u = 0 \/ str = 0 /\ sp u = p) ->
  exists sp' m', strtok fuel str (lit " ") u = Ret p (set_sp sp' (set_mem m' u)) /\
    cstr m' p w /\ cstr m' sp' (unwords ws) /\ p < sp' /\ (ws <> [] -> sp' = p + Z.of_nat (length w) + 1) /\
    sp' + Z.of_nat (length (unwords ws)) = p + Z.of_nat (length (unwords (w :: ws))) /\
    forall a, a < p \/ sp' <= a -> rd8 m' a = rd8 (u_mem u) a.
Proof.
  intros Hw Hd Hl Hp Hf Hf' Hsp.
  pose proof (strtok_call _ _ (u_mem u) _ _ _ fuel str (sp u) p (unwords_cut w ws Hw) Hd Hl Hp Hf' Hf Hsp) as H.
  rewrite decide_False in H by apply Hw. destruct H as (sp' & m' & E1 & [T1 T2 T3 T4 T5]).
  change ([] ++ w ++ _) with (unwords (w :: ws)) in *. rewrite Z.add_0_r in *. exists sp', m'. unfold strtok. rewrite E1.
  assert (Et : tail (match ws with [] => [] | _ => 32 :: unwords ws end) = unwords ws) by (by destruct ws).
  rewrite Et in *. split_and!; try done; try lia.
  - destruct w; [by destruct Hw|]. cbn [length] in T3. lia.
  - intros Hne. rewrite unwords_length in T3. destruct ws; [done | lia].
Qed.

(** The calls on NULL and the count of the arguments. *)
Lemma args_collect ws : forall n (u : ustate E) p argc len,
  Forall word ws -> cstr (u_mem u) (lit " ") [32] -> cstr (u_mem u) p (unwords ws) -> 0 < p -> sp u = p ->
  (length (unwords ws) < fuel)%nat -> (1 < fuel)%nat -> (length ws < n)%nat ->
  apart (lit " ") 2 p (Z.of_nat (length (unwords ws))) ->
  exists m', (tmp ← strtok fuel 0 (lit " "); args_loop fuel n tmp argc len) u =
      Ret (argc + Z.of_nat (length ws), len + args_len ws) (set_sp 0 (set_mem m' u)) /\ args_at m' p ws /\
    forall a, a < p \/ p + Z.of_nat (length (unwords ws)) <= a -> rd8 m' a = rd8 (u_mem u) a.
Proof.
  induction ws as [|w ws IH]; intros [|n] u p argc len Hw Hd Hl Hp Hsp Hf Hf' Hn Ha; try (cbn [length] in Hn; lia).
  - exists (u_mem u). assert (C : cut [32] [] [] []) by done.
    pose proof (strtok_call (lit " ") [32] (u_mem u) [] [] [] fuel 0 (sp u) p C Hd Hl Hp Hf' Hf ltac:(by right)) as H.
    rewrite decide_True in H by done. erewrite bind_run by (unfold strtok; by rewrite H).
    cbn. by rewrite !Z.add_0_r.
  - apply Forall_cons in Hw as [Hw Hws].
    destruct (strtok_word u 0 p w ws Hw Hd Hl Hp Hf Hf' ltac:(by right)) as (sp' & m1 & E1 & C1 & C2 & H1 & H2 & H3 & F1).
    erewrite bind_run by exact E1. cbn [args_loop]. rewrite (proj2 (Z.eqb_neq p 0)) by lia. cbn [negb].
    erewrite bind_run.
    2: { unfold ustrlen, lift_opt, Ustring.strlen. cbn [u_mem set_sp set_mem]. rewrite (strlen_cstr _ _ _ _ C1); [done|].
         rewrite unwords_length in *. pose proof (unwords_length w ws). destruct ws; lia. }
    assert (Hlen := unwords_length w ws).
    destruct (IH n (set_sp sp' (set_mem m1 u)) sp' (argc + 1) (len + (Z.of_nat (length w) + 1)) Hws) as (m2 & E2 & A2 & F2);
      cbn [u_mem sp set_sp set_mem]; try done; try lia; try (cbn [length] in Hn; lia).
    { eapply cstr_ext; [|exact Hd]. intros a Hx. apply F1. unfold apart in Ha. cbn [length] in Hx. lia. }
    { unfold apart in *. lia. }
    exists m2. split_and!.
    + etransitivity; [exact E2|]. cbn [length args_len]. do 2 f_equal; lia.
    + split.
      * eapply cstr_ext; [|exact C1]. intros a Hx. apply F2. destruct ws; [cbn; lia | rewrite H2 in * by done; lia].
      * destruct ws; [done|]. by rewrite <- H2.
    + cbn [u_mem set_sp set_mem] in F2. intros a Hx. rewrite F2 by lia. apply F1. lia.
Qed.
(** The line is cut in place and its words are counted, whatever follows. *)
Lemma line_cut (u : ustate E) w ws (K : Z -> Z -> Z -> M (ustate E) unit) :
  Forall word (w :: ws) -> cstr (u_mem u) shell_buf (unwords (w :: ws)) -> (length (unwords (w :: ws)) <= 100)%nat ->
  shell_placed (u_mem u) -> sp u = 0 -> (100 < fuel)%nat ->
  exists m', (token ← strtok fuel shell_buf (lit " ");
              k ← ustrlen fuel token;
              tmp ← strtok fuel 0 (lit " ");
              '(argc, len) ← args_loop fuel fuel tmp 1 (k + 1);
              K token argc len) u =
      K shell_buf (Z.of_nat (length (w :: ws))) (args_len (w :: ws)) (set_sp 0 (set_mem m' u)) /\
    args_at m' shell_buf (w :: ws) /\
    forall a, a < shell_buf \/ shell_buf + 1024 <= a -> rd8 m' a = rd8 (u_mem u) a.
Proof.
  intros [Hw Hws]%Forall_cons Hline Hlen [S1 _ S3 _ S5 _ _ _ _] Hsp Hf. unfold apart in *.
  pose proof (unwords_length w ws) as Hul. assert (Hwl : (length w <= 100)%nat) by (destruct ws; lia).
  destruct (strtok_word u shell_buf shell_buf w ws) as (sp1 & m1 & E1 & C1 & D1 & P1 & P2 & P3 & F1); first [done | lia | by left | idtac].
  assert (Hws' : (length ws < fuel)%nat) by (pose proof (unwords_count ws Hws); destruct ws; cbn [length] in *; lia).
  destruct (args_collect ws fuel (set_sp sp1 (set_mem m1 u)) sp1 1 (Z.of_nat (length w) + 1) Hws) as (m2 & E2 & A2 & F2);
    cbn [u_mem sp set_sp set_mem] in *; try done; try lia.
  { eapply cstr_ext; [|exact S1]. intros a Hx. apply F1. cbn [length] in Hx. lia. }
  { unfold apart. lia. }
  exists m2. split_and!.
  - erewrite bind_run by exact E1. erewrite bind_run.
    2: { unfold ustrlen, lift_opt, Ustring.strlen. cbn [u_mem set_sp set_mem]. rewrite (strlen_cstr _ _ _ _ C1); [done | lia]. }
    rewrite bind_assoc. erewrite bind_run by exact E2. cbv beta iota. cbn [length args_len].
    replace (1 + Z.of_nat (length ws)) with (Z.of_nat (S (length ws))) by lia. done.
  - split.
    + eapply cstr_ext; [|exact C1]. intros a Hx. apply F2. destruct ws; [cbn; lia | rewrite P2 in * by done; lia].
    + destruct ws; [done|]. by rewrite <- P2.
  - intros a Hx. rewrite F2 by lia. apply F1. lia.
Qed.

(** The path of the program is built from the first word. *)
Lemma path_built m token w :
  cstr m (lit "0:/") (chars "0:/") /\ apart (lit "0:/") 4 shell_path 128 /\ 0 <= shell_path /\ shell_path + 128 <= 4294967296 ->
  cstr m token w -> apart token (Z.of_nat (length w) + 1) shell_path 128 ->
  (length w < 120)%nat -> (3 < fuel)%nat ->
  exists m2, Strings.strcpy fuel shell_path (lit "0:/") (memset shell_path 0 128 m) = Some m2 /\
    let m3 := Strings.strncpy (u32 (shell_path + 3)) token 120 m2 in
    cstr m3 shell_path (chars "0:/" ++ w) /\
    forall a, a < shell_path \/ shell_path + 128 <= a -> rd8 m3 a = rd8 m a.
Proof.
  intros (Hpre & Hpp & Hpath) Ht Ha Hw Hf. unfold apart in *. change (length (chars "0:/")) with 3%nat in *.
  destruct (strcpy_cstr (memset shell_path 0 128 m) shell_path (lit "0:/") (chars "0:/") fuel) as (m2 & E2 & C2 & F2);
    change (length (chars "0:/")) with 3%nat in *; try lia.
  { eapply cstr_ext; [|exact Hpre]. intros a Hx. apply rd8_memset_out; change (length (chars "0:/")) with 3%nat in *; lia. }
  assert (F2' : forall a, a < shell_path \/ shell_path + 128 <= a -> rd8 m2 a = rd8 m a)
    by (intros a Hx; rewrite F2 by lia; apply rd8_memset_out; lia).
  exists m2. split; [done|]. cbv zeta. rewrite u32_small by lia.
  destruct (strncpy_cstr m2 (shell_path + 3) token w 120) as [C3 F3]; try lia.
  { eapply cstr_ext; [|exact Ht]. intros a Hx. apply F2'. lia. }
  rewrite take_ge in C3 by lia. split.
  - destruct (cstr_char _ _ _ 0 C2) as (c0 & [= <-] & _ & R0); [cbn; lia|].
    destruct (cstr_char _ _ _ 1 C2) as (c1 & [= <-] & _ & R1); [cbn; lia|].
    destruct (cstr_char _ _ _ 2 C2) as (c2 & [= <-] & _ & R2); [cbn; lia|].
    change (chars "0:/" ++ w) with (48 :: 58 :: 47 :: w). rewrite !cstr_cons.
    replace (shell_path + 1 + 1 + 1) with (shell_path + 3) by lia. replace (shell_path + 1 + 1) with (shell_path + 2) by lia.
    rewrite Z.add_0_r in R0. unfold rdc in *. rewrite !F3 by lia. split_and!; done || lia.
  - intros a Hx. rewrite F3 by lia. by apply F2'.
Qed.

(** C21: a line of words separated by single blanks, at most 100 characters
    long, that does not begin with the name of a built-in command (clear, tok,
    info args or showmt in any letter case).  What the shell does with it is to
    make the system call for a process with the path of the first word, in
    lower case, on drive 0, the number of the words, the total length of the
    words with a terminator each, and the buffer, in this order; the buffer then
    holds the words as terminated strings one after the other, of exactly that
    length, which is what the kernel's process_add_arguments takes.  No call
    was made before it, and the search position of strtok is NULL again for the
    next line.  On a negative answer the shell prints the message
    with the name, else it waits for the process of the answer. *)
Theorem shell_passes_arguments (u : ustate E) (w : list Z) (ws : list (list Z)) (argc argv : Z)
    (Hw : Forall word (w :: ws)) (Hline : cstr (u_mem u) shell_buf (unwords (w :: ws)))
    (Hb : builtin_command (unwords (w :: ws)) = false)
    (Hlen : (length (unwords (w :: ws)) <= 100)%nat) (HS : shell_placed (u_mem u)) (Hsp : sp u = 0)
    (Hf : (100 < fuel)%nat) :
  exists u', sp u' = 0 /\
    cstr (u_mem u') shell_path (chars "0:/" ++ (to_lower <$> w)) /\
    args_at (u_mem u') shell_buf ((to_lower <$> w) :: ws) /\
    forall r e, sys_create_proccess (u_mem u') shell_path (Z.of_nat (length (w :: ws))) (args_len (w :: ws)) shell_buf (u_env u) = (r, e) ->
      run_line fuel argc argv u =
      (if i32 r <? 0 then sprintf fuel ("Command not found: %s" +:+ newline) [shell_buf];; mret tt
       else wait_pid_blocking fuel (i32 r)) (set_env e u').
Proof.
  pose proof HS as [S1 S2 S3 S4 S5 S6 S7 S8 S9]. unfold apart in *.
  pose proof (args_len_unwords (w :: ws) ltac:(done)) as Hal. pose proof (args_len_nonneg ws).
  assert (Hne : unwords (w :: ws) <> []).
  { apply Forall_cons in Hw as [ [Hw _] _]. cbn [unwords]. by destruct w. }
  rewrite (run_line_starts u (unwords (w :: ws))) by (done || lia).
  edestruct line_cut as (m2 & E2 & [C2 A2] & F2); try done. unfold start_command. rewrite E2. clear E2.
  cbn [args_len] in Hal.
  destruct (str_to_lower_loop_spec w fuel shell_buf 0 m2) as (m3 & E3 & C3 & F3); [by rewrite Z.add_0_r | lia |].
  rewrite Z.add_0_r in *.
  assert (A3 : args_at m3 shell_buf ((to_lower <$> w) :: ws)).
  { split; [done|]. rewrite length_fmap. apply (args_at_ext m2); [|lia | lia | done]. intros a Hx. apply F3. lia. }
  assert (S3' : cstr m3 (lit "0:/") (chars "0:/")).
  { eapply cstr_ext; try eassumption; intros a Hx; (rewrite F3; [apply F2|]); cbn in Hx; lia. }
  destruct (path_built m3 shell_buf (to_lower <$> w) ltac:(done) C3) as (m4 & E4 & C5 & F5);
    rewrite ?length_fmap; unfold apart; try lia.
  erewrite bind_run by (unfold lift_opt, str_to_lower; cbn [u_mem set_sp set_mem]; by rewrite E3).
  erewrite bind_run by done. erewrite bind_run by (unfold lift_opt, Ustring.strcpy; cbn [u_mem set_sp set_mem]; by rewrite E4).
  erewrite bind_run by done. exists (set_mem (strncpy (u32 (shell_path + 3)) shell_buf 120 m4) (set_sp 0 u)). split_and!; [reflexivity | exact C5 | |].
  - apply (args_at_ext m3); [|lia | | done]; cbn [args_len u_mem set_mem]; rewrite length_fmap; [intros a Hx; apply F5; lia | lia].
  - intros r e He. unfold launch. erewrite bind_run; [reflexivity|]. unfold create_proccess, call.
    cbn [u_env u_mem set_mem set_sp] in *. by rewrite He.
Qed.
End command.

(** The line ["LS -l"]. *)
#[local] Instance shell_example : ProgramLayout := {|
  lit s := if decide (s = " ") then 0x1000 else if decide (s = "0:/") then 0x1010 else if decide (s = "clear") then 0x1020
           else if decide (s = "tok") then 0x1030 else if decide (s = "info args") then 0x1040
           else if decide (s = "showmt") then 0x1050 else 0x1100;
  lit_showmt_args := 0x1200; shell_buf := 0x2000; shell_path := 0x3000; printf_buf := 0x4000;
  addr_argc := 0x5000; addr_argv := 0x5004 |}.
Definition command_ram : ram :=
  foldr (fun s m => put_string (chars s) (lit s) m) (put_string (chars "LS -l") 0x2000 ∅) (" " :: "0:/" :: builtins)%string.
Definition command : ustate terminal := mk_user command_ram HEAP_TOP HEAP_TOP 0 (mk_terminal [] [] []).

(** A string in a concrete memory, by evaluation. *)
Fixpoint cstrb (m : ram) (p : Z) (l : list Z) : bool :=
  match l with
  | [] => (0 <=? p) && (p <? 4294967296) && (rdc m p =? 0)
  | c :: l => (0 <=? p) && negb (c =? 0) && (rdc m p =? c) && cstrb m (p + 1) l
  end.

Lemma cstrb_cstr m l : forall p, cstrb m p l = true -> cstr m p l.
Proof.
  induction l as [|c l IH]; intros p H; cbn [cstrb] in H; rewrite !andb_true_iff in H.
  - destruct H as [ [H1 H2] H3]. apply Z.eqb_eq in H3. split_and!; cbn [length]; rewrite ?Z.add_0_r; (done || lia).
  - destruct H as [ [ [H1 H2] H3] H4]. apply Z.eqb_eq in H3. apply negb_true_iff, Z.eqb_neq in H2.
    apply cstr_cons. split_and!; [lia | done | done | by apply IH].
Qed.

Lemma command_placed : shell_placed command_ram /\ cstr command_ram 0x2000 (chars "LS -l").
Proof.
  split; [|by apply cstrb_cstr; vm_compute]. split; try (by apply cstrb_cstr; vm_compute).
  all: change (lit " ") with 0x1000; change (lit "0:/") with 0x1010; cbn [shell_buf shell_path shell_example]; unfold apart; try lia.
  unfold builtins. rewrite !Forall_cons. split_and!; [by apply cstrb_cstr; vm_compute.. | done].
Qed.

Lemma shell_passes_arguments_witness :
  exists u', args_at (u_mem u') 0x2000 [chars "ls"; chars "-l"] /\ cstr (u_mem u') 0x3000 (chars "0:/ls") /\
    forall r e, sys_create_proccess (u_mem u') 0x3000 2 6 0x2000 (u_env command) = (r, e) ->
      run_line 101 0 0 command =
      (if i32 r <? 0 then sprintf 101 ("Command not found: %s" +:+ newline) [0x2000];; mret tt
       else wait_pid_blocking 101 (i32 r)) (set_env e u').
Proof.
  destruct command_placed as [HS HL].
  destruct (shell_passes_arguments 101 command (chars "LS") [chars "-l"] 0 0) as (u' & _ & E2 & E3 & E4).
  - repeat constructor; (done || by rewrite list_elem_of_singleton).
  - exact HL.
  - reflexivity.
  - cbn. lia.
  - exact HS.
  - reflexivity.
  - lia.
  - exists u'. split; [exact E3|]. split; [exact E2 | exact E4].
Defined.
