(* ===== verification/Blank.v ===== *)
(** * programs/blank: the second program

    Started with ["showmt"] it counts upwards and prints every thirty millionth
    number, which makes the switching of processes visible; otherwise it lists
    its arguments.  The function [screen], which nothing calls, is a loop that
    answers keys. *)
From Stdlib Require Import ZArith Lia String.
From stdpp Require Import base numbers gmap list strings.
From S2P Require Import Prelude Ustring Strings Machine UserLib Shell.
Local Open Scope Z_scope.

Section blank.
Context {E : Type} {os : OS E} {lay : ProgramLayout} (fuel : nat).

(** The loop that counts; [i] is an [int]. *)
Fixpoint count_loop (n : nat) (i : Z) : M (ustate E) Z :=
  match n with
  | O => spin
  | S n =>
    let i := i32 (i + 1) in
    (if Z.rem i 30000000 =? 0 then sprintf fuel ("i=%d" +:+ newline) [i];; mret tt else mret tt);;
    if (i <? 0) || (30000000 * 8 <? i) then mret 0 else count_loop n i
  end.

Definition main (argc argv : Z) : M (ustate E) Z :=
  m ← gets u_mem;
  if (2 <=? argc) && (Ustring.strncmp m (rd32 m (u32 (argv + 4))) (lit "showmt") 5 =? 0) then count_loop fuel 0
  else
    print (lit ("Greetings! you started blank.c and passed the args listed below" +:+ newline)) 100;;
    sprintf fuel ("&argc: %p" +:+ newline) [addr_argc];;
    sprintf fuel ("&argv: %p" +:+ newline) [addr_argv];;
    sprintf fuel ("argc: %d" +:+ newline) [argc];;
    sprintf fuel ("argv: %p" +:+ newline) [argv];;
    argv_loop fuel (Z.to_nat argc) argc argv 0;;
    mret 0.

(** ** The keys of [screen] *)

(** [for (int i = 0; i < 28; i++)] of the answer to ['M']. *)
Fixpoint letters_loop (n : nat) (ptr i : Z) : M (ustate E) unit :=
  match n with
  | O => mret tt
  | S n =>
    on_mem (fun m => wr8 m (u32 (ptr + i)) (97 + i));;
    (if i =? 27 then on_mem (fun m => wr8 m (u32 (ptr + i)) 0) else mret tt);;
    letters_loop n ptr (i + 1)
  end.

Definition screen_malloc : M (ustate E) unit :=
  ptr ← malloc 28;
  if ptr =? 0 then print (lit ("malloc failed" +:+ newline)) 100
  else
    print (lit ("malloc success" +:+ newline)) 100;;
    letters_loop 28 ptr 0;;
    print ptr 100;;
    put_char 10.

(** [buf] and [buf2] are the local arrays of 12 bytes. *)
Definition screen_itoa (buf buf2 : Z) : M (ustate E) unit :=
  on_mem (itoa 123456789 buf);;
  print buf 100;;
  print (lit "19891213") 100;;
  x ← gets (fun u => atoi (lit "19891213") (u_mem u));
  on_mem (itoa x buf2);;
  put_char 10;;
  print buf2 100;;
  put_char 10.

(** One turn of the loop.  ['P'] writes to memory of the kernel: a page
    fault. *)
Definition screen_key (buf buf2 : Z) : M (ustate E) unit :=
  c ← get_key;
  if c =? 0 then mret tt
  else
    put_char c;;
    (if c =? 77 then screen_malloc else mret tt);;
    (if c =? 80 then (fun u => Panic "page fault" u) else mret tt);;
    (if c =? 73 then screen_itoa buf buf2 else mret tt).

Fixpoint screen_loop (n : nat) (buf buf2 : Z) : M (ustate E) unit :=
  match n with
  | O => spin
  | S n => screen_key buf buf2;; screen_loop n buf buf2
  end.

Definition screen (buf buf2 : Z) : M (ustate E) unit :=
  sprintf fuel ("Yo %d" +:+ newline) [123];;
  screen_loop fuel buf buf2.
End blank.
